(* ===== verification/_CoqProject ===== *)
-Q . S2P
Prelude.v
Lists.v
ListSort.v
HList.v
State.v
Channel.v
PagePool.v
Init.v
AllocPolicies.v
PoolSpec.v
Swap.v
Eviction.v
Swappers.v
Checker.v
Hashes.v
HashMap.v
HashMapSpec.v
Daemon.v
Config.v
Startup.v
Events.v
Sched.v
IUThreads.v
Timings.v
Uintr.v
UserFaults.v
Experiments.v
KernelModule.v
Tagger.v
Waker.v
WakerUintr.v
Wakeup.v
