(* ===== verification/Prelude.v ===== *)
(** * A verification of USM

    The daemon (page-fault-timings/variants/usm/daemon) manages the memory of other
    processes from user space. A patched kernel hands it page faults through pages
    that it shares with every faulting thread; the daemon picks a page of its pool,
    or evicts one to a swap file, and submits the frame number to the kernel. This
    library models the C code of the daemon as computations on an explicit state
    and proves what it does, faults included.

    ** The program

    - lists: include/usm/list.h, used by everything below;
    - the shared page of a thread and the channels: include/com/event.h, com.h,
      impl/com/com.c and the helpers of include/usm/usm.h;
    - the page pool and the allocation policies:
      examples/project-2/alloc/src/policiesSet1.c;
    - swap devices, eviction and swap-in: include/policies/evict, impl/policies/evict
      and examples/project-2/evict/src/policiesSet1.c;
    - the hash table and its hash functions: impl/usm/hashmap.c;
    - the start, the tables of policies and the configuration file: impl/usm/usm.c;
    - the events: impl/com/event.c and the receivers of impl/com/com.c;
    - the scheduler of user threads: impl/usm/sched.c;
    - the waker, a process that signals sleeping workers: impl/com/waker.c;
    - the kernel module behind the files /proc/usm*: ../module/usm_lkmRM.c;
    - the library that links a program to the daemon: ../usmTagger.c;
    - the program that measures faults under the daemon and other systems:
      page-fault-timings/collect-page-fault-timings.c;
    - the experiment with user interrupt vectors:
      uintr-vector-experiments/run-uintr-vector-experiment.c;
    - the tests of the user fault extension: pkgs/test-user-faults/test-user-faults.c;
    - four small programs that measure or prepare the handling of faults:
      user-interrupt-timings/test.c, sigsegv-microbenchmark/sigsegv.c,
      pkgs/simple-mmap-test/simple-mmap-test.c and swapon-sync.c.

    A worker (scheduler) finds the bit of a channel in the field that the kernel
    shares with it and runs the user thread of the channel; its handler
    (usm_handle_mem) reads the event from the shared page and calls
    usm_handle_events, which dispatches to the policies of the process; a policy
    takes a page from the pool and submits it through the channel. The module
    owns the frames of the pool and the queue of workers that the waker watches.

    ** The files

    - Prelude: machine integers, the monad [M] of C computations with undefined
      behaviour, abort and fuel as results, its laws, tactics.
    - Lists: list.h on a heap of list heads; [lists h m] says that the heap holds
      disjoint circular lists [m].
    - ListSort: list_sort.c, the merge sort of these lists, link by link.
    - HList: the lists with a single pointer head of list.h and what they refine.
    - State: the global variables of the daemon as the record [usm], the events,
      pages and process descriptors, with [loc] for the list heads.
    - Channel: the shared page as 4096 bytes; usm_mem_ret_ev, usm_mem_subm_ev,
      usm_mem_check, the preallocation slots, the channels over descriptors. The
      kernel is the class [Kernel]; [SubmitEvt] is what a policy knows of its
      channel, and usm_cnl_mem_ops is an instance for a kernel that answers.
    - PagePool, AllocPolicies, PoolSpec: policiesSet1.c, its invariant [pool], the
      functions on it and the machine on two queues that it refines.
    - Init: usm_init and policiesSet1_setup establish the invariant.
    - Swap, Eviction: swap nodes, swap_out, swap_in, handle_evict_request,
      basic_swap and the theorems on them.
    - Swappers: pages of dead processes, the emulated swap device of the build with SpEMUL, the
      threads and hooks of the policies that nothing starts, the release of the pool, and
      the functions in which policiesSet1BP.c differs.
    - Checker: boolean tests for the invariants on concrete states.
    - Hashes: SipHash-2-4, MurmurHash3 and xxHash as hashmap.c has them.
    - HashMap, HashMapSpec: the Robin Hood table and its refinement of a [gmap].
    - Daemon: [daemon], the core state with the tables, workers and channels;
      registration of policies.
    - Config: the parser of the configuration file and usm_launch.
    - Startup: usm_init and usm_launch with every call of the kernel and its failure,
      the channels and workers they set up, and the threads that setSched creates.
    - Events: the dispatch to policies, every case of usm_handle_events,
      usm_handle_mem, usm_handle_fd, usm_handle_evt_poll.
    - Sched: the main loops of setSched and soldiers, the user threads.
    - IUThreads: the build with IUTHREAD, in which a user thread manages one user
      thread per thread of the faulting process; usm_handle_mem_special.
    - Timings: the measuring program; its resources are a multiset, its calls the
      class [Os].
    - Uintr: the options, flags and run of the user interrupt experiment; the kernel
      and the clock are the class [UintrOs].
    - UserFaults: the tests of user faults on any processor and kernel, the class [Ufault].
    - Experiments: the four small programs; the kernel and the clock are the class [XOs].
    - KernelModule: the file operations of the module and its loading and unloading;
      [kstep] is any call of one of them.
    - Tagger: the constructor of usmTagger.c on the write operation of KernelModule.
    - Waker: mapper and the loop of the waker over the watch list; the file it polls
      and maps is the one of KernelModule.
    - WakerUintr: the waker and the start of a worker in the builds with user interrupts.
    - Wakeup: going to sleep and being signalled, one memory access per step, as
      interleavings of a worker, the kernel and the waker.

    ** What the theorems show

    - Serving faults: a fault announced by the kernel is served by one round of the
      scheduler (fault_served_in_a_round); the scheduler runs the pending user
      threads in order, forgets none and finishes them all
      (dispatch_runs_pending, setSched_keeps_handlers, faults_drain), except in the
      workers that are created later (soldiers_forget_handler). A manager serves the
      faults of its managees one per dispatch as long as none of them yields
      (manager_serves_bunch), and can forget one that yields (manager_forgets_managee).
    - The pool: faults and frees of used pages refine a machine on queues, no page is lost or
      duplicated, allocation and free are inverse (pool_refinement, pool_invariant,
      alloc_free_roundtrip, pick_give_back_roundtrip, start_establishes_pool,
      get_pages_prep_batch for at most 337 runs), and what breaks this
      (basic_alloc_keeps_one_page_too_many, basic_alloc_refused_underflows,
      basic_c_alloc_never_returns, event_to_page_wraps).
    - The channel: submit_protocol, mem_ret_ev_decodes, prealloc_slot_bounds.
    - Swap: the content of a page survives eviction, whatever is served and written in
      between, up to the fault on it in whichever frame is free then; and what happens on
      every error path (evict_fault_roundtrip, evict_swaps_out,
      swap_entry_roundtrip, swap_device_ready, evict_dead_page, evict_loses_page,
      evict_io_error_keeps_page, swap_in_refused_undefined,
      swap_in_leaves_dangling_records). The older eviction agrees with the compiled one on
      pages of live processes (evict_versions_agree); its hook stops the daemon
      (check_swap_out_bp_stops), and the emulated device loses frames
      (swap_out_emul_loses_frame, basic_swap_emul_undefined).
    - Events: the allocation handler without its goto, its behaviour on a full pool,
      threads and processes (handle_alloc_straight, full_pool_fault_evicts,
      swap_fault_full_pool_loses_content, new_thread_channel,
      reused_descriptor_keeps_policy).
    - Tables: the hash table is a finite map over up to 19660 operations and enumerates it, its
      hash function is SipHash, hashing stays in bounds (MurmurHash3 below 2^31 bytes), and what
      the start and the configuration store in the tables, with the two places at which a line
      "process" is undefined (hashmap_runs_as_map, hashmap_enumerates, sip_is_siphash,
      hashes_stay_in_data, setups_shadow_policyOne, process_line_binds).
    - Lists: list_sort sorts, is stable and touches nothing else (list_sort_stable); the
      other lists of list.h refine sequences (hlist_refinement).
    - The module and the waker: loading registers all or nothing and unloading gives
      everything back (module_load_unload); when malloc gives cleared memory workers are
      registered in order and signalled exactly when they sleep over events, and the list is
      broken when it does not (sleepers_registered_and_signalled);
      the faults of both (mmap_ignores_earlier_mappings, poll_pages_locks_out,
      unregister_never_returns). A tagged program is linked or stopped (tagger_links). With
      user interrupts the waker registers what the worker wrote, but wakes only the
      first worker (uintr_worker_linked, uintr_wakes_first_only), and its time server
      reads outside of the pages it has mapped (tserv_reads_outside_page).
    - Sleeping: whatever the interleaving, a worker that sleeps over an event is
      signalled (no_lost_wakeup), which fails for the older threads of com.c
      (local_waker_loses_wakeup, pop_loses_event).
    - Starting: the worker for freed pages is set up and never runs
      (free_pages_receiver_not_started).
    - Measuring: a run in which every fault is answered releases what it acquired, but for names
      after a failed strdup or with too many tracepoints, prints a table, and parses the
      numbers it prints (main_releases, do_iteration_table, numbers_parse_back); the
      interrupt experiment ends, cleans up and registers the flags of its options
      (ui_main_returns). The tests of user faults
      accept exactly the machines that deliver one fault for a read, whatever its code
      (uf_main_verdict); the loop over a mapping touches every page once
      (write_fault_pages_touches), the experiment with userfaultfd leaves its descriptor
      open (zeropage_main_leaks), and the one with signals returns if mprotect works
      (sigsegv_main_returns).

    ** Conventions

    C integers are [Z], wrapped with [u64], [u32], [u16], [s32] where C wraps. A loop
    without a structural bound takes fuel; where a theorem says that code returns,
    the fuel of the definition is shown to be enough: 33 rounds for a 32-bit field,
    one round per bucket for the hash table, one per list element for list loops,
    for the submission the time within which the kernel answers, and for the spinning
    of the interrupt experiment the number of readings until the clock is behind the end. An
    access of the measuring program that is never answered has the result of a loop without
    end. What malloc returns is a parameter where the code depends on it: the memory of a new
    node or channel, and the size of a block (Config, [usable]). Locks are
    left out: a function is run without interference, except where the kernel writes
    to the shared page ([kernel_page]), where user threads are swapped and in Wakeup.
    The build modelled is the first target of the Makefile, DEBUG and UTHREAD, in
    IUThreads the target iuthreadnouintr, in WakerUintr the targets uintr and uintrtimer and
    in Swappers the target spemul; messages and waits for a key are left out. A second lock of
    a mutex by the thread that holds it is a computation that does not return.

    ** Not modelled

    - The kernel patches (but for handle_page in KernelModule) and the instructions for user
      interrupts and user faults are not part of the repository's C code: they are parameters
      where the program meets them, and libufault.c, which consists of such instructions, is
      left out.
    - The test for MAP_FAILED in the case NEW_THREAD of event.c and the conscription of a new
      worker behind it: a mapping that failed is read before.
    - The installation of signal handlers, the handler of user interrupts, the time server
      with signals, the build FBASED, which has no target in the Makefile, and the
      registration of channels with IUTHREAD.
    - appendUSMChannel and appendUSMMemChannel, which nothing calls and whose lists of channels no
      longer exist; the functions of policiesSet1BP.c that are the same text as in the compiled
      file; the tests of hashmap.c behind HASHMAP_TEST.
    - Code that is commented out, which makes up most of the lines of sched.c, com.c, waker.c
      and the eviction policies that no definition is mapped to. *)
From stdpp Require Import prelude gmap.
From Stdlib Require Import ZArith Lia.

(** * Machine integers *)

(** The daemon is compiled for x86-64: [unsigned long], [size_t] and
    [uint64_t] are 64 bits wide, [unsigned int] 32 bits. Values are kept as
    [Z] and wrapped where the C expression wraps. *)
Definition u64 (x : Z) : Z := (x `mod` 2 ^ 64)%Z.
Definition u32 (x : Z) : Z := (x `mod` 2 ^ 32)%Z.
Definition u16 (x : Z) : Z := (x `mod` 2 ^ 16)%Z.

(** Conversion to a signed 32-bit [int]. *)
Definition s32 (x : Z) : Z :=
  let y := u32 x in if (y <? 2 ^ 31)%Z then y else (y - 2 ^ 32)%Z.

(** Testing one bit of a flags word. *)
Lemma land_pow2_eqb x k : (0 ≤ k)%Z →
  (Z.land x (2 ^ k) =? 0)%Z = negb (Z.testbit x k).
Proof.
  intros Hk. destruct (Z.eqb_spec (Z.land x (2 ^ k)) 0) as [E|E].
  - apply (f_equal (λ z, Z.testbit z k)) in E. cbv beta in E.
    rewrite Z.land_spec, Z.pow2_bits_true, andb_true_r, Z.bits_0 in E by done. by rewrite E.
  - destruct (Z.testbit x k) eqn:Hb; [done|]. destruct E.
    apply Z.bits_inj'. intros n Hn. rewrite Z.land_spec, Z.bits_0.
    rewrite Z.pow2_bits_eqb by done.
    destruct (Z.eqb_spec k n) as [<-|]; [by rewrite Hb|by rewrite andb_false_r].
Qed.

(** * The monad of C computations

    A computation over a state [S] ends with a value and a new state, with
    undefined behaviour ([Undef]: a dangling, null or poisoned pointer was
    dereferenced, an access was out of bounds), with [abort()] or [exit()]
    ([Abort]), or it has used up the fuel of a loop ([OutOfFuel]). *)
Inductive result (S A : Type) : Type :=
| Ok (a : A) (s : S)
| Undef
| Abort
| OutOfFuel.
Arguments Ok {S A} a s.
Arguments Undef {S A}.
Arguments Abort {S A}.
Arguments OutOfFuel {S A}.

Definition M (S A : Type) : Type := S → result S A.

Global Instance M_ret S : MRet (M S) := λ A a s, Ok a s.
Global Instance M_bind S : MBind (M S) := λ A B f m s,
  match m s with
  | Ok a s' => f a s'
  | Undef => Undef
  | Abort => Abort
  | OutOfFuel => OutOfFuel
  end.

Definition gets {S A} (f : S → A) : M S A := λ s, Ok (f s) s.
Definition modify {S} (f : S → S) : M S unit := λ s, Ok tt (f s).
Definition undef {S A} : M S A := λ _, Undef.
Definition abort {S A} : M S A := λ _, Abort.

(** A partial read: [None] is undefined behaviour. *)
Definition reads {S A} (f : S → option A) : M S A := λ s,
  match f s with Some a => Ok a s | None => Undef end.

(** A partial update: [None] is undefined behaviour. *)
Definition updates {S} (f : S → option S) : M S unit := λ s,
  match f s with Some s' => Ok tt s' | None => Undef end.

(** [while (1) { body }] with explicit fuel: the body returns [inl] to go on
    with a new value of the loop variables and [inr] to leave the loop. *)
Fixpoint loop {S A R} (fuel : nat) (body : A → M S (A + R)) (a : A) : M S R :=
  match fuel with
  | O => λ _, OutOfFuel
  | Datatypes.S n => r ← body a; match r with
                       | inl a' => loop n body a'
                       | inr x => mret x
                       end
  end.

(** ** Equations of the monad *)
Section monad_laws.
Context {S : Type}.

Lemma bind_ok {A B} (m : M S A) (f : A → M S B) s a s' :
  m s = Ok a s' → (m ≫= f) s = f a s'.
Proof. intros H. unfold mbind, M_bind. by rewrite H. Qed.

Lemma bind_undef {A B} (m : M S A) (f : A → M S B) s :
  m s = Undef → (m ≫= f) s = Undef.
Proof. intros H. unfold mbind, M_bind. by rewrite H. Qed.

Lemma ret_bind {A B} (a : A) (f : A → M S B) s : (mret a ≫= f) s = f a s.
Proof. done. Qed.

Lemma gets_bind {A B} (g : S → A) (f : A → M S B) s : (gets g ≫= f) s = f (g s) s.
Proof. done. Qed.

Lemma modify_bind {B} (g : S → S) (f : unit → M S B) s :
  (modify g ≫= f) s = f tt (g s).
Proof. done. Qed.

Lemma reads_bind {A B} (g : S → option A) (f : A → M S B) s a :
  g s = Some a → (reads g ≫= f) s = f a s.
Proof. intros H. unfold mbind, M_bind, reads. by rewrite H. Qed.

Lemma updates_bind {B} (g : S → option S) (f : unit → M S B) s s' :
  g s = Some s' → (updates g ≫= f) s = f tt s'.
Proof. intros H. unfold mbind, M_bind, updates. by rewrite H. Qed.

Lemma loop_S {A R} n (body : A → M S (A + R)) a :
  loop (Datatypes.S n) body a =
  (r ← body a; match r with inl a' => loop n body a' | inr x => mret x end).
Proof. done. Qed.

Lemma bind_assoc {A B C} (m : M S A) (f : A → M S B) (g : B → M S C) s :
  ((m ≫= f) ≫= g) s = (m ≫= (λ a, f a ≫= g)) s.
Proof. unfold mbind, M_bind. by destruct (m s). Qed.
End monad_laws.

(** * Automation *)

(** [mem_solver] proves membership and distinctness goals on lists: it drops
    every hypothesis that is not about membership or equality, unfolds the
    memberships, and finishes by propositional reasoning. *)
Ltac mem_only :=
  repeat match goal with
  | H : ?P |- _ =>
      let T := type of P in
      unify T Prop;
      lazymatch P with
      | _ ∈ _ => fail
      | _ ∉ _ => fail
      | _ = _ => fail
      | _ ≠ _ => fail
      | _ ⊆ _ => fail
      | _ ## _ => fail
      | _ ∨ _ => fail
      | _ => clear H
      end
  end.
Ltac mem_solver :=
  solve [mem_only; set_unfold; intuition (first [congruence | subst; solve [auto | congruence]])].

(** Decide the equality tests that the context settles. *)
Ltac simpl_decide :=
  repeat match goal with
  | |- context [decide (?a = ?a)] => rewrite (decide_True _ _ (eq_refl a))
  | H : ?a ≠ ?b |- context [decide (?a = ?b)] => rewrite (decide_False _ _ H)
  | H : ?b ≠ ?a |- context [decide (?a = ?b)] =>
      rewrite (decide_False _ _ (not_eq_sym H))
  end.

(** Rewrite with the effect [H] of the first computation of a bind. *)
Ltac run H := rewrite (bind_ok _ _ _ _ _ H).
