(* ===== verification/Lists.v ===== *)
(** Kernel-style intrusive doubly linked lists, include/usm/list.h.

    A [list_head] lives in a heap that maps addresses to their two link
    fields. The address type [L] is a parameter: each embedding structure
    contributes the addresses of its own link fields, so that [container_of]
    is the inversion of a constructor. Reading or writing through an address
    that the heap does not hold ([NULL], a poisoned link, the address of a dead
    stack variable) is undefined behaviour and gives [None].

    The second half of the file relates heaps to mathematical lists: [dlist]
    for one list, [lists] for a family of disjoint lists in one heap. *)
From S2P Require Import Prelude.
From stdpp Require Import prelude gmap.

(** What list.h needs to know of addresses: equality tests and the two
    poison values of [list_del]. *)
Class Links (L : Type) := {
  links_eq :: EqDecision L;
  links_countable :: Countable L;
  LIST_POISON1 : L;
  LIST_POISON2 : L;
}.
Global Arguments links_eq : simpl never.
Global Arguments links_countable : simpl never.

Section list_h.
Context {L : Type} `{HL : Links L}.

Record list_head := ListHead { next : L; prev : L }.

Abbreviation heap := (gmap L list_head).

(** ** Link fields *)
Definition get_next (x : L) (h : heap) : option L := next <$> h !! x.
Definition get_prev (x : L) (h : heap) : option L := prev <$> h !! x.

Definition set_next (x v : L) (h : heap) : option heap :=
  c ← h !! x; Some (<[x := ListHead v (prev c)]> h).
Definition set_prev (x v : L) (h : heap) : option heap :=
  c ← h !! x; Some (<[x := ListHead (next c) v]> h).

(** ** Operations of list.h *)
Definition INIT_LIST_HEAD (ptr : L) (h : heap) : option heap :=
  h ← set_next ptr ptr h; set_prev ptr ptr h.

Definition __list_add (new prev next : L) (h : heap) : option heap :=
  h ← set_prev next new h;
  h ← set_next new next h;
  h ← set_prev new prev h;
  set_next prev new h.

Definition list_add (new head : L) (h : heap) : option heap :=
  n ← get_next head h; __list_add new head n h.

Definition list_add_tail (new head : L) (h : heap) : option heap :=
  p ← get_prev head h; __list_add new p head h.

Definition __list_del (prev next : L) (h : heap) : option heap :=
  h ← set_prev next prev h; set_next prev next h.

(** [__list_del(entry->prev, entry->next)], the common first statement of
    [list_del], [list_del_init], [list_move] and [list_move_tail]. *)
Definition __list_del_entry (entry : L) (h : heap) : option heap :=
  p ← get_prev entry h; n ← get_next entry h; __list_del p n h.

Definition list_del (entry : L) (h : heap) : option heap :=
  h ← __list_del_entry entry h;
  h ← set_next entry LIST_POISON1 h;
  set_prev entry LIST_POISON2 h.

Definition list_del_init (entry : L) (h : heap) : option heap :=
  h ← __list_del_entry entry h; INIT_LIST_HEAD entry h.

Definition list_move (list head : L) (h : heap) : option heap :=
  h ← __list_del_entry list h; list_add list head h.

Definition list_move_tail (list head : L) (h : heap) : option heap :=
  h ← __list_del_entry list h; list_add_tail list head h.

Definition list_empty (head : L) (h : heap) : option bool :=
  n ← get_next head h; Some (bool_decide (n = head)).

Definition __list_splice (list head : L) (h : heap) : option heap :=
  first ← get_next list h;
  last ← get_prev list h;
  at_ ← get_next head h;
  h ← set_prev first head h;
  h ← set_next head first h;
  h ← set_next last at_ h;
  set_prev at_ last h.

Definition list_splice (list head : L) (h : heap) : option heap :=
  e ← list_empty list h;
  if (e : bool) then Some h else __list_splice list head h.

Definition list_splice_init (list head : L) (h : heap) : option heap :=
  e ← list_empty list h;
  if (e : bool) then Some h
  else h ← __list_splice list head h; INIT_LIST_HEAD list h.

(** [list_for_each_safe(pos, n, head)] over a state that holds the heap: the
    successor is read before the body runs. [a] gathers the other variables
    that the body updates. *)
Section for_each.
Context {S : Type} (hp : S → heap).

Fixpoint for_each_safe_from {A} (fuel : nat) (body : A → L → M S A)
    (a : A) (pos n head : L) : M S A :=
  match fuel with
  | O => λ _, OutOfFuel
  | Datatypes.S k =>
      if decide (pos = head) then mret a
      else (a' ← body a pos;
            n' ← reads (λ s, get_next n (hp s));
            for_each_safe_from k body a' n n' head)
  end.

Definition list_for_each_safe {A} (fuel : nat) (body : A → L → M S A)
    (head : L) (a : A) : M S A :=
  pos ← reads (λ s, get_next head (hp s));
  n ← reads (λ s, get_next pos (hp s));
  for_each_safe_from fuel body a pos n head.

(** [list_for_each_entry] with a body that may [break]: the result is the
    final value of the cursor, which is [head] itself when nothing matched. *)
Fixpoint for_each_find_from (fuel : nat) (stop : L → S → option bool)
    (pos head : L) : M S L :=
  match fuel with
  | O => λ _, OutOfFuel
  | Datatypes.S k =>
      if decide (pos = head) then mret pos
      else (b ← reads (stop pos);
            if (b : bool) then mret pos
            else (n ← reads (λ s, get_next pos (hp s));
                  for_each_find_from k stop n head))
  end.

Definition list_for_each_find (fuel : nat) (stop : L → S → option bool)
    (head : L) : M S L :=
  pos ← reads (λ s, get_next head (hp s));
  for_each_find_from fuel stop pos head.
End for_each.

(** ** Reading links after an update *)
Lemma get_next_set_next x v h h' z : set_next x v h = Some h' →
  get_next z h' = if decide (z = x) then Some v else get_next z h.
Proof.
  unfold set_next, get_next. destruct (h !! x) eqn:E; simpl; [|done].
  intros [= <-]. case_decide; subst; simplify_map_eq; done.
Qed.

Lemma get_prev_set_next x v h h' z : set_next x v h = Some h' →
  get_prev z h' = get_prev z h.
Proof.
  unfold set_next, get_prev. destruct (h !! x) eqn:E; simpl; [|done].
  intros [= <-]. destruct (decide (z = x)); subst; simplify_map_eq; done.
Qed.

Lemma get_next_set_prev x v h h' z : set_prev x v h = Some h' →
  get_next z h' = get_next z h.
Proof.
  unfold set_prev, get_next. destruct (h !! x) eqn:E; simpl; [|done].
  intros [= <-]. destruct (decide (z = x)); subst; simplify_map_eq; done.
Qed.

Lemma get_prev_set_prev x v h h' z : set_prev x v h = Some h' →
  get_prev z h' = if decide (z = x) then Some v else get_prev z h.
Proof.
  unfold set_prev, get_prev. destruct (h !! x) eqn:E; simpl; [|done].
  intros [= <-]. case_decide; subst; simplify_map_eq; done.
Qed.

Lemma set_next_Some x v h : x ∈ dom h → ∃ h', set_next x v h = Some h' ∧ dom h' = dom h.
Proof.
  intros [c Hc]%elem_of_dom. unfold set_next. rewrite Hc. simpl.
  eexists; split; [done|]. apply dom_insert_lookup_L. by eexists.
Qed.

Lemma set_prev_Some x v h : x ∈ dom h → ∃ h', set_prev x v h = Some h' ∧ dom h' = dom h.
Proof.
  intros [c Hc]%elem_of_dom. unfold set_prev. rewrite Hc. simpl.
  eexists; split; [done|]. apply dom_insert_lookup_L. by eexists.
Qed.

Lemma get_next_dom x y h : get_next x h = Some y → x ∈ dom h.
Proof. unfold get_next. intros H. apply elem_of_dom. destruct (h !! x); naive_solver. Qed.

Lemma get_prev_dom x y h : get_prev x h = Some y → x ∈ dom h.
Proof. unfold get_prev. intros H. apply elem_of_dom. destruct (h !! x); naive_solver. Qed.

(** Everything the operations do, said field by field. *)
Lemma __list_add_effect new p n h :
  new ∈ dom h → p ∈ dom h → n ∈ dom h → new ≠ p → new ≠ n →
  ∃ h', __list_add new p n h = Some h' ∧ dom h' = dom h ∧
    (∀ z, get_next z h' = if decide (z = p) then Some new else
                          if decide (z = new) then Some n else get_next z h) ∧
    (∀ z, get_prev z h' = if decide (z = new) then Some p else
                          if decide (z = n) then Some new else get_prev z h).
Proof.
  intros Hnew Hp Hn Hnp Hnn. unfold __list_add.
  destruct (set_prev_Some n new h) as (h1 & E1 & D1); [done|].
  destruct (set_next_Some new n h1) as (h2 & E2 & D2); [by rewrite D1|].
  destruct (set_prev_Some new p h2) as (h3 & E3 & D3); [by rewrite D2, D1|].
  destruct (set_next_Some p new h3) as (h4 & E4 & D4); [by rewrite D3, D2, D1|].
  exists h4. rewrite E1; simpl. rewrite E2; simpl. rewrite E3; simpl.
  split; [done|]. split; [congruence|]. split; intros z.
  - rewrite (get_next_set_next _ _ _ _ z E4), (get_next_set_prev _ _ _ _ z E3),
      (get_next_set_next _ _ _ _ z E2), (get_next_set_prev _ _ _ _ z E1). done.
  - rewrite (get_prev_set_next _ _ _ _ z E4), (get_prev_set_prev _ _ _ _ z E3),
      (get_prev_set_next _ _ _ _ z E2), (get_prev_set_prev _ _ _ _ z E1). done.
Qed.

Lemma __list_del_effect p n h :
  p ∈ dom h → n ∈ dom h →
  ∃ h', __list_del p n h = Some h' ∧ dom h' = dom h ∧
    (∀ z, get_next z h' = if decide (z = p) then Some n else get_next z h) ∧
    (∀ z, get_prev z h' = if decide (z = n) then Some p else get_prev z h).
Proof.
  intros Hp Hn. unfold __list_del.
  destruct (set_prev_Some n p h) as (h1 & E1 & D1); [done|].
  destruct (set_next_Some p n h1) as (h2 & E2 & D2); [by rewrite D1|].
  exists h2. rewrite E1; simpl. split; [done|]. split; [congruence|].
  split; intros z.
  - rewrite (get_next_set_next _ _ _ _ z E2), (get_next_set_prev _ _ _ _ z E1). done.
  - rewrite (get_prev_set_next _ _ _ _ z E2), (get_prev_set_prev _ _ _ _ z E1). done.
Qed.

(** ** Heaps that represent lists *)

(** [lnk h x y]: the field [next] of [x] is [y] and the field [prev] of [y]
    is [x]. *)
Definition lnk (h : heap) (x y : L) : Prop :=
  get_next x h = Some y ∧ get_prev y h = Some x.

(** A doubly linked segment from [x] to [y] through the nodes [l]. *)
Fixpoint path (h : heap) (x : L) (l : list L) (y : L) : Prop :=
  match l with
  | [] => lnk h x y
  | z :: l' => lnk h x z ∧ path h z l' y
  end.

(** The circular list with head [hd] and elements [l]. *)
Definition dlist (h : heap) (hd : L) (l : list L) : Prop :=
  NoDup (hd :: l) ∧ path h hd l hd.

(** A segment depends on the [next] fields of its left part and on the
    [prev] fields of its right part only. *)
Lemma path_frame h h' x l y :
  path h x l y →
  (∀ z, z ∈ x :: l → get_next z h' = get_next z h) →
  (∀ z, z ∈ l ++ [y] → get_prev z h' = get_prev z h) →
  path h' x l y.
Proof.
  revert x. induction l as [|a l IH]; intros x; simpl.
  - intros [Hn Hp] Fn Fp. split; [rewrite Fn|rewrite Fp]; set_solver.
  - intros [[Hn Hp] Hl] Fn Fp. split.
    + split; [rewrite Fn|rewrite Fp]; set_solver.
    + apply IH; [done|set_solver..].
Qed.

Lemma path_app h x l1 z l2 y :
  path h x (l1 ++ z :: l2) y ↔ path h x l1 z ∧ path h z l2 y.
Proof.
  revert x. induction l1 as [|a l1 IH]; intros x; simpl; [done|].
  rewrite IH. tauto.
Qed.

Lemma path_dom h x l y z : path h x l y → z ∈ x :: l ++ [y] → z ∈ dom h.
Proof.
  revert x. induction l as [|a l IH]; intros x; simpl.
  - intros [Hn Hp]. rewrite !elem_of_cons, elem_of_nil.
    intros [->|[->|[]]]; eauto using get_next_dom, get_prev_dom.
  - intros [[Hn _] Hl] [->|Hz]%elem_of_cons; [eauto using get_next_dom|].
    by eapply IH.
Qed.

Lemma dlist_dom h hd l z : dlist h hd l → z ∈ hd :: l → z ∈ dom h.
Proof. intros [_ Hp] Hz. eapply path_dom; [done|]. set_solver. Qed.

Lemma path_first h x l y : path h x l y →
  get_next x h = Some (default y (head l)).
Proof. destruct l; simpl; [by intros []|by intros [[] _]]. Qed.

Lemma path_last h x l y : path h x l y →
  get_prev y h = Some (default x (last l)).
Proof.
  revert x. induction l as [|a l IH]; intros x; simpl; [by intros []|].
  intros [_ Hl]. rewrite (IH a Hl), last_cons. by destruct (last l).
Qed.

(** *** One list *)
Lemma dlist_init h hd : hd ∈ dom h →
  ∃ h', INIT_LIST_HEAD hd h = Some h' ∧ dom h' = dom h ∧ dlist h' hd [] ∧
    (∀ z, z ≠ hd → get_next z h' = get_next z h ∧ get_prev z h' = get_prev z h).
Proof.
  intros Hd. unfold INIT_LIST_HEAD.
  destruct (set_next_Some hd hd h) as (h1 & E1 & D1); [done|].
  destruct (set_prev_Some hd hd h1) as (h2 & E2 & D2); [by rewrite D1|].
  exists h2. rewrite E1; simpl. split; [done|]. split; [congruence|].
  assert (∀ z, get_next z h2 = if decide (z = hd) then Some hd else get_next z h) as En.
  { intros z. by rewrite (get_next_set_prev _ _ _ _ z E2), (get_next_set_next _ _ _ _ z E1). }
  assert (∀ z, get_prev z h2 = if decide (z = hd) then Some hd else get_prev z h) as Ep.
  { intros z. by rewrite (get_prev_set_prev _ _ _ _ z E2), (get_prev_set_next _ _ _ _ z E1). }
  split.
  - split; [apply NoDup_singleton|]. split; [rewrite En|rewrite Ep]; by rewrite decide_True.
  - intros z Hz. rewrite En, Ep, !decide_False by done. done.
Qed.

Lemma dlist_empty h hd l : dlist h hd l →
  list_empty hd h = Some (bool_decide (l = [])).
Proof.
  intros [Hnd Hp]. unfold list_empty. rewrite (path_first _ _ _ _ Hp); simpl.
  f_equal. apply bool_decide_ext. destruct l as [|a l]; simpl; [done|].
  apply NoDup_cons in Hnd as [Hnd _]. set_solver.
Qed.

Lemma dlist_next h hd l : dlist h hd l → get_next hd h = Some (default hd (head l)).
Proof. intros [_ Hp]. by apply path_first in Hp. Qed.

Lemma dlist_prev h hd l : dlist h hd l → get_prev hd h = Some (default hd (last l)).
Proof. intros [_ Hp]. by apply path_last in Hp. Qed.

(** The successor of an element in the middle of a list. *)
Lemma dlist_next_mid h hd l1 x l2 : dlist h hd (l1 ++ x :: l2) →
  get_next x h = Some (default hd (head l2)).
Proof. intros [_ [_ Hp]%path_app]. by apply path_first in Hp. Qed.

Lemma dlist_prev_mid h hd l1 x l2 : dlist h hd (l1 ++ x :: l2) →
  get_prev x h = Some (default hd (last l1)).
Proof. intros [_ [Hp _]%path_app]. by apply path_last in Hp. Qed.

Lemma elem_of_default_head (l : list L) d : default d (head l) ∈ d :: l.
Proof. destruct l; set_solver. Qed.

Lemma elem_of_default_last (l : list L) d : default d (last l) ∈ d :: l.
Proof.
  destruct (last l) eqn:E; simpl; [|set_solver].
  apply last_Some_elem_of in E. set_solver.
Qed.

Lemma dlist_add h hd l x : dlist h hd l → x ∈ dom h → x ∉ hd :: l →
  ∃ h', list_add x hd h = Some h' ∧ dom h' = dom h ∧ dlist h' hd (x :: l) ∧
    (∀ z, z ∉ x :: hd :: l → get_next z h' = get_next z h ∧ get_prev z h' = get_prev z h).
Proof.
  intros Hl Hx Hnin. unfold list_add. rewrite (dlist_next _ _ _ Hl); simpl.
  set (n := default hd (head l)).
  assert (n ∈ hd :: l) as Hn by apply elem_of_default_head.
  destruct (__list_add_effect x hd n h) as (h' & E & D & En & Ep);
    [done|eapply dlist_dom; [done|mem_solver]|by eapply dlist_dom|mem_solver..|].
  exists h'. split; [done|]. split; [done|]. split; cycle 1.
  { intros z Hz. rewrite En, Ep, !decide_False by mem_solver. done. }
  destruct Hl as [Hnd Hp]. split.
  { apply NoDup_cons in Hnd as [??]. apply NoDup_cons; split; [mem_solver|].
    apply NoDup_cons; split; [mem_solver|done]. }
  assert (hd ≠ x) by mem_solver.
  split; [split; [rewrite En|rewrite Ep]; by simpl_decide|].
  destruct l as [|a l]; subst n; simpl in *.
  - split; [rewrite En|rewrite Ep]; by simpl_decide.
  - destruct Hp as [_ Hp]. apply NoDup_cons in Hnd as [Hhd [Ha _]%NoDup_cons].
    assert (a ≠ x) by mem_solver. assert (a ≠ hd) by mem_solver.
    split; [split; [rewrite En|rewrite Ep]; by simpl_decide|].
    eapply path_frame; [done|..]; intros z Hz.
    + rewrite En, !decide_False by mem_solver. done.
    + rewrite Ep, !decide_False by mem_solver. done.
Qed.

Lemma dlist_add_tail h hd l x : dlist h hd l → x ∈ dom h → x ∉ hd :: l →
  ∃ h', list_add_tail x hd h = Some h' ∧ dom h' = dom h ∧ dlist h' hd (l ++ [x]) ∧
    (∀ z, z ∉ x :: hd :: l → get_next z h' = get_next z h ∧ get_prev z h' = get_prev z h).
Proof.
  intros Hl Hx Hnin. unfold list_add_tail. rewrite (dlist_prev _ _ _ Hl); simpl.
  set (p := default hd (last l)).
  assert (p ∈ hd :: l) as Hpin by apply elem_of_default_last.
  destruct (__list_add_effect x p hd h) as (h' & E & D & En & Ep);
    [done|by eapply dlist_dom|eapply dlist_dom; [done|mem_solver]|mem_solver..|].
  exists h'. split; [done|]. split; [done|]. split; cycle 1.
  { intros z Hz. rewrite En, Ep, !decide_False by mem_solver. done. }
  destruct Hl as [Hnd Hp]. apply NoDup_cons in Hnd as [Hhd Hnd]. split.
  { apply NoDup_cons; split; [mem_solver|]. apply NoDup_app. split; [done|].
    split; [mem_solver|apply NoDup_singleton]. }
  assert (hd ≠ x) by mem_solver.
  rewrite path_app. split; cycle 1.
  { simpl. split; [rewrite En|rewrite Ep]; simpl_decide; [|done].
    rewrite decide_False; [done|]. mem_solver. }
  destruct l as [|a l _] using rev_ind; simpl in *.
  - split; [rewrite En|rewrite Ep]; subst p; simpl; by simpl_decide.
  - subst p. rewrite last_snoc in *; simpl in *.
    apply path_app in Hp as [Hp _]. apply path_app.
    assert (a ≠ x) by mem_solver. assert (a ≠ hd) by mem_solver.
    apply NoDup_app in Hnd as (_ & Hda & _).
    assert (a ∉ l) by (intros Ha; apply (Hda a Ha); set_solver).
    split; [|split; [rewrite En|rewrite Ep]; by simpl_decide].
    eapply path_frame; [done|..]; intros z Hz.
    + rewrite En, !decide_False by mem_solver. done.
    + rewrite Ep, !decide_False by mem_solver. done.
Qed.

(** Closing the gap left by [x] between two segments. *)
Lemma path_close h h' hd l1 x l2 :
  NoDup (hd :: l1 ++ x :: l2) →
  path h hd l1 x → path h x l2 hd →
  (∀ z, get_next z h' = if decide (z = default hd (last l1))
                        then Some (default hd (head l2)) else get_next z h) →
  (∀ z, get_prev z h' = if decide (z = default hd (head l2))
                        then Some (default hd (last l1)) else get_prev z h) →
  path h' hd (l1 ++ l2) hd.
Proof.
  intros Hnd P1 P2 En Ep.
  apply NoDup_cons in Hnd as [Hhd (Hn1 & Hd12 & Hn2)%NoDup_app].
  assert (path h' (default hd (last l1)) l2 hd) as Q2.
  { destruct l2 as [|n l2]; simpl in *.
    - split; [rewrite En|rewrite Ep]; by simpl_decide.
    - destruct P2 as [_ P2]. split.
      + split; [rewrite En|rewrite Ep]; by simpl_decide.
      + apply NoDup_cons in Hn2 as [_ Hn2]. apply NoDup_cons in Hn2 as [Hn _].
        assert (default hd (last l1) ∉ n :: l2) as Hp.
        { intros Hin. pose proof (elem_of_default_last l1 hd) as [E|E]%elem_of_cons.
          - rewrite E in Hin. mem_solver.
          - apply (Hd12 _ E). mem_solver. }
        eapply path_frame; [exact P2|..]; intros z Hz.
        * rewrite En, decide_False by (intros ->; done). done.
        * rewrite Ep, decide_False by mem_solver. done. }
  destruct l1 as [|a l1 _] using rev_ind; simpl in *; [done|].
  rewrite last_snoc in *; simpl in *. rewrite <- app_assoc; simpl.
  apply path_app. split; [|done].
  apply path_app in P1 as [P1 _].
  assert (a ∉ l1) as Ha.
  { apply NoDup_app in Hn1 as (_ & Hd & _). intros Hin. apply (Hd a Hin). set_solver. }
  assert (default hd (head l2) ∉ l1 ++ [a]) as Hn.
  { intros Hin. pose proof (elem_of_default_head l2 hd) as [E|E]%elem_of_cons.
    - rewrite E in Hin. mem_solver.
    - apply (Hd12 _ Hin). mem_solver. }
  eapply path_frame; [exact P1|..]; intros z Hz.
  - rewrite En, decide_False by mem_solver. done.
  - rewrite Ep, decide_False by (intros ->; done). done.
Qed.

Lemma dlist_del_entry h hd l1 x l2 : dlist h hd (l1 ++ x :: l2) →
  ∃ h', __list_del_entry x h = Some h' ∧ dom h' = dom h ∧ dlist h' hd (l1 ++ l2) ∧
    (∀ z, z ∉ hd :: l1 ++ l2 → get_next z h' = get_next z h ∧ get_prev z h' = get_prev z h).
Proof.
  intros Hl. unfold __list_del_entry.
  rewrite (dlist_next_mid _ _ _ _ _ Hl), (dlist_prev_mid _ _ _ _ _ Hl); simpl.
  pose proof (elem_of_default_head l2 hd) as Hn.
  pose proof (elem_of_default_last l1 hd) as Hp.
  destruct (__list_del_effect (default hd (last l1)) (default hd (head l2)) h)
    as (h' & E & D & En & Ep).
  { eapply dlist_dom; [done|]. mem_solver. }
  { eapply dlist_dom; [done|]. mem_solver. }
  exists h'. split; [done|]. split; [done|].
  destruct Hl as [Hnd [P1 P2]%path_app]. split.
  - split; [|by eapply path_close].
    apply NoDup_cons in Hnd as [Hhd (Hn1 & Hd12 & [? Hn2]%NoDup_cons)%NoDup_app].
    apply NoDup_cons; split; [mem_solver|]. apply NoDup_app. split_and!; [done| |done].
    intros z Hz Hz2. apply (Hd12 z Hz). mem_solver.
  - intros z Hz. rewrite En, Ep, !decide_False by mem_solver. done.
Qed.

(** A heap holds at most one list at a head. *)
Lemma path_fun h x l l' y : path h x l y → path h x l' y → y ∉ l → y ∉ l' → l = l'.
Proof.
  revert x l'. induction l as [|a l IH]; intros x [|b l']; simpl; [done|..].
  - intros [Hn _] [[Hn' _] _] _ Hy. assert (b = y) by congruence. set_solver.
  - intros [[Hn _] _] [Hn' _] Hy _. assert (a = y) by congruence. set_solver.
  - intros [[Hn _] Hp] [[Hn' _] Hp'] Hy Hy'. assert (b = a) as -> by congruence.
    f_equal. apply (IH a l'); set_solver.
Qed.

Lemma dlist_fun h hd l l' : dlist h hd l → dlist h hd l' → l = l'.
Proof.
  intros [[Hn _]%NoDup_cons Hp] [[Hn' _]%NoDup_cons Hp']. by eapply path_fun.
Qed.

(** *** Loops

    A loop over the list at [hd] whose body may take the current element out
    of the list: [P a l s] is its invariant, [l] the elements still to visit. *)
Section for_each_lemmas.
Context {S : Type} (hp : S → heap).

Lemma for_each_safe_from_ok {A} (P : A → list L → S → Prop) body hd :
  (∀ a l s, P a l s → dlist (hp s) hd l) →
  (∀ a x l s, P a (x :: l) s → ∃ a' s', body a x s = Ok a' s' ∧ P a' l s') →
  ∀ l fuel a s, P a l s → length l < fuel →
  ∃ a' s', for_each_safe_from hp fuel body a (default hd (head l))
             (match l with [] => default hd (head l) | _ :: l' => default hd (head l') end)
             hd s = Ok a' s' ∧ P a' [] s'.
Proof.
  intros Hd Hb. induction l as [|x l IH]; intros fuel a s HP Hf;
    (destruct fuel as [|fuel]; [simpl in Hf; lia|]); simpl.
  - rewrite decide_True by done. by exists a, s.
  - pose proof (Hd _ _ _ HP) as [Hnd _].
    assert (x ≠ hd) by (apply NoDup_cons in Hnd as [Hnd _]; mem_solver).
    rewrite decide_False by done.
    destruct (Hb a x l s HP) as (a' & s' & E & HP'). rewrite (bind_ok _ _ _ _ _ E).
    destruct (IH fuel a' s' HP') as (a'' & s'' & E' & HP''); [simpl in Hf; lia|].
    exists a'', s''. split; [|done].
    rewrite (reads_bind _ _ _ (match l with [] => default hd (head l) | _ :: l' => default hd (head l') end)).
    + exact E'.
    + pose proof (Hd _ _ _ HP') as Hl. destruct l as [|y l]; simpl.
      * by apply dlist_next in Hl.
      * by apply (dlist_next_mid _ _ [] y l) in Hl.
Qed.

Lemma list_for_each_safe_ok {A} (P : A → list L → S → Prop) body hd l fuel a s :
  (∀ a l s, P a l s → dlist (hp s) hd l) →
  (∀ a x l s, P a (x :: l) s → ∃ a' s', body a x s = Ok a' s' ∧ P a' l s') →
  P a l s → length l < fuel →
  ∃ a' s', list_for_each_safe hp fuel body hd a s = Ok a' s' ∧ P a' [] s'.
Proof.
  intros Hd Hb HP Hf. destruct (for_each_safe_from_ok P body hd Hd Hb l fuel a s HP Hf)
    as (a' & s' & E & HP'). exists a', s'. split; [|done]. unfold list_for_each_safe.
  pose proof (Hd _ _ _ HP) as Hl.
  rewrite (reads_bind _ _ _ (default hd (head l))) by (by apply dlist_next).
  destruct l as [|x l]; simpl in *.
  - rewrite (reads_bind _ _ _ hd); [exact E|]. by apply dlist_next in Hl.
  - rewrite (reads_bind _ _ _ (default hd (head l))); [exact E|].
    by apply (dlist_next_mid _ _ [] x l) in Hl.
Qed.

(** The search loop stops at the first element that satisfies the test, or at
    the head. *)
Fixpoint find_first (f : L → bool) (d : L) (l : list L) : L :=
  match l with [] => d | x :: l' => if f x then x else find_first f d l' end.

Lemma list_for_each_find_ok (stop : L → S → option bool) (f : L → bool) hd l fuel s :
  dlist (hp s) hd l → (∀ x, x ∈ l → stop x s = Some (f x)) → length l < fuel →
  list_for_each_find hp fuel stop hd s = Ok (find_first f hd l) s.
Proof.
  intros Hl Hs Hf. unfold list_for_each_find.
  rewrite (reads_bind _ _ _ (default hd (head l))) by (by apply dlist_next).
  assert (∀ l2 l1 fuel, l = l1 ++ l2 → length l2 < fuel →
    for_each_find_from hp fuel stop (default hd (head l2)) hd s
    = Ok (find_first f hd l2) s) as IH; [|by apply (IH l [])].
  clear fuel Hf. induction l2 as [|x l2 IH]; intros l1 fuel -> Hf;
    (destruct fuel as [|fuel]; [simpl in Hf; lia|]); simpl.
  { by rewrite decide_True. }
  assert (x ≠ hd).
  { destruct Hl as [[Hnd _]%NoDup_cons _]. mem_solver. }
  rewrite decide_False by done.
  rewrite (reads_bind _ _ _ (f x)) by (apply Hs; mem_solver).
  destruct (f x); [done|].
  rewrite (reads_bind _ _ _ (default hd (head l2))) by (by eapply dlist_next_mid).
  apply (IH (l1 ++ [x])); [by rewrite <- app_assoc|simpl in Hf; lia].
Qed.
End for_each_lemmas.

(** A list has fewer elements than its heap has cells. *)
Lemma dlist_length h hd l : dlist h hd l → length l < size h.
Proof.
  intros Hl. pose proof Hl as [Hnd _].
  assert (length (hd :: l) ≤ size (dom h)) as H.
  { rewrite <- (size_list_to_set (C := gset L) (hd :: l)) by done.
    apply subseteq_size. intros z Hz%elem_of_list_to_set. by eapply dlist_dom. }
  rewrite size_dom in H. simpl in H. lia.
Qed.

(** *** A family of disjoint lists in one heap *)

(** [m] maps the head of each list to its elements. *)
Definition disjoint_lists (m : gmap L (list L)) : Prop :=
  ∀ a la b lb z, m !! a = Some la → m !! b = Some lb →
    z ∈ a :: la → z ∈ b :: lb → a = b.

Definition lists (h : heap) (m : gmap L (list L)) : Prop :=
  (∀ hd l, m !! hd = Some l → dlist h hd l) ∧ disjoint_lists m.

(** [x] is neither a head nor an element of any list of the family. *)
Definition unlinked (m : gmap L (list L)) (x : L) : Prop :=
  ∀ hd l, m !! hd = Some l → x ∉ hd :: l.

Lemma lists_update h h' m hd l l' :
  lists h m → m !! hd = Some l → dlist h' hd l' →
  (∀ z, z ∈ l' → z ∈ l ∨ unlinked m z) →
  (∀ z, z ∉ l' → z ∉ hd :: l → get_next z h' = get_next z h ∧ get_prev z h' = get_prev z h) →
  lists h' (<[hd := l']> m).
Proof.
  intros [Hm Hdj] Hl Hd' Hin Hframe.
  assert (∀ b lb z, b ≠ hd → m !! b = Some lb → z ∈ b :: lb → (z ∉ hd :: l) ∧ (z ∉ l')) as Hsep.
  { intros b lb z Hb Hlb Hz. split.
    - intros Hz'. by apply Hb, (Hdj b lb hd l z).
    - intros [Hz'|Hz']%Hin; [|by apply (Hz' b lb)].
      apply Hb, (Hdj b lb hd l z); mem_solver. }
  split.
  - intros b lb [[<- <-]|[Hb Hlb]]%lookup_insert_Some; [done|].
    destruct (Hm b lb Hlb) as [Hnd Hp]. split; [done|].
    eapply path_frame; [done|..]; intros z Hz; apply Hframe;
      edestruct (Hsep b lb z); try done; mem_solver.
  - intros a la b lb z [[<- <-]|[Ha Hla]]%lookup_insert_Some
      [[<- <-]|[Hb Hlb]]%lookup_insert_Some Hz1 Hz2; [done| | |by eapply Hdj].
    + destruct (Hsep b lb z) as [??]; [done..|]. mem_solver.
    + destruct (Hsep a la z) as [??]; [done..|]. mem_solver.
Qed.

Lemma lists_dlist h m hd l : lists h m → m !! hd = Some l → dlist h hd l.
Proof. intros [Hm _]. apply Hm. Qed.

Lemma lists_dom h m hd l z : lists h m → m !! hd = Some l → z ∈ hd :: l → z ∈ dom h.
Proof. intros Hm Hl. eapply dlist_dom. by eapply lists_dlist. Qed.

Lemma lists_empty h m hd l : lists h m → m !! hd = Some l →
  list_empty hd h = Some (bool_decide (l = [])).
Proof. intros Hm Hl. eapply dlist_empty. by eapply lists_dlist. Qed.

Lemma lists_first h m hd l : lists h m → m !! hd = Some l →
  get_next hd h = Some (default hd (head l)).
Proof. intros Hm Hl. eapply dlist_next. by eapply lists_dlist. Qed.

Lemma lists_last h m hd l : lists h m → m !! hd = Some l →
  get_prev hd h = Some (default hd (last l)).
Proof. intros Hm Hl. eapply dlist_prev. by eapply lists_dlist. Qed.

Lemma lists_next h m hd l1 x l2 : lists h m → m !! hd = Some (l1 ++ x :: l2) →
  get_next x h = Some (default hd (head l2)).
Proof. intros Hm Hl. eapply dlist_next_mid. by eapply lists_dlist. Qed.

Lemma lists_delete h m hd : lists h m → lists h (delete hd m).
Proof.
  intros [Hm Hdj]. split.
  - intros b lb [_ Hlb]%lookup_delete_Some. by apply Hm.
  - intros a la b lb z [_ Hla]%lookup_delete_Some [_ Hlb]%lookup_delete_Some.
    by eapply Hdj.
Qed.

(** Links of a node outside the family may change freely. *)
Lemma lists_set_unlinked h h' m x : lists h m → unlinked m x →
  (∀ z, z ≠ x → get_next z h' = get_next z h ∧ get_prev z h' = get_prev z h) →
  lists h' m.
Proof.
  intros [Hm Hdj] Hu Hf. split; [|done]. intros b lb Hlb.
  destruct (Hm b lb Hlb) as [Hnd Hp]. split; [done|].
  pose proof (Hu b lb Hlb) as Hx.
  eapply path_frame; [done|..]; intros z Hz; apply Hf; intros ->; mem_solver.
Qed.

Lemma lists_init h m hd : lists h m → hd ∈ dom h → unlinked m hd →
  ∃ h', INIT_LIST_HEAD hd h = Some h' ∧ dom h' = dom h ∧ lists h' (<[hd := []]> m).
Proof.
  intros Hm Hd Hu. destruct (dlist_init h hd Hd) as (h' & E & D & Hl & Hf).
  exists h'. split; [done|]. split; [done|].
  destruct (lists_set_unlinked h h' m hd) as [Hm' Hdj]; [done..|]. split.
  - intros b lb [[<- <-]|[Hb Hlb]]%lookup_insert_Some; [done|by apply Hm'].
  - intros a la b lb z [[<- <-]|[Ha Hla]]%lookup_insert_Some
      [[<- <-]|[Hb Hlb]]%lookup_insert_Some Hz1 Hz2; [done| | |by eapply Hdj].
    + pose proof (Hu b lb Hlb). mem_solver.
    + pose proof (Hu a la Hla). mem_solver.
Qed.

(** A new cell: [malloc] of a structure with a list head, or a local one. *)
Lemma lists_alloc h m x c : lists h m → x ∉ dom h → lists (<[x := c]> h) m ∧ unlinked m x.
Proof.
  intros Hm Hx.
  assert (unlinked m x) as Hu.
  { intros b lb Hlb Hin. apply Hx. by eapply lists_dom. }
  split; [|done]. eapply lists_set_unlinked; [done..|]. intros z Hz.
  unfold get_next, get_prev. by rewrite !lookup_insert_ne.
Qed.

(** A cell that is in no list can go. *)
Lemma lists_free h m x : lists h m → unlinked m x → lists (delete x h) m.
Proof.
  intros Hm Hu. eapply lists_set_unlinked; [done..|]. intros z Hz.
  unfold get_next, get_prev. by rewrite !lookup_delete_ne.
Qed.

Lemma unlinked_delete h m hd : lists h m → m !! hd = Some [] → unlinked (delete hd m) hd.
Proof.
  intros [_ Hdj] Hl b lb [Hb Hlb]%lookup_delete_Some Hin. apply Hb.
  eapply (Hdj hd [] b lb hd); [done|done|mem_solver|done].
Qed.

Lemma lists_add h m hd l x : lists h m → m !! hd = Some l →
  x ∈ dom h → unlinked m x →
  ∃ h', list_add x hd h = Some h' ∧ dom h' = dom h ∧ lists h' (<[hd := x :: l]> m).
Proof.
  intros Hm Hl Hx Hu.
  destruct (dlist_add h hd l x) as (h' & E & D & Hd & Hf); [by eapply lists_dlist|done|by eapply Hu|].
  exists h'. split_and!; [done..|]. eapply lists_update; [done..| |].
  - intros z [->|Hz]%elem_of_cons; auto.
  - intros z Hz1 Hz2. apply Hf. mem_solver.
Qed.

Lemma lists_add_tail h m hd l x : lists h m → m !! hd = Some l →
  x ∈ dom h → unlinked m x →
  ∃ h', list_add_tail x hd h = Some h' ∧ dom h' = dom h ∧ lists h' (<[hd := l ++ [x]]> m).
Proof.
  intros Hm Hl Hx Hu.
  destruct (dlist_add_tail h hd l x) as (h' & E & D & Hd & Hf); [by eapply lists_dlist|done|by eapply Hu|].
  exists h'. split_and!; [done..|]. eapply lists_update; [done..| |].
  - intros z [Hz| ->%list_elem_of_singleton]%elem_of_app; auto.
  - intros z Hz1 Hz2. apply Hf. mem_solver.
Qed.

Lemma lists_del_entry h m hd l1 x l2 : lists h m → m !! hd = Some (l1 ++ x :: l2) →
  ∃ h', __list_del_entry x h = Some h' ∧ dom h' = dom h ∧
    lists h' (<[hd := l1 ++ l2]> m) ∧ unlinked (<[hd := l1 ++ l2]> m) x.
Proof.
  intros Hm Hl.
  destruct (dlist_del_entry h hd l1 x l2) as (h' & E & D & Hd & Hf); [by eapply lists_dlist|].
  exists h'. split_and!; [done..| |].
  - eapply lists_update; [done..| |].
    + intros z Hz. left. mem_solver.
    + intros z Hz1 Hz2. apply Hf. mem_solver.
  - pose proof (lists_dlist _ _ _ _ Hm Hl) as [Hnd _].
    apply NoDup_cons in Hnd as [Hhd (_ & Hd12 & [? _]%NoDup_cons)%NoDup_app].
    assert (x ∉ l1) by (intros Hx; apply (Hd12 x Hx); mem_solver).
    intros b lb [[<- <-]|[Hb Hlb]]%lookup_insert_Some; [mem_solver|].
    destruct Hm as [_ Hdj]. intros Hx. apply Hb. symmetry.
    eapply Hdj; [done|done|done|mem_solver].
Qed.

Lemma lists_del h m hd l1 x l2 : lists h m → m !! hd = Some (l1 ++ x :: l2) →
  ∃ h', list_del x h = Some h' ∧ dom h' = dom h ∧
    lists h' (<[hd := l1 ++ l2]> m) ∧ unlinked (<[hd := l1 ++ l2]> m) x ∧
    get_next x h' = Some LIST_POISON1 ∧ get_prev x h' = Some LIST_POISON2.
Proof.
  intros Hm Hl. unfold list_del.
  assert (x ∈ dom h) as Hx by (eapply lists_dom; [done..|mem_solver]).
  destruct (lists_del_entry _ _ _ _ _ _ Hm Hl) as (h1 & -> & D1 & Hm1 & Hu); simpl.
  destruct (set_next_Some x LIST_POISON1 h1) as (h2 & E2 & D2); [by rewrite D1|].
  destruct (set_prev_Some x LIST_POISON2 h2) as (h3 & E3 & D3); [by rewrite D2, D1|].
  rewrite E2; simpl. exists h3. split_and!; [done|congruence| |done| |].
  - eapply lists_set_unlinked; [exact Hm1|exact Hu|]. intros z Hz. split.
    + by rewrite (get_next_set_prev _ _ _ _ z E3), (get_next_set_next _ _ _ _ z E2), decide_False.
    + by rewrite (get_prev_set_prev _ _ _ _ z E3), decide_False, (get_prev_set_next _ _ _ _ z E2).
  - by rewrite (get_next_set_prev _ _ _ _ x E3), (get_next_set_next _ _ _ _ x E2), decide_True.
  - by rewrite (get_prev_set_prev _ _ _ _ x E3), decide_True.
Qed.

Lemma lists_del_init h m hd l1 x l2 : lists h m → m !! hd = Some (l1 ++ x :: l2) →
  ∃ h', list_del_init x h = Some h' ∧ dom h' = dom h ∧
    lists h' (<[hd := l1 ++ l2]> m) ∧ unlinked (<[hd := l1 ++ l2]> m) x ∧
    get_next x h' = Some x ∧ get_prev x h' = Some x.
Proof.
  intros Hm Hl. unfold list_del_init.
  assert (x ∈ dom h) as Hx by (eapply lists_dom; [done..|mem_solver]).
  destruct (lists_del_entry _ _ _ _ _ _ Hm Hl) as (h1 & -> & D1 & Hm1 & Hu); simpl.
  destruct (dlist_init h1 x) as (h2 & E2 & D2 & [_ [Hn Hp]] & Hf); [by rewrite D1|].
  exists h2. split_and!; [done|congruence| |done|done|done].
  eapply lists_set_unlinked; [exact Hm1|exact Hu|done].
Qed.

Lemma lists_move h m a l1 x l2 b lb : lists h m →
  m !! a = Some (l1 ++ x :: l2) → <[a := l1 ++ l2]> m !! b = Some lb →
  ∃ h', list_move x b h = Some h' ∧ dom h' = dom h ∧
    lists h' (<[b := x :: lb]> (<[a := l1 ++ l2]> m)).
Proof.
  intros Hm Ha Hb. unfold list_move.
  assert (x ∈ dom h) as Hx by (eapply lists_dom; [done..|mem_solver]).
  destruct (lists_del_entry _ _ _ _ _ _ Hm Ha) as (h1 & -> & D1 & Hm1 & Hu); simpl.
  destruct (lists_add _ _ _ _ x Hm1 Hb) as (h2 & E2 & D2 & Hm2); [by rewrite D1|done|].
  exists h2. split_and!; [done|congruence|done].
Qed.

Lemma lists_move_tail h m a l1 x l2 b lb : lists h m →
  m !! a = Some (l1 ++ x :: l2) → <[a := l1 ++ l2]> m !! b = Some lb →
  ∃ h', list_move_tail x b h = Some h' ∧ dom h' = dom h ∧
    lists h' (<[b := lb ++ [x]]> (<[a := l1 ++ l2]> m)).
Proof.
  intros Hm Ha Hb. unfold list_move_tail.
  assert (x ∈ dom h) as Hx by (eapply lists_dom; [done..|mem_solver]).
  destruct (lists_del_entry _ _ _ _ _ _ Hm Ha) as (h1 & -> & D1 & Hm1 & Hu); simpl.
  destruct (lists_add_tail _ _ _ _ x Hm1 Hb) as (h2 & E2 & D2 & Hm2); [by rewrite D1|done|].
  exists h2. split_and!; [done|congruence|done].
Qed.
End list_h.

Arguments list_head : clear implicits.
Abbreviation heap L := (gmap L (list_head L)).
