(* ===== verification/ListSort.v ===== *)
(** The merge sort of intrusive lists (impl/usm/list_sort.c) on the heap of Lists.v:
    the elements are unlinked into null-terminated chains, sorted chains wait in a
    list of lists that is linked through the [prev] fields of their first elements,
    and the last merge restores the links of a circular list. *)
From stdpp Require Import prelude gmap sorting.
From S2P Require Import Prelude Lists.

Section list_sort.
Context {L : Type} `{HL : Links L} (NULL : L) (cmp : L → L → Z).
Local Abbreviation hp := (gmap L (list_head L)).

(** ** merge *)

(** [*tail = v] for [tail] the address of the variable [head] or of the [next] field
    of an element; the result is the new value of [head]. *)
Definition put (head : L) (tail : option L) (v : L) : M hp L :=
  match tail with
  | None => mret v
  | Some x => _ ← updates (set_next x v); mret head
  end.

Definition merge_body (s : L * option L * L * L) : M hp ((L * option L * L * L) + L) :=
  let '(head, tail, a, b) := s in
  if (cmp a b <=? 0)%Z then
    head ← put head tail a;
    a' ← reads (get_next a);
    if decide (a' = NULL) then head ← put head (Some a) b; mret (inr head)
    else mret (inl (head, Some a, a', b))
  else
    head ← put head tail b;
    b' ← reads (get_next b);
    if decide (b' = NULL) then head ← put head (Some b) a; mret (inr head)
    else mret (inl (head, Some b, a, b')).

Definition merge (a b : L) : M hp L := λ h, loop (size h) merge_body (NULL, None, a, b) h.

(** ** merge_final: the calls of [cmp] that only let the caller run are left out. *)
Definition merge_final_body (s : L * L * L) : M hp ((L * L * L) + (L * L)) :=
  let '(tail, a, b) := s in
  if (cmp a b <=? 0)%Z then
    _ ← updates (set_next tail a);
    _ ← updates (set_prev a tail);
    a' ← reads (get_next a);
    if decide (a' = NULL) then mret (inr (a, b)) else mret (inl (a, a', b))
  else
    _ ← updates (set_next tail b);
    _ ← updates (set_prev b tail);
    b' ← reads (get_next b);
    if decide (b' = NULL) then mret (inr (b, a)) else mret (inl (b, a, b')).

Definition relink_body (s : L * L) : M hp ((L * L) + L) :=
  let '(tail, b) := s in
  _ ← updates (set_prev b tail);
  b' ← reads (get_next b);
  if decide (b' = NULL) then mret (inr b) else mret (inl (b, b')).

Definition merge_final (head a b : L) : M hp unit := λ h,
  (r ← loop (size h) merge_final_body (head, a, b);
   let '(tail, b) := r in
   _ ← updates (set_next tail b);
   tail ← loop (size h) relink_body (tail, b);
   _ ← updates (set_next tail head);
   updates (set_prev head tail)) h.

(** ** list_sort *)

(** [*tail] and [*tail = v] for [tail] the address of [pending] or of a [prev] field. *)
Definition get_tail (pending : L) (tail : option L) : M hp L :=
  match tail with None => mret pending | Some y => reads (get_prev y) end.
Definition set_tail (pending : L) (tail : option L) (v : L) : M hp L :=
  match tail with
  | None => mret v
  | Some y => _ ← updates (set_prev y v); mret pending
  end.

(** [for (bits = count; bits & 1; bits >>= 1) tail = &( *tail)->prev;] *)
Definition find_body (pending : L) (s : Z * option L) : M hp ((Z * option L) + (Z * option L)) :=
  let '(bits, tail) := s in
  if Z.testbit bits 0 then x ← get_tail pending tail; mret (inl (Z.shiftr bits 1, Some x))
  else mret (inr (bits, tail)).

(** The indicated merge: the list at [tail] and the one behind it become one. *)
Definition merge_pending (pending : L) (tail : option L) : M hp L :=
  a ← get_tail pending tail;
  b ← reads (get_prev a);
  a ← merge b a;
  q ← reads (get_prev b);
  _ ← updates (set_prev a q);
  set_tail pending tail a.

(** The two lists that [count] selects are merged, if there are two. *)
Definition merge_selected (pending : L) (count : Z) : M hp L :=
  r ← loop 65 (find_body pending) (count, None);
  let '(bits, tail) := r in
  if (bits =? 0)%Z then mret pending else merge_pending pending tail.

(** One round: the merge that [count] selects, and one more element. *)
Definition sort_body (s : L * L * Z) : M hp ((L * L * Z) + L) :=
  let '(list, pending, count) := s in
  pending ← merge_selected pending count;
  _ ← updates (set_prev list pending);
  list' ← reads (get_next list);
  _ ← updates (set_next list NULL);
  if decide (list' = NULL) then mret (inr list) else mret (inl (list', list, u64 (count + 1))).

Definition collect_body (s : L * L) : M hp ((L * L) + (L * L)) :=
  let '(list, pending) := s in
  next ← reads (get_prev pending);
  if decide (next = NULL) then mret (inr (list, pending))
  else list ← merge pending list; mret (inl (list, next)).

Definition list_sort (head : L) : M hp unit := λ h,
  (list ← reads (get_next head);
   last ← reads (get_prev head);
   if decide (list = last) then mret tt
   else
     _ ← updates (set_next last NULL);
     list ← loop (size h) sort_body (list, NULL, 0%Z);
     pending ← reads (get_prev list);
     r ← loop (size h) collect_body (list, pending);
     let '(list, pending) := r in
     merge_final head pending list) h.

(** * Chains *)

(** The elements [l] from [x] along [next] to [y]. *)
Fixpoint seg (h : hp) (x : L) (l : list L) (y : L) : Prop :=
  match l with
  | [] => x = y
  | z :: l => x = z ∧ ∃ w, get_next z h = Some w ∧ seg h w l y
  end.
Local Abbreviation chain h x l := (seg h x l NULL).

(** [h'] has other [next] fields for the elements of [l] and is otherwise [h]. *)
Definition touched (l : list L) (h h' : hp) : Prop :=
  dom h' = dom h ∧ (∀ z, get_prev z h' = get_prev z h) ∧ ∀ z, z ∉ l → get_next z h' = get_next z h.

Lemma touched_trans l l' h1 h2 h3 : touched l h1 h2 → touched l' h2 h3 → l ⊆ l' → touched l' h1 h3.
Proof.
  intros (D1 & P1 & N1) (D2 & P2 & N2) Hl. split; [congruence|]. split; [intros z; by rewrite P2|].
  intros z Hz. rewrite N2 by done. apply N1. set_solver.
Qed.

Lemma touched_refl l h : touched l h h.
Proof. done. Qed.

Lemma seg_frame h h' x l y : seg h x l y → (∀ z, z ∈ l → get_next z h' = get_next z h) → seg h' x l y.
Proof.
  revert x. induction l as [|z l IH]; intros x; [done|]. intros (-> & w & Hw & Hl) H. split; [done|].
  exists w. split; [rewrite H; [done|by left]|]. apply IH; [done|]. intros u Hu. apply H. by right.
Qed.

Lemma seg_touched l' h h' x l y : touched l' h h' → seg h x l y → l ## l' → seg h' x l y.
Proof. intros (_ & _ & N) Hs Hd. apply (seg_frame h); [done|]. intros z Hz. apply N. by intros Hz'%(Hd z Hz). Qed.

Lemma seg_snoc h x l z y : seg h x l z → get_next z h = Some y → seg h x (l ++ [z]) y.
Proof.
  revert x. induction l as [|u l IH]; intros x; cbn.
  - intros -> H. split; [done|]. by exists y.
  - intros (-> & w & Hw & Hl) H. split; [done|]. exists w. split; [done|]. by apply IH.
Qed.

Lemma seg_dom h x l y z : seg h x l y → z ∈ l → z ∈ dom h.
Proof.
  revert x. induction l as [|u l IH]; intros x; [by intros _ ?%elem_of_nil|].
  intros (-> & w & Hw & Hl) [->|Hz]%elem_of_cons; [by eapply get_next_dom|by eapply IH].
Qed.

Lemma set_next_ok h x v : x ∈ dom h →
  ∃ h', updates (set_next x v) h = Ok tt h' ∧ touched [x] h h' ∧ get_next x h' = Some v.
Proof.
  intros [c Hc]%elem_of_dom. exists (<[x := ListHead v (prev c)]> h).
  unfold updates, set_next. rewrite Hc. cbn. split; [done|]. split; [|unfold get_next; by rewrite lookup_insert_eq].
  split; [rewrite dom_insert_L; apply elem_of_dom_2 in Hc; set_solver|]. split.
  - intros z. unfold get_prev. destruct (decide (z = x)) as [->|]; [by rewrite lookup_insert_eq, Hc|].
    by rewrite lookup_insert_ne.
  - intros z Hz. unfold get_next. rewrite lookup_insert_ne; [done|]. set_solver.
Qed.

(** ** The merge of two chains *)
Definition le (x y : L) : Prop := (cmp x y <= 0)%Z.
Global Instance le_dec x y : Decision (le x y).
Proof. unfold le. apply _. Defined.

(** What [*tail] is going to continue: [d] is linked from [head] up to [tail]. *)
Definition partial (h : hp) (head : L) (tail : option L) (d : list L) : Prop :=
  match tail with
  | None => d = []
  | Some t => ∃ d', d = d' ++ [t] ∧ seg h head d' t ∧ t ∈ dom h
  end.

Lemma put_ok h head tail d v : partial h head tail d → NoDup d →
  ∃ h' head', put head tail v h = Ok head' h' ∧ seg h' head' d v ∧ touched d h h'.
Proof.
  destruct tail as [t|]; cbn.
  - intros (d' & -> & Hs & Ht) Hnd. destruct (set_next_ok h t v Ht) as (h' & E & T & Hn).
    exists h', head. run E. split; [done|]. apply NoDup_app in Hnd as (_ & Hd & _). split.
    + apply seg_snoc; [|done]. apply (seg_touched [t] h); [done|done|]. intros z Hz Hz'%list_elem_of_singleton.
      subst z. apply (Hd t Hz). by left.
    + destruct T as (T1 & T2 & T3). split; [done|]. split; [done|]. intros z Hz. apply T3. set_solver.
  - intros -> _. by exists h, v.
Qed.

Lemma seg_app h x l1 y l2 z : seg h x l1 y → seg h y l2 z → seg h x (l1 ++ l2) z.
Proof.
  revert x. induction l1 as [|u l1 IH]; intros x; cbn; [by intros ->|].
  intros (-> & w & Hw & Hl) H. split; [done|]. exists w. split; [done|]. by apply IH.
Qed.

(** A chain is empty exactly when it starts with the null pointer. *)
Lemma chain_null h x l : chain h x l → NULL ∉ dom h → x = NULL ↔ l = [].
Proof.
  intros Hc Hn. destruct l as [|y l]; [done|]. destruct Hc as (-> & w & Hw & _). split; [|done].
  intros ->. destruct Hn. by eapply get_next_dom.
Qed.

(** Moving the first element of a chain to the end of the merged part. *)
Lemma take_ok h head tail d x l : partial h head tail d → chain h x (x :: l) → NoDup (d ++ x :: l) → NULL ∉ dom h →
  ∃ h1 head1 w, put head tail x h = Ok head1 h1 ∧ reads (get_next x) h1 = Ok w h1 ∧ touched d h h1 ∧
    partial h1 head1 (Some x) (d ++ [x]) ∧ chain h1 w l ∧ (w = NULL ↔ l = []).
Proof.
  intros Hp Hc Hnd Hn. apply NoDup_app in Hnd as (Hd & Hx & Hl).
  destruct (put_ok h head tail d x Hp Hd) as (h1 & head1 & E & Hs & T).
  assert (x :: l ## d) as Hdis by (intros z Hz Hz'; by apply (Hx z)).
  pose proof (seg_touched d h h1 x (x :: l) NULL T Hc Hdis) as (_ & w & Hw & Hc1).
  exists h1, head1, w. split; [done|]. split; [unfold reads; by rewrite Hw|]. split; [done|].
  split; [exists d; split; [done|]; split; [done|by eapply get_next_dom]|]. split; [done|].
  apply (chain_null h1); [done|]. by rewrite (proj1 T).
Qed.

Lemma disjoint_snoc (d l l' : list L) x : NoDup (d ++ (x :: l) ++ l') → NoDup ((d ++ [x]) ++ l ++ l') ∧ l' ## d ++ [x].
Proof.
  intros Hnd. assert (NoDup ((d ++ [x]) ++ l ++ l')) as H by (by rewrite <- (app_assoc d)).
  split; [done|]. apply NoDup_app in H as (_ & H & _). intros z Hz Hz'. apply (H z Hz'). set_solver.
Qed.

Lemma NoDup_swap (d l l' : list L) : NoDup (d ++ l ++ l') → NoDup (d ++ l' ++ l).
Proof. by rewrite (Permutation_app_comm l'). Qed.

Lemma merge_loop n : ∀ la lb head tail d a b h, partial h head tail d → chain h a la → chain h b lb →
  la ≠ [] → lb ≠ [] → NoDup (d ++ la ++ lb) → NULL ∉ dom h → base.length la + base.length lb ≤ n →
  ∃ h' x, loop n merge_body (head, tail, a, b) h = Ok x h' ∧ chain h' x (d ++ list_merge le la lb) ∧
    touched (d ++ la ++ lb) h h'.
Proof.
  induction n as [|n IH]; intros la lb head tail d a b h Hp Ha Hb Hla Hlb Hnd Hn Hlen.
  { destruct la; [done|]. cbn in Hlen. lia. }
  destruct la as [|a0 la]; [done|]. destruct lb as [|b0 lb]; [done|].
  assert (a = a0) as -> by apply Ha. assert (b = b0) as -> by apply Hb.
  rewrite loop_S. unfold merge_body at 2. rewrite list_merge_cons. unfold le at 1. clear Hla Hlb.
  destruct (Z.leb_spec (cmp a0 b0) 0) as [Hc|Hc].
  - destruct (decide _) as [_|]; [|lia]. destruct (disjoint_snoc _ _ _ _ Hnd) as [Hnd1 Hdis].
    destruct (take_ok h head tail d a0 la Hp Ha) as (h1 & head1 & w & E & Er & T & Hp1 & Hc1 & Hw);
      [rewrite app_assoc in Hnd; by apply NoDup_app in Hnd as (? & _ & _)|done|].
    assert (chain h1 b0 (b0 :: lb)) as Hb1 by (eapply seg_touched; [exact T|done|]; set_solver).
    assert (NULL ∉ dom h1) as Hn1 by (by rewrite (proj1 T)).
    rewrite bind_assoc. run E. rewrite bind_assoc. run Er. destruct (decide (w = NULL)) as [Hw0|Hw0].
    + apply Hw in Hw0 as ->. rewrite bind_assoc.
      destruct (put_ok h1 head1 (Some a0) (d ++ [a0]) b0 Hp1) as (h2 & x & E2 & Hs2 & T2);
        [by apply NoDup_app in Hnd1 as (? & _)|].
      exists h2, x. run E2. split; [done|]. rewrite list_merge_nil_l, cons_middle, app_assoc.
      split; [eapply seg_app; [done|]; by eapply seg_touched|].
      eapply touched_trans; [eapply touched_trans; [exact T|exact T2|set_solver]|apply touched_refl|set_solver].
    + destruct (IH la (b0 :: lb) head1 (Some a0) (d ++ [a0]) w b0 h1) as (h' & x & E' & Hc' & T');
        [done|done|done|tauto|done|done|done|cbn in *; lia|].
      exists h', x. split; [exact E'|]. rewrite cons_middle, app_assoc. split; [done|].
      eapply touched_trans; [exact T| |set_solver]. by rewrite <- (app_assoc d) in T'.
  - destruct (decide _) as [|_]; [lia|]. apply NoDup_swap in Hnd. destruct (disjoint_snoc _ _ _ _ Hnd) as [Hnd1 Hdis].
    destruct (take_ok h head tail d b0 lb Hp Hb) as (h1 & head1 & w & E & Er & T & Hp1 & Hc1 & Hw);
      [rewrite app_assoc in Hnd; by apply NoDup_app in Hnd as (? & _ & _)|done|].
    assert (chain h1 a0 (a0 :: la)) as Ha1 by (eapply seg_touched; [exact T|done|]; set_solver).
    assert (NULL ∉ dom h1) as Hn1 by (by rewrite (proj1 T)).
    rewrite bind_assoc. run E. rewrite bind_assoc. run Er. destruct (decide (w = NULL)) as [Hw0|Hw0].
    + apply Hw in Hw0 as ->. rewrite bind_assoc.
      destruct (put_ok h1 head1 (Some b0) (d ++ [b0]) a0 Hp1) as (h2 & x & E2 & Hs2 & T2);
        [by apply NoDup_app in Hnd1 as (? & _)|].
      exists h2, x. run E2. split; [done|]. rewrite list_merge_nil_r, cons_middle, app_assoc.
      split; [eapply seg_app; [done|]; by eapply seg_touched|].
      eapply touched_trans; [eapply touched_trans; [exact T|exact T2|set_solver]|apply touched_refl|set_solver].
    + destruct (IH (a0 :: la) lb head1 (Some b0) (d ++ [b0]) a0 w h1) as (h' & x & E' & Hc' & T');
        [done|done|done|done|tauto|by apply NoDup_swap|done|cbn in *; lia|].
      exists h', x. split; [exact E'|]. rewrite cons_middle, app_assoc. split; [done|].
      eapply touched_trans; [exact T| |set_solver].
      destruct T' as (T1 & T2 & T3). split; [done|]. split; [done|]. intros z Hz. apply T3. set_solver.
Qed.

Lemma NoDup_size (h : hp) (l : list L) : NoDup l → (∀ z, z ∈ l → z ∈ dom h) → base.length l ≤ size h.
Proof.
  intros Hnd Hd. rewrite <- size_dom, <- (size_list_to_set (C := gset L) l Hnd). apply subseteq_size.
  intros z Hz%elem_of_list_to_set. by apply Hd.
Qed.

Lemma merge_ok h a la b lb : chain h a la → chain h b lb → la ≠ [] → lb ≠ [] → NoDup (la ++ lb) → NULL ∉ dom h →
  ∃ h' x, merge a b h = Ok x h' ∧ chain h' x (list_merge le la lb) ∧ touched (la ++ lb) h h'.
Proof.
  intros Ha Hb Hla Hlb Hnd Hn. unfold merge.
  apply (merge_loop (size h) la lb NULL None [] a b h); [exact eq_refl|done..|].
  rewrite <- length_app. apply NoDup_size; [done|].
  intros z [Hz|Hz]%elem_of_app; [exact (seg_dom _ _ _ _ _ Ha Hz)|exact (seg_dom _ _ _ _ _ Hb Hz)].
Qed.

(** ** The last merge *)

(** [h'] is [h] outside of [l]. *)
Definition framed (l : list L) (h h' : hp) : Prop := dom h' = dom h ∧ ∀ z, z ∉ l → h' !! z = h !! z.

Lemma framed_trans l l' h1 h2 h3 : framed l h1 h2 → framed l' h2 h3 → l ⊆ l' → framed l' h1 h3.
Proof. intros [D1 N1] [D2 N2] Hl. split; [congruence|]. intros z Hz. rewrite N2 by done. apply N1. set_solver. Qed.

Lemma set_prev_ok h x v : x ∈ dom h →
  ∃ h', updates (set_prev x v) h = Ok tt h' ∧ dom h' = dom h ∧ (∀ z, get_next z h' = get_next z h) ∧
    get_prev x h' = Some v ∧ ∀ z, z ≠ x → h' !! z = h !! z.
Proof.
  intros [c Hc]%elem_of_dom. exists (<[x := ListHead (next c) v]> h).
  unfold updates, set_prev. rewrite Hc. cbn. split; [done|].
  split; [rewrite dom_insert_L; apply elem_of_dom_2 in Hc; set_solver|]. split; [|split].
  - intros z. unfold get_next. destruct (decide (z = x)) as [->|]; [by rewrite lookup_insert_eq, Hc|].
    by rewrite lookup_insert_ne.
  - unfold get_prev. by rewrite lookup_insert_eq.
  - intros z Hz. by rewrite lookup_insert_ne.
Qed.

Lemma set_next_framed h x v : x ∈ dom h →
  ∃ h', updates (set_next x v) h = Ok tt h' ∧ dom h' = dom h ∧ (∀ z, get_prev z h' = get_prev z h) ∧
    get_next x h' = Some v ∧ ∀ z, z ≠ x → h' !! z = h !! z.
Proof.
  intros Hx. destruct (set_next_ok h x v Hx) as (h' & E & (D & P & _) & N). exists h'. do 4 (split; [done|]).
  apply elem_of_dom in Hx as [c Hc]. unfold updates, set_next in E. rewrite Hc in E. cbn in E. injection E as <-.
  intros z Hz. by rewrite lookup_insert_ne.
Qed.

Variable hd : L.

(** The elements [r] lead back from [t] to the head of the list, linked both ways. *)
Fixpoint back (h : hp) (t : L) (r : list L) : Prop :=
  match r with
  | [] => t = hd
  | y :: r => lnk h y t ∧ back h y r
  end.

Lemma back_frame h h' t r : back h t r → (∀ z, z ∈ r → get_next z h' = get_next z h) →
  (∀ z, z ∈ t :: r → get_prev z h' = get_prev z h) → back h' t r.
Proof.
  revert t. induction r as [|y r IH]; intros t; [done|]. intros [[H1 H2] Hb] Hn Hp. split.
  - split; [rewrite Hn; [done|by left]|rewrite Hp; [done|by left]].
  - apply IH; [done|..]; intros z Hz; [apply Hn|apply Hp]; by right.
Qed.

Lemma back_path h t r : back h t r → r ≠ [] → ∃ d, reverse r = hd :: d ∧ path h hd d t.
Proof.
  revert t. induction r as [|y r IH]; intros t; [done|]. intros [Hl Hb] _. rewrite reverse_cons.
  destruct r as [|y' r].
  - cbn in Hb. subst y. exists []. done.
  - destruct (IH y Hb ltac:(done)) as (d & -> & Hp). exists (d ++ [y]). split; [done|]. by apply path_app.
Qed.

(** Linking the first element of a chain behind [t]. *)
Lemma link_ok h t r x l : back h t r → t ∈ dom h → chain h x (x :: l) → NoDup ((t :: r) ++ x :: l) → NULL ∉ dom h →
  ∃ h0 h1 w, updates (set_next t x) h = Ok tt h0 ∧ updates (set_prev x t) h0 = Ok tt h1 ∧
    reads (get_next x) h1 = Ok w h1 ∧ back h1 x (t :: r) ∧ chain h1 w l ∧ (w = NULL ↔ l = []) ∧
    framed [t; x] h h1 ∧ (∀ z, z ≠ t → get_next z h1 = get_next z h).
Proof.
  intros Hb Ht Hc Hnd Hn. pose proof Hc as (_ & w & Hw & Hl).
  destruct (set_next_framed h t x Ht) as (h0 & E0 & D0 & P0 & N0 & F0).
  assert (x ∈ dom h0) as Hx by (rewrite D0; by eapply get_next_dom).
  destruct (set_prev_ok h0 x t Hx) as (h1 & E1 & D1 & N1 & P1 & F1).
  apply NoDup_app in Hnd as (Htr & Hdis & Hxl). apply NoDup_cons in Htr as [Htr _].
  assert (t ∉ x :: l) as Htx by (apply Hdis; by left).
  assert (∀ z, z ≠ t → get_next z h1 = get_next z h) as Hnext.
  { intros z Hz. rewrite N1. unfold get_next. by rewrite F0. }
  assert (seg h1 w l NULL) as Hl1 by (apply (seg_frame h); [done|]; intros z Hz; apply Hnext; set_solver).
  exists h0, h1, w. do 2 (split; [done|]). split; [|split; [|split; [done|split; [|split; [|done]]]]].
  - unfold reads. by rewrite Hnext, Hw by set_solver.
  - split; [split; [by rewrite N1|done]|]. apply (back_frame h); [done|..].
    + intros z Hz. apply Hnext. by intros ->.
    + intros z Hz. unfold get_prev. rewrite F1 by (intros ->; apply (Hdis x Hz); by left). apply P0.
  - apply (chain_null h1); [done|]. by rewrite D1, D0.
  - split; [congruence|]. intros z Hz. rewrite F1, F0; [done|set_solver..].
Qed.

Lemma NoDup_move (t x : L) (r l l' : list L) : NoDup ((t :: r) ++ (x :: l) ++ l') → NoDup ((x :: t :: r) ++ l ++ l').
Proof.
  intros H. change (NoDup (x :: (t :: r) ++ l ++ l')). by rewrite (Permutation_middle (t :: r) (l ++ l')).
Qed.

Lemma final_loop n : ∀ la lb t r a b h, back h t r → t ∈ dom h → chain h a la → chain h b lb → la ≠ [] → lb ≠ [] →
  NoDup ((t :: r) ++ la ++ lb) → NULL ∉ dom h → base.length la + base.length lb ≤ n →
  ∃ h' t' b' r' rest, loop n merge_final_body (t, a, b) h = Ok (t', b') h' ∧ back h' t' r' ∧ t' ∈ dom h' ∧
    chain h' b' rest ∧ rest ≠ [] ∧ reverse (t' :: r') ++ rest = reverse (t :: r) ++ list_merge le la lb ∧
    framed ((t :: r) ++ la ++ lb) h h'.
Proof.
  induction n as [|n IH]; intros la lb t r a b h Hbk Ht Ha Hb Hla Hlb Hnd Hn Hlen.
  { destruct la; [done|]. cbn in Hlen. lia. }
  destruct la as [|a0 la]; [done|]. destruct lb as [|b0 lb]; [done|].
  assert (a = a0) as -> by apply Ha. assert (b = b0) as -> by apply Hb.
  rewrite loop_S. unfold merge_final_body at 2. rewrite list_merge_cons. unfold le at 1. clear Hla Hlb.
  destruct (Z.leb_spec (cmp a0 b0) 0) as [Hc|Hc].
  - destruct (decide _) as [_|]; [|lia]. pose proof (NoDup_move _ _ _ _ _ Hnd) as Hnd1.
    destruct (link_ok h t r a0 la Hbk Ht Ha) as (h0 & h1 & w & E0 & E1 & Er & Hbk1 & Hc1 & Hw & F & N);
      [rewrite app_assoc in Hnd; by apply NoDup_app in Hnd as (? & _ & _)|done|].
    assert (t ∉ b0 :: lb) as Htb by (apply NoDup_app in Hnd as (_ & Hd & _); specialize (Hd t); set_solver).
    assert (chain h1 b0 (b0 :: lb)) as Hb1 by (apply (seg_frame h); [done|]; intros z Hz; apply N; by intros ->).
    assert (a0 ∈ dom h1) as Ha1 by (destruct Ha as (_ & u & Hu & _); rewrite (proj1 F); by eapply get_next_dom).
    rewrite bind_assoc. run E0. rewrite bind_assoc. run E1. rewrite bind_assoc. run Er.
    destruct (decide (w = NULL)) as [Hw0|Hw0].
    + apply Hw in Hw0 as ->. exists h1, a0, b0, (t :: r), (b0 :: lb). do 5 (split; [done|]). split.
      * rewrite list_merge_nil_l, reverse_cons, <- app_assoc. done.
      * eapply framed_trans; [exact F|by split|]. set_solver.
    + destruct (IH la (b0 :: lb) a0 (t :: r) w b0 h1) as (h' & t' & b' & r' & rest & E' & H1 & H2 & H3 & H4 & H5 & H6);
        [done|done|done|done|tauto|done|done|by rewrite (proj1 F)|cbn in *; lia|].
      exists h', t', b', r', rest. do 5 (split; [done|]). split.
      * rewrite H5, reverse_cons, <- app_assoc. done.
      * eapply framed_trans; [exact F| |]; [|set_solver].
        destruct H6 as [D6 N6]. split; [done|]. intros z Hz. apply N6. set_solver.
  - destruct (decide _) as [|_]; [lia|]. apply NoDup_swap in Hnd. pose proof (NoDup_move _ _ _ _ _ Hnd) as Hnd1.
    destruct (link_ok h t r b0 lb Hbk Ht Hb) as (h0 & h1 & w & E0 & E1 & Er & Hbk1 & Hc1 & Hw & F & N);
      [rewrite app_assoc in Hnd; by apply NoDup_app in Hnd as (? & _ & _)|done|].
    assert (t ∉ a0 :: la) as Hta by (apply NoDup_app in Hnd as (_ & Hd & _); specialize (Hd t); set_solver).
    assert (chain h1 a0 (a0 :: la)) as Ha1 by (apply (seg_frame h); [done|]; intros z Hz; apply N; by intros ->).
    assert (b0 ∈ dom h1) as Hb1 by (destruct Hb as (_ & u & Hu & _); rewrite (proj1 F); by eapply get_next_dom).
    rewrite bind_assoc. run E0. rewrite bind_assoc. run E1. rewrite bind_assoc. run Er.
    destruct (decide (w = NULL)) as [Hw0|Hw0].
    + apply Hw in Hw0 as ->. exists h1, b0, a0, (t :: r), (a0 :: la). do 5 (split; [done|]). split.
      * rewrite list_merge_nil_r, reverse_cons, <- app_assoc. done.
      * eapply framed_trans; [exact F|by split|]. set_solver.
    + destruct (IH (a0 :: la) lb b0 (t :: r) a0 w h1) as (h' & t' & b' & r' & rest & E' & H1 & H2 & H3 & H4 & H5 & H6);
        [done|done|done|done|done|tauto|by apply NoDup_swap|by rewrite (proj1 F)|cbn in *; lia|].
      exists h', t', b', r', rest. do 5 (split; [done|]). split.
      * rewrite H5, reverse_cons, <- app_assoc. done.
      * eapply framed_trans; [exact F| |]; [|set_solver].
        destruct H6 as [D6 N6]. split; [done|]. intros z Hz. apply N6. set_solver.
Qed.

Lemma relink_loop n : ∀ rest t r b h, back h t r → get_next t h = Some b → chain h b rest → rest ≠ [] →
  NoDup ((t :: r) ++ rest) → NULL ∉ dom h → base.length rest ≤ n →
  ∃ h' t' r', loop n relink_body (t, b) h = Ok t' h' ∧ back h' t' r' ∧ t' ∈ dom h' ∧
    reverse (t' :: r') = reverse (t :: r) ++ rest ∧ framed rest h h'.
Proof.
  induction n as [|n IH]; intros rest t r b h Hbk Hnx Hc Hrest Hnd Hn Hlen; [destruct rest; [done|cbn in Hlen; lia]|].
  destruct rest as [|b0 rest]; [done|]. pose proof Hc as (-> & w & Hw & Hc').
  destruct (set_prev_ok h b0 t) as (h1 & E & D & N & P & F); [by eapply get_next_dom|].
  assert (back h1 b0 (t :: r)) as Hbk1.
  { split; [split; [by rewrite N|done]|]. apply (back_frame h); [done|by intros z _; rewrite N|].
    intros z Hz. unfold get_prev. rewrite F; [done|]. intros ->. apply NoDup_app in Hnd as (_ & Hd & _).
    apply (Hd b0 Hz). by left. }
  assert (chain h1 w rest) as Hc1 by (apply (seg_frame h); [done|]; by intros z _; rewrite N).
  assert (framed [b0] h h1) as F1 by (split; [done|]; intros z Hz; apply F; set_solver).
  rewrite loop_S. unfold relink_body at 2. rewrite bind_assoc. run E. rewrite bind_assoc.
  rewrite (bind_ok _ _ h1 w h1) by (unfold reads; by rewrite N, Hw).
  pose proof (chain_null h1 w rest Hc1 ltac:(by rewrite D)) as Hw0. destruct (decide (w = NULL)) as [E0|Hne].
  - apply Hw0 in E0 as ->. exists h1, b0, (t :: r). split; [done|]. split; [done|].
    split; [rewrite D; by eapply get_next_dom|]. split; [by rewrite reverse_cons|]. done.
  - destruct (IH rest b0 (t :: r) w h1) as (h' & t' & r' & E' & H1 & H2 & H3 & H4);
      [done|by rewrite N|done|tauto| |by rewrite D|cbn in Hlen; lia|].
    { change ((b0 :: t :: r) ++ rest) with (b0 :: (t :: r) ++ rest). by rewrite (Permutation_middle (t :: r)). }
    exists h', t', r'. split; [exact E'|]. split; [done|]. split; [done|]. split.
    + rewrite H3, (reverse_cons (t :: r)), <- app_assoc. done.
    + eapply framed_trans; [exact F1| |]; [|set_solver]. destruct H4 as [D4 N4]. split; [done|]. set_solver.
Qed.

(** Closing the circle. *)
Lemma close_ok h t r l : back h t r → t ∈ dom h → hd ∈ dom h → reverse (t :: r) = hd :: l → l ≠ [] → NoDup (hd :: l) →
  ∃ h0 h1, updates (set_next t hd) h = Ok tt h0 ∧ updates (set_prev hd t) h0 = Ok tt h1 ∧ path h1 hd l hd ∧
    framed [t; hd] h h1.
Proof.
  intros Hb Ht Hh Hr Hl Hnd. rewrite reverse_cons in Hr.
  assert (r ≠ []) as Hrn by (intros ->; cbn in Hr; injection Hr as _ <-; done).
  destruct (back_path h t r Hb Hrn) as (d & Hd & Hp). rewrite Hd in Hr. injection Hr as <-.
  destruct (set_next_framed h t hd Ht) as (h0 & E0 & D0 & P0 & N0 & F0).
  destruct (set_prev_ok h0 hd t ltac:(by rewrite D0)) as (h1 & E1 & D1 & N1 & P1 & F1).
  apply NoDup_cons in Hnd as [Hhd Hnd]. apply NoDup_app in Hnd as (Hnd & Htd & _).
  exists h0, h1. do 2 (split; [done|]). split.
  - apply path_app. split; [|split; [by rewrite N1|done]].
    apply (path_frame h); [done|..].
    + intros z Hz. rewrite N1. unfold get_next. rewrite F0; [done|]. intros ->.
      apply elem_of_cons in Hz as [->|Hz]; [apply Hhd; set_solver|apply (Htd t Hz); by left].
    + intros z Hz. unfold get_prev. rewrite F1 by (intros ->; done). apply P0.
  - split; [congruence|]. intros z Hz. rewrite F1, F0; [done|set_solver..].
Qed.

Lemma list_merge_nonempty la lb : la ≠ [] → list_merge le la lb ≠ [].
Proof. intros Hla E. pose proof (merge_Permutation le la lb) as Hp. rewrite E in Hp. apply Permutation_nil_l in Hp. by destruct la. Qed.

Lemma merge_final_ok h a la b lb : chain h a la → chain h b lb → la ≠ [] → lb ≠ [] → NoDup (hd :: la ++ lb) →
  hd ∈ dom h → NULL ∉ dom h →
  ∃ h', merge_final hd a b h = Ok tt h' ∧ path h' hd (list_merge le la lb) hd ∧ framed (hd :: la ++ lb) h h'.
Proof.
  intros Ha Hb Hla Hlb Hnd Hh Hn. unfold merge_final.
  assert (∀ z, z ∈ la ++ lb → z ∈ dom h) as Hdom.
  { intros z [Hz|Hz]%elem_of_app; [exact (seg_dom _ _ _ _ _ Ha Hz)|exact (seg_dom _ _ _ _ _ Hb Hz)]. }
  assert (base.length (la ++ lb) ≤ size h) as Hlen by (apply NoDup_size; [by apply NoDup_cons in Hnd as [_ ?]|done]).
  destruct (final_loop (size h) la lb hd [] a b h) as (h1 & t & b' & r & rest & E1 & Hbk & Ht & Hc & Hne & Hrv & F1);
    [done|done|done|done|done|done|done|done|by rewrite <- length_app|].
  change (reverse [hd]) with [hd] in Hrv.
  assert (NoDup (reverse (t :: r) ++ rest)) as Hnd1.
  { rewrite Hrv. cbn. by rewrite merge_Permutation. }
  assert (NoDup ((t :: r) ++ rest)) as Hnd2 by (by rewrite reverse_Permutation in Hnd1).
  run E1. destruct (set_next_framed h1 t b' Ht) as (h2 & E2 & D2 & P2 & N2 & F2).
  pose proof Hnd2 as (Htr & Hdis & _)%NoDup_app. apply NoDup_cons in Htr as [Htr _].
  assert (back h2 t r) as Hbk2.
  { apply (back_frame h1); [done| |by intros z _]. intros z Hz. unfold get_next. rewrite F2; [done|by intros ->]. }
  assert (chain h2 b' rest) as Hc2.
  { apply (seg_frame h1); [done|]. intros z Hz. unfold get_next. rewrite F2; [done|]. intros ->. apply (Hdis t); [by left|done]. }
  run E2. destruct (relink_loop (size h) rest t r b' h2) as (h3 & t3 & r3 & E3 & Hbk3 & Ht3 & Hrv3 & F3);
    [done|done|done|done|done|by rewrite D2, (proj1 F1)| |].
  { assert (base.length ([hd] ++ list_merge le la lb) = base.length (hd :: la ++ lb)) as Hl
      by (cbn; by rewrite merge_Permutation). rewrite <- Hrv, length_app, length_reverse in Hl. cbn in Hl. lia. }
  run E3. pose proof Hrv3 as Hrv4. rewrite Hrv in Hrv3.
  change ([hd] ++ list_merge le la lb) with (hd :: list_merge le la lb) in Hrv3.
  assert (hd ∈ dom h3) as Hh3 by (by rewrite (proj1 F3), D2, (proj1 F1)).
  destruct (close_ok h3 t3 r3 (list_merge le la lb) Hbk3 Ht3 Hh3 Hrv3) as (h4 & h5 & E4 & E5 & Hp & F5);
    [by apply list_merge_nonempty|by rewrite merge_Permutation|].
  run E4. exists h5. split; [exact E5|]. split; [done|].
  assert (∀ z, z ∈ t3 :: rest ++ [t] → z ∈ hd :: la ++ lb) as Hsub.
  { intros z Hz. assert (z ∈ hd :: list_merge le la lb) as Hz'.
    { rewrite <- Hrv3. rewrite elem_of_cons, elem_of_app, list_elem_of_singleton in Hz.
      destruct Hz as [->|[Hz| ->]]; [apply elem_of_reverse; by left|rewrite Hrv4; apply elem_of_app; by right|].
      rewrite Hrv4. apply elem_of_app. left. apply elem_of_reverse. by left. }
    by rewrite merge_Permutation in Hz'. }
  split; [by rewrite (proj1 F5), (proj1 F3), D2, (proj1 F1)|]. intros z Hz.
  rewrite (proj2 F5), (proj2 F3), F2, (proj2 F1); [done|..]; intros Hz'; apply Hz; try (apply Hsub; set_solver).
Qed.

(** ** The list of pending lists *)

(** The chains [ls], each headed by the [prev] of the head before it, from [p] to [q]. *)
Fixpoint pseg (h : hp) (p : L) (ls : list (list L)) (q : L) : Prop :=
  match ls with
  | [] => p = q
  | c :: ls => chain h p c ∧ c ≠ [] ∧ ∃ w, get_prev p h = Some w ∧ pseg h w ls q
  end.

Lemma pseg_frame h h' p ls q : pseg h p ls q → (∀ z, z ∈ concat ls → h' !! z = h !! z) → pseg h' p ls q.
Proof.
  revert p. induction ls as [|c ls IH]; intros p; [done|]. intros (Hc & Hne & w & Hw & Hp) F. cbn in F.
  assert (p ∈ c) as Hpc by (destruct c; [done|]; destruct Hc as [-> _]; by left).
  split; [apply (seg_frame h); [done|]; intros z Hz; unfold get_next; rewrite F; set_solver|]. split; [done|].
  exists w. split; [unfold get_prev; rewrite F; [done|set_solver]|]. apply IH; [done|]. set_solver.
Qed.

Lemma pseg_app h p ls q ls' r : pseg h p ls q → pseg h q ls' r → pseg h p (ls ++ ls') r.
Proof.
  revert p. induction ls as [|c ls IH]; intros p; cbn; [by intros ->|].
  intros (Hc & Hne & w & Hw & Hp) H. do 2 (split; [done|]). exists w. split; [done|]. by apply IH.
Qed.

Lemma pseg_one h p c q : chain h p c → c ≠ [] → get_prev p h = Some q → pseg h p [c] q.
Proof. intros Hc Hne Hq. split; [done|]. split; [done|]. by exists q. Qed.

Lemma pseg_dom h p ls q z : pseg h p ls q → z ∈ concat ls → z ∈ dom h.
Proof.
  revert p. induction ls as [|c ls IH]; intros p; cbn; [by intros _ ?%elem_of_nil|].
  intros (Hc & Hne & w & Hw & Hp) [Hz|Hz]%elem_of_app; [by eapply seg_dom|by eapply IH].
Qed.

(** [tail] is the place that follows the pending lists [pre]; it holds [q]. *)
Definition cursor (h : hp) (p : L) (tail : option L) (pre : list (list L)) (q : L) : Prop :=
  match tail with
  | None => pre = [] ∧ p = q
  | Some y => ∃ pre' c, pre = pre' ++ [c] ∧ pseg h p pre' y ∧ chain h y c ∧ c ≠ [] ∧ get_prev y h = Some q
  end.

Lemma cursor_get h p tail pre q : cursor h p tail pre q → get_tail p tail h = Ok q h.
Proof.
  destruct tail as [y|]; cbn; [|by intros [_ ->]]. intros (pre' & c & _ & _ & _ & _ & Hq). unfold reads. by rewrite Hq.
Qed.

Lemma cursor_step h p tail pre q c w : cursor h p tail pre q → chain h q c → c ≠ [] → get_prev q h = Some w →
  cursor h p (Some q) (pre ++ [c]) w.
Proof.
  intros Hcur Hc Hne Hw. exists pre, c. split; [done|]. split; [|done]. destruct tail as [y|].
  - destruct Hcur as (pre' & c' & -> & Hp & Hc' & Hne' & Hq). eapply pseg_app; [done|]. by apply pseg_one.
  - by destruct Hcur as [-> ->].
Qed.

Lemma head_in h x c : chain h x c → c ≠ [] → x ∈ c ∧ x ∈ dom h.
Proof.
  intros Hc Hne. assert (x ∈ c) as Hx by (destruct c; [done|]; destruct Hc as [-> _]; by left).
  split; [done|by eapply seg_dom].
Qed.

(** Writing through the cursor. *)
Lemma cursor_set h p tail pre q v ls : cursor h p tail pre q → pseg h v ls NULL → NoDup (concat (pre ++ ls)) →
  ∃ h' p', set_tail p tail v h = Ok p' h' ∧ pseg h' p' (pre ++ ls) NULL ∧ framed (concat pre) h h'.
Proof.
  destruct tail as [y|]; cbn.
  - intros (pre' & c & -> & Hp & Hc & Hne & Hq) Hls Hnd. destruct (head_in h y c Hc Hne) as [Hy Hyd].
    destruct (set_prev_ok h y v Hyd) as (h' & E & D & N & P & F).
    rewrite !concat_app in Hnd. cbn in Hnd. rewrite app_nil_r in Hnd.
    apply NoDup_app in Hnd as (Hnd & Hd1 & _). apply NoDup_app in Hnd as (_ & Hd2 & _).
    exists h', p. run E. split; [done|]. split.
    + eapply pseg_app; [eapply pseg_app; [apply (pseg_frame h); [exact Hp|]|]|apply (pseg_frame h); [exact Hls|]].
      * intros z Hz. apply F. intros ->. by apply (Hd2 y).
      * apply pseg_one; [apply (seg_frame h); [done|]; by intros z _; rewrite N|done|done].
      * intros z Hz. apply F. intros ->. apply (Hd1 y); [set_solver|done].
    + split; [done|]. intros z Hz. apply F. intros ->. apply Hz. rewrite concat_app. cbn. set_solver.
  - intros [-> ->] Hls _. by exists h, v.
Qed.

Lemma lookup_links (h h' : hp) z : get_next z h' = get_next z h → get_prev z h' = get_prev z h → h' !! z = h !! z.
Proof.
  unfold get_next, get_prev. destruct (h' !! z) as [[n1 p1]|], (h !! z) as [[n2 p2]|]; cbn; congruence.
Qed.

Lemma merge_pending_ok h p tail pre q ca cb post : cursor h p tail pre q → pseg h q (ca :: cb :: post) NULL →
  NoDup (concat (pre ++ ca :: cb :: post)) → NULL ∉ dom h →
  ∃ h' p', merge_pending p tail h = Ok p' h' ∧ pseg h' p' (pre ++ list_merge le cb ca :: post) NULL ∧
    framed (concat (pre ++ ca :: cb :: post)) h h'.
Proof.
  intros Hcur (Ha & Hna & b & Hb & (Hcb & Hnb & r & Hr & Hpost)) Hnd Hn. unfold merge_pending.
  rewrite concat_app in Hnd. cbn in Hnd.
  assert (NoDup (cb ++ ca) ∧ concat pre ## ca ++ cb ∧ concat post ## ca ++ cb) as (Hnd' & Hd1 & Hd2).
  { apply NoDup_app in Hnd as (_ & Hd & Hnd). rewrite app_assoc in Hnd. apply NoDup_app in Hnd as (Hnd & Hd' & _).
    split; [by rewrite Permutation_app_comm|]. split; [|set_solver]. intros z Hz Hz'. apply (Hd z Hz). set_solver. }
  destruct (merge_ok h b cb q ca Hcb Ha Hnb Hna Hnd' Hn) as (h1 & x & E1 & Hx & T).
  rewrite (bind_ok _ _ h q h (cursor_get _ _ _ _ _ Hcur)).
  rewrite (bind_ok _ _ h b h) by (unfold reads; by rewrite Hb). run E1.
  rewrite (bind_ok _ _ h1 r h1) by (unfold reads; by rewrite (proj1 (proj2 T)), Hr).
  destruct (head_in h1 x _ Hx (list_merge_nonempty _ _ Hnb)) as [Hxm Hxd]. rewrite merge_Permutation in Hxm.
  destruct (set_prev_ok h1 x r Hxd) as (h2 & E2 & D2 & N2 & P2 & F2). run E2.
  assert (framed (ca ++ cb) h h2) as F.
  { split; [by rewrite D2, (proj1 T)|]. intros z Hz. rewrite F2 by set_solver. destruct T as (D & P & N).
    apply lookup_links; [apply N; set_solver|apply P]. }
  assert (pseg h2 x (list_merge le cb ca :: post) NULL) as Hp2.
  { split; [apply (seg_frame h1); [done|]; by intros z _; rewrite N2|]. split; [by apply list_merge_nonempty|].
    exists r. split; [done|]. apply (pseg_frame h); [done|]. intros z Hz. apply F. intros Hz'. by apply (Hd2 z). }
  assert (cursor h2 p tail pre q) as Hcur2.
  { destruct tail as [y|]; [|done]. destruct Hcur as (pre' & c & -> & Hp & Hc & Hne & Hq).
    destruct (head_in h y c Hc Hne) as [Hy _]. rewrite concat_app in Hd1. cbn in Hd1.
    assert (∀ z, z ∈ concat pre' ++ c → h2 !! z = h !! z) as Fp.
    { intros z Hz. apply F. intros Hz'. apply (Hd1 z); [|done]. set_solver. }
    exists pre', c. split; [done|]. split; [apply (pseg_frame h); [done|]; set_solver|].
    split; [apply (seg_frame h); [done|]; intros z Hz; unfold get_next; rewrite Fp; set_solver|].
    split; [done|]. unfold get_prev. rewrite Fp; [done|set_solver]. }
  destruct (cursor_set h2 p tail pre q x _ Hcur2 Hp2) as (h3 & p' & E3 & Hp3 & F3).
  { rewrite concat_app. cbn. by rewrite merge_Permutation, <- (app_assoc cb), (Permutation_app_swap_app cb). }
  exists h3, p'. split; [exact E3|]. split; [done|]. rewrite concat_app. cbn.
  split; [by rewrite (proj1 F3), (proj1 F)|]. intros z Hz. rewrite (proj2 F3), (proj2 F); [done|set_solver..].
Qed.

(** ** The counter *)

(** [z] has [n] significant bits. *)
Definition nbits (n : nat) (z : Z) : Prop :=
  match n with O => z = 0 | S n => 2 ^ Z.of_nat n <= z < 2 ^ Z.of_nat (S n) end%Z.

Lemma nbits_range n z : nbits n z → (0 <= z < 2 ^ Z.of_nat n)%Z.
Proof. destruct n as [|n]; cbn [nbits]; [intros ->; done|]. pose proof (Z.pow_pos_nonneg 2 (Z.of_nat n)). lia. Qed.

Lemma nbits_half n z : nbits (S n) z → nbits n (z / 2).
Proof.
  cbn [nbits]. destruct n as [|n]; cbn [nbits]; [intros H; apply Z.div_small; change (2 ^ Z.of_nat 1)%Z with 2%Z in H; lia|].
  rewrite !Nat2Z.inj_succ, !Z.pow_succ_r by lia. intros H. split.
  - apply Z.div_le_lower_bound; lia.
  - apply Z.div_lt_upper_bound; lia.
Qed.

(** The number of significant bits of [count + 1], where [count] ends with a zero and
    [k] ones. *)
Lemma nbits_succ k n b : nbits n b → (b mod 2 = 0)%Z → b ≠ 0%Z → nbits (k + n) (2 ^ Z.of_nat k * (b + 1)).
Proof.
  destruct n as [|n]; cbn [nbits]; [done|]. intros H Hm Hb. rewrite Nat.add_succ_r. cbn [nbits].
  rewrite !Nat2Z.inj_succ, Z.pow_succ_r in * by lia. rewrite !Nat2Z.inj_add, !Z.pow_add_r by lia.
  pose proof (Z.pow_pos_nonneg 2 (Z.of_nat k)). pose proof (Z.pow_pos_nonneg 2 (Z.of_nat n)).
  assert (b + 1 < 2 * 2 ^ Z.of_nat n)%Z by (pose proof (Z.div_mod b 2); lia). nia.
Qed.

Lemma nbits_pow k : nbits (S k) (2 ^ Z.of_nat k).
Proof. cbn [nbits]. rewrite Nat2Z.inj_succ, Z.pow_succ_r by lia. pose proof (Z.pow_pos_nonneg 2 (Z.of_nat k)). lia. Qed.

(** The search stops behind as many lists as [count] has low ones. *)
Lemma find_loop n : ∀ ls h p tail pre q bits, cursor h p tail pre q → pseg h q ls NULL →
  nbits (base.length ls) bits → base.length ls < n →
  ∃ b tail' pre' ls' q', loop n (find_body p) (bits, tail) h = Ok (b, tail') h ∧ cursor h p tail' pre' q' ∧
    pseg h q' ls' NULL ∧ pre ++ ls = pre' ++ ls' ∧ nbits (base.length ls') b ∧ (b mod 2 = 0)%Z ∧
    (2 ^ Z.of_nat (base.length pre) * (bits + 1) = 2 ^ Z.of_nat (base.length pre') * (b + 1))%Z.
Proof.
  induction n as [|n IH]; intros ls h p tail pre q bits Hcur Hp Hb Hlen; [lia|].
  rewrite loop_S. unfold find_body at 2. rewrite Z.bit0_odd. destruct (Z.odd bits) eqn:Hodd.
  - apply Z.odd_spec in Hodd as [m Hm].
    destruct ls as [|c ls]; [cbn in Hb; lia|]. destruct Hp as (Hc & Hne & w & Hw & Hp).
    rewrite bind_assoc, (bind_ok _ _ h q h (cursor_get _ _ _ _ _ Hcur)).
    pose proof (nbits_half _ _ Hb) as Hb'. rewrite <- Z.div2_spec, Z.div2_div.
    destruct (IH ls h p (Some q) (pre ++ [c]) w (bits / 2)%Z) as (b & tail' & pre' & ls' & q' & E & H1 & H2 & H3 & H4 & H5 & H6);
      [by eapply cursor_step|done|done|cbn in Hlen; lia|].
    exists b, tail', pre', ls', q'. split; [exact E|]. split; [done|]. split; [done|].
    split; [by rewrite <- H3, <- app_assoc|]. split; [done|]. split; [done|].
    rewrite <- H6, length_app, Nat2Z.inj_add, Z.pow_add_r by lia. change (2 ^ Z.of_nat (base.length [c]))%Z with 2%Z.
    replace (bits / 2)%Z with m; [subst bits; ring|]. subst bits. apply (Z.div_unique _ _ _ 1); lia.
  - exists bits, tail, pre, ls, q. split; [done|]. split; [done|]. split; [done|]. split; [done|]. split; [done|].
    split; [|done]. by rewrite Zmod_odd, Hodd.
Qed.

(** ** Stability *)
Context `{!Transitive le} `{!Total le}.

(** [cmp] does not tell [x] and [y] apart. *)
Definition equi (x y : L) : Prop := le x y ∧ le y x.
Global Instance equi_dec x y : Decision (equi x y).
Proof. unfold equi. apply _. Defined.

(** The elements of [l] in another order, which is the same among equivalent ones. *)
Definition stable (l l' : list L) : Prop := l ≡ₚ l' ∧ ∀ x, filter (equi x) l = filter (equi x) l'.

Lemma stable_trans l1 l2 l3 : stable l1 l2 → stable l2 l3 → stable l1 l3.
Proof. intros [P1 F1] [P2 F2]. split; [by rewrite P1|]. intros x. by rewrite F1. Qed.

Lemma stable_app l1 l1' l2 l2' : stable l1 l1' → stable l2 l2' → stable (l1 ++ l2) (l1' ++ l2').
Proof. intros [P1 F1] [P2 F2]. split; [by rewrite P1, P2|]. intros x. by rewrite !filter_app, F1, F2. Qed.

Lemma stable_refl l : stable l l.
Proof. done. Qed.

Lemma strict_above x b l : equi x b → Forall (λ a, ¬ le a b) l → filter (equi x) l = [].
Proof.
  intros [Hxb Hbx] Hl. induction Hl as [|a l Ha _ IH]; [done|]. rewrite filter_cons_False; [done|].
  intros [_ Hax]. apply Ha. by trans x.
Qed.

Lemma merge_filter x l1 l2 : StronglySorted le l1 →
  filter (equi x) (list_merge le l1 l2) = filter (equi x) l1 ++ filter (equi x) l2.
Proof.
  intros H1. revert l2. induction H1 as [|a l1 H1 IH1 Ha]; intros l2; [by rewrite list_merge_nil_l|].
  induction l2 as [|b l2 IH2]; [by rewrite list_merge_nil_r, app_nil_r|].
  rewrite list_merge_cons. destruct (decide (le a b)) as [Hab|Hab].
  - destruct (decide (equi x a)) as [Hx|Hx].
    + by rewrite !(filter_cons_True _ a), IH1.
    + by rewrite !(filter_cons_False _ a), IH1.
  - destruct (decide (equi x b)) as [Hx|Hx]; [|by rewrite !(filter_cons_False _ b)].
    assert (filter (equi x) (a :: l1) = []) as Hnil.
    { apply (strict_above x b); [done|]. constructor; [done|]. eapply Forall_impl; [exact Ha|].
      intros a' Haa' Ha'. apply Hab. by trans a'. }
    rewrite !(filter_cons_True _ b), IH2 by done. by rewrite Hnil.
Qed.

Lemma merge_stable l1 l2 : StronglySorted le l1 → stable (list_merge le l1 l2) (l1 ++ l2).
Proof. intros H. split; [apply merge_Permutation|]. intros x. by rewrite filter_app, merge_filter. Qed.

Lemma merge_sorted l1 l2 : StronglySorted le l1 → StronglySorted le l2 → StronglySorted le (list_merge le l1 l2).
Proof. intros H1 H2. apply Sorted_StronglySorted; [done|]. by apply Sorted_list_merge; [apply _|apply StronglySorted_Sorted..]. Qed.

(** The elements of the pending lists, in the order of the input. *)
Definition in_order (ls : list (list L)) : list L := concat (reverse ls).

Lemma in_order_cons c ls : in_order (c :: ls) = in_order ls ++ c.
Proof. unfold in_order. by rewrite reverse_cons, concat_app; cbn; rewrite app_nil_r. Qed.

Lemma in_order_app ls ls' : in_order (ls ++ ls') = in_order ls' ++ in_order ls.
Proof. unfold in_order. by rewrite reverse_app, concat_app. Qed.

Lemma in_order_Permutation ls : in_order ls ≡ₚ concat ls.
Proof.
  induction ls as [|c ls IH]; [done|]. rewrite in_order_cons, IH. cbn. apply Permutation_app_comm.
Qed.

Lemma in_order_merge pre ca cb post : StronglySorted le cb →
  stable (in_order (pre ++ list_merge le cb ca :: post)) (in_order (pre ++ ca :: cb :: post)).
Proof.
  intros H. rewrite !in_order_app, !in_order_cons. apply stable_app; [|done]. rewrite <- app_assoc.
  apply stable_app; [done|]. by apply merge_stable.
Qed.

(** ** The rounds *)

Lemma nbits_le n z : nbits n z → (z < 2 ^ 64)%Z → n < 65.
Proof.
  intros H Hz. destruct n as [|n]; [lia|]. cbn [nbits] in H.
  assert (Z.of_nat n < 64)%Z; [|lia]. apply (Z.pow_lt_mono_r_iff 2); lia.
Qed.

Lemma merge_selected_ok h p ls count : pseg h p ls NULL → NoDup (concat ls) → Forall (StronglySorted le) ls →
  nbits (base.length ls) count → (count < 2 ^ 64)%Z → NULL ∉ dom h →
  ∃ h' p' ls', merge_selected p count h = Ok p' h' ∧ pseg h' p' ls' NULL ∧ Forall (StronglySorted le) ls' ∧
    stable (in_order ls') (in_order ls) ∧ nbits (S (base.length ls')) (count + 1) ∧ framed (concat ls) h h'.
Proof.
  intros Hp Hnd Hs Hb Hc Hn. unfold merge_selected.
  destruct (find_loop 65 ls h p None [] p count) as (b & tail & pre & ls' & q & E & Hcur & Hq & Hls & Hb' & Hm & Hk);
    [done|done|done|by eapply nbits_le|].
  run E. cbn in Hls, Hk. rewrite Z.mul_1_l in Hk. subst ls. destruct (Z.eqb_spec b 0) as [->|Hb0].
  - assert (ls' = []) as ->.
    { destruct ls' as [|c ls']; [done|]. cbn [base.length nbits] in Hb'. pose proof (Z.pow_pos_nonneg 2 (Z.of_nat (base.length ls'))). lia. }
    exists h, p, (pre ++ []). split; [done|]. do 3 (split; [done|]). split; [|done].
    rewrite Hk, Z.mul_1_r, app_nil_r. apply nbits_pow.
  - destruct ls' as [|ca [|cb post]].
    + done.
    + cbn [base.length nbits] in Hb'. change (2 ^ Z.of_nat 0)%Z with 1%Z in Hb'. change (2 ^ Z.of_nat 1)%Z with 2%Z in Hb'.
      assert (b = 1)%Z as -> by lia. done.
    + destruct (merge_pending_ok h p tail pre q ca cb post Hcur Hq Hnd Hn) as (h' & p' & E' & Hp' & F).
      apply Forall_app in Hs as [Hs1 Hs2]. inversion_clear Hs2 as [|?? Hsa Hs3]. inversion_clear Hs3 as [|?? Hsb Hs4].
      exists h', p', (pre ++ list_merge le cb ca :: post). split; [exact E'|]. split; [done|].
      split; [apply Forall_app; split; [done|]; constructor; [by apply merge_sorted|done]|].
      split; [by apply in_order_merge|]. split; [|done].
      replace (S _) with (base.length pre + base.length (ca :: cb :: post)); [rewrite Hk; by apply nbits_succ|].
      rewrite length_app. cbn. lia.
Qed.

Lemma round_ok h x inp p ls count : chain h x (x :: inp) → pseg h p ls NULL → NoDup (concat ls ++ x :: inp) →
  Forall (StronglySorted le) ls → nbits (base.length ls) count → (count < 2 ^ 64)%Z → NULL ∉ dom h →
  ∃ h' w ls', sort_body (x, p, count) h = Ok (if decide (w = NULL) then inr x else inl (w, x, u64 (count + 1))) h' ∧
    chain h' w inp ∧ pseg h' x ([x] :: ls') NULL ∧ Forall (StronglySorted le) ls' ∧ stable (in_order ls') (in_order ls) ∧
    nbits (S (base.length ls')) (count + 1) ∧ framed (concat ls ++ [x]) h h'.
Proof.
  intros Hx Hp Hnd Hs Hb Hc Hn. apply NoDup_app in Hnd as (Hnd & Hdis & Hndx). apply NoDup_cons in Hndx as [Hxi _].
  destruct (merge_selected_ok h p ls count) as (h1 & p1 & ls1 & E1 & Hp1 & Hs1 & Hst & Hb1 & F1); [done..|].
  assert (∀ z, z ∈ concat ls1 ↔ z ∈ concat ls) as Hel.
  { intros z. by rewrite <- (in_order_Permutation ls1), (proj1 Hst), in_order_Permutation. }
  pose proof Hx as (_ & w & Hw & Hi). assert (x ∉ concat ls) as Hxl by (intros Hz; apply (Hdis x Hz); by left).
  assert (x ∈ dom h1) as Hx1 by (rewrite (proj1 F1); by eapply get_next_dom).
  destruct (set_prev_ok h1 x p1 Hx1) as (h2 & E2 & D2 & N2 & P2 & F2).
  destruct (set_next_framed h2 x NULL ltac:(by rewrite D2)) as (h3 & E3 & D3 & P3 & N3 & F3).
  assert (∀ z, z ≠ x → h3 !! z = h1 !! z) as F31 by (intros z Hz; by rewrite F3, F2).
  exists h3, w, ls1. split; [|split; [|split; [|split; [done|split; [done|split; [done|]]]]]].
  - unfold sort_body. run E1. run E2. rewrite (bind_ok _ _ h2 w h2); [run E3; by destruct (decide _)|].
    unfold reads. rewrite N2. unfold get_next. rewrite (proj2 F1) by done. unfold get_next in Hw. by rewrite Hw.
  - apply (seg_frame h); [done|]. intros z Hz. unfold get_next. rewrite F31, (proj2 F1); [done| |by intros ->].
    intros Hz'. apply (Hdis z Hz'). by right.
  - split; [split; [done|]; by exists NULL|]. split; [done|]. exists p1. split; [by rewrite P3|].
    apply (pseg_frame h1); [done|]. intros z Hz%Hel. apply F31. by intros ->.
  - split; [by rewrite D3, D2, (proj1 F1)|]. intros z Hz. rewrite F31, (proj2 F1); [done|set_solver..].
Qed.

Lemma sort_loop n : ∀ inp x h p ls count, chain h x (x :: inp) → pseg h p ls NULL → NoDup (concat ls ++ x :: inp) →
  Forall (StronglySorted le) ls → nbits (base.length ls) count →
  (count + Z.of_nat (base.length (x :: inp)) < 2 ^ 64)%Z → NULL ∉ dom h → base.length (x :: inp) ≤ n →
  ∃ h' y ls', loop n sort_body (x, p, count) h = Ok y h' ∧ pseg h' y ([y] :: ls') NULL ∧
    Forall (StronglySorted le) ls' ∧ stable (in_order ([y] :: ls')) (in_order ls ++ x :: inp) ∧
    nbits (S (base.length ls')) (count + Z.of_nat (base.length (x :: inp))) ∧ framed (concat ls ++ x :: inp) h h'.
Proof.
  induction n as [|n IH]; intros inp x h p ls count Hx Hp Hnd Hs Hb Hc Hn Hlen; [cbn in Hlen; lia|].
  destruct (round_ok h x inp p ls count) as (h1 & w & ls1 & E1 & Hw & Hp1 & Hs1 & Hst & Hb1 & F1);
    [done|done|done|done|done|cbn [base.length] in Hc; lia|done|].
  rewrite loop_S. run E1. assert (NULL ∉ dom h1) as Hn1 by (by rewrite (proj1 F1)).
  pose proof (chain_null _ _ _ Hw Hn1) as Hw0.
  assert (stable (in_order ([x] :: ls1) ++ inp) (in_order ls ++ x :: inp)) as Hst1.
  { rewrite in_order_cons, <- app_assoc. by apply stable_app. }
  destruct (decide (w = NULL)) as [Hwn|Hwn].
  - apply Hw0 in Hwn as ->. exists h1, x, ls1. rewrite app_nil_r in Hst1. done.
  - destruct inp as [|w' inp]; [by destruct Hwn; apply Hw0|]. assert (w = w') as <- by apply Hw.
    pose proof (nbits_range _ _ Hb). cbn [base.length] in Hc, Hlen |- *.
    replace (u64 (count + 1)) with (count + 1)%Z by (symmetry; apply Z.mod_small; lia).
    destruct (IH inp w h1 x ([x] :: ls1) (count + 1)%Z) as (h' & y & ls' & E' & H1 & H2 & H3 & H4 & H5);
      [done|done| |by constructor; [repeat constructor|]|done|cbn [base.length]; lia|done|cbn [base.length]; lia|].
    { rewrite <- in_order_Permutation, (proj1 Hst1). by rewrite in_order_Permutation. }
    exists h', y, ls'. split; [exact E'|]. split; [done|]. split; [done|].
    split; [by eapply stable_trans|]. cbn [base.length] in H4.
    split; [by replace (count + Z.of_nat (S (S (base.length inp))))%Z with (count + 1 + Z.of_nat (S (base.length inp)))%Z by lia|].
    destruct H5 as [D5 F5]. split; [by rewrite D5, (proj1 F1)|]. intros z Hz.
    assert (z ∉ concat ([x] :: ls1) ++ w :: inp) as Hz1.
    { by rewrite <- in_order_Permutation, (proj1 Hst1), in_order_Permutation. }
    rewrite F5, (proj2 F1); [done|set_solver|done].
Qed.

(** ** The end of the input *)
Lemma collect_loop n : ∀ ls x c h p, chain h x c → c ≠ [] → StronglySorted le c → pseg h p ls NULL → ls ≠ [] →
  Forall (StronglySorted le) ls → NoDup (concat ls ++ c) → NULL ∉ dom h → base.length ls ≤ n →
  ∃ h' x' p' c1 c2, loop n collect_body (x, p) h = Ok (x', p') h' ∧ chain h' p' c1 ∧ chain h' x' c2 ∧ c1 ≠ [] ∧ c2 ≠ [] ∧
    StronglySorted le c1 ∧ StronglySorted le c2 ∧ stable (c1 ++ c2) (in_order ls ++ c) ∧ framed (concat ls ++ c) h h'.
Proof.
  induction n as [|n IH]; intros ls x c h p Hx Hne Hsc Hp Hls Hs Hnd Hn Hlen; [destruct ls; [done|cbn in Hlen; lia]|].
  destruct ls as [|c1 ls]; [done|]. destruct Hp as (Hc1 & Hne1 & q & Hq & Hp). inversion_clear Hs as [|?? Hs1 Hs'].
  rewrite loop_S. unfold collect_body at 2. rewrite bind_assoc, (bind_ok _ _ h q h) by (unfold reads; by rewrite Hq).
  destruct ls as [|c2 ls].
  - cbn in Hp. subst q. rewrite decide_True by done. exists h, x, p, c1, c. do 7 (split; [done|]).
    by rewrite in_order_cons.
  - rewrite decide_False.
    2:{ destruct Hp as (Hc2 & Hne2 & _). intros ->. destruct (head_in _ _ _ Hc2 Hne2). done. }
    cbn [concat] in Hnd. rewrite <- app_assoc in Hnd.
    assert (NoDup (c1 ++ c) ∧ concat (c2 :: ls) ## c1 ++ c) as [Hnd1 Hd].
    { rewrite (Permutation_app_swap_app c1) in Hnd. apply NoDup_app in Hnd as (_ & Hd & Hnd). done. }
    destruct (merge_ok h p c1 x c Hc1 Hx Hne1 Hne Hnd1 Hn) as (h1 & x1 & E1 & Hx1 & T).
    assert (framed (c1 ++ c) h h1) as F.
    { destruct T as (D & P & N). split; [done|]. intros z Hz. apply lookup_links; [by apply N|apply P]. }
    assert (pseg h1 q (c2 :: ls) NULL) as Hp1.
    { apply (pseg_frame h); [done|]. intros z Hz. apply F. intros Hz'. by apply (Hd z). }
    rewrite bind_assoc. run E1.
    destruct (IH (c2 :: ls) x1 (list_merge le c1 c) h1 q) as (h' & x' & p' & d1 & d2 & E' & H1 & H2 & H3 & H4 & H5 & H6 & H7 & H8);
      [done|by apply list_merge_nonempty|by apply merge_sorted|done|done|done| |by rewrite (proj1 F)|cbn in *; lia|].
    { by rewrite merge_Permutation, (Permutation_app_swap_app _ c1). }
    exists h', x', p', d1, d2. split; [exact E'|]. do 6 (split; [done|]). split.
    + eapply stable_trans; [exact H7|]. rewrite (in_order_cons c1), <- app_assoc. apply stable_app; [done|].
      by apply merge_stable.
    + cbn [concat]. rewrite <- (app_assoc c1). destruct H8 as [D8 F8]. split; [by rewrite D8, (proj1 F)|]. intros z Hz.
      rewrite F8, (proj2 F); [done|set_solver|]. rewrite merge_Permutation. set_solver.
Qed.

Lemma path_seg h x l y z : path h x l y → get_next x h = Some z → seg h z l y.
Proof.
  revert x z. induction l as [|u l IH]; intros x z; cbn; [intros [H _]; congruence|].
  intros [[H _] Hp] Hz. split; [congruence|]. pose proof (path_first _ _ _ _ Hp) as Hw.
  eexists. split; [exact Hw|]. by eapply IH.
Qed.

(** The elements of a circular list as a chain. *)
Lemma unlink_ok h l t : dlist h hd (l ++ [t]) → NULL ∉ dom h →
  ∃ h' x, get_next hd h = Some x ∧ get_prev hd h = Some t ∧ updates (set_next t NULL) h = Ok tt h' ∧
    chain h' x (l ++ [t]) ∧ framed [t] h h'.
Proof.
  intros Hd Hn. pose proof Hd as [Hnd Hp]. apply path_app in Hp as [Hp Ht].
  destruct (set_next_framed h t NULL) as (h' & E & D & P & N & F); [eapply dlist_dom; [done|set_solver]|].
  pose proof (path_first _ _ _ _ Hp) as Hx. exists h'. eexists. split; [exact Hx|]. split; [by apply Ht|]. split; [done|].
  apply NoDup_cons in Hnd as [_ Hnd]. apply NoDup_app in Hnd as (_ & Hdis & _). split.
  - apply seg_snoc; [|done]. apply (seg_frame h); [by eapply path_seg|]. intros z Hz. unfold get_next. rewrite F; [done|].
    intros ->. apply (Hdis t Hz). by left.
  - split; [done|]. intros z Hz. apply F. set_solver.
Qed.

Lemma nbits_lin n z : nbits (S n) z → (Z.of_nat n < z)%Z.
Proof. cbn [nbits]. pose proof (Z.pow_gt_lin_r 2 (Z.of_nat n)). lia. Qed.

(** Both loops: two sorted chains are left. *)
Lemma sort_chain_ok n h x l : chain h x (x :: l) → l ≠ [] → NoDup (x :: l) → NULL ∉ dom h →
  (Z.of_nat (base.length (x :: l)) < 2 ^ 64)%Z → base.length (x :: l) ≤ n →
  ∃ h2 y p h' x' p' c1 c2, loop n sort_body (x, NULL, 0%Z) h = Ok y h2 ∧ reads (get_prev y) h2 = Ok p h2 ∧
    loop n collect_body (y, p) h2 = Ok (x', p') h' ∧ chain h' p' c1 ∧ chain h' x' c2 ∧ c1 ≠ [] ∧ c2 ≠ [] ∧
    StronglySorted le c1 ∧ StronglySorted le c2 ∧ stable (c1 ++ c2) (x :: l) ∧ framed (x :: l) h h'.
Proof.
  intros Hc Hl Hnd Hn Hlen Hsz.
  destruct (sort_loop n l x h NULL [] 0) as (h2 & y & ls & E2 & Hp & Hs & Hst & Hb & F2);
    [done|done|done|constructor|done|done|done|done|].
  destruct Hp as (Hy & _ & p & Hpy & Hp). rewrite in_order_cons in Hst. cbn [in_order reverse concat app] in Hst.
  assert (NoDup (concat ls ++ [y])) as Hnd2 by (rewrite <- in_order_Permutation, (proj1 Hst); done).
  destruct (collect_loop n ls y [y] h2 p)
    as (h3 & x3 & p3 & c1 & c2 & E3 & H1 & H2 & Hne1 & Hne2 & Hs1 & Hs2 & Hst3 & F3);
    [done|done|repeat constructor|done| |done|done|by rewrite (proj1 F2)| |].
  { intros ->. destruct l as [|t l]; [done|]. cbn in Hb. lia. }
  { apply nbits_lin in Hb. lia. }
  exists h2, y, p, h3, x3, p3, c1, c2. split; [done|]. split; [unfold reads; by rewrite Hpy|]. do 7 (split; [done|]).
  split; [by eapply stable_trans|]. eapply framed_trans; [exact F2|split; [by apply F3|]|done].
  intros z Hz. apply F3. by rewrite <- in_order_Permutation, (proj1 Hst).
Qed.

(** C8: list_sort, for a comparison whose [cmp a b <= 0] is total and transitive, runs
    without undefined behaviour on every circular list of fewer than 2^64 elements
    and leaves a circular list with the same elements in ascending order; elements that
    compare equal keep their order, and no other link of the heap is changed. *)
Theorem list_sort_stable h l : dlist h hd l → NULL ∉ dom h → (Z.of_nat (base.length l) < 2 ^ 64)%Z →
  ∃ h' l', list_sort hd h = Ok tt h' ∧ dlist h' hd l' ∧ StronglySorted le l' ∧ stable l' l ∧ framed (hd :: l) h h'.
Proof.
  intros Hd Hn Hlen. pose proof (dlist_length _ _ _ Hd) as Hsz. unfold list_sort.
  rewrite (bind_ok _ _ h (default hd (head l)) h) by (unfold reads; by rewrite (dlist_next _ _ _ Hd)).
  rewrite (bind_ok _ _ h (default hd (last l)) h) by (unfold reads; by rewrite (dlist_prev _ _ _ Hd)).
  destruct l as [|x l].
  { rewrite decide_True by done. exists h, []. split; [done|]. split; [done|]. split; [constructor|]. done. }
  destruct l as [|t l _] using rev_ind.
  { rewrite decide_True by done. exists h, [x]. split; [done|]. split; [done|]. split; [repeat constructor|]. done. }
  rewrite app_comm_cons, last_snoc. pose proof Hd as [Hnd _].
  rewrite decide_False.
  2:{ cbn. intros ->. apply NoDup_cons in Hnd as [_ Hnd]. apply NoDup_cons in Hnd as [Hnd _]. set_solver. }
  destruct (unlink_ok h (x :: l) t Hd Hn) as (h1 & x' & Hx' & Ht & E1 & Hc & F1).
  assert (x' = x) as -> by apply Hc. cbn [head default app]. run E1.
  pose proof Hnd as [_ Hnd1]%NoDup_cons. cbn [app] in Hsz.
  destruct (sort_chain_ok (size h) h1 x (l ++ [t]))
    as (h2 & y & p & h3 & x3 & p3 & c1 & c2 & E2 & Ep & E3 & H1 & H2 & Hne1 & Hne2 & Hs1 & Hs2 & Hst & F3);
    [done|by destruct l|done|by rewrite (proj1 F1)|done|lia|].
  run E2. run Ep. run E3.
  destruct (merge_final_ok h3 p3 c1 x3 c2) as (h4 & E4 & Hp4 & F4); [done..| | |by rewrite (proj1 F3), (proj1 F1)|].
  { by rewrite (proj1 Hst). }
  { rewrite (proj1 F3), (proj1 F1). eapply dlist_dom; [done|by left]. }
  exists h4, (list_merge le c1 c2). split; [exact E4|].
  assert (stable (list_merge le c1 c2) (x :: l ++ [t])) as Hst5 by (eapply stable_trans; [by apply merge_stable|done]).
  split; [split; [by rewrite (proj1 Hst5)|done]|]. split; [by apply merge_sorted|]. split; [done|].
  eapply framed_trans; [eapply framed_trans; [exact F1|exact F3|set_solver]| |set_solver].
  destruct F4 as [D4 F4]. split; [done|]. intros z Hz. apply F4. by rewrite (proj1 Hst).
Qed.
End list_sort.

(** ** A run on five elements *)
Section example.
Local Instance Z_links : Links Z := { LIST_POISON1 := (-1)%Z; LIST_POISON2 := (-2)%Z }.

(** The elements are compared by their tens. *)
Definition tens (x y : Z) : Z := (x / 10 - y / 10)%Z.
Definition five : gmap Z (list_head Z) := list_to_map
  [(100, ListHead 31 11); (31, ListHead 10 100); (10, ListHead 32 31); (32, ListHead 20 10);
   (20, ListHead 11 32); (11, ListHead 100 20)]%Z.

Local Instance tens_transitive : Transitive (le tens).
Proof. intros x y z. unfold le, tens. lia. Qed.
Local Instance tens_total : Total (le tens).
Proof. intros x y. unfold le, tens. lia. Qed.

Lemma list_sort_stable_witness : ∃ h' l', list_sort 0%Z tens 100%Z five = Ok tt h' ∧ dlist h' 100%Z l' ∧
  StronglySorted (le tens) l' ∧ stable tens l' [31; 10; 32; 20; 11]%Z ∧
  framed [100; 31; 10; 32; 20; 11]%Z five h'.
Proof.
  apply (list_sort_stable 0%Z tens 100%Z).
  - split; [apply (bool_decide_unpack _); vm_compute; exact I|repeat split; reflexivity].
  - apply (bool_decide_unpack _). vm_compute. exact I.
  - vm_compute. reflexivity.
Defined.

Example five_sorted : ∃ h', list_sort 0%Z tens 100%Z five = Ok tt h' ∧ dlist h' 100%Z [10; 11; 20; 31; 32]%Z.
Proof.
  eexists. split; [vm_compute; reflexivity|].
  split; [apply (bool_decide_unpack _); vm_compute; exact I|repeat split; reflexivity].
Qed.
End example.
