(* ===== verification/HList.v ===== *)
(** Lists with a single pointer as their head, the second half of include/usm/list.h.

    A node has a pointer to the next node and a pointer to the variable that points to it: the
    field [first] of the head or the field [next] of another node. The store is kept field by
    field: one map from such variables to their contents, one for the fields [pprev]. Access
    to a variable that does not exist, to the null pointer or a poisoned one, is [None]. *)
From stdpp Require Import prelude gmap.
From S2P Require Import Prelude.

(** Variables of type [struct hlist_node *]. *)
Inductive cell := First (h : nat) | Next (n : nat).
Global Instance cell_eq_dec : EqDecision cell.
Proof. solve_decision. Defined.
Global Instance cell_countable : Countable cell.
Proof.
  refine (inj_countable' (λ c, match c with First h => inl h | Next n => inr n end)
    (λ x, match x with inl h => First h | inr n => Next n end) _). by intros [].
Defined.

(** Values of type [struct hlist_node *] and [struct hlist_node **]. *)
Inductive hptr := HNull | HNode (n : nat) | HPoison1.
Inductive pptr := PNull | PCell (c : cell) | PPoison2.

Record hstore := HStore { cells_of : gmap cell hptr; pprevs_of : gmap nat pptr }.

Definition load_cell (c : cell) (s : hstore) : option hptr := cells_of s !! c.
Definition store_cell (c : cell) (v : hptr) (s : hstore) : option hstore :=
  _ ← cells_of s !! c; Some (HStore (<[c := v]> (cells_of s)) (pprevs_of s)).
Definition get_pprev (n : nat) (s : hstore) : option pptr := pprevs_of s !! n.
Definition set_pprev (n : nat) (v : pptr) (s : hstore) : option hstore :=
  _ ← pprevs_of s !! n; Some (HStore (cells_of s) (<[n := v]> (pprevs_of s))).

(** [*p = v] *)
Definition store_through (p : pptr) (v : hptr) (s : hstore) : option hstore :=
  match p with PCell c => store_cell c v s | _ => None end.
(** [if (v) v->pprev = p] *)
Definition set_pprev_of (v : hptr) (p : pptr) (s : hstore) : option hstore :=
  match v with HNull => Some s | HNode x => set_pprev x p s | HPoison1 => None end.

(** * Operations *)
Definition INIT_HLIST_HEAD (h : nat) (s : hstore) : option hstore := store_cell (First h) HNull s.
Definition INIT_HLIST_NODE (n : nat) (s : hstore) : option hstore :=
  s ← store_cell (Next n) HNull s; set_pprev n PNull s.

Definition hlist_unhashed (n : nat) (s : hstore) : option bool :=
  p ← get_pprev n s; Some (match p with PNull => true | _ => false end).
Definition hlist_empty (h : nat) (s : hstore) : option bool :=
  v ← load_cell (First h) s; Some (match v with HNull => true | _ => false end).

Definition __hlist_del (n : nat) (s : hstore) : option hstore :=
  next ← load_cell (Next n) s;
  pprev ← get_pprev n s;
  s ← store_through pprev next s;
  set_pprev_of next pprev s.

Definition hlist_del (n : nat) (s : hstore) : option hstore :=
  s ← __hlist_del n s;
  s ← store_cell (Next n) HPoison1 s;
  set_pprev n PPoison2 s.

Definition hlist_del_init (n : nat) (s : hstore) : option hstore :=
  p ← get_pprev n s;
  match p with
  | PNull => Some s
  | _ => s ← __hlist_del n s; INIT_HLIST_NODE n s
  end.

Definition hlist_add_head (n h : nat) (s : hstore) : option hstore :=
  first ← load_cell (First h) s;
  s ← store_cell (Next n) first s;
  s ← set_pprev_of first (PCell (Next n)) s;
  s ← store_cell (First h) (HNode n) s;
  set_pprev n (PCell (First h)) s.

Definition hlist_add_before (n next : nat) (s : hstore) : option hstore :=
  p ← get_pprev next s;
  s ← set_pprev n p s;
  s ← store_cell (Next n) (HNode next) s;
  s ← set_pprev next (PCell (Next n)) s;
  p ← get_pprev n s;
  store_through p (HNode n) s.

Definition hlist_add_after (n next : nat) (s : hstore) : option hstore :=
  v ← load_cell (Next n) s;
  s ← store_cell (Next next) v s;
  s ← store_cell (Next n) (HNode next) s;
  s ← set_pprev next (PCell (Next n)) s;
  v ← load_cell (Next next) s;
  set_pprev_of v (PCell (Next next)) s.

(** [hlist_for_each(pos, head)]: the nodes that the loop visits; [None] also when the fuel does
    not suffice. *)
Fixpoint hlist_for_each_from (fuel : nat) (pos : hptr) (s : hstore) : option (list nat) :=
  match fuel, pos with
  | _, HNull => Some []
  | S fuel, HNode n => next ← load_cell (Next n) s; l ← hlist_for_each_from fuel next s; Some (n :: l)
  | _, _ => None
  end.
Definition hlist_for_each (fuel : nat) (h : nat) (s : hstore) : option (list nat) :=
  first ← load_cell (First h) s; hlist_for_each_from fuel first s.

(** * Lists in the store *)

(** The variable [c] starts the list [l]. *)
Fixpoint chain (s : hstore) (c : cell) (l : list nat) : Prop :=
  match l with
  | [] => cells_of s !! c = Some HNull
  | n :: l => cells_of s !! c = Some (HNode n) ∧ pprevs_of s !! n = Some (PCell c) ∧ chain s (Next n) l
  end.

(** The variable behind the nodes [l]. *)
Fixpoint end_cell (c : cell) (l : list nat) : cell := match l with [] => c | n :: l => end_cell (Next n) l end.

(** What [end_cell] points to when [l] follows. *)
Definition to_hptr (l : list nat) : hptr := match l with [] => HNull | n :: _ => HNode n end.

Lemma chain_frame s s' c l : chain s c l → (∀ d, d ∈ c :: (Next <$> l) → cells_of s' !! d = cells_of s !! d) →
  (∀ n, n ∈ l → pprevs_of s' !! n = pprevs_of s !! n) → chain s' c l.
Proof.
  revert c. induction l as [|n l IH]; intros c; cbn [chain fmap list_fmap].
  - intros H Hc _. rewrite Hc; [done|by left].
  - intros (H1 & H2 & H3) Hc Hp. rewrite Hc by (by left). rewrite Hp by (by left). split; [done|]. split; [done|].
    apply IH; [done| |]; intros; [apply Hc|apply Hp]; by right.
Qed.

Lemma chain_end s c l1 l2 : chain s c (l1 ++ l2) → cells_of s !! end_cell c l1 = Some (to_hptr l2).
Proof. revert c. induction l1 as [|n l1 IH]; intros c; cbn; [by destruct l2; [|intros (? & _)]|]. intros (_ & _ & H). by apply IH. Qed.

Lemma chain_start s c l : chain s c l → cells_of s !! c = Some (to_hptr l).
Proof. apply (chain_end s c [] l). Qed.

Lemma chain_suffix s c l1 l2 : chain s c (l1 ++ l2) → chain s (end_cell c l1) l2.
Proof. revert c. induction l1 as [|n l1 IH]; intros c; cbn; [done|]. intros (_ & _ & H). by apply IH. Qed.

Lemma end_cell_in c l : end_cell c l ∈ c :: (Next <$> l).
Proof.
  revert c. induction l as [|n l IH]; intros c; cbn; [by left|]. right. apply (IH (Next n)).
Qed.

Lemma chain_pprev s c l1 n l2 : chain s c (l1 ++ n :: l2) → pprevs_of s !! n = Some (PCell (end_cell c l1)).
Proof. intros H%chain_suffix. by destruct H as (_ & ? & _). Qed.

(** ** Insertion and removal as changes of the store *)
Definition repoint (v : hptr) (p : pptr) (m : gmap nat pptr) : gmap nat pptr :=
  match v with HNode x => <[x := p]> m | _ => m end.

(** [n] is linked in behind the variable [c], which points to [v]. *)
Definition linked_in (s : hstore) (c : cell) (n : nat) (v : hptr) : hstore :=
  HStore (<[c := HNode n]> (<[Next n := v]> (cells_of s))) (<[n := PCell c]> (repoint v (PCell (Next n)) (pprevs_of s))).

(** [n], which [c] points to and which points to [v], is taken out and its fields set. *)
Definition taken_out (s : hstore) (c : cell) (n : nat) (v : hptr) (nx : hptr) (pp : pptr) : hstore :=
  HStore (<[Next n := nx]> (<[c := v]> (cells_of s))) (<[n := pp]> (repoint v (PCell c) (pprevs_of s))).

Lemma chain_link s c l1 n l2 : chain s c (l1 ++ l2) → NoDup (l1 ++ l2) → n ∉ l1 ++ l2 → c ∉ Next <$> (l1 ++ l2) → c ≠ Next n →
  chain (linked_in s (end_cell c l1) n (to_hptr l2)) c (l1 ++ n :: l2).
Proof.
  revert c. induction l1 as [|x l1 IH]; intros c Hch Hnd Hn Hc Hne; cbn [app end_cell].
  - cbn [chain linked_in cells_of pprevs_of]. rewrite lookup_insert_eq. split; [done|]. rewrite lookup_insert_eq. split; [done|].
    destruct l2 as [|y l2]; cbn [app to_hptr chain linked_in cells_of pprevs_of repoint] in *.
    + by rewrite lookup_insert_ne, lookup_insert_eq.
    + destruct Hch as (Hy & Hpy & Hch). rewrite lookup_insert_ne, lookup_insert_eq by done. split; [done|].
      rewrite lookup_insert_ne, lookup_insert_eq by set_solver. split; [done|]. eapply chain_frame; [exact Hch| |].
      * intros d Hd. cbn. rewrite !lookup_insert_ne; [done|set_solver|set_solver].
      * intros z Hz. cbn. apply NoDup_cons in Hnd as [Hnd _]. rewrite !lookup_insert_ne; [done|set_solver|set_solver].
  - cbn [app chain] in Hch. destruct Hch as (Hx & Hpx & Hch). cbn [app] in Hnd, Hn, Hc. apply NoDup_cons in Hnd as [Hx' Hnd].
    pose proof (end_cell_in (Next x) l1) as He. cbn [chain linked_in cells_of pprevs_of]. split; [|split].
    + rewrite !lookup_insert_ne; [done|done|]. set_solver.
    + rewrite lookup_insert_ne by set_solver. unfold repoint, to_hptr. destruct l2 as [|y l2]; [done|]. rewrite lookup_insert_ne by set_solver. done.
    + apply IH; [done|done|set_solver|set_solver|set_solver].
Qed.

Lemma chain_unlink s c l1 n l2 nx pp : chain s c (l1 ++ n :: l2) → NoDup (l1 ++ n :: l2) → c ∉ Next <$> (l1 ++ n :: l2) →
  chain (taken_out s (end_cell c l1) n (to_hptr l2) nx pp) c (l1 ++ l2).
Proof.
  revert c. induction l1 as [|x l1 IH]; intros c Hch Hnd Hc; cbn [app end_cell].
  - destruct Hch as (Hn & Hpn & Hch). apply NoDup_cons in Hnd as [Hn' Hnd]. assert (c ≠ Next n) as Hne by set_solver.
    destruct l2 as [|y l2]; cbn [app to_hptr chain cells_of pprevs_of repoint taken_out] in *.
    + by rewrite lookup_insert_ne, lookup_insert_eq.
    + destruct Hch as (Hy & Hpy & Hch). apply NoDup_cons in Hnd as [Hy' _]. rewrite lookup_insert_ne, lookup_insert_eq by done. split; [done|].
      rewrite lookup_insert_ne, lookup_insert_eq by set_solver. split; [done|]. eapply chain_frame; [exact Hch| |].
      * intros d Hd. cbn. rewrite !lookup_insert_ne; [done|set_solver|set_solver].
      * intros z Hz. cbn. rewrite !lookup_insert_ne; [done|set_solver|set_solver].
  - cbn [app chain] in Hch. destruct Hch as (Hx & Hpx & Hch). cbn [app] in Hnd, Hc. apply NoDup_cons in Hnd as [Hx' Hnd].
    pose proof (end_cell_in (Next x) l1) as He. cbn [chain taken_out cells_of pprevs_of]. split; [|split].
    + rewrite !lookup_insert_ne; [done|set_solver|set_solver].
    + rewrite lookup_insert_ne by set_solver. unfold repoint, to_hptr. destruct l2 as [|y l2]; [done|]. rewrite lookup_insert_ne by set_solver. done.
    + apply IH; [done|done|set_solver].
Qed.

(** * What a client sees

    The lists by their heads, the nodes in no list that [hlist_unhashed] recognises, and those
    that [hlist_del] has taken out. *)
Record hlists := HLists { lists_of : gmap nat (list nat); unhashed : gset nat; deleted : gset nat }.

Definition listed (a : hlists) (n : nat) : Prop := ∃ h l, lists_of a !! h = Some l ∧ n ∈ l.

Record hrep (s : hstore) (a : hlists) : Prop := {
  rep_chain : ∀ h l, lists_of a !! h = Some l → chain s (First h) l ∧ NoDup l;
  rep_disjoint : ∀ h1 h2 l1 l2 n, lists_of a !! h1 = Some l1 → lists_of a !! h2 = Some l2 → n ∈ l1 → n ∈ l2 → h1 = h2;
  rep_out : ∀ n, n ∈ unhashed a ∪ deleted a → ¬ listed a n;
  rep_unhashed : ∀ n, n ∈ unhashed a → cells_of s !! Next n = Some HNull ∧ pprevs_of s !! n = Some PNull;
  rep_deleted : ∀ n, n ∈ deleted a → cells_of s !! Next n = Some HPoison1 ∧ pprevs_of s !! n = Some PPoison2;
}.

Inductive hop :=
| Init (n : nat) | Del (n : nat) | DelInit (n : nat)
| AddHead (n h : nat) | AddBefore (n next : nat) | AddAfter (n next : nat).

Definition hlist_op (o : hop) : hstore → option hstore :=
  match o with
  | Init n => INIT_HLIST_NODE n
  | Del n => hlist_del n
  | DelInit n => hlist_del_init n
  | AddHead n h => hlist_add_head n h
  | AddBefore n next => hlist_add_before n next
  | AddAfter n next => hlist_add_after n next
  end.

Fixpoint hlist_ops (l : list hop) (s : hstore) : option hstore :=
  match l with [] => Some s | o :: l => s ← hlist_op o s; hlist_ops l s end.

(** The operations on lists; a node is added only when it is in no list. *)
Definition put_list (h : nat) (l : list nat) (n : nat) (a : hlists) : hlists :=
  HLists (<[h := l]> (lists_of a)) (unhashed a ∖ {[n]}) (deleted a ∖ {[n]}).
Definition out (a : hlists) (n : nat) : Prop := n ∈ unhashed a ∪ deleted a.

Inductive hspec (a : hlists) : hop → hlists → Prop :=
| spec_init n : out a n → hspec a (Init n) (HLists (lists_of a) (unhashed a ∪ {[n]}) (deleted a ∖ {[n]}))
| spec_del n h l1 l2 : lists_of a !! h = Some (l1 ++ n :: l2) →
    hspec a (Del n) (HLists (<[h := l1 ++ l2]> (lists_of a)) (unhashed a) (deleted a ∪ {[n]}))
| spec_del_init n h l1 l2 : lists_of a !! h = Some (l1 ++ n :: l2) →
    hspec a (DelInit n) (HLists (<[h := l1 ++ l2]> (lists_of a)) (unhashed a ∪ {[n]}) (deleted a))
| spec_del_init_out n : n ∈ unhashed a → hspec a (DelInit n) a
| spec_add_head n h l : out a n → lists_of a !! h = Some l → hspec a (AddHead n h) (put_list h (n :: l) n a)
| spec_add_before n next h l1 l2 : out a n → lists_of a !! h = Some (l1 ++ next :: l2) →
    hspec a (AddBefore n next) (put_list h (l1 ++ n :: next :: l2) n a)
| spec_add_after n next h l1 l2 : out a next → lists_of a !! h = Some (l1 ++ n :: l2) →
    hspec a (AddAfter n next) (put_list h (l1 ++ n :: next :: l2) next a).

Inductive hspecs : list hop → hlists → hlists → Prop :=
| specs_nil a : hspecs [] a a
| specs_cons o l a a1 a2 : hspec a o a1 → hspecs l a1 a2 → hspecs (o :: l) a a2.

(** ** Both changes of the store keep the representation *)
Lemma repoint_frame (l2 : list nat) p z m : z ∉ l2 → repoint (to_hptr l2) p m !! z = m !! z.
Proof. intros Hz. destruct l2 as [|y l2]; [done|]. cbn. rewrite lookup_insert_ne; [done|set_solver]. Qed.

Lemma first_not_next h (l : list nat) : First h ∉ Next <$> l.
Proof. intros (z & ? & _)%list_elem_of_fmap. done. Qed.

Section rep.
Context {s : hstore} {a : hlists} (R : hrep s a).

Lemma out_fields n : out a n → is_Some (cells_of s !! Next n) ∧ is_Some (pprevs_of s !! n).
Proof.
  intros [Hn|Hn]%elem_of_union; [destruct (rep_unhashed _ _ R n Hn) as [-> ->]|destruct (rep_deleted _ _ R n Hn) as [-> ->]]; by split; eexists.
Qed.

Lemma out_not_in n h l : out a n → lists_of a !! h = Some l → n ∉ l.
Proof. intros Ho Hl Hn. apply (rep_out _ _ R n Ho). by exists h, l. Qed.

Lemma other_list h h' l l' : h' ≠ h → lists_of a !! h = Some l → lists_of a !! h' = Some l' → ∀ z, z ∈ l' → z ∉ l.
Proof. intros Hne Hl Hl' z Hz Hz'. by pose proof (rep_disjoint _ _ R h' h l' l z Hl' Hl Hz Hz'). Qed.

(** The rest of the store is not touched. *)
Lemma cells_frame c h l1 l2 d (n : nat) (v w : hptr) : lists_of a !! h = Some (l1 ++ l2) → c = end_cell (First h) l1 →
  d ≠ First h → (∀ z, d = Next z → (z ∉ l1 ++ l2) ∧ z ≠ n) → ∀ m, <[c := v]> (<[Next n := w]> m) !! d = (m : gmap cell hptr) !! d.
Proof.
  intros Hl -> Hd Hz m. pose proof (end_cell_in (First h) l1) as He. rewrite !lookup_insert_ne; [done| |].
  - intros <-. by destruct (Hz n eq_refl).
  - intros <-. apply elem_of_cons in He as [He|(z & Hz' & Hin)%list_elem_of_fmap]; [done|]. destruct (Hz z Hz') as [Hni _]. set_solver.
Qed.

Lemma rep_link h l1 l2 n : lists_of a !! h = Some (l1 ++ l2) → out a n →
  hrep (linked_in s (end_cell (First h) l1) n (to_hptr l2)) (put_list h (l1 ++ n :: l2) n a).
Proof.
  intros Hl Ho. pose proof (out_not_in n h _ Ho Hl) as Hn. destruct (rep_chain _ _ R h _ Hl) as [Hch Hnd].
  assert (∀ z, z ≠ n → z ∉ l1 ++ l2 → pprevs_of (linked_in s (end_cell (First h) l1) n (to_hptr l2)) !! z = pprevs_of s !! z) as Hp.
  { intros z Hz Hz'. cbn. rewrite lookup_insert_ne by done. apply repoint_frame. set_solver. }
  assert (∀ d, d ≠ First h → (∀ z, d = Next z → (z ∉ l1 ++ l2) ∧ z ≠ n) →
    cells_of (linked_in s (end_cell (First h) l1) n (to_hptr l2)) !! d = cells_of s !! d) as Hc.
  { intros d H1 H2. cbn [linked_in cells_of]. by eapply cells_frame. }
  assert (∀ z, z ∈ (unhashed a ∪ deleted a) ∖ {[n]} → z ≠ n ∧ z ∉ l1 ++ l2) as Hout.
  { intros z [Hz Hzn]%elem_of_difference. split; [set_solver|]. by apply (out_not_in z h). }
  split; cbn [lists_of put_list unhashed deleted].
  - intros h' l'. destruct (decide (h' = h)) as [->|Hne].
    + rewrite lookup_insert_eq. intros [= <-]. split; [apply chain_link; [done..|apply first_not_next|done]|].
      apply NoDup_app in Hnd as (? & Hd & ?). apply NoDup_app. split; [done|]. split; [set_solver|]. apply NoDup_cons. set_solver.
    + rewrite lookup_insert_ne by done. intros Hl'. destruct (rep_chain _ _ R h' l' Hl') as [Hch' Hnd']. split; [|done].
      pose proof (other_list h h' _ _ Hne Hl Hl') as Hdis. pose proof (out_not_in n h' _ Ho Hl') as Hn'.
      eapply chain_frame; [exact Hch'| |intros z Hz; apply Hp; [by intros ->|by apply Hdis]].
      intros d [->|(z & -> & Hz)%list_elem_of_fmap]%elem_of_cons; apply Hc; try congruence.
      intros z' [= <-]. split; [by apply Hdis|]. by intros ->.
  - assert (∀ h1 l, <[h := l1 ++ n :: l2]> (lists_of a) !! h1 = Some l → ∃ l', lists_of a !! h1 = Some l' ∧ ∀ z, z ∈ l → z ∈ l' ∨ z = n ∧ h1 = h) as Hold.
    { intros h1 l. destruct (decide (h1 = h)) as [->|]; [rewrite lookup_insert_eq; intros [= <-]; exists (l1 ++ l2); set_solver|].
      rewrite lookup_insert_ne by done. intros ?. exists l. by auto. }
    intros h1 h2 k1 k2 z (k1' & H1 & H1')%Hold (k2' & H2 & H2')%Hold Z1%H1' Z2%H2'.
    destruct Z1 as [Z1|[-> ->]], Z2 as [Z2|[Ez ->]]; try subst z; [by eapply rep_disjoint| | |done].
    + by destruct (out_not_in n h1 k1' Ho H1).
    + by destruct (out_not_in n h2 k2' Ho H2).
  - intros z Hz (h' & l' & Hl' & Hin). destruct (Hout z) as [Hzn Hz']; [set_solver|]. cbn [lists_of put_list] in Hl'. destruct (decide (h' = h)) as [->|Hne].
    + rewrite lookup_insert_eq in Hl'. injection Hl' as <-. set_solver.
    + rewrite lookup_insert_ne in Hl' by done. apply (out_not_in z h' l'); [unfold out; set_solver|done|done].
  - intros z Hz. destruct (Hout z) as [Hzn Hz']; [set_solver|]. rewrite Hp, Hc by (try done; intros ? [= <-]; done). apply (rep_unhashed _ _ R). set_solver.
  - intros z Hz. destruct (Hout z) as [Hzn Hz']; [set_solver|]. rewrite Hp, Hc by (try done; intros ? [= <-]; done). apply (rep_deleted _ _ R). set_solver.
Qed.

(** [b]: whether the fields of the node are initialised or poisoned. *)
Definition removed (b : bool) (h : nat) (l : list nat) (n : nat) : hlists :=
  HLists (<[h := l]> (lists_of a)) (if b then unhashed a ∪ {[n]} else unhashed a) (if b then deleted a else deleted a ∪ {[n]}).
Definition unlinked (b : bool) (c : cell) (n : nat) (v : hptr) : hstore :=
  taken_out s c n v (if b then HNull else HPoison1) (if b then PNull else PPoison2).

Lemma rep_unlink b h l1 n l2 : lists_of a !! h = Some (l1 ++ n :: l2) →
  hrep (unlinked b (end_cell (First h) l1) n (to_hptr l2)) (removed b h (l1 ++ l2) n).
Proof.
  intros Hl. destruct (rep_chain _ _ R h _ Hl) as [Hch Hnd]. set (s' := unlinked b _ n _).
  pose proof (end_cell_in (First h) l1) as He. pose proof Hnd as (_ & Hd1 & Hd2)%NoDup_app. apply NoDup_cons in Hd2 as [Hd2 _].
  assert (∀ z, (z ∉ l1 ++ n :: l2) → pprevs_of s' !! z = pprevs_of s !! z) as Hp.
  { intros z Hz. cbn. rewrite lookup_insert_ne by set_solver. apply repoint_frame. set_solver. }
  assert (∀ d, d ≠ First h → (∀ z, d = Next z → z ∉ l1 ++ n :: l2) → cells_of s' !! d = cells_of s !! d) as Hc.
  { intros d H1 H2. cbn. rewrite lookup_insert_ne by (intros <-; specialize (H2 n eq_refl); set_solver). rewrite lookup_insert_ne; [done|].
    intros <-. apply elem_of_cons in He as [He|(z & Hz' & Hin)%list_elem_of_fmap]; [done|]. specialize (H2 z Hz'). set_solver. }
  assert (cells_of s' !! Next n = Some (if b then HNull else HPoison1) ∧ pprevs_of s' !! n = Some (if b then PNull else PPoison2)) as Hn.
  { cbn. by rewrite !lookup_insert_eq. }
  assert (∀ h1 l, <[h := l1 ++ l2]> (lists_of a) !! h1 = Some l → (n ∉ l) ∧ ∃ l', lists_of a !! h1 = Some l' ∧ ∀ z, z ∈ l → z ∈ l') as Hold.
  { intros h1 l. destruct (decide (h1 = h)) as [->|Hne]; [rewrite lookup_insert_eq; intros [= <-]; split; [set_solver|exists (l1 ++ n :: l2); set_solver]|].
    rewrite lookup_insert_ne by done. intros Hl1. split; [|by exists l]. intros Hin. apply (other_list h h1 _ _ Hne Hl Hl1 n Hin). set_solver. }
  assert (∀ z, z ∈ unhashed a ∪ deleted a → cells_of s' !! Next z = cells_of s !! Next z ∧ pprevs_of s' !! z = pprevs_of s !! z) as Hz.
  { intros z Ho. pose proof (out_not_in z h _ Ho Hl). by rewrite Hp, Hc by (try done; by intros ? [= <-]). }
  split; cbn [lists_of removed unhashed deleted].
  - intros h' l'. destruct (decide (h' = h)) as [->|Hne].
    + rewrite lookup_insert_eq. intros [= <-]. split; [apply chain_unlink; [done..|apply first_not_next]|].
      apply NoDup_app in Hnd as (? & ? & (_ & ?)%NoDup_cons). apply NoDup_app. set_solver.
    + rewrite lookup_insert_ne by done. intros Hl'. destruct (rep_chain _ _ R h' l' Hl') as [Hch' Hnd']. split; [|done].
      pose proof (other_list h h' _ _ Hne Hl Hl') as Hdis. eapply chain_frame; [exact Hch'| |intros z Hz'; by apply Hp, Hdis].
      intros d [->|(z & -> & Hz')%list_elem_of_fmap]%elem_of_cons; apply Hc; try congruence. intros z' [= <-]. by apply Hdis.
  - intros h1 h2 k1 k2 z (_ & k1' & H1 & H1')%Hold (_ & k2' & H2 & H2')%Hold Z1%H1' Z2%H2'. by eapply rep_disjoint.
  - intros z Hz' (h' & l' & Hl' & Hin). destruct (Hold h' l' Hl') as (Hni & k & Hk & Hk'). destruct (decide (z = n)) as [->|Hzn]; [done|].
    apply (out_not_in z h' k); [unfold out; destruct b; set_solver|done|by apply Hk'].
  - intros z Hz'. destruct (decide (z ∈ unhashed a)) as [Hu|Hu].
    + destruct (Hz z) as [-> ->]; [set_solver|]. by apply (rep_unhashed _ _ R).
    + destruct b; [|done]. by replace z with n by set_solver.
  - intros z Hz'. destruct (decide (z ∈ deleted a)) as [Hu|Hu].
    + destruct (Hz z) as [-> ->]; [set_solver|]. by apply (rep_deleted _ _ R).
    + destruct b; [done|]. by replace z with n by set_solver.
Qed.
End rep.

(** ** The operations are these changes *)
Lemma store_cell_ok c v w s : cells_of s !! c = Some w → store_cell c v s = Some (HStore (<[c := v]> (cells_of s)) (pprevs_of s)).
Proof. intros H. unfold store_cell. by rewrite H. Qed.

Lemma set_pprev_ok n v w s : pprevs_of s !! n = Some w → set_pprev n v s = Some (HStore (cells_of s) (<[n := v]> (pprevs_of s))).
Proof. intros H. unfold set_pprev. by rewrite H. Qed.

Lemma set_pprev_of_ok l p s : (∀ y l', l = y :: l' → is_Some (pprevs_of s !! y)) →
  set_pprev_of (to_hptr l) p s = Some (HStore (cells_of s) (repoint (to_hptr l) p (pprevs_of s))).
Proof.
  intros H. destruct l as [|y l]; [by destruct s|]. destruct (H y l eq_refl) as [w Hw]. cbn. by eapply set_pprev_ok.
Qed.

Lemma chain_head_pprev s c y l' l : chain s c l → l = y :: l' → pprevs_of s !! y = Some (PCell c).
Proof. intros H ->. by destruct H as (_ & ? & _). Qed.

Lemma lookup_insert_some `{Countable K} {A} (m : gmap K A) i j x : is_Some (m !! j) → is_Some (<[i := x]> m !! j).
Proof. intros Hm. destruct (decide (i = j)) as [->|]; [rewrite lookup_insert_eq; by eexists|by rewrite lookup_insert_ne]. Qed.

Section ops.
Context {s : hstore} {a : hlists} (R : hrep s a).

Lemma add_head_ok n h l : out a n → lists_of a !! h = Some l → hlist_add_head n h s = Some (linked_in s (First h) n (to_hptr l)).
Proof.
  intros Ho Hl. destruct (rep_chain _ _ R h l Hl) as [Hch _]. pose proof (chain_start s (First h) l Hch) as Hf.
  destruct (out_fields R n Ho) as [[v Hv] [p Hp]]. unfold hlist_add_head, load_cell. rewrite Hf. cbn [mbind option_bind].
  rewrite (store_cell_ok _ _ v) by done. cbn [mbind option_bind]. rewrite set_pprev_of_ok; cycle 1.
  { intros y l' El. cbn. eexists. by eapply chain_head_pprev. }
  cbn [mbind option_bind cells_of pprevs_of]. rewrite (store_cell_ok _ _ (to_hptr l)) by (cbn; by rewrite lookup_insert_ne).
  cbn [mbind option_bind cells_of pprevs_of]. pose proof (out_not_in R n h l Ho Hl) as Hn.
  rewrite (set_pprev_ok _ _ p); [done|]. cbn. by rewrite repoint_frame.
Qed.

Lemma add_before_ok n next h l1 l2 : out a n → lists_of a !! h = Some (l1 ++ next :: l2) →
  hlist_add_before n next s = Some (linked_in s (end_cell (First h) l1) n (HNode next)).
Proof.
  intros Ho Hl. destruct (rep_chain _ _ R h _ Hl) as [Hch _]. pose proof (chain_pprev _ _ _ _ _ Hch) as Hpn. pose proof (chain_end _ _ _ _ Hch) as Hf.
  destruct (out_fields R n Ho) as [[v Hv] [p Hp]]. pose proof (out_not_in R n h _ Ho Hl) as Hn. assert (n ≠ next) as Hne by set_solver.
  unfold hlist_add_before, get_pprev. rewrite Hpn. cbn [mbind option_bind]. rewrite (set_pprev_ok _ _ p) by done. cbn [mbind option_bind].
  rewrite (store_cell_ok _ _ v) by done. cbn [mbind option_bind cells_of pprevs_of].
  rewrite (set_pprev_ok _ _ (PCell (end_cell (First h) l1))) by (cbn; by rewrite lookup_insert_ne).
  cbn [mbind option_bind cells_of pprevs_of]. rewrite lookup_insert_ne, lookup_insert_eq by done. cbn [mbind option_bind store_through].
  destruct (lookup_insert_some (cells_of s) (Next n) (end_cell (First h) l1) (HNode next)) as [w Hw]; [by eexists|].
  rewrite (store_cell_ok _ _ w) by done. unfold linked_in. cbn. by rewrite (insert_insert_ne _ n next).
Qed.

Lemma add_after_ok n next h l1 l2 : out a next → lists_of a !! h = Some (l1 ++ n :: l2) →
  hlist_add_after n next s = Some (linked_in s (Next n) next (to_hptr l2)).
Proof.
  intros Ho Hl. destruct (rep_chain _ _ R h _ Hl) as [Hch _]. destruct (chain_suffix _ _ _ _ Hch) as (_ & _ & Hch2).
  pose proof (chain_start s (Next n) l2 Hch2) as Hf.
  destruct (out_fields R next Ho) as [[v Hv] [p Hp]]. pose proof (out_not_in R next h _ Ho Hl) as Hn. assert (next ≠ n) as Hne by set_solver.
  unfold hlist_add_after, load_cell. rewrite Hf. cbn [mbind option_bind]. rewrite (store_cell_ok _ _ v) by done. cbn [mbind option_bind cells_of pprevs_of].
  rewrite (store_cell_ok _ _ (to_hptr l2)) by (cbn; rewrite lookup_insert_ne; congruence). cbn [mbind option_bind cells_of pprevs_of].
  rewrite (set_pprev_ok _ _ p) by done. cbn [mbind option_bind cells_of pprevs_of]. rewrite lookup_insert_ne, lookup_insert_eq by congruence.
  cbn [mbind option_bind]. rewrite set_pprev_of_ok.
  - unfold linked_in. cbn. do 2 f_equal. destruct l2 as [|y l2]; [done|]. cbn. rewrite insert_insert_ne by set_solver. done.
  - intros y l' El. cbn. apply lookup_insert_some. eexists. by eapply chain_head_pprev.
Qed.

Lemma del_ok n h l1 l2 : lists_of a !! h = Some (l1 ++ n :: l2) →
  ∃ s1, __hlist_del n s = Some s1 ∧ ∀ nx pp, (s2 ← store_cell (Next n) nx s1; set_pprev n pp s2) = Some (taken_out s (end_cell (First h) l1) n (to_hptr l2) nx pp).
Proof.
  intros Hl. destruct (rep_chain _ _ R h _ Hl) as [Hch Hnd]. pose proof (chain_pprev _ _ _ _ _ Hch) as Hpn. pose proof (chain_end _ _ _ _ Hch) as Hf.
  destruct (chain_suffix _ _ _ _ Hch) as (_ & _ & Hch2). pose proof (chain_start s (Next n) l2 Hch2) as Hx.
  apply NoDup_app in Hnd as (_ & _ & [Hn _]%NoDup_cons). eexists. split.
  - unfold __hlist_del, load_cell, get_pprev. rewrite Hx, Hpn. cbn [mbind option_bind store_through]. rewrite (store_cell_ok _ _ _ _ Hf). cbn [mbind option_bind].
    apply set_pprev_of_ok. intros y l' El. cbn. eexists. by eapply chain_head_pprev.
  - intros nx pp. destruct (lookup_insert_some (cells_of s) (end_cell (First h) l1) (Next n) (to_hptr l2)) as [w Hw]; [by eexists|].
    rewrite (store_cell_ok _ _ w) by done. cbn [mbind option_bind cells_of pprevs_of].
    rewrite (set_pprev_ok _ _ (PCell (end_cell (First h) l1))); [done|]. cbn. by rewrite repoint_frame.
Qed.

Lemma hlist_init_ok n : out a n →
  INIT_HLIST_NODE n s = Some (HStore (<[Next n := HNull]> (cells_of s)) (<[n := PNull]> (pprevs_of s))).
Proof.
  intros Ho. destruct (out_fields R n Ho) as [[v Hv] [p Hp]]. unfold INIT_HLIST_NODE. rewrite (store_cell_ok _ _ v) by done.
  cbn [mbind option_bind]. by rewrite (set_pprev_ok _ _ p).
Qed.

Lemma rep_init n : out a n → hrep (HStore (<[Next n := HNull]> (cells_of s)) (<[n := PNull]> (pprevs_of s)))
  (HLists (lists_of a) (unhashed a ∪ {[n]}) (deleted a ∖ {[n]})).
Proof.
  intros Ho. split; cbn [lists_of unhashed deleted cells_of pprevs_of].
  - intros h l Hl. destruct (rep_chain _ _ R h l Hl) as [Hch Hnd]. pose proof (out_not_in R n h l Ho Hl) as Hn. split; [|done].
    eapply chain_frame; [exact Hch| |]; cbn.
    + intros d [->|(z & -> & Hz)%list_elem_of_fmap]%elem_of_cons; rewrite lookup_insert_ne; congruence.
    + intros z Hz. rewrite lookup_insert_ne; congruence.
  - apply (rep_disjoint _ _ R).
  - intros z Hz. destruct (decide (z = n)) as [->|]; apply (rep_out _ _ R); [done|set_solver].
  - intros z Hz. destruct (decide (z = n)) as [->|Hne]; [by rewrite !lookup_insert_eq|]. rewrite !lookup_insert_ne by congruence.
    apply (rep_unhashed _ _ R). set_solver.
  - intros z [Hz Hne]%elem_of_difference. rewrite !lookup_insert_ne by set_solver. by apply (rep_deleted _ _ R).
Qed.
End ops.

Lemma end_cell_snoc c l n : end_cell c (l ++ [n]) = Next n.
Proof. revert c. induction l as [|x l IH]; intros c; cbn; [done|apply IH]. Qed.

Lemma hlist_op_refines s a o a' : hrep s a → hspec a o a' → ∃ s', hlist_op o s = Some s' ∧ hrep s' a'.
Proof.
  intros R Ho. destruct Ho as [n Hn|n h l1 l2 Hl|n h l1 l2 Hl|n Hn|n h l Hn Hl|n next h l1 l2 Hn Hl|n next h l1 l2 Hn Hl]; cbn [hlist_op].
  - eexists. split; [by apply (hlist_init_ok R)|]. by apply rep_init.
  - destruct (del_ok R n h l1 l2 Hl) as (s1 & E1 & E2). eexists. unfold hlist_del. rewrite E1. split; [apply E2|]. apply (rep_unlink R false _ _ _ _ Hl).
  - destruct (del_ok R n h l1 l2 Hl) as (s1 & E1 & E2). eexists. unfold hlist_del_init, get_pprev.
    rewrite (chain_pprev _ _ _ _ _ (proj1 (rep_chain _ _ R h _ Hl))). cbn [mbind option_bind]. rewrite E1. split; [apply E2|].
    apply (rep_unlink R true _ _ _ _ Hl).
  - exists s. split; [|done]. unfold hlist_del_init, get_pprev. by rewrite (proj2 (rep_unhashed _ _ R n Hn)).
  - eexists. split; [by apply (add_head_ok R)|]. apply (rep_link R h [] l n Hl Hn).
  - eexists. split; [by eapply (add_before_ok R)|]. by apply (rep_link R h l1 (next :: l2)).
  - eexists. split; [by eapply (add_after_ok R)|]. rewrite <- (end_cell_snoc (First h) l1 n).
    replace (l1 ++ n :: next :: l2) with ((l1 ++ [n]) ++ next :: l2) by (by rewrite <- app_assoc).
    apply (rep_link R h (l1 ++ [n]) l2); [|done]. by rewrite <- app_assoc.
Qed.

Lemma hlist_ops_refine l s a a' : hrep s a → hspecs l a a' → ∃ s', hlist_ops l s = Some s' ∧ hrep s' a'.
Proof.
  intros R Hs. revert s R. induction Hs as [a|o l a a1 a2 Ho Hs IH]; intros s R; [by exists s|].
  destruct (hlist_op_refines s a o a1 R Ho) as (s1 & E1 & R1). destruct (IH s1 R1) as (s2 & E2 & R2). exists s2. cbn. by rewrite E1.
Qed.

Lemma for_each_chain s c l : chain s c l → hlist_for_each_from (length l) (to_hptr l) s = Some l.
Proof.
  revert c. induction l as [|n l IH]; intros c; [done|]. intros (_ & _ & Hch). cbn. unfold load_cell.
  rewrite (chain_start s (Next n) l Hch). cbn. by rewrite (IH (Next n)).
Qed.

(** What the functions that read the lists return. *)
Record observes (s : hstore) (a : hlists) : Prop := {
  obs_for_each : ∀ h l, lists_of a !! h = Some l → hlist_for_each (length l) h s = Some l;
  obs_empty : ∀ h l, lists_of a !! h = Some l → hlist_empty h s = Some (bool_decide (l = []));
  obs_listed : ∀ n, listed a n → hlist_unhashed n s = Some false;
  obs_unhashed : ∀ n, n ∈ unhashed a → hlist_unhashed n s = Some true;
  obs_deleted : ∀ n, n ∈ deleted a → hlist_unhashed n s = Some false;
}.

Lemma rep_observes s a : hrep s a → observes s a.
Proof.
  intros R. split.
  - intros h l Hl. pose proof (proj1 (rep_chain _ _ R h l Hl)) as Hch. unfold hlist_for_each, load_cell. rewrite (chain_start s (First h) l Hch).
    by eapply for_each_chain.
  - intros h l Hl. pose proof (proj1 (rep_chain _ _ R h l Hl)) as Hch. unfold hlist_empty, load_cell. rewrite (chain_start s (First h) l Hch).
    by destruct l.
  - intros n (h & l & Hl & (l1 & l2 & ->)%list_elem_of_split). unfold hlist_unhashed, get_pprev.
    by rewrite (chain_pprev _ _ _ _ _ (proj1 (rep_chain _ _ R h _ Hl))).
  - intros n Hn. unfold hlist_unhashed, get_pprev. by rewrite (proj2 (rep_unhashed _ _ R n Hn)).
  - intros n Hn. unfold hlist_unhashed, get_pprev. by rewrite (proj2 (rep_deleted _ _ R n Hn)).
Qed.

(** C16: Every sequence of operations on hlists that adds only nodes which are in no list, and
    removes only listed ones, is defined and does to the store what the operations on finite
    maps of lists do; iteration, [hlist_empty] and [hlist_unhashed] then return what the
    lists say. Removing a node a second time is undefined, except that [hlist_del_init]
    does nothing on a node that was never added or that it has removed itself. *)
Theorem hlist_refinement s a l a' : hrep s a → hspecs l a a' →
  ∃ s', hlist_ops l s = Some s' ∧ hrep s' a' ∧ observes s' a' ∧
    (∀ n, n ∈ deleted a' → hlist_del n s' = None ∧ hlist_del_init n s' = None) ∧
    (∀ n, n ∈ unhashed a' → hlist_del n s' = None ∧ hlist_del_init n s' = Some s').
Proof.
  intros R Hs. destruct (hlist_ops_refine l s a a' R Hs) as (s' & E & R'). exists s'. split; [done|]. split; [done|].
  split; [by apply rep_observes|]. split; intros n Hn; unfold hlist_del, hlist_del_init, __hlist_del, get_pprev, load_cell.
  - destruct (rep_deleted _ _ R' n Hn) as [-> ->]. done.
  - destruct (rep_unhashed _ _ R' n Hn) as [-> ->]. done.
Qed.

(** * Two lists *)
Section example.
Definition demo_hstore : hstore :=
  HStore {[First 0 := HNode 1; First 1 := HNull; Next 1 := HNull; Next 2 := HNull; Next 3 := HPoison1]}
    {[1 := PCell (First 0); 2 := PNull; 3 := PPoison2]}.
Definition demo_hlists : hlists := HLists {[0 := [1]; 1 := []]} {[2]} {[3]}.

Lemma demo_hrep : hrep demo_hstore demo_hlists.
Proof.
  assert (∀ h l, lists_of demo_hlists !! h = Some l → h = 0 ∧ l = [1] ∨ h = 1 ∧ l = []) as Hl.
  { intros h l. cbn. rewrite lookup_insert_Some, lookup_singleton_Some. naive_solver. }
  split.
  - intros h l [[-> ->]|[-> ->]]%Hl; (split; [|auto using NoDup_nil_2, NoDup_singleton]); by repeat split.
  - intros h1 h2 l1 l2 n [[-> ->]|[-> ->]]%Hl [[-> ->]|[-> ->]]%Hl; set_solver.
  - intros n Hn (h & l & [[-> ->]|[-> ->]]%Hl & Hin); cbn in Hn; set_solver by lia.
  - intros n Hn. cbn in Hn. apply elem_of_singleton in Hn as ->. done.
  - intros n Hn. cbn in Hn. apply elem_of_singleton in Hn as ->. done.
Qed.

Definition demo_hops : list hop := [AddHead 2 0; AddAfter 1 3; Del 1].
Lemma demo_hspecs : ∃ a', hspecs demo_hops demo_hlists a' ∧ lists_of a' !! 0 = Some [2; 3].
Proof.
  eexists. split.
  { eapply specs_cons; [apply (spec_add_head _ 2 0 [1]); [unfold out; set_solver|reflexivity]|].
    eapply specs_cons; [apply (spec_add_after _ 1 3 0 [2] []); [unfold out; cbn; set_solver by lia|reflexivity]|].
    eapply specs_cons; [apply (spec_del _ 1 0 [2] [3]); reflexivity|apply specs_nil]. }
  reflexivity.
Qed.

Lemma hlist_refinement_witness : ∃ a' s', lists_of a' !! 0 = Some [2; 3] ∧ hlist_ops demo_hops demo_hstore = Some s' ∧ hrep s' a'.
Proof.
  destruct demo_hspecs as (a' & Hs & Hl). exists a'.
  destruct (hlist_refinement demo_hstore demo_hlists demo_hops a' demo_hrep Hs) as (s' & E & R & _). by exists s'.
Defined.
End example.
