(* ===== verification/State.v ===== *)
(** The state of the USM daemon shared by its components.

    One record gathers what the C files keep in globals and heap objects: the
    [list_head] fields of every structure (one heap, see Lists.v), the table
    of physical pages, the process descriptors, the swap device, the records
    of swapped pages, and the event that the running handler works on. Field
    and constructor names are those of the C declarations. *)
From S2P Require Import Prelude Lists.
From stdpp Require Import prelude gmap strings.

Open Scope Z_scope.

(** [SYS_PAGE_SIZE] is [sysconf(_SC_PAGESIZE)], 4096 on x86-64. *)
Definition SYS_PAGE_SIZE : Z := 4096.
Definition MAX_PROC : Z := 1000.

(** ** Addresses of list heads

    Every embedded [struct list_head] has its own constructor, indexed by the
    structure that embeds it: [container_of] is the inversion of it. *)
Inductive loc : Type :=
| NULL
| POISON1
| POISON2
| FreeList                     (* freeList, alloc/src/policiesSet1.c *)
| UsedList                     (* usedList *)
| SwapList                     (* swapList, evict/src/policiesSet1.c *)
| NodeIulist (n : nat)         (* &optEludeList[n].iulist *)
| NodeProclist (n : nat)       (* &optEludeList[n].proclist *)
| ToSwapIulist (t : nat)       (* &to_swap[t].iulist *)
| ToSwapGloblist (t : nat)     (* &to_swap[t].globlist *)
| ProcSwapList (p : Z)         (* &procDescList[p].swapList *)
| ProcUsedList (p : Z)         (* &procDescList[p].usedList *)
| ProcSwapCache (p : Z)        (* &procDescList[p].swapCache *)
| DevSwapList                  (* &swap_device_one.swap_list *)
| DevFreeList                  (* &swap_device_one.free_list *)
| SnodeIulist (j : nat)        (* &swap_device_one.swap_nodes[j].iulist *)
| Local (k : nat).             (* LIST_HEAD of an activation, or a malloc'ed head *)

Definition loc_eq_dec : EqDecision loc.
Proof. solve_decision. Defined.

Definition loc_code (x : loc) : Z * Z :=
  match x with
  | NULL => (0, 0) | POISON1 => (1, 0) | POISON2 => (2, 0)
  | FreeList => (3, 0) | UsedList => (4, 0) | SwapList => (5, 0)
  | NodeIulist n => (6, Z.of_nat n) | NodeProclist n => (7, Z.of_nat n)
  | ToSwapIulist t => (8, Z.of_nat t) | ToSwapGloblist t => (9, Z.of_nat t)
  | ProcSwapList p => (10, p) | ProcUsedList p => (11, p)
  | ProcSwapCache p => (12, p)
  | DevSwapList => (13, 0) | DevFreeList => (14, 0)
  | SnodeIulist j => (15, Z.of_nat j) | Local k => (16, Z.of_nat k)
  end.

Definition loc_decode (c : Z * Z) : loc :=
  match c with
  | (0, _) => NULL | (1, _) => POISON1 | (2, _) => POISON2
  | (3, _) => FreeList | (4, _) => UsedList | (5, _) => SwapList
  | (6, n) => NodeIulist (Z.to_nat n) | (7, n) => NodeProclist (Z.to_nat n)
  | (8, n) => ToSwapIulist (Z.to_nat n) | (9, n) => ToSwapGloblist (Z.to_nat n)
  | (10, p) => ProcSwapList p | (11, p) => ProcUsedList p
  | (12, p) => ProcSwapCache p
  | (13, _) => DevSwapList | (14, _) => DevFreeList
  | (15, n) => SnodeIulist (Z.to_nat n) | (16, n) => Local (Z.to_nat n)
  | _ => NULL
  end.

(** Instances of [loc] are found through [loc_links] only. *)
Definition loc_countable : @Countable loc loc_eq_dec.
Proof.
  apply (inj_countable' loc_code loc_decode).
  intros []; simpl; by rewrite ?Nat2Z.id.
Defined.

Global Instance loc_links : Links loc := {
  links_eq := loc_eq_dec;
  links_countable := loc_countable;
  LIST_POISON1 := POISON1;
  LIST_POISON2 := POISON2;
}.

(** ** Events (include/com/event.h) *)
Inductive evt_type : Type :=
| ALLOC | FREE | HINTS | VIRT_AS_CHANGE | PHY_AS_CHANGE
| NEW_PROC | NEW_THREAD | PROC_DTH | THREAD_DTH.

Global Instance evt_type_eq_dec : EqDecision evt_type.
Proof. solve_decision. Defined.

(** [usmmem] is the 4096-byte page shared with the faulting thread, as its
    bytes; [None] is the null pointer. *)
Record usm_event := UsmEvent {
  type : evt_type;
  procName : option string;
  vaddr : Z;
  length : Z;
  paddr : Z;
  offst : Z;
  flags : Z;
  origin : Z;
  usmmem : option (list Z);
}.

(** ** Pages (struct page, include/usm/usm.h)

    [data] is the content of the frame that the C field points to.
    [usedListPositionPointer] names the [optEludeList] node of the page. *)
Record page := Page {
  data : list Z;
  virtualAddress : Z;
  physicalAddress : Z;
  process : Z;
  usedListPositionPointer : option nat;
}.

(** ** Policies

    Pointers to the policy structures, as [usm_policy.ops],
    [usm_process_link.alloc_pol] and the fields of [processDesc] hold them. *)
Inductive ops_ptr : Type :=
| ops_null
| ops_uninit                       (* field of a malloc'ed object never written *)
| default_alloc_policy_p | default_swap_policy_p
| alloc_policy_one_p | usm_basic_alloc_policy_p | alloc_policy_double_p
| swap_policy_one_p | usm_basic_swap_policy_p.

Global Instance ops_ptr_eq_dec : EqDecision ops_ptr.
Proof. solve_decision. Defined.

Record processDesc := ProcessDesc {
  alloc_policy : ops_ptr;
  swap_policy : ops_ptr;
  allocated : Z;
  swapped : Z;
  prio : Z;
}.

(** ** Swapping (include/policies/evict/swap.h, swap_dev.h) *)
Record to_swap := ToSwap {
  ts_page : option nat;       (* page: index in pagesList *)
  swapped_address : Z;
  snode : option nat;         (* index in swap_nodes *)
  ts_proc : Z;
  retaken : Z;
}.

Record swap_node := SwapNode {
  sn_offset : Z;
  toSwapHolder : option nat;
}.

Record usm_swap_dev := SwapDev {
  sd_number : Z;
  backend : gmap Z (list Z);   (* the swap file: pages by offset *)
  swap_nodes : list swap_node;
}.

(** ** The daemon *)
Record usm := Usm {
  links : heap loc;
  usmPage : gmap nat nat;      (* optEludeList.usmPage: page index of a node *)
  pagesList : list page;
  basePFN : Z;
  globalPagesNumber : Z;
  globalPageSize : Z;
  usedMemory : Z;
  swappedMemory : Z;
  procDescList : gmap Z processDesc;
  default_alloc_policy : ops_ptr;   (* which structure was copied into it *)
  default_swap_policy : ops_ptr;
  toSwaps : gmap nat to_swap;
  swap_device_one : usm_swap_dev;
  event : usm_event;
  clock : nat;                 (* number of interactions with the kernel so far *)
}.

(** ** Field updates *)
Definition set_links v s := Usm v (usmPage s) (pagesList s) (basePFN s) (globalPagesNumber s) (globalPageSize s) (usedMemory s) (swappedMemory s) (procDescList s) (default_alloc_policy s) (default_swap_policy s) (toSwaps s) (swap_device_one s) (event s) (clock s).
Definition set_usmPage v s := Usm (links s) v (pagesList s) (basePFN s) (globalPagesNumber s) (globalPageSize s) (usedMemory s) (swappedMemory s) (procDescList s) (default_alloc_policy s) (default_swap_policy s) (toSwaps s) (swap_device_one s) (event s) (clock s).
Definition set_pagesList v s := Usm (links s) (usmPage s) v (basePFN s) (globalPagesNumber s) (globalPageSize s) (usedMemory s) (swappedMemory s) (procDescList s) (default_alloc_policy s) (default_swap_policy s) (toSwaps s) (swap_device_one s) (event s) (clock s).
Definition set_usedMemory v s := Usm (links s) (usmPage s) (pagesList s) (basePFN s) (globalPagesNumber s) (globalPageSize s) v (swappedMemory s) (procDescList s) (default_alloc_policy s) (default_swap_policy s) (toSwaps s) (swap_device_one s) (event s) (clock s).
Definition set_swappedMemory v s := Usm (links s) (usmPage s) (pagesList s) (basePFN s) (globalPagesNumber s) (globalPageSize s) (usedMemory s) v (procDescList s) (default_alloc_policy s) (default_swap_policy s) (toSwaps s) (swap_device_one s) (event s) (clock s).
Definition set_procDescList v s := Usm (links s) (usmPage s) (pagesList s) (basePFN s) (globalPagesNumber s) (globalPageSize s) (usedMemory s) (swappedMemory s) v (default_alloc_policy s) (default_swap_policy s) (toSwaps s) (swap_device_one s) (event s) (clock s).
Definition set_toSwaps v s := Usm (links s) (usmPage s) (pagesList s) (basePFN s) (globalPagesNumber s) (globalPageSize s) (usedMemory s) (swappedMemory s) (procDescList s) (default_alloc_policy s) (default_swap_policy s) v (swap_device_one s) (event s) (clock s).
Definition set_swap_device v s := Usm (links s) (usmPage s) (pagesList s) (basePFN s) (globalPagesNumber s) (globalPageSize s) (usedMemory s) (swappedMemory s) (procDescList s) (default_alloc_policy s) (default_swap_policy s) (toSwaps s) v (event s) (clock s).
Definition set_event v s := Usm (links s) (usmPage s) (pagesList s) (basePFN s) (globalPagesNumber s) (globalPageSize s) (usedMemory s) (swappedMemory s) (procDescList s) (default_alloc_policy s) (default_swap_policy s) (toSwaps s) (swap_device_one s) v (clock s).
Definition set_clock v s := Usm (links s) (usmPage s) (pagesList s) (basePFN s) (globalPagesNumber s) (globalPageSize s) (usedMemory s) (swappedMemory s) (procDescList s) (default_alloc_policy s) (default_swap_policy s) (toSwaps s) (swap_device_one s) (event s) v.

Definition set_basePFN v s := Usm (links s) (usmPage s) (pagesList s) v (globalPagesNumber s) (globalPageSize s) (usedMemory s) (swappedMemory s) (procDescList s) (default_alloc_policy s) (default_swap_policy s) (toSwaps s) (swap_device_one s) (event s) (clock s).
Definition set_globalPagesNumber v s := Usm (links s) (usmPage s) (pagesList s) (basePFN s) v (globalPageSize s) (usedMemory s) (swappedMemory s) (procDescList s) (default_alloc_policy s) (default_swap_policy s) (toSwaps s) (swap_device_one s) (event s) (clock s).
Definition set_globalPageSize v s := Usm (links s) (usmPage s) (pagesList s) (basePFN s) (globalPagesNumber s) v (usedMemory s) (swappedMemory s) (procDescList s) (default_alloc_policy s) (default_swap_policy s) (toSwaps s) (swap_device_one s) (event s) (clock s).
Definition set_default_alloc_policy v s := Usm (links s) (usmPage s) (pagesList s) (basePFN s) (globalPagesNumber s) (globalPageSize s) (usedMemory s) (swappedMemory s) (procDescList s) v (default_swap_policy s) (toSwaps s) (swap_device_one s) (event s) (clock s).
Definition set_default_swap_policy v s := Usm (links s) (usmPage s) (pagesList s) (basePFN s) (globalPagesNumber s) (globalPageSize s) (usedMemory s) (swappedMemory s) (procDescList s) (default_alloc_policy s) v (toSwaps s) (swap_device_one s) (event s) (clock s).

Definition with_type v e := UsmEvent v (procName e) (vaddr e) (length e) (paddr e) (offst e) (flags e) (origin e) (usmmem e).
Definition with_vaddr v e := UsmEvent (type e) (procName e) v (length e) (paddr e) (offst e) (flags e) (origin e) (usmmem e).
Definition with_length v e := UsmEvent (type e) (procName e) (vaddr e) v (paddr e) (offst e) (flags e) (origin e) (usmmem e).
Definition with_paddr v e := UsmEvent (type e) (procName e) (vaddr e) (length e) v (offst e) (flags e) (origin e) (usmmem e).
Definition with_offst v e := UsmEvent (type e) (procName e) (vaddr e) (length e) (paddr e) v (flags e) (origin e) (usmmem e).
Definition with_flags v e := UsmEvent (type e) (procName e) (vaddr e) (length e) (paddr e) (offst e) v (origin e) (usmmem e).
Definition with_origin v e := UsmEvent (type e) (procName e) (vaddr e) (length e) (paddr e) (offst e) (flags e) v (usmmem e).
Definition with_procName v e := UsmEvent (type e) v (vaddr e) (length e) (paddr e) (offst e) (flags e) (origin e) (usmmem e).
Definition with_usmmem v e := UsmEvent (type e) (procName e) (vaddr e) (length e) (paddr e) (offst e) (flags e) (origin e) v.

Definition page_data v p := Page v (virtualAddress p) (physicalAddress p) (process p) (usedListPositionPointer p).
Definition page_vaddr v p := Page (data p) v (physicalAddress p) (process p) (usedListPositionPointer p).
Definition page_process v p := Page (data p) (virtualAddress p) (physicalAddress p) v (usedListPositionPointer p).
Definition page_node v p := Page (data p) (virtualAddress p) (physicalAddress p) (process p) v.

(** ** Accesses of the daemon's code *)

(** An operation of list.h on the shared heap. *)
Definition list_op (f : heap loc → option (heap loc)) : M usm unit :=
  updates (λ s, h ← f (links s); Some (set_links h s)).
Definition list_is_empty (x : loc) : M usm bool := reads (λ s, list_empty x (links s)).
Definition next_of (x : loc) : M usm loc := reads (λ s, get_next x (links s)).
Definition prev_of (x : loc) : M usm loc := reads (λ s, get_prev x (links s)).

(** [list_entry(x, struct optEludeList, iulist)]: anything else than the
    [iulist] of a node would be a wild pointer. *)
Definition node_of_iulist (x : loc) : M usm nat :=
  match x with NodeIulist n => mret n | _ => undef end.
(** [list_entry(x, struct to_swap, iulist)] *)
Definition to_swap_of_iulist (x : loc) : M usm nat :=
  match x with ToSwapIulist t => mret t | _ => undef end.
(** [list_entry(x, struct swap_node, iulist)] *)
Definition swap_node_of_iulist (x : loc) : M usm nat :=
  match x with SnodeIulist j => mret j | _ => undef end.

(** [node->usmPage], a pointer into [pagesList]. *)
Definition usmPage_of (n : nat) : M usm nat := reads (λ s, usmPage s !! n).
(** [pagesList[i]], read and written. *)
Definition page_at (i : nat) : M usm page := reads (λ s, pagesList s !! i).
Definition update_page (i : nat) (f : page → page) : M usm unit :=
  updates (λ s, p ← pagesList s !! i; Some (set_pagesList (<[i := f p]> (pagesList s)) s)).

(** The loops over lists. A list has fewer elements than the heap has cells
    ([dlist_length]), so the size of the heap is enough fuel. *)
Definition for_each_safe {A} (body : A → loc → M usm A) (head : loc) (a : A) : M usm A :=
  fuel ← gets (λ s, S (size (links s)));
  list_for_each_safe links fuel body head a.
Definition for_each_find (stop : loc → usm → option bool) (head : loc) : M usm loc :=
  fuel ← gets (λ s, S (size (links s)));
  list_for_each_find links fuel stop head.

(** A list head of an activation record or from [malloc]: a cell that was not
    in use, with arbitrary links. *)
Definition local_index (x : loc) : nat := match x with Local k => S k | _ => O end.
Definition fresh_local (h : heap loc) : nat :=
  map_fold (λ x _ k, Nat.max (local_index x) k) O h.
Definition new_list_head : M usm loc := λ s,
  let x := Local (fresh_local (links s)) in
  Ok x (set_links (<[x := ListHead NULL NULL]> (links s)) s).
(** The end of the activation: pointers that are left to the cell dangle. *)
Definition drop_list_head (x : loc) : M usm unit :=
  modify (λ s, set_links (delete x (links s)) s).

Definition get_event : M usm usm_event := gets event.
Definition update_event (f : usm_event → usm_event) : M usm unit :=
  modify (λ s, set_event (f (event s)) s).

(** [usedMemory += d] and [usedMemory -= d] on an [unsigned long]. *)
Definition usedMemory_add (d : Z) : M usm unit :=
  modify (λ s, set_usedMemory (u64 (usedMemory s + d)) s).
Definition usedMemory_sub (d : Z) : M usm unit :=
  modify (λ s, set_usedMemory (u64 (usedMemory s - d)) s).

Definition procDesc_at (p : Z) : M usm processDesc := reads (λ s, procDescList s !! p).
Definition update_procDesc (p : Z) (f : processDesc → processDesc) : M usm unit :=
  updates (λ s, d ← procDescList s !! p; Some (set_procDescList (<[p := f d]> (procDescList s)) s)).

Lemma update_event_bind {B} f (k : unit → M usm B) s :
  (update_event f ≫= k) s = k tt (set_event (f (event s)) s).
Proof. done. Qed.

(** The daemon before [usm_init]: static storage, with the list heads that
    [LIST_HEAD] initialises statically. *)
Definition static_event : usm_event :=
  UsmEvent ALLOC None 0 0 0 0 0 0 None.
Definition static_state : usm := {|
  links := {[ FreeList := ListHead FreeList FreeList;
              UsedList := ListHead UsedList UsedList;
              SwapList := ListHead SwapList SwapList ]};
  usmPage := ∅;
  pagesList := [];
  basePFN := 0;
  globalPagesNumber := 0;
  globalPageSize := 0;
  usedMemory := 0;
  swappedMemory := 0;
  procDescList := ∅;
  default_alloc_policy := ops_null;
  default_swap_policy := ops_null;
  toSwaps := ∅;
  swap_device_one := SwapDev 1 ∅ [];
  event := static_event;
  clock := 0;
|}.

(** ** Lemmas on the accesses *)
Lemma fresh_local_not_in h : Local (fresh_local h) ∉ dom h.
Proof.
  assert (∀ k, Local k ∈ dom h → (k < fresh_local h)%nat) as H.
  { unfold fresh_local. apply (map_fold_weak_ind (λ r h, ∀ k, Local k ∈ dom h → (k < r)%nat)).
    - intros k. rewrite dom_empty_L. set_solver.
    - intros x c h' r _ IH k. rewrite dom_insert, elem_of_union, elem_of_singleton.
      intros [<-|Hk]; simpl; [lia|]. apply IH in Hk. lia. }
  intros Hin%H. lia.
Qed.

Lemma list_op_ok f s h : f (links s) = Some h → list_op f s = Ok tt (set_links h s).
Proof. intros H. unfold list_op, updates. by rewrite H. Qed.

Lemma list_op_bind {B} f (k : unit → M usm B) s h :
  f (links s) = Some h → (list_op f ≫= k) s = k tt (set_links h s).
Proof. intros H. by rewrite (bind_ok _ _ _ _ _ (list_op_ok _ _ _ H)). Qed.

Lemma next_of_bind {B} x (k : loc → M usm B) s y :
  get_next x (links s) = Some y → (next_of x ≫= k) s = k y s.
Proof. intros H. by apply reads_bind. Qed.

Lemma prev_of_bind {B} x (k : loc → M usm B) s y :
  get_prev x (links s) = Some y → (prev_of x ≫= k) s = k y s.
Proof. intros H. by apply reads_bind. Qed.

Lemma page_at_bind {B} i (k : page → M usm B) s p :
  pagesList s !! i = Some p → (page_at i ≫= k) s = k p s.
Proof. intros H. by apply reads_bind. Qed.

Lemma update_page_bind {B} i f (k : unit → M usm B) s p :
  pagesList s !! i = Some p →
  (update_page i f ≫= k) s = k tt (set_pagesList (<[i := f p]> (pagesList s)) s).
Proof. intros H. unfold update_page. apply updates_bind. by rewrite H. Qed.

Lemma usmPage_of_bind {B} n (k : nat → M usm B) s i :
  usmPage s !! n = Some i → (usmPage_of n ≫= k) s = k i s.
Proof. intros H. by apply reads_bind. Qed.

(** ** Normal form of updated states

    The updates commute and absorb each other; [usm_state] sorts them, the
    links innermost, so that states built in different orders compare. *)
Create Rewrite HintDb usm_state.
Lemma set_links_set_links v w s : set_links v (set_links w s) = set_links v s.
Proof. by destruct s. Qed.
Lemma set_pagesList_set_pagesList v w s : set_pagesList v (set_pagesList w s) = set_pagesList v s.
Proof. by destruct s. Qed.
Lemma set_usedMemory_set_usedMemory v w s : set_usedMemory v (set_usedMemory w s) = set_usedMemory v s.
Proof. by destruct s. Qed.
Lemma set_event_set_event v w s : set_event v (set_event w s) = set_event v s.
Proof. by destruct s. Qed.
Lemma set_clock_set_clock v w s : set_clock v (set_clock w s) = set_clock v s.
Proof. by destruct s. Qed.
Lemma set_links_set_pagesList v w s : set_links v (set_pagesList w s) = set_pagesList w (set_links v s).
Proof. by destruct s. Qed.
Lemma set_links_set_usedMemory v w s : set_links v (set_usedMemory w s) = set_usedMemory w (set_links v s).
Proof. by destruct s. Qed.
Lemma set_links_set_event v w s : set_links v (set_event w s) = set_event w (set_links v s).
Proof. by destruct s. Qed.
Lemma set_links_set_clock v w s : set_links v (set_clock w s) = set_clock w (set_links v s).
Proof. by destruct s. Qed.
Lemma set_pagesList_set_usedMemory v w s : set_pagesList v (set_usedMemory w s) = set_usedMemory w (set_pagesList v s).
Proof. by destruct s. Qed.
Lemma set_pagesList_set_event v w s : set_pagesList v (set_event w s) = set_event w (set_pagesList v s).
Proof. by destruct s. Qed.
Lemma set_pagesList_set_clock v w s : set_pagesList v (set_clock w s) = set_clock w (set_pagesList v s).
Proof. by destruct s. Qed.
Lemma set_usedMemory_set_event v w s : set_usedMemory v (set_event w s) = set_event w (set_usedMemory v s).
Proof. by destruct s. Qed.
Lemma set_usedMemory_set_clock v w s : set_usedMemory v (set_clock w s) = set_clock w (set_usedMemory v s).
Proof. by destruct s. Qed.
Lemma set_event_set_clock v w s : set_event v (set_clock w s) = set_clock w (set_event v s).
Proof. by destruct s. Qed.
#[export] Hint Rewrite set_links_set_links
  set_pagesList_set_pagesList
  set_usedMemory_set_usedMemory
  set_event_set_event
  set_clock_set_clock
  set_links_set_pagesList
  set_links_set_usedMemory
  set_links_set_event
  set_links_set_clock
  set_pagesList_set_usedMemory
  set_pagesList_set_event
  set_pagesList_set_clock
  set_usedMemory_set_event
  set_usedMemory_set_clock
  set_event_set_clock : usm_state.
Lemma set_links_id s : set_links (links s) s = s.
Proof. by destruct s. Qed.
Lemma set_pagesList_id s : set_pagesList (pagesList s) s = s.
Proof. by destruct s. Qed.
Lemma set_usedMemory_id s : set_usedMemory (usedMemory s) s = s.
Proof. by destruct s. Qed.
Lemma set_event_id s : set_event (event s) s = s.
Proof. by destruct s. Qed.
Lemma set_clock_id s : set_clock (clock s) s = s.
Proof. by destruct s. Qed.

(** States are equal when their fields are; for states built by long sequences
    of updates this compares one field at a time. *)
Lemma usm_ext s s' :
  links s = links s' → usmPage s = usmPage s' → pagesList s = pagesList s' →
  basePFN s = basePFN s' → globalPagesNumber s = globalPagesNumber s' → globalPageSize s = globalPageSize s' →
  usedMemory s = usedMemory s' → swappedMemory s = swappedMemory s' → procDescList s = procDescList s' →
  default_alloc_policy s = default_alloc_policy s' → default_swap_policy s = default_swap_policy s' → toSwaps s = toSwaps s' →
  swap_device_one s = swap_device_one s' → event s = event s' → clock s = clock s' → s = s'.
Proof. destruct s, s'. cbn. intros. subst. reflexivity. Qed.
Ltac same_state := apply usm_ext; try reflexivity.
Ltac same_result := try reflexivity; f_equal; same_state.
