(* ===== verification/Channel.v ===== *)
(** The channel between a faulting thread and the daemon (include/usm/usm.h,
    impl/com/com.c).

    A fault is exchanged through one 4096-byte page that the kernel maps into
    the daemon:
    [usmfd (int) | status (int) | vaddr | paddr | flags | state (int) |
     rem_size | further_alloc (int) | extra_allocs ...]
    The page is modelled byte by byte, every access is bounds-checked, and the
    fields are at the offsets that the C expressions compute.

    The kernel is a parameter ([Kernel]): what it does to the shared page
    between two accesses of the daemon, and what its system calls return, are
    functions of the number of interactions so far ([clock]). *)
From stdpp Require Import prelude gmap strings.
From S2P Require Import Prelude Lists State.

Open Scope Z_scope.

(** * Bytes *)

(** Little-endian numbers. *)
Fixpoint le_combine (bs : list Z) : Z :=
  match bs with
  | [] => 0
  | b :: bs => b + 256 * le_combine bs
  end.

Fixpoint le_split (w : nat) (v : Z) : list Z :=
  match w with
  | O => []
  | S w => v `mod` 256 :: le_split w (v `div` 256)
  end.

Definition is_byte (b : Z) : Prop := 0 ≤ b < 256.

(** [*(T * )(m + off)] with [sizeof(T) = w], read and written. *)
Definition load (w : nat) (off : Z) (m : list Z) : option Z :=
  if decide (0 ≤ off ∧ off + Z.of_nat w ≤ Z.of_nat (base.length m))
  then Some (le_combine (take w (drop (Z.to_nat off) m)))
  else None.

Definition store (w : nat) (off v : Z) (m : list Z) : option (list Z) :=
  if decide (0 ≤ off ∧ off + Z.of_nat w ≤ Z.of_nat (base.length m))
  then Some (take (Z.to_nat off) m ++ le_split w v
               ++ drop (Z.to_nat off + w) m)
  else None.

Definition valid_page (m : list Z) : Prop :=
  base.length m = 4096%nat ∧ Forall is_byte m.

Lemma le_split_length w v : base.length (le_split w v) = w.
Proof. revert v. induction w; intros v; simpl; [done|by rewrite IHw]. Qed.

Lemma le_split_bytes w v : Forall is_byte (le_split w v).
Proof.
  revert v. induction w; intros v; simpl; constructor; [|done].
  unfold is_byte. apply Z.mod_pos_bound. lia.
Qed.

Lemma le_combine_split w v : le_combine (le_split w v) = v `mod` 2 ^ (8 * Z.of_nat w).
Proof.
  revert v. induction w as [|w IH]; intros v; [by rewrite Z.mod_1_r|].
  cbn [le_split le_combine]. rewrite IH.
  replace (2 ^ (8 * Z.of_nat (S w))) with (256 * 2 ^ (8 * Z.of_nat w)).
  - rewrite Z.rem_mul_r; [lia|lia|]. apply Z.pow_pos_nonneg; lia.
  - replace (8 * Z.of_nat (S w)) with (8 + 8 * Z.of_nat w) by lia.
    rewrite Z.pow_add_r by lia. done.
Qed.

Lemma le_combine_bound bs : Forall is_byte bs →
  0 ≤ le_combine bs < 2 ^ (8 * Z.of_nat (base.length bs)).
Proof.
  induction 1 as [|b bs Hb Hbs IH]; [done|]. cbn [le_combine base.length].
  replace (8 * Z.of_nat (S (base.length bs))) with (8 + 8 * Z.of_nat (base.length bs)) by lia.
  rewrite Z.pow_add_r by lia. unfold is_byte in Hb. change (2 ^ 8) with 256. nia.
Qed.

Section memory_lemmas.
Context (m : list Z) (Hm : valid_page m).

Lemma load_valid w off : 0 ≤ off → off + Z.of_nat w ≤ 4096 →
  ∃ v, load w off m = Some v ∧ 0 ≤ v < 2 ^ (8 * Z.of_nat w).
Proof.
  intros H0 H1. destruct Hm as [Hl Hb]. unfold load. rewrite Hl, decide_True by lia.
  eexists; split; [done|].
  assert (base.length (take w (drop (Z.to_nat off) m)) = w) as Hw.
  { rewrite length_take, length_drop. lia. }
  rewrite <- Hw at 3. apply le_combine_bound. by apply Forall_take, Forall_drop.
Qed.

Lemma store_valid w off v : 0 ≤ off → off + Z.of_nat w ≤ 4096 →
  ∃ m', store w off v m = Some m' ∧ valid_page m'.
Proof.
  intros H0 H1. destruct Hm as [Hl Hb]. unfold store. rewrite Hl, decide_True by lia.
  eexists; split; [done|]. split.
  - rewrite !length_app, length_take, length_drop, le_split_length. lia.
  - rewrite !Forall_app. split; [by apply Forall_take|].
    split; [apply le_split_bytes|by apply Forall_drop].
Qed.
End memory_lemmas.

Lemma store_Some w off v m m' : store w off v m = Some m' →
  0 ≤ off ∧ off + Z.of_nat w ≤ Z.of_nat (base.length m) ∧
  m' = take (Z.to_nat off) m ++ le_split w v ++ drop (Z.to_nat off + w) m ∧
  base.length m' = base.length m.
Proof.
  unfold store. intros H. case_decide as Hd; [|done]. injection H as <-.
  split; [lia|]. split; [lia|]. split; [done|].
  rewrite !length_app, length_take, length_drop, le_split_length. lia.
Qed.

(** What was stored is read back, truncated to the width of the field. *)
Lemma load_store_same w off v m m' : store w off v m = Some m' →
  load w off m' = Some (v `mod` 2 ^ (8 * Z.of_nat w)).
Proof.
  intros (H0 & H1 & -> & Hl)%store_Some. unfold load.
  rewrite Hl, decide_True by lia. f_equal.
  rewrite drop_app_length' by (rewrite length_take; lia).
  rewrite take_app_length' by (by rewrite le_split_length). apply le_combine_split.
Qed.

(** A store leaves the fields that do not overlap it alone. *)
Lemma load_store_other w off v w' off' m m' : store w off v m = Some m' →
  off' + Z.of_nat w' ≤ off ∨ off + Z.of_nat w ≤ off' →
  load w' off' m' = load w' off' m.
Proof.
  intros (H0 & H1 & -> & Hl)%store_Some Hd. unfold load. rewrite Hl.
  case_decide as Hi; [|done]. f_equal. f_equal. destruct Hd as [Hd|Hd].
  - rewrite drop_app_le by (rewrite length_take; lia).
    rewrite take_app_le by (rewrite length_drop, length_take; lia).
    rewrite skipn_firstn_comm, take_take. f_equal. lia.
  - rewrite drop_app_ge by (rewrite length_take; lia).
    rewrite drop_app_ge by (rewrite le_split_length, length_take; lia).
    rewrite drop_drop. f_equal. f_equal.
    rewrite le_split_length, length_take. lia.
Qed.

(** * The kernel *)

(** A message of userfaultfd, [struct uffd_msg]. *)
Inductive uffd_msg : Type :=
| UFFD_EVENT_PAGEFAULT (address flags entry_content : Z)
| UFFD_EVENT_FORK (ufd : Z)
| UFFD_EVENT_REMAP
| UFFD_EVENT_UNMAP (start end_ : Z)
| UFFD_EVENT_REMOVE (start end_ : Z)
| UFFD_EVENT_OTHER.

Definition POLLIN : Z := 1.
Definition POLLPRI : Z := 2.
Definition UFFD_PAGEFAULT_FLAG_SWAP : Z := 8.
Definition EINVAL : Z := 22.
Definition ESRCH : Z := 3.

(** The kernel and the other side of every file descriptor. Each operation
    gets the number of earlier interactions, so that two calls with the same
    arguments may answer differently. *)
Class Kernel := {
  (* what the kernel writes to the shared page while the daemon yields *)
  kernel_page : nat → list Z → list Z;
  (* ioctl(fd, UFFDIO_PALLOC, {addr, uaddr, opt}): return value, errno, and
     the value of uaddr that the kernel writes back *)
  ioctl_palloc : nat → Z → Z → Z → Z → Z * Z * Z;
  (* ioctl(fd, UFFDIO_CONTINUE, {start, len}) *)
  ioctl_continue : nat → Z → Z → Z → Z;
  (* read of a uffd message or of a freed PFN: [inl errno] is the return
     value -1; read of a process name: return value, name, errno *)
  read_uffd : nat → Z → Z + uffd_msg;
  read_freed : nat → Z + Z;
  read_new_proc : nat → Z * string * Z;
  (* poll(fd, events): return value and revents *)
  poll : nat → Z → Z → Z * Z;
  (* whether a call on the swap file (fseeko, fread, fwrite) succeeds *)
  file_ok : nat → bool;
  (* what a field of a malloc'ed structure holds before it is written *)
  malloc_value : nat → Z;
  (* the shared page stays a page *)
  kernel_page_valid : ∀ t m, valid_page m → valid_page (kernel_page t m);
}.

Section channel.
Context `{K : Kernel}.

Definition tick : M usm nat := λ s, Ok (clock s) (set_clock (S (clock s)) s).

(** Another task runs: the kernel works on the shared page. *)
Definition kernel_runs : M usm unit :=
  t ← tick;
  update_event (λ e, with_usmmem (kernel_page t <$> usmmem e) e).

(** ** Accesses to the shared page *)
Definition usm_load (w : nat) (off : Z) : M usm Z :=
  reads (λ s, m ← usmmem (event s); load w off m).
Definition usm_store (w : nat) (off v : Z) : M usm unit :=
  updates (λ s, m ← usmmem (event s); m' ← store w off v m;
                Some (set_event (with_usmmem (Some m') (event s)) s)).

Definition sizeof_int : Z := 4.
Definition sizeof_long : Z := 8.

Definition status_off : Z := sizeof_int.
Definition vaddr_off : Z := 8.
Definition paddr_off : Z := 16.
Definition flags_off : Z := 24.
Definition state_off : Z := sizeof_int * 2 + sizeof_long * 3.
Definition rem_size_off : Z := sizeof_int * 3 + sizeof_long * 3.
Definition further_alloc_off : Z := sizeof_int * 3 + sizeof_long * 4.
(** Slot [pos] of [extra_allocs]: a PFN and the number of PFNs that follow it
    contiguously. *)
Definition extra_pfn_off (pos : Z) : Z :=
  u64 (sizeof_int * 4 + sizeof_long * 4 + pos * (sizeof_int + sizeof_long)).
Definition extra_count_off (pos : Z) : Z :=
  u64 (sizeof_int * 4 + sizeof_long * 4 + pos * (sizeof_int + sizeof_long) + sizeof_long).

(** ** Helpers of usm.h on the slots *)
Definition usmPrepPreAlloc (pfn pos : Z) : M usm Z :=
  _ ← usm_store 8 (extra_pfn_off pos) pfn; mret 0.

Definition usmPrepPreAllocFast (pos : Z) : M usm Z :=
  c ← usm_load 4 (extra_count_off pos);
  _ ← usm_store 4 (extra_count_off pos) (u32 (c + 1)); mret 0.

Definition usmPrepPreAllocFastCounted (pos count : Z) : M usm Z :=
  _ ← usm_store 4 (extra_count_off pos) count; mret 0.

Definition usmCheckConsumption (pos : Z) : M usm Z :=
  v ← usm_load 8 (u64 (sizeof_int * 4 + sizeof_long * (4 + pos)));
  mret (if v =? 0 then 1 else 0).

(** The function returns [int]: the PFN is truncated. *)
Definition usmGetUnacctPage (pos : Z) : M usm Z :=
  v ← usm_load 8 (extra_pfn_off pos); mret (s32 v).

(** ** The memory channel (usm_cnl_mem_ops) *)
Definition usm_mem_ret_ev : M usm Z :=
  v ← usm_load 8 vaddr_off;
  _ ← update_event (with_vaddr v);
  f ← usm_load 8 flags_off;
  _ ← update_event (with_flags f);
  _ ← (if negb (Z.land f UFFD_PAGEFAULT_FLAG_SWAP =? 0)
       then p ← usm_load 8 paddr_off;
            update_event (with_offst (u64 (p * SYS_PAGE_SIZE)))
       else mret tt);
  l ← usm_load 8 rem_size_off;
  _ ← update_event (with_length l);
  mret 0.

Definition usm_mem_ret_ev_special : M usm Z :=
  _ ← update_event (with_type ALLOC);
  v ← usm_load 8 vaddr_off;
  _ ← update_event (with_vaddr v);
  f ← usm_load 8 flags_off;
  _ ← update_event (with_flags f);
  _ ← (if negb (Z.land f UFFD_PAGEFAULT_FLAG_SWAP =? 0)
       then p ← usm_load 8 paddr_off;
            update_event (with_offst (u64 (p * SYS_PAGE_SIZE)))
       else mret tt);
  l ← usm_load 8 rem_size_off;
  _ ← update_event (with_length l);
  _ ← usm_store 4 status_off 0;
  mret 0.

(** [__READ_ONCE( *status)]: the kernel may have run since the last access. *)
Definition read_status : M usm Z :=
  _ ← kernel_runs; v ← usm_load 4 status_off; mret (s32 v).

(** The wait loop polls until the status leaves 2 ("submitted"); [fuel] bounds
    the number of polls. Between two polls the code calls usm_yield, which returns at once
    unless the word of the manager has events of other threads ([Sched.todo]); that case, in
    which the thread is swapped off and another handler runs, is a step of Sched.v. *)
Definition usm_mem_subm_ev (fuel : nat) : M usm Z :=
  e ← get_event;
  _ ← usm_store 8 paddr_off (paddr e);
  _ ← usm_store 4 further_alloc_off (length e);
  _ ← usm_store 4 status_off 2;
  res ← read_status;
  res ← loop fuel (λ res,
    if res =? 2 then (r ← read_status; mret (inl r)) else mret (inr res)) res;
  f ← usm_load 8 rem_size_off;
  _ ← update_event (with_flags f);
  _ ← usm_store 4 status_off 0;
  mret (if res =? 3 then 0 else res).

Definition usm_mem_check : M usm Z :=
  status ← usm_load 4 status_off;
  state ← usm_load 4 state_off;
  if s32 state =? 10 then _ ← usm_store 4 state_off 0; mret (-1)
  else mret (if s32 status =? 1 then 1 else 0).

(** ** Channels over file descriptors *)
Definition usm_uffd_ret_ev : M usm Z :=
  t ← tick;
  e ← get_event;
  match read_uffd t (origin e) with
  | inl errno => mret errno
  | inr (UFFD_EVENT_PAGEFAULT address fl entry) =>
      _ ← update_event (λ e, with_offst (u64 (entry * SYS_PAGE_SIZE))
                            (with_flags fl (with_vaddr address (with_type ALLOC e))));
      mret 0
  | inr (UFFD_EVENT_FORK ufd) =>
      _ ← update_event (λ e, with_origin ufd (with_type NEW_PROC e)); mret 0
  | inr UFFD_EVENT_REMAP =>
      _ ← update_event (with_type VIRT_AS_CHANGE); mret 0
  | inr (UFFD_EVENT_UNMAP start end_) | inr (UFFD_EVENT_REMOVE start end_) =>
      _ ← update_event (λ e, with_length (u64 (end_ - start))
                            (with_vaddr start (with_type FREE e)));
      mret 0
  | inr UFFD_EVENT_OTHER => mret 1
  end.

Definition usm_freed_page_ret_ev : M usm Z :=
  t ← tick;
  match read_freed t with
  | inl errno => mret errno
  | inr pfn =>
      _ ← update_event (λ e, with_type PHY_AS_CHANGE (with_paddr pfn e)); mret 0
  end.

(** The read returns the descriptor of the process and fills a 16-byte name;
    a result of 0 or less is reported through [errno]. The last [tick] is the write of no bytes
    that tells the kernel; its result is not used. *)
Definition usm_new_proc_ret_ev : M usm Z :=
  t ← tick;
  let '(process, name, errno) := read_new_proc t in
  if process <=? 0 then mret errno
  else
    _ ← update_event (λ e, with_type NEW_PROC (with_origin process (with_procName None e)));
    _ ← (if decide (name = EmptyString) then mret tt
         else update_event (with_procName (Some name)));
    _ ← tick;
    mret 0.

Definition usm_poll_check (channel_id : Z) : M usm Z :=
  t ← tick;
  let '(res, revents) := poll t channel_id (Z.lor POLLIN POLLPRI) in
  if res <=? 0 then mret res
  else if negb (revents =? POLLPRI) && negb (revents =? POLLIN) then mret (-1)
  else mret revents.

Definition usm_poll_check_np (channel_id : Z) : M usm Z :=
  _ ← tick; mret POLLIN.

(** ** ioctl wrappers of usm.h *)
Definition usm_set_pfn (process addr pfn : Z) : M usm Z :=
  t ← tick;
  let '(r, errno, _) := ioctl_palloc t process addr pfn 4 in
  mret (if r =? 1 then 0
        else if (errno =? ESRCH) || (errno =? EINVAL) then 2 else 1).

Definition usm_set_pfn_emul (process addr pfn : Z) : M usm Z :=
  t ← tick;
  let '(r, errno, _) := ioctl_palloc t process addr 0 9 in
  mret (if r =? 1 then 0
        else if (errno =? ESRCH) || (errno =? EINVAL) then 2 else 1).

Definition usm_set_pfn_iuthread (process addr pfn : Z) : M usm Z :=
  t ← tick;
  let '(r, errno, _) := ioctl_palloc t process addr pfn 4 in
  mret (if r =? 1 then 0
        else if (errno =? ESRCH) || (errno =? EINVAL) then 2 else 1).

Definition usm_get_pfn (process addr nr : Z) : M usm Z :=
  t ← tick;
  let '(r, _, uaddr) := ioctl_palloc t process addr nr 3 in
  mret (if r <? 0 then 1 else uaddr).

Definition usm_clear_pfn (process addr : Z) : M usm Z :=
  t ← tick;
  let '(r, _, _) := ioctl_palloc t process addr 0 2 in
  mret (if r =? 1 then 0 else 1).

Definition usm_clear_and_set (process addr off : Z) : M usm Z :=
  t ← tick;
  let '(r, _, _) := ioctl_palloc t process addr off 5 in
  mret (if r =? 1 then 0 else 1).

Definition usm_continue : M usm Z :=
  t ← tick;
  e ← get_event;
  mret (if ioctl_continue t (origin e) (vaddr e) SYS_PAGE_SIZE =? 0 then 0 else 1).
End channel.

(** Comparisons of field offsets. *)
Ltac offset_solver :=
  unfold status_off, vaddr_off, paddr_off, flags_off, state_off, rem_size_off,
    further_alloc_off, sizeof_int, sizeof_long in *; lia.

(** * The submit protocol *)
Section protocol.
Context `{K : Kernel}.

(** The daemon with another shared page, and the daemon after a submission:
    only the event's page and flags and the clock may differ. *)
Definition set_page (m : list Z) (s : usm) : usm :=
  set_event (with_usmmem (Some m) (event s)) s.
Definition submitted (t : nat) (m : list Z) (f : Z) (s : usm) : usm :=
  set_clock t (set_event (with_flags f (with_usmmem (Some m) (event s))) s).

Definition has_page (m : list Z) (s : usm) : Prop :=
  usmmem (event s) = Some m ∧ valid_page m.

Definition status_of (m : list Z) : option Z := s32 <$> load 4 status_off m.

(** The kernel answers a page [m] submitted at time [t]: at time [t'] the
    status has left 2 for the first time and the page is [m']. *)
Inductive answered : nat → list Z → nat → list Z → Prop :=
| answered_now t m r :
    status_of (kernel_page t m) = Some r → r ≠ 2 →
    answered t m (S t) (kernel_page t m)
| answered_later t m t' m' :
    status_of (kernel_page t m) = Some 2 →
    answered (S t) (kernel_page t m) t' m' →
    answered t m t' m'.

Lemma answered_lt t m t' m' : answered t m t' m' → (t < t')%nat.
Proof. induction 1; lia. Qed.

Lemma usm_load_page w off m s v :
  usmmem (event s) = Some m → load w off m = Some v → usm_load w off s = Ok v s.
Proof. intros Hm Hl. unfold usm_load, reads. by rewrite Hm; simpl; rewrite Hl. Qed.

Lemma usm_store_page w off v m m' s :
  usmmem (event s) = Some m → store w off v m = Some m' →
  usm_store w off v s = Ok tt (set_page m' s).
Proof. intros Hm Hl. unfold usm_store, updates. by rewrite Hm; simpl; rewrite Hl. Qed.

Lemma usm_load_ok w off m s : has_page m s → 0 ≤ off → off + Z.of_nat w ≤ 4096 →
  ∃ v, load w off m = Some v ∧ usm_load w off s = Ok v s ∧ 0 ≤ v < 2 ^ (8 * Z.of_nat w).
Proof.
  intros [Hm Hv] H0 H1. destruct (load_valid m Hv w off) as (v & Hl & Hb); [done..|].
  exists v. split; [done|]. split; [by eapply usm_load_page|done].
Qed.

Lemma usm_store_ok w off v m s : has_page m s → 0 ≤ off → off + Z.of_nat w ≤ 4096 →
  ∃ m', store w off v m = Some m' ∧ usm_store w off v s = Ok tt (set_page m' s) ∧
        has_page m' (set_page m' s).
Proof.
  intros [Hm Hv] H0 H1. destruct (store_valid m Hv w off v) as (m' & Hl & Hb); [done..|].
  exists m'. split; [done|]. split; [by eapply usm_store_page|done].
Qed.

(** One poll of the status. *)
Lemma read_status_ok m s r :
  usmmem (event s) = Some m → status_of (kernel_page (clock s) m) = Some r →
  read_status s = Ok r (set_clock (S (clock s)) (set_page (kernel_page (clock s) m) s)).
Proof.
  intros Hm. unfold status_of, read_status, kernel_runs, tick, update_event, modify.
  unfold mbind, M_bind; simpl. rewrite Hm; simpl.
  destruct (load 4 status_off (kernel_page (clock s) m)) as [v|] eqn:E; simpl; [|done].
  intros [= <-]. unfold usm_load, reads; simpl. by rewrite E.
Qed.

(** The wait loop ends with the kernel's answer as soon as it has the fuel to
    poll for it. *)
Lemma wait_ok t m t' m' s0 r0 :
  answered t m t' m' → status_of m' = Some r0 → clock s0 = t →
  usmmem (event s0) = Some m →
  ∀ fuel, (t' - t ≤ fuel)%nat →
  (res ← read_status;
   loop fuel (λ res, if res =? 2 then (r ← read_status; mret (inl r))
                     else mret (inr res)) res) s0 =
  Ok r0 (set_clock t' (set_page m' s0)).
Proof.
  intros Ha. revert s0.
  induction Ha as [t m r Hr Hne|t m t' m' H2 Ha IH]; intros s0 Hr0 Ht Hm fuel Hf; subst t.
  - assert (r0 = r) as -> by congruence.
    rewrite (bind_ok _ _ _ _ _ (read_status_ok _ _ _ Hm Hr)).
    destruct fuel as [|fuel]; [lia|]. rewrite loop_S.
    destruct (Z.eqb_spec r 2) as [|_]; [done|]. done.
  - rewrite (bind_ok _ _ _ _ _ (read_status_ok _ _ _ Hm H2)).
    pose proof (answered_lt _ _ _ _ Ha).
    destruct fuel as [|fuel]; [lia|]. rewrite loop_S. simpl.
    rewrite bind_assoc. simpl.
    etrans; [|apply (IH (set_clock (S (clock s0)) (set_page (kernel_page (clock s0) m) s0)) Hr0 eq_refl eq_refl fuel)].
    + unfold mbind, M_bind. destruct (read_status _); done.
    + lia.
Qed.
(** What the daemon writes before it waits: the PFN, the number of further
    pages, and the status 2. *)
Definition submission (e : usm_event) (m : list Z) : option (list Z) :=
  m ← store 8 paddr_off (paddr e) m;
  m ← store 4 further_alloc_off (length e) m;
  store 4 status_off 2 m.

Lemma submission_ok e m : valid_page m →
  ∃ m0, submission e m = Some m0 ∧ valid_page m0 ∧
    load 8 paddr_off m0 = Some (u64 (paddr e)) ∧
    load 4 further_alloc_off m0 = Some (u32 (length e)) ∧
    status_of m0 = Some 2 ∧
    (∀ w off, further_alloc_off + 4 ≤ off → load w off m0 = load w off m).
Proof.
  intros Hm. unfold submission.
  destruct (store_valid m Hm 8 paddr_off (paddr e)) as (m1 & E1 & V1); [done..|].
  destruct (store_valid m1 V1 4 further_alloc_off (length e)) as (m2 & E2 & V2); [done..|].
  destruct (store_valid m2 V2 4 status_off 2) as (m3 & E3 & V3); [done..|].
  exists m3. rewrite E1; simpl. rewrite E2; simpl. split; [done|]. split; [done|].
  split; [|split; [|split]].
  - rewrite (load_store_other _ _ _ _ _ _ _ E3) by offset_solver.
    rewrite (load_store_other _ _ _ _ _ _ _ E2) by offset_solver.
    by rewrite (load_store_same _ _ _ _ _ E1).
  - rewrite (load_store_other _ _ _ _ _ _ _ E3) by offset_solver.
    by rewrite (load_store_same _ _ _ _ _ E2).
  - unfold status_of. by rewrite (load_store_same _ _ _ _ _ E3).
  - change (further_alloc_off + 4) with 48. intros w off Hoff.
    rewrite (load_store_other _ _ _ _ _ _ _ E3) by offset_solver.
    rewrite (load_store_other _ _ _ _ _ _ _ E2) by offset_solver.
    rewrite (load_store_other _ _ _ _ _ _ _ E1) by offset_solver. done.
Qed.

Lemma answered_valid t m t' m' : answered t m t' m' → valid_page m → valid_page m'.
Proof. induction 1; eauto using kernel_page_valid. Qed.

Lemma answered_status t m t' m' : answered t m t' m' → ∃ r, status_of m' = Some r ∧ r ≠ 2.
Proof. induction 1; eauto. Qed.

(** The status that ends a submission is 0 again, the other fields are the
    kernel's. *)
Lemma usm_mem_subm_ev_spec s m m0 t' m' fuel :
  has_page m s → submission (event s) m = Some m0 →
  answered (clock s) m0 t' m' → (t' - clock s ≤ fuel)%nat →
  ∃ r f m'', status_of m' = Some r ∧ r ≠ 2 ∧ load 8 rem_size_off m' = Some f ∧
    0 ≤ f < 2 ^ 64 ∧
    store 4 status_off 0 m' = Some m'' ∧ valid_page m'' ∧
    usm_mem_subm_ev fuel s = Ok (if r =? 3 then 0 else r) (submitted t' m'' f s).
Proof.
  intros [Hm Hv] Hsub Ha Hfuel.
  destruct (submission_ok (event s) m Hv) as (m0' & E0 & V0 & _).
  assert (m0' = m0) as -> by congruence. clear E0.
  pose proof (answered_valid _ _ _ _ Ha V0) as V'.
  destruct (answered_status _ _ _ _ Ha) as (r & Hr & Hr2).
  destruct (load_valid m' V' 8 rem_size_off) as (f & Hf & Hfb); [done..|].
  destruct (store_valid m' V' 4 status_off 0) as (m'' & Hs & V''); [done..|].
  exists r, f, m''. do 6 (split; [done|]).
  unfold submission in Hsub.
  destruct (store 8 paddr_off (paddr (event s)) m) as [m1|] eqn:E1; [|done]. simpl in Hsub.
  destruct (store 4 further_alloc_off (length (event s)) m1) as [m2|] eqn:E2; [|done].
  simpl in Hsub. unfold usm_mem_subm_ev, get_event. rewrite gets_bind.
  rewrite (bind_ok _ _ _ _ _ (usm_store_page _ _ _ _ _ s Hm E1)).
  rewrite (bind_ok _ _ _ _ _ (usm_store_page _ _ _ m1 _ (set_page m1 s) eq_refl E2)).
  rewrite (bind_ok _ _ _ _ _ (usm_store_page _ _ _ m2 _ (set_page m2 (set_page m1 s)) eq_refl Hsub)).
  rewrite <- bind_assoc.
  rewrite (bind_ok _ _ _ _ _ (wait_ok (clock s) m0 t' m' (set_page m0 (set_page m2 (set_page m1 s))) r Ha Hr eq_refl eq_refl fuel Hfuel)).
  erewrite (bind_ok (usm_load 8 rem_size_off)); [|by eapply usm_load_page].
  rewrite update_event_bind.
  erewrite (bind_ok (usm_store 4 status_off 0)); [|by eapply usm_store_page].
  done.
Qed.

(** ** Slots *)
Lemma slot_bounds pos : 0 ≤ pos ≤ 336 →
  extra_pfn_off pos = 48 + 12 * pos ∧ extra_count_off pos = 56 + 12 * pos ∧
  extra_pfn_off pos + 8 ≤ 4096 ∧ extra_count_off pos + 4 ≤ 4096.
Proof.
  intros H. unfold extra_pfn_off, extra_count_off, sizeof_int, sizeof_long, u64.
  rewrite !Z.mod_small by lia. lia.
Qed.

Lemma usmPrepPreAlloc_ok pfn pos m s : has_page m s → 0 ≤ pos ≤ 336 →
  ∃ m', store 8 (48 + 12 * pos) pfn m = Some m' ∧
    usmPrepPreAlloc pfn pos s = Ok 0 (set_page m' s) ∧ has_page m' (set_page m' s).
Proof.
  intros Hp Hpos. destruct (slot_bounds pos Hpos) as (E1 & E2 & B1 & B2).
  destruct (usm_store_ok 8 (extra_pfn_off pos) pfn m s Hp) as (m' & Hs & Ho & Hp'); [lia..|].
  exists m'. rewrite <- E1. split; [done|]. split; [|done].
  unfold usmPrepPreAlloc. by rewrite (bind_ok _ _ _ _ _ Ho).
Qed.

Lemma usmPrepPreAllocFastCounted_ok pos count m s : has_page m s → 0 ≤ pos ≤ 336 →
  ∃ m', store 4 (56 + 12 * pos) count m = Some m' ∧
    usmPrepPreAllocFastCounted pos count s = Ok 0 (set_page m' s) ∧
    has_page m' (set_page m' s).
Proof.
  intros Hp Hpos. destruct (slot_bounds pos Hpos) as (E1 & E2 & B1 & B2).
  destruct (usm_store_ok 4 (extra_count_off pos) count m s Hp) as (m' & Hs & Ho & Hp'); [lia..|].
  exists m'. rewrite <- E2. split; [done|]. split; [|done].
  unfold usmPrepPreAllocFastCounted. by rewrite (bind_ok _ _ _ _ _ Ho).
Qed.
End protocol.

(** * The interface of the policies with the channel

    A policy hands an event to [usm_submit_evt] and gets a status back. What
    it relies on: the call returns, and touches nothing of the daemon but the
    event's shared page and flags, and the clock. *)
Class SubmitEvt := {
  usm_submit_evt : M usm Z;
  usm_submit_evt_spec s m : has_page m s →
    ∃ r t m' f, usm_submit_evt s = Ok r (submitted t m' f s) ∧
      valid_page m' ∧ 0 ≤ f < 2 ^ 64;
}.

(** A kernel that answers every submission within [kernel_delay] polls: the
    faulting task is a kernel task that is only waiting for the status. *)
Class PromptKernel := {
  prompt_kernel :: Kernel;
  kernel_delay : nat;
  kernel_answers t m : valid_page m → status_of m = Some 2 →
    ∃ t' m', answered t m t' m' ∧ (t' - t ≤ kernel_delay)%nat;
}.

(** usm_cnl_mem_ops.usm_submit_evt implements the interface. *)
Global Program Instance usm_cnl_mem_ops `{PromptKernel} : SubmitEvt := {
  usm_submit_evt := usm_mem_subm_ev kernel_delay;
}.
Next Obligation.
  intros PK s m Hp. pose proof Hp as [Hm Hv].
  destruct (submission_ok (event s) m Hv) as (m0 & E0 & V0 & _ & _ & Hst & _).
  destruct (kernel_answers (clock s) m0 V0 Hst) as (t' & m' & Ha & Hd).
  destruct (usm_mem_subm_ev_spec s m m0 t' m' kernel_delay Hp E0 Ha Hd)
    as (r & f & m'' & _ & _ & _ & Hf & _ & Hv'' & He).
  by exists (if r =? 3 then 0 else r), t', m'', f.
Qed.

(** A concrete kernel, which answers a submission at the next poll with the
    status [r]. *)
Definition reply (r : Z) (m : list Z) : list Z :=
  if decide (status_of m = Some 2) then default m (store 4 status_off r m) else m.

Lemma reply_valid r m : valid_page m → valid_page (reply r m).
Proof.
  intros Hm. unfold reply. case_decide; [|done].
  destruct (store_valid m Hm 4 status_off r) as (m' & -> & Hm'); [done..|]. done.
Qed.

Definition reply_kernel (r : Z) : Kernel := {|
  kernel_page _ m := reply r m;
  ioctl_palloc _ _ _ u _ := (1, 0, u);
  ioctl_continue _ _ _ _ := 0;
  read_uffd _ _ := inr UFFD_EVENT_OTHER;
  read_freed _ := inl 0;
  read_new_proc _ := (-1, EmptyString, 0);
  poll _ _ _ := (0, 0);
  file_ok _ := true;
  malloc_value _ := 0;
  kernel_page_valid _ m H := reply_valid r m H;
|}.

Lemma reply_answers r t m : s32 r ≠ 2 → valid_page m → status_of m = Some 2 →
  answered (K := reply_kernel r) t m (S t) (reply r m).
Proof.
  intros Hr Hm Hs.
  apply (answered_now (K := reply_kernel r) t m (s32 r)); [|done].
  simpl. unfold reply. rewrite decide_True by done.
  destruct (store_valid m Hm 4 status_off r) as (m' & E & _); [done..|].
  rewrite E. simpl. unfold status_of. rewrite (load_store_same _ _ _ _ _ E). simpl.
  unfold s32, u32. change (8 * Z.of_nat 4) with 32. by rewrite Z.mod_mod.
Qed.

Program Definition prompt_reply (r : Z) (H : s32 r ≠ 2) : PromptKernel := {|
  prompt_kernel := reply_kernel r;
  kernel_delay := 1;
|}.
Next Obligation.
  intros r Hr t m Hm Hs. exists (S t), (reply r m). split; [by apply reply_answers|lia].
Qed.

(** The memory channel in front of a kernel that applies every submission, and
    of one that refuses them all. *)
Definition accepting : SubmitEvt :=
  @usm_cnl_mem_ops (prompt_reply 3 ltac:(vm_compute; discriminate)).
Definition refusing : SubmitEvt :=
  @usm_cnl_mem_ops (prompt_reply 7 ltac:(vm_compute; discriminate)).

Definition blank_page : list Z := replicate 4096 0.
Lemma blank_page_valid : valid_page blank_page.
Proof.
  split; [apply length_replicate|]. apply Forall_replicate. unfold is_byte. lia.
Qed.

(** * Theorems *)
Section properties.
Context `{K : Kernel}.

(** C3: the submit protocol of usm_mem_subm_ev. The daemon publishes the PFN and
    the number of further pages (truncated to the widths of the fields) before
    it raises the status to 2; if the kernel answers, the call returns after
    at most as many polls as the kernel needs, with the kernel's status (0 for
    3, "applied"), the number of unconsumed pages in [event->flags], and the
    status field cleared; nothing else of the daemon changes. *)
Theorem submit_protocol s m : has_page m s →
  ∃ m0, submission (event s) m = Some m0 ∧ status_of m0 = Some 2 ∧
    load 8 paddr_off m0 = Some (u64 (paddr (event s))) ∧
    load 4 further_alloc_off m0 = Some (u32 (length (event s))) ∧
    ∀ t' m', answered (clock s) m0 t' m' → ∀ fuel, (t' - clock s ≤ fuel)%nat →
      ∃ r f m'', status_of m' = Some r ∧ load 8 rem_size_off m' = Some f ∧
        status_of m'' = Some 0 ∧
        usm_mem_subm_ev fuel s = Ok (if r =? 3 then 0 else r) (submitted t' m'' f s).
Proof.
  intros Hp. pose proof Hp as [_ Hv].
  destruct (submission_ok (event s) m Hv) as (m0 & E0 & _ & Hpa & Hfa & Hst & _).
  exists m0. do 4 (split; [done|]). intros t' m' Ha fuel Hfuel.
  destruct (usm_mem_subm_ev_spec s m m0 t' m' fuel Hp E0 Ha Hfuel)
    as (r & f & m'' & Hr & _ & Hf & _ & Hs & _ & He).
  exists r, f, m''. do 2 (split; [done|]). split; [|done].
  unfold status_of. by rewrite (load_store_same _ _ _ _ _ Hs).
Qed.

(** The fields of the event that the page gives. *)
Lemma mem_ret_ev_ok s m va pa fl rs :
  usmmem (event s) = Some m →
  load 8 vaddr_off m = Some va → load 8 paddr_off m = Some pa →
  load 8 flags_off m = Some fl → load 8 rem_size_off m = Some rs →
  usm_mem_ret_ev s = Ok 0 (set_event
    (with_length rs (with_offst
       (if Z.testbit fl 3 then u64 (pa * 4096) else offst (event s))
       (with_flags fl (with_vaddr va (event s))))) s).
Proof.
  intros Hm Hva Hpa Hfl Hrs. unfold usm_mem_ret_ev.
  erewrite bind_ok; [|by eapply usm_load_page]. rewrite update_event_bind.
  erewrite bind_ok; [|by eapply usm_load_page]. rewrite update_event_bind.
  unfold UFFD_PAGEFAULT_FLAG_SWAP. change 8 with (2 ^ 3). rewrite land_pow2_eqb by lia.
  rewrite negb_involutive. destruct (Z.testbit fl 3).
  - rewrite bind_assoc. erewrite bind_ok; [|by eapply usm_load_page].
    rewrite update_event_bind.
    erewrite bind_ok; [|by eapply usm_load_page]. done.
  - rewrite ret_bind. erewrite bind_ok; [|by eapply usm_load_page]. by destruct s as [?????????????[] ?].
Qed.

(** a fault that the kernel wrote into the page is retrieved unchanged; the
    swap entry is scaled to a byte offset, modulo 2^64, only when the kernel
    flagged the fault as a swap-in. *)
Theorem mem_ret_ev_decodes s m va pa fl rs :
  usmmem (event s) = Some m →
  load 8 vaddr_off m = Some va → load 8 paddr_off m = Some pa →
  load 8 flags_off m = Some fl → load 8 rem_size_off m = Some rs →
  usm_mem_ret_ev s = Ok 0 (set_event
    (with_length rs (with_offst
       (if Z.testbit fl 3 then u64 (pa * 4096) else offst (event s))
       (with_flags fl (with_vaddr va (event s))))) s).
Proof. apply mem_ret_ev_ok. Qed.

(** exactly the slots 0 to 336 of the shared page can hold a preallocated
    page; writing slot 337 or any later one is outside the page. *)
Theorem prealloc_slot_bounds s m pfn pos : has_page m s → 0 ≤ pos < 2 ^ 32 →
  (pos ≤ 336 ∧ ∃ m', usmPrepPreAlloc pfn pos s = Ok 0 (set_page m' s) ∧
     valid_page m' ∧ load 8 (48 + 12 * pos) m' = Some (u64 pfn)) ∨
  (337 ≤ pos ∧ usmPrepPreAlloc pfn pos s = Undef).
Proof.
  intros Hp Hpos. destruct (decide (pos ≤ 336)) as [Hle|Hgt]; [left|right].
  - split; [done|].
    destruct (usmPrepPreAlloc_ok pfn pos m s Hp) as (m' & Hs & Ho & _ & Hv); [lia|].
    exists m'. split; [done|]. split; [done|]. by rewrite (load_store_same _ _ _ _ _ Hs).
  - split; [lia|]. unfold usmPrepPreAlloc, usm_store. apply bind_undef.
    destruct Hp as [Hm [Hl _]]. unfold updates. rewrite Hm. simpl. unfold store.
    rewrite decide_False; [done|]. rewrite Hl. unfold extra_pfn_off, sizeof_int, sizeof_long, u64.
    rewrite Z.mod_small; lia.
Qed.
End properties.

(** ** Witnesses *)

(** The page and the daemon when a thread faulted at 0x7000 on a swapped page
    with the entry 5. *)
Definition faulting_page : list Z :=
  default [] (m ← store 8 vaddr_off 0x7000 blank_page;
              m ← store 8 flags_off 8 m;
              m ← store 8 paddr_off 5 m;
              store 8 rem_size_off 3 m).
Definition faulting_state : usm := set_page faulting_page static_state.

Lemma faulting_has_page : has_page faulting_page faulting_state.
Proof.
  split; [done|]. split; [vm_compute; reflexivity|].
  apply (bool_decide_unpack (Forall is_byte faulting_page)). vm_compute. exact I.
Qed.

Lemma submit_protocol_witness :
  ∃ r m'', usm_mem_subm_ev (K := reply_kernel 3) 1 faulting_state
           = Ok r (submitted 1 m'' 3 faulting_state) ∧ r = 0.
Proof.
  destruct (submit_protocol (K := reply_kernel 3) faulting_state faulting_page
              faulting_has_page) as (m0 & E0 & Hst & _ & _ & H).
  destruct (submission_ok (event faulting_state) faulting_page (proj2 faulting_has_page))
    as (m1 & E1 & V1 & _).
  assert (m1 = m0) as -> by congruence.
  destruct (H 1%nat (reply 3 m0) (reply_answers 3 0 m0 ltac:(done) V1 Hst) 1%nat ltac:(done))
    as (r & f & m'' & Hr & Hf & _ & He).
  vm_compute in E0. injection E0 as <-. vm_compute in Hr, Hf.
  injection Hr as <-. injection Hf as <-.
  exists 0, m''. split; [exact He|done].
Defined.

Lemma mem_ret_ev_decodes_witness :
  usm_mem_ret_ev faulting_state = Ok 0 (set_event
    (with_length 3 (with_offst (5 * 4096)
       (with_flags 8 (with_vaddr 0x7000 (event faulting_state))))) faulting_state).
Proof.
  apply (mem_ret_ev_decodes faulting_state faulting_page 0x7000 5 8 3);
    vm_compute; reflexivity.
Defined.

Lemma prealloc_slot_bounds_witness :
  usmPrepPreAlloc 77 337 faulting_state = Undef.
Proof.
  destruct (prealloc_slot_bounds faulting_state faulting_page 77 337 faulting_has_page)
    as [[H _]|[_ H]]; [lia|lia|exact H].
Defined.
