(* ===== verification/PagePool.v ===== *)
(** The pool of physical pages and the allocation policies
    (include/usm/usm.h, examples/project-2/alloc/src/policiesSet1.c).

    Every page has one node ([struct optEludeList]), which is always in one
    list: the free list, the used list, or the list of a handler that holds
    it. [pool] states this, together with the links between nodes, pages and
    PFNs; the policies move nodes between the lists. They reach the faulting
    thread through the interface [SubmitEvt] only.

    The mutexes [policiesSet1Ulock] and [policiesSet1Flock] are not modelled:
    a definition is one handler running alone. *)
From stdpp Require Import prelude gmap strings.
From S2P Require Import Prelude Lists State Channel.

Open Scope Z_scope.

(** * Helpers of usm.h on pages and processes *)

Definition increaseProcessAllocatedMemory (process size : Z) : M usm unit :=
  update_procDesc (u32 process) (λ d,
    ProcessDesc (alloc_policy d) (swap_policy d) (u64 (allocated d + u32 size)) (swapped d) (prio d)).

Definition decreaseProcessAllocatedMemory (process size : Z) : M usm unit :=
  update_procDesc (u32 process) (λ d,
    ProcessDesc (alloc_policy d) (swap_policy d) (u64 (allocated d - u32 size)) (swapped d) (prio d)).

Definition usmPfnToUsedListNode (pfn : nat) : M usm (option nat) :=
  p ← page_at pfn; mret (usedListPositionPointer p).

Definition usmSetUsedListNode (i n : nat) : M usm unit := update_page i (page_node (Some n)).
Definition usmResetUsedListNode (i : nat) : M usm unit := update_page i (page_node None).

(** [unsigned int]: the difference is truncated to 32 bits. *)
Definition usmPfnToPageIndex (pfn : Z) : M usm Z := gets (λ s, u32 (pfn - basePFN s)).

(** The test uses the truncated index, the pointer the full difference. *)
Definition usmEventToPage : M usm (option nat) :=
  e ← get_event;
  idx ← usmPfnToPageIndex (paddr e);
  n ← gets globalPagesNumber;
  base ← gets basePFN;
  if (n <=? idx) || (paddr e <? base) then mret None
  else mret (Some (Z.to_nat (paddr e - base))).

Definition usmPageToUsedListNode (i : nat) : M usm (option nat) :=
  p ← page_at i; mret (usedListPositionPointer p).

Definition usmLinkPage (page : option nat) : M usm unit :=
  match page with
  | Some i => e ← get_event; update_page i (λ p, page_process (origin e) (page_vaddr (vaddr e) p))
  | None => mret tt
  end.

Definition usmCheckPageAlive (page : option nat) : M usm Z :=
  match page with
  | Some i => p ← page_at i; d ← procDesc_at (process p);
              mret (if prio d =? -1 then 1 else 0)
  | None => mret 0
  end.

(** usm_init fills the page table with it, one page per frame of the pool. *)
Definition insertPage (physicalAddress : Z) (content : list Z) (pos : nat) : M usm unit :=
  update_page pos (λ p, Page content 0 physicalAddress 0 (usedListPositionPointer p)).

(** * policiesSet1.c *)
Section policies.
Context `{SE : SubmitEvt}.

Definition put_page (pageNode : nat) : M usm unit :=
  list_op (list_move_tail (NodeIulist pageNode) FreeList).

Definition consume_pages (pages : loc) : M usm unit :=
  for_each_safe (λ _ pagesIterator,
    _ ← list_op (list_move_tail pagesIterator UsedList);
    usedMemory_add SYS_PAGE_SIZE) pages tt.

(** The loop advances [addr] by one page per node; its last value is dead. *)
Definition consume_pages_acct (pages : loc) (addr origin : Z) : M usm unit :=
  _ ← for_each_safe (λ addr pos,
    node ← node_of_iulist pos;
    i ← usmPage_of node;
    _ ← update_page i (page_vaddr addr);
    _ ← update_page i (page_process origin);
    _ ← list_op (list_move_tail (NodeIulist node) UsedList);
    _ ← usedMemory_add SYS_PAGE_SIZE;
    mret (u64 (addr + SYS_PAGE_SIZE))) pages addr;
  mret tt.

Definition give_back_pages (pages : loc) : M usm unit :=
  for_each_safe (λ _ pagesIterator,
    _ ← list_op (list_move_tail pagesIterator FreeList);
    usedMemory_sub SYS_PAGE_SIZE) pages tt.

(** [put_pages] is set to [give_back_pages] by the setup. *)
Definition put_pages := give_back_pages.

Definition pages_acct (origin ret addr : Z) (l_ps : loc) : M usm unit :=
  if negb (ret =? 0) then put_pages l_ps else consume_pages_acct l_ps addr origin.

(** [list_first_entry(&freeList, struct optEludeList, iulist)] *)
Definition first_free : M usm nat := x ← next_of FreeList; node_of_iulist x.

(** Take the first free page: its node goes to the tail of [placeholder], its
    PFN is returned. *)
Definition take_free (placeholder : loc) : M usm Z :=
  chosenPage ← first_free;
  _ ← list_op (list_move_tail (NodeIulist chosenPage) placeholder);
  i ← usmPage_of chosenPage;
  p ← page_at i;
  mret (physicalAddress p).

(** One test and iteration of the loop of [get_pages_prep] over
    [(nr, pos, count, vpfn)]. *)
Definition prep_body (placeholder : loc) (a : Z * Z * Z * Z) :
    M usm (Z * Z * Z * Z + Z * Z * Z) :=
  let '(nr, pos, count, vpfn) := a in
  if negb (0 <? nr) then mret (inr (nr, pos, count))
  else
    e ← list_is_empty FreeList;
    if (e : bool) then mret (inr (nr, pos, count))
    else
      pfn ← take_free placeholder;
      if vpfn =? pfn then mret (inl (nr - 1, pos, count + 1, u64 (pfn + 1)))
      else
        _ ← usmPrepPreAllocFastCounted pos count;
        _ ← usmPrepPreAlloc pfn (pos + 1);
        mret (inl (nr - 1, pos + 1, 0, u64 (pfn + 1))).

Definition get_pages_prep (placeholder : loc) (nr : Z) : M usm Z :=
  let nbr := nr in
  e ← list_is_empty FreeList;
  if (e : bool) then mret 0
  else
    pfn ← take_free placeholder;
    _ ← update_event (with_paddr pfn);
    let nr := nr - 1 in
    e ← list_is_empty FreeList;
    if (e : bool) then mret (nbr - nr)
    else
      vpfn ← take_free placeholder;
      _ ← usmPrepPreAlloc vpfn 0;
      r ← loop (S (Z.to_nat nr)) (prep_body placeholder) (nr, 0, 0, u64 (vpfn + 1));
      let '(nr, pos, count) := r in
      _ ← (if count =? 0 then mret 0 else usmPrepPreAllocFastCounted pos count);
      mret (nbr - nr).

Definition basic_alloc_uniq : M usm Z :=
  e ← list_is_empty FreeList;
  if (e : bool) then mret 1
  else
    freeListNode ← first_free;
    size ← gets globalPageSize;
    _ ← usedMemory_add size;
    _ ← list_op (list_del (NodeIulist freeListNode));
    pg ← gets (λ s, usmPage s !! freeListNode);
    match pg with
    | None => abort        (* exit(1) of the DEBUG build *)
    | Some i =>
        p ← page_at i;
        _ ← update_event (with_paddr (physicalAddress p));
        _ ← update_event (with_length 0);
        res ← usm_submit_evt;
        if negb (res =? 0) then
          _ ← list_op (list_add (NodeIulist freeListNode) FreeList);
          _ ← usedMemory_sub size;
          mret res
        else
          _ ← usmLinkPage (Some i);
          _ ← list_op (list_add_tail (NodeIulist freeListNode) UsedList);
          mret 0
    end.

(** [while (event->flags--) put_page(... usmGetUnacctPage(event, pos) ...)]
    with [pos = 0]: the test also decrements, so the loop leaves the field at
    2^64 - 1. *)
Definition put_unacct (fuel : nat) : M usm unit :=
  loop fuel (λ _ : unit,
    e ← get_event;
    _ ← update_event (with_flags (u64 (flags e - 1)));
    if flags e =? 0 then mret (inr tt)
    else
      pfn ← usmGetUnacctPage 0;
      base ← gets basePFN;
      p ← page_at (Z.to_nat (u64 (pfn - base)));
      match usedListPositionPointer p with
      | Some n => _ ← put_page n; mret (inl tt)
      | None => undef
      end) tt.

Definition basic_alloc : M usm Z :=
  pages_list ← new_list_head;
  _ ← list_op (INIT_LIST_HEAD pages_list);
  e ← get_event;
  let wantedNumber := s32 (length e + 1) in
  let wantedNumber := if 512 <? wantedNumber then 512 else wantedNumber in
  avPages ← get_pages_prep pages_list wantedNumber;
  if avPages =? 0 then mret 1
  else
    _ ← update_event (with_length (u64 (avPages - 1)));
    ret ← usm_submit_evt;
    _ ← (if ret =? 0 then
           e ← get_event;
           if flags e =? 0 then mret tt else put_unacct (S (Z.to_nat (flags e)))
         else mret tt);
    if negb (ret =? 0) then
      _ ← put_pages pages_list; mret 1
    else
      e ← get_event;
      _ ← consume_pages_acct pages_list (vaddr e) (origin e);
      mret 0.

(** The function calls itself first: [fuel] is the depth of the C stack. *)
Fixpoint basic_c_alloc (fuel : nat) : M usm Z :=
  match fuel with
  | O => λ _, OutOfFuel
  | S fuel =>
      r ← basic_c_alloc fuel;
      if negb (r =? 0) then mret 1
      else loop fuel (λ _ : unit,
             _ ← update_event (λ e, with_vaddr (u64 (vaddr e + SYS_PAGE_SIZE)) e);
             r ← basic_c_alloc fuel;
             mret (if negb (r =? 0) then inr 0 else inl tt)) tt
  end.

Definition double_alloc : M usm Z :=
  r ← basic_alloc;
  if negb (r =? 0) then mret 1
  else
    _ ← update_event (λ e, with_vaddr (u64 (vaddr e + SYS_PAGE_SIZE)) e);
    _ ← basic_alloc;
    mret 0.

Definition reverse_alloc : M usm Z :=
  e ← list_is_empty FreeList;
  if (e : bool) then mret 1
  else
    x ← prev_of FreeList;
    freeListNode ← node_of_iulist x;
    size ← gets globalPageSize;
    _ ← usedMemory_add size;
    i ← usmPage_of freeListNode;
    _ ← usmSetUsedListNode i freeListNode;
    _ ← list_op (list_move_tail (NodeIulist freeListNode) UsedList);
    p ← page_at i;
    _ ← update_event (with_paddr (physicalAddress p));
    _ ← update_event (with_length 0);
    ret ← usm_submit_evt;
    if negb (ret =? 0) then
      _ ← list_op (list_move (NodeIulist freeListNode) FreeList);
      _ ← usedMemory_sub size;
      mret ret
    else
      e ← get_event;
      _ ← increaseProcessAllocatedMemory (origin e) size;
      _ ← update_page i (page_vaddr (vaddr e));
      _ ← update_page i (page_process (origin e));
      mret ret.

(** The test of the loop of [basic_free]:
    [tempEntry->usmPage->virtualAddress == event->vaddr]. *)
Definition node_has_vaddr (x : loc) (s : usm) : option bool :=
  match x with
  | NodeIulist n =>
      i ← usmPage s !! n; p ← pagesList s !! i;
      Some (virtualAddress p =? vaddr (event s))
  | _ => None
  end.

Definition basic_free : M usm Z :=
  tempEntry ← for_each_find node_has_vaddr UsedList;
  if decide (tempEntry = UsedList) then mret 1
  else
    n ← node_of_iulist tempEntry;
    _ ← list_op (list_move (NodeIulist n) FreeList);
    _ ← usedMemory_sub SYS_PAGE_SIZE;
    i ← usmPage_of n;
    _ ← update_page i (page_data (replicate 4096 0));
    _ ← update_page i (page_vaddr 0);
    p ← page_at i;
    _ ← decreaseProcessAllocatedMemory (process p) SYS_PAGE_SIZE;
    _ ← update_page i (page_process 0);
    _ ← update_page i (page_node None);
    mret 0.

Definition pindex_free : M usm Z :=
  usmPage ← usmEventToPage;
  match usmPage with
  | None => mret 1
  | Some i =>
      n ← usmPageToUsedListNode i;
      match n with
      | None =>
          p ← page_at i;
          _ ← update_event (with_vaddr (virtualAddress p));
          basic_free
      | Some n =>
          _ ← update_page i (page_data (replicate 4096 0));
          _ ← list_op (list_move_tail (NodeIulist n) FreeList);
          _ ← update_page i (page_vaddr 0);
          _ ← update_page i (page_process 0);
          _ ← usedMemory_sub SYS_PAGE_SIZE;
          mret 0
      end
  end.

(** One test and iteration of the loop of [pick_pages]. *)
Definition pick_body (placeholder : loc) (nr : Z) : M usm (Z + Z) :=
  if negb (0 <? nr) then mret (inr nr)
  else
    e ← list_is_empty FreeList;
    if (e : bool) then mret (inr nr)
    else
      chosenPage ← first_free;
      _ ← list_op (list_move (NodeIulist chosenPage) placeholder);
      _ ← usedMemory_add SYS_PAGE_SIZE;
      mret (inl (nr - 1)).

Definition pick_pages (placeholder : loc) (nr : Z) : M usm Z :=
  let nbr := nr in
  nr ← loop (S (Z.to_nat nr)) (pick_body placeholder) nr;
  mret (nbr - nr).

Definition give_back_page_used (page : loc) : M usm unit :=
  list_op (list_add page UsedList).

Definition hold_used_page_commit (page : loc) : M usm unit :=
  list_op (list_del_init page).

(** One iteration of the loop of [policiesSet1_setup]; the node is a new
    allocation. *)
Definition setup_node (i : nat) : M usm unit :=
  _ ← modify (λ s, set_links (<[NodeIulist i := ListHead NULL NULL]> (links s)) s);
  _ ← modify (λ s, set_usmPage (<[i := i]> (usmPage s)) s);
  _ ← update_page i (page_node (Some i));
  _ ← list_op (INIT_LIST_HEAD (NodeIulist i));
  list_op (list_add_tail (NodeIulist i) FreeList).

Fixpoint setup_nodes (i k : nat) : M usm unit :=
  match k with
  | O => mret tt
  | S k => _ ← setup_node i; setup_nodes (S i) k
  end.
End policies.

(** * The invariant of the pool *)

(** [m] is the family of lists in the heap; [free] and [used] are the nodes
    of the two lists of the policies. The invariant speaks of the links, the
    nodes' pages, the page table and the bounds of the pool only. *)
Record pool_of (h : heap loc) (nodes : gmap nat nat) (pages : list page)
    (base number : Z) (m : gmap loc (list loc)) (free used : list nat) : Prop := {
  pool_lists : lists h m;
  pool_free : m !! FreeList = Some (NodeIulist <$> free);
  pool_used : m !! UsedList = Some (NodeIulist <$> used);
  pool_size : Z.of_nat (base.length pages) = number;
  pool_count : number < 2 ^ 32;
  pool_base : 0 ≤ base ∧ base + number ≤ 2 ^ 31;
  pool_page i p : pages !! i = Some p →
    physicalAddress p = base + Z.of_nat i ∧
    (usedListPositionPointer p = Some i ∨ usedListPositionPointer p = None);
  pool_node i : (i < base.length pages)%nat →
    nodes !! i = Some i ∧ NodeIulist i ∈ dom h;
  pool_range n : n ∈ free ++ used → (n < base.length pages)%nat;
}.
Global Arguments pool_lists {_ _ _ _ _ _ _ _}.
Global Arguments pool_free {_ _ _ _ _ _ _ _}.
Global Arguments pool_used {_ _ _ _ _ _ _ _}.
Global Arguments pool_size {_ _ _ _ _ _ _ _}.
Global Arguments pool_count {_ _ _ _ _ _ _ _}.
Global Arguments pool_base {_ _ _ _ _ _ _ _}.
Global Arguments pool_page {_ _ _ _ _ _ _ _}.
Global Arguments pool_node {_ _ _ _ _ _ _ _}.
Global Arguments pool_range {_ _ _ _ _ _ _ _}.

Definition pool (s : usm) : gmap loc (list loc) → list nat → list nat → Prop :=
  pool_of (links s) (usmPage s) (pagesList s) (basePFN s) (globalPagesNumber s).

(** What a handler of the pool never touches. *)
Record frame (s s' : usm) : Prop := {
  frame_base : basePFN s' = basePFN s;
  frame_pages : globalPagesNumber s' = globalPagesNumber s;
  frame_size : globalPageSize s' = globalPageSize s;
  frame_swapped : swappedMemory s' = swappedMemory s;
  frame_nodes : usmPage s' = usmPage s;
  frame_toSwaps : toSwaps s' = toSwaps s;
  frame_device : swap_device_one s' = swap_device_one s;
  frame_default_alloc : default_alloc_policy s' = default_alloc_policy s;
  frame_default_swap : default_swap_policy s' = default_swap_policy s;
  frame_length : base.length (pagesList s') = base.length (pagesList s);
  frame_origin : origin (event s') = origin (event s);
  frame_offst : offst (event s') = offst (event s);
  frame_cells : dom (links s') = dom (links s);
}.

Lemma frame_refl s : frame s s.
Proof. by split. Qed.
Lemma frame_trans s1 s2 s3 : frame s1 s2 → frame s2 s3 → frame s1 s3.
Proof. intros [] []. split; congruence. Qed.

Lemma pool_relink h nodes pages base number m free used h' m' free' used' :
  pool_of h nodes pages base number m free used →
  dom h' = dom h → lists h' m' →
  m' !! FreeList = Some (NodeIulist <$> free') →
  m' !! UsedList = Some (NodeIulist <$> used') →
  (∀ n, n ∈ free' ++ used' → (n < base.length pages)%nat) →
  pool_of h' nodes pages base number m' free' used'.
Proof.
  intros [] Hd Hl Hf Hu Hr. split; try done. intros i Hi. rewrite Hd. auto.
Qed.

Lemma pool_repage h nodes pages base number m free used i p p' :
  pool_of h nodes pages base number m free used →
  pages !! i = Some p → physicalAddress p' = physicalAddress p →
  (usedListPositionPointer p' = Some i ∨ usedListPositionPointer p' = None) →
  pool_of h nodes (<[i := p']> pages) base number m free used.
Proof.
  intros Hpool Hi Hpa Hn. pose proof Hpool as [].
  split; try done; rewrite ?length_insert; try done.
  intros j q [[<- [<- _]]|[Hij Hj]]%list_lookup_insert_Some; [|by auto].
  rewrite Hpa. split; [|done]. by apply (pool_page Hpool).
Qed.

Section pool_lemmas.
Context (s : usm) (m : gmap loc (list loc)) (free used : list nat).
Context (Hpool : pool s m free used).

Lemma pool_is_empty : list_is_empty FreeList s = Ok (bool_decide (free = [])) s.
Proof.
  unfold list_is_empty, reads.
  rewrite (lists_empty _ _ _ _ (pool_lists Hpool) (pool_free Hpool)).
  f_equal. apply bool_decide_ext. destruct free; simpl; split; congruence.
Qed.

Lemma pool_lookup n : n ∈ free ++ used →
  ∃ p, pagesList s !! n = Some p ∧ usmPage s !! n = Some n ∧
    physicalAddress p = basePFN s + Z.of_nat n ∧
    (usedListPositionPointer p = Some n ∨ usedListPositionPointer p = None).
Proof.
  intros Hn. pose proof (pool_range Hpool n Hn) as Hlt.
  destruct (lookup_lt_is_Some_2 _ _ Hlt) as [p Hp]. exists p.
  pose proof (pool_page Hpool n p Hp) as [??].
  pose proof (pool_node Hpool n Hlt) as [??]. done.
Qed.

(** No node is in two lists, or twice in one. *)
Lemma pool_NoDup : NoDup (free ++ used).
Proof.
  destruct Hpool as [[Hl Hdj] Hf Hu]. apply NoDup_app.
  destruct (Hl _ _ Hf) as [[_ Nf]%NoDup_cons _]. destruct (Hl _ _ Hu) as [[_ Nu]%NoDup_cons _].
  apply NoDup_fmap_1 in Nf, Nu. split_and!; [done| |done].
  intros n Hnf Hnu. enough (FreeList = UsedList) by done.
  apply (Hdj _ _ _ _ (NodeIulist n) Hf Hu); right; by apply list_elem_of_fmap_2.
Qed.
End pool_lemmas.

Lemma first_free_ok s m n f used : pool s m (n :: f) used → first_free s = Ok n s.
Proof.
  intros Hp. unfold first_free.
  by rewrite (next_of_bind _ _ _ _
    (lists_first _ _ _ _ (pool_lists Hp) (pool_free Hp))).
Qed.

(** Moving a node from one list of the family to another. *)
Lemma pool_move_tail h nodes pages base number m free used a l1 n l2 b lb free' used' :
  pool_of h nodes pages base number m free used →
  m !! a = Some (l1 ++ NodeIulist n :: l2) → <[a := l1 ++ l2]> m !! b = Some lb →
  let m' := <[b := lb ++ [NodeIulist n]]> (<[a := l1 ++ l2]> m) in
  m' !! FreeList = Some (NodeIulist <$> free') →
  m' !! UsedList = Some (NodeIulist <$> used') →
  (∀ k, k ∈ free' ++ used' → (k < base.length pages)%nat) →
  ∃ h', list_move_tail (NodeIulist n) b h = Some h' ∧ dom h' = dom h ∧
    pool_of h' nodes pages base number m' free' used'.
Proof.
  intros Hp Ha Hb m' Hf Hu Hr.
  destruct (lists_move_tail h m a l1 (NodeIulist n) l2 b lb) as (h' & E & D & Hl);
    [apply Hp|done..|].
  exists h'. split_and!; [done..|]. by eapply pool_relink.
Qed.

Lemma pool_move h nodes pages base number m free used a l1 n l2 b lb free' used' :
  pool_of h nodes pages base number m free used →
  m !! a = Some (l1 ++ NodeIulist n :: l2) → <[a := l1 ++ l2]> m !! b = Some lb →
  let m' := <[b := NodeIulist n :: lb]> (<[a := l1 ++ l2]> m) in
  m' !! FreeList = Some (NodeIulist <$> free') →
  m' !! UsedList = Some (NodeIulist <$> used') →
  (∀ k, k ∈ free' ++ used' → (k < base.length pages)%nat) →
  ∃ h', list_move (NodeIulist n) b h = Some h' ∧ dom h' = dom h ∧
    pool_of h' nodes pages base number m' free' used'.
Proof.
  intros Hp Ha Hb m' Hf Hu Hr.
  destruct (lists_move h m a l1 (NodeIulist n) l2 b lb) as (h' & E & D & Hl);
    [apply Hp|done..|].
  exists h'. split_and!; [done..|]. by eapply pool_relink.
Qed.

(** The lists at other heads than [hs] are the same. *)
Definition other_lists (hs : list loc) (m m' : gmap loc (list loc)) : Prop :=
  ∀ b, b ∉ hs → m' !! b = m !! b.
Ltac other_lists_solver :=
  intros ? ?; rewrite ?lookup_insert_ne by mem_solver; try done.

Lemma other_lists_trans hs m1 m2 m3 :
  other_lists hs m1 m2 → other_lists hs m2 m3 → other_lists hs m1 m3.
Proof. intros H1 H2 b Hb. by rewrite H2, H1. Qed.

(** Lookups in families that were updated at concrete heads. *)
Ltac family :=
  repeat first [rewrite lookup_insert_ne by done
               |rewrite lookup_insert, decide_True by done];
  rewrite ?fmap_app; simpl; try done.

(** The PFN of node [n], as the event carries it. *)
Definition pfn_of (s : usm) (n : nat) : Z := basePFN s + Z.of_nat n.

(** [s'] records that page [n] backs the address of the event of [s]; the other
    pages are those of [s]. *)
Definition backs (s s' : usm) (n : nat) : Prop :=
  ∃ p, pagesList s !! n = Some p ∧
    pagesList s' = <[n := page_process (origin (event s)) (page_vaddr (vaddr (event s)) p)]>
                     (pagesList s).

Lemma u64_cancel x d : 0 ≤ x < 2 ^ 64 → u64 (u64 (x + d) - d) = x.
Proof.
  intros Hx. unfold u64. rewrite Zminus_mod_idemp_l.
  replace (x + d - d) with x by lia. by apply Z.mod_small.
Qed.

Lemma usmLinkPage_bind {B} i (k : unit → M usm B) s p :
  pagesList s !! i = Some p →
  (usmLinkPage (Some i) ≫= k) s =
  k tt (set_pagesList (<[i := page_process (origin (event s)) (page_vaddr (vaddr (event s)) p)]>
          (pagesList s)) s).
Proof.
  intros H. unfold mbind at 1, M_bind. simpl. unfold get_event. rewrite gets_bind.
  unfold update_page, updates. by rewrite H.
Qed.

Section policy_lemmas.
Context `{SE : SubmitEvt}.

Lemma submit_step s mp : has_page mp s →
  ∃ r t mp' f, usm_submit_evt s = Ok r (submitted t mp' f s) ∧
    has_page mp' (submitted t mp' f s) ∧ 0 ≤ f < 2 ^ 64.
Proof.
  intros Hp. destruct (usm_submit_evt_spec s mp Hp) as (r & t & mp' & f & E & V & F).
  by exists r, t, mp', f.
Qed.

Lemma basic_alloc_uniq_empty s m used : pool s m [] used → basic_alloc_uniq s = Ok 1 s.
Proof. intros Hp. unfold basic_alloc_uniq. by run (pool_is_empty _ _ _ _ Hp). Qed.

Lemma basic_alloc_uniq_ok s m n f used mp :
  pool s m (n :: f) used → has_page mp s → 0 ≤ usedMemory s < 2 ^ 64 →
  ∃ r s' m' mp', basic_alloc_uniq s = Ok r s' ∧ frame s s' ∧ has_page mp' s' ∧
    paddr (event s') = pfn_of s n ∧ procDescList s' = procDescList s ∧
    other_lists [FreeList; UsedList] m m' ∧
    ((r = 0 ∧ pool s' m' f (used ++ [n]) ∧ backs s s' n ∧
      usedMemory s' = u64 (usedMemory s + globalPageSize s)) ∨
     (r ≠ 0 ∧ pool s' m' (n :: f) used ∧ pagesList s' = pagesList s ∧
      usedMemory s' = usedMemory s)).
Proof.
  intros Hp Hmp Hum. unfold basic_alloc_uniq.
  run (pool_is_empty _ _ _ _ Hp). rewrite bool_decide_false by done.
  run (first_free_ok _ _ _ _ _ Hp). rewrite gets_bind.
  unfold usedMemory_add. rewrite modify_bind.
  destruct (pool_lookup _ _ _ _ Hp n) as (p & Ep & En & Epa & Ept); [set_solver|].
  destruct (lists_del (links s) m FreeList [] (NodeIulist n) (NodeIulist <$> f))
    as (h1 & E1 & D1 & L1 & U1 & _); [apply Hp|apply Hp|]. simpl in L1, U1.
  erewrite list_op_bind; [|exact E1]. rewrite gets_bind. 
  match goal with |- context [usmPage ?x !! n] => change (usmPage x !! n) with (usmPage s !! n) end.
  rewrite En.
  erewrite page_at_bind; [|exact Ep]. rewrite !update_event_bind.
  set (s1 := set_event _ _).
  destruct (submit_step s1 mp) as (r & t & mp' & fl & E2 & Hmp' & _); [exact Hmp|].
  run E2. destruct (Z.eqb_spec r 0) as [->|Hr]; cbn [negb].
  - (* applied *)
    erewrite usmLinkPage_bind; [|exact Ep].
    destruct (lists_add_tail h1 (<[FreeList:=NodeIulist <$> f]> m) UsedList
      (NodeIulist <$> used) (NodeIulist n)) as (h2 & E3 & D3 & L3); [done| | |done|].
    { rewrite lookup_insert_ne by done. apply Hp. }
    { rewrite D1. by apply (pool_node Hp), (pool_range Hp), elem_of_app; left; left. }
    erewrite list_op_bind; [|exact E3].
    eexists _, _, _, mp'. split; [done|]. split; [|split; [exact Hmp'|]].
    { split; try done; [simpl; by rewrite length_insert|simpl; congruence]. }
    split; [done|]. split; [done|]. split; [|left]; [shelve|]. split; [done|].
    split; [|split].
    + unfold pool; simpl. eapply pool_relink;
        [by eapply (pool_repage _ _ _ _ _ _ _ _ _ _ _ Hp)|congruence|exact L3|..].
      * by rewrite lookup_insert_ne, lookup_insert, decide_True.
      * by rewrite lookup_insert, decide_True, fmap_app.
      * rewrite length_insert. intros k Hk. apply (pool_range Hp). mem_solver.
    + by exists p.
    + done.
  - (* refused: the page goes back to the front *)
    destruct (lists_add h1 (<[FreeList:=NodeIulist <$> f]> m) FreeList
      (NodeIulist <$> f) (NodeIulist n)) as (h2 & E3 & D3 & L3); [done| | |done|].
    { by rewrite lookup_insert, decide_True. }
    { rewrite D1. by apply (pool_node Hp), (pool_range Hp), elem_of_app; left; left. }
    erewrite list_op_bind; [|exact E3]. unfold usedMemory_sub. rewrite modify_bind.
    eexists _, _, _, mp'. split; [done|].
    split; [split; try done; simpl; congruence|split; [exact Hmp'|]].
    split; [done|]. split; [done|]. split; [|right]; [shelve|]. split; [done|].
    split; [|split; [done|]].
    + eapply (pool_relink _ _ _ _ _ _ _ _ _ _ _ _ Hp); [simpl; congruence|exact L3| | |apply Hp].
      * by rewrite lookup_insert, decide_True.
      * rewrite !lookup_insert_ne by done. apply Hp.
    + simpl. by apply u64_cancel.
Unshelve.
  all: other_lists_solver.
Qed.

(** ** Freeing *)
Lemma usmEventToPage_ok s m free used i :
  pool s m free used → paddr (event s) = pfn_of s i → (i < base.length (pagesList s))%nat →
  usmEventToPage s = Ok (Some i) s.
Proof.
  intros Hp Hpa Hi. unfold usmEventToPage, usmPfnToPageIndex, get_event. rewrite !gets_bind.
  pose proof (pool_size Hp). pose proof (pool_count Hp). pose proof (pool_base Hp).
  rewrite Hpa. unfold pfn_of. replace (basePFN s + Z.of_nat i - basePFN s) with (Z.of_nat i) by lia.
  unfold u32. rewrite Z.mod_small by lia.
  destruct (Z.leb_spec (globalPagesNumber s) (Z.of_nat i)); [lia|].
  destruct (Z.ltb_spec (basePFN s + Z.of_nat i) (basePFN s)); [lia|]. simpl.
  unfold mret, M_ret. by rewrite Nat2Z.id.
Qed.

(** A PFN outside the pool is refused, unless it is more than 2^32 pages past
    the base: the index test is on 32 bits. *)
Lemma usmEventToPage_none s :
  paddr (event s) < basePFN s ∨
  globalPagesNumber s ≤ paddr (event s) - basePFN s < 2 ^ 32 →
  usmEventToPage s = Ok None s.
Proof.
  intros Hpa. unfold usmEventToPage, usmPfnToPageIndex, get_event. rewrite !gets_bind.
  destruct (Z.ltb_spec (paddr (event s)) (basePFN s)).
  - by rewrite orb_true_r.
  - destruct (Z_le_gt_dec 0 (globalPagesNumber s)) as [Hn|Hn].
    + unfold u32. rewrite Z.mod_small by lia.
      destruct (Z.leb_spec (globalPagesNumber s) (paddr (event s) - basePFN s)); [done|lia].
    + unfold u32. pose proof (Z.mod_pos_bound (paddr (event s) - basePFN s) (2 ^ 32)).
      destruct (Z.leb_spec (globalPagesNumber s) ((paddr (event s) - basePFN s) `mod` 2 ^ 32)); [done|lia].
Qed.

Lemma pindex_free_ok s m free u1 n u2 p :
  pool s m free (u1 ++ n :: u2) → paddr (event s) = pfn_of s n →
  pagesList s !! n = Some p → usedListPositionPointer p = Some n →
  ∃ s' m', pindex_free s = Ok 0 s' ∧ frame s s' ∧ event s' = event s ∧
    procDescList s' = procDescList s ∧
    pool s' m' (free ++ [n]) (u1 ++ u2) ∧
    pagesList s' = <[n := Page (replicate 4096 0) 0 (physicalAddress p) 0 (Some n)]> (pagesList s) ∧
    usedMemory s' = u64 (usedMemory s - 4096) ∧ other_lists [FreeList; UsedList] m m'.
Proof.
  intros Hp Hpa Ep Hn. assert (n < base.length (pagesList s))%nat as Hlt by (by eapply lookup_lt_Some).
  unfold pindex_free. run (usmEventToPage_ok _ _ _ _ _ Hp Hpa Hlt).
  assert (usmPageToUsedListNode n s = Ok (Some n) s) as E1.
  { unfold usmPageToUsedListNode. by rewrite (page_at_bind _ _ _ _ Ep), Hn. }
  run E1. erewrite update_page_bind by exact Ep.
  destruct (pool_move_tail _ _ _ _ _ _ _ _ UsedList (NodeIulist <$> u1) n (NodeIulist <$> u2)
    FreeList (NodeIulist <$> free) (free ++ [n]) (u1 ++ u2) Hp) as (h' & E2 & D & Hp');
    [by rewrite (pool_used Hp), fmap_app|family; apply Hp|by family|by family| |].
  { intros k Hk. apply (pool_range Hp). mem_solver. }
  erewrite list_op_bind by exact E2.
  erewrite update_page_bind by (apply list_lookup_insert_eq; exact Hlt).
  erewrite update_page_bind by (apply list_lookup_insert_eq; simpl; by rewrite length_insert).
  eexists _, _. split; [done|]. split; [|split; [done|]].
  { split; try done. simpl. by rewrite !length_insert. }
  split; [done|]. split; [|split; [|split; [done|]]].
  - unfold pool; simpl. rewrite !list_insert_insert_eq.
    eapply pool_repage; [exact Hp'|exact Ep|done|by left].
  - simpl. rewrite !list_insert_insert_eq. do 2 f_equal. unfold page_process, page_vaddr, page_data. simpl.
    by rewrite Hn.
  - other_lists_solver.
Qed.

(** The address of the page of a node, for the search of [basic_free]. *)
Definition vaddr_of (s : usm) (n : nat) : Z :=
  match pagesList s !! n with Some p => virtualAddress p | None => 0 end.

Lemma find_vaddr s m free used n : pool s m free used → n ∈ used →
  node_has_vaddr (NodeIulist n) s = Some (vaddr_of s n =? vaddr (event s)).
Proof.
  intros Hp Hn. destruct (pool_lookup _ _ _ _ Hp n) as (p & Ep & En & _); [set_solver|].
  unfold node_has_vaddr, vaddr_of. rewrite En; simpl. by rewrite Ep.
Qed.

(** The result of the search loop. *)
Lemma basic_free_search s m free used : pool s m free used →
  for_each_find node_has_vaddr UsedList s =
  Ok (find_first (λ x, match x with NodeIulist n => vaddr_of s n =? vaddr (event s) | _ => false end)
        UsedList (NodeIulist <$> used)) s.
Proof.
  intros Hp. unfold for_each_find. rewrite gets_bind.
  pose proof (lists_dlist _ _ _ _ (pool_lists Hp) (pool_used Hp)) as Hd.
  apply (list_for_each_find_ok links); [done| |by apply dlist_length in Hd; lia].
  intros x (n & -> & Hn)%list_elem_of_fmap. by eapply find_vaddr.
Qed.

Lemma find_first_node f d u1 n u2 : f (NodeIulist n) = true →
  (∀ k, k ∈ u1 → f (NodeIulist k) = false) →
  find_first f d (NodeIulist <$> (u1 ++ n :: u2)) = NodeIulist n.
Proof.
  intros Hn H1. induction u1 as [|k u1 IH]; simpl; [by rewrite Hn|].
  rewrite H1 by set_solver. apply IH. set_solver.
Qed.

Lemma find_first_none f d u : (∀ k, k ∈ u → f (NodeIulist k) = false) →
  find_first f d (NodeIulist <$> u) = d.
Proof.
  intros H. induction u as [|k u IH]; simpl; [done|].
  rewrite H by set_solver. apply IH. set_solver.
Qed.

Lemma basic_free_none s m free used : pool s m free used →
  (∀ k, k ∈ used → vaddr_of s k ≠ vaddr (event s)) → basic_free s = Ok 1 s.
Proof.
  intros Hp Hk. unfold basic_free. run (basic_free_search _ _ _ _ Hp).
  rewrite find_first_none, decide_True; [done|done|].
  intros k Hin. by apply Z.eqb_neq, Hk.
Qed.

Lemma basic_free_ok s m free u1 n u2 p d :
  pool s m free (u1 ++ n :: u2) → pagesList s !! n = Some p →
  virtualAddress p = vaddr (event s) → (∀ k, k ∈ u1 → vaddr_of s k ≠ vaddr (event s)) →
  procDescList s !! u32 (process p) = Some d →
  ∃ s' m', basic_free s = Ok 0 s' ∧ frame s s' ∧ event s' = event s ∧
    pool s' m' (n :: free) (u1 ++ u2) ∧
    pagesList s' = <[n := Page (replicate 4096 0) 0 (physicalAddress p) 0 None]> (pagesList s) ∧
    procDescList s' = <[u32 (process p) := ProcessDesc (alloc_policy d) (swap_policy d)
        (u64 (allocated d - 4096)) (swapped d) (prio d)]> (procDescList s) ∧
    usedMemory s' = u64 (usedMemory s - 4096) ∧ other_lists [FreeList; UsedList] m m'.
Proof.
  intros Hp Ep Hva H1 Hd. assert (n < base.length (pagesList s))%nat as Hlt by (by eapply lookup_lt_Some).
  unfold basic_free. run (basic_free_search _ _ _ _ Hp). rewrite find_first_node.
  2: { unfold vaddr_of. rewrite Ep. by apply Z.eqb_eq. }
  2: { intros k Hk. by apply Z.eqb_neq, H1. }
  rewrite decide_False by done. simpl node_of_iulist. rewrite ret_bind.
  destruct (pool_move _ _ _ _ _ _ _ _ UsedList (NodeIulist <$> u1) n (NodeIulist <$> u2)
    FreeList (NodeIulist <$> free) (n :: free) (u1 ++ u2) Hp) as (h' & E2 & D & Hp');
    [by rewrite (pool_used Hp), fmap_app|family; apply Hp|by family|by family| |].
  { intros k Hk. apply (pool_range Hp). mem_solver. }
  erewrite list_op_bind by exact E2. unfold usedMemory_sub. rewrite modify_bind.
  erewrite usmPage_of_bind by (by apply (pool_node Hp)).
  erewrite update_page_bind by exact Ep.
  erewrite update_page_bind by (apply list_lookup_insert_eq; exact Hlt).
  erewrite page_at_bind by (apply list_lookup_insert_eq; simpl; by rewrite length_insert).
  unfold decreaseProcessAllocatedMemory, update_procDesc.
  erewrite updates_bind by (simpl; by rewrite Hd).
  erewrite update_page_bind by (apply list_lookup_insert_eq; simpl; by rewrite !length_insert).
  erewrite update_page_bind by (apply list_lookup_insert_eq; simpl; by rewrite !length_insert).
  eexists _, _. split; [done|]. split; [|split; [done|]].
  { split; try done. simpl. by rewrite !length_insert. }
  unfold pool; simpl. rewrite !list_insert_insert_eq.
  split; [|split_and!; [done..|]].
  - eapply pool_repage; [exact Hp'|exact Ep|done|by right].
  - other_lists_solver.
Qed.

(** ** Loops over a list of held pages *)

(** [pages] after [consume_pages_acct] has linked the nodes [ns] to
    consecutive addresses. *)
Fixpoint link_pages (addr org : Z) (ns : list nat) (pages : list page) : list page :=
  match ns with
  | [] => pages
  | n :: ns =>
      link_pages (u64 (addr + 4096)) org ns
        (match pages !! n with
         | Some p => <[n := page_process org (page_vaddr addr p)]> pages
         | None => pages
         end)
  end.

Lemma link_pages_length addr org ns pages :
  base.length (link_pages addr org ns pages) = base.length pages.
Proof.
  revert addr pages. induction ns as [|n ns IH]; intros addr pages; simpl; [done|].
  rewrite IH. destruct (pages !! n); [by rewrite length_insert|done].
Qed.

Lemma give_back_pages_ok s m free used ph held :
  pool s m free used → 0 ≤ usedMemory s < 2 ^ 64 → ph ∉ [FreeList; UsedList] →
  m !! ph = Some (NodeIulist <$> held) →
  (∀ n, n ∈ held → (n < base.length (pagesList s))%nat) →
  ∃ h m', give_back_pages ph s =
      Ok tt (set_usedMemory (u64 (usedMemory s - 4096 * Z.of_nat (base.length held))) (set_links h s)) ∧
    pool_of h (usmPage s) (pagesList s) (basePFN s) (globalPagesNumber s) m' (free ++ held) used ∧
    dom h = dom (links s) ∧ m' !! ph = Some [] ∧ other_lists [FreeList; ph] m m'.
Proof.
  intros Hp Hum Hph Hm Hr. unfold give_back_pages, for_each_safe. rewrite gets_bind.
  pose proof (lists_dlist _ _ _ _ (pool_lists Hp) Hm) as Hd.
  set (P := λ (_ : unit) (l : list loc) s', ∃ d r h m', l = NodeIulist <$> r ∧ held = d ++ r ∧
    s' = set_usedMemory (u64 (usedMemory s - 4096 * Z.of_nat (base.length d))) (set_links h s) ∧
    pool_of h (usmPage s) (pagesList s) (basePFN s) (globalPagesNumber s) m' (free ++ d) used ∧
    dom h = dom (links s) ∧ m' !! ph = Some (NodeIulist <$> r) ∧ other_lists [FreeList; ph] m m').
  match goal with |- context [list_for_each_safe links ?fu ?body ?hd ?a s] =>
    destruct (list_for_each_safe_ok links P body hd (NodeIulist <$> held) fu a s)
      as ([] & s' & E & HP')
  end; [| | |by apply Nat.lt_lt_succ_r, (dlist_length _ ph)|].
  - intros [] l s' (d & r & h & m' & -> & _ & -> & Hp' & _ & Hm' & _).
    by apply (lists_dlist _ _ _ _ (pool_lists Hp')).
  - intros [] x l s' (d & [|n r] & h & m' & El & Eh & -> & Hp' & Hdom & Hm' & Ho); [done|].
    simpl in El. injection El as -> ->.
    destruct (pool_move_tail _ _ _ _ _ _ _ _ ph [] n (NodeIulist <$> r)
      FreeList (NodeIulist <$> (free ++ d)) (free ++ d ++ [n]) used Hp')
      as (h' & E2 & D2 & Hp2);
      [done|rewrite lookup_insert_ne by mem_solver; apply Hp'|by family; rewrite app_assoc| | |].
    { rewrite !lookup_insert_ne by mem_solver. apply Hp'. }
    { intros k. rewrite !elem_of_app, list_elem_of_singleton. intros [[Hk|[Hk| ->]]|Hk].
      - apply (pool_range Hp). mem_solver.
      - apply Hr. subst held. mem_solver.
      - apply Hr. subst held. mem_solver.
      - apply (pool_range Hp). mem_solver. }
    erewrite list_op_bind by exact E2.
    eexists tt, _. split; [done|]. eexists (d ++ [n]), r, h', _.
    split; [done|]. split; [by rewrite <- app_assoc|]. split; [|split; [exact Hp2|]].
    { unfold set_usedMemory, set_links; simpl. f_equal. rewrite length_app. simpl.
      unfold u64, SYS_PAGE_SIZE. rewrite Zminus_mod_idemp_l. f_equal. lia. }
    split; [congruence|]. split; [rewrite lookup_insert_ne by mem_solver; by family|].
    eapply other_lists_trans; [exact Ho|]. other_lists_solver.
  - exists [], held, (links s), m. split; [done|]. split; [done|]. split.
    { simpl. rewrite Z.sub_0_r. unfold u64. rewrite Z.mod_small by done. by destruct s. }
    rewrite app_nil_r. split_and!; try done.
  - destruct HP' as (d & r & h & m' & Er & -> & -> & Hp' & Hdom & Hm' & Ho).
    destruct r; [|done]. rewrite app_nil_r in *. by exists h, m'.
Qed.
End policy_lemmas.
