(* ===== verification/Init.v ===== *)
(** Initialisation of the pool and of the process table: the parts of
    [usm_init] (impl/usm/usm.c) that build the page table and the process
    descriptors, and the loop of [policiesSet1_setup]
    (examples/project-2/alloc/src/policiesSet1.c). The theorem at the end says
    that they establish the invariant of the pool. *)
From stdpp Require Import prelude gmap strings.
From S2P Require Import Prelude Lists State Channel PagePool.

Open Scope Z_scope.

Section init.
Context `{K : Kernel}.

(** [malloc]ed and not written yet. *)
Definition uninit_page : page := Page [] 0 0 0 None.

(** [for (i = 0; i < globalPagesNumber; i++) insertPage(...)]: [k] iterations
    from [i]; the frames were zeroed by [memset]. *)
Fixpoint insert_pages (i k : nat) : M usm unit :=
  match k with
  | O => mret tt
  | S k =>
      base ← gets basePFN;
      _ ← insertPage (u64 (base + Z.of_nat i)) (replicate 4096 0) i;
      insert_pages (S i) k
  end.

(** The page table of a pool of [poolSize] bytes mapped at [usmZone]. *)
Definition usm_init_pool (uffd usmZone poolSize : Z) : M usm Z :=
  _ ← modify (set_globalPagesNumber (u32 (poolSize `div` SYS_PAGE_SIZE)));
  n ← gets globalPagesNumber;
  b ← usm_get_pfn uffd usmZone n;
  _ ← modify (set_basePFN b);
  if b =? 1 then mret 1
  else
    _ ← modify (set_pagesList (replicate (Z.to_nat n) uninit_page));
    _ ← insert_pages 0 (Z.to_nat n);
    mret 0.

(** One descriptor: the structure is part of a [malloc]ed array, its three
    list heads are initialised here. *)
Definition init_process (p : Z) : M usm unit :=
  _ ← modify (λ s, set_procDescList
         (<[p := ProcessDesc default_alloc_policy_p default_swap_policy_p 0 0 0]> (procDescList s)) s);
  _ ← modify (λ s, set_links (<[ProcSwapList p := ListHead NULL NULL]>
         (<[ProcUsedList p := ListHead NULL NULL]>
         (<[ProcSwapCache p := ListHead NULL NULL]> (links s)))) s);
  _ ← list_op (INIT_LIST_HEAD (ProcSwapList p));
  _ ← list_op (INIT_LIST_HEAD (ProcUsedList p));
  list_op (INIT_LIST_HEAD (ProcSwapCache p)).

Fixpoint init_processes (p : Z) (k : nat) : M usm unit :=
  match k with
  | O => mret tt
  | S k => _ ← init_process p; init_processes (p + 1) k
  end.

(** [while (procHolderIndex < MAX_PROC)] *)
Definition usm_init_processes : M usm unit := init_processes 0 (Z.to_nat MAX_PROC).

(** The daemon's start: page table, process table, policies' nodes. *)
Definition usm_start (uffd usmZone poolSize : Z) (processes : nat) : M usm Z :=
  r ← usm_init_pool uffd usmZone poolSize;
  if negb (r =? 0) then mret r
  else
    _ ← init_processes 0 processes;
    n ← gets globalPagesNumber;
    _ ← setup_nodes 0 (Z.to_nat n);
    mret 0.
End init.

Section init_lemmas.
Context `{K : Kernel}.

Lemma insert_pages_ok s i k : 0 ≤ basePFN s → basePFN s + Z.of_nat (i + k) ≤ 2 ^ 64 →
  base.length (pagesList s) = (i + k)%nat →
  ∃ pages, insert_pages i k s = Ok tt (set_pagesList pages s) ∧
    base.length pages = base.length (pagesList s) ∧
    (∀ j, (j < i)%nat → pages !! j = pagesList s !! j) ∧
    (∀ j p, (i ≤ j)%nat → pages !! j = Some p →
      physicalAddress p = basePFN s + Z.of_nat j ∧ virtualAddress p = 0 ∧ process p = 0 ∧
      data p = replicate 4096 0 ∧
      usedListPositionPointer p = p' ← pagesList s !! j; usedListPositionPointer p').
Proof.
  revert s i. induction k as [|k IH]; intros s i Hb Hbig Hlen; cbn [insert_pages].
  - exists (pagesList s). rewrite set_pagesList_id. split_and!; try done.
    intros j p Hj Hp. apply lookup_lt_Some in Hp. lia.
  - rewrite gets_bind. unfold insertPage.
    destruct (lookup_lt_is_Some_2 (pagesList s) i) as [p0 Hp0]; [lia|].
    erewrite update_page_bind by exact Hp0.
    match goal with |- context [insert_pages (S i) k ?x] => set (s1 := x) end.
    destruct (IH s1 (S i)) as (pages & E & Hl & Hlo & Hhi);
      [done|change (basePFN s1) with (basePFN s); lia|simpl; rewrite length_insert; lia|].
    exists pages. split; [etrans; [exact E|]; subst s1; by autorewrite with usm_state|].
    simpl in Hl. rewrite length_insert in Hl. split; [done|]. split.
    + intros j Hj. rewrite Hlo by lia. simpl. by rewrite list_lookup_insert_ne by lia.
    + intros j p Hj Hp. destruct (decide (j = i)) as [->|Hne].
      * rewrite Hlo in Hp by lia. simpl in Hp.
        rewrite list_lookup_insert_eq in Hp by lia. injection Hp as <-. simpl.
        rewrite Hp0. split_and!; try done. unfold u64. apply Z.mod_small. lia.
      * destruct (Hhi j p) as (H1 & H2 & H3 & H4 & H5); [lia|done|].
        split_and!; try done. rewrite H5. simpl. by rewrite list_lookup_insert_ne.
Qed.

(** The state of the setup loop before iteration [i]. *)
Record setting_up (s : usm) (m : gmap loc (list loc)) (i : nat) : Prop := {
  up_lists : lists (links s) m;
  up_free : m !! FreeList = Some (NodeIulist <$> seq 0 i);
  up_used : m !! UsedList = Some [];
  up_fresh j : (i ≤ j)%nat → NodeIulist j ∉ dom (links s);
  up_nodes j : (j < i)%nat → usmPage s !! j = Some j ∧ NodeIulist j ∈ dom (links s);
  up_pages j p : pagesList s !! j = Some p → physicalAddress p = basePFN s + Z.of_nat j ∧
    ((j < i)%nat → usedListPositionPointer p = Some j);
}.

Lemma setup_node_ok s m i : setting_up s m i → (i < base.length (pagesList s))%nat →
  ∃ h nodes pages m', setup_node i s =
      Ok tt (set_pagesList pages (set_usmPage nodes (set_links h s))) ∧
    base.length pages = base.length (pagesList s) ∧
    setting_up (set_pagesList pages (set_usmPage nodes (set_links h s))) m' (S i) ∧
    other_lists [FreeList] m m' ∧ dom h = {[NodeIulist i]} ∪ dom (links s) ∧
    (∀ j p, pagesList s !! j = Some p → ∃ n, pages !! j = Some (page_node n p)).
Proof.
  intros Hup Hi. destruct (lookup_lt_is_Some_2 (pagesList s) i Hi) as [p Hp].
  unfold setup_node. rewrite !modify_bind. erewrite update_page_bind by exact Hp.
  assert (NodeIulist i ∉ dom (links s)) as Hf by (by apply (up_fresh _ _ _ Hup)).
  destruct (lists_alloc (links s) m (NodeIulist i) (ListHead NULL NULL)) as [Hl Hu];
    [apply Hup|done|].
  set (h0 := <[NodeIulist i := ListHead NULL NULL]> (links s)) in *.
  assert (NodeIulist i ∈ dom h0) as Hd0 by (subst h0; rewrite dom_insert; set_solver).
  destruct (dlist_init h0 (NodeIulist i) Hd0) as (h1 & E1 & D1 & _ & Hfr).
  assert (lists h1 m) as Hl1 by (by eapply lists_set_unlinked).
  destruct (lists_add_tail h1 m FreeList (NodeIulist <$> seq 0 i) (NodeIulist i))
    as (h2 & E2 & D2 & Hl2); [done|apply Hup|by rewrite D1|done|].
  rewrite (list_op_bind _ _ _ h1) by exact E1.
  rewrite (list_op_ok _ _ h2) by exact E2.
  exists h2, (<[i := i]> (usmPage s)), (<[i := page_node (Some i) p]> (pagesList s)), (<[FreeList := (NodeIulist <$> seq 0 i) ++ [NodeIulist i]]> m).
  assert (dom h2 = {[NodeIulist i]} ∪ dom (links s)) as D.
  { rewrite D2, D1. subst h0. by rewrite dom_insert_L. }
  split; [by destruct s|]. split; [by rewrite length_insert|].
  split; [|split; [other_lists_solver|split; [done|]]].
  - split.
    + done.
    + rewrite lookup_insert, decide_True by done. by rewrite seq_S, fmap_app.
    + rewrite lookup_insert_ne by done. apply Hup.
    + intros j Hj. simpl. rewrite D. apply not_elem_of_union. split.
      * rewrite elem_of_singleton. intros [= ->]. lia.
      * apply (up_fresh _ _ _ Hup). lia.
    + intros j Hj. simpl. rewrite D. destruct (decide (j = i)) as [->|Hne].
      * rewrite lookup_insert, decide_True by done. split; [done|]. set_solver.
      * rewrite lookup_insert_ne by done. destruct (up_nodes _ _ _ Hup j) as [??]; [lia|].
        split; [done|]. set_solver.
    + intros j q [[<- [<- _]]|[Hne Hq]]%list_lookup_insert_Some.
      * split; [|done]. by apply (up_pages _ _ _ Hup i p).
      * destruct (up_pages _ _ _ Hup j q Hq) as [Hpa Hpt]. split; [done|].
        intros Hj. apply Hpt. lia.
  - intros j q Hq. destruct (decide (j = i)) as [->|Hne].
    + rewrite list_lookup_insert_eq by done. exists (Some i). congruence.
    + rewrite list_lookup_insert_ne by done. exists (usedListPositionPointer q).
      rewrite Hq. by destruct q.
Qed.

Lemma setup_nodes_ok s m i k : setting_up s m i → base.length (pagesList s) = (i + k)%nat →
  ∃ h nodes pages m', setup_nodes i k s =
      Ok tt (set_pagesList pages (set_usmPage nodes (set_links h s))) ∧
    base.length pages = base.length (pagesList s) ∧
    setting_up (set_pagesList pages (set_usmPage nodes (set_links h s))) m' (i + k) ∧
    other_lists [FreeList] m m' ∧
    (∀ j p, pagesList s !! j = Some p → ∃ n, pages !! j = Some (page_node n p)).
Proof.
  revert s m i. induction k as [|k IH]; intros s m i Hup Hlen; cbn [setup_nodes].
  - exists (links s), (usmPage s), (pagesList s), m. rewrite Nat.add_0_r in *.
    replace (set_pagesList (pagesList s) (set_usmPage (usmPage s) (set_links (links s) s))) with s by (by destruct s).
    split_and!; try done. intros j p Hp. exists (usedListPositionPointer p). rewrite Hp. by destruct p.
  - destruct (setup_node_ok s m i Hup) as (h1 & nodes1 & pages1 & m1 & E1 & L1 & Hup1 & Ho1 & _ & Hpg1); [lia|].
    run E1. destruct (IH _ _ _ Hup1) as (h2 & nodes2 & pages2 & m2 & E2 & L2 & Hup2 & Ho2 & Hpg2); [simpl; lia|].
    exists h2, nodes2, pages2, m2. simpl in L2.
    replace (set_pagesList pages2 (set_usmPage nodes2 (set_links h2 (set_pagesList pages1 (set_usmPage nodes1 (set_links h1 s))))))
      with (set_pagesList pages2 (set_usmPage nodes2 (set_links h2 s))) in * by (by destruct s).
    rewrite Nat.add_succ_r. split_and!; try done.
    + congruence.
    + by eapply other_lists_trans.
    + intros j p Hp. destruct (Hpg1 j p Hp) as [n1 Hp1]. destruct (Hpg2 j _ Hp1) as [n2 Hp2].
      exists n2. rewrite Hp2. by destruct p.
Qed.

(** Descriptors add three empty lists and touch no other. *)
Lemma init_process_ok s m p :
  lists (links s) m →
  (∀ x, x ∈ [ProcSwapList p; ProcUsedList p; ProcSwapCache p] → x ∉ dom (links s)) →
  ∃ h, init_process p s = Ok tt (set_links h (set_procDescList
        (<[p := ProcessDesc default_alloc_policy_p default_swap_policy_p 0 0 0]> (procDescList s)) s)) ∧
    lists h (<[ProcSwapCache p := []]> (<[ProcUsedList p := []]> (<[ProcSwapList p := []]> m))) ∧
    dom h = {[ProcSwapList p; ProcUsedList p; ProcSwapCache p]} ∪ dom (links s).
Proof.
  intros Hl Hf. unfold init_process. rewrite !modify_bind.
  destruct (lists_alloc (links s) m (ProcSwapCache p) (ListHead NULL NULL)) as [Hl1 Hu1];
    [done|apply Hf; mem_solver|].
  destruct (lists_alloc (<[ProcSwapCache p := ListHead NULL NULL]> (links s)) m (ProcUsedList p) (ListHead NULL NULL))
    as [Hl2 Hu2]; [done|rewrite dom_insert, not_elem_of_union; split; [set_solver|apply Hf; mem_solver]|].
  destruct (lists_alloc (<[ProcUsedList p := ListHead NULL NULL]> (<[ProcSwapCache p := ListHead NULL NULL]> (links s))) m
    (ProcSwapList p) (ListHead NULL NULL)) as [Hl3 Hu3]; [done| |].
  { rewrite !dom_insert, !not_elem_of_union. split_and!; [set_solver..|apply Hf; mem_solver]. }
  match type of Hl3 with lists ?x m => set (h0 := x) in * end.
  assert (dom h0 = {[ProcSwapList p; ProcUsedList p; ProcSwapCache p]} ∪ dom (links s)) as D0.
  { subst h0. rewrite !dom_insert_L. by rewrite !assoc_L by apply _. }
  destruct (lists_init h0 m (ProcSwapList p) Hl3) as (h1 & E1 & D1 & L1); [rewrite D0; set_solver|done|].
  destruct (lists_init h1 _ (ProcUsedList p) L1) as (h2 & E2 & D2 & L2); [rewrite D1, D0; set_solver| |].
  { intros b lb [[<- <-]|[_ Hb]]%lookup_insert_Some; [mem_solver|by apply (Hu2 b lb)]. }
  destruct (lists_init h2 _ (ProcSwapCache p) L2) as (h3 & E3 & D3 & L3); [rewrite D2, D1, D0; set_solver| |].
  { intros b lb [[<- <-]|[_ [[<- <-]|[_ Hb]]%lookup_insert_Some]]%lookup_insert_Some;
      [mem_solver|mem_solver|by apply (Hu1 b lb)]. }
  rewrite (list_op_bind _ _ _ h1) by exact E1. rewrite (list_op_bind _ _ _ h2) by exact E2.
  rewrite (list_op_ok _ _ h3) by exact E3.
  exists h3. split; [by destruct s|]. split; [done|]. congruence.
Qed.

Definition proc_heads (p : Z) : list loc := [ProcSwapList p; ProcUsedList p; ProcSwapCache p].
Definition new_process : processDesc :=
  ProcessDesc default_alloc_policy_p default_swap_policy_p 0 0 0.

Lemma proc_heads_inj p q x : x ∈ proc_heads p → x ∈ proc_heads q → p = q.
Proof. unfold proc_heads. set_solver. Qed.

Lemma proc_heads_other q x : x ∈ proc_heads q →
  (x ∉ [FreeList; UsedList; SwapList]) ∧ (∀ j, x ≠ NodeIulist j).
Proof. unfold proc_heads. rewrite !elem_of_cons, elem_of_nil.
  intros [->|[->|[->|[]]]]; split; naive_solver. Qed.

Lemma static_dom x : x ∈ dom (links static_state) → x ∈ [FreeList; UsedList; SwapList].
Proof. simpl. rewrite !dom_insert, dom_singleton. set_solver. Qed.

Lemma init_processes_ok s m p k :
  lists (links s) m → (∀ q x, p ≤ q → x ∈ proc_heads q → x ∉ dom (links s)) →
  ∃ h procs m', init_processes p k s = Ok tt (set_links h (set_procDescList procs s)) ∧
    lists h m' ∧
    (∀ b, (∀ q, p ≤ q → b ∉ proc_heads q) → m' !! b = m !! b ∧ (b ∈ dom h ↔ b ∈ dom (links s))) ∧
    (∀ q, p ≤ q < p + Z.of_nat k → procs !! q = Some new_process ∧
       ∀ x, x ∈ proc_heads q → m' !! x = Some []) ∧
    (∀ q, q < p → procs !! q = procDescList s !! q).
Proof.
  revert s m p. induction k as [|k IH]; intros s m p Hl Hf; cbn [init_processes].
  - exists (links s), (procDescList s), m.
    split; [by destruct s|]. split_and!; try done. intros q Hq. lia.
  - destruct (init_process_ok s m p Hl) as (h1 & E1 & L1 & D1); [intros x; by apply Hf|].
    run E1. set (m1 := <[ProcSwapCache p := []]> _) in *.
    match goal with |- context [init_processes (p + 1) k ?x] => set (s1 := x) end.
    destruct (IH s1 m1 (p + 1)) as (h2 & procs & m2 & E2 & L2 & Hb2 & Hq2 & Hlt2); [done| |].
    { intros q x Hq Hx Hin. simpl in Hin. rewrite D1 in Hin.
      apply elem_of_union in Hin as [Hin|Hin]; [|by apply (Hf q x); [lia|..]].
      assert (p = q) as ->; [|lia]. apply (proc_heads_inj p q x); [|done].
      unfold proc_heads. set_solver. }
    exists h2, procs, m2. split; [etrans; [exact E2|by destruct s]|]. split; [done|].
    assert (∀ x, x ∈ proc_heads p → m2 !! x = Some []) as Hp.
    { intros x Hx. rewrite (proj1 (Hb2 x ltac:(intros q Hq Hxq; pose proof (proc_heads_inj _ _ _ Hx Hxq); lia))).
      subst m1. unfold proc_heads in Hx. rewrite !elem_of_cons in Hx.
      destruct Hx as [->|[->|[->|Hx]]]; [by family..|]. by apply not_elem_of_nil in Hx. }
    split_and!.
    + intros b Hb. destruct (Hb2 b) as [E Hd]; [intros q Hq; apply Hb; lia|].
      pose proof (Hb p ltac:(lia)) as Hbp. unfold proc_heads in Hbp.
      rewrite E, Hd. subst m1 s1. simpl. rewrite D1. split.
      * rewrite !lookup_insert_ne by mem_solver. done.
      * rewrite elem_of_union. clear -Hbp. set_solver.
    + intros q Hq. destruct (decide (q = p)) as [->|Hne].
      * split; [|done]. rewrite Hlt2 by lia. subst s1. simpl.
        by rewrite lookup_insert, decide_True.
      * apply Hq2. lia.
    + intros q Hq. rewrite Hlt2 by lia. subst s1. simpl. by rewrite lookup_insert_ne by lia.
Qed.

(** The heap before [usm_init]: the three static lists, empty. *)
Lemma static_lists :
  lists (links static_state) {[FreeList := []; UsedList := []; SwapList := []]}.
Proof.
  split.
  - intros hd l Hl. assert (hd ∈ [FreeList; UsedList; SwapList] ∧ l = []) as [Hin ->].
    { rewrite !lookup_insert_Some, lookup_singleton_Some in Hl. set_solver. }
    split; [apply NoDup_singleton|].
    rewrite !elem_of_cons in Hin. destruct Hin as [->|[->|[->|Hin%not_elem_of_nil]]]; [..|done];
      split; vm_compute; reflexivity.
  - intros a la b lb z Ha Hb. rewrite !lookup_insert_Some, lookup_singleton_Some in Ha, Hb.
    assert (la = [] ∧ lb = []) as [-> ->] by naive_solver. set_solver.
Qed.
End init_lemmas.

(** * Theorem *)

Section start.
Context `{K : Kernel}.

Lemma usm_start_ok uffd usmZone poolSize processes r e base :
  0 ≤ poolSize → poolSize < 2 ^ 44 →
  let n := poolSize `div` 4096 in
  ioctl_palloc 0 uffd usmZone n 3 = (r, e, base) →
  0 ≤ r → base ≠ 1 → 0 ≤ base → base + n ≤ 2 ^ 31 →
  ∃ s m, usm_start uffd usmZone poolSize processes static_state = Ok 0 s ∧
    pool s m (seq 0 (Z.to_nat n)) [] ∧ usedMemory s = 0 ∧ m !! SwapList = Some [] ∧
    basePFN s = base ∧ globalPagesNumber s = n ∧
    (∀ i p, pagesList s !! i = Some p →
       virtualAddress p = 0 ∧ data p = replicate 4096 0 ∧ usedListPositionPointer p = Some i) ∧
    (∀ q, 0 ≤ q < Z.of_nat processes → procDescList s !! q = Some new_process ∧
       ∀ x, x ∈ proc_heads q → m !! x = Some []).
Proof.
  intros Hps Hbig n Hio Hr Hb1 Hb0 Hbn. unfold usm_start, usm_init_pool.
  assert (0 ≤ n < 2 ^ 32) as Hn.
  { subst n. split; [by apply Z.div_pos|]. apply Z.div_lt_upper_bound; lia. }
  rewrite bind_assoc, modify_bind. rewrite bind_assoc, gets_bind.
  assert (u32 (poolSize `div` SYS_PAGE_SIZE) = n) as Hu by (unfold u32, SYS_PAGE_SIZE; by apply Z.mod_small).
  rewrite Hu. cbn [globalPagesNumber set_globalPagesNumber].
  rewrite bind_assoc. unfold usm_get_pfn at 1. rewrite bind_assoc.
  erewrite bind_ok by reflexivity. cbn [clock static_state set_globalPagesNumber]. rewrite Hio.
  destruct (Z.ltb_spec r 0); [lia|]. rewrite ret_bind, bind_assoc, modify_bind.
  destruct (Z.eqb_spec base 1); [done|]. rewrite bind_assoc, modify_bind.
  set (s0 := set_pagesList _ _). rewrite bind_assoc.
  destruct (insert_pages_ok s0 0 (Z.to_nat n)) as (pages & E1 & Hl1 & _ & Hpg);
    [done|simpl; lia|simpl; apply length_replicate|].
  run E1. rewrite ret_bind. cbn [negb Z.eqb]. simpl in Hl1. rewrite length_replicate in Hl1.
  destruct (init_processes_ok (set_pagesList pages s0) {[FreeList := []; UsedList := []; SwapList := []]} 0 processes)
    as (h & procs & m2 & E2 & L2 & Hb2 & Hq2 & _); [exact static_lists| |].
  { intros q x _ Hx Hin. apply (proj1 (proc_heads_other q x Hx)). by apply static_dom. }
  run E2. rewrite gets_bind.
  match goal with |- context [setup_nodes 0 (Z.to_nat ?x)] => change x with n end.
  set (s1 := set_links h _).
  assert (∀ x, x ∈ [FreeList; UsedList; SwapList] → m2 !! x = Some []) as Hm2.
  { intros x Hx. destruct (Hb2 x) as [-> _];
      [intros q _ Hq; by destruct (proc_heads_other q x Hq)|].
    rewrite !elem_of_cons in Hx. destruct Hx as [->|[->|[->|Hx%not_elem_of_nil]]]; done. }
  assert (setting_up s1 m2 0) as Hup.
  { split.
    - exact L2.
    - apply Hm2. mem_solver.
    - apply Hm2. mem_solver.
    - intros j _ Hin. destruct (Hb2 (NodeIulist j)) as [_ Hd].
      { intros q _ Hq. by destruct (proj2 (proc_heads_other q _ Hq) j). }
      apply Hd, static_dom in Hin. rewrite !elem_of_cons, elem_of_nil in Hin.
      destruct Hin as [|[|[|[]]]]; done.
    - intros j Hj. lia.
    - intros j p Hp. split; [|lia]. by destruct (Hpg j p ltac:(lia) Hp). }
  destruct (setup_nodes_ok s1 m2 0 (Z.to_nat n) Hup) as (h3 & nodes & pages3 & m3 & E3 & L3 & Hup3 & Ho3 & Hpg3);
    [done|].
  run E3. eexists _, m3. split; [done|]. split_and!; try done.
  - destruct Hup3 as [Hl3 Hf3 Hu3 _ Hn3 Hp3]. simpl in *. split; simpl; try done; try lia.
    + intros i p Hp. destruct (Hp3 i p Hp) as [Hpa Hpt]. split; [done|]. left. apply Hpt.
      apply lookup_lt_Some in Hp. lia.
    + intros i Hi. apply Hn3. lia.
    + rewrite app_nil_r. intros i Hi%elem_of_seq. lia.
  - rewrite Ho3 by mem_solver. apply Hm2. mem_solver.
  - intros i p Hp. simpl in Hp, Hpg3.
    destruct (lookup_lt_is_Some_2 pages i) as [p1 Hp1]; [apply lookup_lt_Some in Hp; simpl in L3; lia|].
    destruct (Hpg3 i p1 Hp1) as [nn Hp3]. rewrite Hp3 in Hp. injection Hp as <-.
    destruct (Hpg i p1 ltac:(lia) Hp1) as (_ & Hva & _ & Hda & _). simpl.
    split; [done|]. split; [done|].
    destruct (up_pages _ _ _ Hup3 i _ Hp3) as [_ Hpt]. simpl in Hpt. apply Hpt.
    apply lookup_lt_Some in Hp1. lia.
  - intros q Hq. destruct (Hq2 q ltac:(lia)) as [Hp Hx]. split; [done|].
    intros x Hin. rewrite Ho3; [by apply Hx|].
    destruct (proc_heads_other q x Hin) as [Hno _]. mem_solver.
Qed.

(** C26: starting the daemon on a pool of [poolSize] bytes whose first PFN the
    kernel reports establishes the invariant of the pool: every page is free,
    in order of PFN, zeroed and unmapped, nothing is used, and every process
    descriptor is the default one with empty lists. *)
Theorem start_establishes_pool uffd usmZone poolSize processes r e base :
  0 ≤ poolSize → poolSize < 2 ^ 44 →
  let n := poolSize `div` 4096 in
  ioctl_palloc 0 uffd usmZone n 3 = (r, e, base) →
  0 ≤ r → base ≠ 1 → 0 ≤ base → base + n ≤ 2 ^ 31 →
  ∃ s m, usm_start uffd usmZone poolSize processes static_state = Ok 0 s ∧
    pool s m (seq 0 (Z.to_nat n)) [] ∧ usedMemory s = 0 ∧ m !! SwapList = Some [] ∧
    basePFN s = base ∧ globalPagesNumber s = n ∧
    (∀ i p, pagesList s !! i = Some p →
       virtualAddress p = 0 ∧ data p = replicate 4096 0 ∧ usedListPositionPointer p = Some i) ∧
    (∀ q, 0 ≤ q < Z.of_nat processes → procDescList s !! q = Some new_process ∧
       ∀ x, x ∈ proc_heads q → m !! x = Some []).
Proof. apply usm_start_ok. Qed.
End start.

Lemma start_establishes_pool_witness : ∃ s m,
  usm_start (K := reply_kernel 3) 5 0x7f0000000000 12288 2 static_state = Ok 0 s ∧
  pool s m (seq 0 3) [].
Proof.
  destruct (start_establishes_pool (K := reply_kernel 3) 5 0x7f0000000000 12288 2 1 0 3)
    as (s & m & E & Hp & _); [lia|lia|reflexivity|lia|lia|lia|vm_compute; discriminate|].
  exists s, m. split; [exact E|exact Hp].
Defined.

(** A small daemon, for examples: three pages with PFNs 3 to 5, two processes,
    a blank shared page. *)
Definition demo : usm :=
  match usm_start (K := reply_kernel 3) 5 0x7f0000000000 12288 2 static_state with
  | Ok _ s => set_page blank_page (set_globalPageSize 4096 s)
  | _ => static_state
  end.
Lemma demo_ok : ∃ s m,
  demo = set_page blank_page (set_globalPageSize 4096 s) ∧
  pool s m [0; 1; 2]%nat [] ∧ usedMemory s = 0 ∧ basePFN s = 3 ∧ globalPagesNumber s = 3 ∧
  m !! SwapList = Some [] ∧
  (∀ i p, pagesList s !! i = Some p →
     virtualAddress p = 0 ∧ data p = replicate 4096 0 ∧ usedListPositionPointer p = Some i) ∧
  (∀ q, 0 ≤ q < 2 → procDescList s !! q = Some new_process ∧
     ∀ x, x ∈ proc_heads q → m !! x = Some []).
Proof.
  destruct (usm_start_ok (K := reply_kernel 3) 5 0x7f0000000000 12288 2 1 0 3)
    as (s & m & E & Hp & Hm & Hs & Hb & Hn & Hpg & Hq);
    [lia|lia|reflexivity|lia|lia|lia|vm_compute; discriminate|].
  exists s, m. unfold demo. rewrite E. split_and!; done.
Qed.

(** The facts about [demo] that the examples use. *)
Lemma demo_pool : ∃ s m, s = demo ∧ pool s m [0; 1; 2]%nat [] ∧ has_page blank_page s ∧
  usedMemory s = 0 ∧ basePFN s = 3 ∧ globalPagesNumber s = 3.
Proof.
  destruct demo_ok as (s & m & -> & Hp & Hm & Hb & Hn & _).
  eexists _, m. split; [done|]. split; [exact Hp|]. split; [split; [done|apply blank_page_valid]|done].
Qed.
