(* ===== verification/AllocPolicies.v ===== *)
(** The allocation policies of examples/project-2/alloc/src/policiesSet1.c on
    several pages: batches, their accounting, the setup of the pool, and the
    theorems about the policies of PagePool.v. *)
From stdpp Require Import prelude gmap strings.
From S2P Require Import Prelude Lists State Channel PagePool Init.

Open Scope Z_scope.

(** * The batch format of the shared page

    A batch of PFNs is run-length encoded: slot [i] holds the first PFN of a run
    and the number of PFNs that follow it. *)
Definition snoc_run (rs : list (Z * Z)) (p : Z) : list (Z * Z) :=
  match last rs with
  | Some (v, c) =>
      if v + c + 1 =? p then removelast rs ++ [(v, c + 1)] else rs ++ [(p, 0)]
  | None => [(p, 0)]
  end.
Definition runs (ps : list Z) : list (Z * Z) := foldl snoc_run [] ps.

Definition expand_run (r : Z * Z) : list Z := Z.add r.1 <$> seqZ 0 (r.2 + 1).
Definition expand (rs : list (Z * Z)) : list Z := rs ≫= expand_run.

(** The kernel takes [k] PFNs from the slots, starting in the run of slot [pos]
    at PFN [v] with [c] PFNs to follow. *)
Fixpoint consumed (k : nat) (m : list Z) (pos v c : Z) : option (list Z) :=
  match k with
  | O => Some []
  | S O => Some [v]
  | S k' =>
      rest ← (if c =? 0
              then v' ← load 8 (48 + 12 * (pos + 1)) m;
                   c' ← load 4 (56 + 12 * (pos + 1)) m;
                   consumed k' m (pos + 1) v' c'
              else consumed k' m pos (v + 1) (c - 1));
      Some (v :: rest)
  end.

(** The slots hold the runs [rs]; the count of the last run need not be
    written yet. *)
Definition encodes (m : list Z) (rs : list (Z * Z)) : Prop :=
  ∀ i v c, rs !! i = Some (v, c) →
    load 8 (48 + 12 * Z.of_nat i) m = Some v ∧
    ((S i < base.length rs)%nat → load 4 (56 + 12 * Z.of_nat i) m = Some c).

Definition run_ok (r : Z * Z) : Prop := 0 ≤ r.1 ∧ 0 ≤ r.2 ∧ r.1 + r.2 < 2 ^ 31.

Lemma snoc_run_last rs v c p : snoc_run (rs ++ [(v, c)]) p =
  if v + c + 1 =? p then rs ++ [(v, c + 1)] else rs ++ [(v, c); (p, 0)].
Proof.
  unfold snoc_run. rewrite last_snoc. destruct (v + c + 1 =? p).
  - by rewrite removelast_last.
  - by rewrite <- app_assoc.
Qed.

Lemma expand_run_S v c : 0 ≤ c → expand_run (v, c + 1) = expand_run (v, c) ++ [v + c + 1].
Proof.
  intros Hc. unfold expand_run. simpl.
  replace (c + 1 + 1) with ((c + 1) + 1) by lia.
  rewrite (seqZ_app 0 (c + 1) 1) by lia. rewrite fmap_app. f_equal.
  simpl. change (seqZ (c + 1) 1) with [c + 1]. simpl. f_equal. lia.
Qed.

Lemma expand_app rs1 rs2 : expand (rs1 ++ rs2) = expand rs1 ++ expand rs2.
Proof. apply bind_app. Qed.

Lemma expand_snoc_run rs p : Forall run_ok rs → expand (snoc_run rs p) = expand rs ++ [p].
Proof.
  intros Hok. destruct rs as [|[v c] rs _] using rev_ind.
  { unfold expand; simpl. unfold expand_run; simpl. by rewrite Z.add_0_r. }
  apply Forall_app in Hok as [_ Hok]. apply Forall_singleton in Hok as (_ & Hc & _). simpl in Hc.
  rewrite snoc_run_last, !expand_app. destruct (Z.eqb_spec (v + c + 1) p) as [<-|].
  - rewrite !expand_app. unfold expand at 2 4; simpl.
    rewrite !app_nil_r, expand_run_S by done. by rewrite app_assoc.
  - rewrite expand_app. unfold expand at 2 4; simpl. rewrite !app_nil_r.
    unfold expand_run at 2; simpl. by rewrite Z.add_0_r, <- app_assoc.
Qed.

Lemma snoc_run_ok rs p : Forall run_ok rs → 0 ≤ p < 2 ^ 31 → Forall run_ok (snoc_run rs p).
Proof.
  intros Hok Hp. destruct rs as [|[v c] rs _] using rev_ind.
  { repeat constructor; simpl; lia. }
  rewrite snoc_run_last. apply Forall_app in Hok as [Hok Hl].
  pose proof Hl as (Hv & Hc & Hvc)%Forall_singleton. simpl in *.
  destruct (Z.eqb_spec (v + c + 1) p); apply Forall_app; split; try done.
  - apply Forall_singleton. unfold run_ok; simpl. lia.
  - constructor; [done|]. apply Forall_singleton. unfold run_ok; simpl. lia.
Qed.

(** The encoding loses nothing. *)
Lemma expand_runs ps : Forall (λ p, 0 ≤ p < 2 ^ 31) ps →
  expand (runs ps) = ps ∧ Forall run_ok (runs ps).
Proof.
  unfold runs. induction ps as [|p ps IH] using rev_ind; intros Hps; [done|].
  apply Forall_app in Hps as [Hps Hp]. rewrite Forall_singleton in Hp.
  destruct (IH Hps) as [E Hok].
  rewrite foldl_app. simpl. split; [by rewrite expand_snoc_run, E|].
  apply snoc_run_ok; [exact Hok|exact Hp].
Qed.

(** The slots from [pos] on hold the runs [rs]; the count of a last run of one
    page may be stale. *)
Definition slots_at (m : list Z) (pos : Z) (rs : list (Z * Z)) : Prop :=
  ∀ i v c, rs !! i = Some (v, c) →
    load 8 (48 + 12 * (pos + Z.of_nat i)) m = Some v ∧
    ∃ c', load 4 (56 + 12 * (pos + Z.of_nat i)) m = Some c' ∧
      ((S i < base.length rs)%nat ∨ c ≠ 0 → c' = c).

Lemma slots_at_tail m pos r rs : slots_at m pos (r :: rs) → slots_at m (pos + 1) rs.
Proof.
  intros H i v c Hi. destruct (H (S i) v c Hi) as (Hv & c' & Hc & Hc').
  replace (pos + 1 + Z.of_nat i) with (pos + Z.of_nat (S i)) by lia.
  split; [done|]. exists c'. split; [done|]. intros Hor. apply Hc'. simpl. lia.
Qed.

Lemma expand_run_cons v c : 0 < c → expand_run (v, c) = v :: expand_run (v + 1, c - 1).
Proof.
  intros Hc. unfold expand_run; simpl. rewrite (seqZ_cons 0 (c + 1)) by lia. simpl.
  f_equal; [lia|]. replace (Z.pred (c + 1)) with (c - 1 + 1) by lia.
  change (Z.succ 0) with (1 + 0). rewrite <- (fmap_add_seqZ 1 0), <- list_fmap_compose.
  apply list_fmap_ext. intros. simpl. lia.
Qed.

Lemma expand_run_0 v : expand_run (v, 0) = [v].
Proof. unfold expand_run; simpl. by rewrite Z.add_0_r. Qed.

Lemma expand_cons r rs : expand (r :: rs) = expand_run r ++ expand rs.
Proof. done. Qed.

Lemma consumed_SS k m pos v c : consumed (S (S k)) m pos v c =
  (rest ← (if c =? 0
           then v' ← load 8 (48 + 12 * (pos + 1)) m;
                c' ← load 4 (56 + 12 * (pos + 1)) m;
                consumed (S k) m (pos + 1) v' c'
           else consumed (S k) m pos (v + 1) (c - 1));
   Some (v :: rest)).
Proof. done. Qed.

(** The kernel reads back what the slots encode. *)
Lemma consumed_ok m k pos v c rs :
  0 ≤ c → Forall run_ok rs → slots_at m (pos + 1) rs →
  (k ≤ base.length (expand ((v, c) :: rs)))%nat →
  consumed k m pos v c = Some (take k (expand ((v, c) :: rs))).
Proof.
  revert pos v c rs. induction k as [|k IH]; intros pos v c rs Hc Hok Hsl Hk; [done|].
  destruct (decide (c = 0)) as [->|Hc0].
  - rewrite expand_cons, expand_run_0 in *. cbn [app take base.length] in *.
    destruct k as [|k]; [done|]. rewrite consumed_SS. simpl (0 =? 0). cbv iota.
    destruct rs as [|[v' c'] rs]; [cbn in Hk; lia|].
    destruct (Hsl O v' c' eq_refl) as (Hv & c'' & Hc'' & Heq).
    change (Z.of_nat 0) with 0 in *. rewrite Z.add_0_r in Hv, Hc''.
    rewrite Hv. cbn [mbind option_bind]. rewrite Hc''. cbn [mbind option_bind].
    apply Forall_cons in Hok as [(_ & Hc' & _) Hok]. cbn [snd] in Hc'.
    destruct (decide (rs = [] ∧ c' = 0)) as [[-> ->]|Hne].
    + rewrite expand_cons, expand_run_0 in *. cbn in Hk. assert (k = O) as -> by lia. done.
    + assert (c'' = c') as ->.
      { apply Heq. destruct rs; simpl; [right; naive_solver|left; lia]. }
      rewrite (IH _ _ _ rs); [done|done|done|by apply slots_at_tail in Hsl|lia].
  - rewrite expand_cons, expand_run_cons in * by lia. cbn [app take base.length] in *.
    destruct k as [|k]; [done|]. rewrite consumed_SS.
    destruct (Z.eqb_spec c 0); [done|].
    rewrite (IH _ _ _ rs); [done|lia|done|done|]. rewrite expand_cons. lia.
Qed.

Section batches.
Context `{SE : SubmitEvt}.

Lemma u64_add_step x a b : u64 (u64 (x + a) + b) = u64 (x + (a + b)).
Proof. unfold u64. rewrite Zplus_mod_idemp_l. f_equal. lia. Qed.

(** [consume_pages_acct] moves the held pages to the used list and links them
    to consecutive addresses. *)
Lemma consume_pages_acct_ok s m free used ph held addr org :
  pool s m free used → 0 ≤ usedMemory s < 2 ^ 64 → ph ∉ [FreeList; UsedList] →
  m !! ph = Some (NodeIulist <$> held) →
  (∀ n, n ∈ held → (n < base.length (pagesList s))%nat) →
  ∃ h m', consume_pages_acct ph addr org s =
      Ok tt (set_usedMemory (u64 (usedMemory s + 4096 * Z.of_nat (base.length held)))
        (set_pagesList (link_pages addr org held (pagesList s)) (set_links h s))) ∧
    pool_of h (usmPage s) (link_pages addr org held (pagesList s)) (basePFN s)
      (globalPagesNumber s) m' free (used ++ held) ∧
    dom h = dom (links s) ∧ m' !! ph = Some [] ∧ other_lists [UsedList; ph] m m'.
Proof.
  intros Hp Hum Hph Hm Hr. unfold consume_pages_acct, for_each_safe. rewrite bind_assoc, gets_bind.
  pose proof (lists_dlist _ _ _ _ (pool_lists Hp) Hm) as Hd.
  set (P := λ (a : Z) (l : list loc) s', ∃ d r h m' pages, l = NodeIulist <$> r ∧ held = d ++ r ∧
    s' = set_usedMemory (u64 (usedMemory s + 4096 * Z.of_nat (base.length d)))
           (set_pagesList pages (set_links h s)) ∧
    link_pages a org r pages = link_pages addr org held (pagesList s) ∧
    pool_of h (usmPage s) pages (basePFN s) (globalPagesNumber s) m' free (used ++ d) ∧
    dom h = dom (links s) ∧ m' !! ph = Some (NodeIulist <$> r) ∧ other_lists [UsedList; ph] m m').
  match goal with |- context [list_for_each_safe links ?fu ?body ?hd ?a] =>
    destruct (list_for_each_safe_ok links P body hd (NodeIulist <$> held) fu a s)
      as (a' & s' & E & HP')
  end; [| | |by apply Nat.lt_lt_succ_r, (dlist_length _ ph)|].
  - intros a l s' (d & r & h & m' & pages & -> & _ & -> & _ & Hp' & _ & Hm' & _).
    by apply (lists_dlist _ _ _ _ (pool_lists Hp')).
  - intros a x l s' (d & [|n r] & h & m' & pages & El & Eh & -> & Hlk & Hp' & Hdom & Hm' & Ho); [done|].
    simpl in El. injection El as -> ->. simpl node_of_iulist. rewrite ret_bind.
    assert (n < base.length pages)%nat as Hn.
    { pose proof (pool_size Hp'). pose proof (pool_size Hp).
      pose proof (Hr n ltac:(subst held; mem_solver)). lia. }
    destruct (lookup_lt_is_Some_2 _ _ Hn) as [p Ep].
    erewrite usmPage_of_bind by (by apply (pool_node Hp')).
    erewrite update_page_bind by exact Ep.
    erewrite update_page_bind by (apply list_lookup_insert_eq; exact Hn).
    destruct (pool_move_tail _ _ _ _ _ _ _ _ ph [] n (NodeIulist <$> r)
      UsedList (NodeIulist <$> (used ++ d)) free (used ++ d ++ [n]) Hp')
      as (h' & E2 & D2 & Hp2);
      [done|rewrite lookup_insert_ne by mem_solver; apply Hp'| |by family; rewrite app_assoc| |].
    { rewrite !lookup_insert_ne by mem_solver. apply Hp'. }
    { intros k Hk. destruct (decide (k = n)) as [->|]; [done|].
      apply (pool_range Hp'). mem_solver. }
    erewrite list_op_bind by exact E2.
    eexists _, _. split; [done|]. eexists (d ++ [n]), r, h', _, _.
    split; [done|]. split; [by rewrite <- app_assoc|]. split; [|split; [|split]].
    { autorewrite with usm_state. simpl pagesList. simpl usedMemory.
      rewrite length_app, list_insert_insert_eq. f_equal.
      unfold SYS_PAGE_SIZE. rewrite u64_add_step. f_equal. simpl. lia. }
    { simpl in Hlk. by rewrite Ep in Hlk. }
    { eapply pool_repage; [exact Hp2|exact Ep|done|]. by apply (pool_page Hp' n p). }
    split; [congruence|]. split; [rewrite lookup_insert_ne by mem_solver; by family|].
    eapply other_lists_trans; [exact Ho|]. other_lists_solver.
  - exists [], held, (links s), m, (pagesList s). split; [done|]. split; [done|]. split.
    { simpl. rewrite Z.add_0_r. unfold u64. rewrite Z.mod_small by done. by destruct s. }
    rewrite app_nil_r. split_and!; try done.
  - destruct HP' as (d & r & h & m' & pages & Er & -> & -> & Hlk & Hp' & Hdom & Hm' & Ho).
    destruct r; [|done]. rewrite app_nil_r in *. simpl in Hlk. subst pages.
    exists h, m'. by run E.
Qed.

(** Taking the first free page for the list [ph]. *)
Lemma take_free_ok s m n f used ph held :
  pool s m (n :: f) used → ph ∉ [FreeList; UsedList] →
  m !! ph = Some (NodeIulist <$> held) →
  ∃ h m', take_free ph s = Ok (pfn_of s n) (set_links h s) ∧
    pool_of h (usmPage s) (pagesList s) (basePFN s) (globalPagesNumber s) m' f used ∧
    dom h = dom (links s) ∧ m' !! ph = Some (NodeIulist <$> (held ++ [n])) ∧
    other_lists [FreeList; ph] m m'.
Proof.
  intros Hp Hph Hm. unfold take_free. run (first_free_ok _ _ _ _ _ Hp).
  destruct (pool_lookup _ _ _ _ Hp n) as (p & Ep & En & Epa & _); [mem_solver|].
  destruct (pool_move_tail _ _ _ _ _ _ _ _ FreeList [] n (NodeIulist <$> f)
    ph (NodeIulist <$> held) f used Hp) as (h' & E & D & Hp');
    [apply Hp|by rewrite lookup_insert_ne by mem_solver| | | |].
  { rewrite lookup_insert_ne by mem_solver. by family. }
  { rewrite !lookup_insert_ne by mem_solver. apply Hp. }
  { intros k Hk. apply (pool_range Hp). mem_solver. }
  erewrite list_op_bind by exact E. erewrite usmPage_of_bind by exact En.
  erewrite page_at_bind by exact Ep. eexists _, _.
  split; [unfold mret, M_ret; by rewrite Epa|]. split; [exact Hp'|]. split; [done|].
  split; [by family|]. other_lists_solver.
Qed.

(** One iteration of [pick_pages]. *)
Lemma pick_body_stop s m free used ph nr : pool s m free used →
  nr ≤ 0 ∨ free = [] → pick_body ph nr s = Ok (inr nr) s.
Proof.
  intros Hp H. unfold pick_body. destruct (Z.ltb_spec 0 nr); [|done].
  destruct H as [?| ->]; [lia|]. cbn [negb]. by run (pool_is_empty _ _ _ _ Hp).
Qed.

Lemma pick_body_step s m n f used ph held nr :
  pool s m (n :: f) used → ph ∉ [FreeList; UsedList] →
  m !! ph = Some (NodeIulist <$> held) → 0 < nr →
  ∃ h m', pick_body ph nr s =
      Ok (inl (nr - 1)) (set_usedMemory (u64 (usedMemory s + 4096)) (set_links h s)) ∧
    pool_of h (usmPage s) (pagesList s) (basePFN s) (globalPagesNumber s) m' f used ∧
    dom h = dom (links s) ∧ m' !! ph = Some (NodeIulist <$> (n :: held)) ∧
    other_lists [FreeList; ph] m m'.
Proof.
  intros Hp Hph Hm Hnr. unfold pick_body.
  destruct (Z.ltb_spec 0 nr); [|lia]. cbn [negb].
  run (pool_is_empty _ _ _ _ Hp). rewrite bool_decide_false by done.
  run (first_free_ok _ _ _ _ _ Hp).
  destruct (pool_move _ _ _ _ _ _ _ _ FreeList [] n (NodeIulist <$> f)
    ph (NodeIulist <$> held) f used Hp) as (h' & E & D & Hp');
    [apply Hp|by rewrite lookup_insert_ne by mem_solver| | | |].
  { rewrite lookup_insert_ne by mem_solver. by family. }
  { rewrite !lookup_insert_ne by mem_solver. apply Hp. }
  { intros i Hi. apply (pool_range Hp). mem_solver. }
  erewrite list_op_bind by exact E. eexists h', _.
  split; [done|]. split; [exact Hp'|]. split; [done|]. split; [by family|]. other_lists_solver.
Qed.

Lemma pick_loop s m free used ph held k :
  pool s m free used → 0 ≤ usedMemory s < 2 ^ 64 → ph ∉ [FreeList; UsedList] →
  m !! ph = Some (NodeIulist <$> held) →
  ∃ h m', loop (S k) (pick_body ph) (Z.of_nat k) s =
      Ok (Z.of_nat k - Z.of_nat (base.length (take k free)))
        (set_usedMemory (u64 (usedMemory s + 4096 * Z.of_nat (base.length (take k free)))) (set_links h s)) ∧
    pool_of h (usmPage s) (pagesList s) (basePFN s) (globalPagesNumber s) m' (drop k free) used ∧
    dom h = dom (links s) ∧ m' !! ph = Some (NodeIulist <$> (reverse (take k free) ++ held)) ∧
    other_lists [FreeList; ph] m m'.
Proof.
  intros Hp Hum Hph Hm. revert s m free held Hp Hum Hm.
  induction k as [|k IH]; intros s m free held Hp Hum Hm; rewrite loop_S.
  - run (pick_body_stop _ _ _ _ ph (Z.of_nat 0) Hp ltac:(by left)).
    exists (links s), m. split; [|by split_and!; try done].
    cbn. unfold mret, M_ret. rewrite Z.add_0_r, set_links_id. unfold u64.
    by rewrite Z.mod_small, set_usedMemory_id by done.
  - destruct free as [|n f].
    + run (pick_body_stop _ _ _ _ ph (Z.of_nat (S k)) Hp ltac:(by right)).
      exists (links s), m. split; [|by split_and!; try done].
      cbn [take base.length]. unfold mret, M_ret. rewrite Z.sub_0_r, Z.add_0_r, set_links_id.
      unfold u64. by rewrite Z.mod_small, set_usedMemory_id by done.
    + destruct (pick_body_step _ _ _ _ _ ph held (Z.of_nat (S k)) Hp Hph Hm ltac:(lia))
        as (h1 & m1 & E1 & Hp1 & D1 & Hm1 & Ho1).
      run E1. replace (Z.of_nat (S k) - 1) with (Z.of_nat k) by lia.
      set (s1 := set_usedMemory _ _).
      destruct (IH s1 m1 f (n :: held) Hp1) as (h2 & m2 & E2 & Hp2 & D2 & Hm2 & Ho2);
        [apply Z.mod_pos_bound; lia|done|].
      exists h2, m2. split; [|split; [exact Hp2|]].
      * etrans; [exact E2|]. subst s1. autorewrite with usm_state. cbn [take base.length].
        f_equal; [lia|]. f_equal. simpl usedMemory. rewrite u64_add_step. f_equal. lia.
      * split; [simpl in D2; congruence|]. split.
        { rewrite Hm2. cbn [take]. by rewrite reverse_cons, <- app_assoc. }
        by eapply other_lists_trans.
Qed.

(** [pick_pages] moves the first [nr] free pages, or all of them, to the front
    of [ph], one by one. *)
Lemma pick_pages_ok s m free used ph held nr :
  pool s m free used → 0 ≤ usedMemory s < 2 ^ 64 → ph ∉ [FreeList; UsedList] →
  m !! ph = Some (NodeIulist <$> held) → 0 ≤ nr →
  let taken := take (Z.to_nat nr) free in
  ∃ h m', pick_pages ph nr s =
      Ok (Z.of_nat (base.length taken))
        (set_usedMemory (u64 (usedMemory s + 4096 * Z.of_nat (base.length taken))) (set_links h s)) ∧
    pool_of h (usmPage s) (pagesList s) (basePFN s) (globalPagesNumber s) m'
      (drop (Z.to_nat nr) free) used ∧
    dom h = dom (links s) ∧ m' !! ph = Some (NodeIulist <$> (reverse taken ++ held)) ∧
    other_lists [FreeList; ph] m m'.
Proof.
  intros Hp Hum Hph Hm Hnr taken. unfold pick_pages. subst taken.
  destruct (pick_loop s m free used ph held (Z.to_nat nr) Hp Hum Hph Hm) as (h & m' & E & H).
  rewrite Z2Nat.id in E by done.
  exists h, m'. split; [|exact H]. run E. unfold mret, M_ret. f_equal. lia.
Qed.

(** ** Preparing a batch *)
Lemma set_page_id mp s : usmmem (event s) = Some mp → set_page mp s = s.
Proof. destruct s as [????????????? [] ?]. unfold set_page, set_event; simpl. by intros ->. Qed.

Lemma set_page_set_page mp mp' s : set_page mp (set_page mp' s) = set_page mp s.
Proof. by destruct s. Qed.

Lemma encodes_bump mp rs v c c' : encodes mp (rs ++ [(v, c)]) → encodes mp (rs ++ [(v, c')]).
Proof.
  intros H i w d Hi. destruct (decide (i = base.length rs)) as [->|Hne].
  - rewrite lookup_app_r, Nat.sub_diag in Hi by lia. injection Hi as <- <-.
    destruct (H (base.length rs) v c) as [Hv _].
    { by rewrite lookup_app_r, Nat.sub_diag by lia. }
    split; [done|]. rewrite length_app; simpl. lia.
  - assert ((rs ++ [(v, c)]) !! i = Some (w, d)) as Hi'.
    { apply lookup_lt_Some in Hi as Hlt. rewrite length_app in Hlt. simpl in Hlt.
      rewrite lookup_app_l in * by lia. done. }
    destruct (H i w d Hi') as [Hw Hd]. split; [done|]. intros Hlt. apply Hd.
    rewrite length_app in *. done.
Qed.

(** Closing the last run and opening a new one. *)
Lemma encodes_snoc mp mp1 mp2 rs v c p :
  encodes mp (rs ++ [(v, c)]) → 0 ≤ c < 2 ^ 32 → 0 ≤ p < 2 ^ 64 →
  store 4 (56 + 12 * Z.of_nat (base.length rs)) c mp = Some mp1 →
  store 8 (48 + 12 * Z.of_nat (S (base.length rs))) p mp1 = Some mp2 →
  encodes mp2 (rs ++ [(v, c); (p, 0)]).
Proof.
  intros H Hc Hp E1 E2 i w d Hi.
  assert (i < base.length rs ∨ i = base.length rs ∨ i = S (base.length rs))%nat as Hcase.
  { apply lookup_lt_Some in Hi. rewrite length_app in Hi. simpl in Hi. lia. }
  rewrite length_app; simpl. destruct Hcase as [Hlt|[->| ->]].
  - rewrite lookup_app_l in Hi by done.
    destruct (H i w d) as [Hw Hd]; [by rewrite lookup_app_l|]. rewrite length_app in Hd; simpl in Hd.
    rewrite !(load_store_other _ _ _ _ _ _ _ E2), !(load_store_other _ _ _ _ _ _ _ E1) by lia.
    split; [done|]. intros _. apply Hd. lia.
  - rewrite lookup_app_r, Nat.sub_diag in Hi by lia. injection Hi as <- <-.
    rewrite !(load_store_other _ _ _ _ _ _ _ E2) by lia.
    rewrite (load_store_other _ _ _ _ _ _ _ E1) by lia.
    destruct (H (base.length rs) v c) as [Hv _]; [by rewrite lookup_app_r, Nat.sub_diag by lia|].
    split; [done|]. intros _. rewrite (load_store_same _ _ _ _ _ E1).
    by rewrite Z.mod_small.
  - rewrite lookup_app_r in Hi by lia.
    replace (S (base.length rs) - base.length rs)%nat with 1%nat in Hi by lia.
    injection Hi as <- <-. split; [|lia].
    rewrite (load_store_same _ _ _ _ _ E2). by rewrite Z.mod_small.
Qed.

Lemma pfn_of_bound s m free used n : pool s m free used → n ∈ free ++ used →
  0 ≤ pfn_of s n < 2 ^ 31.
Proof.
  intros Hp Hn. pose proof (pool_range Hp n Hn). pose proof (pool_size Hp).
  pose proof (pool_base Hp). unfold pfn_of. lia.
Qed.

Lemma prep_body_stop s m free used ph nr pos c vp : pool s m free used →
  nr ≤ 0 ∨ free = [] → prep_body ph (nr, pos, c, vp) s = Ok (inr (nr, pos, c)) s.
Proof.
  intros Hp H. unfold prep_body. destruct (Z.ltb_spec 0 nr); [|done].
  destruct H as [?| ->]; [lia|]. cbn [negb]. by run (pool_is_empty _ _ _ _ Hp).
Qed.

Lemma prep_body_step s m n f used ph held nr mp rs v c :
  pool s m (n :: f) used → ph ∉ [FreeList; UsedList] →
  m !! ph = Some (NodeIulist <$> held) → has_page mp s →
  encodes mp (rs ++ [(v, c)]) → Forall run_ok (rs ++ [(v, c)]) → 0 < nr →
  (base.length (snoc_run (rs ++ [(v, c)]) (pfn_of s n)) ≤ 337)%nat →
  ∃ h m' mp' rs' v' c',
    snoc_run (rs ++ [(v, c)]) (pfn_of s n) = rs' ++ [(v', c')] ∧
    prep_body ph (nr, Z.of_nat (base.length rs), c, v + c + 1) s =
      Ok (inl (nr - 1, Z.of_nat (base.length rs'), c', v' + c' + 1)) (set_page mp' (set_links h s)) ∧
    has_page mp' (set_page mp' (set_links h s)) ∧ encodes mp' (rs' ++ [(v', c')]) ∧
    Forall run_ok (rs' ++ [(v', c')]) ∧
    pool_of h (usmPage s) (pagesList s) (basePFN s) (globalPagesNumber s) m' f used ∧
    dom h = dom (links s) ∧ m' !! ph = Some (NodeIulist <$> (held ++ [n])) ∧
    other_lists [FreeList; ph] m m'.
Proof.
  intros Hp Hph Hm Hmp Henc Hok Hnr Hfit. unfold prep_body.
  destruct (Z.ltb_spec 0 nr); [|lia]. cbn [negb].
  run (pool_is_empty _ _ _ _ Hp). rewrite bool_decide_false by done.
  destruct (take_free_ok _ _ _ _ _ ph held Hp Hph Hm) as (h & m' & E & Hp' & D & Hm' & Ho).
  run E. pose proof (pfn_of_bound _ _ _ _ n Hp ltac:(mem_solver)) as Hpf.
  pose proof (snoc_run_ok _ _ Hok Hpf) as Hok'. rewrite snoc_run_last in *.
  pose proof Hok as [_ Hl]%Forall_app. rewrite Forall_singleton in Hl.
  destruct Hl as (Hv & Hc & Hvc). cbn [fst snd] in *.
  assert (u64 (pfn_of s n + 1) = pfn_of s n + 1) as Hu.
  { unfold u64. apply Z.mod_small. lia. }
  destruct (Z.eqb_spec (v + c + 1) (pfn_of s n)) as [Heq|Hne].
  - exists h, m', mp, rs, v, (c + 1). split; [done|]. split_and!; try done.
    + rewrite set_page_id by apply Hmp. unfold mret, M_ret.
      rewrite Hu, <- Heq. by replace (v + (c + 1)) with (v + c + 1) by lia.
    + split; [done|apply Hmp].
    + by eapply encodes_bump.
  - rewrite length_app in Hfit. cbn [base.length] in Hfit.
    destruct (usmPrepPreAllocFastCounted_ok (Z.of_nat (base.length rs)) c mp (set_links h s))
      as (mp1 & S1 & E1 & Hmp1); [exact Hmp|lia|]. run E1.
    destruct (usmPrepPreAlloc_ok (pfn_of s n) (Z.of_nat (base.length rs) + 1) mp1
      (set_page mp1 (set_links h s))) as (mp2 & S2 & E2 & Hmp2); [exact Hmp1|lia|]. run E2.
    exists h, m', mp2, (rs ++ [(v, c)]), (pfn_of s n), 0.
    split; [by rewrite <- app_assoc|]. rewrite <- app_assoc. split_and!; try done.
    + unfold mret, M_ret. rewrite set_page_set_page, Hu, length_app, Z.add_0_r. cbn [base.length].
      by replace (Z.of_nat (base.length rs) + 1) with (Z.of_nat (base.length rs + 1)) by lia.
    + eapply encodes_snoc; [exact Henc|lia|lia|exact S1|].
      by replace (Z.of_nat (S (base.length rs))) with (Z.of_nat (base.length rs) + 1) by lia.
Qed.

Lemma snoc_run_length rs p : (base.length rs ≤ base.length (snoc_run rs p))%nat.
Proof.
  destruct rs as [|[v c] rs _] using rev_ind; [simpl; lia|].
  rewrite snoc_run_last. destruct (_ =? _); rewrite !length_app; simpl; lia.
Qed.

Lemma foldl_runs_length rs ps : (base.length rs ≤ base.length (foldl snoc_run rs ps))%nat.
Proof.
  revert rs. induction ps as [|p ps IH]; intros rs; simpl; [done|].
  etrans; [apply (snoc_run_length rs p)|apply IH].
Qed.

Lemma prep_loop s m free used ph held mp rs v c k :
  pool s m free used → ph ∉ [FreeList; UsedList] →
  m !! ph = Some (NodeIulist <$> held) → has_page mp s →
  encodes mp (rs ++ [(v, c)]) → Forall run_ok (rs ++ [(v, c)]) →
  (base.length (foldl snoc_run (rs ++ [(v, c)]) (pfn_of s <$> take k free)) ≤ 337)%nat →
  ∃ h m' mp' rs' v' c',
    foldl snoc_run (rs ++ [(v, c)]) (pfn_of s <$> take k free) = rs' ++ [(v', c')] ∧
    loop (S k) (prep_body ph) (Z.of_nat k, Z.of_nat (base.length rs), c, v + c + 1) s =
      Ok (Z.of_nat k - Z.of_nat (base.length (take k free)), Z.of_nat (base.length rs'), c')
         (set_page mp' (set_links h s)) ∧
    valid_page mp' ∧ encodes mp' (rs' ++ [(v', c')]) ∧ Forall run_ok (rs' ++ [(v', c')]) ∧
    pool_of h (usmPage s) (pagesList s) (basePFN s) (globalPagesNumber s) m' (drop k free) used ∧
    dom h = dom (links s) ∧ m' !! ph = Some (NodeIulist <$> (held ++ take k free)) ∧
    other_lists [FreeList; ph] m m'.
Proof.
  intros Hp Hph Hm Hmp Henc Hok Hfit. revert s m free held mp rs v c Hp Hm Hmp Henc Hok Hfit.
  induction k as [|k IH]; intros s m free held mp rs v c Hp Hm Hmp Henc Hok Hfit; rewrite loop_S.
  - run (prep_body_stop _ _ _ _ ph (Z.of_nat 0) (Z.of_nat (base.length rs)) c (v + c + 1) Hp ltac:(by left)).
    exists (links s), m, mp, rs, v, c. cbn [take fmap list_fmap foldl drop base.length].
    rewrite app_nil_r, set_links_id, set_page_id by apply Hmp.
    split_and!; try done. apply Hmp.
  - destruct free as [|n f].
    + run (prep_body_stop _ _ _ _ ph (Z.of_nat (S k)) (Z.of_nat (base.length rs)) c (v + c + 1) Hp ltac:(by right)).
      exists (links s), m, mp, rs, v, c. cbn [take fmap list_fmap foldl drop base.length].
      rewrite app_nil_r, set_links_id, set_page_id, Z.sub_0_r by apply Hmp.
      split_and!; try done. apply Hmp.
    + cbn [take fmap list_fmap foldl] in Hfit |- *. pose proof (foldl_runs_length
        (snoc_run (rs ++ [(v, c)]) (pfn_of s n)) (pfn_of s <$> take k f)) as Hlen.
      destruct (prep_body_step _ _ _ _ _ ph held (Z.of_nat (S k)) mp rs v c Hp Hph Hm Hmp Henc Hok)
        as (h1 & m1 & mp1 & rs1 & v1 & c1 & Ers & E1 & Hmp1 & Henc1 & Hok1 & Hp1 & D1 & Hm1 & Ho1);
        [lia|etrans; [exact Hlen|exact Hfit]|].
      run E1. replace (Z.of_nat (S k) - 1) with (Z.of_nat k) by lia. rewrite Ers in *.
      destruct (IH (set_page mp1 (set_links h1 s)) m1 f (held ++ [n]) mp1 rs1 v1 c1 Hp1 Hm1 Hmp1 Henc1 Hok1 Hfit)
        as (h2 & m2 & mp2 & rs2 & v2 & c2 & Ers2 & E2 & V2 & Henc2 & Hok2 & Hp2 & D2 & Hm2 & Ho2).
      exists h2, m2, mp2, rs2, v2, c2. split; [exact Ers2|]. split; [|split_and!; try done].
      * etrans; [exact E2|]. cbn [base.length].
        replace (set_page mp2 (set_links h2 (set_page mp1 (set_links h1 s))))
          with (set_page mp2 (set_links h2 s)) by (by destruct s).
        do 3 f_equal. lia.
      * by rewrite D2.
      * by rewrite Hm2, <- app_assoc.
      * by eapply other_lists_trans.
Qed.

(** Writing the count of the last run, unless it is 0, completes the slots. *)
Lemma encodes_slots mp mp' rs v c :
  valid_page mp → valid_page mp' → encodes mp (rs ++ [(v, c)]) →
  Forall run_ok (rs ++ [(v, c)]) → (base.length rs < 337)%nat →
  (if c =? 0 then mp' = mp
   else store 4 (56 + 12 * Z.of_nat (base.length rs)) c mp = Some mp') →
  slots_at mp' 0 (rs ++ [(v, c)]).
Proof.
  intros Hv Hv' Henc Hok Hlen Hst i w d Hi. rewrite Z.add_0_l.
  destruct (Henc i w d Hi) as [Hw Hd].
  assert (i ≤ base.length rs)%nat as Hle.
  { apply lookup_lt_Some in Hi. rewrite length_app in Hi. simpl in Hi. lia. }
  rewrite length_app in *; simpl in *.
  destruct (load_valid mp' Hv' 4 (56 + 12 * Z.of_nat i)) as (x & Hx & _); [lia|lia|].
  apply Forall_app in Hok as [_ Hl]. rewrite Forall_singleton in Hl.
  destruct Hl as (Hv0 & Hc & Hvc). cbn [fst snd] in *.
  destruct (Z.eqb_spec c 0) as [->|Hc0].
  - subst mp'. split; [done|]. exists x. split; [done|]. intros [Hlt|Hd0].
    + rewrite Hd in Hx by lia. congruence.
    + destruct (decide (i = base.length rs)) as [->|Hne].
      * rewrite lookup_app_r, Nat.sub_diag in Hi by lia. by injection Hi as <- <-.
      * rewrite Hd in Hx by lia. congruence.
  - split; [by rewrite (load_store_other _ _ _ _ _ _ _ Hst) by lia|].
    exists x. split; [done|]. intros _.
    destruct (decide (i = base.length rs)) as [->|Hne].
    + rewrite lookup_app_r, Nat.sub_diag in Hi by lia. injection Hi as <- <-.
      rewrite (load_store_same _ _ _ _ _ Hst) in Hx. injection Hx as <-.
      apply Z.mod_small. lia.
    + rewrite (load_store_other _ _ _ _ _ _ _ Hst) in Hx by lia.
      rewrite Hd in Hx by lia. congruence.
Qed.

(** From the slots to what the kernel takes, whatever the stale count of a
    batch of one page is. *)
Lemma slots_consumed mp rs : rs ≠ [] → Forall run_ok rs → slots_at mp 0 rs →
  ∃ v c, load 8 48 mp = Some v ∧ load 4 56 mp = Some c ∧
    ∀ j, (j ≤ base.length (expand rs))%nat → consumed j mp 0 v c = Some (take j (expand rs)).
Proof.
  intros Hne Hok Hsl. destruct rs as [|[v c] rs]; [done|].
  destruct (Hsl O v c eq_refl) as (Hv & c' & Hc & Heq). exists v, c'.
  split; [done|]. split; [done|]. intros j Hj.
  pose proof Hok as [(_ & Hc0 & _) Hok']%Forall_cons. cbn [snd] in Hc0.
  destruct (decide (rs = [] ∧ c = 0)) as [[-> ->]|Hn].
  - rewrite expand_cons, expand_run_0 in *. cbn in Hj. destruct j as [|[|j]]; [done|done|lia].
  - assert (c' = c) as ->.
    { apply Heq. destruct rs; simpl; [right; naive_solver|left; lia]. }
    apply consumed_ok; [done|done|by apply slots_at_tail in Hsl|done].
Qed.

Lemma set_page_paddr mp x s :
  set_page mp (set_event (with_paddr x (event s)) s) =
  set_event (with_usmmem (Some mp) (with_paddr x (event s))) s.
Proof. by destruct s. Qed.

(** The last statement of [get_pages_prep] completes the slots. *)
Lemma close_batch s mp rs v c (r : Z) :
  valid_page mp → encodes mp (rs ++ [(v, c)]) → Forall run_ok (rs ++ [(v, c)]) →
  (base.length rs < 337)%nat →
  ∃ mp', valid_page mp' ∧ slots_at mp' 0 (rs ++ [(v, c)]) ∧
    (_ ← (if c =? 0 then mret 0 else usmPrepPreAllocFastCounted (Z.of_nat (base.length rs)) c);
     mret r) (set_page mp s) = Ok r (set_page mp' s).
Proof.
  intros V Henc Hok Hlen. destruct (Z.eqb_spec c 0) as [Hc|Hc].
  - exists mp. split; [done|]. split; [|by rewrite ret_bind].
    eapply encodes_slots; [exact V|exact V|done..|]. by rewrite Hc.
  - destruct (usmPrepPreAllocFastCounted_ok (Z.of_nat (base.length rs)) c mp (set_page mp s))
      as (mp5 & S5 & E5 & _ & V5); [done|lia|].
    exists mp5. split; [done|]. split.
    + eapply encodes_slots; [exact V|exact V5|done..|]. by destruct (Z.eqb_spec c 0).
    + run E5. unfold mret, M_ret. by rewrite set_page_set_page.
Qed.

Lemma get_pages_prep_ok s m n0 n1 f used ph held mp nr :
  pool s m (n0 :: n1 :: f) used → ph ∉ [FreeList; UsedList] →
  m !! ph = Some (NodeIulist <$> held) → has_page mp s → 1 ≤ nr →
  let extra := n1 :: take (Z.to_nat (nr - 1)) f in
  (base.length (runs (pfn_of s <$> extra)) ≤ 337)%nat →
  ∃ h m' mp', get_pages_prep ph nr s = Ok (Z.of_nat (base.length extra))
      (set_event (with_usmmem (Some mp') (with_paddr (pfn_of s n0) (event s))) (set_links h s)) ∧
    valid_page mp' ∧
    pool_of h (usmPage s) (pagesList s) (basePFN s) (globalPagesNumber s) m'
      (drop (Z.to_nat (nr - 1)) f) used ∧
    dom h = dom (links s) ∧ m' !! ph = Some (NodeIulist <$> (held ++ n0 :: extra)) ∧
    other_lists [FreeList; ph] m m' ∧
    ∃ v c, load 8 48 mp' = Some v ∧ load 4 56 mp' = Some c ∧
      ∀ j, (j ≤ base.length extra)%nat →
        consumed j mp' 0 v c = Some (pfn_of s <$> take j extra).
Proof.
  intros Hp Hph Hm Hmp Hnr extra Hfit. unfold get_pages_prep.
  run (pool_is_empty _ _ _ _ Hp). rewrite bool_decide_false by done.
  destruct (take_free_ok _ _ _ _ _ ph held Hp Hph Hm) as (h1 & m1 & E1 & Hp1 & D1 & Hm1 & Ho1).
  run E1. rewrite update_event_bind. set (s1 := set_event _ _).
  assert (pool s1 m1 (n1 :: f) used) as Hps1 by exact Hp1.
  run (pool_is_empty _ _ _ _ Hps1). rewrite bool_decide_false by done.
  destruct (take_free_ok _ _ _ _ _ ph _ Hps1 Hph Hm1) as (h2 & m2 & E2 & Hp2 & D2 & Hm2 & Ho2).
  run E2. change (pfn_of s1 n1) with (pfn_of s n1).
  pose proof (pfn_of_bound _ _ _ _ n1 Hp ltac:(mem_solver)) as Hpf.
  destruct (usmPrepPreAlloc_ok (pfn_of s n1) 0 mp (set_links h2 s1)) as (mp3 & S3 & E3 & Hmp3);
    [exact Hmp|lia|]. run E3. set (s3 := set_page mp3 _).
  set (k := Z.to_nat (nr - 1)) in *.
  destruct (prep_loop s3 m2 f used ph ((held ++ [n0]) ++ [n1]) mp3 [] (pfn_of s n1) 0 k)
    as (h4 & m4 & mp4 & rs4 & v4 & c4 & Ers & E4 & V4 & Henc4 & Hok4 & Hp4 & D4 & Hm4 & Ho4);
    [exact Hp2|done|exact Hm2|exact Hmp3| | |exact Hfit|].
  { intros [|i] v c Hi; [|done]. injection Hi as <- <-. split; [|simpl; lia].
    etrans; [exact (load_store_same _ _ _ _ _ S3)|]. rewrite Z.mod_small; [done|lia]. }
  { repeat constructor; simpl; lia. }
  replace (u64 (pfn_of s n1 + 1)) with (pfn_of s n1 + 0 + 1)
    by (unfold u64; rewrite Z.mod_small; lia).
  fold k. replace (nr - 1) with (Z.of_nat k) by lia. run E4.
  assert (base.length rs4 < 337)%nat as Hlen4.
  { change (runs (pfn_of s <$> extra)) with (foldl snoc_run ([] ++ [(pfn_of s n1, 0)]) (pfn_of s3 <$> take k f)) in Hfit.
    rewrite Ers, length_app in Hfit. simpl in Hfit. lia. }
  destruct (close_batch (set_links h4 s3) mp4 rs4 v4 c4
    (nr - (Z.of_nat k - Z.of_nat (base.length (take k f))))) as (mp' & V' & Hsl & E5); [done..|].
  exists h4, m4, mp'. split; [|split_and!; try done].
  - etrans; [exact E5|]. subst s3 s1 extra. f_equal. cbn [base.length]. lia.
  - etrans; [exact D4|]. etrans; [exact D2|exact D1].
  - rewrite Hm4, <- !app_assoc. done.
  - eapply other_lists_trans; [exact Ho1|]. by eapply other_lists_trans.
  - destruct (slots_consumed mp' (rs4 ++ [(v4, c4)])) as (v & c & Hv & Hc & Hcons);
      [by destruct rs4|done|done|].
    exists v, c. split_and!; [done..|]. rewrite <- Ers in Hcons.
    change (foldl snoc_run ([] ++ [(pfn_of s n1, 0)]) (pfn_of s3 <$> take k f)) with (runs (pfn_of s <$> extra)) in Hcons.
    destruct (expand_runs (pfn_of s <$> extra)) as [Hex _].
    { apply Forall_fmap, Forall_forall. intros i Hi. apply (pfn_of_bound _ _ _ _ i Hp).
      apply elem_of_app. left. right. subst extra. rewrite elem_of_cons in *.
      destruct Hi as [->|Hi]; [by left|right].
      apply elem_of_take in Hi as (? & Hi & _). by eapply list_elem_of_lookup_2. }
    rewrite Hex in Hcons. intros j Hj. rewrite Hcons by (by rewrite length_fmap).
    by rewrite firstn_map.
Qed.

(** ** basic_alloc *)
Lemma new_head_ok s m free used : pool s m free used →
  let ph := Local (fresh_local (links s)) in
  ∃ h, new_list_head s = Ok ph (set_links (<[ph := ListHead NULL NULL]> (links s)) s) ∧
    INIT_LIST_HEAD ph (<[ph := ListHead NULL NULL]> (links s)) = Some h ∧
    pool_of h (usmPage s) (pagesList s) (basePFN s) (globalPagesNumber s) (<[ph := []]> m) free used ∧
    dom h = {[ph]} ∪ dom (links s) ∧ m !! ph = None.
Proof.
  intros Hp ph. pose proof (fresh_local_not_in (links s)) as Hf. fold ph in Hf.
  destruct (lists_alloc (links s) m ph (ListHead NULL NULL)) as [Hl Hu]; [apply Hp|done|].
  destruct (lists_init (<[ph := ListHead NULL NULL]> (links s)) m ph Hl) as (h & E & D & Hl');
    [rewrite dom_insert; set_solver|done|].
  rewrite dom_insert_L in D.
  exists h. split; [done|]. split; [done|]. split; [|split; [done|]].
  - pose proof Hp as []. split; try done.
    + by rewrite lookup_insert_ne.
    + by rewrite lookup_insert_ne.
    + intros i Hi. rewrite D. destruct (pool_node i Hi). split; [done|]. by apply elem_of_union_r.
  - destruct (m !! ph) as [l|] eqn:E'; [|done]. destruct (Hu ph l E'). mem_solver.
Qed.

(** The event as [basic_alloc] submits it. *)
Definition batch_event (n0 : nat) (av : Z) (mp : list Z) (s : usm) : usm_event :=
  with_length (u64 (av - 1)) (with_usmmem (Some mp) (with_paddr (pfn_of s n0) (event s))).

Definition wanted (e : usm_event) : nat := Z.to_nat (Z.min (length e + 1) 512).

(** What the kernel finds in the slots of [mp]: the PFNs of [ns] in order. *)
Definition batch_page (mp : list Z) (s : usm) (ns : list nat) : Prop :=
  valid_page mp ∧ ∃ v c, load 8 48 mp = Some v ∧ load 4 56 mp = Some c ∧
    ∀ j, (j ≤ base.length ns)%nat → consumed j mp 0 v c = Some (pfn_of s <$> take j ns).

Lemma wanted_eq e : 0 ≤ length e < 2 ^ 31 - 1 →
  (if 512 <? s32 (length e + 1) then 512 else s32 (length e + 1)) = Z.of_nat (wanted e) ∧
  1 ≤ Z.of_nat (wanted e).
Proof.
  intros He. unfold s32, u32, wanted. rewrite Z.mod_small by lia.
  destruct (Z.ltb_spec (length e + 1) (2 ^ 31)); [|lia].
  destruct (Z.ltb_spec 512 (length e + 1)); lia.
Qed.

Lemma basic_alloc_ok s m n0 n1 f used mp :
  pool s m (n0 :: n1 :: f) used → has_page mp s →
  0 ≤ usedMemory s < 2 ^ 64 → 0 ≤ length (event s) < 2 ^ 31 - 1 →
  let extra := n1 :: take (wanted (event s) - 1) f in
  let left := drop (wanted (event s) - 1) f in
  let count := 4096 * (Z.of_nat (base.length extra) + 1) in
  (base.length (runs (pfn_of s <$> extra)) ≤ 337)%nat →
  ∃ h mp1 r t mp' fl, let s1 := set_event (batch_event n0 (Z.of_nat (base.length extra)) mp1 s) (set_links h s) in
    batch_page mp1 s extra ∧
    usm_submit_evt s1 = Ok r (submitted t mp' fl s1) ∧ valid_page mp' ∧
    (r = 0 → fl = 0 → ∃ h' m', basic_alloc s =
       Ok 0 (set_usedMemory (u64 (usedMemory s + count))
         (set_pagesList (link_pages (vaddr (event s)) (origin (event s)) (n0 :: extra) (pagesList s))
           (set_links h' (submitted t mp' fl s1)))) ∧
       pool_of h' (usmPage s) (link_pages (vaddr (event s)) (origin (event s)) (n0 :: extra) (pagesList s))
         (basePFN s) (globalPagesNumber s) m' left (used ++ n0 :: extra)) ∧
    (r ≠ 0 → ∃ h' m', basic_alloc s =
       Ok 1 (set_usedMemory (u64 (usedMemory s - count)) (set_links h' (submitted t mp' fl s1))) ∧
       pool_of h' (usmPage s) (pagesList s) (basePFN s) (globalPagesNumber s) m' (left ++ n0 :: extra) used).
Proof.
  intros Hp Hmp Hum Hlen extra left count Hfit. unfold basic_alloc.
  destruct (new_head_ok s m _ used Hp) as (h0 & E0 & I0 & Hp0 & D0 & Hnone).
  set (ph := Local (fresh_local (links s))) in *.
  run E0. rewrite (list_op_bind _ _ _ h0) by exact I0. rewrite set_links_set_links.
  unfold get_event. rewrite gets_bind. cbv zeta. change (event (set_links h0 s)) with (event s).
  destruct (wanted_eq (event s) Hlen) as [-> Hw].
  assert (Z.to_nat (Z.of_nat (wanted (event s)) - 1) = (wanted (event s) - 1)%nat) as Hk by lia.
  destruct (get_pages_prep_ok (set_links h0 s) (<[ph := []]> m) n0 n1 f used ph [] mp (Z.of_nat (wanted (event s))))
    as (h1 & m1 & mp1 & E1 & V1 & Hp1 & D1 & Hm1 & Ho1 & Hcons);
    [exact Hp0|set_solver|by rewrite lookup_insert, decide_True|exact Hmp|done|by rewrite Hk|].
  rewrite Hk in *. run E1. clear E1.
  change (n1 :: take (wanted (event s) - 1) f) with extra in Hm1, Hcons |- *.
  destruct (Z.eqb_spec (Z.of_nat (base.length extra)) 0) as [Hz|_]; [subst extra; cbn in Hz; lia|].
  rewrite update_event_bind.
  set (s1 := set_event (batch_event n0 (Z.of_nat (base.length extra)) mp1 s) (set_links h1 s)).
  match goal with |- context [set_event ?e (set_event _ _)] =>
    replace (set_event e _) with s1 by (by destruct s) end.
  destruct (submit_step s1 mp1) as (r & t & mp' & fl & E2 & [_ V2] & _); [done|].
  exists h1, mp1, r, t, mp', fl. split; [done|]. split; [exact E2|]. split; [done|].
  assert (∀ n, n ∈ n0 :: extra → (n < base.length (pagesList s))%nat) as Hr.
  { intros n Hn. apply (pool_range Hp). apply elem_of_app. left. subst extra.
    rewrite !elem_of_cons in *. rewrite elem_of_take in Hn.
    destruct Hn as [|[|(? & Hn & _)]]; [auto..|]. apply list_elem_of_lookup_2 in Hn. auto. }
  run E2. split.
  - intros -> ->. cbn [Z.eqb negb]. unfold get_event. rewrite bind_assoc, gets_bind. cbn. rewrite ret_bind, gets_bind.
    destruct (consume_pages_acct_ok (submitted t mp' 0 s1) m1 left used ph (n0 :: extra)
      (vaddr (event s)) (origin (event s))) as (h' & m' & E3 & Hp3 & _);
      [exact Hp1|exact Hum|set_solver|exact Hm1|exact Hr|].
    exists h', m'. split; [|exact Hp3]. run E3. unfold mret, M_ret. f_equal.
    subst count. cbn [base.length]. do 3 f_equal. lia.
  - intros Hne. destruct (Z.eqb_spec r 0); [done|]. cbn [negb]. rewrite ret_bind.
    destruct (give_back_pages_ok (submitted t mp' fl s1) m1 left used ph (n0 :: extra))
      as (h' & m' & E3 & Hp3 & _);
      [exact Hp1|exact Hum|set_solver|exact Hm1|exact Hr|].
    exists h', m'. split; [|exact Hp3]. unfold put_pages. run E3. unfold mret, M_ret. f_equal.
    subst count. cbn [base.length]. do 3 f_equal. lia.
Qed.
End batches.

(** * Theorems *)
Section theorems.
Context `{SE : SubmitEvt}.

(** C19: with at least two free pages, and further pages that form at most 337 runs of consecutive
    PFNs (the slots of the page; a run more is written behind it), get_pages_prep takes the
    first free pages in order, submits the PFN of the
    first in the event, and run-length encodes the others in the slots of the
    shared page so that the kernel, taking any number of them, reads back
    exactly their PFNs. *)
Theorem get_pages_prep_batch s m n0 n1 f used ph held mp nr :
  pool s m (n0 :: n1 :: f) used → ph ∉ [FreeList; UsedList] →
  m !! ph = Some (NodeIulist <$> held) → has_page mp s → 1 ≤ nr →
  let extra := n1 :: take (Z.to_nat (nr - 1)) f in
  (base.length (runs (pfn_of s <$> extra)) ≤ 337)%nat →
  ∃ s' m' mp', get_pages_prep ph nr s = Ok (Z.of_nat (base.length extra)) s' ∧
    pool s' m' (drop (Z.to_nat (nr - 1)) f) used ∧
    m' !! ph = Some (NodeIulist <$> (held ++ n0 :: extra)) ∧
    paddr (event s') = pfn_of s n0 ∧ usmmem (event s') = Some mp' ∧
    batch_page mp' s extra.
Proof.
  intros Hp Hph Hm Hmp Hnr extra Hfit.
  destruct (get_pages_prep_ok s m n0 n1 f used ph held mp nr Hp Hph Hm Hmp Hnr Hfit)
    as (h & m' & mp' & E & V & Hp' & _ & Hm' & _ & Hc).
  eexists _, m', mp'. split; [exact E|]. split_and!; done.
Qed.

(** basic_alloc takes one page more than it tells the kernel of. When the
    kernel applies the whole batch, the used list grows by the first page, the
    [event->length] further pages that were announced, and one more, which no
    address of the process is mapped to. *)
Theorem basic_alloc_keeps_one_page_too_many s m n0 n1 f used mp :
  pool s m (n0 :: n1 :: f) used → has_page mp s →
  0 ≤ usedMemory s < 2 ^ 64 → 0 ≤ length (event s) < 2 ^ 31 - 1 →
  (base.length (runs (pfn_of s <$> (n1 :: take (wanted (event s) - 1) f))) ≤ 337)%nat →
  ∃ s1 r t mp' fl, usm_submit_evt s1 = Ok r (submitted t mp' fl s1) ∧
    paddr (event s1) = pfn_of s n0 ∧
    (r = 0 → fl = 0 → ∃ s' m' taken, basic_alloc s = Ok 0 s' ∧
       pool s' m' (drop (wanted (event s) - 1) f) (used ++ taken) ∧
       Z.of_nat (base.length taken) = length (event s1) + 2 ∧
       usedMemory s' = u64 (usedMemory s + 4096 * (length (event s1) + 2))).
Proof.
  intros Hp Hmp Hum Hlen Hfit.
  destruct (basic_alloc_ok s m n0 n1 f used mp Hp Hmp Hum Hlen Hfit)
    as (h & mp1 & r & t & mp' & fl & _ & E & _ & Hok & _).
  eexists _, r, t, mp', fl. split; [exact E|]. split; [done|]. intros Hr Hfl.
  destruct (Hok Hr Hfl) as (h' & m' & E' & Hp').
  eexists _, m', (n0 :: n1 :: take (wanted (event s) - 1) f). split; [exact E'|].
  split; [exact Hp'|]. cbn [base.length].
  assert (length (event (set_event (batch_event n0 (Z.of_nat (S (base.length (take (wanted (event s) - 1) f)))) mp1 s)
    (set_links h s))) = Z.of_nat (base.length (take (wanted (event s) - 1) f))) as Hl.
  { cbn. unfold u64. rewrite Z.mod_small; [lia|]. rewrite length_take.
    unfold wanted. lia. }
  rewrite Hl. split; [lia|]. simpl usedMemory. do 2 f_equal. lia.
Qed.

(** when the kernel refuses the batch, basic_alloc returns 1 and every page it
    took is free again, but the memory counter is decreased by the pages that
    were never added to it: from a daemon that uses no memory it wraps around. *)
Theorem basic_alloc_refused_underflows s m n0 n1 f used mp :
  pool s m (n0 :: n1 :: f) used → has_page mp s →
  usedMemory s = 0 → 0 ≤ length (event s) < 2 ^ 31 - 1 →
  (base.length (runs (pfn_of s <$> (n1 :: take (wanted (event s) - 1) f))) ≤ 337)%nat →
  ∃ s1 r t mp' fl, usm_submit_evt s1 = Ok r (submitted t mp' fl s1) ∧
    (r ≠ 0 → ∃ s' m' free, basic_alloc s = Ok 1 s' ∧ pool s' m' free used ∧
       free ≡ₚ n0 :: n1 :: f ∧ 2 ^ 63 ≤ usedMemory s').
Proof.
  intros Hp Hmp Hum Hlen Hfit.
  destruct (basic_alloc_ok s m n0 n1 f used mp Hp Hmp ltac:(lia) Hlen Hfit)
    as (h & mp1 & r & t & mp' & fl & _ & E & _ & _ & Hno).
  eexists _, r, t, mp', fl. split; [exact E|]. intros Hr.
  destruct (Hno Hr) as (h' & m' & E' & Hp').
  eexists _, m', _. split; [exact E'|]. split; [exact Hp'|]. split.
  - rewrite Permutation_app_comm. simpl. by rewrite take_drop.
  - simpl usedMemory. rewrite Hum. cbn [base.length]. rewrite length_take. unfold u64.
    rewrite <- (Z_mod_plus_full _ 1), Z.mod_small; unfold wanted; lia.
Qed.

(** basic_c_alloc never returns: it calls itself before anything else, so no
    depth of the stack is enough. *)
Theorem basic_c_alloc_never_returns fuel s : basic_c_alloc fuel s = OutOfFuel.
Proof.
  revert s. induction fuel as [|fuel IH]; intros s; [done|].
  cbn [basic_c_alloc]. unfold mbind, M_bind. by rewrite IH.
Qed.

(** C28: pick_pages and give_back_pages are inverse up to the order of the free
    queue: the pages that were picked come back, and the memory counter returns
    to its value. *)
Theorem pick_give_back_roundtrip s m free used ph nr :
  pool s m free used → 0 ≤ usedMemory s < 2 ^ 64 → ph ∉ [FreeList; UsedList] →
  m !! ph = Some [] → 0 ≤ nr →
  ∃ k s1 s2 m2 free2, pick_pages ph nr s = Ok k s1 ∧
    k = Z.min nr (Z.of_nat (base.length free)) ∧
    give_back_pages ph s1 = Ok tt s2 ∧ pool s2 m2 free2 used ∧ free2 ≡ₚ free ∧
    usedMemory s2 = usedMemory s ∧ m2 !! ph = Some [].
Proof.
  intros Hp Hum Hph Hm Hnr.
  destruct (pick_pages_ok s m free used ph [] nr Hp Hum Hph Hm Hnr) as (h & m1 & E1 & Hp1 & _ & Hm1 & _).
  set (taken := take (Z.to_nat nr) free) in *. rewrite app_nil_r in Hm1.
  set (s1 := set_usedMemory _ _) in E1.
  destruct (give_back_pages_ok s1 m1 (drop (Z.to_nat nr) free) used ph (reverse taken) Hp1)
    as (h2 & m2 & E2 & Hp2 & _ & Hm2 & _); [by apply Z.mod_pos_bound|done|done| |].
  { intros n Hn. apply (pool_range Hp). rewrite elem_of_reverse in Hn.
    apply elem_of_take in Hn as (i & Hn & _). apply elem_of_app. left. by eapply list_elem_of_lookup_2. }
  eexists _, s1, _, m2, _. split; [exact E1|]. split; [subst taken; rewrite length_take; lia|].
  split; [exact E2|]. split; [exact Hp2|]. split; [|split; [|done]].
  - rewrite reverse_Permutation, Permutation_app_comm. subst taken. by rewrite take_drop.
  - simpl usedMemory. rewrite length_reverse. by apply u64_cancel.
Qed.

(** the bounds test of usmEventToPage is made on 32 bits: a PFN that is 2^32
    pages above a page of the pool passes it, and freeing that PFN reads
    outside the page table. *)
Theorem event_to_page_wraps s m free used i :
  pool s m free used → 0 ≤ i < globalPagesNumber s →
  paddr (event s) = basePFN s + 2 ^ 32 + i →
  (∃ k, usmEventToPage s = Ok (Some k) s ∧ pagesList s !! k = None) ∧
  pindex_free s = Undef.
Proof.
  intros Hp Hi Hpa.
  assert (usmEventToPage s = Ok (Some (Z.to_nat (2 ^ 32 + i))) s) as E.
  { unfold usmEventToPage, usmPfnToPageIndex, get_event. rewrite !gets_bind.
    rewrite Hpa. replace (basePFN s + 2 ^ 32 + i - basePFN s) with (i + 1 * 2 ^ 32) by lia.
    unfold u32. rewrite Z_mod_plus_full, Z.mod_small by (pose proof (pool_count Hp); lia).
    destruct (Z.leb_spec (globalPagesNumber s) i); [lia|].
    destruct (Z.ltb_spec (basePFN s + 2 ^ 32 + i) (basePFN s)); [lia|].
    unfold mret, M_ret. cbn [orb]. do 3 f_equal. lia. }
  assert (pagesList s !! Z.to_nat (2 ^ 32 + i) = None) as Hn.
  { apply lookup_ge_None_2. pose proof (pool_size Hp). pose proof (pool_count Hp). lia. }
  split; [by eexists|]. unfold pindex_free. run E. apply bind_undef.
  unfold usmPageToUsedListNode, page_at. apply bind_undef. unfold reads. by rewrite Hn.
Qed.
End theorems.

(** ** Witnesses *)

(** A fault in a region with one more page. *)
Definition with_more (s : usm) : usm := set_event (with_length 1 (event s)) s.

Lemma with_more_fits s : basePFN s = 3 →
  (base.length (runs (pfn_of (with_more s) <$> (1 :: take (wanted (event (with_more s)) - 1) [2])%nat)) ≤ 337)%nat.
Proof. intros Hb. unfold pfn_of. simpl basePFN. rewrite Hb. vm_compute. lia. Qed.

(** [demo] with an empty list of a handler in its heap. *)
Lemma demo_with_list : ∃ s m ph, pool s m [0; 1; 2]%nat [] ∧ has_page blank_page s ∧
  usedMemory s = 0 ∧ basePFN s = 3 ∧ m !! ph = Some [] ∧ ph ∉ [FreeList; UsedList].
Proof.
  destruct demo_pool as (s & m & _ & Hp & Hpg & Hm & Hb & _).
  destruct (new_head_ok s m _ _ Hp) as (h & _ & _ & Hp' & _ & _).
  exists (set_links h s), (<[Local (fresh_local (links s)) := []]> m), (Local (fresh_local (links s))).
  split_and!; try done; [by rewrite lookup_insert, decide_True|set_solver].
Qed.

Lemma get_pages_prep_batch_witness :
  ∃ s ph s' m' mp', get_pages_prep ph 2 s = Ok 2 s' ∧ pool s' m' [] [] ∧ batch_page mp' s [1; 2]%nat.
Proof.
  destruct demo_with_list as (s & m & ph & Hp & Hpg & _ & Hb & Hm & Hph).
  destruct (get_pages_prep_batch s m 0 1 [2]%nat [] ph [] blank_page 2 Hp Hph Hm Hpg)
    as (s' & m' & mp' & E & Hp' & _ & _ & _ & Hbp).
  - lia.
  - unfold pfn_of. rewrite Hb. vm_compute. lia.
  - exists s, ph, s', m', mp'. split; [exact E|]. split; [exact Hp'|exact Hbp].
Defined.

Lemma basic_alloc_keeps_one_page_too_many_witness :
  ∃ s s1 r t mp' fl, s = demo ∧
    usm_submit_evt (SubmitEvt := accepting) s1 = Ok r (submitted t mp' fl s1) ∧
    paddr (event s1) = 3.
Proof.
  destruct demo_pool as (s & m & Hs & Hp & Hpg & Hm & Hb & _).
  destruct (basic_alloc_keeps_one_page_too_many (SE := accepting) (with_more s) m 0 1 [2]%nat [] blank_page Hp Hpg)
    as (s1 & r & t & mp' & fl & E & Hpa & _).
  - simpl. rewrite Hm. lia.
  - simpl. lia.
  - by apply with_more_fits.
  - exists s, s1, r, t, mp', fl. split; [exact Hs|]. split; [exact E|].
    rewrite Hpa. unfold pfn_of. simpl. by rewrite Hb.
Defined.

Lemma basic_alloc_refused_underflows_witness :
  ∃ s s1 r t mp' fl, s = demo ∧
    usm_submit_evt (SubmitEvt := refusing) s1 = Ok r (submitted t mp' fl s1) ∧
    (r ≠ 0 → ∃ s' m' free, basic_alloc (SE := refusing) (with_more s) = Ok 1 s' ∧ pool s' m' free [] ∧
       2 ^ 63 ≤ usedMemory s').
Proof.
  destruct demo_pool as (s & m & Hs & Hp & Hpg & Hm & Hb & _).
  destruct (basic_alloc_refused_underflows (SE := refusing) (with_more s) m 0 1 [2]%nat [] blank_page Hp Hpg)
    as (s1 & r & t & mp' & fl & E & H).
  - exact Hm.
  - simpl. lia.
  - by apply with_more_fits.
  - exists s, s1, r, t, mp', fl. split; [exact Hs|]. split; [exact E|]. intros Hr.
    destruct (H Hr) as (s' & m' & free & E' & Hp' & _ & Hu).
    exists s', m', free. split; [exact E'|]. split; [exact Hp'|exact Hu].
Defined.

Lemma pick_give_back_roundtrip_witness :
  ∃ s ph k s1 s2, pick_pages ph 2 s = Ok k s1 ∧ k = 2 ∧ give_back_pages ph s1 = Ok tt s2 ∧
    usedMemory s2 = 0.
Proof.
  destruct demo_with_list as (s & m & ph & Hp & _ & Hu & _ & Hm & Hph).
  destruct (pick_give_back_roundtrip s m [0; 1; 2]%nat [] ph 2 Hp)
    as (k & s1 & s2 & m2 & free2 & E1 & Hk & E2 & _ & _ & Hu2 & _).
  - rewrite Hu. lia.
  - exact Hph.
  - exact Hm.
  - lia.
  - exists s, ph, k, s1, s2. split; [exact E1|]. split; [exact Hk|]. split; [exact E2|]. congruence.
Defined.

Lemma event_to_page_wraps_witness :
  ∃ s, s = demo ∧ pindex_free (set_event (with_paddr (2 ^ 32 + 3) (event s)) s) = Undef.
Proof.
  destruct demo_pool as (s & m & Hs & Hp & _ & _ & Hb & Hn). exists s. split; [exact Hs|].
  apply (event_to_page_wraps (set_event (with_paddr (2 ^ 32 + 3) (event s)) s) m [0; 1; 2]%nat [] 0 Hp).
  - simpl. rewrite Hn. lia.
  - simpl paddr. simpl basePFN. rewrite Hb. lia.
Defined.
