(* ===== verification/PoolSpec.v ===== *)
(** The specification of the page pool and the theorems of the allocation
    policies.

    The specification is a machine on two queues of pages. [handle] is a
    request to the default policy ([alloc_policy_one]: basic_alloc_uniq and
    pindex_free); it is shown to refine the machine, so that the pages are
    always partitioned between the queues and the memory counter counts the
    used ones. *)
From stdpp Require Import prelude gmap strings.
From S2P Require Import Prelude Lists State Channel PagePool Init AllocPolicies.

Open Scope Z_scope.

(** * The abstract machine *)
Inductive request : Type :=
| Alloc (va org : Z)      (* a fault at [va] of process [org] *)
| PFree (pfn : Z).        (* the kernel freed the page [pfn] *)

(** Free pages and used pages, oldest first. *)
Definition queues : Type := list nat * list nat.

Inductive pool_step (base : Z) : queues → request → Z → queues → Prop :=
| step_alloc n f u va org :
    pool_step base (n :: f, u) (Alloc va org) 0 (f, u ++ [n])
| step_refused n f u va org r : r ≠ 0 →
    pool_step base (n :: f, u) (Alloc va org) r (n :: f, u)
| step_full u va org :
    pool_step base ([], u) (Alloc va org) 1 ([], u)
| step_free f u1 n u2 :
    pool_step base (f, u1 ++ n :: u2) (PFree (base + Z.of_nat n)) 0 (f ++ [n], u1 ++ u2).

Lemma pool_step_free_inv base f u n r q :
  pool_step base (f, u) (PFree (base + Z.of_nat n)) r q →
  r = 0 ∧ ∃ u1 u2, u = u1 ++ n :: u2 ∧ q = (f ++ [n], u1 ++ u2).
Proof.
  inversion 1 as [| | |f' u1 n' u2]; simplify_eq/=.
  assert (n' = n) as -> by lia. eauto.
Qed.

(** * The implementation *)
Section handlers.
Context `{SE : SubmitEvt}.

(** A request to the policy [alloc_policy_one]: the channel fills the event,
    the policy handles it. *)
Definition handle (q : request) : M usm Z :=
  match q with
  | Alloc va org => _ ← update_event (λ e, with_vaddr va (with_origin org e)); basic_alloc_uniq
  | PFree pfn => _ ← update_event (with_paddr pfn); pindex_free
  end.

(** The relation of the daemon's state to the queues. *)
Record represents (s : usm) (q : queues) : Prop := {
  rep_pool : ∃ m, pool s m q.1 q.2;
  rep_partition : q.1 ++ q.2 ≡ₚ seq 0 (base.length (pagesList s));
  rep_memory : usedMemory s = 4096 * Z.of_nat (base.length q.2);
  rep_size : globalPageSize s = 4096;
  rep_nodes i p : pagesList s !! i = Some p → usedListPositionPointer p = Some i;
  rep_page : ∃ mp, has_page mp s;
}.

(** The heap determines the queues. *)
Lemma pool_fun s m m' f f' u u' : pool s m f u → pool s m' f' u' → f = f' ∧ u = u'.
Proof.
  intros Hp Hp'. assert (Inj (=) (=) NodeIulist) by (intros ??; congruence).
  split; apply (inj (fmap NodeIulist)).
  - eapply (dlist_fun (links s) FreeList); eapply lists_dlist; [apply Hp| |apply Hp'|]; [apply Hp|apply Hp'].
  - eapply (dlist_fun (links s) UsedList); eapply lists_dlist; [apply Hp| |apply Hp'|]; [apply Hp|apply Hp'].
Qed.

Lemma represents_fun s q q' : represents s q → represents s q' → q = q'.
Proof.
  intros [[m Hp] _ _ _ _ _] [[m' Hp'] _ _ _ _ _]. destruct q as [f u], q' as [f' u'].
  cbn in Hp, Hp'. by destruct (pool_fun _ _ _ _ _ _ _ Hp Hp') as [-> ->].
Qed.

Lemma represents_length s q : represents s q →
  (base.length q.1 + base.length q.2 = base.length (pagesList s))%nat.
Proof.
  intros [_ Hp _ _ _ _]. apply Permutation_length in Hp. by rewrite length_app, length_seq in Hp.
Qed.

Lemma represents_memory s q : represents s q → 0 ≤ usedMemory s < 2 ^ 64.
Proof.
  intros Hr. pose proof (represents_length s q Hr). destruct Hr as [[m Hp] _ -> _ _ _].
  pose proof (pool_size Hp). pose proof (pool_base Hp). lia.
Qed.

(** The handler's view of an event does not disturb the pool. *)
Lemma represents_event s q e : represents s q → usmmem e = usmmem (event s) →
  represents (set_event e s) q.
Proof.
  intros [Hp H1 H2 H3 H4 [mp Hm]] He. split; try done.
  exists mp. destruct Hm as [Hm Hv]. split; [|done]. simpl. congruence.
Qed.

(** One allocation. *)
Lemma alloc_simulation s q va org : represents s q →
  ∃ r s' q', handle (Alloc va org) s = Ok r s' ∧
    pool_step (basePFN s) q (Alloc va org) r q' ∧ represents s' q'.
Proof.
  intros Hr. cbn [handle]. rewrite update_event_bind. set (s1 := set_event _ _).
  assert (represents s1 q) as Hr1 by (by apply represents_event).
  destruct q as [[|n f] u]; pose proof (rep_pool _ _ Hr1) as [m Hp]; simpl in Hp.
  - exists 1, s1, ([], u). split; [by apply (basic_alloc_uniq_empty s1 m u)|]. split; [constructor|done].
  - pose proof (rep_page _ _ Hr1) as [mp Hmp].
    pose proof (represents_memory _ _ Hr1) as Hum.
    pose proof (represents_length _ _ Hr1) as Hlen. cbn [fst snd base.length] in Hlen.
    destruct (basic_alloc_uniq_ok s1 m n f u mp Hp Hmp Hum)
      as (r & s' & m' & mp' & E & Hfr & Hmp' & _ & _ & _ & [(-> & Hp' & (p & Ep & Epl) & Em)|(Hne & Hp' & Epl & Em)]).
    + exists 0, s', (f, u ++ [n]). split; [exact E|]. split; [constructor|].
      pose proof (pool_size Hp). pose proof (pool_base Hp).
      destruct Hr1 as [_ Hpart Hmem Hsz Hnodes _]. split.
      * by exists m'.
      * cbn [fst snd] in *. rewrite (frame_length _ _ Hfr), <- Hpart. simpl.
        rewrite app_assoc. by rewrite <- Permutation_cons_append.
      * cbn [fst snd] in *. rewrite Em, Hmem, Hsz, length_app. cbn [base.length].
        unfold u64. rewrite Z.mod_small by lia. lia.
      * by rewrite (frame_size _ _ Hfr).
      * intros i p' Hi. rewrite Epl in Hi.
        apply list_lookup_insert_Some in Hi as [(<- & <- & _)|[_ Hi]]; [|by apply Hnodes].
        simpl. by apply Hnodes.
      * by exists mp'.
    + exists r, s', (n :: f, u). split; [exact E|]. split; [by constructor|].
      destruct Hr1 as [_ Hpart Hmem Hsz Hnodes _]. split.
      * by exists m'.
      * by rewrite Epl.
      * by rewrite Em.
      * by rewrite (frame_size _ _ Hfr).
      * rewrite Epl. apply Hnodes.
      * by exists mp'.
Qed.

(** One page freed by the kernel: the page has to be a used one. *)
Lemma free_simulation s f u n : represents s (f, u) → n ∈ u →
  ∃ s' q', handle (PFree (pfn_of s n)) s = Ok 0 s' ∧
    pool_step (basePFN s) (f, u) (PFree (pfn_of s n)) 0 q' ∧ represents s' q'.
Proof.
  intros Hr Hn. cbn [handle]. rewrite update_event_bind. set (s1 := set_event _ _).
  assert (represents s1 (f, u)) as Hr1 by (by apply represents_event).
  apply list_elem_of_split in Hn as (u1 & u2 & ->).
  pose proof (rep_pool _ _ Hr1) as [m Hp]. cbn [fst snd] in Hp.
  destruct (pool_lookup _ _ _ _ Hp n) as (p & Ep & _ & _ & _); [set_solver|].
  pose proof (rep_nodes _ _ Hr1 n p Ep) as Hn.
  pose proof (represents_length _ _ Hr1) as Hlen. cbn [fst snd base.length] in Hlen.
  destruct (pindex_free_ok s1 m f u1 n u2 p Hp eq_refl Ep Hn)
    as (s' & m' & E & Hfr & Eev & _ & Hp' & Epl & Em & _).
  exists s', (f ++ [n], u1 ++ u2). split; [exact E|]. split; [constructor|].
  pose proof (pool_size Hp). pose proof (pool_base Hp).
  destruct Hr1 as [_ Hpart Hmem Hsz Hnodes [mp Hmp]]. split.
  - by exists m'.
  - cbn [fst snd] in *. rewrite (frame_length _ _ Hfr), <- Hpart.
    rewrite <- app_assoc. by rewrite <- Permutation_middle.
  - cbn [fst snd] in *. rewrite Em, Hmem. rewrite !length_app in *. cbn [base.length] in *.
    unfold u64. rewrite Z.mod_small by lia. lia.
  - by rewrite (frame_size _ _ Hfr).
  - intros i p' Hi. rewrite Epl in Hi.
    apply list_lookup_insert_Some in Hi as [(<- & <- & _)|[_ Hi]]; [done|by apply Hnodes].
  - exists mp. by rewrite <- Eev in Hmp || (destruct Hmp as [Hm Hv]; split; [by rewrite Eev|done]).
Qed.
End handlers.

Lemma demo_represents : represents demo ([0; 1; 2]%nat, []).
Proof.
  destruct demo_ok as (s & m & -> & Hp & Hm & Hb & Hn & _ & Hpg & _).
  pose proof (pool_size Hp) as Hsz. rewrite Hn in Hsz.
  split; cbn [fst snd].
  - by exists m.
  - simpl pagesList. by replace (base.length (pagesList s)) with 3%nat by lia.
  - done.
  - done.
  - intros i p Hi. by apply (Hpg i p).
  - exists blank_page. split; [done|apply blank_page_valid].
Qed.

(** * Theorems *)

(** When a request may arrive: a fault always, a free only for the PFN of a page in the used queue.
    The kernel frees what it had mapped. The daemon itself does not check it: the PFN of a
    page that is free already makes [usedMemory] wrap around, a PFN outside of the pool gives the
    result 1, and one that is 2^32 pages above the pool is a wild access
    ([event_to_page_wraps]). *)
Definition enabled (s : usm) (q : request) : Prop :=
  match q with
  | Alloc _ _ => True
  | PFree pfn => ∃ f u n, represents s (f, u) ∧ n ∈ u ∧ pfn = pfn_of s n
  end.

Section theorems.
Context `{SE : SubmitEvt}.

Lemma handle_simulation s q req : represents s q → enabled s req →
  ∃ r s' q', handle req s = Ok r s' ∧ pool_step (basePFN s) q req r q' ∧ represents s' q'.
Proof.
  intros Hr He. destruct req as [va org|pfn]; [by apply alloc_simulation|].
  destruct He as (f & u & n & Hr' & Hn & ->).
  rewrite (represents_fun _ _ _ Hr Hr').
  destruct (free_simulation s f u n Hr' Hn) as (s' & q' & H). by exists 0, s', q'.
Qed.

(** C2: the default allocation policy refines the machine on queues: every fault, and every free of
    the PFN of a page in the used queue ([enabled]; the daemon does not check this, and other
    frees are not covered), is handled without undefined behaviour, returns what the
    machine returns, and leaves a state that represents the machine's next
    state. An allocation takes the oldest free page, a refused one puts it back
    in front, a freed page goes to the end of the free queue. *)
Theorem pool_refinement s q req : represents s q → enabled s req →
  ∃ r s' q', handle req s = Ok r s' ∧ pool_step (basePFN s) q req r q' ∧ represents s' q'.
Proof. apply handle_simulation. Qed.

(** States that sequences of requests reach from [s0]. *)
Inductive reachable (s0 : usm) : usm → Prop :=
| reach_start : reachable s0 s0
| reach_handle s req r s' :
    reachable s0 s → enabled s req → handle req s = Ok r s' → reachable s0 s'.

(** C20: whatever sequence of faults and of frees of used pages ([enabled] at the time of
    the request) the default policy serves, no page is lost or
    duplicated (every page is in exactly one of the two queues) and the
    counter [usedMemory] is the number of used pages times the page size. *)
Theorem pool_invariant s0 s q0 : represents s0 q0 → reachable s0 s →
  ∃ f u, represents s (f, u) ∧ NoDup (f ++ u) ∧
    (∀ n, (n < base.length (pagesList s))%nat ↔ n ∈ f ∨ n ∈ u) ∧
    usedMemory s = 4096 * Z.of_nat (base.length u).
Proof.
  intros H0 Hreach.
  assert (∃ q, represents s q) as [[f u] Hr].
  { induction Hreach as [|s req r s' _ [q Hq] Hen Hh]; [by eexists|].
    destruct (handle_simulation s q req Hq Hen) as (r' & s'' & q' & Hh' & _ & Hr').
    assert (s'' = s') as -> by congruence. by eexists. }
  exists f, u. split; [done|]. destruct Hr as [_ Hp Hm _ _ _]. cbn [fst snd] in *.
  split_and!; [by rewrite Hp; apply NoDup_seq| |done].
  intros n. rewrite <- elem_of_app, Hp, elem_of_seq. lia.
Qed.

(** C21: a served fault is backed by a page that was free, whose PFN is submitted
    to the kernel, and which records the address and the process; freeing that
    PFN brings the page back, zeroed, and the memory counter to its old value. *)
Theorem alloc_free_roundtrip s n f u va org s1 : represents s (n :: f, u) →
  handle (Alloc va org) s = Ok 0 s1 →
  paddr (event s1) = pfn_of s n ∧
  (∃ p, pagesList s1 !! n = Some p ∧ virtualAddress p = va ∧ process p = org) ∧
  ∃ s2, handle (PFree (paddr (event s1))) s1 = Ok 0 s2 ∧ represents s2 (f ++ [n], u) ∧
    usedMemory s2 = usedMemory s ∧
    ∃ p, pagesList s2 !! n = Some p ∧ data p = replicate 4096 0 ∧ virtualAddress p = 0.
Proof.
  intros Hr Hh.
  destruct (alloc_simulation s _ va org Hr) as (r & s1' & q' & Hh' & Hst & Hr1).
  assert (r = 0 ∧ s1' = s1) as [-> ->] by (split; congruence).
  assert (q' = (f, u ++ [n])) as -> by (inversion Hst; subst; done). clear Hh' Hst.
  cbn [handle] in Hh. rewrite update_event_bind in Hh.
  match type of Hh with basic_alloc_uniq ?x = _ => set (s0 := x) in * end.
  assert (represents s0 (n :: f, u)) as Hr0 by (by apply represents_event).
  pose proof (rep_pool _ _ Hr0) as [m Hp]. pose proof (rep_page _ _ Hr0) as [mp Hmp].
  pose proof (represents_memory _ _ Hr0) as Hum. cbn [fst snd] in Hp.
  destruct (basic_alloc_uniq_ok s0 m n f u mp Hp Hmp Hum)
    as (r & s' & m' & mp' & E & Hfr & _ & Epa & _ & _ & Hcases).
  assert (r = 0 ∧ s' = s1) as [-> ->] by (split; congruence).
  destruct Hcases as [(_ & _ & (p & Ep & Epl) & _)|(Hne & _)]; [|done].
  assert (n < base.length (pagesList s0))%nat as Hlt by (by eapply lookup_lt_Some).
  split; [exact Epa|]. split.
  { eexists. rewrite Epl, list_lookup_insert_eq by done. split; [done|done]. }
  assert (n ∉ u) as Hnu.
  { pose proof (pool_NoDup _ _ _ _ Hp) as [Hnd _]%NoDup_cons. set_solver. }
  assert (pfn_of s n = pfn_of s1 n) as Hpfn by (unfold pfn_of; by rewrite (frame_base _ _ Hfr)).
  rewrite Epa. change (pfn_of s0 n) with (pfn_of s n). rewrite Hpfn.
  destruct (free_simulation s1 f (u ++ [n]) n Hr1) as (s2 & q2 & E2 & Hst2 & Hr2); [set_solver|].
  assert (q2 = (f ++ [n], u)) as ->.
  { destruct (pool_step_free_inv _ _ _ _ _ _ Hst2) as (_ & u1 & u2 & Hq & ->). symmetry in Hq.
    assert (u2 = []) as ->.
    { destruct u2 as [|x u2 _] using rev_ind; [done|].
      rewrite app_comm_cons, app_assoc in Hq. apply app_inj_tail in Hq as [Hq _].
      destruct Hnu. rewrite <- Hq. set_solver. }
    apply app_inj_tail in Hq as [-> _]. by rewrite app_nil_r. }
  exists s2. split; [exact E2|]. split; [done|]. split.
  { rewrite (rep_memory _ _ Hr2). by rewrite (rep_memory _ _ Hr). }
  cbn [handle] in E2. rewrite update_event_bind in E2.
  match type of E2 with pindex_free ?x = _ => set (s1e := x) in * end.
  assert (represents s1e (f, u ++ [n])) as Hr1e by (by apply represents_event).
  pose proof (rep_pool _ _ Hr1e) as [m1 Hp1]. cbn [fst snd] in Hp1.
  destruct (pool_lookup _ _ _ _ Hp1 n) as (p1 & Ep1 & _); [set_solver|].
  destruct (pindex_free_ok s1e m1 f u n [] p1 Hp1 eq_refl Ep1 (rep_nodes _ _ Hr1e n p1 Ep1))
    as (s2' & m2 & E2' & _ & _ & _ & _ & Epl2 & _).
  assert (s2' = s2) as -> by congruence.
  eexists. rewrite Epl2, list_lookup_insert_eq by (by eapply lookup_lt_Some). done.
Qed.
End theorems.

(** ** Witnesses *)
Lemma pool_refinement_witness :
  ∃ r s' q', handle (SE := refusing) (Alloc 0x7000 1) demo = Ok r s' ∧
    pool_step 3 ([0; 1; 2]%nat, []) (Alloc 0x7000 1) r q' ∧ represents s' q' ∧ r = 7.
Proof.
  destruct (pool_refinement (SE := refusing) demo ([0; 1; 2]%nat, []) (Alloc 0x7000 1)
    demo_represents I) as (r & s' & q' & E & Hst & Hr).
  exists r, s', q'. split; [exact E|]. split; [exact Hst|]. split; [exact Hr|].
  assert (match handle (SE := refusing) (Alloc 0x7000 1) demo with Ok r _ => r | _ => 0 end = 7)
    as Hres by (vm_compute; reflexivity).
  rewrite E in Hres. exact Hres.
Defined.

(** The state of [demo] after a fault of process 1. *)
Definition demo1 : usm :=
  match handle (SE := accepting) (Alloc 0x7000 1) demo with Ok _ s => s | _ => demo end.

Lemma pool_invariant_witness : ∃ f u, represents demo1 (f, u) ∧ usedMemory demo1 = 4096.
Proof.
  destruct (pool_invariant (SE := accepting) demo demo1 ([0; 1; 2]%nat, []) demo_represents)
    as (f & u & Hr & _).
  { apply (reach_handle (SE := accepting) demo demo (Alloc 0x7000 1) 0 demo1).
    - apply reach_start.
    - exact I.
    - vm_compute. reflexivity. }
  exists f, u. split; [exact Hr|]. vm_compute. reflexivity.
Defined.

Lemma alloc_free_roundtrip_witness :
  ∃ s2, handle (SE := accepting) (PFree 3) demo1 = Ok 0 s2 ∧ represents s2 ([1; 2; 0]%nat, []).
Proof.
  destruct (alloc_free_roundtrip (SE := accepting) demo 0 [1; 2]%nat [] 0x7000 1 demo1 demo_represents)
    as (_ & _ & s2 & E & Hr & _).
  { vm_compute. reflexivity. }
  exists s2. split; [exact E|exact Hr].
Defined.
