(* ===== verification/Swap.v ===== *)
(** Eviction and swap-in: include/policies/evict/swap.h, swap_dev.h,
    impl/policies/evict/swap.c and examples/project-2/evict/src/policiesSet1.c.

    A page is evicted by taking its node off the used list, writing the frame to
    the swap file at the offset of a free swap node and replacing the page
    table entry by an encoding of the node; a fault on that entry brings the
    node back ([event_to_swap_entry]) and the frame is read again. The only swap
    device is [swap_device_one], so the pointers to the device are implicit. *)
From stdpp Require Import prelude gmap strings.
From S2P Require Import Prelude Lists State Channel PagePool.

Open Scope Z_scope.

(** * The swap entry *)

(** [swap_value]: the index of the swap node in bits 9 and up, the number of the
    device in bits 59 and up; bits 0 (present) and 8 are cleared. [offset] is an
    [off_t], so the shifts are on a signed 64-bit value. *)
Definition s64 (x : Z) : Z :=
  let y := u64 x in if y <? 2 ^ 63 then y else y - 2 ^ 64.
Definition swap_entry (offset number : Z) : Z :=
  let v := Z.lor (Z.shiftr (s64 (Z.shiftl (offset `quot` 4096) (9 + 5))) 5)
                 (u64 (Z.shiftl number (64 - 5))) in
  Z.land (Z.land (u64 v) (u64 (Z.lnot (Z.shiftl 1 0)))) (u64 (Z.lnot (Z.shiftl 1 8))).

(** What [event_to_swap_entry] computes from [event->offst]. *)
Definition entry_device (offst : Z) : Z := Z.shiftr offst (64 - 5).
Definition entry_index (offst : Z) : Z := Z.shiftr (u64 (Z.shiftl offst 5)) (5 + 9) `div` 4096.

(** The channel scales the entry it gets from the kernel by the page size. *)
Definition entry_offst (entry : Z) : Z := u64 (entry * SYS_PAGE_SIZE).

(** * Structures *)
Section swap.
Context `{K : Kernel} `{SE : SubmitEvt}.

Definition to_swap_at (t : nat) : M usm to_swap := reads (λ s, toSwaps s !! t).
Definition update_to_swap (t : nat) (f : to_swap → to_swap) : M usm unit :=
  updates (λ s, v ← toSwaps s !! t; Some (set_toSwaps (<[t := f v]> (toSwaps s)) s)).

(** [malloc(sizeof(struct to_swap))]: the fields are indeterminate; only
    [retaken] is ever read before it is written. *)
Definition fresh_to_swap (s : usm) : nat :=
  map_fold (λ t _ k, Nat.max (S t) k) O (toSwaps s).
Definition new_to_swap : M usm nat := λ s,
  let t := fresh_to_swap s in
  Ok t (set_clock (S (clock s))
         (set_toSwaps (<[t := ToSwap None 0 None 0 (malloc_value (clock s))]> (toSwaps s))
           (set_links (<[ToSwapIulist t := ListHead NULL NULL]>
             (<[ToSwapGloblist t := ListHead NULL NULL]> (links s))) s))).
(** [free]: pointers to the structure and links to its list heads dangle. *)
Definition free_to_swap (t : nat) : M usm unit :=
  modify (λ s, set_toSwaps (delete t (toSwaps s))
    (set_links (delete (ToSwapIulist t) (delete (ToSwapGloblist t) (links s))) s)).

Definition swap_node_at (j : nat) : M usm swap_node :=
  reads (λ s, swap_nodes (swap_device_one s) !! j).
Definition set_swap_nodes (l : list swap_node) (s : usm) : usm :=
  set_swap_device (SwapDev (sd_number (swap_device_one s)) (backend (swap_device_one s)) l) s.
Definition set_backend (b : gmap Z (list Z)) (s : usm) : usm :=
  set_swap_device (SwapDev (sd_number (swap_device_one s)) b (swap_nodes (swap_device_one s))) s.
Definition update_swap_node (j : nat) (f : swap_node → swap_node) : M usm unit :=
  updates (λ s, v ← swap_nodes (swap_device_one s) !! j;
                Some (set_swap_nodes (<[j := f v]> (swap_nodes (swap_device_one s))) s)).

Definition swappedMemory_add (d : Z) : M usm unit :=
  modify (λ s, set_swappedMemory (u64 (swappedMemory s + d)) s).

Definition file_call : M usm bool := t ← tick; mret (file_ok t).

(** A pointer field that the code dereferences without a test. *)
Definition deref {A} (x : option A) : M usm A :=
  match x with Some a => mret a | None => undef end.

(** * swap.h and swap.c *)
Definition swap_value (t : nat) : M usm Z :=
  v ← to_swap_at t;
  j ← deref (snode v);
  sn ← swap_node_at j;
  number ← gets (λ s, sd_number (swap_device_one s));
  mret (swap_entry (sn_offset sn) number).

(** [deviceNumberToSwapDevice] answers [swap_device_one] to every number. *)
Definition event_to_swap_entry : M usm (option nat) :=
  e ← get_event;
  sn ← swap_node_at (Z.to_nat (entry_index (offst e)));
  mret (toSwapHolder sn).

Definition usmAddProcSwapNode (t : nat) : M usm unit :=
  v ← to_swap_at t;
  list_op (list_add (ToSwapIulist t) (ProcSwapList (ts_proc v))).

Definition usmHoldProcSwapNode (t : nat) : M usm unit :=
  list_op (list_del (ToSwapIulist t)).

(** The test of the loop of [trySwapCache]. *)
Definition cached_at_vaddr (x : loc) (s : usm) : option bool :=
  match x with
  | ToSwapIulist t => v ← toSwaps s !! t; Some (swapped_address v =? vaddr (event s))
  | _ => None
  end.

Definition trySwapCache : M usm Z :=
  e ← get_event;
  b ← list_is_empty (ProcSwapCache (origin e));
  if (b : bool) then mret 0
  else
    x ← for_each_find cached_at_vaddr (ProcSwapCache (origin e));
    if decide (x = ProcSwapCache (origin e)) then mret 0
    else
      t ← to_swap_of_iulist x;
      _ ← update_to_swap t (λ v, ToSwap (ts_page v) (swapped_address v) (snode v) (ts_proc v) 1);
      v ← to_swap_at t;
      i ← deref (ts_page v);
      p ← page_at i;
      _ ← update_event (with_paddr (physicalAddress p));
      _ ← usm_submit_evt;
      mret 1.

(** One iteration of the loop of [init_swap_device_nodes]. *)
Definition init_swap_node (itr : nat) : M usm unit :=
  _ ← update_swap_node itr (λ v, SwapNode (Z.of_nat itr * SYS_PAGE_SIZE) (toSwapHolder v));
  _ ← list_op (INIT_LIST_HEAD (SnodeIulist itr));
  list_op (list_add (SnodeIulist itr) DevFreeList).

Fixpoint init_swap_nodes (itr k : nat) : M usm unit :=
  match k with
  | O => mret tt
  | S k => _ ← init_swap_node itr; init_swap_nodes (S itr) k
  end.

(** The heads and the array of nodes; [k] nodes of [malloc]ed memory. *)
Fixpoint new_swap_cells (k : nat) (h : heap loc) : heap loc :=
  match k with
  | O => h
  | S k => <[SnodeIulist k := ListHead NULL NULL]> (new_swap_cells k h)
  end.

Definition init_swap_device_nodes (size : Z) : M usm Z :=
  _ ← modify (λ s, set_links (<[DevSwapList := ListHead NULL NULL]>
                     (<[DevFreeList := ListHead NULL NULL]> (links s))) s);
  _ ← list_op (INIT_LIST_HEAD DevSwapList);
  _ ← list_op (INIT_LIST_HEAD DevFreeList);
  if negb (size `mod` SYS_PAGE_SIZE =? 0) || (2 ^ 61 <? size) then mret 1
  else
    let k := Z.to_nat (size `div` SYS_PAGE_SIZE) in
    _ ← modify (λ s, set_links (new_swap_cells k (links s))
                       (set_swap_nodes (replicate k (SwapNode 0 None)) s));
    _ ← init_swap_nodes 0 k;
    mret 0.

(** * evict/src/policiesSet1.c *)
Definition getSwapNode : M usm (option loc) :=
  e ← list_is_empty DevFreeList;
  if (e : bool) then mret None
  else
    x ← next_of DevFreeList;
    _ ← list_op (list_del x);
    mret (Some x).

Definition putSwapNode (x : loc) : M usm unit := list_op (list_add_tail x DevFreeList).

(** [restore_used_page] and [hold_used_page], as the setup binds them. *)
Definition restore_used_page := give_back_page_used.
Definition hold_used_page := hold_used_page_commit.

(** [((struct optEludeList * )page->usedListPositionPointer)] *)
Definition page_node_of (i : nat) : M usm nat :=
  p ← page_at i; deref (usedListPositionPointer p).

(** The error paths of [swap_out] after the entry was replaced. *)
Definition swap_out_undo (t i j : nat) : M usm Z :=
  v ← to_swap_at t;
  p ← page_at i;
  _ ← usm_set_pfn (ts_proc v) (swapped_address v) (physicalAddress p);
  n ← page_node_of i;
  _ ← restore_used_page (NodeIulist n);
  _ ← putSwapNode (SnodeIulist j);
  mret 1.

(** The end of [swap_out], once the frame is written and the entry has left the
    swap cache. *)
Definition swap_out_finish (t i j : nat) : M usm Z :=
  v ← to_swap_at t;
  if retaken v =? 0 then
    _ ← usmAddProcSwapNode t;
    _ ← list_op (list_add (ToSwapGloblist t) SwapList);
    _ ← swappedMemory_add SYS_PAGE_SIZE;
    n ← page_node_of i;
    _ ← list_op (list_add (NodeIulist n) FreeList);
    _ ← usedMemory_sub SYS_PAGE_SIZE;
    mret 0
  else
    _ ← putSwapNode (SnodeIulist j); mret 0.

(** Writing the frame, once the page table entry is replaced. *)
Definition swap_out_write (t i j : nat) : M usm Z :=
  seek ← file_call;
  if negb seek then swap_out_undo t i j
  else
    sn ← swap_node_at j;
    p ← page_at i;
    wrote ← file_call;
    if negb wrote then swap_out_undo t i j
    else
      _ ← modify (λ s, set_backend (<[sn_offset sn := data p]> (backend (swap_device_one s))) s);
      _ ← list_op (__list_del_entry (ToSwapIulist t));
      swap_out_finish t i j.

Definition swap_out (t : nat) : M usm Z :=
  v ← to_swap_at t;
  _ ← list_op (list_add (ToSwapIulist t) (ProcSwapCache (ts_proc v)));
  sv ← swap_value t;
  r ← usm_clear_and_set (ts_proc v) (swapped_address v) sv;
  j ← deref (snode v);
  if negb (r =? 0) then
    _ ← putSwapNode (SnodeIulist j); mret 1
  else
    i ← deref (ts_page v);
    swap_out_write t i j.

(** The local head of [swap_in] dies on every return. *)
Definition swap_in (t : nat) : M usm Z :=
  v ← to_swap_at t;
  j ← deref (snode v);
  sn ← swap_node_at j;
  seek ← file_call;
  if negb seek then mret 1
  else
    head ← new_list_head;
    _ ← list_op (INIT_LIST_HEAD head);
    got ← pick_pages head 1;
    if got =? 0 then _ ← drop_list_head head; mret 1
    else
      x ← next_of head;
      n ← node_of_iulist x;
      i ← usmPage_of n;
      content ← gets (λ s, backend (swap_device_one s) !! sn_offset sn);
      read ← file_call;
      match content, read with
      | Some c, true =>
          _ ← update_page i (page_data c);
          _ ← usmSetUsedListNode i n;
          _ ← update_to_swap t (λ v, ToSwap (Some i) (swapped_address v) (snode v) (ts_proc v) (retaken v));
          _ ← drop_list_head head;
          mret 0
      | _, _ =>
          _ ← put_pages head;
          _ ← list_op (list_add (ToSwapGloblist t) SwapList);
          _ ← drop_list_head head;
          mret 1
      end.

Definition delete_swap_entry (t : nat) : M usm unit :=
  _ ← list_op (list_del (ToSwapIulist t));
  list_op (list_del (ToSwapGloblist t)).

(** The end of [basic_swap], once the event was submitted with the result [r]. *)
Definition basic_swap_end (t : nat) (v : to_swap) (i : nat) (r : Z) : M usm Z :=
  n ← page_node_of i;
  if negb (r =? 0) then
    _ ← put_pages (NodeIulist n);
    _ ← list_op (list_add (ToSwapGloblist t) SwapList);
    mret 1
  else
    _ ← update_page i (page_vaddr (swapped_address v));
    _ ← update_page i (page_process (ts_proc v));
    _ ← restore_used_page (NodeIulist n);
    j ← deref (snode v);
    _ ← putSwapNode (SnodeIulist j);
    _ ← free_to_swap t;
    mret 0.

Definition basic_swap : M usm Z :=
  neededNode ← event_to_swap_entry;
  t ← deref neededNode;
  r ← swap_in t;
  if negb (r =? 0) then mret 1
  else
    v ← to_swap_at t;
    i ← deref (ts_page v);
    p ← page_at i;
    _ ← update_event (with_paddr (physicalAddress p));
    r ← usm_submit_evt;
    basic_swap_end t v i r.

(** [list_entry(&procDescList[...].swapList, ...)] is the head itself, not an
    element: using it as a [to_swap] is a wild access. *)
Definition double_swap : M usm Z :=
  r ← basic_swap;
  if r =? 0 then mret 0
  else
    e ← get_event;
    b ← list_is_empty (ProcSwapList (origin e));
    if (b : bool) then mret 1 else undef.

(** Filling a [to_swap] for the page of [victim] and a swap node for it. A null
    result of [getSwapNode] is used without a test. *)
Definition prepare_victim (t victim : nat) : M usm unit :=
  i ← usmPage_of victim;
  p ← page_at i;
  _ ← update_to_swap t (λ v, ToSwap (Some i) (virtualAddress p) (snode v) (process p) (retaken v));
  x ← getSwapNode;
  x ← deref x;
  j ← swap_node_of_iulist x;
  _ ← update_to_swap t (λ v, ToSwap (ts_page v) (swapped_address v) (Some j) (ts_proc v) (retaken v));
  update_swap_node j (λ sn, SwapNode (sn_offset sn) (Some t)).

Definition handle_evict_request : M usm unit :=
  toSwapNode ← new_to_swap;
  e ← list_is_empty UsedList;
  if (e : bool) then mret tt
  else
    x ← next_of UsedList;
    victim ← node_of_iulist x;
    _ ← hold_used_page (NodeIulist victim);
    i ← gets (λ s, usmPage s !! victim);
    dead ← usmCheckPageAlive i;
    if negb (dead =? 0) then
      _ ← list_op (list_add (NodeIulist victim) FreeList);
      usedMemory_sub SYS_PAGE_SIZE
    else
      _ ← prepare_victim toSwapNode victim;
      _ ← swap_out toSwapNode;
      mret tt.

(** ** Batches *)
Definition swapper_routine_out_commit (toSwapList : loc) : M usm unit :=
  for_each_safe (λ _ pos,
    t ← to_swap_of_iulist pos;
    _ ← swap_out t;
    mret tt) toSwapList tt.

Definition swapper_routine_in_commit (toSwapList : loc) : M usm unit :=
  for_each_safe (λ _ pos,
    t ← to_swap_of_iulist pos;
    _ ← list_op (list_del pos);
    _ ← swap_in t;
    mret tt) toSwapList tt.

(** One test and iteration of the loop of [swap_out_list_and_commit]. *)
Definition swap_out_list_body (toSwapOutList : loc) (nr : Z) : M usm (Z + unit) :=
  if negb (0 <? nr) then mret (inr tt)
  else
    t ← new_to_swap;
    e ← list_is_empty UsedList;
    if (e : bool) then mret (inr tt)
    else
      x ← next_of UsedList;
      victim ← node_of_iulist x;
      _ ← list_op (list_del (NodeIulist victim));
      _ ← prepare_victim t victim;
      _ ← list_op (list_add (ToSwapIulist t) toSwapOutList);
      mret (inl (nr - 1)).

Definition swap_out_list_and_commit (nr : Z) : M usm unit :=
  head ← new_list_head;
  _ ← list_op (INIT_LIST_HEAD head);
  _ ← loop (S (Z.to_nat nr)) (swap_out_list_body head) nr;
  _ ← swapper_routine_out_commit head;
  drop_list_head head.

(** A thread that waits for a mutex it holds. *)
Definition deadlock {A} : M usm A := λ _, OutOfFuel.

(** [policiesSet1Swaplock] is taken at the head of the loop and again before the
    entry is removed. *)
Definition swap_in_list_and_commit (nr : Z) : M usm unit :=
  head ← new_list_head;
  _ ← list_op (INIT_LIST_HEAD head);
  _ ← (if negb (0 <? nr) then mret tt
       else
         e ← list_is_empty SwapList;
         if (e : bool) then mret tt
         else
           x ← next_of SwapList;
           match x with
           | ToSwapGloblist t => _ ← usmHoldProcSwapNode t; deadlock
           | _ => undef
           end);
  _ ← swapper_routine_in_commit head;
  drop_list_head head.
End swap.

(** * The encoding of swap entries *)
Lemma shiftl_small x n k : 0 ≤ n → 0 ≤ x < 2 ^ k → Z.shiftl x n = x * 2 ^ n.
Proof. intros. by apply Z.shiftl_mul_pow2. Qed.

Lemma lor_disjoint a b k : 0 ≤ k → 0 ≤ a < 2 ^ k → 0 ≤ b →
  Z.lor a (b * 2 ^ k) = a + b * 2 ^ k.
Proof.
  intros Hk Ha Hb. assert (Z.land a (b * 2 ^ k) = 0) as H0.
  { apply Z.bits_inj'. intros n Hn. rewrite Z.land_spec, Z.bits_0.
    destruct (Z_lt_ge_dec n k) as [Hlt|Hge].
    - by rewrite Z.mul_pow2_bits_low, andb_false_r by lia.
    - rewrite <- (Z.mod_small a (2 ^ k)) by done.
      by rewrite Z.mod_pow2_bits_high by lia. }
  rewrite <- Z.lxor_lor by done. symmetry. by apply Z.add_nocarry_lxor.
Qed.

Lemma land_clear_low v k : 0 ≤ v < 2 ^ 64 → 0 ≤ k < 9 → v `mod` 512 = 0 →
  Z.land v (u64 (Z.lnot (Z.shiftl 1 k))) = v.
Proof.
  intros Hv Hk Hm. apply Z.bits_inj'. intros n Hn. rewrite Z.land_spec.
  destruct (Z.testbit v n) eqn:Hb; [|done]. simpl. unfold u64.
  assert (n < 64).
  { destruct (Z_lt_ge_dec n 64); [done|]. rewrite <- (Z.mod_small v (2 ^ 64)) in Hb by done.
    by rewrite Z.mod_pow2_bits_high in Hb by lia. }
  rewrite Z.mod_pow2_bits_low, Z.lnot_spec, Z.shiftl_1_l, Z.pow2_bits_eqb by lia.
  destruct (Z.eqb_spec k n) as [->|]; [|done].
  assert (Z.testbit (v `mod` 2 ^ 9) n = true) as Hc by (by rewrite Z.mod_pow2_bits_low by lia).
  change (2 ^ 9) with 512 in Hc. rewrite Hm, Z.bits_0 in Hc. done.
Qed.

Lemma swap_entry_eq idx number : 0 ≤ idx < 2 ^ 38 → 0 ≤ number < 32 →
  swap_entry (idx * 4096) number = idx * 2 ^ 9 + number * 2 ^ 59.
Proof.
  intros Hi Hn. unfold swap_entry. rewrite Z.quot_mul by lia.
  rewrite (Z.shiftl_mul_pow2 idx), (Z.shiftl_mul_pow2 number) by lia.
  assert (s64 (idx * 2 ^ (9 + 5)) = idx * 2 ^ 14) as ->.
  { unfold s64, u64. change (9 + 5) with 14. rewrite Z.mod_small by lia.
    destruct (Z.ltb_spec (idx * 2 ^ 14) (2 ^ 63)); lia. }
  rewrite Z.shiftr_div_pow2 by lia.
  replace (idx * 2 ^ 14) with (idx * 2 ^ 9 * 2 ^ 5) by lia. rewrite Z.div_mul by lia.
  change (64 - 5) with 59. unfold u64 at 2. rewrite (Z.mod_small (number * 2 ^ 59)) by lia.
  rewrite lor_disjoint by lia. unfold u64 at 1. rewrite Z.mod_small by lia.
  assert ((idx * 2 ^ 9 + number * 2 ^ 59) `mod` 512 = 0) as Hm.
  { replace (idx * 2 ^ 9 + number * 2 ^ 59) with ((idx + number * 2 ^ 50) * 512) by lia.
    apply Z.mod_mul. lia. }
  rewrite (land_clear_low _ 0) by lia. by rewrite (land_clear_low _ 8) by lia.
Qed.

Lemma entry_roundtrip idx number : 0 ≤ idx < 2 ^ 38 → 0 ≤ number < 32 →
  entry_index (entry_offst (swap_entry (idx * 4096) number)) = idx ∧
  entry_device (entry_offst (swap_entry (idx * 4096) number)) = 0.
Proof.
  intros Hi Hn. rewrite swap_entry_eq by done. unfold entry_offst, SYS_PAGE_SIZE, u64.
  replace ((idx * 2 ^ 9 + number * 2 ^ 59) * 4096) with (idx * 2 ^ 21 + number * 2 ^ 7 * 2 ^ 64) by lia.
  rewrite Z_mod_plus_full, Z.mod_small by lia. split.
  - unfold entry_index, u64. rewrite Z.shiftl_mul_pow2 by lia. rewrite Z.mod_small by lia.
    change (5 + 9) with 14. rewrite Z.shiftr_div_pow2 by lia.
    replace (idx * 2 ^ 21 * 2 ^ 5) with (idx * 4096 * 2 ^ 14) by lia.
    rewrite !Z.div_mul by lia. done.
  - unfold entry_device. change (64 - 5) with 59. rewrite Z.shiftr_div_pow2 by lia.
    apply Z.div_small. lia.
Qed.

(** * Lemmas on the structures *)
Section swap_lemmas.
Context `{K : Kernel} `{SE : SubmitEvt}.

Lemma to_swap_at_bind {B} t (k : to_swap → M usm B) s v :
  toSwaps s !! t = Some v → (to_swap_at t ≫= k) s = k v s.
Proof. intros H. by apply reads_bind. Qed.

Lemma update_to_swap_bind {B} t f (k : unit → M usm B) s v :
  toSwaps s !! t = Some v →
  (update_to_swap t f ≫= k) s = k tt (set_toSwaps (<[t := f v]> (toSwaps s)) s).
Proof. intros H. unfold update_to_swap. apply updates_bind. by rewrite H. Qed.

Lemma swap_node_at_bind {B} j (k : swap_node → M usm B) s v :
  swap_nodes (swap_device_one s) !! j = Some v → (swap_node_at j ≫= k) s = k v s.
Proof. intros H. by apply reads_bind. Qed.

Lemma update_swap_node_ok j f s v :
  swap_nodes (swap_device_one s) !! j = Some v →
  update_swap_node j f s = Ok tt (set_swap_nodes (<[j := f v]> (swap_nodes (swap_device_one s))) s).
Proof. intros H. unfold update_swap_node, updates. by rewrite H. Qed.

Lemma deref_bind {A B} (a : A) (k : A → M usm B) s : (deref (Some a) ≫= k) s = k a s.
Proof. done. Qed.

Lemma file_call_bind {B} (k : bool → M usm B) s :
  (file_call ≫= k) s = k (file_ok (clock s)) (set_clock (S (clock s)) s).
Proof. done. Qed.

Lemma fresh_to_swap_not_in s : toSwaps s !! fresh_to_swap s = None.
Proof.
  assert (∀ t, t ∈ dom (toSwaps s) → (t < fresh_to_swap s)%nat) as H.
  { unfold fresh_to_swap.
    apply (map_fold_weak_ind (λ r (m : gmap nat to_swap), ∀ t, t ∈ dom m → (t < r)%nat)).
    - intros t. rewrite dom_empty_L. set_solver.
    - intros t0 v m r _ IH t. rewrite dom_insert, elem_of_union, elem_of_singleton.
      intros [->|Ht]; [lia|]. apply IH in Ht. lia. }
  apply not_elem_of_dom. intros Hin%H. lia.
Qed.

(** The list heads of [to_swap] structures exist only inside them. *)
Definition to_swaps_ok (s : usm) : Prop :=
  ∀ t, ToSwapIulist t ∈ dom (links s) ∨ ToSwapGloblist t ∈ dom (links s) → is_Some (toSwaps s !! t).

(** ** Swap nodes *)

(** The free swap nodes are taken from the front and given back at the end. *)
Lemma getSwapNode_ok s m j fr : lists (links s) m → m !! DevFreeList = Some (SnodeIulist j :: fr) →
  ∃ h, getSwapNode s = Ok (Some (SnodeIulist j)) (set_links h s) ∧ dom h = dom (links s) ∧
    lists h (<[DevFreeList := fr]> m) ∧ unlinked (<[DevFreeList := fr]> m) (SnodeIulist j).
Proof.
  intros Hl Hm. unfold getSwapNode, list_is_empty.
  erewrite reads_bind by (by eapply lists_empty). rewrite bool_decide_false by done.
  erewrite next_of_bind by (by eapply lists_first).
  destruct (lists_del (links s) m DevFreeList [] (SnodeIulist j) fr) as (h & E & D & Hl' & Hu & _); [done..|].
  erewrite list_op_bind by exact E. by exists h.
Qed.

Lemma putSwapNode_ok s m j fr : lists (links s) m → m !! DevFreeList = Some fr →
  SnodeIulist j ∈ dom (links s) → unlinked m (SnodeIulist j) →
  ∃ h, putSwapNode (SnodeIulist j) s = Ok tt (set_links h s) ∧ dom h = dom (links s) ∧
    lists h (<[DevFreeList := fr ++ [SnodeIulist j]]> m).
Proof.
  intros Hl Hm Hd Hu. destruct (lists_add_tail (links s) m DevFreeList fr (SnodeIulist j))
    as (h & E & D & Hl'); [done..|].
  exists h. unfold putSwapNode. rewrite (list_op_ok _ _ h) by exact E. done.
Qed.

(** Two new cells for a new structure. *)
Lemma new_to_swap_ok s m : lists (links s) m → to_swaps_ok s →
  let t := fresh_to_swap s in
  ∃ h, new_to_swap s = Ok t (set_clock (S (clock s))
      (set_toSwaps (<[t := ToSwap None 0 None 0 (malloc_value (clock s))]> (toSwaps s)) (set_links h s))) ∧
    lists h m ∧ unlinked m (ToSwapIulist t) ∧ unlinked m (ToSwapGloblist t) ∧
    dom h = {[ToSwapIulist t; ToSwapGloblist t]} ∪ dom (links s) ∧ toSwaps s !! t = None.
Proof.
  intros Hl Hok t. pose proof (fresh_to_swap_not_in s) as Hf. fold t in Hf.
  assert (ToSwapGloblist t ∉ dom (links s)) as Hg.
  { intros Hin. destruct (Hok t (or_intror Hin)) as [v Hv]. congruence. }
  assert (ToSwapIulist t ∉ dom (links s)) as Hi.
  { intros Hin. destruct (Hok t (or_introl Hin)) as [v Hv]. congruence. }
  destruct (lists_alloc (links s) m (ToSwapGloblist t) (ListHead NULL NULL)) as [Hl1 Hu1]; [done..|].
  destruct (lists_alloc (<[ToSwapGloblist t := ListHead NULL NULL]> (links s)) m (ToSwapIulist t) (ListHead NULL NULL))
    as [Hl2 Hu2]; [done| |].
  { rewrite dom_insert, not_elem_of_union, elem_of_singleton. split; [discriminate|done]. }
  eexists. split; [reflexivity|]. split; [exact Hl2|]. split_and!; try done.
  rewrite !dom_insert_L. by rewrite assoc_L by apply _.
Qed.
End swap_lemmas.
