(* ===== verification/Eviction.v ===== *)
(** Theorems on eviction and swap-in (the model is in Swap.v): what an eviction
    does on every path, and the journey of a page through the swap file and
    back. *)
From stdpp Require Import prelude gmap strings.
From S2P Require Import Prelude Lists State Channel PagePool Init AllocPolicies PoolSpec Swap.

Open Scope Z_scope.

Lemma unlinked_insert m hd l x : unlinked m x → x ≠ hd → x ∉ l → unlinked (<[hd := l]> m) x.
Proof.
  intros Hu Hh Hl b lb [[<- <-]|[_ Hb]]%lookup_insert_Some; [|by eapply Hu].
  rewrite not_elem_of_cons. done.
Qed.

Lemma unlinked_cons m hd l y x : unlinked m x → m !! hd = Some l → x ≠ y →
  unlinked (<[hd := y :: l]> m) x.
Proof.
  intros Hu Hl Hy. pose proof (Hu _ _ Hl) as [??]%not_elem_of_cons.
  apply unlinked_insert; [done..|]. by rewrite not_elem_of_cons.
Qed.

Lemma unlinked_snoc m hd l y x : unlinked m x → m !! hd = Some l → x ≠ y →
  unlinked (<[hd := l ++ [y]]> m) x.
Proof.
  intros Hu Hl Hy. pose proof (Hu _ _ Hl) as [??]%not_elem_of_cons.
  apply unlinked_insert; [done..|]. by rewrite not_elem_of_app, list_elem_of_singleton.
Qed.

Section eviction.
Context `{K : Kernel}.

(** * swap_out *)

(** A page on its way out: the entry [t] is filled for the held page [i] and the
    swap node [j]; none of the three is in a list. *)
Record outgoing (s : usm) (m : gmap loc (list loc)) (t i j : nat) (v : to_swap)
    (p : page) (sn : swap_node) : Prop := {
  out_lists : lists (links s) m;
  out_entry : toSwaps s !! t = Some v;
  out_page_ptr : ts_page v = Some i;
  out_snode_ptr : snode v = Some j;
  out_page : pagesList s !! i = Some p;
  out_node_ptr : usedListPositionPointer p = Some i;
  out_snode : swap_nodes (swap_device_one s) !! j = Some sn;
  out_cells x : x ∈ [ToSwapGloblist t; NodeIulist i; SnodeIulist j] →
    x ∈ dom (links s) ∧ unlinked m x;
  out_heads x : x ∈ [ProcSwapCache (ts_proc v); ProcSwapList (ts_proc v);
                     SwapList; FreeList; UsedList; DevFreeList] → is_Some (m !! x);
}.

Global Arguments out_lists {_ _ _ _ _ _ _ _}.
Global Arguments out_entry {_ _ _ _ _ _ _ _}.
Global Arguments out_page_ptr {_ _ _ _ _ _ _ _}.
Global Arguments out_snode_ptr {_ _ _ _ _ _ _ _}.
Global Arguments out_page {_ _ _ _ _ _ _ _}.
Global Arguments out_node_ptr {_ _ _ _ _ _ _ _}.
Global Arguments out_snode {_ _ _ _ _ _ _ _}.
Global Arguments out_cells {_ _ _ _ _ _ _ _}.
Global Arguments out_heads {_ _ _ _ _ _ _ _}.

(** The entry that replaces the page in the page table. *)
Definition entry_of (s : usm) (sn : swap_node) : Z :=
  swap_entry (sn_offset sn) (sd_number (swap_device_one s)).

(** The answer of the kernel to usm_clear_and_set at time [c]. *)
Definition replaces (c : nat) (s : usm) (v : to_swap) (sn : swap_node) : bool :=
  (ioctl_palloc c (ts_proc v) (swapped_address v) (entry_of s sn) 5).1.1 =? 1.

(** What the updates on the way do not change. *)
Lemma outgoing_frame s s' m m' t i j v p sn : outgoing s m t i j v p sn →
  lists (links s') m' → dom (links s') = dom (links s) →
  toSwaps s' = toSwaps s → pagesList s' = pagesList s →
  swap_nodes (swap_device_one s') = swap_nodes (swap_device_one s) →
  (∀ x, unlinked m x → x ≠ ToSwapIulist t → unlinked m' x) →
  (∀ x, is_Some (m !! x) → is_Some (m' !! x)) →
  outgoing s' m' t i j v p sn.
Proof.
  intros [H1 H2 H3 H4 H5 H6 H7 H8 H9] Hl Hd Ht Hp Hn Hu Hs. split; rewrite ?Ht, ?Hp, ?Hn, ?Hd; try done.
  - intros x Hx. destruct (H8 x Hx) as [??]. split; [done|]. apply Hu; [done|]. by intros ->; set_solver.
  - intros x Hx. by apply Hs, H9.
Qed.

Lemma page_node_of_ok i n s p : pagesList s !! i = Some p →
  usedListPositionPointer p = Some n → page_node_of i s = Ok n s.
Proof. intros Hp Hn. unfold page_node_of. rewrite (page_at_bind _ _ _ _ Hp). by rewrite Hn. Qed.

Section swap_out.
Context (s : usm) (m : gmap loc (list loc)) (t i j : nat) (v : to_swap) (p : page) (sn : swap_node).
Context (H : outgoing s m t i j v p sn).

Lemma swap_value_ok : swap_value t s = Ok (entry_of s sn) s.
Proof.
  unfold swap_value. rewrite (to_swap_at_bind _ _ _ _ (out_entry H)).
  rewrite (out_snode_ptr H), deref_bind.
  by rewrite (swap_node_at_bind _ _ _ _ (out_snode H)).
Qed.

(** The page leaves: its entry goes to the lists of swapped pages, its frame to
    the free list. *)
Lemma swap_out_finish_ok psl sl fr : retaken v = 0 →
  ToSwapIulist t ∈ dom (links s) → unlinked m (ToSwapIulist t) →
  m !! ProcSwapList (ts_proc v) = Some psl → m !! SwapList = Some sl →
  m !! FreeList = Some fr →
  ∃ h, swap_out_finish t i j s =
      Ok 0 (set_usedMemory (u64 (usedMemory s - SYS_PAGE_SIZE))
             (set_swappedMemory (u64 (swappedMemory s + SYS_PAGE_SIZE)) (set_links h s))) ∧
    dom h = dom (links s) ∧
    lists h (<[FreeList := NodeIulist i :: fr]> (<[SwapList := ToSwapGloblist t :: sl]>
              (<[ProcSwapList (ts_proc v) := ToSwapIulist t :: psl]> m))).
Proof.
  intros Hr Hd1 Hu1 Hpsl Hsl Hfr.
  destruct (out_cells H (ToSwapGloblist t)) as [Hd2 Hu2]; [set_solver|].
  destruct (out_cells H (NodeIulist i)) as [Hd3 Hu3]; [set_solver|].
  destruct (lists_add (links s) m _ psl (ToSwapIulist t) (out_lists H) Hpsl Hd1 Hu1)
    as (h1 & E1 & D1 & Hl1).
  apply (unlinked_cons m (ProcSwapList (ts_proc v)) psl (ToSwapIulist t)) in Hu2, Hu3; [|done..].
  destruct (lists_add h1 _ SwapList sl (ToSwapGloblist t) Hl1) as (h2 & E2 & D2 & Hl2);
    [by rewrite lookup_insert_ne|by rewrite D1|done|].
  apply (unlinked_cons _ SwapList sl (ToSwapGloblist t)) in Hu3; [|by rewrite lookup_insert_ne|done].
  destruct (lists_add h2 _ FreeList fr (NodeIulist i) Hl2) as (h3 & E3 & D3 & Hl3);
    [by rewrite !lookup_insert_ne|by rewrite D2, D1|done|].
  exists h3. split; [|split; [congruence|done]].
  unfold swap_out_finish, usmAddProcSwapNode.
  rewrite (to_swap_at_bind _ _ _ _ (out_entry H)), Hr. cbn [Z.eqb].
  rewrite bind_assoc, (to_swap_at_bind _ _ _ _ (out_entry H)).
  rewrite (list_op_bind _ _ _ _ E1), (list_op_bind _ _ (set_links h1 s) _ E2).
  unfold swappedMemory_add. rewrite modify_bind.
  erewrite (bind_ok (page_node_of i)) by (by eapply page_node_of_ok; [apply (out_page H)|apply (out_node_ptr H)]).
  erewrite list_op_bind by exact E3. done.
Qed.

(** A page that a fault retook meanwhile is not freed, and not swapped: the swap
    node goes back, the page is in no list. *)
Lemma swap_out_finish_retaken dfr : retaken v ≠ 0 → m !! DevFreeList = Some dfr →
  ∃ h, swap_out_finish t i j s = Ok 0 (set_links h s) ∧ dom h = dom (links s) ∧
    lists h (<[DevFreeList := dfr ++ [SnodeIulist j]]> m).
Proof.
  intros Hr Hdfr. destruct (out_cells H (SnodeIulist j)) as [Hd Hu]; [set_solver|].
  destruct (putSwapNode_ok s m j dfr (out_lists H) Hdfr Hd Hu) as (h & E & D & Hl).
  exists h. split; [|done]. unfold swap_out_finish.
  rewrite (to_swap_at_bind _ _ _ _ (out_entry H)).
  destruct (Z.eqb_spec (retaken v) 0) as [|_]; [done|]. by run E.
Qed.

(** After a failed write the page goes back to the front of the used list. *)
Lemma swap_out_undo_ok us dfr : m !! UsedList = Some us → m !! DevFreeList = Some dfr →
  ∃ h, swap_out_undo t i j s = Ok 1 (set_clock (S (clock s)) (set_links h s)) ∧
    dom h = dom (links s) ∧
    lists h (<[DevFreeList := dfr ++ [SnodeIulist j]]> (<[UsedList := NodeIulist i :: us]> m)).
Proof.
  intros Hus Hdfr. destruct (out_cells H (NodeIulist i)) as [Hd1 Hu1]; [set_solver|].
  destruct (out_cells H (SnodeIulist j)) as [Hd2 Hu2]; [set_solver|].
  destruct (lists_add (links s) m UsedList us (NodeIulist i) (out_lists H) Hus Hd1 Hu1)
    as (h1 & E1 & D1 & Hl1).
  apply (unlinked_cons m UsedList us (NodeIulist i)) in Hu2; [|done..].
  destruct (putSwapNode_ok (set_links h1 (set_clock (S (clock s)) s)) _ j dfr Hl1) as (h & E & D & Hl);
    [by rewrite lookup_insert_ne|by simpl; rewrite D1|done|].
  exists h. split; [|by rewrite D, <- D1].
  unfold swap_out_undo, restore_used_page, give_back_page_used.
  rewrite (to_swap_at_bind _ _ _ _ (out_entry H)), (page_at_bind _ _ _ _ (out_page H)).
  unfold usm_set_pfn, tick. rewrite bind_assoc. unfold mbind at 1, M_bind at 1.
  destruct (ioctl_palloc _ _ _ _ _) as [[r er] ?]. rewrite ret_bind.
  erewrite (bind_ok (page_node_of i)) by (by eapply page_node_of_ok; [apply (out_page H)|apply (out_node_ptr H)]).
  rewrite (list_op_bind _ _ (set_clock (S (clock s)) s) _ E1). by run E.
Qed.

(** The first half: the entry is in the swap cache and the kernel was asked to
    replace the page. *)
Lemma swap_out_enter sc : m !! ProcSwapCache (ts_proc v) = Some sc →
  ToSwapIulist t ∈ dom (links s) → unlinked m (ToSwapIulist t) →
  ∃ h, let s1 := set_clock (S (clock s)) (set_links h s) in
    let m1 := <[ProcSwapCache (ts_proc v) := ToSwapIulist t :: sc]> m in
    swap_out t s = (if replaces (clock s) s v sn then swap_out_write t i j
                    else _ ← putSwapNode (SnodeIulist j); mret 1) s1 ∧
    dom h = dom (links s) ∧ outgoing s1 m1 t i j v p sn.
Proof.
  intros Hsc Hd Hu.
  destruct (lists_add (links s) m _ sc (ToSwapIulist t) (out_lists H) Hsc Hd Hu) as (h & E & D & Hl).
  exists h. split; [|split; [done|]].
  - unfold swap_out. rewrite (to_swap_at_bind _ _ _ _ (out_entry H)), (list_op_bind _ _ _ _ E).
    assert (swap_value t (set_links h s) = Ok (entry_of s sn) (set_links h s)) as Hsv.
    { unfold swap_value. erewrite to_swap_at_bind by apply (out_entry H).
      rewrite (out_snode_ptr H), deref_bind. by erewrite swap_node_at_bind by apply (out_snode H). }
    run Hsv. unfold usm_clear_and_set, tick, replaces. rewrite bind_assoc.
    unfold mbind at 1, M_bind at 1. cbn [clock set_links].
    destruct (ioctl_palloc _ _ _ _ _) as [[r er] ?]. rewrite ret_bind, (out_snode_ptr H), deref_bind.
    cbn [fst]. destruct (r =? 1); cbn [negb Z.eqb]; [|done].
    by rewrite (out_page_ptr H), deref_bind.
  - eapply outgoing_frame; [exact H|done..| |].
    + intros x Hx Hne. by eapply unlinked_cons.
    + intros x. rewrite lookup_insert_is_Some'. by right.
Qed.

End swap_out.

Lemma outgoing_clock c s m t i j v p sn :
  outgoing s m t i j v p sn → outgoing (set_clock c s) m t i j v p sn.
Proof. intros []. by split. Qed.

Section swap_out_write.
Context (s : usm) (m : gmap loc (list loc)) (t i j : nat) (v : to_swap) (p : page) (sn : swap_node).
Context (H : outgoing s m t i j v p sn).

(** A write that fails. *)
Lemma swap_out_write_fails us dfr : m !! UsedList = Some us → m !! DevFreeList = Some dfr →
  file_ok (clock s) && file_ok (S (clock s)) = false →
  ∃ c h, swap_out_write t i j s = Ok 1 (set_clock c (set_links h s)) ∧
    dom h = dom (links s) ∧
    lists h (<[DevFreeList := dfr ++ [SnodeIulist j]]> (<[UsedList := NodeIulist i :: us]> m)).
Proof.
  intros Hus Hdfr Hio. unfold swap_out_write. rewrite file_call_bind.
  destruct (file_ok (clock s)); cbn [negb andb] in *.
  - rewrite (swap_node_at_bind _ _ (set_clock (S (clock s)) s) _ (out_snode H)).
    rewrite (page_at_bind _ _ (set_clock (S (clock s)) s) _ (out_page H)).
    rewrite file_call_bind. cbn [clock set_clock]. rewrite Hio. cbn [negb].
    destruct (swap_out_undo_ok (set_clock (S (S (clock s))) s) m t i j v p sn (outgoing_clock _ _ _ _ _ _ _ _ _ H) us dfr)
      as (h & E & D & Hl); [done..|]. by eexists _, h.
  - destruct (swap_out_undo_ok (set_clock (S (clock s)) s) m t i j v p sn (outgoing_clock _ _ _ _ _ _ _ _ _ H) us dfr)
      as (h & E & D & Hl); [done..|]. by eexists _, h.
Qed.

(** A write that succeeds ends in [swap_out_finish], the entry out of the cache. *)
Lemma swap_out_write_ok c1 c2 :
  m !! ProcSwapCache (ts_proc v) = Some (c1 ++ ToSwapIulist t :: c2) →
  file_ok (clock s) = true → file_ok (S (clock s)) = true →
  ∃ h, let s1 := set_links h (set_backend (<[sn_offset sn := data p]> (backend (swap_device_one s)))
                   (set_clock (S (S (clock s))) s)) in
    let m1 := <[ProcSwapCache (ts_proc v) := c1 ++ c2]> m in
    swap_out_write t i j s = swap_out_finish t i j s1 ∧ dom h = dom (links s) ∧
    unlinked m1 (ToSwapIulist t) ∧ outgoing s1 m1 t i j v p sn.
Proof.
  intros Hc Hio1 Hio2.
  destruct (lists_del_entry (links s) m _ c1 _ c2 (out_lists H) Hc) as (h & E & D & Hl & Hu).
  exists h. split; [|split; [done|split; [done|]]].
  - unfold swap_out_write. rewrite file_call_bind, Hio1. cbn [negb].
    rewrite (swap_node_at_bind _ _ (set_clock (S (clock s)) s) _ (out_snode H)).
    rewrite (page_at_bind _ _ (set_clock (S (clock s)) s) _ (out_page H)).
    rewrite file_call_bind. cbn [clock set_clock]. rewrite Hio2. cbn [negb].
    rewrite modify_bind. by erewrite list_op_bind by exact E.
  - eapply outgoing_frame; [exact H|done..| |].
    + intros x Hx Hne. pose proof (Hx _ _ Hc) as Hx'.
      apply unlinked_insert; [done|mem_solver..].
    + intros x. rewrite lookup_insert_is_Some'. by right.
Qed.
End swap_out_write.

(** ** The three outcomes of swap_out *)
Section swap_out_outcomes.
Context (s : usm) (m : gmap loc (list loc)) (t i j : nat) (v : to_swap) (p : page) (sn : swap_node).
Context (H : outgoing s m t i j v p sn).
Context (Hd : ToSwapIulist t ∈ dom (links s)) (Hu : unlinked m (ToSwapIulist t)).
Context (sc us dfr psl sl fr : list loc).
Context (Hsc : m !! ProcSwapCache (ts_proc v) = Some sc) (Hus : m !! UsedList = Some us)
  (Hdfr : m !! DevFreeList = Some dfr) (Hpsl : m !! ProcSwapList (ts_proc v) = Some psl)
  (Hsl : m !! SwapList = Some sl) (Hfr : m !! FreeList = Some fr).

(** The kernel refuses to replace the page: the swap node goes back; the entry
    stays in the swap cache, and the page is in no list. *)
Lemma swap_out_refused : replaces (clock s) s v sn = false →
  ∃ h, swap_out t s = Ok 1 (set_clock (S (clock s)) (set_links h s)) ∧ dom h = dom (links s) ∧
    lists h (<[DevFreeList := dfr ++ [SnodeIulist j]]>
              (<[ProcSwapCache (ts_proc v) := ToSwapIulist t :: sc]> m)).
Proof.
  clear Hus Hpsl Hsl Hfr us psl sl fr.
  intros Hr. destruct (swap_out_enter s m t i j v p sn H sc Hsc Hd Hu) as (h1 & E & D & H1).
  rewrite Hr in E. destruct (out_cells H1 (SnodeIulist j)) as [Hd1 Hu1]; [set_solver|].
  destruct (putSwapNode_ok _ _ j dfr (out_lists H1)) as (h & E2 & D2 & Hl);
    [by rewrite lookup_insert_ne|done..|].
  exists h. rewrite E. run E2. split; [done|]. by rewrite D2, <- D.
Qed.

(** The file cannot be written: as before, but the page is used again. *)
Lemma swap_out_io_error : replaces (clock s) s v sn = true →
  file_ok (S (clock s)) && file_ok (S (S (clock s))) = false →
  ∃ c h, swap_out t s = Ok 1 (set_clock c (set_links h s)) ∧ dom h = dom (links s) ∧
    lists h (<[DevFreeList := dfr ++ [SnodeIulist j]]> (<[UsedList := NodeIulist i :: us]>
              (<[ProcSwapCache (ts_proc v) := ToSwapIulist t :: sc]> m))).
Proof.
  clear Hpsl Hsl Hfr psl sl fr.
  intros Hr Hio. destruct (swap_out_enter s m t i j v p sn H sc Hsc Hd Hu) as (h1 & E & D & H1).
  rewrite Hr in E.
  destruct (swap_out_write_fails _ _ t i j v p sn H1 us dfr) as (c & h & E2 & D2 & Hl);
    [by rewrite lookup_insert_ne..|done|].
  exists c, h. rewrite E, E2. split; [done|]. by rewrite D2, <- D.
Qed.

(** The page is written and freed. *)
Lemma swap_out_ok : replaces (clock s) s v sn = true →
  file_ok (S (clock s)) = true → file_ok (S (S (clock s))) = true → retaken v = 0 →
  ∃ h, swap_out t s = Ok 0 (set_usedMemory (u64 (usedMemory s - SYS_PAGE_SIZE))
      (set_swappedMemory (u64 (swappedMemory s + SYS_PAGE_SIZE)) (set_links h
        (set_backend (<[sn_offset sn := data p]> (backend (swap_device_one s)))
          (set_clock (3 + clock s) s))))) ∧ dom h = dom (links s) ∧
    lists h (<[FreeList := NodeIulist i :: fr]> (<[SwapList := ToSwapGloblist t :: sl]>
              (<[ProcSwapList (ts_proc v) := ToSwapIulist t :: psl]> m))).
Proof.
  intros Hr Hio1 Hio2 Hrt. destruct (swap_out_enter s m t i j v p sn H sc Hsc Hd Hu) as (h1 & E & D & H1).
  rewrite Hr in E.
  destruct (swap_out_write_ok _ _ t i j v p sn H1 [] sc) as (h2 & E2 & D2 & Hu2 & H2);
    [by rewrite lookup_insert_eq|done..|].
  cbn [app] in *. rewrite insert_insert_eq, (insert_id m) in * by done.
  destruct (swap_out_finish_ok _ _ t i j v p sn H2 psl sl fr) as (h & E3 & D3 & Hl);
    [done| |done..|].
  { cbn. rewrite D2. cbn. by rewrite D. }
  exists h. rewrite E, E2, E3. split; [done|]. by rewrite D3; cbn; rewrite D2, <- D.
Qed.

(** The page was retaken, or [retaken] was never initialised. *)
Lemma swap_out_retaken : replaces (clock s) s v sn = true →
  file_ok (S (clock s)) = true → file_ok (S (S (clock s))) = true → retaken v ≠ 0 →
  ∃ h, swap_out t s = Ok 0 (set_links h
        (set_backend (<[sn_offset sn := data p]> (backend (swap_device_one s)))
          (set_clock (3 + clock s) s))) ∧ dom h = dom (links s) ∧
    lists h (<[DevFreeList := dfr ++ [SnodeIulist j]]> m).
Proof.
  clear Hus Hpsl Hsl Hfr us psl sl fr.
  intros Hr Hio1 Hio2 Hrt. destruct (swap_out_enter s m t i j v p sn H sc Hsc Hd Hu) as (h1 & E & D & H1).
  rewrite Hr in E.
  destruct (swap_out_write_ok _ _ t i j v p sn H1 [] sc) as (h2 & E2 & D2 & Hu2 & H2);
    [by rewrite lookup_insert_eq|done..|].
  cbn [app] in *. rewrite insert_insert_eq, (insert_id m) in * by done.
  destruct (swap_out_finish_retaken _ _ t i j v p sn H2 dfr) as (h & E3 & D3 & Hl); [done..|].
  exists h. rewrite E, E2, E3. split; [done|]. by rewrite D3; cbn; rewrite D2, <- D.
Qed.
End swap_out_outcomes.

(** * handle_evict_request *)

(** The victim is the oldest used page [n]; the process that it belongs to is
    alive; a swap node [j] is free. *)
Record evictable (s : usm) (m : gmap loc (list loc)) (f : list nat) (n : nat) (u : list nat)
    (p : page) (j : nat) (sn : swap_node) (dfr sc psl sl : list loc) : Prop := {
  ev_pool : pool s m f (n :: u);
  ev_entries : to_swaps_ok s;
  ev_page : pagesList s !! n = Some p;
  ev_node_ptr : usedListPositionPointer p = Some n;
  ev_alive : ∃ d, procDescList s !! process p = Some d ∧ prio d ≠ -1;
  ev_device : m !! DevFreeList = Some (SnodeIulist j :: dfr);
  ev_snode : swap_nodes (swap_device_one s) !! j = Some sn;
  ev_cache : m !! ProcSwapCache (process p) = Some sc;
  ev_proc : m !! ProcSwapList (process p) = Some psl;
  ev_swapped : m !! SwapList = Some sl;
}.
Global Arguments ev_pool {_ _ _ _ _ _ _ _ _ _ _ _}.
Global Arguments ev_entries {_ _ _ _ _ _ _ _ _ _ _ _}.
Global Arguments ev_page {_ _ _ _ _ _ _ _ _ _ _ _}.
Global Arguments ev_node_ptr {_ _ _ _ _ _ _ _ _ _ _ _}.
Global Arguments ev_alive {_ _ _ _ _ _ _ _ _ _ _ _}.
Global Arguments ev_device {_ _ _ _ _ _ _ _ _ _ _ _}.
Global Arguments ev_snode {_ _ _ _ _ _ _ _ _ _ _ _}.
Global Arguments ev_cache {_ _ _ _ _ _ _ _ _ _ _ _}.
Global Arguments ev_proc {_ _ _ _ _ _ _ _ _ _ _ _}.
Global Arguments ev_swapped {_ _ _ _ _ _ _ _ _ _ _ _}.

Lemma prepare_victim_ok t n s m p v j sn dfr :
  lists (links s) m → usmPage s !! n = Some n → pagesList s !! n = Some p →
  toSwaps s !! t = Some v → m !! DevFreeList = Some (SnodeIulist j :: dfr) →
  swap_nodes (swap_device_one s) !! j = Some sn →
  ∃ h, prepare_victim t n s = Ok tt
      (set_swap_nodes (<[j := SwapNode (sn_offset sn) (Some t)]> (swap_nodes (swap_device_one s)))
        (set_toSwaps (<[t := ToSwap (Some n) (virtualAddress p) (Some j) (process p) (retaken v)]> (toSwaps s))
          (set_links h s))) ∧ dom h = dom (links s) ∧
    lists h (<[DevFreeList := dfr]> m) ∧ unlinked (<[DevFreeList := dfr]> m) (SnodeIulist j).
Proof.
  intros Hl Hn Hp Hv Hd Hj. unfold prepare_victim.
  rewrite (usmPage_of_bind _ _ _ _ Hn), (page_at_bind _ _ _ _ Hp), (update_to_swap_bind _ _ _ _ _ Hv).
  match goal with |- context [(getSwapNode ≫= _) ?x] => set (s1 := x) end.
  destruct (getSwapNode_ok s1 m j dfr Hl Hd) as (h & E & D & Hl' & Hu).
  exists h. split; [|done]. run E. rewrite deref_bind. cbn [swap_node_of_iulist]. rewrite ret_bind.
  erewrite update_to_swap_bind by (by apply lookup_insert_eq).
  erewrite update_swap_node_ok by exact Hj. f_equal. same_state.
  cbn. by rewrite insert_insert_eq.
Qed.

(** The entry that handle_evict_request fills for its victim. *)
Definition victim_entry (s : usm) (n : nat) (p : page) (j : nat) : to_swap :=
  ToSwap (Some n) (virtualAddress p) (Some j) (process p) (malloc_value (clock s)).

(** The daemon once the victim is held and its entry is filled. *)
Definition victim_held (s : usm) (n : nat) (p : page) (j : nat) (sn : swap_node) (h : heap loc) : usm :=
  set_swap_nodes (<[j := SwapNode (sn_offset sn) (Some (fresh_to_swap s))]> (swap_nodes (swap_device_one s)))
    (set_toSwaps (<[fresh_to_swap s := victim_entry s n p j]> (toSwaps s))
      (set_clock (S (clock s)) (set_links h s))).

Section evict.
Context (s : usm) (m : gmap loc (list loc)) (f : list nat) (n : nat) (u : list nat)
  (p : page) (j : nat) (sn : swap_node) (dfr sc psl sl : list loc).
Context (H : evictable s m f n u p j sn dfr sc psl sl).

Local Abbreviation t := (fresh_to_swap s).
Local Abbreviation m1 := (<[DevFreeList := dfr]> (<[UsedList := NodeIulist <$> u]> m)).

Lemma evict_prepare :
  ∃ h, handle_evict_request s = (_ ← swap_out t; mret tt) (victim_held s n p j sn h) ∧
    dom h = {[ToSwapIulist t; ToSwapGloblist t]} ∪ dom (links s) ∧
    outgoing (victim_held s n p j sn h) m1 t n j (victim_entry s n p j) p (SwapNode (sn_offset sn) (Some t)) ∧
    unlinked m1 (ToSwapIulist t).
Proof.
  pose proof (ev_pool H) as Hp. pose proof (pool_lists Hp) as Hl.
  destruct (new_to_swap_ok s m Hl (ev_entries H)) as (h0 & E0 & Hl0 & Hui & Hug & D0 & Hf).
  set (s0 := set_clock _ _) in E0.
  destruct (lists_del_init (links s0) m UsedList [] (NodeIulist n) (fmap (M:=list) NodeIulist u) Hl0 (pool_used Hp))
    as (h1 & E1 & D1 & Hl1 & Hun & _). cbn [app] in Hl1, Hun.
  set (s1 := set_links h1 s0).
  destruct (prepare_victim_ok t n s1 (<[UsedList := NodeIulist <$> u]> m) p
    (ToSwap None 0 None 0 (malloc_value (clock s))) j sn dfr Hl1)
    as (h2 & E2 & D2 & Hl2 & Huj).
  { by destruct (pool_lookup _ _ _ _ Hp n) as (? & ? & ? & _); [set_solver|]. }
  { apply (ev_page H). }
  { apply lookup_insert_eq. }
  { by rewrite lookup_insert_ne by done; apply (ev_device H). }
  { apply (ev_snode H). }
  exists h2.
  assert (dom h2 = {[ToSwapIulist t; ToSwapGloblist t]} ∪ dom (links s)) as Hdom.
  { rewrite D2. cbn. rewrite D1. exact D0. }
  assert (unlinked m1 (ToSwapIulist t) ∧ unlinked m1 (ToSwapGloblist t) ∧ unlinked m1 (NodeIulist n))
    as (Hu1 & Hu2 & Hu3).
  { pose proof (Hui _ _ (ev_device H)) as H1. pose proof (Hug _ _ (ev_device H)) as H2.
    pose proof (Hun DevFreeList (SnodeIulist j :: dfr)) as H3.
    rewrite lookup_insert_ne in H3 by done. specialize (H3 (ev_device H)).
    pose proof (Hui _ _ (pool_used Hp)) as H4. pose proof (Hug _ _ (pool_used Hp)) as H5.
    cbn [fmap list_fmap] in H4, H5.
    split_and!; apply unlinked_insert; try mem_solver; try done;
      apply unlinked_insert; try mem_solver; done. }
  split; [|split; [exact Hdom|split; [|exact Hu1]]].
  - destruct (ev_alive H) as (d & Hd & Hprio).
    unfold handle_evict_request, list_is_empty. run E0.
    erewrite reads_bind by (eapply lists_empty; [exact Hl0|apply (pool_used Hp)]).
    cbn [fmap list_fmap]. rewrite bool_decide_false by done.
    erewrite next_of_bind by (eapply lists_first; [exact Hl0|apply (pool_used Hp)]).
    change (default UsedList (head (NodeIulist <$> n :: u))) with (NodeIulist n).
    cbn [node_of_iulist]. rewrite ret_bind.
    unfold hold_used_page, hold_used_page_commit. rewrite (list_op_bind _ _ _ _ E1), gets_bind.
    destruct (pool_lookup _ _ _ _ Hp n) as (p' & Hp' & Hn' & _); [set_solver|].
    replace (usmPage (set_links h1 s0) !! n) with (Some n) by (symmetry; exact Hn').
    unfold usmCheckPageAlive. rewrite bind_assoc, (page_at_bind _ _ s1 p) by apply (ev_page H).
    rewrite bind_assoc. unfold procDesc_at. rewrite (reads_bind _ _ s1 d) by exact Hd. rewrite ret_bind.
    rewrite (proj2 (Z.eqb_neq _ _) Hprio). cbn [Z.eqb negb]. run E2. f_equal. same_state.
    cbn. by rewrite insert_insert_eq.
  - split; cbn; try done; [by rewrite lookup_insert_eq|apply (ev_page H)|apply (ev_node_ptr H)| | |].
    + apply list_lookup_insert_eq. eapply lookup_lt_Some, (ev_snode H).
    + intros x Hx. rewrite Hdom.
      assert (NodeIulist n ∈ dom (links s)).
      { apply (pool_node Hp). apply (pool_range Hp). set_solver. }
      assert (SnodeIulist j ∈ dom (links s)).
      { eapply lists_dom; [exact Hl|apply (ev_device H)|set_solver]. }
      set_unfold in Hx. destruct Hx as [->|[->|[->|[]]]]; split; try done; set_solver.
    + intros x Hx. rewrite !lookup_insert_is_Some'. right. right. set_unfold in Hx.
      destruct Hx as [->|[->|[->|[->|[->|[->|[]]]]]]]; eexists;
        [apply (ev_cache H)|apply (ev_proc H)|apply (ev_swapped H)|apply (pool_free Hp)|apply (pool_used Hp)|apply (ev_device H)].
Qed.

(** The pool after the eviction, for the lists [m'] that it leaves. *)
Lemma evicted_pool h m' f' u' :
  {[ToSwapIulist t; ToSwapGloblist t]} ∪ dom (links s) = dom h → lists h m' →
  m' !! FreeList = Some (NodeIulist <$> f') → m' !! UsedList = Some (NodeIulist <$> u') →
  (∀ k, k ∈ f' ++ u' → k ∈ f ++ n :: u) →
  pool_of h (usmPage s) (pagesList s) (basePFN s) (globalPagesNumber s) m' f' u'.
Proof.
  intros Hd Hl Hf Hu Hin. pose proof (ev_pool H) as Hp. destruct Hp. split; try done.
  - intros i Hi. rewrite <- Hd. destruct (pool_node i Hi). split; [done|set_solver].
  - intros k Hk. auto.
Qed.

Lemma evict_ok : replaces (S (clock s)) s (victim_entry s n p j) sn = true →
  file_ok (2 + clock s) = true → file_ok (3 + clock s) = true → malloc_value (clock s) = 0 →
  ∃ h, handle_evict_request s = Ok tt (set_usedMemory (u64 (usedMemory s - SYS_PAGE_SIZE))
      (set_swappedMemory (u64 (swappedMemory s + SYS_PAGE_SIZE)) (set_links h
        (set_backend (<[sn_offset sn := data p]> (backend (swap_device_one s)))
          (set_clock (4 + clock s) (victim_held s n p j sn h)))))) ∧
    {[ToSwapIulist t; ToSwapGloblist t]} ∪ dom (links s) = dom h ∧
    let m' := <[FreeList := NodeIulist <$> n :: f]> (<[SwapList := ToSwapGloblist t :: sl]>
              (<[ProcSwapList (process p) := ToSwapIulist t :: psl]> m1)) in
    lists h m' ∧ unlinked m' (SnodeIulist j).
Proof.
  intros Hr Hio1 Hio2 Hrt. destruct evict_prepare as (h1 & E1 & D1 & Hout & Hu).
  pose proof (ev_pool H) as Hp.
  destruct (swap_out_ok _ _ t n j _ p _ Hout) with (sc := sc)
    (psl := psl) (sl := sl) (fr := fmap (M:=list) NodeIulist f) as (h & E & D & Hl);
    try done.
  - cbn. rewrite D1. set_solver.
  - by rewrite !lookup_insert_ne by done; apply (ev_cache H).
  - by rewrite !lookup_insert_ne by done; apply (ev_proc H).
  - by rewrite !lookup_insert_ne by done; apply (ev_swapped H).
  - by rewrite !lookup_insert_ne by done; apply (pool_free Hp).
  - exists h. rewrite E1. run E. split; [|split; [by rewrite D; cbn; rewrite D1|split; [exact Hl|]]].
    2: { destruct (out_cells Hout (SnodeIulist j)) as [_ Huj]; [set_solver|].
      do 3 (apply unlinked_cons; [|by rewrite !lookup_insert_ne by done; first
        [apply (pool_free Hp)|apply (ev_swapped H)|apply (ev_proc H)]|done]). exact Huj. }
    unfold mret, M_ret. by same_result.
Qed.

(** The victim is lost: the kernel refuses to replace it. *)
Lemma evict_refused : replaces (S (clock s)) s (victim_entry s n p j) sn = false →
  ∃ h, handle_evict_request s = Ok tt (set_clock (2 + clock s) (victim_held s n p j sn h)) ∧
    {[ToSwapIulist t; ToSwapGloblist t]} ∪ dom (links s) = dom h ∧
    let m' := <[DevFreeList := dfr ++ [SnodeIulist j]]>
              (<[ProcSwapCache (process p) := ToSwapIulist t :: sc]> m1) in
    lists h m' ∧ unlinked m' (NodeIulist n).
Proof.
  intros Hr. destruct evict_prepare as (h1 & E1 & D1 & Hout & Hu).
  destruct (swap_out_refused _ _ t n j _ p _ Hout) with (sc := sc) (dfr := dfr)
    as (h & E & D & Hl); try done.
  - cbn. rewrite D1. set_solver.
  - by rewrite !lookup_insert_ne by done; apply (ev_cache H).
  - by rewrite lookup_insert_eq.
  - exists h. rewrite E1. run E. split; [|split; [by rewrite D; cbn; rewrite D1|split; [exact Hl|]]].
    2: { destruct (out_cells Hout (NodeIulist n)) as [_ Hun]; [set_solver|].
      apply unlinked_snoc; [apply unlinked_cons| |]; try done; rewrite !lookup_insert_ne by done;
        [apply (ev_cache H)|by rewrite lookup_insert_eq]. }
    unfold mret, M_ret. by same_result.
Qed.

(** The victim is lost: its entry came with a nonzero [retaken]. *)
Lemma evict_retaken : replaces (S (clock s)) s (victim_entry s n p j) sn = true →
  file_ok (2 + clock s) = true → file_ok (3 + clock s) = true → malloc_value (clock s) ≠ 0 →
  ∃ h, handle_evict_request s = Ok tt
      (set_backend (<[sn_offset sn := data p]> (backend (swap_device_one s)))
          (set_clock (4 + clock s) (victim_held s n p j sn h))) ∧
    {[ToSwapIulist t; ToSwapGloblist t]} ∪ dom (links s) = dom h ∧
    lists h (<[DevFreeList := dfr ++ [SnodeIulist j]]> m1) ∧
    unlinked (<[DevFreeList := dfr ++ [SnodeIulist j]]> m1) (NodeIulist n).
Proof.
  intros Hr Hio1 Hio2 Hrt. destruct evict_prepare as (h1 & E1 & D1 & Hout & Hu).
  destruct (swap_out_retaken _ _ t n j _ p _ Hout) with (sc := sc) (dfr := dfr)
    as (h & E & D & Hl); try done.
  - cbn. rewrite D1. set_solver.
  - by rewrite !lookup_insert_ne by done; apply (ev_cache H).
  - by rewrite lookup_insert_eq.
  - exists h. rewrite E1. run E. split; [|split; [by rewrite D; cbn; rewrite D1|split; [exact Hl|]]].
    2: { destruct (out_cells Hout (NodeIulist n)) as [_ Hun]; [set_solver|].
      apply unlinked_snoc; try done. by rewrite lookup_insert_eq. }
    unfold mret, M_ret. by same_result.
Qed.

(** The swap file cannot be written: the page stays used. *)
Lemma evict_io_error : replaces (S (clock s)) s (victim_entry s n p j) sn = true →
  file_ok (2 + clock s) && file_ok (3 + clock s) = false →
  ∃ c h, handle_evict_request s = Ok tt (set_clock c (victim_held s n p j sn h)) ∧
    {[ToSwapIulist t; ToSwapGloblist t]} ∪ dom (links s) = dom h ∧
    lists h (<[DevFreeList := dfr ++ [SnodeIulist j]]> (<[UsedList := NodeIulist <$> n :: u]>
              (<[ProcSwapCache (process p) := ToSwapIulist t :: sc]> m1))).
Proof.
  intros Hr Hio. destruct evict_prepare as (h1 & E1 & D1 & Hout & Hu).
  destruct (swap_out_io_error _ _ t n j _ p _ Hout) with (sc := sc) (dfr := dfr)
    (us := fmap (M:=list) NodeIulist u) as (c & h & E & D & Hl); try done.
  - cbn. rewrite D1. set_solver.
  - by rewrite !lookup_insert_ne by done; apply (ev_cache H).
  - by rewrite lookup_insert_ne, lookup_insert_eq by done.
  - by rewrite lookup_insert_eq.
  - exists c, h. rewrite E1. run E. split; [|split; [by rewrite D; cbn; rewrite D1|exact Hl]].
    unfold mret, M_ret. by same_result.
Qed.
End evict.
End eviction.

(** * swap_in *)
Lemma unlinked_delete_in h m hd l z : lists h m → m !! hd = Some l → z ∈ hd :: l →
  unlinked (delete hd m) z.
Proof.
  intros [_ Hdj] Hl Hz b lb [Hb Hlb]%lookup_delete_Some Hin. apply Hb.
  by eapply (Hdj hd l b lb z).
Qed.

Lemma unlinked_other m m' l l' x : other_lists [FreeList] m m' →
  m !! FreeList = Some l → m' !! FreeList = Some l' → (∀ z, z ∈ l' → z ∈ l) →
  unlinked m x → unlinked m' x.
Proof.
  intros Ho Hl Hl' Hin Hu hd lh Hlh. destruct (decide (hd = FreeList)) as [->|Hne].
  - assert (lh = l') as -> by congruence. pose proof (Hu _ _ Hl) as [Hx Hx']%not_elem_of_cons.
    rewrite not_elem_of_cons. naive_solver.
  - apply (Hu hd lh). rewrite <- Ho by set_solver. done.
Qed.

Section swap_in.
Context `{K : Kernel} `{SE : SubmitEvt}.
Context (s : usm) (m : gmap loc (list loc)) (f : list nat) (k : nat) (u : list nat).
Context (t j : nat) (v : to_swap) (sn : swap_node) (c : list Z).
Context (Hp : pool s m (k :: f) u) (Hum : 0 ≤ usedMemory s < 2 ^ 64).
Context (Ht : toSwaps s !! t = Some v) (Hj : snode v = Some j)
  (Hsn : swap_nodes (swap_device_one s) !! j = Some sn)
  (Hc : backend (swap_device_one s) !! sn_offset sn = Some c).
Context (Hio1 : file_ok (clock s) = true) (Hio2 : file_ok (S (clock s)) = true).

(** The oldest free page receives the content. *)
Lemma swap_in_ok : ∃ h m' p, pagesList s !! k = Some p ∧
  swap_in t s = Ok 0 (set_toSwaps (<[t := ToSwap (Some k) (swapped_address v) (snode v) (ts_proc v) (retaken v)]> (toSwaps s))
    (set_pagesList (<[k := page_node (Some k) (page_data c p)]> (pagesList s))
      (set_usedMemory (u64 (usedMemory s + 4096)) (set_clock (2 + clock s) (set_links h s))))) ∧
  pool_of h (usmPage s) (pagesList s) (basePFN s) (globalPagesNumber s) m' f u ∧
  dom h = dom (links s) ∧ unlinked m' (NodeIulist k) ∧ other_lists [FreeList] m m' ∧
  ∃ ph, get_next (NodeIulist k) h = Some ph ∧ get_next ph h = None.
Proof.
  destruct (pool_lookup _ _ _ _ Hp k) as (p & Hpk & Hk & _); [set_solver|].
  set (s1 := set_clock (S (clock s)) s).
  destruct (new_head_ok s1 m (k :: f) u Hp) as (h1 & E1 & E1' & Hp1 & D1 & Hph).
  set (ph := Local _) in *.
  destruct (pick_pages_ok (set_links h1 s1) (<[ph := []]> m) (k :: f) u ph [] 1 Hp1 Hum)
    as (h2 & m2 & E2 & Hp2 & D2 & Hm2 & Ho2); [subst ph; clear; set_solver|by rewrite lookup_insert_eq|done|].
  change (take (Z.to_nat 1) (k :: f)) with [k] in *. change (drop (Z.to_nat 1) (k :: f)) with f in Hp2.
  change (m2 !! ph = Some [NodeIulist k]) in Hm2.
  exists (delete ph h2), (delete ph m2), p. split; [done|].
  assert (lists (delete ph h2) (delete ph m2)) as Hl.
  { apply lists_free; [apply lists_delete, Hp2|]. eapply unlinked_delete_in; [apply Hp2|exact Hm2|set_solver]. }
  split; [|split; [|split; [|split; [|split]]]].
  - unfold swap_in. rewrite (to_swap_at_bind _ _ _ _ Ht), Hj, deref_bind, (swap_node_at_bind _ _ _ _ Hsn).
    rewrite file_call_bind, Hio1. cbn [negb]. fold s1. run E1.
    rewrite (list_op_bind _ _ (set_links _ s1) h1 E1'). rewrite set_links_set_links. run E2.
    change (Z.of_nat (base.length [k]) =? 0) with false. cbn [negb].
    erewrite next_of_bind by (eapply lists_first; [apply Hp2|exact Hm2]).
    change (default ph (head [NodeIulist k])) with (NodeIulist k). cbn [node_of_iulist]. rewrite ret_bind.
    erewrite usmPage_of_bind by exact Hk. rewrite gets_bind, file_call_bind.
    change (file_ok (clock _)) with (file_ok (S (clock s))). rewrite Hio2.
    change (backend (swap_device_one _) !! sn_offset sn) with (backend (swap_device_one s) !! sn_offset sn).
    rewrite Hc. erewrite update_page_bind by exact Hpk.
    erewrite (bind_ok (usmSetUsedListNode k k)) by (unfold usmSetUsedListNode, update_page, updates;
      cbn; rewrite list_lookup_insert_eq by (by eapply lookup_lt_Some); reflexivity).
    erewrite update_to_swap_bind by exact Ht. unfold drop_list_head. rewrite modify_bind.
    unfold mret, M_ret. f_equal. same_state; cbn; by rewrite ?Hj, ?list_insert_insert_eq.
  - pose proof Hp2 as []. split; try done.
    + by rewrite lookup_delete_ne by done.
    + by rewrite lookup_delete_ne by done.
    + intros i Hi. destruct (pool_node i Hi). split; [done|].
      rewrite dom_delete, elem_of_difference, elem_of_singleton. split; [done|discriminate].
  - rewrite dom_delete_L, D2. cbn. rewrite D1. pose proof (fresh_local_not_in (links s)).
    subst ph. clear -H. set_solver.
  - eapply unlinked_delete_in; [apply Hp2|exact Hm2|set_solver].
  - intros b Hb. destruct (decide (b = ph)) as [->|Hne].
    + by rewrite lookup_delete_eq, Hph.
    + by rewrite lookup_delete_ne, Ho2, lookup_insert_ne by (clear -Hb Hne; set_solver).
  - exists ph. unfold get_next. rewrite lookup_delete_ne by done. split; [|by rewrite lookup_delete_eq].
    exact (lists_next h2 m2 ph [] (NodeIulist k) [] (pool_lists Hp2) Hm2).
Qed.
End swap_in.

(** * basic_swap *)

(** The swap file holds [c], the content of address [va] of process [org], for
    the page table entry [entry]. *)
Definition swapped_out (s : usm) (m : gmap loc (list loc)) (t : nat) (va org : Z) (c : list Z)
    (entry : Z) : Prop :=
  ∃ j pg rt, toSwaps s !! t = Some (ToSwap pg va (Some j) org rt) ∧
    swap_nodes (swap_device_one s) !! j = Some (SwapNode (Z.of_nat j * 4096) (Some t)) ∧
    backend (swap_device_one s) !! (Z.of_nat j * 4096) = Some c ∧
    entry = swap_entry (Z.of_nat j * 4096) (sd_number (swap_device_one s)) ∧
    Z.of_nat j < 2 ^ 38 ∧ 0 ≤ sd_number (swap_device_one s) < 32 ∧
    SnodeIulist j ∈ dom (links s) ∧ unlinked m (SnodeIulist j).

Section basic_swap.
Context `{K : Kernel} `{SE : SubmitEvt}.

(** A fault on the entry finds the record of the page. *)
Lemma event_to_swap_entry_ok s m t va org c entry : swapped_out s m t va org c entry →
  offst (event s) = entry_offst entry → event_to_swap_entry s = Ok (Some t) s.
Proof.
  intros (j & pg & rt & _ & Hsn & _ & -> & Hj & Hnum & _) He.
  unfold event_to_swap_entry, get_event. rewrite gets_bind, He.
  destruct (entry_roundtrip (Z.of_nat j) (sd_number (swap_device_one s))) as [-> _]; [lia..|].
  rewrite Nat2Z.id. by rewrite (swap_node_at_bind _ _ _ _ Hsn).
Qed.

(** The page and its record after the swap-in. *)
Definition swapped_page (va org : Z) (c : list Z) (k : nat) (p : page) : page :=
  page_process org (page_vaddr va (page_node (Some k) (page_data c p))).

(** A refused submission: the node of the page is used as the head of a list, and
    its only neighbour is the dead head of swap_in. *)
Lemma basic_swap_end_refused t v i n s p ph r : r ≠ 0 →
  pagesList s !! i = Some p → usedListPositionPointer p = Some n →
  get_next (NodeIulist n) (links s) = Some ph → get_next ph (links s) = None →
  basic_swap_end t v i r s = Undef.
Proof.
  intros Hr Hp Hn Hph Hd. unfold basic_swap_end. run (page_node_of_ok _ _ _ _ Hp Hn).
  rewrite (proj2 (Z.eqb_neq _ _) Hr). cbn [negb]. apply bind_undef.
  unfold put_pages, give_back_pages, for_each_safe. rewrite gets_bind.
  unfold list_for_each_safe. erewrite reads_bind by exact Hph. apply bind_undef.
  unfold reads. by rewrite Hd.
Qed.

(** An accepted one: the page is used, the swap node is free, the record is freed. *)
Lemma basic_swap_end_ok t v i s m p j us dfr :
  pagesList s !! i = Some p → usedListPositionPointer p = Some i → snode v = Some j →
  lists (links s) m → m !! UsedList = Some us → m !! DevFreeList = Some dfr →
  NodeIulist i ∈ dom (links s) → SnodeIulist j ∈ dom (links s) →
  unlinked m (NodeIulist i) → unlinked m (SnodeIulist j) →
  ∃ h, basic_swap_end t v i 0 s = Ok 0 (set_toSwaps (delete t (toSwaps s))
      (set_pagesList (<[i := page_process (ts_proc v) (page_vaddr (swapped_address v) p)]> (pagesList s))
        (set_links (delete (ToSwapIulist t) (delete (ToSwapGloblist t) h)) s))) ∧
    dom h = dom (links s) ∧
    lists h (<[DevFreeList := dfr ++ [SnodeIulist j]]> (<[UsedList := NodeIulist i :: us]> m)).
Proof.
  intros Hp Hn Hj Hl Hus Hdfr Hd1 Hd2 Hu1 Hu2.
  destruct (lists_add (links s) m UsedList us (NodeIulist i) Hl Hus Hd1 Hu1) as (h1 & E1 & D1 & Hl1).
  apply (unlinked_cons m UsedList us (NodeIulist i)) in Hu2; [|done..].
  set (s1 := set_pagesList (<[i := page_process (ts_proc v) (page_vaddr (swapped_address v) p)]> (pagesList s)) s).
  destruct (putSwapNode_ok (set_links h1 s1) _ j dfr Hl1) as (h & E & D & Hl');
    [by rewrite lookup_insert_ne|by cbn; rewrite D1|done|].
  exists h. split; [|split; [by rewrite D|done]].
  unfold basic_swap_end. run (page_node_of_ok _ _ _ _ Hp Hn). cbn [Z.eqb negb].
  rewrite (update_page_bind _ _ _ _ _ Hp).
  erewrite update_page_bind by (apply list_lookup_insert_eq; by eapply lookup_lt_Some).
  match goal with |- ?k ?x = _ => replace x with s1 end.
  2: { same_state. cbn. by rewrite list_insert_insert_eq. }
  unfold restore_used_page, give_back_page_used. rewrite (list_op_bind _ _ s1 h1 E1), Hj, deref_bind.
  run E. unfold free_to_swap. rewrite modify_bind. unfold mret, M_ret. by same_result.
Qed.

Lemma basic_swap_step s m f k u t va org c entry mp dfr :
  pool s m (k :: f) u → 0 ≤ usedMemory s < 2 ^ 64 → has_page mp s →
  swapped_out s m t va org c entry → offst (event s) = entry_offst entry →
  m !! DevFreeList = Some dfr →
  file_ok (clock s) = true → file_ok (S (clock s)) = true →
  ∃ s1 r s2, usm_submit_evt s1 = Ok r s2 ∧ has_page mp s1 ∧ clock s1 = S (S (clock s)) ∧
    paddr (event s1) = pfn_of s k ∧ paddr (event s2) = pfn_of s k ∧
    (r ≠ 0 → basic_swap s = Undef) ∧
    (r = 0 → ∃ p h m' j,
       basic_swap s = Ok 0 (set_toSwaps (delete t (toSwaps s))
         (set_pagesList (<[k := swapped_page va org c k p]> (pagesList s))
           (set_usedMemory (u64 (usedMemory s + 4096)) (set_clock (clock s2)
             (set_event (event s2) (set_links (delete (ToSwapIulist t) (delete (ToSwapGloblist t) h)) s)))))) ∧
       pagesList s !! k = Some p ∧ dom h = dom (links s) ∧
       lists h m' ∧ other_lists [FreeList; UsedList; DevFreeList] m m' ∧
       m' !! FreeList = Some (NodeIulist <$> f) ∧ m' !! UsedList = Some (NodeIulist <$> k :: u) ∧
       m' !! DevFreeList = Some (dfr ++ [SnodeIulist j])).
Proof.
  intros Hp Hum Hmp Hso He Hdfr Hio1 Hio2.
  pose proof (event_to_swap_entry_ok _ _ _ _ _ _ _ Hso He) as Hev.
  destruct Hso as (j & pg & rt & Ht & Hsn & Hb & -> & Hj & Hnum & Hjd & Hju).
  destruct (swap_in_ok s m f k u t j _ _ c Hp Hum Ht eq_refl Hsn Hb Hio1 Hio2)
    as (h1 & m1 & p & Hpk & E1 & Hp1 & D1 & Hku & Ho & ph & Hph & Hphn).
  assert (k < base.length (pagesList s))%nat as Hlt by (by eapply lookup_lt_Some).
  set (v1 := ToSwap (Some k) _ _ _ _) in E1. set (s1 := set_toSwaps _ _) in E1.
  set (s2 := set_event (with_paddr (physicalAddress p) (event s1)) s1).
  destruct (submit_step s2 mp) as (r & tt' & mp' & fl & Es & Hmp' & _); [exact Hmp|].
  set (s3 := submitted tt' mp' fl s2) in *.
  assert (basic_swap s = basic_swap_end t v1 k r s3) as Ebs.
  { unfold basic_swap. run Hev. rewrite deref_bind. run E1. cbn [negb Z.eqb].
    rewrite (to_swap_at_bind _ _ s1 v1) by apply lookup_insert_eq.
    change (ts_page v1) with (Some k). rewrite deref_bind.
    erewrite page_at_bind by (by apply list_lookup_insert_eq).
    rewrite update_event_bind. change (physicalAddress _) with (physicalAddress p). fold s2. by run Es. }
  assert (pagesList s3 !! k = Some (page_node (Some k) (page_data c p))) as Hk3
    by (by apply list_lookup_insert_eq).
  exists s2, r, s3. split; [exact Es|]. split; [exact Hmp|]. split; [done|].
  do 2 (split; [exact (proj1 (pool_page Hp k p Hpk))|]). rewrite Ebs. split.
  - intros Hr. by eapply basic_swap_end_refused.
  - intros ->. assert (unlinked m1 (SnodeIulist j)) as Hju1.
    { eapply unlinked_other; [exact Ho|apply Hp|apply Hp1| |exact Hju]. set_solver. }
    destruct (basic_swap_end_ok t v1 k s3 m1 _ j (NodeIulist <$> u) dfr Hk3) as (h & E & D & Hl);
      try done; [apply Hp1|apply Hp1|rewrite Ho; [done|clear; set_solver]|by apply (pool_node Hp1)|by cbn; rewrite D1|].
    eexists p, h, _, j. split; [|split; [done|split; [by rewrite D|split; [exact Hl|]]]].
    + rewrite E. f_equal. same_state; cbn; by rewrite ?delete_insert_eq, ?list_insert_insert_eq.
    + split_and!.
      * intros b Hnb. rewrite !lookup_insert_ne by (clear -Hnb; set_solver). apply Ho. clear -Hnb; set_solver.
      * rewrite !lookup_insert_ne by done. apply Hp1.
      * by rewrite lookup_insert_ne, lookup_insert_eq by done.
      * by rewrite lookup_insert_eq.
Qed.
End basic_swap.

(** * init_swap_device_nodes *)
Lemma new_swap_cells_dom k h : dom (new_swap_cells k h) = list_to_set (SnodeIulist <$> seq 0 k) ∪ dom h.
Proof.
  induction k as [|k IH]; [cbn; by rewrite union_empty_l_L|].
  rewrite seq_S, fmap_app, list_to_set_app_L. cbn [new_swap_cells fmap list_fmap list_to_set].
  rewrite dom_insert_L, IH. set_solver.
Qed.

Lemma new_swap_cells_lists k h m : lists h m → (∀ j, SnodeIulist j ∉ dom h) →
  lists (new_swap_cells k h) m ∧ ∀ j, unlinked m (SnodeIulist j).
Proof.
  intros Hl Hn. assert (∀ j, unlinked m (SnodeIulist j)) as Hu.
  { intros j hd l Hm Hin. apply (Hn j). by eapply lists_dom. }
  split; [|done]. induction k as [|k IH]; [done|]. cbn [new_swap_cells].
  apply lists_alloc; [done|]. rewrite new_swap_cells_dom.
  intros [Hin%elem_of_list_to_set|Hin]%elem_of_union; [|by apply (Hn k)].
  apply list_elem_of_fmap in Hin as (i & [= <-] & Hi%elem_of_seq). lia.
Qed.

(** The nodes that the loop made, the last one first. *)
Definition free_nodes (k : nat) : list loc := SnodeIulist <$> reverse (seq 0 k).
Definition made_nodes (k : nat) : list swap_node := (λ j, SwapNode (Z.of_nat j * 4096) None) <$> seq 0 k.

Lemma free_nodes_S k : free_nodes (S k) = SnodeIulist k :: free_nodes k.
Proof. unfold free_nodes. by rewrite seq_S, reverse_app. Qed.

Lemma init_swap_node_ok s m itr k : lists (links s) m →
  m !! DevFreeList = Some (free_nodes itr) →
  SnodeIulist itr ∈ dom (links s) → unlinked m (SnodeIulist itr) →
  swap_nodes (swap_device_one s) = made_nodes itr ++ replicate (S k) (SwapNode 0 None) →
  ∃ h, init_swap_node itr s =
      Ok tt (set_links h (set_swap_nodes (made_nodes (S itr) ++ replicate k (SwapNode 0 None)) s)) ∧
    dom h = dom (links s) ∧ lists h (<[DevFreeList := free_nodes (S itr)]> m).
Proof.
  intros Hl Hm Hd Hu Hsn. unfold init_swap_node.
  assert (base.length (made_nodes itr) = itr) as Hlen by (unfold made_nodes; by rewrite length_fmap, length_seq).
  assert (swap_nodes (swap_device_one s) !! itr = Some (SwapNode 0 None)) as Hi.
  { rewrite Hsn, lookup_app_r by lia. by rewrite Hlen, Nat.sub_diag. }
  run (update_swap_node_ok itr (λ v, SwapNode (Z.of_nat itr * SYS_PAGE_SIZE) (toSwapHolder v)) s _ Hi). cbn [toSwapHolder].
  assert (<[itr := SwapNode (Z.of_nat itr * SYS_PAGE_SIZE) None]> (swap_nodes (swap_device_one s)) =
    made_nodes (S itr) ++ replicate k (SwapNode 0 None)) as ->.
  { rewrite Hsn. unfold made_nodes at 2. rewrite seq_S, fmap_app, <- app_assoc.
    rewrite <- Hlen at 1. rewrite <- (Nat.add_0_r (base.length _)), insert_app_r. done. }
  set (s1 := set_swap_nodes _ s).
  destruct (lists_init (links s) m (SnodeIulist itr) Hl Hd Hu) as (h1 & E1 & D1 & Hl1).
  rewrite (list_op_bind _ _ s1 h1 E1).
  assert (lists h1 m) as Hl1'.
  { apply (lists_delete _ _ (SnodeIulist itr)) in Hl1. rewrite delete_insert_id in Hl1; [done|].
    destruct (m !! SnodeIulist itr) as [l|] eqn:E; [|done]. destruct (Hu _ _ E). set_solver. }
  destruct (lists_add h1 m DevFreeList (free_nodes itr) (SnodeIulist itr) Hl1' Hm) as (h & E & D & Hl');
    [by rewrite D1|done|].
  exists h. rewrite free_nodes_S. split; [|split; [congruence|exact Hl']].
  rewrite (list_op_ok _ (set_links h1 s1) h E). by rewrite set_links_set_links.
Qed.

Lemma init_swap_nodes_ok k : ∀ itr s m, lists (links s) m →
  m !! DevFreeList = Some (free_nodes itr) →
  (∀ j, (itr ≤ j < itr + k)%nat → SnodeIulist j ∈ dom (links s) ∧ unlinked m (SnodeIulist j)) →
  swap_nodes (swap_device_one s) = made_nodes itr ++ replicate k (SwapNode 0 None) →
  ∃ h, init_swap_nodes itr k s =
      Ok tt (set_links h (set_swap_nodes (made_nodes (itr + k)) s)) ∧
    dom h = dom (links s) ∧ lists h (<[DevFreeList := free_nodes (itr + k)]> m).
Proof.
  induction k as [|k IH]; intros itr s m Hl Hm Hj Hsn.
  - exists (links s). rewrite Nat.add_0_r, insert_id by done. split; [|done].
    cbn [init_swap_nodes]. unfold mret, M_ret. f_equal. same_state. cbn.
    rewrite app_nil_r in Hsn. rewrite <- Hsn. by destruct (swap_device_one s).
  - destruct (Hj itr) as [Hd Hu]; [lia|].
    destruct (init_swap_node_ok s m itr k Hl Hm Hd Hu Hsn) as (h1 & E1 & D1 & Hl1).
    cbn [init_swap_nodes]. run E1. set (s1 := set_links h1 _).
    destruct (IH (S itr) s1 (<[DevFreeList := free_nodes (S itr)]> m)) as (h & E & D & Hl').
    + done.
    + by rewrite lookup_insert_eq.
    + intros j Hr. destruct (Hj j) as [Hd' Hu']; [lia|]. split; [cbn; by rewrite D1|].
      rewrite free_nodes_S. apply unlinked_cons; [done..|]. intros [= ->]. lia.
    + done.
    + exists h. replace (itr + S k)%nat with (S itr + k)%nat by lia. rewrite insert_insert_eq in Hl'.
      split; [|split; [by rewrite D|done]]. rewrite E. by same_result.
Qed.

(** The two list heads of the device. *)
Lemma init_device_heads h m : lists h m → DevSwapList ∉ dom h → DevFreeList ∉ dom h →
  let h0 := <[DevSwapList := ListHead NULL NULL]> (<[DevFreeList := ListHead NULL NULL]> h) in
  ∃ h1 h2, INIT_LIST_HEAD DevSwapList h0 = Some h1 ∧ INIT_LIST_HEAD DevFreeList h1 = Some h2 ∧
    lists h2 (<[DevFreeList := []]> (<[DevSwapList := []]> m)) ∧
    dom h2 = {[DevSwapList; DevFreeList]} ∪ dom h.
Proof.
  intros Hl H1 H2 h0.
  destruct (lists_alloc h m DevFreeList (ListHead NULL NULL) Hl H2) as [Hl1 Hu1].
  destruct (lists_alloc _ m DevSwapList (ListHead NULL NULL) Hl1) as [Hl2 Hu2];
    [rewrite dom_insert; set_solver|].
  destruct (lists_init _ m DevSwapList Hl2) as (h3 & E3 & D3 & Hl3); [rewrite dom_insert; set_solver|done|].
  destruct (lists_init h3 (<[DevSwapList := []]> m) DevFreeList Hl3) as (h4 & E4 & D4 & Hl4).
  { rewrite D3, !dom_insert. set_solver. }
  { apply unlinked_insert; [done|done|set_solver]. }
  exists h3, h4. split_and!; [done..|]. rewrite D4, D3, !dom_insert_L. set_solver.
Qed.

Lemma init_swap_device_ok s m size : lists (links s) m →
  DevSwapList ∉ dom (links s) → DevFreeList ∉ dom (links s) → (∀ j, SnodeIulist j ∉ dom (links s)) →
  0 ≤ size ≤ 2 ^ 61 → size `mod` 4096 = 0 →
  let k := Z.to_nat (size `div` 4096) in
  ∃ h, init_swap_device_nodes size s = Ok 0 (set_links h (set_swap_nodes (made_nodes k) s)) ∧
    lists h (<[DevFreeList := free_nodes k]> (<[DevSwapList := []]> m)) ∧
    dom h = list_to_set (SnodeIulist <$> seq 0 k) ∪ ({[DevSwapList; DevFreeList]} ∪ dom (links s)).
Proof.
  intros Hl H1 H2 H3 Hsz Hmod k.
  destruct (init_device_heads (links s) m Hl H1 H2) as (h3 & h4 & E3 & E4 & Hl4 & Hdom).
  destruct (new_swap_cells_lists k h4 _ Hl4) as [Hl5 Hu5]; [intros j; rewrite Hdom; set_solver|].
  set (s5 := set_links (new_swap_cells k h4) (set_swap_nodes (replicate k (SwapNode 0 None)) s)).
  destruct (init_swap_nodes_ok k 0 s5 (<[DevFreeList := []]> (<[DevSwapList := []]> m))) as (h & E & D & Hl');
    [done|by rewrite lookup_insert_eq| |done|].
  { intros j Hj. split; [|done]. cbn. rewrite new_swap_cells_dom, elem_of_union, elem_of_list_to_set.
    left. apply list_elem_of_fmap. exists j. split; [done|]. apply elem_of_seq. lia. }
  exists h. rewrite insert_insert_eq in Hl'. split; [|split; [done|]].
  - unfold init_swap_device_nodes. rewrite modify_bind. erewrite list_op_bind by exact E3.
    erewrite list_op_bind by exact E4. unfold SYS_PAGE_SIZE. rewrite Hmod.
    destruct (Z.ltb_spec (2 ^ 61) size); [lia|]. cbn [Z.eqb negb orb]. fold k. rewrite modify_bind.
    match goal with |- context [(init_swap_nodes 0 k ≫= _) ?x] => replace x with s5 end.
    + by run E.
    + same_state.
  - rewrite D. cbn. by rewrite new_swap_cells_dom, Hdom.
Qed.

(** * Theorems *)

(** A channel whose kernel accepts every submission. *)
Definition accepts_all `{SubmitEvt} : Prop :=
  ∀ s mp, has_page mp s → ∃ s', usm_submit_evt s = Ok 0 s'.

(** A channel that accepts what is submitted at time [t]. *)
Definition accepts_at `{SubmitEvt} (t : nat) : Prop :=
  ∀ s mp, has_page mp s → clock s = t → ∃ s', usm_submit_evt s = Ok 0 s'.

Lemma reply_submits r (Hr : s32 r ≠ 2) s mp : has_page mp s →
  ∃ s', @usm_submit_evt (@usm_cnl_mem_ops (prompt_reply r Hr)) s =
        Ok (if s32 r =? 3 then 0 else s32 r) s'.
Proof.
  intros Hp. destruct (submission_ok (event s) mp (proj2 Hp)) as (m0 & E0 & V0 & _ & _ & Hst & _).
  pose proof (reply_answers r (clock s) m0 Hr V0 Hst) as Ha.
  destruct (usm_mem_subm_ev_spec (K := reply_kernel r) s mp m0 _ _ 1 Hp E0 Ha ltac:(lia))
    as (r' & f & m'' & Hr' & _ & _ & _ & _ & _ & E).
  exists (submitted (S (clock s)) m'' f s). unfold reply in Hr'. rewrite decide_True in Hr' by done.
  destruct (store_valid m0 V0 4 status_off r) as (m' & E' & _); [done..|].
  rewrite E' in Hr'. cbn in Hr'. unfold status_of in Hr'. rewrite (load_store_same _ _ _ _ _ E') in Hr'.
  injection Hr' as <-. change (8 * Z.of_nat 4) with 32 in E.
  assert (s32 (r `mod` 2 ^ 32) = s32 r) as Hs by (unfold s32, u32; by rewrite Z.mod_mod by done).
  rewrite Hs in E. exact E.
Qed.

Lemma accepting_accepts : accepts_all (H := accepting).
Proof. intros s mp Hp. exact (reply_submits 3 _ s mp Hp). Qed.

Section theorems.
Context `{K : Kernel} `{SE : SubmitEvt}.

(** a swap entry survives the page table. The node index that swap_value
    encodes at bit 9 comes back from event_to_swap_entry after the channel has
    scaled the entry by the page size, for every device of up to 2^38 nodes;
    the device number does not: every entry decodes to device 0. *)
Theorem swap_entry_roundtrip idx number : 0 ≤ idx < 2 ^ 38 → 0 ≤ number < 32 →
  entry_index (entry_offst (swap_entry (idx * 4096) number)) = idx ∧
  entry_device (entry_offst (swap_entry (idx * 4096) number)) = 0.
Proof. apply entry_roundtrip. Qed.

(** init_swap_device_nodes makes size / 4096 nodes, node j at offset 4096 j,
    all of them in the free list of the device; a size that is not a multiple
    of the page size is refused. *)
Theorem swap_device_ready s m size : lists (links s) m →
  DevSwapList ∉ dom (links s) → DevFreeList ∉ dom (links s) → (∀ j, SnodeIulist j ∉ dom (links s)) →
  0 ≤ size ≤ 2 ^ 61 →
  (size `mod` 4096 = 0 → ∃ s' m' fl, init_swap_device_nodes size s = Ok 0 s' ∧ lists (links s') m' ∧
     m' !! DevFreeList = Some (SnodeIulist <$> fl) ∧ fl ≡ₚ seq 0 (Z.to_nat (size `div` 4096)) ∧
     (∀ j, (j < Z.to_nat (size `div` 4096))%nat →
        swap_nodes (swap_device_one s') !! j = Some (SwapNode (Z.of_nat j * 4096) None)) ∧
     ∀ x, x ≠ DevFreeList → x ≠ DevSwapList → m' !! x = m !! x) ∧
  (size `mod` 4096 ≠ 0 → ∃ s', init_swap_device_nodes size s = Ok 1 s').
Proof.
  intros Hl H1 H2 H3 Hsz. split.
  - intros Hmod. destruct (init_swap_device_ok s m size Hl H1 H2 H3 Hsz Hmod) as (h & E & Hl' & _).
    eexists _, _, _. split; [exact E|]. split; [exact Hl'|]. split; [by rewrite lookup_insert_eq|].
    split; [by rewrite reverse_Permutation|]. split.
    + intros j Hj. cbn. unfold made_nodes. rewrite list_lookup_fmap, lookup_seq_lt by lia. done.
    + intros x Hx1 Hx2. by rewrite !lookup_insert_ne by done.
  - intros Hmod. destruct (init_device_heads (links s) m Hl H1 H2) as (h3 & h4 & E3 & E4 & _).
    unfold init_swap_device_nodes. rewrite modify_bind. erewrite list_op_bind by exact E3.
    erewrite list_op_bind by exact E4. unfold SYS_PAGE_SIZE.
    rewrite (proj2 (Z.eqb_neq _ _) Hmod). by eexists.
Qed.

(** What makes an eviction succeed: the kernel replaces the page, the swap file
    can be written, and the uninitialised field [retaken] happens to be 0. *)
Definition evict_succeeds (s : usm) (n : nat) (p : page) (j : nat) (sn : swap_node) : Prop :=
  replaces (S (clock s)) s (victim_entry s n p j) sn = true ∧
  file_ok (2 + clock s) = true ∧ file_ok (3 + clock s) = true ∧ malloc_value (clock s) = 0.

(** The nodes of a device made by [init_swap_device_nodes]. *)
Definition device_node (s : usm) (j : nat) (sn : swap_node) : Prop :=
  sn_offset sn = Z.of_nat j * 4096 ∧ Z.of_nat j < 2 ^ 38 ∧ 0 ≤ sd_number (swap_device_one s) < 32.

Lemma evict_to_swap s m f n u p j sn dfr sc psl sl :
  evictable s m f n u p j sn dfr sc psl sl → device_node s j sn → evict_succeeds s n p j sn →
  ∃ s' m', handle_evict_request s = Ok tt s' ∧ pool s' m' (n :: f) u ∧ to_swaps_ok s' ∧
    swapped_out s' m' (fresh_to_swap s) (virtualAddress p) (process p) (data p) (entry_of s sn) ∧
    m' !! ProcSwapList (process p) = Some (ToSwapIulist (fresh_to_swap s) :: psl) ∧
    m' !! SwapList = Some (ToSwapGloblist (fresh_to_swap s) :: sl) ∧
    m' !! DevFreeList = Some dfr ∧
    pagesList s' = pagesList s ∧ event s' = event s ∧ clock s' = (4 + clock s)%nat ∧ basePFN s' = basePFN s ∧
    usedMemory s' = u64 (usedMemory s - 4096) ∧ swappedMemory s' = u64 (swappedMemory s + 4096).
Proof.
  intros H (Ho & Hj & Hnum) (Hr & Hio1 & Hio2 & Hrt).
  destruct (evict_ok _ _ _ _ _ _ _ _ _ _ _ _ H Hr Hio1 Hio2 Hrt) as (h & E & D & Hl & Huj).
  pose proof (ev_pool H) as Hp.
  assert (∃ s', handle_evict_request s = Ok tt s' ∧ links s' = h ∧ usmPage s' = usmPage s ∧
    pagesList s' = pagesList s ∧ basePFN s' = basePFN s ∧ globalPagesNumber s' = globalPagesNumber s ∧
    toSwaps s' = <[fresh_to_swap s := victim_entry s n p j]> (toSwaps s) ∧
    swap_device_one s' = SwapDev (sd_number (swap_device_one s))
      (<[sn_offset sn := data p]> (backend (swap_device_one s)))
      (<[j := SwapNode (sn_offset sn) (Some (fresh_to_swap s))]> (swap_nodes (swap_device_one s))) ∧
    event s' = event s ∧ clock s' = (4 + clock s)%nat ∧ usedMemory s' = u64 (usedMemory s - 4096) ∧
    swappedMemory s' = u64 (swappedMemory s + 4096)) as (s' & E' & Fl & Fu & Fp & Fb & Fg & Ft & Fd & Fe & Fc & Fm & Fs)
    by (eexists; split; [exact E|]; split_and!; reflexivity). clear E.
  eexists s', _. split; [exact E'|]. split; [|split; [|split]].
  - unfold pool. rewrite Fl, Fu, Fp, Fb, Fg.
    apply (evicted_pool s m f n u p j sn dfr sc psl sl H); [exact D|exact Hl| | |set_solver].
    + by rewrite lookup_insert_eq.
    + by rewrite !lookup_insert_ne, lookup_insert_eq by done.
  - intros t'. rewrite Fl, Ft, <- D, lookup_insert_is_Some'. intros Ht'.
    destruct (decide (t' = fresh_to_swap s)) as [->|Hne]; [by left|]. right.
    apply (ev_entries H). set_solver.
  - exists j, (Some n), 0. rewrite Ft, Fd, Fl, Ho. cbn [swap_nodes backend sd_number].
    split_and!; try done; try lia.
    + rewrite lookup_insert_eq. unfold victim_entry. by rewrite Hrt.
    + rewrite list_lookup_insert_eq by (eapply lookup_lt_Some, (ev_snode H)). done.
    + by rewrite lookup_insert_eq.
    + unfold entry_of. by rewrite Ho.
    + rewrite <- D. apply elem_of_union_r.
      eapply lists_dom; [apply Hp|apply (ev_device H)|set_solver].
  - split_and!; try done.
    + by rewrite !lookup_insert_ne, lookup_insert_eq by done.
    + by rewrite lookup_insert_ne, lookup_insert_eq by done.
    + by rewrite !lookup_insert_ne, lookup_insert_eq by done.
Qed.

Lemma unlinked_delete_other m hd x : unlinked m x → unlinked (delete hd m) x.
Proof. intros Hu b lb [_ Hb]%lookup_delete_Some. by eapply Hu. Qed.

(** Freeing a record that is the first entry of two lists. *)
Lemma dangling h m t org psl sl : lists h m →
  m !! ProcSwapList org = Some (ToSwapIulist t :: psl) →
  m !! SwapList = Some (ToSwapGloblist t :: sl) →
  let h' := delete (ToSwapIulist t) (delete (ToSwapGloblist t) h) in
  lists h' (delete SwapList (delete (ProcSwapList org) m)) ∧
  get_next (ProcSwapList org) h' = Some (ToSwapIulist t) ∧
  get_next SwapList h' = Some (ToSwapGloblist t) ∧
  (ToSwapIulist t ∉ dom h') ∧ ToSwapGloblist t ∉ dom h'.
Proof.
  intros Hl Hpsl Hsl h'. pose proof (lists_first _ _ _ _ Hl Hpsl) as H1.
  pose proof (lists_first _ _ _ _ Hl Hsl) as H2. cbn in H1, H2. split.
  - apply lists_free; [apply lists_free; [by do 2 apply lists_delete|]|].
    + rewrite delete_delete. apply unlinked_delete_other.
      eapply unlinked_delete_in; [exact Hl|exact Hsl|set_solver].
    + apply unlinked_delete_other. eapply unlinked_delete_in; [exact Hl|exact Hpsl|set_solver].
  - unfold get_next, h' in *. rewrite !lookup_delete_ne by done. split_and!; [done..| |];
      rewrite !dom_delete; set_solver.
Qed.

Lemma basic_swap_restores s m f k u t va org c entry mp dfr psl sl :
  pool s m (k :: f) u → 0 ≤ usedMemory s < 2 ^ 64 → has_page mp s →
  swapped_out s m t va org c entry → offst (event s) = entry_offst entry →
  m !! DevFreeList = Some dfr → m !! ProcSwapList org = Some (ToSwapIulist t :: psl) →
  m !! SwapList = Some (ToSwapGloblist t :: sl) →
  file_ok (clock s) = true → file_ok (S (clock s)) = true → accepts_at (S (S (clock s))) →
  ∃ s' m' p, basic_swap s = Ok 0 s' ∧ pool s' m' f (k :: u) ∧
    pagesList s !! k = Some p ∧ pagesList s' = <[k := swapped_page va org c k p]> (pagesList s) ∧
    paddr (event s') = pfn_of s k ∧ usedMemory s' = u64 (usedMemory s + 4096) ∧
    swappedMemory s' = swappedMemory s ∧ toSwaps s' = delete t (toSwaps s) ∧
    get_next (ProcSwapList org) (links s') = Some (ToSwapIulist t) ∧
    get_next SwapList (links s') = Some (ToSwapGloblist t) ∧
    (ToSwapIulist t ∉ dom (links s')) ∧ ToSwapGloblist t ∉ dom (links s').
Proof.
  intros Hp Hum Hmp Hso He Hdfr Hpsl Hsl Hio1 Hio2 Hacc.
  destruct (basic_swap_step s m f k u t va org c entry mp dfr) as
    (s1 & r & s2 & Es & Hmp1 & Hc1 & _ & Hpa & _ & Hok); [done..|].
  destruct (Hacc s1 mp Hmp1 Hc1) as (s2' & Es'). assert (r = 0) as -> by congruence.
  destruct (Hok eq_refl) as (p & h & m' & j & E & Hpk & D & Hl & Ho & Hf & Hu & _). clear Hok Es Es'.
  destruct (dangling h m' t org psl sl Hl) as (Hl' & G1 & G2 & G3 & G4);
    [by rewrite Ho by (clear; set_solver)..|].
  set (h' := delete (ToSwapIulist t) _) in *.
  assert (∃ s', basic_swap s = Ok 0 s' ∧ links s' = h' ∧ usmPage s' = usmPage s ∧
    pagesList s' = <[k := swapped_page va org c k p]> (pagesList s) ∧ basePFN s' = basePFN s ∧
    globalPagesNumber s' = globalPagesNumber s ∧ event s' = event s2 ∧
    usedMemory s' = u64 (usedMemory s + 4096) ∧ swappedMemory s' = swappedMemory s ∧
    toSwaps s' = delete t (toSwaps s)) as (s' & E' & Fl & Fu & Fp & Fb & Fg & Fe & Fm & Fs & Ft)
    by (eexists; split; [exact E|]; split_and!; reflexivity). clear E.
  exists s', (delete SwapList (delete (ProcSwapList org) m')), p.
  rewrite Fl, Fe. split_and!; try done.
  unfold pool. rewrite Fl, Fu, Fp, Fb, Fg.
  eapply pool_repage; [|exact Hpk|done|by left].
  pose proof Hp as [Q1 Q2 Q3 Q4 Q5 Q6 Q7 Q8 Q9]. split; try done.
  - by rewrite !lookup_delete_ne by done.
  - by rewrite !lookup_delete_ne by done.
  - intros i Hi. destruct (Q8 i Hi) as [? Hin]. split; [done|]. subst h'.
    rewrite !dom_delete, D. clear -Hin. set_solver.
  - intros i Hi. apply Q9. clear -Hi. set_solver.
Qed.

(** C24: an eviction that succeeds. The oldest used page goes to the front of the
    free list; the swap file holds its content under the entry that replaced
    it, and the record of the page is in the lists of its process and of the
    daemon. The memory counters move one page from used to swapped. The frame
    itself keeps the old content. *)
Theorem evict_swaps_out s m f n u p j sn dfr sc psl sl :
  evictable s m f n u p j sn dfr sc psl sl → device_node s j sn → evict_succeeds s n p j sn →
  let t := fresh_to_swap s in
  ∃ s' m', handle_evict_request s = Ok tt s' ∧ pool s' m' (n :: f) u ∧
    swapped_out s' m' t (virtualAddress p) (process p) (data p) (entry_of s sn) ∧
    m' !! ProcSwapList (process p) = Some (ToSwapIulist t :: psl) ∧
    m' !! SwapList = Some (ToSwapGloblist t :: sl) ∧ m' !! DevFreeList = Some dfr ∧
    pagesList s' = pagesList s ∧
    usedMemory s' = u64 (usedMemory s - 4096) ∧ swappedMemory s' = u64 (swappedMemory s + 4096).
Proof.
  intros H Hd Hs t. destruct (evict_to_swap s m f n u p j sn dfr sc psl sl H Hd Hs)
    as (s' & m' & E & Hp & _ & Hso & H1 & H2 & H3 & H4 & _ & _ & _ & H5 & H6).
  exists s', m'. done.
Qed.

(** ** Between the eviction and the fault

    Other faults are served, the kernel frees used pages, and the processes
    write to any frame. *)
Definition served (s : usm) (req : request) : Prop :=
  match req with
  | Alloc _ _ => True
  | PFree pfn => ∃ m f u n, pool s m f u ∧ n ∈ u ∧ pfn = pfn_of s n
  end.

Inductive interlude (s0 : usm) : usm → Prop :=
| il_start : interlude s0 s0
| il_request s req r s' :
    interlude s0 s → served s req → handle req s = Ok r s' → interlude s0 s'
| il_write s i p c :
    interlude s0 s → pagesList s !! i = Some p →
    interlude s0 (set_pagesList (<[i := page_data c p]> (pagesList s)) s).

(** Every page knows its node, as [init] leaves them. *)
Definition linked_pages (s : usm) : Prop :=
  ∀ i p, pagesList s !! i = Some p → usedListPositionPointer p = Some i.

Lemma linked_pages_insert s n q : linked_pages s → usedListPositionPointer q = Some n →
  ∀ i p, <[n := q]> (pagesList s) !! i = Some p → usedListPositionPointer p = Some i.
Proof.
  intros Hlp Hq i p [(<- & <- & _)|[_ Hi]]%list_lookup_insert_Some; [exact Hq|by apply Hlp].
Qed.

(** What the fault relies on: a pool with whatever pages, and the record of the
    content [c] of the swapped page in front of its lists. *)
Record awaiting (s : usm) (t : nat) (va org : Z) (c : list Z) (entry base : Z)
    (dfr psl sl : list loc) : Prop := {
  aw_memory : 0 ≤ usedMemory s < 2 ^ 64;
  aw_page : ∃ mp, has_page mp s;
  aw_linked : linked_pages s;
  aw_base : basePFN s = base;
  aw_lists : ∃ m f u, pool s m f u ∧ swapped_out s m t va org c entry ∧
    m !! DevFreeList = Some dfr ∧ m !! ProcSwapList org = Some (ToSwapIulist t :: psl) ∧
    m !! SwapList = Some (ToSwapGloblist t :: sl);
}.

Lemma swapped_out_frame s s' m m' t va org c entry :
  swapped_out s m t va org c entry → toSwaps s' = toSwaps s →
  swap_device_one s' = swap_device_one s → dom (links s') = dom (links s) →
  (∀ x, unlinked m (SnodeIulist x) → unlinked m' (SnodeIulist x)) →
  swapped_out s' m' t va org c entry.
Proof.
  intros (j & pg & rt & H1 & H2 & H3 & H4 & H5 & H6 & H7 & H8) Et Ed El Hu.
  exists j, pg, rt. rewrite Et, Ed, El. split_and!; try done; [lia..|by apply Hu].
Qed.

(** Moving nodes of pages between the lists of the pool links no swap node. *)
Lemma pool_unlinked s m f u s' m' f' u' x : pool s m f u → pool s' m' f' u' →
  other_lists [FreeList; UsedList] m m' → unlinked m (SnodeIulist x) → unlinked m' (SnodeIulist x).
Proof.
  intros Hp Hp' Ho Hu hd lh Hlh.
  destruct (decide (hd ∈ [FreeList; UsedList])) as [Hin|Hnin]; [|apply (Hu hd lh); by rewrite <- Ho].
  assert (∃ l, lh = NodeIulist <$> l) as [l ->].
  { apply list_elem_of_In in Hin. cbn in Hin. destruct Hin as [<-|[<-|[]]].
    - exists f'. pose proof (pool_free Hp'). congruence.
    - exists u'. pose proof (pool_used Hp'). congruence. }
  rewrite elem_of_cons, list_elem_of_fmap. intros [<-|(y & ? & _)]; [|done].
  apply list_elem_of_In in Hin. cbn in Hin. naive_solver.
Qed.

Section interlude.
Context (t : nat) (va org : Z) (c : list Z) (entry base : Z) (dfr psl sl : list loc).

Let kept s := awaiting s t va org c entry base dfr psl sl.

(** A step of the pool that leaves the swap alone. *)
Lemma awaiting_step s m f u s' m' f' u' : kept s → pool s m f u → pool s' m' f' u' →
  swapped_out s m t va org c entry → m !! DevFreeList = Some dfr →
  m !! ProcSwapList org = Some (ToSwapIulist t :: psl) → m !! SwapList = Some (ToSwapGloblist t :: sl) →
  frame s s' → other_lists [FreeList; UsedList] m m' →
  0 ≤ usedMemory s' < 2 ^ 64 → (∃ mp, has_page mp s') → linked_pages s' → kept s'.
Proof.
  intros [_ _ _ Hb _] Hp Hp' Hso H1 H2 H3 Hfr Ho Hum Hmp Hlp. split; [done..|by rewrite (frame_base _ _ Hfr)|].
  exists m', f', u'. split; [done|]. split_and!.
  - eapply swapped_out_frame; [exact Hso|apply Hfr..|]. intros x. by eapply pool_unlinked.
  - by rewrite Ho by (clear; set_solver).
  - by rewrite Ho by (clear; set_solver).
  - by rewrite Ho by (clear; set_solver).
Qed.

Lemma awaiting_event s e : kept s → usmmem e = usmmem (event s) → kept (set_event e s).
Proof.
  intros [H1 [mp [H2 H2']] H3 H4 H5] He. split; try done. exists mp. split; [|done]. cbn. congruence.
Qed.

Lemma awaiting_request s req r s' : kept s → served s req → handle req s = Ok r s' → kept s'.
Proof.
  intros Hk Hs Hh. destruct req as [va' org'|pfn]; cbn [handle] in Hh; rewrite update_event_bind in Hh.
  - match type of Hh with basic_alloc_uniq ?x = _ => set (s0 := x) in * end.
    assert (kept s0) as Hk0 by (by apply awaiting_event). clearbody s0. clear Hk Hs s.
    pose proof Hk0 as [Hum [mp Hmp] Hlp _ (m & f & u & Hp & Hso & H1 & H2 & H3)].
    destruct f as [|n f].
    { rewrite (basic_alloc_uniq_empty s0 m u Hp) in Hh. by injection Hh as _ <-. }
    destruct (basic_alloc_uniq_ok s0 m n f u mp Hp Hmp Hum)
      as (r' & s'' & m' & mp' & E & Hfr & Hmp' & _ & _ & Ho & Hcase).
    assert (s'' = s') as -> by congruence. destruct Hcase as [(_ & Hp' & (p & Ep & Epl) & Em)|(_ & Hp' & Epl & Em)].
    + eapply (awaiting_step s0 m); try done; [rewrite Em; apply Z.mod_pos_bound; lia|by exists mp'|].
      unfold linked_pages. rewrite Epl. apply linked_pages_insert; [done|exact (Hlp n p Ep)].
    + eapply (awaiting_step s0 m); try done; [by rewrite Em|by exists mp'|by unfold linked_pages; rewrite Epl].
  - match type of Hh with pindex_free ?x = _ => set (s0 := x) in * end.
    assert (kept s0) as Hk0 by (by apply awaiting_event).
    destruct Hs as (m0 & f0 & u0 & n & Hp0 & Hn & ->).
    pose proof Hk0 as [Hum [mp Hmp] Hlp _ (m & f & u & Hp & Hso & H1 & H2 & H3)].
    destruct (pool_fun s m0 m f0 f u0 u Hp0 Hp) as [-> ->].
    apply list_elem_of_split in Hn as (u1 & u2 & ->).
    destruct (pool_lookup _ _ _ _ Hp n) as (p & Ep & _); [set_solver|].
    destruct (pindex_free_ok s0 m f u1 n u2 p Hp eq_refl Ep (Hlp n p Ep))
      as (s'' & m' & E & Hfr & Eev & _ & Hp' & Epl & Em & Ho).
    assert (s'' = s') as -> by congruence.
    eapply (awaiting_step s0 m); try done.
    + rewrite Em. apply Z.mod_pos_bound. lia.
    + exists mp. destruct Hmp as [Hm Hv]. split; [by rewrite Eev|done].
    + unfold linked_pages. rewrite Epl. by apply linked_pages_insert.
Qed.

Lemma awaiting_write s i p d : kept s → pagesList s !! i = Some p →
  kept (set_pagesList (<[i := page_data d p]> (pagesList s)) s).
Proof.
  intros [Hum Hmp Hlp Hb (m & f & u & Hp & Hrest)] Hi. split; try done.
  - exact (linked_pages_insert s i (page_data d p) Hlp (Hlp i p Hi)).
  - exists m, f, u. split; [|exact Hrest]. eapply pool_repage; [exact Hp|exact Hi|done|]. left. exact (Hlp i p Hi).
Qed.

Lemma interlude_awaiting s s' : kept s → interlude s s' → kept s'.
Proof.
  induction 2; [done|by eapply awaiting_request|by apply awaiting_write].
Qed.
End interlude.

(** C4: a page survives its journey through the swap file. After an eviction that
    succeeds, the default policy serves any requests (faults, whose submissions are
    accepted or refused, and frees of used pages) and the processes write anything to any frame.
    The fault on the entry that replaced the page then takes the oldest free
    frame [k], whichever that is and whatever it holds by then, reads the old
    content into it, records the old address and process, submits the PFN of
    [k], counts the page, and changes no other frame. Conditions: the swap file
    can be read, the channel accepts that submission, a frame is free, there were no
    further evictions or swap-ins in between, and every page is linked to its node, as the start
    leaves them. *)
Theorem evict_fault_roundtrip s m f n u p j sn dfr sc psl sl mp :
  evictable s m f n u p j sn dfr sc psl sl → device_node s j sn → evict_succeeds s n p j sn →
  0 ≤ usedMemory s < 2 ^ 64 → has_page mp s → linked_pages s →
  ∃ s1, handle_evict_request s = Ok tt s1 ∧
  ∀ s1' m1' k f' u' e mp', interlude s1 s1' → pool s1' m1' (k :: f') u' →
    offst e = entry_offst (entry_of s sn) → usmmem e = Some mp' → valid_page mp' →
    file_ok (clock s1') = true → file_ok (S (clock s1')) = true → accepts_at (S (S (clock s1'))) →
    ∃ s2 m2 q, basic_swap (set_event e s1') = Ok 0 s2 ∧
      pool s2 m2 f' (k :: u') ∧ paddr (event s2) = pfn_of s k ∧
      usedMemory s2 = u64 (usedMemory s1' + 4096) ∧
      pagesList s2 !! k = Some q ∧ data q = data p ∧ virtualAddress q = virtualAddress p ∧
      process q = process p ∧ physicalAddress q = pfn_of s k ∧
      ∀ i, i ≠ k → pagesList s2 !! i = pagesList s1' !! i.
Proof.
  intros H Hd Hs Hum Hmp Hlp.
  destruct (evict_to_swap s m f n u p j sn dfr sc psl sl H Hd Hs)
    as (s1 & m1 & E & Hp & _ & Hso & H1 & H2 & H3 & H4 & H5 & Hc & Hb & Hmem & _).
  exists s1. split; [exact E|]. intros s1' m1' k f' u' e mp' Hil Hp1 He Hm Hv Hio1 Hio2 Hacc.
  assert (awaiting s1' (fresh_to_swap s) (virtualAddress p) (process p) (data p) (entry_of s sn)
    (basePFN s) dfr psl sl) as [Hum' _ _ Hb' (m' & f0 & u0 & Hp' & Hso' & G1 & G2 & G3)].
  { eapply interlude_awaiting; [|exact Hil]. split.
    - rewrite Hmem. apply Z.mod_pos_bound. lia.
    - exists mp. destruct Hmp. split; [by rewrite H5|done].
    - unfold linked_pages. by rewrite H4.
    - done.
    - by exists m1, (n :: f), u. }
  destruct (pool_fun _ _ _ _ _ _ _ Hp' Hp1) as [-> ->].
  destruct (basic_swap_restores (set_event e s1') m' f' k u' (fresh_to_swap s) (virtualAddress p) (process p)
    (data p) (entry_of s sn) mp' dfr psl sl) as (s2 & m2 & p1 & E2 & Hp2 & Hpn & Epl & Epa & Eum & _);
    try done.
  cbn in Eum, Hpn, Epl. assert (pfn_of s1' k = pfn_of s k) as Epf by (unfold pfn_of; by rewrite Hb').
  exists s2, m2, (swapped_page (virtualAddress p) (process p) (data p) k p1).
  rewrite Epl, list_lookup_insert_eq by (by eapply lookup_lt_Some). rewrite <- Epf.
  split_and!; try done; [exact (proj1 (pool_page Hp1 k p1 Hpn))|].
  intros i Hi. by rewrite list_lookup_insert_ne.
Qed.

(** C36: an eviction that the kernel refuses, or whose record comes with a nonzero
    [retaken] (a field that is never initialised), loses the page: it is in no
    list of the daemon afterwards, and [usedMemory] still counts it. *)
Theorem evict_loses_page s m f n u p j sn dfr sc psl sl :
  evictable s m f n u p j sn dfr sc psl sl →
  (replaces (S (clock s)) s (victim_entry s n p j) sn = false ∨
   (replaces (S (clock s)) s (victim_entry s n p j) sn = true ∧
    file_ok (2 + clock s) = true ∧ file_ok (3 + clock s) = true ∧ malloc_value (clock s) ≠ 0)) →
  ∃ s' m', handle_evict_request s = Ok tt s' ∧ pool s' m' f u ∧
    unlinked m' (NodeIulist n) ∧ usedMemory s' = usedMemory s.
Proof.
  intros H Hc. pose proof (ev_pool H) as Hp.
  assert (∃ h m', (∃ s', handle_evict_request s = Ok tt s' ∧ links s' = h ∧ usmPage s' = usmPage s ∧
      pagesList s' = pagesList s ∧ basePFN s' = basePFN s ∧ globalPagesNumber s' = globalPagesNumber s ∧
      usedMemory s' = usedMemory s) ∧
    {[ToSwapIulist (fresh_to_swap s); ToSwapGloblist (fresh_to_swap s)]} ∪ dom (links s) = dom h ∧
    lists h m' ∧ unlinked m' (NodeIulist n) ∧
    m' !! FreeList = Some (NodeIulist <$> f) ∧ m' !! UsedList = Some (NodeIulist <$> u))
    as (h & m' & (s' & E & Fl & Fu & Fp & Fb & Fg & Fm) & D & Hl & Hun & Hf & Hu).
  { destruct Hc as [Hr|(Hr & Hio1 & Hio2 & Hrt)].
    - destruct (evict_refused _ _ _ _ _ _ _ _ _ _ _ _ H Hr) as (h & E & D & Hl & Hun).
      eexists h, _. split; [eexists; split; [exact E|]; split_and!; reflexivity|].
      split; [exact D|]. split; [exact Hl|]. split; [exact Hun|].
      by rewrite !lookup_insert_ne, lookup_insert_eq by done; split; [apply Hp|].
    - destruct (evict_retaken _ _ _ _ _ _ _ _ _ _ _ _ H Hr Hio1 Hio2 Hrt) as (h & E & D & Hl & Hun).
      eexists h, _. split; [eexists; split; [exact E|]; split_and!; reflexivity|].
      split; [exact D|]. split; [exact Hl|]. split; [exact Hun|].
      by rewrite !lookup_insert_ne, lookup_insert_eq by done; split; [apply Hp|]. }
  exists s', m'. split; [exact E|]. split; [|done].
  unfold pool. rewrite Fl, Fu, Fp, Fb, Fg.
  by apply (evicted_pool s m f n u p j sn dfr sc psl sl H); try done; set_solver.
Qed.

(** when the swap file cannot be written, the page goes back to the front of the
    used list (it is the next victim again) and the swap node is free again; but
    the record stays in the swap cache of the process. *)
Theorem evict_io_error_keeps_page s m f n u p j sn dfr sc psl sl :
  evictable s m f n u p j sn dfr sc psl sl →
  replaces (S (clock s)) s (victim_entry s n p j) sn = true →
  file_ok (2 + clock s) && file_ok (3 + clock s) = false →
  ∃ s' m', handle_evict_request s = Ok tt s' ∧ pool s' m' f (n :: u) ∧
    usedMemory s' = usedMemory s ∧ pagesList s' = pagesList s ∧
    m' !! DevFreeList = Some (dfr ++ [SnodeIulist j]) ∧
    m' !! ProcSwapCache (process p) = Some (ToSwapIulist (fresh_to_swap s) :: sc).
Proof.
  intros H Hr Hio. pose proof (ev_pool H) as Hp.
  destruct (evict_io_error _ _ _ _ _ _ _ _ _ _ _ _ H Hr Hio) as (c & h & E & D & Hl).
  assert (∃ s', handle_evict_request s = Ok tt s' ∧ links s' = h ∧ usmPage s' = usmPage s ∧
      pagesList s' = pagesList s ∧ basePFN s' = basePFN s ∧ globalPagesNumber s' = globalPagesNumber s ∧
      usedMemory s' = usedMemory s) as (s' & E' & Fl & Fu & Fp & Fb & Fg & Fm)
    by (eexists; split; [exact E|]; split_and!; reflexivity). clear E.
  eexists s', _. split; [exact E'|]. split.
  { unfold pool. rewrite Fl, Fu, Fp, Fb, Fg.
    apply (evicted_pool s m f n u p j sn dfr sc psl sl H _ _ f (n :: u) D Hl); [| |done].
    - rewrite !lookup_insert_ne by done. apply Hp.
    - by rewrite lookup_insert_ne, lookup_insert_eq by done. }
  split_and!; try done.
  - by rewrite lookup_insert_eq.
  - by rewrite !lookup_insert_ne, lookup_insert_eq by done.
Qed.

(** a swap-in whose submission the kernel refuses is undefined behaviour: the
    page's node is walked as the head of a list whose only other element was a
    local variable of swap_in. *)
Theorem swap_in_refused_undefined s m f k u t va org c entry mp dfr :
  pool s m (k :: f) u → 0 ≤ usedMemory s < 2 ^ 64 → has_page mp s →
  swapped_out s m t va org c entry → offst (event s) = entry_offst entry →
  m !! DevFreeList = Some dfr → file_ok (clock s) = true → file_ok (S (clock s)) = true →
  (∀ s1, has_page mp s1 → ∃ r s2, usm_submit_evt s1 = Ok r s2 ∧ r ≠ 0) →
  basic_swap s = Undef.
Proof.
  intros Hp Hum Hmp Hso He Hdfr Hio1 Hio2 Href.
  destruct (basic_swap_step s m f k u t va org c entry mp dfr) as
    (s1 & r & s2 & Es & Hmp1 & _ & _ & _ & Hbad & _); [done..|].
  apply Hbad. destruct (Href s1 Hmp1) as (r' & s2' & Es' & Hr'). congruence.
Qed.

(** a swap-in that succeeds frees the record of the page while it is still the
    first entry of the list of its process and of the list of swapped pages:
    both heads point to freed memory, and adding the next evicted page of the
    process to its list is undefined behaviour. The counter [swappedMemory] is
    not decremented. *)
Theorem swap_in_leaves_dangling_records s m f k u t va org c entry mp dfr psl sl :
  pool s m (k :: f) u → 0 ≤ usedMemory s < 2 ^ 64 → has_page mp s →
  swapped_out s m t va org c entry → offst (event s) = entry_offst entry →
  m !! DevFreeList = Some dfr → m !! ProcSwapList org = Some (ToSwapIulist t :: psl) →
  m !! SwapList = Some (ToSwapGloblist t :: sl) →
  file_ok (clock s) = true → file_ok (S (clock s)) = true → accepts_all →
  ∃ s', basic_swap s = Ok 0 s' ∧ swappedMemory s' = swappedMemory s ∧
    get_next (ProcSwapList org) (links s') = Some (ToSwapIulist t) ∧
    get_next SwapList (links s') = Some (ToSwapGloblist t) ∧
    (ToSwapIulist t ∉ dom (links s')) ∧ (ToSwapGloblist t ∉ dom (links s')) ∧
    ∀ t' v, toSwaps s' !! t' = Some v → ts_proc v = org → usmAddProcSwapNode t' s' = Undef.
Proof.
  intros Hp Hum Hmp Hso He Hdfr Hpsl Hsl Hio1 Hio2 Hacc.
  destruct (basic_swap_restores s m f k u t va org c entry mp dfr psl sl)
    as (s' & m' & p & E & _ & _ & _ & _ & _ & Fs & Ft & G1 & G2 & G3 & G4); [done..|intros s0 mp0 H0 _; by apply (Hacc s0 mp0)|].
  exists s'. split_and!; try done. intros t' v Ht' Hv. unfold usmAddProcSwapNode.
  rewrite (to_swap_at_bind _ _ _ _ Ht'), Hv. unfold list_op, updates, list_add.
  rewrite G1. cbn [mbind option_bind]. unfold __list_add, set_prev.
  apply not_elem_of_dom in G3. by rewrite G3.
Qed.
End theorems.

(** * Witnesses

    The daemon of [demo] with page 0 mapped at 0x7000 of process 1 and a swap
    file of two pages. *)
Definition demo_swap : usm :=
  match init_swap_device_nodes 8192 demo1 with Ok _ s => s | _ => demo1 end.

Definition plain_cell (x : loc) : bool :=
  match x with
  | ToSwapIulist _ | ToSwapGloblist _ | SnodeIulist _ | DevSwapList | DevFreeList => false
  | _ => true
  end.

Lemma demo1_cells x : x ∈ dom (links demo1) → plain_cell x = true.
Proof.
  assert (forallb (λ c, plain_cell c.1) (map_to_list (links demo1)) = true) as H by (vm_compute; reflexivity).
  rewrite forallb_forall in H. intros [c Hc]%elem_of_dom.
  apply (H (x, c)). by apply list_elem_of_In, elem_of_map_to_list.
Qed.
Lemma demo1_ok : ∃ m p, pool demo1 m [1; 2]%nat [0%nat] ∧ pagesList demo1 !! 0%nat = Some p ∧
  usedListPositionPointer p = Some 0%nat ∧ process p = 1 ∧
  procDescList demo1 !! 1 = Some new_process ∧ m !! SwapList = Some [] ∧
  ∀ x, x ∈ proc_heads 1 → m !! x = Some [].
Proof.
  destruct demo_ok as (s0 & m0 & E0 & Hp & Hm & Hb & Hn & Hsl & Hpg & Hq).
  destruct (Hq 1) as [Hq1 Hq2]; [lia|].
  assert (∃ s1, pool s1 m0 [0; 1; 2]%nat [] ∧ has_page blank_page s1 ∧ usedMemory s1 = 0 ∧
    pagesList s1 = pagesList s0 ∧ procDescList s1 = procDescList s0 ∧ origin (event s1) = 1 ∧
    handle (SE := accepting) (Alloc 0x7000 1) demo = basic_alloc_uniq (SE := accepting) s1)
    as (s1 & Hp1 & Hmp & Hum & Fp & Fd & Fo & Eh).
  { exists (set_event (with_vaddr 0x7000 (with_origin 1 (event demo))) demo). rewrite E0.
    split_and!; try reflexivity; [exact Hp|split; [done|apply blank_page_valid]|exact Hm]. }
  destruct (basic_alloc_uniq_ok (SE := accepting) s1 m0 0 [1; 2]%nat [] blank_page Hp1 Hmp) as
    (r & s' & m' & mp' & E & _ & _ & _ & Epd & Ho & Hcase); [lia|].
  assert (demo1 = s' ∧ r = 0) as [-> ->].
  { rewrite E in Eh. split; [unfold demo1; by rewrite Eh|].
    assert (match handle (SE := accepting) (Alloc 0x7000 1) demo with Ok r _ => r | _ => 7 end = 0) as Hr
      by (vm_compute; reflexivity). by rewrite Eh in Hr. }
  clear Eh E0. destruct Hcase as [(_ & Hp' & (p & Ep & Epl) & _)|[? _]]; [|done].
  exists m', (page_process (origin (event s1)) (page_vaddr (vaddr (event s1)) p)). rewrite Epl, Epd, Fd.
  split; [exact Hp'|]. split; [apply list_lookup_insert_eq; by eapply lookup_lt_Some|].
  split; [|split; [|split; [|split]]].
  - cbn. apply (Hpg 0%nat). by rewrite <- Fp.
  - exact Fo.
  - exact Hq1.
  - rewrite Ho by (clear; set_solver). exact Hsl.
  - intros x Hx. rewrite Ho; [by apply Hq2|]. unfold proc_heads in Hx. clear -Hx. set_solver.
Qed.

Lemma demo_swap_ok : ∃ s m p sn, s = demo_swap ∧
  evictable s m [1; 2]%nat 0 [] p 1 sn [SnodeIulist 0] [] [] [] ∧ device_node s 1 sn ∧
  0 ≤ usedMemory s < 2 ^ 64.
Proof.
  destruct demo1_ok as (m & p & Hp & Ep & Hn & Hpr & Hd & Hsl & Hq).
  assert (usedMemory demo1 = 4096) as Hum by (vm_compute; reflexivity).
  assert (sd_number (swap_device_one demo1) = 1) as Hnum by (vm_compute; reflexivity).
  pose proof demo1_cells as Hcells. unfold demo_swap. revert Hp Ep Hd Hum Hcells Hnum.
  generalize demo1. intros s1 Hp Ep Hd Hum Hcells Hnum.
  destruct (init_swap_device_ok s1 m 8192 (pool_lists Hp)) as (h & E & Hl & D).
  1-2: by intros H%Hcells. 1: by intros j H%Hcells. 1: lia. 1: done.
  rewrite E. change (Z.to_nat (8192 `div` 4096)) with 2%nat in *.
  eexists _, _, p, _. split; [reflexivity|]. split; [|split].
  - split.
    + pose proof Hp as [Q1 Q2 Q3 Q4 Q5 Q6 Q7 Q8 Q9]. split; try done.
      * by rewrite !lookup_insert_ne by done.
      * by rewrite !lookup_insert_ne by done.
      * intros i Hi. destruct (Q8 i Hi). split; [done|]. cbn. rewrite D. set_solver.
    + intros t. cbn. rewrite D. intros Ht. exfalso.
      assert (ToSwapIulist t ∈ dom (links s1) ∨ ToSwapGloblist t ∈ dom (links s1)) as [H%Hcells|H%Hcells]
        by set_solver; done.
    + exact Ep.
    + exact Hn.
    + exists new_process. rewrite Hpr. done.
    + by rewrite lookup_insert_eq.
    + reflexivity.
    + rewrite Hpr. rewrite !lookup_insert_ne by done. apply Hq. set_solver.
    + rewrite Hpr. rewrite !lookup_insert_ne by done. apply Hq. set_solver.
    + by rewrite !lookup_insert_ne by done.
  - split; [done|]. cbn. rewrite Hnum. lia.
  - cbn. rewrite Hum. lia.
Qed.

Lemma swap_entry_roundtrip_witness : entry_index (entry_offst (swap_entry (5 * 4096) 3)) = 5.
Proof. apply (swap_entry_roundtrip 5 3); lia. Defined.

Lemma swap_device_ready_witness : ∃ s', init_swap_device_nodes 8192 static_state = Ok 0 s'.
Proof.
  assert (∃ m, lists (links static_state) m) as [m Hl].
  { exists ∅. split; [done|]. by intros ??????. }
  destruct (swap_device_ready static_state m 8192 Hl) as [Hok _].
  - by intros H%static_dom; set_solver.
  - by intros H%static_dom; set_solver.
  - by intros j H%static_dom; set_solver.
  - lia.
  - destruct (Hok eq_refl) as (s' & _ & _ & E & _). exists s'. exact E.
Defined.

Lemma evict_swaps_out_witness : ∃ s', handle_evict_request (K := reply_kernel 3) demo_swap = Ok tt s'.
Proof.
  destruct demo_swap_ok as (s & m & p & sn & <- & H & Hd & _).
  destruct (evict_swaps_out (K := reply_kernel 3) s m [1; 2]%nat 0 [] p 1 sn [SnodeIulist 0] [] [] [] H Hd)
    as (s' & _ & E & _); [split_and!; reflexivity|].
  exists s'. exact E.
Defined.

(** A fault of process 1 on the entry of swap node 1. *)
Definition swapped_fault : usm_event :=
  UsmEvent ALLOC None 0x7000 0 0 (entry_offst (swap_entry 4096 1)) 0 1 (Some blank_page).

(** [demo_swap] after the eviction of page 0. *)
Definition demo_out : usm :=
  match handle_evict_request (K := reply_kernel 3) demo_swap with Ok _ s => s | _ => demo_swap end.

(** A further fault takes the frame of the evicted page, and its process fills it;
    the next free frame, 1, is full of an old content. *)
Definition demo_taken : usm :=
  match handle (SE := accepting) (Alloc 0x9000 1) demo_out with Ok _ s => s | _ => demo_out end.
Definition fill (i : nat) (c : Z) (s : usm) : usm :=
  match pagesList s !! i with
  | Some p => set_pagesList (<[i := page_data (replicate 4096 c) p]> (pagesList s)) s
  | None => s
  end.
Definition demo_reused : usm := fill 1 9 (fill 0 7 demo_taken).

Lemma fill_interlude `{SE : SubmitEvt} s0 s i c : interlude s0 s → interlude s0 (fill i c s).
Proof. intros H. unfold fill. destruct (pagesList s !! i) eqn:E; [by apply il_write|done]. Qed.

Lemma demo_swap_linked : linked_pages demo_swap ∧ ∃ mp, has_page mp demo_swap.
Proof.
  destruct (alloc_simulation (SE := accepting) demo _ 0x7000 1 demo_represents) as (r & s' & q & E & _ & Hr).
  assert (demo1 = s') as <- by (unfold demo1; by rewrite E).
  assert (pagesList demo_swap = pagesList demo1 ∧ event demo_swap = event demo1) as [Epl Eev]
    by (split; vm_compute; reflexivity).
  split.
  - unfold linked_pages. rewrite Epl. apply (rep_nodes _ _ Hr).
  - destruct (rep_page _ _ Hr) as [mp [Hm Hv]]. exists mp. split; [by rewrite Eev|done].
Qed.

Lemma fill_pool s m f u i c : linked_pages s → pool s m f u → pool (fill i c s) m f u.
Proof.
  intros Hlp Hp. unfold fill. destruct (pagesList s !! i) as [p|] eqn:E; [|done].
  eapply pool_repage; [exact Hp|exact E|done|left; exact (Hlp i p E)].
Qed.

Lemma fill_linked s i c : linked_pages s → linked_pages (fill i c s).
Proof.
  intros Hlp. unfold fill. destruct (pagesList s !! i) as [p|] eqn:E; [|done].
  exact (linked_pages_insert s i (page_data _ p) Hlp (Hlp i p E)).
Qed.

Lemma demo_reused_pool : ∃ m, pool demo_reused m [1; 2]%nat [0]%nat.
Proof.
  destruct demo_swap_ok as (s & m & p & sn & Es & H & Hd & Hum).
  destruct demo_swap_linked as [Hlp [mp [Hmp Hv]]]. rewrite <- Es in Hlp, Hmp.
  destruct (evict_to_swap (K := reply_kernel 3) s m [1; 2]%nat 0 [] p 1 sn [SnodeIulist 0] [] [] [] H Hd)
    as (s1 & m1 & E & Hp & _ & _ & _ & _ & _ & Epl & Eev & _ & _ & Hmem & _); [split_and!; reflexivity|].
  assert (demo_out = s1) as Eo by (unfold demo_out; rewrite Es in E; by rewrite E).
  assert (match handle (SE := accepting) (Alloc 0x9000 1) demo_out with Ok r _ => r | _ => 7 end = 0) as Hr
    by (vm_compute; reflexivity).
  unfold demo_reused, demo_taken. rewrite Eo in *. clear Eo Es.
  set (s0 := set_event (with_vaddr 0x9000 (with_origin 1 (event s1))) s1).
  destruct (basic_alloc_uniq_ok (SE := accepting) s0 m1 0 [1; 2]%nat [] mp) as
    (r & s' & m' & mp' & E' & _ & _ & _ & _ & _ & Hcase); [exact Hp|..].
  { split; [|exact Hv]. cbn. by rewrite Eev. }
  { cbn. rewrite Hmem. apply Z.mod_pos_bound. lia. }
  assert (handle (SE := accepting) (Alloc 0x9000 1) s1 = Ok r s') as Eh
    by (cbn [handle]; by rewrite update_event_bind).
  rewrite Eh in *. subst r.
  destruct Hcase as [(_ & Hp' & (q & Eq & Epl') & _)|[? _]]; [|done].
  assert (linked_pages s') as Hlp'.
  { unfold linked_pages. rewrite Epl'. cbn [pagesList s0]. apply (linked_pages_insert s0).
    - unfold linked_pages. cbn. by rewrite Epl.
    - cbn. apply Hlp. by rewrite <- Epl. }
  exists m'. apply fill_pool; [by apply fill_linked|by apply fill_pool].
Qed.

Lemma evict_fault_roundtrip_witness : ∃ s1 s2 q,
  handle_evict_request (K := reply_kernel 3) demo_swap = Ok tt s1 ∧
  (data <$> pagesList demo_reused !! 1%nat) = Some (replicate 4096 9) ∧
  basic_swap (K := reply_kernel 3) (SE := accepting) (set_event swapped_fault demo_reused) = Ok 0 s2 ∧
  pagesList s2 !! 1%nat = Some q ∧ data q = replicate 4096 0 ∧ virtualAddress q = 0x7000.
Proof.
  destruct demo_swap_ok as (s & m & p & sn & Es & H & Hd & Hum).
  assert (sn_offset sn = 4096 ∧ sd_number (swap_device_one s) = 1) as [Ho Hnum].
  { split; [apply Hd|]. rewrite Es. vm_compute. reflexivity. }
  assert ((data <$> pagesList s !! 0%nat) = Some (replicate 4096 0) ∧
    (virtualAddress <$> pagesList s !! 0%nat) = Some 0x7000) as [Hdp Hvp].
  { rewrite Es. split; vm_compute; reflexivity. }
  rewrite (ev_page H) in Hdp, Hvp. injection Hdp as Hdp. injection Hvp as Hvp.
  destruct demo_swap_linked as [Hlp [mp Hmp]]. rewrite <- Es in Hlp, Hmp.
  destruct (evict_fault_roundtrip (K := reply_kernel 3) (SE := accepting) s m [1; 2]%nat 0 [] p 1 sn
    [SnodeIulist 0] [] [] [] mp H Hd) as (s1 & E1 & Hback).
  1: split_and!; reflexivity. 1: exact Hum. 1: exact Hmp. 1: exact Hlp.
  assert (s1 = demo_out) as -> by (unfold demo_out; rewrite Es in E1; by rewrite E1).
  destruct demo_reused_pool as (m' & Hp').
  destruct (Hback demo_reused m' 1%nat [2]%nat [0]%nat swapped_fault blank_page)
    as (s2 & _ & q & E2 & _ & _ & _ & Hq & Hdq & Hvq & _).
  - apply fill_interlude, fill_interlude. apply (il_request demo_out demo_out (Alloc 0x9000 1) 0);
      [apply il_start|exact I|vm_compute; reflexivity].
  - exact Hp'.
  - unfold entry_of. rewrite Ho, Hnum. reflexivity.
  - reflexivity.
  - apply blank_page_valid.
  - reflexivity.
  - reflexivity.
  - intros s' mp' Hmp' _. exact (accepting_accepts s' mp' Hmp').
  - exists demo_out, s2, q. rewrite <- Es. split; [exact E1|]. split; [vm_compute; reflexivity|].
    split; [exact E2|]. split; [exact Hq|]. split; [exact (eq_trans Hdq Hdp)|exact (eq_trans Hvq Hvp)].
Defined.

(** A kernel whose answers to [malloc] and to the swap file are chosen. *)
Definition odd_kernel (io : bool) (garbage : Z) : Kernel := {|
  kernel_page _ m := reply 3 m;
  ioctl_palloc _ _ _ u _ := (1, 0, u);
  ioctl_continue _ _ _ _ := 0;
  read_uffd _ _ := inr UFFD_EVENT_OTHER;
  read_freed _ := inl 0;
  read_new_proc _ := (-1, EmptyString, 0);
  poll _ _ _ := (0, 0);
  file_ok _ := io;
  malloc_value _ := garbage;
  kernel_page_valid _ m H := reply_valid 3 m H;
|}.

Lemma evict_loses_page_witness : ∃ s' m',
  handle_evict_request (K := odd_kernel true 1) demo_swap = Ok tt s' ∧ unlinked m' (NodeIulist 0).
Proof.
  destruct demo_swap_ok as (s & m & p & sn & <- & H & _).
  destruct (evict_loses_page (K := odd_kernel true 1) s m [1; 2]%nat 0 [] p 1 sn [SnodeIulist 0] [] [] [] H)
    as (s' & m' & E & _ & Hu & _).
  - right. split; [reflexivity|]. split; [reflexivity|]. split; [reflexivity|discriminate].
  - exists s', m'. split; [exact E|exact Hu].
Defined.

Lemma evict_io_error_keeps_page_witness : ∃ s' m',
  handle_evict_request (K := odd_kernel false 0) demo_swap = Ok tt s' ∧ pool s' m' [1; 2]%nat [0%nat].
Proof.
  destruct demo_swap_ok as (s & m & p & sn & <- & H & _).
  destruct (evict_io_error_keeps_page (K := odd_kernel false 0) s m [1; 2]%nat 0 [] p 1 sn [SnodeIulist 0] [] [] [] H)
    as (s' & m' & E & Hp & _); [reflexivity|reflexivity|].
  exists s', m'. split; [exact E|exact Hp].
Defined.

(** The evicted page of [demo_swap], at the fault on it. *)
Lemma demo_evicted : ∃ s m t p, pool s m [0; 1; 2]%nat [] ∧ 0 ≤ usedMemory s < 2 ^ 64 ∧
  has_page blank_page s ∧ swapped_out s m t (virtualAddress p) (process p) (data p) (swap_entry 4096 1) ∧
  offst (event s) = entry_offst (swap_entry 4096 1) ∧ m !! DevFreeList = Some [SnodeIulist 0] ∧
  m !! ProcSwapList (process p) = Some [ToSwapIulist t] ∧ m !! SwapList = Some [ToSwapGloblist t].
Proof.
  destruct demo_swap_ok as (s & m & p & sn & Es & H & Hd & Hum).
  assert (sn_offset sn = 4096 ∧ sd_number (swap_device_one s) = 1) as [Ho Hnum].
  { split; [apply Hd|]. rewrite Es. vm_compute. reflexivity. }
  clear Es. destruct (evict_to_swap (K := reply_kernel 3) s m [1; 2]%nat 0 [] p 1 sn [SnodeIulist 0] [] [] [] H Hd)
    as (s1 & m1 & E & Hp & _ & Hso & H1 & H2 & H3 & _ & _ & _ & _ & Hmem & _); [split_and!; reflexivity|].
  unfold entry_of in Hso. rewrite Ho, Hnum in Hso.
  exists (set_event swapped_fault s1), m1, (fresh_to_swap s), p.
  split; [exact Hp|]. split; [cbn; rewrite Hmem; apply Z.mod_pos_bound; lia|].
  split; [split; [done|apply blank_page_valid]|]. done.
Qed.

Lemma swap_in_refused_undefined_witness : ∃ s, basic_swap (K := reply_kernel 3) (SE := refusing) s = Undef.
Proof.
  destruct demo_evicted as (s & m & t & p & Hp & Hum & Hmp & Hso & He & Hdfr & _).
  exists s. apply (swap_in_refused_undefined (K := reply_kernel 3) (SE := refusing) s m [1; 2]%nat 0 [] t
    (virtualAddress p) (process p) (data p) _ blank_page [SnodeIulist 0] Hp Hum Hmp Hso He Hdfr);
    [reflexivity|reflexivity|].
  intros s1 H1. destruct (reply_submits 7 ltac:(vm_compute; discriminate) s1 blank_page H1) as [s2 E2].
  exists 7, s2. split; [exact E2|discriminate].
Defined.

Lemma swap_in_leaves_dangling_records_witness : ∃ s s' t,
  basic_swap (K := reply_kernel 3) (SE := accepting) s = Ok 0 s' ∧
  get_next SwapList (links s') = Some (ToSwapGloblist t) ∧ ToSwapGloblist t ∉ dom (links s').
Proof.
  destruct demo_evicted as (s & m & t & p & Hp & Hum & Hmp & Hso & He & Hdfr & Hpsl & Hsl).
  destruct (swap_in_leaves_dangling_records (K := reply_kernel 3) (SE := accepting) s m [1; 2]%nat 0 [] t
    (virtualAddress p) (process p) (data p) _ blank_page [SnodeIulist 0] [] [] Hp Hum Hmp Hso He Hdfr Hpsl Hsl)
    as (s' & E & _ & _ & H1 & _ & H2 & _); [reflexivity|reflexivity|apply accepting_accepts|].
  exists s, s', t. split; [exact E|]. split; [exact H1|exact H2].
Defined.

