(* ===== verification/Swappers.v ===== *)
(** The parts of examples/project-2/evict/src/policiesSet1.c besides the path that the
    setup installs: the emulated swap device of the build with SpEMUL, the routines for
    threads and hooks that nothing starts, and the eviction of pages of dead processes;
    also the submission through ioctl (impl/com/com.c), the release of the pool
    (alloc/src/policiesSet1.c) and the two functions in which the older policiesSet1BP.c differs.

    The waiting loops of the emulated device and the waits for the console have no effect
    on the state and are left out. *)
From stdpp Require Import prelude gmap strings.
From S2P Require Import Prelude Lists State Channel PagePool Init AllocPolicies PoolSpec Swap Eviction.

Open Scope Z_scope.

Section swappers.
Context `{K : Kernel} `{SE : SubmitEvt}.

(** * The emulated device *)

(** The swap value is passed for the type of the channel, which is not used. *)
Definition swap_out_emul (t : nat) : M usm Z :=
  v ← to_swap_at t;
  _ ← list_op (list_add (ToSwapIulist t) (ProcSwapCache (ts_proc v)));
  _ ← swap_value t;
  r ← usm_clear_pfn (ts_proc v) (swapped_address v);
  if negb (r =? 0) then
    j ← deref (snode v);
    _ ← putSwapNode (SnodeIulist j); mret 1
  else
    _ ← list_op (__list_del_entry (ToSwapIulist t));
    v ← to_swap_at t;
    if retaken v =? 0 then
      _ ← usmAddProcSwapNode t;
      _ ← list_op (list_add (ToSwapGloblist t) SwapList);
      _ ← swappedMemory_add SYS_PAGE_SIZE;
      _ ← usedMemory_sub SYS_PAGE_SIZE;
      mret 0
    else
      j ← deref (snode v);
      _ ← putSwapNode (SnodeIulist j); mret 0.

Definition swap_in_emul (t : option nat) : M usm Z :=
  _ ← usedMemory_add SYS_PAGE_SIZE; mret 0.

(** The functions that submit through ioctl have no return statement: [None] is the value
    that they do not return. *)
Definition usm_uffd_subm_ev : M usm (option Z) :=
  e ← get_event; _ ← usm_set_pfn (origin e) (vaddr e) (paddr e); mret None.
Definition usm_uffd_subm_ev_iu : M usm (option Z) :=
  e ← get_event; _ ← usm_set_pfn_iuthread (origin e) (vaddr e) (paddr e); mret None.
Definition usm_uffd_subm_ev_emul : M usm (option Z) :=
  e ← get_event; _ ← usm_set_pfn_emul (origin e) (vaddr e) (paddr e); mret None.

Definition usmSubmitSwapEventEmul : M usm (option Z) := usm_uffd_subm_ev_emul.

(** [swap_in], and not [swap_in_emul], is called, with a null pointer. *)
Definition basic_swap_emul : M usm Z :=
  t ← deref (A := nat) None;
  r ← swap_in t;
  if negb (r =? 0) then mret 1
  else
    r ← usmSubmitSwapEventEmul;
    r ← deref r;
    if negb (r =? 0) then mret 1 else mret 0.

(** * Threads and hooks that nothing starts *)

(** A round of the thread that evicts every five seconds. The record is allocated with the
    size of a pointer, and its fields are written behind that. *)
Definition swapper_routine_out_dummy_periodic : M usm unit :=
  e ← list_is_empty UsedList;
  if (e : bool) then mret tt else undef.

(** A round of the thread that swaps in: the test is inverted, and the entry of the list is
    the head itself, which is no part of a record. *)
Definition swapper_routine_in_dummy_periodic : M usm unit :=
  e ← list_is_empty SwapList;
  if negb (e : bool) then mret tt else undef.

(** As before, the node of the head is used for a page: the head is taken off its
    list, and the page of the node is a wild access. *)
Definition swap_out_list_proc_body (procSwpLst : loc) (nr : Z) : M usm (Z + unit) :=
  if negb (0 <? nr) then mret (inr tt)
  else
    e ← list_is_empty UsedList;
    if (e : bool) then mret (inr tt)
    else
      _ ← new_to_swap;
      _ ← hold_used_page procSwpLst;
      undef.

Definition swap_out_list_and_commit_proc (nr : Z) (procSwpLst : loc) : M usm unit :=
  head ← new_list_head;
  _ ← list_op (INIT_LIST_HEAD head);
  _ ← loop (S (Z.to_nat nr)) (swap_out_list_proc_body procSwpLst) nr;
  _ ← swapper_routine_out_commit head;
  drop_list_head head.

(** The arguments of the thread that cond_swap_out creates, if it does. *)
Definition cond_swap_out : M usm (option (Z * loc)) :=
  e ← get_event;
  d ← procDesc_at (origin e);
  mret (if 9 * SYS_PAGE_SIZE <? allocated d then Some (3, ProcUsedList (origin e)) else None).

Definition node_of_proclist (x : loc) : M usm nat :=
  match x with NodeProclist n => mret n | _ => undef end.

(** The test of the memory that is in use only waits for the console. *)
Definition check_swap_out_dummyLT : M usm unit :=
  e ← get_event;
  match type e with
  | ALLOC =>
      b ← list_is_empty (ProcUsedList (origin e));
      if (b : bool) then mret tt
      else
        x ← next_of (ProcUsedList (origin e));
        victim ← node_of_proclist x;
        _ ← list_op (list_del_init x);
        _ ← hold_used_page (NodeIulist victim);
        t ← new_to_swap;
        _ ← prepare_victim t victim;
        _ ← swap_out t;
        mret tt
  | _ => mret tt
  end.

(** * The release of the pool (alloc/src/policiesSet1.c) *)

(** The page of a node lies inside of the array pagesList: free is defined on the first one only,
    and releases them all. *)
Definition free_page (i : nat) : M usm unit :=
  pages ← gets pagesList;
  match i, pages with O, _ :: _ => modify (set_pagesList []) | _, _ => undef end.
Definition free_node (n : nat) : M usm unit :=
  modify (λ s, set_usmPage (delete n (usmPage s)) (set_links (delete (NodeIulist n) (delete (NodeProclist n) (links s))) s)).

Definition free_nodes_of (head : loc) : M usm unit :=
  for_each_safe (λ _ pos,
    n ← node_of_iulist pos;
    _ ← list_op (list_del pos);
    i ← usmPage_of n;
    _ ← free_page i;
    free_node n) head tt.

Definition pol_structs_free : M usm unit := _ ← free_nodes_of FreeList; free_nodes_of UsedList.

(** * policiesSet1BP.c *)

(** Without the test that the process of the page is alive. *)
Definition handle_evict_request_bp : M usm unit :=
  toSwapNode ← new_to_swap;
  e ← list_is_empty UsedList;
  if (e : bool) then mret tt
  else
    x ← next_of UsedList;
    victim ← node_of_iulist x;
    _ ← hold_used_page (NodeIulist victim);
    _ ← prepare_victim toSwapNode victim;
    _ ← swap_out toSwapNode;
    mret tt.

(** Above 10 MB the lock of the used list is taken, and again by hold_used_page. *)
Definition check_swap_out_bp : M usm unit :=
  used ← gets usedMemory;
  if 10 * 1024 * 1024 <=? used then deadlock else mret tt.

(** * The eviction of a page of a dead process *)

(** The oldest used page [n] and the answer of usmCheckPageAlive for it: the start of both
    versions of the eviction. *)
Lemma evict_start s m f n u p d : pool s m f (n :: u) → to_swaps_ok s → pagesList s !! n = Some p → procDescList s !! process p = Some d →
  ∃ h, let t := fresh_to_swap s in
    let s1 := set_clock (S (clock s)) (set_toSwaps (<[t := ToSwap None 0 None 0 (malloc_value (clock s))]> (toSwaps s)) (set_links h s)) in
    handle_evict_request_bp s = (_ ← prepare_victim t n; _ ← swap_out t; mret tt) s1 ∧
    handle_evict_request s = (if negb (prio d =? -1) then _ ← prepare_victim t n; _ ← swap_out t; mret tt
      else _ ← list_op (list_add (NodeIulist n) FreeList); usedMemory_sub SYS_PAGE_SIZE) s1 ∧
    dom h = {[ToSwapIulist t; ToSwapGloblist t]} ∪ dom (links s) ∧
    lists h (<[UsedList := NodeIulist <$> u]> m) ∧ unlinked (<[UsedList := NodeIulist <$> u]> m) (NodeIulist n).
Proof.
  intros Hp Hts Hpg Hd. pose proof (pool_lists Hp) as Hl.
  destruct (new_to_swap_ok s m Hl Hts) as (h0 & E0 & Hl0 & _ & _ & D0 & _). set (s0 := set_clock _ _) in E0.
  destruct (lists_del_init (links s0) m UsedList [] (NodeIulist n) (fmap (M:=list) NodeIulist u) Hl0 (pool_used Hp))
    as (h1 & E1 & D1 & Hl1 & Hun & _). cbn [app] in Hl1, Hun.
  exists h1. set (s1 := set_links h1 s0).
  assert (∀ k : nat → M usm unit, (e ← list_is_empty UsedList; if (e : bool) then mret tt else
    x ← next_of UsedList; victim ← node_of_iulist x; _ ← hold_used_page (NodeIulist victim); k victim) s0 = k n s1) as Hk.
  { intros k. unfold list_is_empty. erewrite reads_bind by (eapply lists_empty; [exact Hl0|apply (pool_used Hp)]).
    cbn [fmap list_fmap]. rewrite bool_decide_false by done.
    erewrite next_of_bind by (eapply lists_first; [exact Hl0|apply (pool_used Hp)]).
    change (default UsedList (head (NodeIulist <$> n :: u))) with (NodeIulist n). cbn [node_of_iulist]. rewrite ret_bind.
    unfold hold_used_page, hold_used_page_commit. by rewrite (list_op_bind _ _ _ _ E1). }
  split; [|split; [|split; [by rewrite D1; exact D0|done]]].
  - unfold handle_evict_request_bp. run E0. by rewrite Hk.
  - unfold handle_evict_request. run E0. rewrite Hk, gets_bind.
    destruct (pool_lookup _ _ _ _ Hp n) as (p' & _ & Hn' & _); [set_solver|].
    replace (usmPage s1 !! n) with (Some n) by (symmetry; exact Hn').
    unfold usmCheckPageAlive. rewrite bind_assoc, (page_at_bind _ _ s1 p) by exact Hpg.
    rewrite bind_assoc. unfold procDesc_at. rewrite (reads_bind _ _ s1 d) by exact Hd. rewrite ret_bind.
    by destruct (prio d =? -1).
Qed.

(** The two versions of the eviction agree on pages of processes that are alive. *)
Lemma evict_versions_agree s m f n u p d : pool s m f (n :: u) → to_swaps_ok s → pagesList s !! n = Some p → procDescList s !! process p = Some d →
  prio d ≠ -1 → handle_evict_request s = handle_evict_request_bp s.
Proof.
  intros Hp Hts Hpg Hd Ha. destruct (evict_start s m f n u p d Hp Hts Hpg Hd) as (h & -> & -> & _).
  by rewrite (proj2 (Z.eqb_neq _ _) Ha).
Qed.

(** C25: An eviction whose victim belongs to a process that has died writes nothing: the frame goes
    to the front of the free list with its content, the counter of used memory drops by a
    page, and the swap device, the swapped memory and all other lists are as before. *)
Theorem evict_dead_page s m f n u p d : pool s m f (n :: u) → to_swaps_ok s → pagesList s !! n = Some p → procDescList s !! process p = Some d →
  prio d = -1 → ∃ s' m', handle_evict_request s = Ok tt s' ∧ pool s' m' (n :: f) u ∧ other_lists [FreeList; UsedList] m m' ∧
    pagesList s' = pagesList s ∧ swap_device_one s' = swap_device_one s ∧ swappedMemory s' = swappedMemory s ∧
    usedMemory s' = u64 (usedMemory s - SYS_PAGE_SIZE).
Proof.
  intros Hp Hts Hpg Hd Ha. destruct (evict_start s m f n u p d Hp Hts Hpg Hd) as (h & _ & -> & D & Hl & Hu).
  rewrite Ha. cbn [Z.eqb Pos.eqb negb]. destruct (pool_lookup _ _ _ _ Hp n) as (p' & Hp' & _); [set_solver|].
  destruct (lists_add h (<[UsedList := NodeIulist <$> u]> m) FreeList (NodeIulist <$> f) (NodeIulist n) Hl) as (h' & E & D' & Hl').
  { by rewrite lookup_insert_ne by done; apply (pool_free Hp). }
  { rewrite D. apply elem_of_union_r, (pool_node Hp). by eapply lookup_lt_Some. }
  { exact Hu. }
  rewrite (list_op_bind _ _ _ h') by exact E.
  eexists _, (<[FreeList := NodeIulist <$> n :: f]> (<[UsedList := NodeIulist <$> u]> m)). split; [reflexivity|]. split; [|split; [|done]].
  - pose proof Hp as [Q1 Q2 Q3 Q4 Q5 Q6 Q7 Q8 Q9]. split; try done.
    + by rewrite lookup_insert_eq.
    + by rewrite lookup_insert_ne, lookup_insert_eq by done.
    + intros i Hi. destruct (Q8 i Hi). split; [done|]. cbn. rewrite D', D. set_solver.
    + intros k Hk. apply Q9. set_solver.
  - intros x Hx. by rewrite !lookup_insert_ne by set_solver.
Qed.

(** * Emulated evictions *)

(** The emulated device counts the page as freed and swapped out, but its frame is in no list
    afterwards, and nothing is written: every eviction loses a frame. *)
Lemma swap_out_emul_loses_frame s m t i j v p sn sc psl sl : outgoing s m t i j v p sn → ToSwapIulist t ∈ dom (links s) → unlinked m (ToSwapIulist t) →
  m !! ProcSwapCache (ts_proc v) = Some sc → m !! ProcSwapList (ts_proc v) = Some psl → m !! SwapList = Some sl →
  (ioctl_palloc (clock s) (ts_proc v) (swapped_address v) 0 2).1.1 = 1 → retaken v = 0 →
  ∃ h, swap_out_emul t s = Ok 0 (set_usedMemory (u64 (usedMemory s - SYS_PAGE_SIZE))
      (set_swappedMemory (u64 (swappedMemory s + SYS_PAGE_SIZE)) (set_links h (set_clock (S (clock s)) s)))) ∧
    let m' := <[SwapList := ToSwapGloblist t :: sl]> (<[ProcSwapList (ts_proc v) := ToSwapIulist t :: psl]> m) in
    lists h m' ∧ unlinked m' (NodeIulist i).
Proof.
  intros H Hd Hu Hsc Hpsl Hsl Hio Hr.
  destruct (lists_add (links s) m _ sc (ToSwapIulist t) (out_lists H) Hsc Hd Hu) as (h1 & E1 & D1 & Hl1).
  destruct (lists_del_entry h1 _ (ProcSwapCache (ts_proc v)) [] (ToSwapIulist t) sc Hl1) as (h2 & E2 & D2 & Hl2 & Hu2); [by rewrite lookup_insert_eq|].
  cbn [app] in Hl2, Hu2. rewrite insert_insert_eq, (insert_id m) in Hl2, Hu2 by done.
  destruct (lists_add h2 m _ psl (ToSwapIulist t) Hl2 Hpsl) as (h3 & E3 & D3 & Hl3); [by rewrite D2, D1|done|].
  destruct (out_cells H (ToSwapGloblist t)) as [Hd4 Hu4]; [set_solver|].
  destruct (out_cells H (NodeIulist i)) as [_ Hu5]; [set_solver|].
  apply (unlinked_cons m (ProcSwapList (ts_proc v)) psl (ToSwapIulist t)) in Hu4, Hu5; [|done..].
  destruct (lists_add h3 _ SwapList sl (ToSwapGloblist t) Hl3) as (h4 & E4 & D4 & Hl4);
    [by rewrite lookup_insert_ne|by rewrite D3, D2, D1|done|].
  exists h4. split; [|split; [done|apply unlinked_cons; [done|by rewrite lookup_insert_ne|done]]].
  unfold swap_out_emul. rewrite (to_swap_at_bind _ _ _ _ (out_entry H)), (list_op_bind _ _ _ _ E1).
  assert (swap_value t (set_links h1 s) = Ok (entry_of s sn) (set_links h1 s)) as Hsv.
  { unfold swap_value. erewrite to_swap_at_bind by apply (out_entry H). rewrite (out_snode_ptr H), deref_bind. by erewrite swap_node_at_bind by apply (out_snode H). }
  run Hsv. unfold usm_clear_pfn, tick. rewrite bind_assoc. unfold mbind at 1, M_bind at 1. cbn [clock set_links].
  destruct (ioctl_palloc _ _ _ _ _) as [[r er] ?]. cbn [fst] in Hio. subst r. rewrite ret_bind. cbn [Z.eqb Pos.eqb negb].
  erewrite list_op_bind by exact E2. erewrite to_swap_at_bind by apply (out_entry H). rewrite Hr. cbn [Z.eqb].
  unfold usmAddProcSwapNode. rewrite bind_assoc. erewrite to_swap_at_bind by apply (out_entry H).
  erewrite list_op_bind by exact E3. erewrite list_op_bind by exact E4. done.
Qed.

(** A fault on a page that is swapped out is not survived by the build with emulation. *)
Lemma basic_swap_emul_undefined s : basic_swap_emul s = Undef.
Proof. done. Qed.

(** * Hooks *)

(** The hook of the older version does nothing below 10 MB, and stops the daemon above. *)
Lemma check_swap_out_bp_stops s : check_swap_out_bp s = if 10 * 1024 * 1024 <=? usedMemory s then OutOfFuel else Ok tt s.
Proof. unfold check_swap_out_bp. rewrite gets_bind. by destruct (_ <=? _). Qed.

(** No page is ever put on the list of a process, so the hook dummyLT evicts nothing. *)
Lemma check_swap_out_dummyLT_idle s m : lists (links s) m → m !! ProcUsedList (origin (event s)) = Some [] →
  check_swap_out_dummyLT s = Ok tt s.
Proof.
  intros Hl Hm. unfold check_swap_out_dummyLT, get_event. rewrite gets_bind. destruct (type (event s)); try done.
  unfold list_is_empty. by erewrite reads_bind by (by eapply lists_empty).
Qed.

(** Releasing a pool whose first free page is not the first page of the array frees a pointer
    into the array. *)
Lemma pol_structs_free_undefined s m n f u : pool s m (n :: f) u → n ≠ 0%nat → pol_structs_free s = Undef.
Proof.
  intros Hp Hn. destruct (pool_lookup _ _ _ _ Hp n) as (p & _ & Hnode & _); [set_solver|].
  destruct (lists_del (links s) m FreeList [] (NodeIulist n) (fmap (M:=list) NodeIulist f) (pool_lists Hp) (pool_free Hp)) as (h & E & _).
  pose proof (lists_next (links s) m FreeList [] (NodeIulist n) (fmap (M:=list) NodeIulist f) (pool_lists Hp) (pool_free Hp)) as Hnx.
  unfold pol_structs_free. apply bind_undef. unfold free_nodes_of, for_each_safe, list_for_each_safe. rewrite gets_bind.
  erewrite reads_bind by (eapply lists_first; [apply Hp|apply (pool_free Hp)]). erewrite reads_bind by exact Hnx.
  cbn [for_each_safe_from fmap list_fmap head default]. rewrite decide_False by done. apply bind_undef.
  cbn [id node_of_iulist]. rewrite ret_bind, (list_op_bind _ _ _ _ E), (usmPage_of_bind _ _ _ n) by exact Hnode.
  apply bind_undef. unfold free_page. rewrite gets_bind. by destruct n.
Qed.

(** A thread of cond_swap_out that finds a used page makes an access outside of every
    structure. *)
Lemma swap_out_list_proc_undefined s m n u f nr pr l : pool s m f (n :: u) → to_swaps_ok s → 0 < nr → m !! ProcUsedList pr = Some l →
  swap_out_list_proc_body (ProcUsedList pr) nr s = Undef.
Proof.
  intros Hp Hts Hnr Hl. unfold swap_out_list_proc_body. replace (0 <? nr) with true by lia. cbn [negb].
  unfold list_is_empty. erewrite reads_bind by (eapply lists_empty; [apply Hp|apply (pool_used Hp)]). cbn [fmap list_fmap]. rewrite bool_decide_false by done.
  destruct (new_to_swap_ok s m (pool_lists Hp) Hts) as (h0 & E0 & Hl0 & _). run E0.
  unfold hold_used_page, hold_used_page_commit, list_op, updates, mbind, M_bind. by destruct (list_del_init _ _).
Qed.
End swappers.

(** * The page of [demo_swap] after the death of its process *)
Definition demo_dead : usm := set_procDescList (<[1 := ProcessDesc ops_null ops_null 0 0 (-1)]> (procDescList demo_swap)) demo_swap.

Lemma evict_dead_page_witness : ∃ s', handle_evict_request (K := reply_kernel 3) demo_dead = Ok tt s' ∧ swappedMemory s' = swappedMemory demo_dead.
Proof.
  destruct demo_swap_ok as (s & m & p & sn & Es & H & _).
  assert (process p = 1) as Hpr.
  { pose proof (ev_page H) as Hpg. rewrite Es in Hpg.
    assert (process <$> pagesList demo_swap !! 0%nat = Some 1) as Hc by (vm_compute; reflexivity).
    rewrite Hpg in Hc. by injection Hc. }
  destruct (evict_dead_page (K := reply_kernel 3) demo_dead m [1; 2]%nat 0 [] p (ProcessDesc ops_null ops_null 0 0 (-1)))
    as (s' & m' & E & _ & _ & _ & _ & Hs & _).
  - unfold demo_dead. rewrite <- Es. apply (ev_pool H).
  - unfold demo_dead. rewrite <- Es. apply (ev_entries H).
  - unfold demo_dead. rewrite <- Es. apply (ev_page H).
  - unfold demo_dead. cbn. by rewrite Hpr, lookup_insert_eq.
  - reflexivity.
  - exists s'. split; [exact E|exact Hs].
Defined.
