(* ===== verification/Checker.v ===== *)
(** Decision procedures for the invariants on concrete states: boolean tests that a
    heap holds given lists and that a state has a pool, with their soundness, so
    that examples are settled by evaluation. *)
From stdpp Require Import prelude gmap.
From S2P Require Import Prelude Lists State Channel PagePool Swap Eviction.

Open Scope Z_scope.

Fixpoint check_path (h : heap loc) (x : loc) (l : list loc) (y : loc) : bool :=
  match l with
  | [] => bool_decide (get_next x h = Some y) && bool_decide (get_prev y h = Some x)
  | z :: l => bool_decide (get_next x h = Some z) && bool_decide (get_prev z h = Some x) && check_path h z l y
  end.

Definition cells (al : list (loc * list loc)) : list loc := al ≫= λ p, p.1 :: p.2.

(** The lists [al], by their heads, are in the heap, and no cell is in two of them. *)
Definition check_lists (h : heap loc) (al : list (loc * list loc)) : bool :=
  bool_decide (NoDup (cells al)) && forallb (λ p, check_path h p.1 p.2 p.1) al.

Definition family (al : list (loc * list loc)) : gmap loc (list loc) := list_to_map al.

Lemma check_path_ok h x l y : check_path h x l y = true → path h x l y.
Proof.
  revert x. induction l as [|z l IH]; intros x; cbn [check_path]; rewrite ?andb_true_iff, ?bool_decide_eq_true.
  - done.
  - intros [[H1 H2] H3]. split; [done|]. by apply IH.
Qed.

Lemma NoDup_cells al p : NoDup (cells al) → p ∈ al → NoDup (p.1 :: p.2).
Proof.
  induction al as [|q al IH]; cbn; [by intros _ ?%elem_of_nil|].
  rewrite (app_comm_cons q.2). intros (H1 & _ & H2)%NoDup_app. intros [->|Hp]%elem_of_cons; [done|by apply IH].
Qed.

Lemma elem_of_cells al p z : p ∈ al → z ∈ p.1 :: p.2 → z ∈ cells al.
Proof. intros Hp Hz. apply list_elem_of_bind. by exists p. Qed.

Lemma cells_disjoint al p q z : NoDup (cells al) → p ∈ al → q ∈ al →
  z ∈ p.1 :: p.2 → z ∈ q.1 :: q.2 → p = q.
Proof.
  induction al as [|r al IH]; [by intros _ ?%elem_of_nil|].
  change (cells (r :: al)) with ((r.1 :: r.2) ++ cells al).
  intros (H1 & H2 & H3)%NoDup_app. intros [->|Hp]%elem_of_cons [->|Hq]%elem_of_cons Hz Hz'; [done|..|by apply IH].
  - destruct (H2 z Hz). by eapply elem_of_cells.
  - destruct (H2 z Hz'). by eapply elem_of_cells.
Qed.

Lemma check_lists_ok h al : check_lists h al = true → lists h (family al).
Proof.
  unfold check_lists. rewrite andb_true_iff, bool_decide_eq_true, forallb_forall. intros [Hnd Hp].
  assert (∀ hd l, family al !! hd = Some l → (hd, l) ∈ al) as Hin by (intros hd l; apply elem_of_list_to_map_2).
  split.
  - intros hd l H%Hin. split; [exact (NoDup_cells al (hd, l) Hnd H)|].
    apply check_path_ok, (Hp (hd, l)). by apply list_elem_of_In.
  - intros a la b lb z Ha%Hin Hb%Hin Hza Hzb. by pose proof (cells_disjoint al (a, la) (b, lb) z Hnd Ha Hb Hza Hzb) as [= ->].
Qed.

(** A cell in none of the lists. *)
Lemma unlinked_family al x : x ∉ cells al → unlinked (family al) x.
Proof.
  intros Hx hd l H Hin. apply Hx. apply elem_of_list_to_map_2 in H. by apply (elem_of_cells al (hd, l)).
Qed.

(** ** The pool *)
Definition check_page (base : Z) (i : nat) (p : page) : bool :=
  (physicalAddress p =? base + Z.of_nat i) &&
  match usedListPositionPointer p with None => true | Some n => Nat.eqb n i end.
Fixpoint check_pages (base : Z) (i : nat) (l : list page) : bool :=
  match l with
  | [] => true
  | p :: l => check_page base i p && check_pages base (S i) l
  end.
Definition check_node (s : usm) (i : nat) : bool :=
  bool_decide (usmPage s !! i = Some i) && bool_decide (is_Some (links s !! NodeIulist i)).

Definition check_pool (s : usm) (al : list (loc * list loc)) (free used : list nat) : bool :=
  check_lists (links s) al &&
  bool_decide (family al !! FreeList = Some (NodeIulist <$> free)) &&
  bool_decide (family al !! UsedList = Some (NodeIulist <$> used)) &&
  (Z.of_nat (base.length (pagesList s)) =? globalPagesNumber s) && (globalPagesNumber s <? 2 ^ 32) &&
  (0 <=? basePFN s) && (basePFN s + globalPagesNumber s <=? 2 ^ 31) &&
  check_pages (basePFN s) 0 (pagesList s) && forallb (check_node s) (seq 0 (base.length (pagesList s))) &&
  forallb (λ n, Nat.ltb n (base.length (pagesList s))) (free ++ used).

Lemma check_pages_ok base l i k p : check_pages base k l = true → l !! i = Some p → check_page base (k + i) p = true.
Proof.
  revert i k. induction l as [|q l IH]; intros i k; [done|]. cbn [check_pages]. rewrite andb_true_iff.
  intros [H1 H2]. destruct i as [|i]; cbn; [intros [= ->]; by rewrite Nat.add_0_r|].
  intros Hi. rewrite Nat.add_succ_r. exact (IH i (S k) H2 Hi).
Qed.

Lemma check_pool_ok s al free used : check_pool s al free used = true → pool s (family al) free used.
Proof.
  unfold check_pool. rewrite !andb_true_iff, !bool_decide_eq_true, !forallb_forall.
  rewrite !Z.leb_le, Z.eqb_eq, Z.ltb_lt.
  intros [[[[[[[[[H1 H2] H3] H4] H5] H6] H7] H8] H9] H10]. split; try done.
  - by apply check_lists_ok.
  - intros i p Hi. pose proof (check_pages_ok _ _ _ _ _ H8 Hi) as Hp. unfold check_page in Hp.
    rewrite andb_true_iff, Z.eqb_eq in Hp. destruct Hp as [Hp1 Hp2]. split; [exact Hp1|].
    destruct (usedListPositionPointer p) as [n|]; [left|by right]. apply Nat.eqb_eq in Hp2. by subst.
  - intros i Hi. specialize (H9 i). unfold check_node in H9. rewrite andb_true_iff, !bool_decide_eq_true in H9.
    destruct H9 as [E1 E2]; [apply in_seq; lia|]. split; [done|]. by apply elem_of_dom.
  - intros n Hn. apply Nat.ltb_lt, H10. by apply list_elem_of_In.
Qed.

(** ** Eviction *)
Definition check_to_swap_cell (s : usm) (x : loc) : bool :=
  match x with
  | ToSwapIulist t | ToSwapGloblist t => bool_decide (is_Some (toSwaps s !! t))
  | _ => true
  end.

Definition check_victim (s : usm) (al : list (loc * list loc)) (n j : nat) (p : page) (sn : swap_node) : bool :=
  bool_decide (usedListPositionPointer p = Some n) &&
  match procDescList s !! process p with Some d => negb (prio d =? -1) | None => false end &&
  match family al !! DevFreeList with Some (x :: _) => bool_decide (x = SnodeIulist j) | _ => false end &&
  forallb (λ x, bool_decide (is_Some (family al !! x))) [ProcSwapCache (process p); ProcSwapList (process p); SwapList] &&
  (sn_offset sn =? Z.of_nat j * 4096) && (Z.of_nat j <? 2 ^ 38) &&
  (0 <=? sd_number (swap_device_one s)) && (sd_number (swap_device_one s) <? 32).

Definition check_evictable (s : usm) (al : list (loc * list loc)) (f : list nat) (n : nat) (u : list nat)
    (j : nat) : bool :=
  check_pool s al f (n :: u) && forallb (λ c, check_to_swap_cell s c.1) (map_to_list (links s)) &&
  match pagesList s !! n, swap_nodes (swap_device_one s) !! j with
  | Some p, Some sn => check_victim s al n j p sn
  | _, _ => false
  end.

Lemma check_entries_ok s : forallb (λ c, check_to_swap_cell s c.1) (map_to_list (links s)) = true → to_swaps_ok s.
Proof.
  rewrite forallb_forall. intros H.
  assert (∀ x, x ∈ dom (links s) → check_to_swap_cell s x = true) as Hc.
  { intros x [c Hx]%elem_of_dom. apply (H (x, c)). by apply list_elem_of_In, elem_of_map_to_list. }
  intros t [Ht%Hc|Ht%Hc]; cbn in Ht; by apply bool_decide_eq_true in Ht.
Qed.

Lemma check_evictable_ok s al f n u j : check_evictable s al f n u j = true →
  ∃ p sn dfr sc psl sl, evictable s (family al) f n u p j sn dfr sc psl sl ∧ device_node s j sn.
Proof.
  unfold check_evictable. rewrite !andb_true_iff. intros [[H1 H2] H3].
  destruct (pagesList s !! n) as [p|] eqn:Ep; [|done].
  destruct (swap_nodes (swap_device_one s) !! j) as [sn|] eqn:En; [|done].
  unfold check_victim in H3. cbn [forallb] in H3. rewrite !andb_true_iff, !bool_decide_eq_true in H3.
  rewrite Z.leb_le, Z.eqb_eq, !Z.ltb_lt in H3.
  destruct H3 as [[[[[[[V1 V2] V3] ([sc Hsc] & [psl Hpsl] & [sl Hsl] & _)] V4] V5] V6] V7].
  destruct (procDescList s !! process p) as [d|] eqn:Ed; [|done].
  destruct (family al !! DevFreeList) as [[|x dfr]|] eqn:Ef; [done| |done]. apply bool_decide_eq_true in V3. subst x.
  exists p, sn, dfr, sc, psl, sl. split; [|done]. split; try done.
  - by apply check_pool_ok.
  - by apply check_entries_ok.
  - exists d. split; [done|]. by apply Z.eqb_neq, negb_true_iff.
Qed.
