(* ===== verification/Hashes.v ===== *)
(** The hash functions of the daemon's hash table, impl/usm/hashmap.c: SipHash-2-4,
    MurmurHash3_x86_128 and xxHash, as [hashmap_sip], [hashmap_murmur] and
    [hashmap_xxhash3] offer them.

    The data is a list of bytes, a pointer into it an offset; an access outside
    the data has no result. *)
From stdpp Require Import prelude.
From S2P Require Import Prelude Channel.

Open Scope Z_scope.

Definition byte (data : list Z) (i : Z) : option Z := load 1 i data.

(** * SipHash *)

Definition U8TO64_LE (data : list Z) (p : Z) : option Z :=
  b0 ← byte data p; b1 ← byte data (p + 1); b2 ← byte data (p + 2); b3 ← byte data (p + 3);
  b4 ← byte data (p + 4); b5 ← byte data (p + 5); b6 ← byte data (p + 6); b7 ← byte data (p + 7);
  Some (Z.lor (Z.lor (Z.lor (Z.lor (Z.lor (Z.lor (Z.lor b0 (Z.shiftl b1 8)) (Z.shiftl b2 16)) (Z.shiftl b3 24))
    (Z.shiftl b4 32)) (Z.shiftl b5 40)) (Z.shiftl b6 48)) (Z.shiftl b7 56)).

(** The bytes that [U64TO8_LE] stores. *)
Definition U32TO8_LE (v : Z) : list Z :=
  [v `mod` 256; Z.shiftr v 8 `mod` 256; Z.shiftr v 16 `mod` 256; Z.shiftr v 24 `mod` 256].
Definition U64TO8_LE (v : Z) : list Z := U32TO8_LE (u32 v) ++ U32TO8_LE (u32 (Z.shiftr v 32)).

Definition ROTL (x b : Z) : Z := Z.lor (u64 (Z.shiftl x b)) (Z.shiftr x (64 - b)).

Record sip := Sip { v0 : Z; v1 : Z; v2 : Z; v3 : Z }.

Definition SIPROUND (v : sip) : sip :=
  let '(Sip v0 v1 v2 v3) := v in
  let v0 := u64 (v0 + v1) in
  let v1 := ROTL v1 13 in
  let v1 := Z.lxor v1 v0 in
  let v0 := ROTL v0 32 in
  let v2 := u64 (v2 + v3) in
  let v3 := ROTL v3 16 in
  let v3 := Z.lxor v3 v2 in
  let v0 := u64 (v0 + v3) in
  let v3 := ROTL v3 21 in
  let v3 := Z.lxor v3 v0 in
  let v2 := u64 (v2 + v1) in
  let v1 := ROTL v1 17 in
  let v1 := Z.lxor v1 v2 in
  let v2 := ROTL v2 32 in
  Sip v0 v1 v2 v3.

(** What is done with a word [m] of the message. *)
Definition sip_word (v : sip) (m : Z) : sip :=
  let v := Sip (v0 v) (v1 v) (v2 v) (Z.lxor (v3 v) m) in
  let v := SIPROUND (SIPROUND v) in
  Sip (Z.lxor (v0 v) m) (v1 v) (v2 v) (v3 v).

(** [for (; in != end; in += 8)] *)
Fixpoint sip_words (fuel : nat) (data : list Z) (in_ end_ : Z) (v : sip) : option (sip * Z) :=
  match fuel with
  | O => None
  | S k =>
      if in_ =? end_ then Some (v, in_)
      else m ← U8TO64_LE data in_; sip_words k data (in_ + 8) end_ (sip_word v m)
  end.

(** [switch (left)], whose cases fall through. *)
Fixpoint sip_left (left : nat) (data : list Z) (in_ b : Z) : option Z :=
  match left with
  | O => Some b
  | S k => c ← byte data (in_ + Z.of_nat k); sip_left k data in_ (Z.lor b (Z.shiftl c (8 * Z.of_nat k)))
  end.

Definition SIP64 (data : list Z) (seed0 seed1 : Z) : option Z :=
  let inlen := Z.of_nat (length data) in
  k0 ← U8TO64_LE (le_split 8 seed0) 0;
  k1 ← U8TO64_LE (le_split 8 seed1) 0;
  let v := Sip (Z.lxor 0x736f6d6570736575 k0) (Z.lxor 0x646f72616e646f6d k1)
             (Z.lxor 0x6c7967656e657261 k0) (Z.lxor 0x7465646279746573 k1) in
  '(v, in_) ← sip_words (S (length data)) data 0 (inlen - inlen `mod` 8) v;
  b ← sip_left (Z.to_nat (Z.land inlen 7)) data in_ (u64 (Z.shiftl inlen 56));
  let v := sip_word v b in
  let v := SIPROUND (SIPROUND (SIPROUND (SIPROUND (Sip (v0 v) (v1 v) (Z.lxor (v2 v) 0xff) (v3 v))))) in
  let b := Z.lxor (Z.lxor (Z.lxor (v0 v) (v1 v)) (v2 v)) (v3 v) in
  Some (le_combine (U64TO8_LE b)).

Definition hashmap_sip := SIP64.

(** * MurmurHash3 *)

Definition ROTL32 (x r : Z) : Z := Z.lor (u32 (Z.shiftl x r)) (Z.shiftr x (32 - r)).

Definition FMIX32 (h : Z) : Z :=
  let h := Z.lxor h (Z.shiftr h 16) in
  let h := u32 (h * 0x85ebca6b) in
  let h := Z.lxor h (Z.shiftr h 13) in
  let h := u32 (h * 0xc2b2ae35) in
  Z.lxor h (Z.shiftr h 16).

Definition c1 : Z := 0x239b961b.
Definition c2 : Z := 0xab0e9789.
Definition c3 : Z := 0x38b34ae5.
Definition c4 : Z := 0xa1e38b93.

(** [k *= c; k = ROTL32(k, r); k *= d] *)
Definition mm_mul (c r d k : Z) : Z := u32 (ROTL32 (u32 (k * c)) r * d).

Record murmur := Murmur { h1 : Z; h2 : Z; h3 : Z; h4 : Z }.

(** The body of the loop over the blocks of 16 bytes: [i] is negative and counts from
    the end of the blocks. *)
Definition mm_block (data : list Z) (nblocks i : Z) (h : murmur) : option murmur :=
  let blocks j := load 4 (nblocks * 16 + 4 * j) data in
  k1 ← blocks (i * 4 + 0); k2 ← blocks (i * 4 + 1); k3 ← blocks (i * 4 + 2); k4 ← blocks (i * 4 + 3);
  let '(Murmur h1 h2 h3 h4) := h in
  let h1 := ROTL32 (Z.lxor h1 (mm_mul c1 15 c2 k1)) 19 in
  let h1 := u32 (u32 (h1 + h2) * 5 + 0x561ccd1b) in
  let h2 := ROTL32 (Z.lxor h2 (mm_mul c2 16 c3 k2)) 17 in
  let h2 := u32 (u32 (h2 + h3) * 5 + 0x0bcaa747) in
  let h3 := ROTL32 (Z.lxor h3 (mm_mul c3 17 c4 k3)) 15 in
  let h3 := u32 (u32 (h3 + h4) * 5 + 0x96cd1c35) in
  let h4 := ROTL32 (Z.lxor h4 (mm_mul c4 18 c1 k4)) 13 in
  let h4 := u32 (u32 (h4 + h1) * 5 + 0x32ac3b17) in
  Some (Murmur h1 h2 h3 h4).

(** [for (int i = -nblocks; i; i++)] *)
Fixpoint mm_blocks (n : nat) (data : list Z) (nblocks : Z) (h : murmur) : option murmur :=
  match n with
  | O => Some h
  | S n' => h ← mm_block data nblocks (- Z.of_nat n) h; mm_blocks n' data nblocks h
  end.

(** One of the four groups of cases of the switch on the rest: the bytes [first], ... of
    the tail, at most 4 of them and [left] in all, are gathered in a word; a
    shifted byte is converted to 32 bits. *)
Fixpoint mm_gather (n : nat) (data : list Z) (first left k : Z) : option Z :=
  match n with
  | O => Some k
  | S j =>
      k ← (if Z.of_nat j <? left then c ← byte data (first + Z.of_nat j);
             Some (Z.lxor k (u32 (Z.shiftl c (8 * Z.of_nat j))))
           else Some k);
      mm_gather j data first left k
  end.

Definition mm_tail (data : list Z) (tail left : Z) (h : murmur) : option murmur :=
  let '(Murmur h1 h2 h3 h4) := h in
  k4 ← mm_gather 3 data (tail + 12) (left - 12) 0;
  let h4 := if 12 <? left then Z.lxor h4 (mm_mul c4 18 c1 k4) else h4 in
  k3 ← mm_gather 4 data (tail + 8) (left - 8) 0;
  let h3 := if 8 <? left then Z.lxor h3 (mm_mul c3 17 c4 k3) else h3 in
  k2 ← mm_gather 4 data (tail + 4) (left - 4) 0;
  let h2 := if 4 <? left then Z.lxor h2 (mm_mul c2 16 c3 k2) else h2 in
  k1 ← mm_gather 4 data tail left 0;
  let h1 := if 0 <? left then Z.lxor h1 (mm_mul c1 15 c2 k1) else h1 in
  Some (Murmur h1 h2 h3 h4).

(** [h1 += h2; h1 += h3; h1 += h4; h2 += h1; h3 += h1; h4 += h1] *)
Definition mm_add (h : murmur) : murmur :=
  let '(Murmur h1 h2 h3 h4) := h in
  let h1 := u32 (u32 (u32 (h1 + h2) + h3) + h4) in
  Murmur h1 (u32 (h2 + h1)) (u32 (h3 + h1)) (u32 (h4 + h1)).

(** The length is converted to an [int]. With a negative number of blocks the loop from
    [-nblocks] up to 0 reads behind the blocks and counts up until [i] overflows. *)
Definition MM86128 (data : list Z) (seed : Z) : option Z :=
  let len := s32 (Z.of_nat (length data)) in
  let nblocks := Z.quot len 16 in
  let seed := u32 seed in
  if nblocks <? 0 then None else
  h ← mm_blocks (Z.to_nat nblocks) data nblocks (Murmur seed seed seed seed);
  h ← mm_tail data (nblocks * 16) (Z.land len 15) h;
  let h := Murmur (Z.lxor (h1 h) (u32 len)) (Z.lxor (h2 h) (u32 len)) (Z.lxor (h3 h) (u32 len)) (Z.lxor (h4 h) (u32 len)) in
  let h := mm_add h in
  let h := Murmur (FMIX32 (h1 h)) (FMIX32 (h2 h)) (FMIX32 (h3 h)) (FMIX32 (h4 h)) in
  let h := mm_add h in
  Some (Z.lor (Z.shiftl (h2 h) 32) (h1 h)).

Definition hashmap_murmur (data : list Z) (seed0 seed1 : Z) : option Z := MM86128 data seed0.

(** * xxHash *)

Definition XXH_PRIME_1 : Z := 11400714785074694791.
Definition XXH_PRIME_2 : Z := 14029467366897019727.
Definition XXH_PRIME_3 : Z := 1609587929392839161.
Definition XXH_PRIME_4 : Z := 9650029242287828579.
Definition XXH_PRIME_5 : Z := 2870177450012600261.

Definition XXH_read64 (data : list Z) (p : Z) : option Z := load 8 p data.
Definition XXH_read32 (data : list Z) (p : Z) : option Z := load 4 p data.
Definition XXH_rotl64 (x r : Z) : Z := Z.lor (u64 (Z.shiftl x r)) (Z.shiftr x (64 - r)).

(** [v += x * P2; v = rotl(v, 31); v *= P1] *)
Definition xxh_round (v x : Z) : Z :=
  u64 (XXH_rotl64 (u64 (v + u64 (x * XXH_PRIME_2))) 31 * XXH_PRIME_1).

(** [v *= P2; v = rotl(v, 31); v *= P1; h64 ^= v; h64 = h64 * P1 + P4] *)
Definition xxh_merge (h v : Z) : Z := u64 (Z.lxor h (xxh_round 0 v) * XXH_PRIME_1 + XXH_PRIME_4).

(** The do-while loop over the stripes of 32 bytes. *)
Fixpoint xxh_stripes (fuel : nat) (data : list Z) (p limit : Z) (v : sip) : option (sip * Z) :=
  match fuel with
  | O => None
  | S k =>
      let '(Sip a b c d) := v in
      x1 ← XXH_read64 data p; x2 ← XXH_read64 data (p + 8);
      x3 ← XXH_read64 data (p + 16); x4 ← XXH_read64 data (p + 24);
      let v := Sip (xxh_round a x1) (xxh_round b x2) (xxh_round c x3) (xxh_round d x4) in
      if p + 32 <=? limit then xxh_stripes k data (p + 32) limit v else Some (v, p + 32)
  end.

Fixpoint xxh_words (fuel : nat) (data : list Z) (p end_ h64 : Z) : option (Z * Z) :=
  match fuel with
  | O => None
  | S k =>
      if p + 8 <=? end_ then
        k1 ← XXH_read64 data p;
        let h64 := Z.lxor h64 (xxh_round 0 k1) in
        xxh_words k data (p + 8) end_ (u64 (XXH_rotl64 h64 27 * XXH_PRIME_1 + XXH_PRIME_4))
      else Some (h64, p)
  end.

Fixpoint xxh_bytes (fuel : nat) (data : list Z) (p end_ h64 : Z) : option Z :=
  match fuel with
  | O => None
  | S k =>
      if p <? end_ then
        c ← byte data p;
        let h64 := Z.lxor h64 (u64 (c * XXH_PRIME_5)) in
        xxh_bytes k data (p + 1) end_ (u64 (XXH_rotl64 h64 11 * XXH_PRIME_1))
      else Some h64
  end.

Definition xxh_start (data : list Z) (seed : Z) : option (Z * Z) :=
  let end_ := Z.of_nat (length data) in
  if 32 <=? end_ then
    '(v, p) ← xxh_stripes (length data) data 0 (end_ - 32)
      (Sip (u64 (u64 (seed + XXH_PRIME_1) + XXH_PRIME_2)) (u64 (seed + XXH_PRIME_2)) (u64 (seed + 0)) (u64 (seed - XXH_PRIME_1)));
    let '(Sip a b c d) := v in
    let h64 := u64 (u64 (u64 (XXH_rotl64 a 1 + XXH_rotl64 b 7) + XXH_rotl64 c 12) + XXH_rotl64 d 18) in
    Some (xxh_merge (xxh_merge (xxh_merge (xxh_merge h64 a) b) c) d, p)
  else Some (u64 (seed + XXH_PRIME_5), 0).

Definition xxh3 (data : list Z) (seed : Z) : option Z :=
  let end_ := Z.of_nat (length data) in
  '(h64, p) ← xxh_start data seed;
  '(h64, p) ← xxh_words (S (length data)) data p end_ (u64 (h64 + end_));
  '(h64, p) ← (if p + 4 <=? end_ then
                 x ← XXH_read32 data p;
                 let h64 := Z.lxor h64 (u64 (x * XXH_PRIME_1)) in
                 Some (u64 (XXH_rotl64 h64 23 * XXH_PRIME_2 + XXH_PRIME_3), p + 4)
               else Some (h64, p));
  h64 ← xxh_bytes (S (length data)) data p end_ h64;
  let h64 := Z.lxor h64 (Z.shiftr h64 33) in
  let h64 := u64 (h64 * XXH_PRIME_2) in
  let h64 := Z.lxor h64 (Z.shiftr h64 29) in
  let h64 := u64 (h64 * XXH_PRIME_3) in
  Some (Z.lxor h64 (Z.shiftr h64 32)).

Definition hashmap_xxhash3 (data : list Z) (seed0 seed1 : Z) : option Z := xxh3 data seed0.

(** Published test vectors. *)
Example sip_empty : SIP64 [] 0x0706050403020100 0x0f0e0d0c0b0a0908 = Some 0x726fdb47dd0e0e31.
Proof. vm_compute. reflexivity. Qed.
Example sip_15 : SIP64 (Z.of_nat <$> seq 0 15) 0x0706050403020100 0x0f0e0d0c0b0a0908 = Some 0xa129ca6149be45e5.
Proof. vm_compute. reflexivity. Qed.
Example xxh_empty : xxh3 [] 0 = Some 0xef46db3751d8e999.
Proof. vm_compute. reflexivity. Qed.
Example mm_empty : MM86128 [] 0 = Some 0.
Proof. vm_compute. reflexivity. Qed.
(** The bytes of a pangram of 43 letters. *)
Definition fox : list Z :=
  [84; 104; 101; 32; 113; 117; 105; 99; 107; 32; 98; 114; 111; 119; 110; 32; 102; 111; 120; 32; 106; 117; 109; 112; 115; 32; 111; 118; 101; 114; 32; 116; 104; 101; 32; 108; 97; 122; 121; 32; 100; 111; 103].
Example xxh_fox : xxh3 fox 0 = Some 0x0b242d361fda71bc.
Proof. vm_compute. reflexivity. Qed.
Example mm_fox : MM86128 fox 0 = Some 0xecee2c672f1583c3.
Proof. vm_compute. reflexivity. Qed.

(** * Words *)

Definition word (w x : Z) : Prop := 0 ≤ x < 2 ^ w.

Lemma word_bits w x : 0 ≤ w → 0 ≤ x → word w x ↔ ∀ n, w ≤ n → Z.testbit x n = false.
Proof.
  intros Hw Hx. split.
  - intros [_ Hlt] n Hn. destruct (decide (x = 0)) as [->|Hne]; [apply Z.bits_0|].
    apply Z.bits_above_log2; [done|]. apply Z.log2_lt_pow2; [lia|].
    eapply Z.lt_le_trans; [exact Hlt|]. apply Z.pow_le_mono_r; lia.
  - intros Hb. split; [done|]. destruct (decide (x = 0)) as [->|Hne]; [by apply Z.pow_pos_nonneg|].
    apply Z.log2_lt_pow2; [lia|]. destruct (Z.lt_ge_cases (Z.log2 x) w) as [|Hge]; [done|].
    apply Hb in Hge. rewrite Z.bit_log2 in Hge by lia. done.
Qed.

Lemma word_lor w x y : 0 ≤ w → word w x → word w y → word w (Z.lor x y).
Proof.
  intros Hw Hx Hy. pose proof Hx as [Hx0 _]. pose proof Hy as [Hy0 _].
  apply word_bits; [done|by apply Z.lor_nonneg|]. intros n Hn. rewrite Z.lor_spec.
  by rewrite (proj1 (word_bits w x Hw Hx0) Hx n Hn), (proj1 (word_bits w y Hw Hy0) Hy n Hn).
Qed.

Lemma word_lxor w x y : 0 ≤ w → word w x → word w y → word w (Z.lxor x y).
Proof.
  intros Hw Hx Hy. pose proof Hx as [Hx0 _]. pose proof Hy as [Hy0 _].
  apply word_bits; [done|by apply Z.lxor_nonneg|]. intros n Hn. rewrite Z.lxor_spec.
  by rewrite (proj1 (word_bits w x Hw Hx0) Hx n Hn), (proj1 (word_bits w y Hw Hy0) Hy n Hn).
Qed.

Lemma word_shiftr w x k : 0 ≤ w → 0 ≤ k → word w x → word w (Z.shiftr x k).
Proof.
  intros Hw Hk [H0 H1]. rewrite Z.shiftr_div_pow2 by done. pose proof (Z.pow_pos_nonneg 2 k ltac:(lia) Hk).
  split; [by apply Z.div_pos|]. eapply Z.le_lt_trans; [|exact H1]. apply Z.div_le_upper_bound; [done|]. nia.
Qed.

Lemma word_u64 x : word 64 (u64 x).
Proof. by apply Z.mod_pos_bound. Qed.
Lemma word_u32 x : word 32 (u32 x).
Proof. by apply Z.mod_pos_bound. Qed.
Lemma word_weaken w w' x : 0 ≤ w ≤ w' → word w x → word w' x.
Proof. intros Hw [H0 H1]. split; [done|]. eapply Z.lt_le_trans; [exact H1|]. apply Z.pow_le_mono_r; lia. Qed.

Lemma word_ROTL x b : 0 ≤ b ≤ 64 → word 64 x → word 64 (ROTL x b).
Proof. intros Hb Hx. apply word_lor; [done|apply word_u64|]. apply word_shiftr; [done|lia|done]. Qed.

Lemma word_xxh_rotl64 x r : 0 ≤ r ≤ 64 → word 64 x → word 64 (XXH_rotl64 x r).
Proof. exact (word_ROTL x r). Qed.

Lemma word_ROTL32 x r : 0 ≤ r ≤ 32 → word 32 x → word 32 (ROTL32 x r).
Proof. intros Hb Hx. apply word_lor; [done|apply word_u32|]. apply word_shiftr; [done|lia|done]. Qed.

Create HintDb words.
#[export] Hint Resolve word_u64 word_u32 : words.
#[export] Hint Extern 1 (word _ (Z.lor _ _)) => (apply word_lor; [done|..]) : words.
#[export] Hint Extern 1 (word _ (Z.lxor _ _)) => (apply word_lxor; [done|..]) : words.
#[export] Hint Extern 1 (word _ (Z.shiftr _ _)) => (apply word_shiftr; [done|done|]) : words.
#[export] Hint Extern 1 (word 64 (ROTL _ _)) => (apply word_ROTL; [done|]) : words.
#[export] Hint Extern 1 (word 64 (XXH_rotl64 _ _)) => (apply word_xxh_rotl64; [done|]) : words.
#[export] Hint Extern 1 (word 32 (ROTL32 _ _)) => (apply word_ROTL32; [done|]) : words.

(** * SipHash as it is specified *)

(** The message is padded with zeros and its length modulo 256 to whole words. *)
Definition sip_pad (data : list Z) : list Z :=
  data ++ replicate (7 - length data `mod` 8)%nat 0 ++ [Z.of_nat (length data) `mod` 256].

Fixpoint le_words (n : nat) (l : list Z) : list Z :=
  match n with
  | O => []
  | S n => le_combine (take 8 l) :: le_words n (drop 8 l)
  end.

Definition sip_end (v : sip) : Z :=
  let v := Nat.iter 4 SIPROUND (Sip (v0 v) (v1 v) (Z.lxor (v2 v) 0xff) (v3 v)) in
  Z.lxor (Z.lxor (Z.lxor (v0 v) (v1 v)) (v2 v)) (v3 v).

Definition siphash24 (data : list Z) (k0 k1 : Z) : Z :=
  let v := Sip (Z.lxor 0x736f6d6570736575 k0) (Z.lxor 0x646f72616e646f6d k1)
             (Z.lxor 0x6c7967656e657261 k0) (Z.lxor 0x7465646279746573 k1) in
  let v := foldl sip_word v (le_words (S (length data `div` 8)) (sip_pad data)) in
  sip_end v.

(** Joining words whose bits do not overlap. *)
Lemma lor_low x b k : 0 ≤ k → word k b → Z.lor b (Z.shiftl x k) = b + x * 2 ^ k.
Proof.
  intros Hk Hb. rewrite <- Z.shiftl_mul_pow2 by done. pose proof Hb as [Hb0 _].
  assert (Z.land b (Z.shiftl x k) = 0) as Hl.
  { apply Z.bits_inj'. intros n Hn. rewrite Z.land_spec, Z.bits_0. destruct (Z.lt_ge_cases n k).
    - by rewrite Z.shiftl_spec_low, andb_false_r.
    - by rewrite (proj1 (word_bits k b Hk Hb0) Hb n). }
  by rewrite <- (Z.lxor_lor _ _ Hl), (Z.add_nocarry_lxor _ _ Hl).
Qed.

Lemma byte_at data i : 0 ≤ i < Z.of_nat (length data) → ∃ c, byte data i = Some c ∧ data !! Z.to_nat i = Some c.
Proof.
  intros Hi. destruct (lookup_lt_is_Some_2 data (Z.to_nat i)) as [c Hc]; [lia|]. exists c. split; [|done].
  unfold byte, load. rewrite decide_True by lia. f_equal.
  rewrite (drop_S _ _ _ Hc). cbn. rewrite take_0. cbn. lia.
Qed.

Lemma le_combine_app l l' : le_combine (l ++ l') = le_combine l + le_combine l' * 2 ^ (8 * Z.of_nat (length l)).
Proof.
  induction l as [|b l IH]; cbn [app le_combine length]; [cbn; lia|]. rewrite IH.
  replace (8 * Z.of_nat (S (length l))) with (8 + 8 * Z.of_nat (length l)) by lia.
  rewrite Z.pow_add_r by lia. change (2 ^ 8) with 256. lia.
Qed.

Lemma le_combine_word l w : Forall is_byte l → 8 * Z.of_nat (length l) ≤ w → word w (le_combine l).
Proof.
  intros Hl Hw. eapply word_weaken; [|by apply le_combine_bound]. lia.
Qed.

(** The macro reads eight bytes as a number. *)
Lemma U8TO64_LE_ok data p : Forall is_byte data → 0 ≤ p → p + 8 ≤ Z.of_nat (length data) →
  U8TO64_LE data p = Some (le_combine (take 8 (drop (Z.to_nat p) data))).
Proof.
  intros Hd Hp Hl. unfold U8TO64_LE.
  assert (∀ k, 0 ≤ k < 8 → byte data (p + k) = drop (Z.to_nat p) data !! Z.to_nat k) as Hb.
  { intros k Hk. destruct (byte_at data (p + k)) as (c & -> & Hc); [lia|]. rewrite lookup_drop, <- Hc. f_equal. lia. }
  rewrite <- (Z.add_0_r p) at 1. rewrite !Hb by lia.
  assert (8 ≤ length (drop (Z.to_nat p) data))%nat as Hlen by (rewrite length_drop; lia).
  assert (Forall is_byte (drop (Z.to_nat p) data)) as Hd' by by apply Forall_drop.
  destruct (drop (Z.to_nat p) data) as [|b0 [|b1 [|b2 [|b3 [|b4 [|b5 [|b6 [|b7 l]]]]]]]]; cbn [length] in Hlen; try lia.
  change (Z.to_nat 0) with 0%nat; change (Z.to_nat 1) with 1%nat; change (Z.to_nat 2) with 2%nat;
    change (Z.to_nat 3) with 3%nat; change (Z.to_nat 4) with 4%nat; change (Z.to_nat 5) with 5%nat;
    change (Z.to_nat 6) with 6%nat; change (Z.to_nat 7) with 7%nat.
  cbn [lookup list_lookup mbind option_bind take le_combine]. rewrite take_0. cbn [le_combine]. f_equal. clear -Hd'. rewrite !Forall_cons in Hd'. destruct Hd' as (?&?&?&?&?&?&?&?&_).
  unfold is_byte in *.
  rewrite (lor_low b1 _ 8), (lor_low b2 _ 16), (lor_low b3 _ 24), (lor_low b4 _ 32), (lor_low b5 _ 40),
    (lor_low b6 _ 48), (lor_low b7 _ 56) by (unfold word; lia). lia.
Qed.

Lemma sip_left_ok data p k a : Forall is_byte data → 0 ≤ p → p + Z.of_nat k ≤ Z.of_nat (length data) →
  sip_left k data p (a * 2 ^ (8 * Z.of_nat k)) =
  Some (le_combine (take k (drop (Z.to_nat p) data)) + a * 2 ^ (8 * Z.of_nat k)).
Proof.
  intros Hd Hp. revert a. induction k as [|k IH]; intros a Hl; cbn [sip_left]; [done|].
  destruct (byte_at data (p + Z.of_nat k)) as (c & -> & Hc); [lia|]. cbn [mbind option_bind].
  replace (Z.to_nat (p + Z.of_nat k)) with (Z.to_nat p + k)%nat in Hc by lia.
  assert (is_byte c) as Hb by (by eapply Forall_lookup_1).
  assert (Z.lor (a * 2 ^ (8 * Z.of_nat (S k))) (Z.shiftl c (8 * Z.of_nat k)) = (c + a * 2 ^ 8) * 2 ^ (8 * Z.of_nat k)) as E.
  { rewrite <- (lor_low a c 8) by (done || exact Hb).
    rewrite <- (Z.shiftl_mul_pow2 (Z.lor _ _)), Z.shiftl_lor, Z.shiftl_shiftl by lia.
    rewrite Z.lor_comm, <- Z.shiftl_mul_pow2 by lia. do 2 f_equal. lia. }
  rewrite E, IH by lia. f_equal. rewrite (take_S_r _ k c) by (rewrite lookup_drop; exact Hc).
  rewrite le_combine_app, length_take, length_drop. cbn [le_combine].
  replace (k `min` (length data - Z.to_nat p))%nat with k by lia.
  replace (8 * Z.of_nat (S k)) with (8 + 8 * Z.of_nat k) by lia. rewrite (Z.pow_add_r 2 8) by lia. lia.
Qed.

Lemma sip_words_ok data n : ∀ p v fuel, Forall is_byte data → 0 ≤ p → p + 8 * Z.of_nat n ≤ Z.of_nat (length data) →
  (n < fuel)%nat →
  sip_words fuel data p (p + 8 * Z.of_nat n) v =
  Some (foldl sip_word v (le_words n (drop (Z.to_nat p) data)), p + 8 * Z.of_nat n).
Proof.
  induction n as [|n IH]; intros p v fuel Hd Hp Hl Hf; (destruct fuel as [|fuel]; [lia|]); cbn [sip_words].
  - rewrite (proj2 (Z.eqb_eq _ _)) by lia. cbn. do 2 f_equal. lia.
  - rewrite (proj2 (Z.eqb_neq _ _)) by lia. rewrite U8TO64_LE_ok by (done || lia). cbn [mbind option_bind].
    replace (p + 8 * Z.of_nat (S n)) with (p + 8 + 8 * Z.of_nat n) by lia.
    rewrite IH by (done || lia). cbn [le_words foldl]. rewrite drop_drop.
    replace (Z.to_nat p + 8)%nat with (Z.to_nat (p + 8)) by lia. done.
Qed.

Lemma le_words_snoc n : ∀ l, le_words (S n) l = le_words n l ++ [le_combine (take 8 (drop (8 * n) l))].
Proof.
  induction n as [|n IH]; intros l; [done|]. cbn [le_words] in IH |- *. rewrite IH, drop_drop. cbn [app].
  do 3 f_equal. by replace (8 + 8 * n)%nat with (8 * S n)%nat by lia.
Qed.

Lemma le_words_prefix n : ∀ l l', (8 * n ≤ length l)%nat → le_words n (l ++ l') = le_words n l.
Proof.
  induction n as [|n IH]; intros l l' Hl; cbn [le_words]; [done|].
  rewrite take_app_le, drop_app_le by lia. f_equal. apply IH. rewrite length_drop. lia.
Qed.

Lemma le_combine_zeros n l : le_combine (replicate n 0 ++ l) = le_combine l * 2 ^ (8 * Z.of_nat n).
Proof.
  rewrite le_combine_app, length_replicate. assert (le_combine (replicate n 0) = 0) as ->; [|lia].
  induction n as [|n IH]; [done|]. cbn. by rewrite IH.
Qed.

(** The last word of the padded message. *)
Lemma sip_pad_last data : let q := (length data `div` 8)%nat in let r := (length data `mod` 8)%nat in
  le_combine (take 8 (drop (8 * q) (sip_pad data))) =
  le_combine (take r (drop (8 * q) data)) + Z.of_nat (length data) `mod` 256 * 2 ^ 56.
Proof.
  intros q r. pose proof (Nat.div_mod_eq (length data) 8) as Hdiv. fold q r in Hdiv.
  pose proof (Nat.mod_upper_bound (length data) 8 ltac:(lia)) as Hr. fold r in Hr.
  unfold sip_pad. fold r. rewrite drop_app_le by lia.
  assert (length (drop (8 * q) data) = r) as Hl by (rewrite length_drop; lia).
  rewrite (take_ge (drop _ data) r) by lia.
  rewrite take_ge by (rewrite !length_app, Hl, length_replicate; cbn; lia).
  rewrite le_combine_app, Hl, le_combine_zeros. cbn [le_combine].
  replace (2 ^ 56) with (2 ^ (8 * Z.of_nat (7 - r)) * 2 ^ (8 * Z.of_nat r)); [lia|].
  rewrite <- Z.pow_add_r by lia. f_equal. lia.
Qed.

Lemma U64TO8_LE_ok b : word 64 b → le_combine (U64TO8_LE b) = b.
Proof.
  assert (∀ v, word 32 v → U32TO8_LE v = le_split 4 v) as H32.
  { intros v Hv. unfold U32TO8_LE. cbn [le_split]. rewrite !Z.shiftr_div_pow2 by done.
    rewrite !Z.div_div by done. done. }
  intros [H0 H1]. unfold U64TO8_LE. rewrite !H32 by auto with words.
  rewrite le_combine_app, !le_combine_split, le_split_length. unfold u32. rewrite !Z.mod_mod by done.
  rewrite Z.shiftr_div_pow2 by done. rewrite (Z.mod_small (b `div` _)).
  - change (8 * Z.of_nat 4) with 32. pose proof (Z.div_mod b (2 ^ 32) ltac:(lia)). lia.
  - split; [by apply Z.div_pos|]. apply Z.div_lt_upper_bound; [done|]. exact H1.
Qed.

Definition sip_ok (v : sip) : Prop := word 64 (v0 v) ∧ word 64 (v1 v) ∧ word 64 (v2 v) ∧ word 64 (v3 v).

Lemma sip_ok_intro a b c d : word 64 a → word 64 b → word 64 c → word 64 d → sip_ok (Sip a b c d).
Proof. done. Qed.

Lemma SIPROUND_ok v : sip_ok v → sip_ok (SIPROUND v).
Proof. destruct v. intros (? & ? & ? & ?). unfold sip_ok in *. cbn in *. split_and!; auto 10 with words. Qed.

Lemma sip_word_ok v m : sip_ok v → word 64 m → sip_ok (sip_word v m).
Proof.
  intros (? & ? & ? & ?) Hm. unfold sip_word. cbv zeta.
  assert (sip_ok (SIPROUND (SIPROUND (Sip (v0 v) (v1 v) (v2 v) (Z.lxor (v3 v) m))))) as Hv.
  { apply SIPROUND_ok, SIPROUND_ok, sip_ok_intro; [done..|by apply word_lxor]. }
  revert Hv. generalize (SIPROUND (SIPROUND (Sip (v0 v) (v1 v) (v2 v) (Z.lxor (v3 v) m)))).
  intros w (? & ? & ? & ?). unfold sip_ok. cbn [v0 v1 v2 v3]. split; [by apply word_lxor|done].
Qed.

Lemma foldl_sip_ok l : ∀ v, sip_ok v → Forall (word 64) l → sip_ok (foldl sip_word v l).
Proof.
  induction l as [|m l IH]; intros v Hv Hl; [done|]. apply Forall_cons in Hl as [Hm Hl]. cbn.
  apply IH; [by apply sip_word_ok|done].
Qed.

Lemma le_words_ok n : ∀ l, Forall is_byte l → Forall (word 64) (le_words n l).
Proof.
  induction n as [|n IH]; intros l Hl; cbn [le_words]; constructor.
  - apply le_combine_word; [by apply Forall_take|]. rewrite length_take. lia.
  - by apply IH, Forall_drop.
Qed.

Lemma sip_pad_bytes data : Forall is_byte data → Forall is_byte (sip_pad data).
Proof.
  intros Hd. unfold sip_pad. rewrite !Forall_app. split; [done|]. split.
  - apply Forall_replicate. unfold is_byte. lia.
  - constructor; [|done]. by apply Z.mod_pos_bound.
Qed.

Lemma seed_bytes seed : U8TO64_LE (le_split 8 seed) 0 = Some (u64 seed).
Proof.
  rewrite U8TO64_LE_ok; [|apply le_split_bytes|lia|rewrite le_split_length; lia].
  rewrite drop_0, take_ge by (by rewrite le_split_length). by rewrite le_combine_split.
Qed.

Lemma iter_SIPROUND_ok n v : sip_ok v → sip_ok (Nat.iter n SIPROUND v).
Proof. intros Hv. induction n; [done|]. by apply SIPROUND_ok. Qed.

Lemma sip_end_ok v : sip_ok v → word 64 (sip_end v).
Proof.
  intros (? & ? & ? & ?). unfold sip_end.
  assert (sip_ok (Sip (v0 v) (v1 v) (Z.lxor (v2 v) 0xff) (v3 v))) as Hv
    by (apply sip_ok_intro; [done..|by apply word_lxor|done]).
  apply (iter_SIPROUND_ok 4) in Hv. revert Hv. generalize (Nat.iter 4 SIPROUND (Sip (v0 v) (v1 v) (Z.lxor (v2 v) 0xff) (v3 v))).
  intros w (? & ? & ? & ?). cbv zeta. auto with words.
Qed.

Lemma SIP64_ok data seed0 seed1 : Forall is_byte data →
  SIP64 data seed0 seed1 = Some (siphash24 data (u64 seed0) (u64 seed1)) ∧ word 64 (siphash24 data (u64 seed0) (u64 seed1)).
Proof.
  intros Hd. set (q := (length data `div` 8)%nat). set (r := (length data `mod` 8)%nat).
  pose proof (Nat.div_mod_eq (length data) 8) as Hdiv. fold q r in Hdiv.
  pose proof (Nat.mod_upper_bound (length data) 8 ltac:(lia)) as Hr. fold r in Hr.
  assert (word 64 (siphash24 data (u64 seed0) (u64 seed1))) as Hw.
  { unfold siphash24. cbv zeta. apply sip_end_ok, foldl_sip_ok.
    - apply sip_ok_intro; apply word_lxor; (done || apply word_u64).
    - by apply le_words_ok, sip_pad_bytes. }
  split; [|done]. rewrite <- (U64TO8_LE_ok _ Hw). clear Hw.
  unfold SIP64. rewrite !seed_bytes. cbn [mbind option_bind].
  assert (Z.of_nat (length data) - Z.of_nat (length data) `mod` 8 = 0 + 8 * Z.of_nat q) as ->.
  { change 8 with (Z.of_nat 8) at 1. rewrite <- Nat2Z.inj_mod. fold r. lia. }
  rewrite sip_words_ok by (done || lia). cbn [mbind option_bind].
  assert (Z.to_nat (Z.land (Z.of_nat (length data)) 7) = r) as ->.
  { change 7 with (Z.ones 3). rewrite Z.land_ones by done. change (2 ^ 3) with (Z.of_nat 8).
    rewrite <- Nat2Z.inj_mod. apply Nat2Z.id. }
  assert (u64 (Z.shiftl (Z.of_nat (length data)) 56) =
          Z.of_nat (length data) `mod` 256 * 2 ^ (56 - 8 * Z.of_nat r) * 2 ^ (8 * Z.of_nat r)) as ->.
  { rewrite <- Z.mul_assoc, <- Z.pow_add_r by lia. replace (56 - 8 * Z.of_nat r + 8 * Z.of_nat r) with 56 by lia.
    unfold u64. rewrite Z.shiftl_mul_pow2 by done. change (2 ^ 64) with (256 * 2 ^ 56). by rewrite Z.mul_mod_distr_r. }
  rewrite sip_left_ok by (done || lia). cbn [mbind option_bind]. do 2 f_equal.
  unfold siphash24. fold q. rewrite le_words_snoc, foldl_app. cbn [foldl].
  pose proof (sip_pad_last data) as Hlast. cbv zeta in Hlast. fold q r in Hlast. rewrite Hlast. unfold sip_pad at 1. rewrite le_words_prefix by lia.
  change (Z.to_nat 0) with 0%nat. rewrite drop_0. replace (Z.to_nat (0 + 8 * Z.of_nat q)) with (8 * q)%nat by lia.
  rewrite <- Z.mul_assoc, <- Z.pow_add_r by lia. replace (56 - 8 * Z.of_nat r + 8 * Z.of_nat r) with 56 by lia.
  unfold sip_end. cbn [Nat.iter]. reflexivity.
Qed.

(** C30: hashmap_sip computes SipHash-2-4 of the data under the key (seed0, seed1): two
    rounds for each little-endian word of the data padded with zeros and its
    length, four rounds at the end; it reads nothing outside the data and gives a
    64-bit number. The word-wise loop, the switch that falls through its cases and
    the byte-wise conversions together are that specification. *)
Theorem sip_is_siphash data seed0 seed1 : Forall is_byte data →
  hashmap_sip data seed0 seed1 = Some (siphash24 data (u64 seed0) (u64 seed1)) ∧
  0 ≤ siphash24 data (u64 seed0) (u64 seed1) < 2 ^ 64.
Proof. apply SIP64_ok. Qed.

Lemma sip_is_siphash_witness :
  hashmap_sip (Z.of_nat <$> seq 0 15) 1 2 = Some (siphash24 (Z.of_nat <$> seq 0 15) (u64 1) (u64 2)) ∧
  0 ≤ siphash24 (Z.of_nat <$> seq 0 15) (u64 1) (u64 2) < 2 ^ 64.
Proof.
  apply sip_is_siphash. apply Forall_fmap, Forall_forall. intros i Hi%elem_of_seq. unfold is_byte. cbn. lia.
Defined.

(** * The other hash functions stay in the data *)

Lemma load_word w p data : Forall is_byte data → 0 ≤ p → p + Z.of_nat w ≤ Z.of_nat (length data) →
  ∃ x, load w p data = Some x ∧ word (8 * Z.of_nat w) x.
Proof.
  intros Hd Hp Hl. unfold load. rewrite decide_True by lia. eexists. split; [done|].
  apply le_combine_word; [by apply Forall_take, Forall_drop|]. rewrite length_take. lia.
Qed.

Definition murmur_ok (h : murmur) : Prop := word 32 (h1 h) ∧ word 32 (h2 h) ∧ word 32 (h3 h) ∧ word 32 (h4 h).

Lemma word_mm_mul c r d k : word 32 (mm_mul c r d k).
Proof. apply word_u32. Qed.
#[export] Hint Resolve word_mm_mul : words.

Lemma mm_block_ok data nblocks i h : Forall is_byte data → 0 < i ≤ nblocks → nblocks * 16 ≤ Z.of_nat (length data) →
  ∃ h', mm_block data nblocks (- i) h = Some h' ∧ murmur_ok h'.
Proof.
  intros Hd Hi Hl. unfold mm_block.
  destruct (load_word 4 (nblocks * 16 + 4 * (- i * 4 + 0)) data Hd) as (x1 & -> & _); [lia..|].
  destruct (load_word 4 (nblocks * 16 + 4 * (- i * 4 + 1)) data Hd) as (x2 & -> & _); [lia..|].
  destruct (load_word 4 (nblocks * 16 + 4 * (- i * 4 + 2)) data Hd) as (x3 & -> & _); [lia..|].
  destruct (load_word 4 (nblocks * 16 + 4 * (- i * 4 + 3)) data Hd) as (x4 & -> & _); [lia..|].
  cbn [mbind option_bind]. destruct h. eexists. split; [done|].
  unfold murmur_ok. cbn [h1 h2 h3 h4]. auto with words.
Qed.

Lemma mm_blocks_ok data nblocks n : ∀ h, Forall is_byte data → Z.of_nat n ≤ nblocks →
  nblocks * 16 ≤ Z.of_nat (length data) → murmur_ok h →
  ∃ h', mm_blocks n data nblocks h = Some h' ∧ murmur_ok h'.
Proof.
  induction n as [|n IH]; intros h Hd Hn Hl Hh; [by exists h|]. cbn [mm_blocks].
  destruct (mm_block_ok data nblocks (Z.of_nat (S n)) h Hd) as (h' & -> & Hh'); [lia..|].
  cbn [mbind option_bind]. by apply IH; [|lia|..].
Qed.

Lemma mm_gather_ok data first left n : ∀ k, Forall is_byte data → 0 ≤ first →
  first + left ≤ Z.of_nat (length data) → ∃ k', mm_gather n data first left k = Some k'.
Proof.
  induction n as [|n IH]; intros k Hd Hf Hl; cbn [mm_gather]; [by eexists|].
  destruct (Z.ltb_spec (Z.of_nat n) left) as [Hlt|Hge]; [|by apply IH].
  destruct (byte_at data (first + Z.of_nat n)) as (c & -> & _); [lia|]. by apply IH.
Qed.

Lemma mm_tail_ok data tail left h : Forall is_byte data → 0 ≤ tail → tail + left ≤ Z.of_nat (length data) →
  murmur_ok h → ∃ h', mm_tail data tail left h = Some h' ∧ murmur_ok h'.
Proof.
  intros Hd Ht Hl Hh. destruct h as [a b c d]. destruct Hh as (? & ? & ? & ?). cbn [h1 h2 h3 h4] in *. unfold mm_tail.
  destruct (mm_gather_ok data (tail + 12) (left - 12) 3 0 Hd) as (k4 & ->); [lia..|].
  destruct (mm_gather_ok data (tail + 8) (left - 8) 4 0 Hd) as (k3 & ->); [lia..|].
  destruct (mm_gather_ok data (tail + 4) (left - 4) 4 0 Hd) as (k2 & ->); [lia..|].
  destruct (mm_gather_ok data tail left 4 0 Hd) as (k1 & ->); [lia..|].
  eexists. split; [done|]. unfold murmur_ok. cbn [h1 h2 h3 h4].
  destruct (12 <? left), (8 <? left), (4 <? left), (0 <? left); auto 6 with words.
Qed.

Lemma mm_add_ok h : murmur_ok (mm_add h).
Proof. destruct h. unfold murmur_ok. cbn. auto with words. Qed.

Lemma xxh_stripes_ok data n : ∀ p v, Forall is_byte data → 0 ≤ p → p + 32 ≤ Z.of_nat (length data) →
  Z.of_nat (length data) - p ≤ Z.of_nat n →
  ∃ v' p', xxh_stripes n data p (Z.of_nat (length data) - 32) v = Some (v', p') ∧ sip_ok v' ∧
    0 ≤ p' ≤ Z.of_nat (length data).
Proof.
  induction n as [|n IH]; intros p v Hd Hp Hl Hn; [lia|]. cbn [xxh_stripes]. destruct v as [a b c d]. unfold XXH_read64.
  destruct (load_word 8 p data Hd) as (x1 & -> & _); [lia..|].
  destruct (load_word 8 (p + 8) data Hd) as (x2 & -> & _); [lia..|].
  destruct (load_word 8 (p + 16) data Hd) as (x3 & -> & _); [lia..|].
  destruct (load_word 8 (p + 24) data Hd) as (x4 & -> & _); [lia..|]. cbn [mbind option_bind].
  destruct (Z.leb_spec (p + 32) (Z.of_nat (length data) - 32)).
  - apply IH; [done|lia..].
  - do 2 eexists. split; [done|]. split; [|lia]. apply sip_ok_intro; apply word_u64.
Qed.

Lemma xxh_words_ok data n : ∀ p h, Forall is_byte data → 0 ≤ p ≤ Z.of_nat (length data) → word 64 h →
  Z.of_nat (length data) - p < Z.of_nat n →
  ∃ h' p', xxh_words n data p (Z.of_nat (length data)) h = Some (h', p') ∧ word 64 h' ∧
    p ≤ p' ≤ Z.of_nat (length data).
Proof.
  induction n as [|n IH]; intros p h Hd Hp Hh Hn; [lia|]. cbn [xxh_words]. unfold XXH_read64.
  destruct (Z.leb_spec (p + 8) (Z.of_nat (length data))); [|exists h, p; split_and!; try done; lia].
  destruct (load_word 8 p data Hd) as (x & -> & _); [lia..|]. cbn [mbind option_bind].
  destruct (IH (p + 8) (u64 (XXH_rotl64 (Z.lxor h (xxh_round 0 x)) 27 * XXH_PRIME_1 + XXH_PRIME_4)) Hd)
    as (h' & p' & E & Hh' & Hp'); [lia|apply word_u64|lia|]. exists h', p'. split; [exact E|]. split; [done|lia].
Qed.

Lemma xxh_bytes_ok data n : ∀ p h, Forall is_byte data → 0 ≤ p ≤ Z.of_nat (length data) → word 64 h →
  Z.of_nat (length data) - p < Z.of_nat n →
  ∃ h', xxh_bytes n data p (Z.of_nat (length data)) h = Some h' ∧ word 64 h'.
Proof.
  induction n as [|n IH]; intros p h Hd Hp Hh Hn; [lia|]. cbn [xxh_bytes].
  destruct (Z.ltb_spec p (Z.of_nat (length data))); [|by exists h].
  destruct (byte_at data p) as (c & -> & _); [lia|]. cbn [mbind option_bind].
  apply IH; [done|lia|apply word_u64|lia].
Qed.

Lemma xxh_start_ok data seed : Forall is_byte data →
  ∃ h p, xxh_start data seed = Some (h, p) ∧ 0 ≤ p ≤ Z.of_nat (length data).
Proof.
  intros Hd. unfold xxh_start. destruct (Z.leb_spec 32 (Z.of_nat (length data))) as [Hl|Hl].
  - edestruct (xxh_stripes_ok data (length data) 0) as (v & p & -> & _ & Hp); [done|lia..|].
    cbn [mbind option_bind]. destruct v. do 2 eexists. split; [done|lia].
  - do 2 eexists. split; [done|lia].
Qed.

Lemma xxh3_ok data seed : Forall is_byte data → ∃ h, xxh3 data seed = Some h ∧ word 64 h.
Proof.
  intros Hd. unfold xxh3. destruct (xxh_start_ok data seed Hd) as (h & p & -> & Hp). cbn [mbind option_bind].
  destruct (xxh_words_ok data (S (length data)) p (u64 (h + Z.of_nat (length data))) Hd Hp) as (h1 & p1 & -> & Hh1 & Hp1);
    [apply word_u64|lia|]. cbn [mbind option_bind].
  assert (∃ h2 p2, (if p1 + 4 <=? Z.of_nat (length data) then
      x ← XXH_read32 data p1;
      Some (u64 (XXH_rotl64 (Z.lxor h1 (u64 (x * XXH_PRIME_1))) 23 * XXH_PRIME_2 + XXH_PRIME_3), p1 + 4)
    else Some (h1, p1)) = Some (h2, p2) ∧ word 64 h2 ∧ 0 ≤ p2 ≤ Z.of_nat (length data)) as (h2 & p2 & -> & Hh2 & Hp2).
  { destruct (Z.leb_spec (p1 + 4) (Z.of_nat (length data))).
    - unfold XXH_read32. destruct (load_word 4 p1 data Hd) as (x & -> & _); [lia..|]. cbn [mbind option_bind].
      do 2 eexists. split; [done|]. split; [apply word_u64|lia].
    - do 2 eexists. split; [done|]. split; [done|lia]. }
  cbn [mbind option_bind].
  destruct (xxh_bytes_ok data (S (length data)) p2 h2 Hd Hp2 Hh2) as (h3 & -> & Hh3); [lia|]. cbn [mbind option_bind].
  eexists. split; [done|]. auto with words.
Qed.

Lemma s32_id x : 0 ≤ x < 2 ^ 31 → s32 x = x.
Proof. intros Hx. unfold s32, u32. rewrite Z.mod_small by lia. by rewrite (proj2 (Z.ltb_lt _ _)) by lia. Qed.

Lemma MM86128_ok data seed : Forall is_byte data → Z.of_nat (length data) < 2 ^ 31 → ∃ h, MM86128 data seed = Some h ∧ word 64 h.
Proof.
  intros Hd Hlen. unfold MM86128. rewrite s32_id by lia. rewrite Z.quot_div_nonneg by lia. set (len := Z.of_nat (length data)).
  pose proof (Z.div_mod len 16 ltac:(lia)). pose proof (Z.mod_pos_bound len 16 ltac:(lia)).
  pose proof (Z.div_pos len 16 ltac:(lia) ltac:(lia)).
  rewrite (proj2 (Z.ltb_ge _ _)) by lia.
  assert (Z.land len 15 = len `mod` 16) as -> by (change 15 with (Z.ones 4); by apply Z.land_ones).
  destruct (mm_blocks_ok data (len `div` 16) (Z.to_nat (len `div` 16)) (Murmur (u32 seed) (u32 seed) (u32 seed) (u32 seed)) Hd)
    as (h & -> & Hh); [lia|lia|unfold murmur_ok; cbn; auto with words|]. cbn [mbind option_bind].
  destruct (mm_tail_ok data (len `div` 16 * 16) (len `mod` 16) h Hd) as (h' & -> & Hh'); [lia|lia|done|].
  cbn [mbind option_bind]. eexists. split; [done|].
  match goal with |- word 64 (Z.lor (Z.shiftl (h2 ?x) 32) _) =>
    assert (murmur_ok x) as Hx by apply mm_add_ok; revert Hx; generalize x end.
  intros x (Hx1 & Hx2 & _). apply word_lor; [done| |by apply (word_weaken 32)].
  destruct Hx2 as [H20 H21]. rewrite Z.shiftl_mul_pow2 by done. unfold word. lia.
Qed.

(** From 2^31 bytes on the length is a negative [int]. *)
Lemma MM86128_long data seed : 2 ^ 31 ≤ Z.of_nat (length data) ≤ 2 ^ 32 - 16 → MM86128 data seed = None.
Proof.
  intros Hlen. unfold MM86128. assert (s32 (Z.of_nat (length data)) = Z.of_nat (length data) - 2 ^ 32) as ->.
  { unfold s32, u32. rewrite Z.mod_small by lia. by rewrite (proj2 (Z.ltb_ge _ _)) by lia. }
  set (x := Z.of_nat (length data) - 2 ^ 32). assert (x ≤ - 16) by (subst x; lia).
  replace x with (- (- x)) by lia. rewrite Z.quot_opp_l, Z.quot_div_nonneg by lia.
  assert (1 ≤ (- x) `div` 16) by (apply Z.div_le_lower_bound; lia). by rewrite (proj2 (Z.ltb_lt _ _)) by lia.
Qed.

(** C31: The three hash functions end, read nothing outside the data and give a 64-bit number, for
    every seed: hashmap_sip and hashmap_xxhash3 on data of every length, hashmap_murmur on
    fewer than 2^31 bytes. Its length is an int: on 2^31 up to 2^32 - 16 bytes hashmap_murmur is
    undefined (it reads behind the data until its counter overflows). *)
Theorem hashes_stay_in_data data seed0 seed1 : Forall is_byte data →
  (∃ h, hashmap_sip data seed0 seed1 = Some h ∧ 0 ≤ h < 2 ^ 64) ∧
  (∃ h, hashmap_xxhash3 data seed0 seed1 = Some h ∧ 0 ≤ h < 2 ^ 64) ∧
  (Z.of_nat (length data) < 2 ^ 31 → ∃ h, hashmap_murmur data seed0 seed1 = Some h ∧ 0 ≤ h < 2 ^ 64) ∧
  (2 ^ 31 ≤ Z.of_nat (length data) ≤ 2 ^ 32 - 16 → hashmap_murmur data seed0 seed1 = None).
Proof.
  intros Hd. split; [eexists; by apply SIP64_ok|]. split; [by apply xxh3_ok|]. split; [by apply MM86128_ok|by apply MM86128_long].
Qed.

Lemma hashes_stay_in_data_witness :
  (∃ h, hashmap_sip fox 1 2 = Some h ∧ 0 ≤ h < 2 ^ 64) ∧
  (∃ h, hashmap_xxhash3 fox 1 2 = Some h ∧ 0 ≤ h < 2 ^ 64) ∧ (∃ h, hashmap_murmur fox 1 2 = Some h ∧ 0 ≤ h < 2 ^ 64).
Proof.
  destruct (hashes_stay_in_data fox 1 2) as (H1 & H2 & H3 & _);
    [|split; [exact H1|]; split; [exact H2|apply H3; cbn; lia]]. apply Forall_forall. intros x Hx. unfold is_byte.
  assert (forallb (λ x, (0 <=? x) && (x <? 256)) fox = true) as Hf by (vm_compute; reflexivity).
  rewrite forallb_forall in Hf. apply list_elem_of_In in Hx. specialize (Hf x Hx). lia.
Defined.
