(* ===== verification/HashMap.v ===== *)
(** The open-addressing hash table of the daemon, impl/usm/hashmap.c.

    Items are of a type [A]; the callbacks [hash] and [compare] of the C
    structure are parameters of the section, as they are arguments of
    [hashmap_new]. A bucket is free when its 16-bit distance to its home
    bucket, [dib], is 0. The table is searched by linear probing and filled by
    Robin Hood hashing. Arrays are lists; [malloc] answers whether an
    allocation of a resize succeeds. *)
From stdpp Require Import prelude gmap.
From S2P Require Import Prelude.

Open Scope Z_scope.

(** * The model *)
Section hashmap.
Context {A : Type} (zero : A) (hash : A → Z → Z → Z) (compare : A → A → Z).

Record bucket := Bucket { b_hash : Z; dib : Z; bucket_item : A }.
(** A bucket of memory that was set to 0. *)
Definition empty_bucket : bucket := Bucket 0 0 zero.
Definition with_dib (d : Z) (b : bucket) : bucket := Bucket (b_hash b) (u16 d) (bucket_item b).

Record hashmap := Hashmap {
  cap : Z;
  seed0 : Z;
  seed1 : Z;
  nbuckets : Z;
  count : Z;
  mask : Z;
  growat : Z;
  shrinkat : Z;
  growpower : Z;
  oom : bool;
  buckets : list bucket;
}.

Definition set_buckets l m := Hashmap (cap m) (seed0 m) (seed1 m) (nbuckets m) (count m) (mask m) (growat m) (shrinkat m) (growpower m) (oom m) l.
Definition set_count c m := Hashmap (cap m) (seed0 m) (seed1 m) (nbuckets m) c (mask m) (growat m) (shrinkat m) (growpower m) (oom m) (buckets m).
Definition set_oom o m := Hashmap (cap m) (seed0 m) (seed1 m) (nbuckets m) (count m) (mask m) (growat m) (shrinkat m) (growpower m) o (buckets m).
Definition set_growpower g m := Hashmap (cap m) (seed0 m) (seed1 m) (nbuckets m) (count m) (mask m) (growat m) (shrinkat m) g (oom m) (buckets m).

(** [nbuckets * 0.60] and [nbuckets * 0.10], truncated. *)
Definition grow_limit (n : Z) : Z := (n * 3) `div` 5.
Definition shrink_limit (n : Z) : Z := n `div` 10.

Definition hashmap_set_grow_by_power (power : Z) : M hashmap unit :=
  modify (set_growpower (if power <? 1 then 1 else if 16 <? power then 16 else power)).

Definition bucket_at (i : Z) : M hashmap bucket := reads (λ m, buckets m !! Z.to_nat i).
Definition put_bucket (i : Z) (b : bucket) : M hashmap unit :=
  updates (λ m, _ ← buckets m !! Z.to_nat i; Some (set_buckets (<[Z.to_nat i := b]> (buckets m)) m)).

Definition clip_hash (h : Z) : Z := Z.land h 0xFFFFFFFFFFFF.
Definition get_hash (key : A) : M hashmap Z :=
  gets (λ m, clip_hash (hash key (seed0 m) (seed1 m))).

(** The smallest power of two that is at least 16 and [cap]: the loop doubles at
    most 60 times on a [size_t]. *)
Fixpoint round_cap (fuel : nat) (ncap cap : Z) : Z :=
  match fuel with
  | O => ncap
  | S k => if ncap <? cap then round_cap k (ncap * 2) cap else ncap
  end.

(** [hashmap_new_with_allocator], when its allocations succeed. *)
Definition hashmap_new (cap seed0 seed1 : Z) : hashmap :=
  let ncap := if cap <? 16 then 16 else round_cap 60 16 cap in
  Hashmap ncap seed0 seed1 ncap 0 (ncap - 1) (grow_limit ncap) (shrink_limit ncap) 1 false
    (replicate (Z.to_nat ncap) empty_bucket).

(** One test and iteration of the inner loop of [resize0]: [entry] is placed into
    the new table; a poorer entry takes the place of a richer one. *)
Definition resize_body (a : bucket * Z) : M hashmap ((bucket * Z) + unit) :=
  let '(entry, j) := a in
  bucket ← bucket_at j;
  if dib bucket =? 0 then _ ← put_bucket j entry; mret (inr tt)
  else
    mask ← gets mask;
    if dib bucket <? dib entry then
      _ ← put_bucket j entry;
      mret (inl (with_dib (dib bucket + 1) bucket, Z.land (j + 1) mask))
    else mret (inl (with_dib (dib entry + 1) entry, Z.land (j + 1) mask)).

Definition resize_entry (entry : bucket) : M hashmap unit :=
  if dib entry =? 0 then mret tt
  else
    let entry := with_dib 1 entry in
    m ← gets id;
    loop (S (length (buckets m))) resize_body (entry, Z.land (b_hash entry) (mask m)).

Fixpoint resize_entries (l : list bucket) : M hashmap unit :=
  match l with
  | [] => mret tt
  | entry :: l => _ ← resize_entry entry; resize_entries l
  end.

(** [resize0] fills a new table [map2] and takes over its array and limits. *)
Definition resize (malloc : bool) (new_cap : Z) : M hashmap bool := λ m,
  if negb malloc then Ok false m
  else match resize_entries (buckets m) (hashmap_new new_cap (seed0 m) (seed1 m)) with
       | Ok _ m2 => Ok true (Hashmap (cap m) (seed0 m) (seed1 m) (nbuckets m2) (count m) (mask m2)
                               (growat m2) (shrinkat m2) (growpower m) (oom m) (buckets m2))
       | Undef => Undef
       | Abort => Abort
       | OutOfFuel => OutOfFuel
       end.

(** One test and iteration of the loop of [hashmap_set_with_hash]. The result is
    the item that was replaced. *)
Definition set_body (a : bucket * Z) : M hashmap ((bucket * Z) + option A) :=
  let '(entry, i) := a in
  bucket ← bucket_at i;
  if dib bucket =? 0 then
    _ ← put_bucket i entry;
    _ ← modify (λ m, set_count (count m + 1) m);
    mret (inr None)
  else if (b_hash entry =? b_hash bucket) && (compare (bucket_item entry) (bucket_item bucket) =? 0) then
    _ ← put_bucket i (Bucket (b_hash bucket) (dib bucket) (bucket_item entry));
    mret (inr (Some (bucket_item bucket)))
  else
    mask ← gets mask;
    if dib bucket <? dib entry then
      _ ← put_bucket i entry;
      mret (inl (with_dib (dib bucket + 1) bucket, Z.land (i + 1) mask))
    else mret (inl (with_dib (dib entry + 1) entry, Z.land (i + 1) mask)).

Definition hashmap_set_with_hash (malloc : bool) (item : A) (h : Z) : M hashmap (option A) :=
  let h := clip_hash h in
  _ ← modify (set_oom false);
  m ← gets id;
  ok ← (if count m =? growat m then resize malloc (nbuckets m * Z.shiftl 1 (growpower m)) else mret true);
  if negb ok then _ ← modify (set_oom true); mret None
  else
    m ← gets id;
    loop (S (length (buckets m))) set_body (Bucket h 1 item, Z.land h (mask m)).

Definition hashmap_set (malloc : bool) (item : A) : M hashmap (option A) :=
  h ← get_hash item; hashmap_set_with_hash malloc item h.

Definition get_body (h : Z) (key : A) (i : Z) : M hashmap (Z + option A) :=
  bucket ← bucket_at i;
  if dib bucket =? 0 then mret (inr None)
  else if (b_hash bucket =? h) && (compare key (bucket_item bucket) =? 0) then
    mret (inr (Some (bucket_item bucket)))
  else mask ← gets mask; mret (inl (Z.land (i + 1) mask)).

Definition hashmap_get_with_hash (key : A) (h : Z) : M hashmap (option A) :=
  let h := clip_hash h in
  m ← gets id;
  loop (S (length (buckets m))) (get_body h key) (Z.land h (mask m)).

Definition hashmap_get (key : A) : M hashmap (option A) :=
  h ← get_hash key; hashmap_get_with_hash key h.

(** A write through the pointer that [hashmap_get] has returned: the bucket of the key of [item]
    holds [item] then. The null pointer cannot be written to. *)
Definition write_body (h : Z) (item : A) (i : Z) : M hashmap (Z + unit) :=
  bucket ← bucket_at i;
  if dib bucket =? 0 then undef
  else if (b_hash bucket =? h) && (compare item (bucket_item bucket) =? 0) then
    _ ← put_bucket i (Bucket (b_hash bucket) (dib bucket) item); mret (inr tt)
  else mask ← gets mask; mret (inl (Z.land (i + 1) mask)).

Definition hashmap_write (item : A) : M hashmap unit :=
  h ← get_hash item;
  m ← gets id;
  loop (S (length (buckets m))) (write_body (clip_hash h) item) (Z.land (clip_hash h) (mask m)).

Definition hashmap_probe (position : Z) : M hashmap (option A) :=
  mask ← gets mask;
  bucket ← bucket_at (Z.land position mask);
  mret (if dib bucket =? 0 then None else Some (bucket_item bucket)).

(** The inner loop of [hashmap_delete_with_hash]: the entries after the hole [i]
    move back by one, up to one that is free or in its home bucket. *)
Definition shift_body (prev : Z) : M hashmap (Z + unit) :=
  mask ← gets mask;
  let i := Z.land (prev + 1) mask in
  bucket ← bucket_at i;
  if dib bucket <=? 1 then
    p ← bucket_at prev;
    _ ← put_bucket prev (with_dib 0 p);
    mret (inr tt)
  else
    _ ← put_bucket prev (with_dib (dib bucket - 1) bucket);
    mret (inl i).

Definition delete_found (malloc : bool) (i : Z) : M hashmap A :=
  bucket ← bucket_at i;
  _ ← put_bucket i (with_dib 0 bucket);
  m ← gets id;
  _ ← loop (S (length (buckets m))) shift_body i;
  _ ← modify (λ m, set_count (count m - 1) m);
  m ← gets id;
  _ ← (if (cap m <? nbuckets m) && (count m <=? shrinkat m) then resize malloc (nbuckets m `div` 2)
       else mret true);
  mret (bucket_item bucket).

Definition delete_body (malloc : bool) (h : Z) (key : A) (i : Z) : M hashmap (Z + option A) :=
  bucket ← bucket_at i;
  if dib bucket =? 0 then mret (inr None)
  else if (b_hash bucket =? h) && (compare key (bucket_item bucket) =? 0) then
    x ← delete_found malloc i; mret (inr (Some x))
  else mask ← gets mask; mret (inl (Z.land (i + 1) mask)).

Definition hashmap_delete_with_hash (malloc : bool) (key : A) (h : Z) : M hashmap (option A) :=
  let h := clip_hash h in
  _ ← modify (set_oom false);
  m ← gets id;
  loop (S (length (buckets m))) (delete_body malloc h key) (Z.land h (mask m)).

Definition hashmap_delete (malloc : bool) (key : A) : M hashmap (option A) :=
  h ← get_hash key; hashmap_delete_with_hash malloc key h.

(** [hashmap_clear]; 0.75 here where [hashmap_new] has 0.60. When an array of
    [cap] buckets cannot be allocated the old one is kept and only its first
    [cap] buckets are used. *)
Definition hashmap_clear (malloc update_cap : bool) : M hashmap unit :=
  m ← gets id;
  let cap' := if update_cap then nbuckets m else cap m in
  if negb malloc && (nbuckets m <? cap') then undef
  else modify (λ m, Hashmap cap' (seed0 m) (seed1 m) cap' 0 (cap' - 1) ((cap' * 3) `div` 4) (cap' `div` 10)
                 (growpower m) (oom m) (replicate (Z.to_nat cap') empty_bucket)).

Definition hashmap_count : M hashmap Z := gets count.
Definition hashmap_oom : M hashmap bool := gets oom.

(** [hashmap_scan] with an iterator that gathers what it sees in [S]. *)
Fixpoint hashmap_scan {S} (iter : S → A → S * bool) (l : list bucket) (s : S) : S * bool :=
  match l with
  | [] => (s, true)
  | b :: l =>
      if dib b =? 0 then hashmap_scan iter l s
      else let '(s, go) := iter s (bucket_item b) in
           if go then hashmap_scan iter l s else (s, false)
  end.

(** [hashmap_iter]: the next item from the cursor, and the cursor behind it. *)
Fixpoint hashmap_iter_from (l : list bucket) (i : Z) : option (A * Z) :=
  match l with
  | [] => None
  | b :: l => if dib b =? 0 then hashmap_iter_from l (i + 1) else Some (bucket_item b, i + 1)
  end.
Definition hashmap_iter (i : Z) : M hashmap (option (A * Z)) :=
  gets (λ m, hashmap_iter_from (drop (Z.to_nat i) (buckets m)) i).

(** [free_elements]: the items that elfree is called with, in order; [elfree] tells if the table
    has such a function. *)
Fixpoint free_elements (elfree : bool) (l : list bucket) : list A :=
  match l with
  | [] => []
  | b :: l => if elfree && negb (dib b =? 0) then bucket_item b :: free_elements elfree l else free_elements elfree l
  end.

(** [hashmap_free]; the memory of the table itself is given back behind the items. *)
Definition hashmap_free (elfree : bool) (map : option hashmap) : list A :=
  match map with None => [] | Some m => free_elements elfree (buckets m) end.
End hashmap.

Arguments bucket A : clear implicits.
Arguments hashmap A : clear implicits.
