(* ===== verification/HashMapSpec.v ===== *)
(** The hash table refines a finite map.

    The invariant of a Robin Hood table: an occupied bucket is [dib - 1] after its
    home bucket, and [dib] grows by at most 1 from one bucket to the next.
    Positions are integers modulo the number of buckets, so the second half
    reads without wrap-around. Under the invariant, set, get and delete are
    insertion, lookup and deletion of a finite map from keys to items, and a
    resize does not change the map. *)
From stdpp Require Import prelude gmap.
From S2P Require Import Prelude HashMap.

Open Scope Z_scope.

(** A power of two masks like a remainder. *)
Lemma land_mask x n : 0 ≤ n → Z.land x (2 ^ n - 1) = x `mod` 2 ^ n.
Proof. intros Hn. rewrite Z.sub_1_r, <- Z.ones_equiv. by apply Z.land_ones. Qed.

(** * Buckets *)
Section table.
Context {A : Type}.
Implicit Types (b e : bucket A) (bs : list (bucket A)).

Definition occupied b : Prop := dib b ≠ 0.
Global Instance occupied_dec b : Decision (occupied b).
Proof. unfold occupied. apply _. Defined.

(** What an occupied bucket stores; the distance depends on the place. *)
Definition stored b : Z * A := (b_hash b, bucket_item b).
Definition entries bs : list (Z * A) := stored <$> filter occupied bs.
Definition items bs : list A := (entries bs).*2.

Lemma entries_cons b bs :
  entries (b :: bs) = (if decide (occupied b) then [stored b] else []) ++ entries bs.
Proof. unfold entries. rewrite filter_cons. by case_decide. Qed.

Lemma entries_split l1 b l2 :
  entries (l1 ++ b :: l2) ≡ₚ (if decide (occupied b) then [stored b] else []) ++ entries (l1 ++ l2).
Proof.
  unfold entries. rewrite !filter_app, filter_cons. case_decide; simpl; rewrite !fmap_app; simpl; [|done].
  by rewrite <- Permutation_middle.
Qed.

(** The effect of an update on the entries. *)
Lemma entries_update bs i b0 b : bs !! i = Some b0 →
  (if decide (occupied b0) then [stored b0] else []) ++ entries (<[i := b]> bs) ≡ₚ
  (if decide (occupied b) then [stored b] else []) ++ entries bs.
Proof.
  intros Hi. pose proof (lookup_lt_Some _ _ _ Hi) as Hlt.
  rewrite <- (take_drop_middle bs i b0 Hi) at 2. rewrite insert_take_drop by done.
  rewrite !entries_split. rewrite !app_assoc. apply Permutation_app_tail, Permutation_app_comm.
Qed.

Lemma entries_length bs : (length (entries bs) ≤ length bs)%nat.
Proof. unfold entries. rewrite length_fmap. apply length_filter. Qed.

Lemma elem_of_entries bs q : q ∈ entries bs ↔ ∃ i b, bs !! i = Some b ∧ occupied b ∧ stored b = q.
Proof.
  unfold entries. rewrite list_elem_of_fmap. split.
  - intros (b & -> & [Ho Hb]%list_elem_of_filter). apply list_elem_of_lookup in Hb as [i Hi]. by exists i, b.
  - intros (i & b & Hi & Ho & <-). exists b. split; [done|]. apply list_elem_of_filter. split; [done|].
    by eapply list_elem_of_lookup_2.
Qed.

(** A table that is not full has a free bucket. *)
Lemma free_bucket bs : (length (entries bs) < length bs)%nat → ∃ i b, bs !! i = Some b ∧ dib b = 0.
Proof.
  unfold entries. rewrite length_fmap. induction bs as [|b bs IH]; simpl; [lia|]. rewrite filter_cons.
  case_decide as Hd; simpl.
  - intros Hlt. destruct IH as (i & b' & Hi & Hb); [lia|]. by exists (S i), b'.
  - intros _. exists O, b. split; [done|]. unfold occupied in Hd. lia.
Qed.

(** * Positions *)

(** The distance stored at position [z], modulo the size of the table. *)
Definition dib_at bs (z : Z) : Z :=
  from_option dib 0 (bs !! Z.to_nat (z `mod` Z.of_nat (length bs))).

Record robin_hood bs : Prop := {
  rh_size : 3 ≤ Z.of_nat (length bs) ≤ 2 ^ 15;
  rh_range i b : bs !! i = Some b → 0 ≤ dib b ≤ Z.of_nat (length bs);
  rh_home i b : bs !! i = Some b → occupied b →
    Z.of_nat i = (b_hash b + dib b - 1) `mod` Z.of_nat (length bs);
  rh_order z : dib_at bs (z + 1) ≤ dib_at bs z + 1;
}.

Lemma dib_at_lookup bs i b : bs !! i = Some b → dib_at bs (Z.of_nat i) = dib b.
Proof.
  intros Hi. pose proof (lookup_lt_Some _ _ _ Hi). unfold dib_at.
  rewrite Z.mod_small, Nat2Z.id by lia. by rewrite Hi.
Qed.

Lemma dib_at_mod bs z : dib_at bs (z `mod` Z.of_nat (length bs)) = dib_at bs z.
Proof.
  unfold dib_at. destruct (decide (Z.of_nat (length bs) = 0)) as [->|Hne]; [by rewrite !Z.mod_0_r|].
  by rewrite Z.mod_mod.
Qed.

Lemma dib_at_bucket bs z : (0 < length bs)%nat →
  ∃ b, bs !! Z.to_nat (z `mod` Z.of_nat (length bs)) = Some b ∧ dib_at bs z = dib b.
Proof.
  intros Hlen. pose proof (Z.mod_pos_bound z (Z.of_nat (length bs)) ltac:(lia)).
  destruct (lookup_lt_is_Some_2 bs (Z.to_nat (z `mod` Z.of_nat (length bs)))) as [b Hb]; [lia|].
  exists b. split; [done|]. unfold dib_at. by rewrite Hb.
Qed.

Lemma dib_at_insert bs z b y : (0 < length bs)%nat →
  dib_at (<[Z.to_nat (z `mod` Z.of_nat (length bs)) := b]> bs) y =
  if decide (y `mod` Z.of_nat (length bs) = z `mod` Z.of_nat (length bs)) then dib b else dib_at bs y.
Proof.
  intros Hlen. pose proof (Z.mod_pos_bound z (Z.of_nat (length bs)) ltac:(lia)).
  pose proof (Z.mod_pos_bound y (Z.of_nat (length bs)) ltac:(lia)).
  unfold dib_at. rewrite length_insert. case_decide as Hd.
  - rewrite Hd, list_lookup_insert_eq by lia. done.
  - rewrite list_lookup_insert_ne by lia. done.
Qed.

(** The distances descend towards the home bucket. *)
Lemma dib_at_before bs z t : robin_hood bs → 0 ≤ t → dib_at bs z - t ≤ dib_at bs (z - t).
Proof.
  intros Hr Ht. pattern t. apply natlike_ind; [|intros k Hk IH|done].
  - by rewrite Z.sub_0_r, Z.sub_0_r.
  - pose proof (rh_order bs Hr (z - Z.succ k)). replace (z - Z.succ k + 1) with (z - k) in H by lia. lia.
Qed.

(** ** Placing an entry *)

Lemma dib_at_congr bs y z : y `mod` Z.of_nat (length bs) = z `mod` Z.of_nat (length bs) →
  dib_at bs y = dib_at bs z.
Proof. intros H. unfold dib_at. by rewrite H. Qed.

Lemma mod_shift n y z d : y `mod` n = z `mod` n → (y + d) `mod` n = (z + d) `mod` n.
Proof. intros H. rewrite <- (Zplus_mod_idemp_l y), <- (Zplus_mod_idemp_l z). by rewrite H. Qed.

Lemma mod_apart n z d : 0 < d < n → (z + d) `mod` n ≠ z `mod` n.
Proof.
  intros Hd Hm. assert (((z + d) - z) `mod` n = 0) as H0.
  { rewrite Zminus_mod, Hm, Z.sub_diag. done. }
  replace (z + d - z) with d in H0 by lia. rewrite Z.mod_small in H0; lia.
Qed.

(** [e] is on its way at position [z]: it is at its distance, and the bucket
    before has no smaller distance than [e] had there. *)
Record carried bs e (z : Z) : Prop := {
  ca_dib : 1 ≤ dib e;
  ca_pos : z `mod` Z.of_nat (length bs) = (b_hash e + dib e - 1) `mod` Z.of_nat (length bs);
  ca_prev : dib e - 1 ≤ dib_at bs (z - 1);
}.

(** The way to a free bucket is short. *)
Lemma carried_bound bs e z z0 : robin_hood bs → carried bs e z → dib_at bs z0 = 0 →
  dib e ≤ Z.of_nat (length bs).
Proof.
  intros Hr [Hd _ Hp] H0. destruct (Z.le_gt_cases (dib e) (Z.of_nat (length bs))) as [|Hgt]; [done|].
  pose proof (rh_size bs Hr) as Hsz. set (n := Z.of_nat (length bs)) in *.
  pose proof (Z.mod_pos_bound (z - 1 - z0) n ltac:(lia)) as Ht.
  pose proof (dib_at_before bs (z - 1) ((z - 1 - z0) `mod` n) Hr ltac:(lia)) as Hb.
  rewrite (dib_at_congr bs (z - 1 - _) z0) in Hb; [lia|].
  fold n. rewrite Zminus_mod_idemp_r. f_equal. lia.
Qed.

(** Putting an entry where the present one is richer keeps the order. *)
Lemma robin_hood_put bs e z : robin_hood bs → carried bs e z →
  dib_at bs z < dib e ≤ Z.of_nat (length bs) →
  robin_hood (<[Z.to_nat (z `mod` Z.of_nat (length bs)) := e]> bs).
Proof.
  intros Hr Hc Hlt. pose proof Hc as [Hd Hpos Hprev]. pose proof (rh_size bs Hr) as Hsz.
  set (n := Z.of_nat (length bs)) in *. pose proof (Z.mod_pos_bound z n ltac:(lia)) as Hz.
  split; rewrite ?length_insert; fold n; try done.
  - intros i b [(<- & <- & _)|[_ Hi]]%list_lookup_insert_Some; [lia|]. by apply (rh_range bs Hr i).
  - intros i b [(<- & <- & _)|[_ Hi]]%list_lookup_insert_Some Ho; [|by apply (rh_home bs Hr i)].
    rewrite Z2Nat.id by lia. exact Hpos.
  - intros y. unfold n. rewrite !dib_at_insert by lia. fold n.
    pose proof (rh_order bs Hr y) as Hy. repeat case_decide as Hy1; try case_decide as Hy2; try lia.
    + assert (dib_at bs y = dib_at bs (z - 1)) as Heq; [|lia].
      apply dib_at_congr. fold n. replace y with ((y + 1) + -1) by lia. by apply (mod_shift n (y + 1) z (-1)).
    + assert (dib_at bs (y + 1) = dib_at bs (z + 1)) as Heq.
      { apply dib_at_congr. fold n. by apply mod_shift. }
      pose proof (rh_order bs Hr z). lia.
Qed.

(** The journey of an entry, as a function: the reference for the loops. *)
Fixpoint place (fuel : nat) bs e (z : Z) : option (list (bucket A)) :=
  match fuel with
  | O => None
  | S k =>
      b ← bs !! Z.to_nat (z `mod` Z.of_nat (length bs));
      if dib b =? 0 then Some (<[Z.to_nat (z `mod` Z.of_nat (length bs)) := e]> bs)
      else if dib b <? dib e then
        place k (<[Z.to_nat (z `mod` Z.of_nat (length bs)) := e]> bs) (with_dib (dib b + 1) b) (z + 1)
      else place k bs (with_dib (dib e + 1) e) (z + 1)
  end.

Lemma with_dib_small d b : 0 ≤ d < 2 ^ 16 → dib (with_dib d b) = d ∧ stored (with_dib d b) = stored b ∧
  b_hash (with_dib d b) = b_hash b.
Proof. intros Hd. cbn. unfold u16. by rewrite Z.mod_small. Qed.

(** The entry moves on, past a bucket that is not richer. *)
Lemma carried_next bs e z : robin_hood bs → carried bs e z → dib e ≤ dib_at bs z →
  carried bs (with_dib (dib e + 1) e) (z + 1).
Proof.
  intros Hr [Hd Hpos Hprev] Hle. pose proof (rh_size bs Hr).
  destruct (dib_at_bucket bs z ltac:(lia)) as (b & Hb & Eb).
  pose proof (rh_range bs Hr _ _ Hb). destruct (with_dib_small (dib e + 1) e) as (E1 & _ & E3); [lia|].
  split; rewrite ?E1, ?E3; [lia| |].
  - replace (b_hash e + (dib e + 1) - 1) with (b_hash e + dib e - 1 + 1) by lia. by apply mod_shift.
  - replace (z + 1 - 1) with z by lia. lia.
Qed.

(** The entry that was displaced moves on. *)
Lemma carried_displaced bs e z b : robin_hood bs → carried bs e z →
  bs !! Z.to_nat (z `mod` Z.of_nat (length bs)) = Some b → occupied b → dib b < dib e →
  carried (<[Z.to_nat (z `mod` Z.of_nat (length bs)) := e]> bs) (with_dib (dib b + 1) b) (z + 1).
Proof.
  intros Hr Hc Hb Ho Hlt. pose proof (rh_size bs Hr). pose proof (rh_range bs Hr _ _ Hb).
  destruct (with_dib_small (dib b + 1) b) as (E1 & _ & E3); [lia|].
  split; rewrite ?length_insert, ?E1, ?E3; [lia| |].
  - pose proof (rh_home bs Hr _ _ Hb Ho) as Hh.
    pose proof (Z.mod_pos_bound z (Z.of_nat (length bs)) ltac:(lia)). rewrite Z2Nat.id in Hh by lia.
    replace (b_hash b + (dib b + 1) - 1) with (b_hash b + dib b - 1 + 1) by lia. by apply mod_shift.
  - replace (z + 1 - 1) with z by lia. rewrite dib_at_insert, decide_True by lia || done. lia.
Qed.

Lemma put_free bs e z b : robin_hood bs → carried bs e z →
  bs !! Z.to_nat (z `mod` Z.of_nat (length bs)) = Some b → dib b = 0 →
  let bs' := <[Z.to_nat (z `mod` Z.of_nat (length bs)) := e]> bs in
  robin_hood bs' ∧ length bs' = length bs ∧ entries bs' ≡ₚ stored e :: entries bs.
Proof.
  intros Hr Hc Hb Hd bs'. pose proof (ca_dib _ _ _ Hc) as He. pose proof (rh_size bs Hr).
  assert (dib_at bs z = 0) as Hz by (unfold dib_at; by rewrite Hb).
  pose proof (carried_bound bs e z z Hr Hc Hz). split; [|split].
  - apply robin_hood_put; [done..|lia].
  - apply length_insert.
  - pose proof (entries_update bs _ b e Hb) as Hu. rewrite decide_False, decide_True in Hu; [done|..];
      unfold occupied; lia.
Qed.

Lemma place_ok k : ∀ bs e z, robin_hood bs → carried bs e z →
  0 ≤ Z.of_nat k < Z.of_nat (length bs) → dib_at bs (z + Z.of_nat k) = 0 →
  ∀ fuel, (k < fuel)%nat →
  ∃ bs', place fuel bs e z = Some bs' ∧ robin_hood bs' ∧ length bs' = length bs ∧
    entries bs' ≡ₚ stored e :: entries bs.
Proof.
  induction k as [|k IH]; intros bs e z Hr Hc Hk Hfree fuel Hfuel;
    (destruct fuel as [|fuel]; [lia|]); cbn [place]; pose proof (rh_size bs Hr);
    destruct (dib_at_bucket bs z ltac:(lia)) as (b & Hb & Eb); rewrite Hb; cbn [mbind option_bind].
  - rewrite Z.add_0_r in Hfree. rewrite <- Eb, Hfree. cbn [Z.eqb].
    eexists. split; [done|]. eapply put_free; [done..|congruence].
  - destruct (Z.eqb_spec (dib b) 0) as [Hz|Hz].
    { eexists. split; [done|]. by eapply put_free. }
    pose proof (carried_bound bs e z _ Hr Hc Hfree) as Hbound. pose proof (ca_dib _ _ _ Hc) as Hd.
    replace (z + Z.of_nat (S k)) with (z + 1 + Z.of_nat k) in Hfree by lia.
    destruct (Z.ltb_spec (dib b) (dib e)) as [Hlt|Hge].
    + set (bs1 := <[_ := e]> bs).
      destruct (IH bs1 (with_dib (dib b + 1) b) (z + 1)) with (fuel := fuel) as (bs' & E & Hr' & Hl & He).
      * apply robin_hood_put; [done..|lia].
      * by apply carried_displaced.
      * unfold bs1. rewrite length_insert. lia.
      * unfold bs1. rewrite dib_at_insert, decide_False by lia || (replace (z + 1 + Z.of_nat k) with (z + (1 + Z.of_nat k)) by lia; apply mod_apart; lia). done.
      * lia.
      * exists bs'. split; [exact E|]. split; [done|]. split; [by rewrite Hl; apply length_insert|].
        rewrite He. pose proof (entries_update bs _ b e Hb) as Hu.
        rewrite !decide_True in Hu; unfold occupied; [exact Hu|lia|exact Hz].
    + destruct (IH bs (with_dib (dib e + 1) e) (z + 1)) with (fuel := fuel) as (bs' & E & Hr' & Hl & He);
        [done|by apply carried_next; [..|lia]|lia|done|lia|].
      exists bs'. split; [exact E|]. split; [done|]. split; [done|]. exact He.
Qed.

(** A free bucket at or after [z]. *)
Lemma free_ahead bs z : robin_hood bs → (length (entries bs) < length bs)%nat →
  ∃ k, 0 ≤ Z.of_nat k < Z.of_nat (length bs) ∧ dib_at bs (z + Z.of_nat k) = 0.
Proof.
  intros Hr Hlt. pose proof (rh_size bs Hr). destruct (free_bucket bs Hlt) as (i & b & Hi & Hb).
  pose proof (Z.mod_pos_bound (Z.of_nat i - z) (Z.of_nat (length bs)) ltac:(lia)) as Hm.
  exists (Z.to_nat ((Z.of_nat i - z) `mod` Z.of_nat (length bs))). split; [lia|].
  rewrite Z2Nat.id by lia. rewrite <- Hb, <- (dib_at_lookup bs i b Hi). apply dib_at_congr.
  rewrite Zplus_mod_idemp_r. f_equal. lia.
Qed.

Lemma dib_at_nonneg bs z : robin_hood bs → 0 ≤ dib_at bs z.
Proof.
  intros Hr. pose proof (rh_size bs Hr). destruct (dib_at_bucket bs z ltac:(lia)) as (b & Hb & ->).
  apply (rh_range bs Hr _ _ Hb).
Qed.

(** An entry sets out from its home bucket. *)
Lemma carried_start bs h (x : A) : robin_hood bs → carried bs (Bucket h 1 x) h.
Proof.
  intros Hr. split; cbn; [lia|f_equal; lia|]. pose proof (dib_at_nonneg bs (h - 1) Hr). lia.
Qed.

(** From the home bucket of an entry up to the entry no bucket is free. *)
Lemma probe_path bs i b s : robin_hood bs → bs !! i = Some b → occupied b →
  0 ≤ s < dib b → s + 1 ≤ dib_at bs (b_hash b + s).
Proof.
  intros Hr Hi Ho Hs. pose proof (rh_home bs Hr i b Hi Ho) as Hh.
  assert (dib_at bs (b_hash b + dib b - 1) = dib b) as Hd.
  { etrans; [|exact (dib_at_lookup bs i b Hi)]. apply dib_at_congr. rewrite <- Hh.
    symmetry. apply Z.mod_small. pose proof (lookup_lt_Some _ _ _ Hi). lia. }
  pose proof (dib_at_before bs (b_hash b + dib b - 1) (dib b - 1 - s) Hr ltac:(lia)) as Hb.
  replace (b_hash b + dib b - 1 - (dib b - 1 - s)) with (b_hash b + s) in Hb by lia. lia.
Qed.
End table.

(** * Loops over the table *)

(** A loop that steps through the values of [σ] and stops at distance [k]. *)
Lemma probe_loop {S X R} (body : X → M S (X + R)) (σ : Z → X) s r s' k : ∀ fuel d,
  (∀ t, d ≤ t < k → body (σ t) s = Ok (inl (σ (t + 1))) s) →
  d ≤ k → body (σ k) s = Ok (inr r) s' →
  k - d < Z.of_nat fuel → loop fuel body (σ d) s = Ok r s'.
Proof.
  induction fuel as [|fuel IH]; intros d Hstep Hd Hstop Hf; [lia|]. rewrite loop_S.
  destruct (decide (d = k)) as [->|Hne]; [by run Hstop|].
  run (Hstep d ltac:(lia)). apply IH; [|lia|done|lia]. intros t Ht. apply Hstep. lia.
Qed.

(** The first of the distances with a property. *)
Lemma first_such (P : nat → Prop) `{∀ k, Decision (P k)} k : P k →
  ∃ k0, (k0 ≤ k)%nat ∧ P k0 ∧ ∀ j, (j < k0)%nat → ¬ P j.
Proof.
  induction k as [k IH] using lt_wf_ind. intros Hk.
  destruct (decide (Exists P (seq 0 k))) as [He|Hn].
  - apply Exists_exists in He as (j & Hj%elem_of_seq & Pj).
    destruct (IH j) as (k0 & ? & ? & ?); [lia|done|]. exists k0. split; [lia|done].
  - exists k. split; [lia|]. split; [done|]. intros j Hj Pj. apply Hn, Exists_exists.
    exists j. rewrite elem_of_seq. split; [lia|done].
Qed.

(** No two elements that a filter keeps have the same image. *)
Lemma NoDup_filter_lookup {X Y} (g : X → Y) (P : X → Prop) `{∀ x, Decision (P x)} (l : list X) i j x y :
  NoDup (g <$> filter P l) → l !! i = Some x → l !! j = Some y → P x → P y → g x = g y → i = j.
Proof.
  revert i j. induction l as [|z l IH]; intros i j Hnd Hi Hj Px Py Hg; [done|].
  assert (∀ w k, l !! k = Some w → P w → g w ∈ g <$> filter P l) as Hin.
  { intros w k Hk Pw. apply list_elem_of_fmap_2, list_elem_of_filter.
    split; [done|]. by eapply list_elem_of_lookup_2. }
  destruct i as [|i], j as [|j]; simpl in Hi, Hj; simplify_eq; try done.
  - rewrite filter_cons, decide_True in Hnd by done. apply NoDup_cons in Hnd as [Hnd _].
    destruct Hnd. rewrite Hg. by eapply Hin.
  - rewrite filter_cons, decide_True in Hnd by done. apply NoDup_cons in Hnd as [Hnd _].
    destruct Hnd. rewrite <- Hg. by eapply Hin.
  - f_equal. eapply IH; try done. rewrite filter_cons in Hnd. case_decide; [|done].
    by apply NoDup_cons in Hnd as [_ Hnd].
Qed.

Section refinement.
Context {A : Type} (zero : A) (hash : A → Z → Z → Z) (compare : A → A → Z).
Context `{Countable K} (key : A → K).
Context (compare_key : ∀ a b, compare a b = 0 ↔ key a = key b).
Context (hash_key : ∀ a b s0 s1, key a = key b → hash a s0 s1 = hash b s0 s1).

(** The finite map that a table represents. *)
Definition contents (l : list A) : gmap K A := list_to_map ((λ x, (key x, x)) <$> l).

(** Entries that represent the map [f]; [h] is the hash function with its seeds. *)
Record represents (h : A → Z) (es : list (Z * A)) (f : gmap K A) : Prop := {
  rp_hash q : q ∈ es → q.1 = clip_hash (h q.2);
  rp_nodup : NoDup (key <$> es.*2);
  rp_map : f = contents es.*2;
}.

(** The table part of the invariant. *)
Record table_of (h : A → Z) (bs : list (bucket A)) (f : gmap K A) : Prop := {
  tb_rh : robin_hood bs;
  tb_rep : represents h (entries bs) f;
}.

Lemma tb_hash h bs f : table_of h bs f → ∀ q, q ∈ entries bs → q.1 = clip_hash (h q.2).
Proof. intros T. apply (tb_rep _ _ _ T). Qed.
Lemma tb_nodup h bs f : table_of h bs f → NoDup (key <$> items bs).
Proof. intros T. apply (tb_rep _ _ _ T). Qed.
Lemma tb_map h bs f : table_of h bs f → f = contents (items bs).
Proof. intros T. apply (tb_rep _ _ _ T). Qed.

Definition map_hash (m : hashmap A) (x : A) : Z := hash x (seed0 m) (seed1 m).

Record refines (m : hashmap A) (f : gmap K A) : Prop := {
  rf_table : table_of (map_hash m) (buckets m) f;
  rf_power : ∃ p, 0 ≤ p ∧ nbuckets m = 2 ^ p;
  rf_size : Z.of_nat (length (buckets m)) = nbuckets m;
  rf_mask : mask m = nbuckets m - 1;
  rf_count : count m = Z.of_nat (length (entries (buckets m)));
  rf_limits : 0 ≤ count m ≤ growat m ∧ growat m < nbuckets m;
  rf_growat : grow_limit (nbuckets m) ≤ growat m;
  rf_growpower : 1 ≤ growpower m ≤ 16;
  rf_cap : (∃ c, 4 ≤ c ∧ cap m = 2 ^ c) ∧ cap m ≤ nbuckets m;
  rf_shrink : shrinkat m ≤ shrink_limit (nbuckets m);
}.

Lemma contents_lookup l x : NoDup (key <$> l) → x ∈ l → contents l !! key x = Some x.
Proof.
  intros Hnd Hx. apply elem_of_list_to_map.
  - rewrite <- list_fmap_compose. done.
  - apply list_elem_of_fmap. by exists x.
Qed.

Lemma contents_lookup_None l k : k ∉ key <$> l → contents l !! k = None.
Proof. intros Hk. apply not_elem_of_list_to_map_1. by rewrite <- list_fmap_compose. Qed.

Lemma contents_inv l k x : contents l !! k = Some x → x ∈ l ∧ key x = k.
Proof.
  intros Hx. apply elem_of_list_to_map_2, list_elem_of_fmap in Hx as (y & [= -> ->] & Hy). done.
Qed.

Lemma contents_permutation l l' : NoDup (key <$> l) → l ≡ₚ l' → contents l = contents l'.
Proof.
  intros Hnd Hp. apply list_to_map_proper; [|by rewrite Hp]. by rewrite <- list_fmap_compose.
Qed.

Lemma items_alt (bs : list (bucket A)) : items bs = bucket_item <$> filter occupied bs.
Proof. unfold items, entries. by rewrite <- list_fmap_compose. Qed.

Lemma bucket_at_bind {B} i (k : bucket A → M (hashmap A) B) m b :
  buckets m !! Z.to_nat i = Some b → (bucket_at i ≫= k) m = k b m.
Proof. intros Hi. by apply reads_bind. Qed.

Lemma put_bucket_bind {B} i b (k : unit → M (hashmap A) B) m b0 :
  buckets m !! Z.to_nat i = Some b0 →
  (put_bucket i b ≫= k) m = k tt (set_buckets (<[Z.to_nat i := b]> (buckets m)) m).
Proof. intros Hi. unfold put_bucket. apply updates_bind. by rewrite Hi. Qed.

(** ** Lookup *)
Section lookup.
Context (m : hashmap A) (f : gmap K A) (Hm : refines m f).

Lemma index_next z : Z.land (z `mod` nbuckets m + 1) (mask m) = (z + 1) `mod` nbuckets m.
Proof.
  rewrite (rf_mask _ _ Hm). destruct (rf_power _ _ Hm) as (p & Hp & ->).
  by rewrite land_mask, Zplus_mod_idemp_l.
Qed.

Lemma index_home z : Z.land z (mask m) = z `mod` nbuckets m.
Proof. rewrite (rf_mask _ _ Hm). destruct (rf_power _ _ Hm) as (p & Hp & ->). by rewrite land_mask. Qed.

Lemma bucket_at_ok z : ∃ b, buckets m !! Z.to_nat (z `mod` nbuckets m) = Some b ∧
  bucket_at (z `mod` nbuckets m) m = Ok b m ∧ dib_at (buckets m) z = dib b.
Proof.
  pose proof (rh_size _ (tb_rh _ _ _ (rf_table _ _ Hm))). rewrite <- (rf_size _ _ Hm).
  destruct (dib_at_bucket (buckets m) z ltac:(lia)) as (b & Hb & E). exists b.
  split; [done|]. split; [|done]. unfold bucket_at, reads. by rewrite Hb.
Qed.

(** An item is found through any key that compares equal to it. *)
Lemma stored_at x : x ∈ items (buckets m) → ∃ i b, buckets m !! i = Some b ∧ occupied b ∧
  bucket_item b = x ∧ b_hash b = clip_hash (map_hash m x).
Proof.
  intros ([h y] & -> & (i & b & Hi & Ho & Es)%elem_of_entries)%list_elem_of_fmap.
  assert (b_hash b = clip_hash (map_hash m (bucket_item b))) as Hh.
  { apply (tb_hash _ _ _ (rf_table _ _ Hm) (stored b)). apply elem_of_entries. by exists i, b. }
  injection Es as <- <-. by exists i, b.
Qed.

Lemma occupied_item i b : buckets m !! i = Some b → occupied b → bucket_item b ∈ items (buckets m).
Proof.
  intros Hi Ho. rewrite items_alt. apply list_elem_of_fmap_2, list_elem_of_filter.
  split; [done|]. by eapply list_elem_of_lookup_2.
Qed.

Lemma occupied_unique i j b b' : buckets m !! i = Some b → buckets m !! j = Some b' →
  occupied b → occupied b' → key (bucket_item b) = key (bucket_item b') → i = j.
Proof.
  pose proof (tb_nodup _ _ _ (rf_table _ _ Hm)) as Hnd. rewrite items_alt, <- list_fmap_compose in Hnd.
  intros Hi Hj Ho Ho' Hk. by eapply (NoDup_filter_lookup _ occupied (buckets m)).
Qed.

Lemma not_full : (length (entries (buckets m)) < length (buckets m))%nat.
Proof.
  pose proof (rf_limits _ _ Hm). pose proof (rf_count _ _ Hm). pose proof (rf_size _ _ Hm). lia.
Qed.

(** The search for [k], as get and delete do it, passes over a bucket. *)
Definition misses (k : A) (h : Z) (b : bucket A) : bool :=
  negb ((b_hash b =? h) && (compare k (bucket_item b) =? 0)).

(** Where the search for a key ends: at the item or at a free bucket. *)
Lemma search_ends k : let h := clip_hash (map_hash m k) in
  ∃ t b, 0 ≤ t < nbuckets m ∧ buckets m !! Z.to_nat ((h + t) `mod` nbuckets m) = Some b ∧
    (∀ s, 0 ≤ s < t → ∃ b', buckets m !! Z.to_nat ((h + s) `mod` nbuckets m) = Some b' ∧
       occupied b' ∧ misses k h b' = true ∧ (occupied b → s + 1 ≤ dib b')) ∧
    match f !! key k with
    | Some x => occupied b ∧ bucket_item b = x ∧ misses k h b = false ∧ dib b = t + 1
    | None => dib b = 0
    end.
Proof.
  intros h. pose proof (tb_rh _ _ _ (rf_table _ _ Hm)) as Hr. pose proof (rh_size _ Hr) as Hsz.
  pose proof (rf_size _ _ Hm) as Hn. rewrite Hn in Hsz.
  destruct (f !! key k) as [x|] eqn:Hf.
  - rewrite (tb_map _ _ _ (rf_table _ _ Hm)) in Hf. apply contents_inv in Hf as [Hx Hk].
    destruct (stored_at x Hx) as (i & b & Hi & Ho & Hbx & Hbh).
    assert (b_hash b = h) as Hh by (rewrite Hbh; unfold h, map_hash; f_equal; by apply hash_key).
    pose proof (rh_range _ Hr i b Hi) as Hrange. pose proof (rh_home _ Hr i b Hi Ho) as Hhome.
    rewrite Hn, Hh in *. unfold occupied in Ho.
    replace (h + dib b - 1) with (h + (dib b - 1)) in Hhome by lia.
    exists (dib b - 1), b. split; [lia|]. split; [by rewrite <- Hhome, Nat2Z.id|]. split.
    + intros s Hs. destruct (bucket_at_ok (h + s)) as (b' & Hb' & _ & Ed).
      pose proof (probe_path _ i b s Hr Hi Ho ltac:(lia)) as Hpp. rewrite Hh, Ed in Hpp.
      exists b'. split; [done|]. split; [unfold occupied; lia|]. split; [|intros _; lia].
      unfold misses. destruct (Z.eqb_spec (compare k (bucket_item b')) 0) as [Hc|]; [|by rewrite andb_false_r].
      exfalso. apply compare_key in Hc.
      assert (Z.to_nat ((h + s) `mod` nbuckets m) = i) as Heq.
      { eapply occupied_unique; [done..|unfold occupied; lia|done|]. congruence. }
      pose proof (Z.mod_pos_bound (h + s) (nbuckets m) ltac:(lia)).
      apply (mod_apart (nbuckets m) (h + s) (dib b - 1 - s)); [lia|].
      replace (h + s + (dib b - 1 - s)) with (h + (dib b - 1)) by lia. lia.
    + split_and!; [done..| |lia]. unfold misses. rewrite Hh, Z.eqb_refl.
      rewrite (proj2 (Z.eqb_eq _ 0)); [done|]. apply compare_key. congruence.
  - destruct (free_ahead (buckets m) h Hr not_full) as (t1 & Ht1 & Hfree).
    destruct (first_such (λ j, dib_at (buckets m) (h + Z.of_nat j) = 0) t1 Hfree) as (t & Hle & Ht & Hmin).
    destruct (bucket_at_ok (h + Z.of_nat t)) as (b & Hb & _ & Ed).
    exists (Z.of_nat t), b. split; [lia|]. split; [done|]. split; [|congruence].
    intros s Hs. destruct (bucket_at_ok (h + s)) as (b' & Hb' & _ & Ed').
    assert (occupied b') as Ho'.
    { unfold occupied. rewrite <- Ed'. replace s with (Z.of_nat (Z.to_nat s)) by lia. apply Hmin. lia. }
    exists b'. split; [done|]. split; [done|]. split; [|unfold occupied; lia].
    unfold misses. destruct (Z.eqb_spec (compare k (bucket_item b')) 0) as [Hc|]; [|by rewrite andb_false_r].
    exfalso. apply compare_key in Hc. rewrite (tb_map _ _ _ (rf_table _ _ Hm)), Hc in Hf.
    rewrite (contents_lookup _ (bucket_item b')) in Hf; [done|apply (tb_nodup _ _ _ (rf_table _ _ Hm))|].
    by eapply occupied_item.
Qed.

(** hashmap_get is lookup. *)
Lemma hashmap_get_ok k : hashmap_get hash compare k m = Ok (f !! key k) m.
Proof.
  destruct (search_ends k) as (t & b & Ht & Hb & Hpath & Hend).
  set (h := clip_hash (map_hash m k)) in *.
  unfold hashmap_get, get_hash. rewrite gets_bind. unfold hashmap_get_with_hash. rewrite gets_bind.
  change (id m) with m. fold (map_hash m k). fold h.
  assert (clip_hash h = h) as Hcl.
  { unfold h, clip_hash. rewrite <- Z.land_assoc. done. }
  rewrite Hcl, index_home. rewrite <- (Z.add_0_r h) at 2.
  apply (probe_loop (get_body compare h k) (λ t, (h + t) `mod` nbuckets m) m (f !! key k) m t).
  - intros s Hs. destruct (Hpath s Hs) as (b' & Hb' & Ho' & Hmiss & _). unfold get_body.
    rewrite (bucket_at_bind _ _ _ _ Hb'). rewrite (proj2 (Z.eqb_neq _ _) Ho').
    unfold misses in Hmiss. apply negb_true_iff in Hmiss. rewrite Hmiss, gets_bind, index_next.
    by replace (h + s + 1) with (h + (s + 1)) by lia.
  - lia.
  - unfold get_body. rewrite (bucket_at_bind _ _ _ _ Hb).
    destruct (f !! key k) as [x|].
    + destruct Hend as (Ho & <- & Hmiss & _). rewrite (proj2 (Z.eqb_neq _ _) Ho).
      unfold misses in Hmiss. apply negb_false_iff in Hmiss. by rewrite Hmiss.
    + by rewrite Hend.
  - pose proof (rf_size _ _ Hm). lia.
Qed.
End lookup.

(** ** Insertion *)

(** Both insertion loops follow [place]. *)
Lemma index_step p z (bs : list (bucket A)) : 0 ≤ p → Z.of_nat (length bs) = 2 ^ p →
  Z.land (z `mod` Z.of_nat (length bs) + 1) (2 ^ p - 1) = (z + 1) `mod` Z.of_nat (length bs).
Proof. intros Hp ->. by rewrite land_mask, Zplus_mod_idemp_l. Qed.

Lemma resize_loop_place p fuel : ∀ (m : hashmap A) e z bs', 0 ≤ p →
  Z.of_nat (length (buckets m)) = 2 ^ p → mask m = 2 ^ p - 1 →
  place fuel (buckets m) e z = Some bs' →
  loop fuel resize_body (e, z `mod` Z.of_nat (length (buckets m))) m = Ok tt (set_buckets bs' m).
Proof.
  induction fuel as [|fuel IH]; intros m e z bs' Hp Hlen Hmask Hpl; [done|].
  cbn [place] in Hpl. rewrite loop_S. cbn [resize_body].
  destruct (buckets m !! _) as [b|] eqn:Hb; [|done]. cbn [mbind option_bind] in Hpl.
  rewrite bind_assoc, (bucket_at_bind _ _ _ _ Hb).
  destruct (dib b =? 0).
  - rewrite bind_assoc, (put_bucket_bind _ _ _ _ _ Hb). by simplify_eq.
  - rewrite bind_assoc, gets_bind, Hmask, index_step by done.
    destruct (dib b <? dib e).
    + rewrite bind_assoc, (put_bucket_bind _ _ _ _ _ Hb), ret_bind.
      set (m1 := set_buckets _ m). specialize (IH m1 (with_dib (dib b + 1) b) (z + 1) bs').
      assert (length (buckets m1) = length (buckets m)) as Hl by apply length_insert.
      rewrite Hl in IH. by apply IH.
    + rewrite ret_bind. by apply IH.
Qed.

(** The keys after an exchange. *)
Lemma keys_exchange (bs : list (bucket A)) i b e : bs !! i = Some b → occupied b → occupied e →
  key (bucket_item b) :: (key <$> items (<[i := e]> bs)) ≡ₚ key (bucket_item e) :: (key <$> items bs).
Proof.
  intros Hi Hb He. pose proof (entries_update bs i b e Hi) as Hu. rewrite !decide_True in Hu by done.
  unfold items. rewrite <- !list_fmap_compose. apply (fmap_Permutation (key ∘ snd)) in Hu. exact Hu.
Qed.

Lemma set_loop_place p fuel : ∀ (m : hashmap A) e z bs', 0 ≤ p →
  Z.of_nat (length (buckets m)) = 2 ^ p → mask m = 2 ^ p - 1 →
  (∀ i b, buckets m !! i = Some b → 0 ≤ dib b) →
  0 < dib e < 2 ^ 16 - Z.of_nat fuel → NoDup (key (bucket_item e) :: (key <$> items (buckets m))) →
  place fuel (buckets m) e z = Some bs' →
  loop fuel (set_body compare) (e, z `mod` Z.of_nat (length (buckets m))) m =
    Ok None (set_count (count m + 1) (set_buckets bs' m)).
Proof.
  induction fuel as [|fuel IH]; intros m e z bs' Hp Hlen Hmask Hpos He Hnd Hpl; [done|].
  cbn [place] in Hpl. rewrite loop_S. cbn [set_body].
  destruct (buckets m !! _) as [b|] eqn:Hb; [|done]. cbn [mbind option_bind] in Hpl.
  rewrite bind_assoc, (bucket_at_bind _ _ _ _ Hb).
  destruct (Z.eqb_spec (dib b) 0) as [Hd|Hd].
  - rewrite bind_assoc, (put_bucket_bind _ _ _ _ _ Hb). by simplify_eq.
  - assert ((compare (bucket_item e) (bucket_item b) =? 0) = false) as Hc.
    { apply Z.eqb_neq. rewrite compare_key. intros Heq. apply NoDup_cons in Hnd as [Hnd _].
      apply Hnd. rewrite Heq, items_alt. apply list_elem_of_fmap_2, list_elem_of_fmap_2, list_elem_of_filter.
      split; [done|]. by eapply list_elem_of_lookup_2. }
    rewrite Hc, andb_false_r.
    rewrite bind_assoc, gets_bind, Hmask, index_step by done.
    destruct (Z.ltb_spec (dib b) (dib e)) as [Hlt|Hge].
    + rewrite bind_assoc, (put_bucket_bind _ _ _ _ _ Hb), ret_bind.
      set (m1 := set_buckets _ m). specialize (IH m1 (with_dib (dib b + 1) b) (z + 1) bs').
      assert (length (buckets m1) = length (buckets m)) as Hl by apply length_insert.
      rewrite Hl in IH. apply IH; try done.
      * intros i b' [(_ & <- & _)|[_ Hi]]%list_lookup_insert_Some; [lia|]. by apply (Hpos i).
      * pose proof (Hpos _ _ Hb). cbn. unfold u16. rewrite Z.mod_small; lia.
      * cbn [with_dib bucket_item]. unfold m1. cbn [buckets set_buckets].
        rewrite keys_exchange; [done..|]. unfold occupied. lia.
    + rewrite ret_bind. apply IH; try done. cbn. unfold u16. rewrite Z.mod_small; lia.
Qed.

(** ** Entries and maps *)

Lemma represents_permutation h es es' f : represents h es f → es ≡ₚ es' → represents h es' f.
Proof.
  intros [Hh Hnd Hf] Hp. split.
  - intros q Hq. apply Hh. by rewrite Hp.
  - by rewrite <- Hp.
  - rewrite Hf. apply contents_permutation; [done|]. by rewrite Hp.
Qed.

Lemma represents_cons h es f x : represents h es f → f !! key x = None →
  represents h ((clip_hash (h x), x) :: es) (<[key x := x]> f).
Proof.
  intros [Hh Hnd Hf] Hx. split.
  - intros q [->|Hq]%elem_of_cons; [done|by apply Hh].
  - simpl. apply NoDup_cons. split; [|done]. intros Hin. apply list_elem_of_fmap in Hin as (y & Ey & Hy).
    rewrite Hf, Ey, (contents_lookup _ y) in Hx by done. done.
  - by rewrite Hf.
Qed.

Lemma represents_uncons h es f q : represents h (q :: es) f →
  f !! key q.2 = Some q.2 ∧ represents h es (delete (key q.2) f).
Proof.
  intros [Hh Hnd Hf]. simpl in Hnd, Hf. apply NoDup_cons in Hnd as [Hni Hnd].
  assert (f = <[key q.2 := q.2]> (contents es.*2)) as Hc by exact Hf. split.
  - rewrite Hc. apply lookup_insert_eq.
  - split; [|done|].
    + intros q' Hq'. apply Hh. by apply elem_of_cons; right.
    + rewrite Hc, delete_insert_eq, delete_id; [done|]. by apply contents_lookup_None.
Qed.

(** A new item. *)
Lemma place_new (bs : list (bucket A)) h f x : table_of h bs f → (length (entries bs) < length bs)%nat →
  f !! key x = None → let c := clip_hash (h x) in
  ∃ bs', place (S (length bs)) bs (Bucket c 1 x) c = Some bs' ∧ length bs' = length bs ∧
    length (entries bs') = S (length (entries bs)) ∧ table_of h bs' (<[key x := x]> f).
Proof.
  intros [Hr Hrep] Hroom Hx c. destruct (free_ahead bs c Hr Hroom) as (k & Hk & Hfree).
  destruct (place_ok k bs (Bucket c 1 x) c Hr (carried_start _ _ _ Hr) Hk Hfree (S (length bs)))
    as (bs' & E & Hr' & Hl & He); [lia|].
  exists bs'. split; [done|]. split; [done|]. split; [by rewrite He|]. split; [done|].
  eapply represents_permutation; [|symmetry; exact He]. by apply represents_cons.
Qed.

(** An item that replaces another of its key. *)
Lemma robin_hood_replace (bs : list (bucket A)) i b x : robin_hood bs → bs !! i = Some b →
  robin_hood (<[i := Bucket (b_hash b) (dib b) x]> bs).
Proof.
  intros Hr Hi. pose proof (rh_size bs Hr) as Hsz. pose proof (lookup_lt_Some _ _ _ Hi) as Hlt.
  set (bs' := <[i := _]> bs). assert (∀ z, dib_at bs' z = dib_at bs z) as Hdib.
  { intros z. unfold bs'. pose proof (dib_at_insert bs (Z.of_nat i) (Bucket (b_hash b) (dib b) x) z ltac:(lia)) as E.
    rewrite Z.mod_small, Nat2Z.id in E by lia. rewrite E. case_decide as Hd; [|done].
    cbn. rewrite <- (dib_at_lookup bs i b Hi). apply dib_at_congr. rewrite Hd, Z.mod_small by lia. done. }
  split; [by unfold bs'; rewrite length_insert|..]; [unfold bs'; rewrite length_insert..|].
  - intros j b' [(<- & <- & _)|[_ Hj]]%list_lookup_insert_Some; [|by apply (rh_range bs Hr j)].
    exact (rh_range bs Hr i b Hi).
  - intros j b' [(<- & <- & _)|[_ Hj]]%list_lookup_insert_Some Ho; [|by apply (rh_home bs Hr j)].
    exact (rh_home bs Hr i b Hi Ho).
  - intros z. rewrite !Hdib. apply (rh_order bs Hr).
Qed.

Lemma table_replace h bs f i b x : table_of h bs f → bs !! i = Some b → occupied b →
  key x = key (bucket_item b) → b_hash b = clip_hash (h x) →
  let bs' := <[i := Bucket (b_hash b) (dib b) x]> bs in
  table_of h bs' (<[key x := x]> f) ∧ length (entries bs') = length (entries bs).
Proof.
  intros [Hr Hrep] Hi Ho Hk Hh bs'.
  pose proof (entries_update bs i b (Bucket (b_hash b) (dib b) x) Hi) as Hu. rewrite !decide_True in Hu by done.
  fold bs' in Hu. simpl in Hu. split; [|apply Permutation_length in Hu; simpl in Hu; lia].
  split; [by apply robin_hood_replace|].
  assert (stored b ∈ entries bs) as [es Hes]%elem_of_Permutation by (apply elem_of_entries; by exists i, b).
  rewrite Hes in Hu. rewrite Permutation_swap in Hu. apply Permutation_cons_inv in Hu.
  eapply represents_permutation; [|symmetry; exact Hu].
  destruct (represents_uncons _ _ _ _ (represents_permutation _ _ _ _ Hrep Hes)) as [_ Hrep'].
  cbn [stored snd] in Hrep'. rewrite <- Hk in Hrep'.
  unfold stored. cbn [b_hash bucket_item]. rewrite Hh.
  rewrite <- (insert_delete_eq f (key x) x). apply represents_cons; [done|apply lookup_delete_eq].
Qed.

(** ** The operations on the structure *)

Lemma clip_hash_idem h : clip_hash (clip_hash h) = clip_hash h.
Proof. unfold clip_hash. by rewrite <- Z.land_assoc. Qed.

Lemma refines_buckets m f bs' c f' : refines m f → table_of (map_hash m) bs' f' →
  length bs' = length (buckets m) → c = Z.of_nat (length (entries bs')) → c ≤ growat m →
  refines (set_count c (set_buckets bs' m)) f'.
Proof.
  intros [] Ht Hl Hc Hg. split; cbn; try done; [by rewrite Hl|lia].
Qed.

Lemma refines_oom m f o : refines m f → refines (set_oom o m) f.
Proof. by intros []. Qed.

Lemma refines_power m f : refines m f → ∃ p, 4 ≤ p ≤ 15 ∧ nbuckets m = 2 ^ p.
Proof.
  intros Hm. destruct (rf_power _ _ Hm) as (p & Hp & E), (rf_cap _ _ Hm) as [(c & Hc & Ec) Hle].
  pose proof (rh_size _ (tb_rh _ _ _ (rf_table _ _ Hm))) as Hsz.
  pose proof (rf_size _ _ Hm). exists p. split; [|done]. split.
  - apply (Z.pow_le_mono_r_iff 2); try lia. transitivity (2 ^ c); [|lia]. apply Z.pow_le_mono_r; lia.
  - apply (Z.pow_le_mono_r_iff 2); lia.
Qed.

(** The loop of hashmap_set on a table that need not grow. *)
Lemma set_loop_ok m f x : refines m f → count m < growat m → let c := clip_hash (map_hash m x) in
  ∃ m', loop (S (length (buckets m))) (set_body compare) (Bucket c 1 x, Z.land c (mask m)) m =
          Ok (f !! key x) m' ∧ refines m' (<[key x := x]> f) ∧ oom m' = oom m ∧ growpower m' = growpower m.
Proof.
  intros Hm Hroom c. destruct (refines_power m f Hm) as (p & Hp & Ep).
  pose proof (rf_size _ _ Hm) as Hlen. rewrite (index_home m f Hm).
  pose proof (rh_size _ (tb_rh _ _ _ (rf_table _ _ Hm))) as Hsz.
  destruct (f !! key x) as [y|] eqn:Hf.
  - destruct (search_ends m f Hm x) as (t & b & Ht & Hb & Hpath & Hend). rewrite Hf in Hend.
    destruct Hend as (Ho & Hy & Hmiss & Hd). fold c in Hb, Hpath, Hmiss.
    unfold misses in Hmiss. apply negb_false_iff, andb_true_iff in Hmiss as [Hh Hc].
    apply Z.eqb_eq in Hh, Hc. pose proof (proj1 (compare_key _ _) Hc) as Hk.
    destruct (table_replace _ _ _ _ _ x (rf_table _ _ Hm) Hb Ho Hk Hh) as [Ht' Hl'].
    eexists. split; [|split].
    + rewrite <- (Z.add_0_r c) at 2. replace 1 with (0 + 1) at 1 by lia.
      apply (probe_loop (set_body compare) (λ t, (Bucket c (t + 1) x, (c + t) `mod` nbuckets m)) m (Some y) _ t).
      * intros s Hs. destruct (Hpath s Hs) as (b' & Hb' & Ho' & Hm' & Hs'). specialize (Hs' Ho).
        cbn [set_body]. rewrite (bucket_at_bind _ _ _ _ Hb'). rewrite (proj2 (Z.eqb_neq _ _) Ho').
        cbn [b_hash bucket_item dib]. unfold misses in Hm'. apply negb_true_iff in Hm'.
        rewrite (Z.eqb_sym c), Hm', gets_bind, (index_next m f Hm).
        rewrite (proj2 (Z.ltb_ge _ _)) by lia. unfold with_dib. cbn. unfold u16. rewrite Z.mod_small by lia.
        by replace (c + s + 1) with (c + (s + 1)) by lia.
      * lia.
      * cbn [set_body]. rewrite (bucket_at_bind _ _ _ _ Hb). rewrite (proj2 (Z.eqb_neq _ _) Ho).
        cbn [b_hash bucket_item dib]. rewrite (proj2 (Z.eqb_eq _ _) (eq_sym Hh)), Hc. cbn [andb Z.eqb].
        rewrite (put_bucket_bind _ _ _ _ _ Hb). by rewrite <- Hy.
      * lia.
    + change (set_buckets ?l m) with (set_count (count m) (set_buckets l m)).
      apply (refines_buckets m f); [done|exact Ht'|apply length_insert| |lia].
      rewrite Hl'. apply (rf_count _ _ Hm).
    + done.
  - destruct (place_new (buckets m) _ f x (rf_table _ _ Hm) (not_full m f Hm) Hf)
      as (bs' & E & Hl & Hel & Ht'). fold c in E.
    eexists. split; [|split].
    + rewrite <- Hlen. apply (set_loop_place p); [lia|lia|by rewrite (rf_mask _ _ Hm), Ep| | | |done].
      * intros j b Hj. apply (rh_range _ (tb_rh _ _ _ (rf_table _ _ Hm)) _ _ Hj).
      * cbn [dib]. lia.
      * apply NoDup_cons. split; [|apply (tb_nodup _ _ _ (rf_table _ _ Hm))].
        cbn [bucket_item]. intros (y & Ey & Hy)%list_elem_of_fmap.
        rewrite (tb_map _ _ _ (rf_table _ _ Hm)), Ey, (contents_lookup _ y) in Hf;
          [done|apply (tb_nodup _ _ _ (rf_table _ _ Hm))|done].
    + apply (refines_buckets m f); try done; [|lia].
      rewrite (rf_count _ _ Hm), Hel. lia.
    + done.
Qed.

(** A write through the pointer to an item that is in the table. *)
Lemma hashmap_write_ok m f x y : refines m f → f !! key x = Some y →
  ∃ m', hashmap_write hash compare x m = Ok tt m' ∧ refines m' (<[key x := x]> f) ∧
    count m' = count m ∧ growat m' = growat m ∧ nbuckets m' = nbuckets m ∧ growpower m' = growpower m.
Proof.
  intros Hm Hf. set (c := clip_hash (map_hash m x)).
  destruct (search_ends m f Hm x) as (t & b & Ht & Hb & Hpath & Hend). rewrite Hf in Hend.
  destruct Hend as (Ho & Hy & Hmiss & Hd). fold c in Hb, Hpath, Hmiss.
  unfold misses in Hmiss. apply negb_false_iff in Hmiss. pose proof Hmiss as [Hh Hc]%andb_true_iff.
  apply Z.eqb_eq in Hh, Hc. pose proof (proj1 (compare_key _ _) Hc) as Hk.
  destruct (table_replace _ _ _ _ _ x (rf_table _ _ Hm) Hb Ho Hk Hh) as [Ht' Hl'].
  exists (set_buckets (<[Z.to_nat ((c + t) `mod` nbuckets m) := Bucket (b_hash b) (dib b) x]> (buckets m)) m). split; [|split; [|done]].
  - unfold hashmap_write, get_hash. rewrite gets_bind, gets_bind. change (id m) with m. fold (map_hash m x). rewrite clip_hash_idem. fold c.
    rewrite (index_home m f Hm). rewrite <- (Z.add_0_r c) at 2.
    apply (probe_loop (write_body compare c x) (λ t, (c + t) `mod` nbuckets m) m tt _ t).
    + intros s Hs. destruct (Hpath s Hs) as (b' & Hb' & Ho' & Hm' & _). unfold write_body.
      rewrite (bucket_at_bind _ _ _ _ Hb'), (proj2 (Z.eqb_neq _ _) Ho'). unfold misses in Hm'. apply negb_true_iff in Hm'.
      rewrite Hm', gets_bind, (index_next m f Hm). by replace (c + s + 1) with (c + (s + 1)) by lia.
    + lia.
    + unfold write_body. rewrite (bucket_at_bind _ _ _ _ Hb), (proj2 (Z.eqb_neq _ _) Ho), Hmiss. by rewrite (put_bucket_bind _ _ _ _ _ Hb).
    + pose proof (rf_size _ _ Hm). lia.
  - change (set_buckets ?l m) with (set_count (count m) (set_buckets l m)).
    pose proof (rf_limits _ _ Hm). apply (refines_buckets m f); [done|exact Ht'|apply length_insert| |lia].
    rewrite Hl'. apply (rf_count _ _ Hm).
Qed.

(** ** Growing and shrinking *)

Lemma round_cap_pow2 fuel a p : 0 ≤ a ≤ p → p - a ≤ Z.of_nat fuel → round_cap fuel (2 ^ a) (2 ^ p) = 2 ^ p.
Proof.
  revert a. induction fuel as [|fuel IH]; intros a Ha Hf; cbn [round_cap].
  - by replace p with a by lia.
  - destruct (Z.ltb_spec (2 ^ a) (2 ^ p)) as [Hlt|Hge].
    + replace (2 ^ a * 2) with (2 ^ (a + 1)) by (rewrite Z.pow_add_r; lia).
      apply IH; [|lia]. apply Z.pow_lt_mono_r_iff in Hlt; lia.
    + apply Z.pow_le_mono_r_iff in Hge; try lia. by replace p with a by lia.
Qed.

Lemma hashmap_new_pow2 p s0 s1 : 4 ≤ p ≤ 60 →
  hashmap_new zero (2 ^ p) s0 s1 =
  Hashmap (2 ^ p) s0 s1 (2 ^ p) 0 (2 ^ p - 1) (grow_limit (2 ^ p)) (shrink_limit (2 ^ p)) 1 false
    (replicate (Z.to_nat (2 ^ p)) (empty_bucket zero)).
Proof.
  intros Hp. unfold hashmap_new. pose proof (Z.pow_le_mono_r 2 4 p ltac:(lia) ltac:(lia)) as H16.
  rewrite (proj2 (Z.ltb_ge _ _)) by exact H16. change 16 with (2 ^ 4) at 1. change 16 with (2 ^ 4).
  rewrite round_cap_pow2 by lia. done.
Qed.

Lemma robin_hood_empty n : 3 ≤ Z.of_nat n ≤ 2 ^ 15 → robin_hood (replicate n (empty_bucket zero)).
Proof.
  intros Hn. assert (∀ i b, replicate n (empty_bucket zero) !! i = Some b → dib b = 0) as Hb.
  { intros i b [-> _]%lookup_replicate. done. }
  split; rewrite ?length_replicate; [done|..].
  - intros i b Hi. rewrite (Hb _ _ Hi). lia.
  - intros i b Hi Ho. by destruct (Ho (Hb _ _ Hi)).
  - intros z. unfold dib_at. destruct (_ !! Z.to_nat ((z + 1) `mod` _)) as [b|] eqn:E1;
      destruct (_ !! Z.to_nat (z `mod` _)) as [b'|] eqn:E2; cbn;
      rewrite ?(Hb _ _ E1), ?(Hb _ _ E2); lia.
Qed.

Lemma entries_empty n : entries (replicate n (empty_bucket zero)) = [].
Proof. induction n as [|n IH]; [done|]. cbn [replicate]. by rewrite entries_cons. Qed.

Lemma resize_entries_ok p (l : list (bucket A)) : ∀ m : hashmap A, 0 ≤ p → Z.of_nat (length (buckets m)) = 2 ^ p → mask m = 2 ^ p - 1 →
  robin_hood (buckets m) → (length (entries l) + length (entries (buckets m)) < length (buckets m))%nat →
  ∃ bs', resize_entries l m = Ok tt (set_buckets bs' m) ∧ robin_hood bs' ∧
    length bs' = length (buckets m) ∧ entries bs' ≡ₚ entries l ++ entries (buckets m).
Proof.
  induction l as [|b l IH]; intros m Hp Hlen Hmask Hr Hroom; cbn [resize_entries].
  { exists (buckets m). by destruct m. }
  rewrite entries_cons in Hroom |- *. unfold resize_entry.
  destruct (Z.eqb_spec (dib b) 0) as [Hd|Hd].
  - rewrite ret_bind. assert (¬ occupied b) as Hno by (unfold occupied; lia).
    rewrite decide_False in Hroom |- * by done.
    by apply IH.
  - rewrite decide_True in Hroom |- * by done. cbn [app length] in Hroom |- *.
    rewrite bind_assoc, gets_bind. cbn [id with_dib b_hash]. change (u16 1) with 1.
    destruct (free_ahead (buckets m) (b_hash b) Hr) as (k & Hk & Hfree); [lia|].
    destruct (place_ok k (buckets m) (Bucket (b_hash b) 1 (bucket_item b)) (b_hash b) Hr (carried_start _ _ _ Hr) Hk Hfree
      (S (length (buckets m)))) as (bs1 & E & Hr1 & Hl1 & He1); [lia|].
    rewrite Hmask, land_mask, <- Hlen by done.
    run (resize_loop_place p _ m _ _ _ Hp Hlen Hmask E).
    destruct (IH (set_buckets bs1 m)) as (bs' & E' & Hr' & Hl' & He'); cbn [buckets mask set_buckets]; try done.
    + by rewrite Hl1.
    + rewrite Hl1, He1. cbn [length]. lia.
    + exists bs'. split; [exact E'|]. split; [done|]. split; [by rewrite Hl'|].
      rewrite He'. cbn [buckets set_buckets]. rewrite He1. by rewrite Permutation_middle.
Qed.

(** A resize to a size that has room does not change the map. *)
Lemma resize_ok m f p : refines m f → 4 ≤ p ≤ 15 → count m ≤ grow_limit (2 ^ p) → cap m ≤ 2 ^ p →
  ∃ m', resize zero true (2 ^ p) m = Ok true m' ∧ refines m' f ∧
    count m' = count m ∧ growat m' = grow_limit (2 ^ p) ∧ nbuckets m' = 2 ^ p ∧ oom m' = oom m ∧
    seed0 m' = seed0 m ∧ seed1 m' = seed1 m ∧ growpower m' = growpower m.
Proof.
  intros Hm Hp Hc Hcap. unfold resize. cbn [negb]. rewrite hashmap_new_pow2 by lia.
  pose proof (Z.pow_le_mono_r 2 4 p ltac:(lia) ltac:(lia)) as H16.
  pose proof (Z.pow_le_mono_r 2 p 15 ltac:(lia) ltac:(lia)) as H15.
  assert (grow_limit (2 ^ p) < 2 ^ p) as Hg.
  { unfold grow_limit. apply Z.div_lt_upper_bound; lia. }
  pose proof (rf_count _ _ Hm) as Hcount.
  destruct (resize_entries_ok p (buckets m) (Hashmap (2 ^ p) (seed0 m) (seed1 m) (2 ^ p) 0 (2 ^ p - 1) (grow_limit (2 ^ p))
    (shrink_limit (2 ^ p)) 1 false (replicate (Z.to_nat (2 ^ p)) (empty_bucket zero)))) as (bs' & E & Hr' & Hl' & He');
    cbn [buckets mask]; rewrite ?length_replicate, ?entries_empty; [lia|lia|done|apply robin_hood_empty; lia|cbn; lia|].
  rewrite E. eexists. split; [done|]. cbn [buckets nbuckets set_buckets mask growat shrinkat] in *.
  rewrite entries_empty, app_nil_r in He'. rewrite length_replicate in Hl'.
  split; [|by split_and!]. pose proof Hm as []. split; cbn; try done.
  - split; [done|]. eapply represents_permutation; [apply (rf_table _ _ Hm)|by symmetry].
  - exists p. split; [lia|done].
  - lia.
  - by rewrite He'.
  - lia.
  - split; [apply (rf_cap _ _ Hm)|done].
Qed.

Lemma map_hash_key m x y : key x = key y → map_hash m x = map_hash m y.
Proof. apply hash_key. Qed.

(** hashmap_set is insertion; a table that has to grow and cannot is left as it is. *)
Lemma hashmap_set_ok m f x malloc : refines m f →
  (count m = growat m → nbuckets m * 2 ^ growpower m ≤ 2 ^ 15) →
  malloc = true ∨ count m ≠ growat m →
  ∃ m', hashmap_set zero hash compare malloc x m = Ok (f !! key x) m' ∧
    refines m' (<[key x := x]> f) ∧ oom m' = false ∧ growpower m' = growpower m.
Proof.
  intros Hm Hgrow Hroom. unfold hashmap_set, get_hash. rewrite gets_bind.
  unfold hashmap_set_with_hash. rewrite clip_hash_idem, modify_bind, gets_bind.
  fold (map_hash m x). set (m0 := set_oom false m).
  assert (refines m0 f) as Hm0 by by apply refines_oom.
  change (id m0) with m0. change (map_hash m x) with (map_hash m0 x).
  destruct (Z.eqb_spec (count m0) (growat m0)) as [Hfull|Hfree].
  - destruct Hroom as [->|Hne]; [|by destruct Hne]. specialize (Hgrow Hfull).
    destruct (refines_power m f Hm) as (p & Hp & Ep). pose proof (rf_growpower _ _ Hm) as Hgp.
    assert (nbuckets m0 * Z.shiftl 1 (growpower m0) = 2 ^ (p + growpower m)) as Esize.
    { cbn. rewrite Z.shiftl_1_l, Ep, <- Z.pow_add_r by lia. done. }
    rewrite Ep, <- Z.pow_add_r in Hgrow by lia. apply Z.pow_le_mono_r_iff in Hgrow; [|lia..].
    pose proof (Z.pow_le_mono_r 2 (p + 1) (p + growpower m) ltac:(lia) ltac:(lia)) as Hdouble.
    pose proof (Z.pow_le_mono_r 2 4 p ltac:(lia) ltac:(lia)) as H16.
    rewrite Z.pow_add_r in Hdouble by lia.
    assert (nbuckets m ≤ grow_limit (2 ^ (p + growpower m))) as Hlim.
    { unfold grow_limit. apply Z.div_le_lower_bound; lia. }
    pose proof (rf_limits _ _ Hm). pose proof (rf_cap _ _ Hm).
    destruct (resize_ok m0 f (p + growpower m) Hm0) as (m1 & E & Hm1 & Ec & Eg & En & Eo & Es0 & Es1 & Ep1);
      [lia|cbn; lia|cbn; lia|].
    rewrite Esize. run E. cbn [negb]. rewrite gets_bind. change (id m1) with m1.
    assert (map_hash m0 x = map_hash m1 x) as -> by (unfold map_hash; by rewrite Es0, Es1).
    destruct (set_loop_ok m1 f x Hm1) as (m' & E' & Hm' & Eo' & Ep').
    { rewrite Ec, Eg. cbn. lia. }
    exists m'. split; [exact E'|]. split; [done|]. by rewrite Eo', Eo, Ep', Ep1.
  - rewrite ret_bind. cbn [negb]. rewrite gets_bind. change (id m0) with m0.
    pose proof (rf_limits _ _ Hm0). destruct (set_loop_ok m0 f x Hm0) as (m' & E' & Hm' & Eo' & Ep'); [lia|].
    exists m'. split; [exact E'|]. by rewrite Eo', Ep'.
Qed.

Lemma hashmap_set_oom m x : count m = growat m →
  hashmap_set zero hash compare false x m = Ok None (set_oom true m).
Proof.
  clear compare_key hash_key.
  intros Hc. unfold hashmap_set, get_hash. rewrite gets_bind. unfold hashmap_set_with_hash.
  rewrite modify_bind, gets_bind. cbn [id set_oom count growat]. by rewrite Hc, Z.eqb_refl.
Qed.

(** ** Deletion *)

(** Freeing a bucket before one that is free or at home. *)
Lemma robin_hood_free (bs : list (bucket A)) z b : robin_hood bs → dib_at bs (z + 1) ≤ 1 → dib b = 0 →
  robin_hood (<[Z.to_nat (z `mod` Z.of_nat (length bs)) := b]> bs).
Proof.
  intros Hr Hn Hb. pose proof (rh_size bs Hr) as Hsz.
  split; rewrite ?length_insert; [done|..].
  - intros j b' [(<- & <- & _)|[_ Hj]]%list_lookup_insert_Some; [lia|]. by apply (rh_range bs Hr j).
  - intros j b' [(<- & <- & _)|[_ Hj]]%list_lookup_insert_Some Ho; [by destruct Ho|]. by apply (rh_home bs Hr j).
  - intros y. rewrite !dib_at_insert by lia. pose proof (rh_order bs Hr y) as Hy.
    pose proof (dib_at_nonneg bs y Hr). case_decide as Hy1; case_decide as Hy2; try lia.
    rewrite (dib_at_congr bs (y + 1) (z + 1)); [lia|]. by apply mod_shift.
Qed.

(** Moving a bucket back by one. *)
Lemma robin_hood_back (bs : list (bucket A)) z b : robin_hood bs →
  bs !! Z.to_nat ((z + 1) `mod` Z.of_nat (length bs)) = Some b → 2 ≤ dib b →
  robin_hood (<[Z.to_nat (z `mod` Z.of_nat (length bs)) := with_dib (dib b - 1) b]> bs).
Proof.
  intros Hr Hb Hd. pose proof (rh_size bs Hr) as Hsz. pose proof (rh_range bs Hr _ _ Hb) as Hrange.
  destruct (with_dib_small (dib b - 1) b) as (E1 & _ & E3); [lia|].
  pose proof (rh_order bs Hr z) as Hz. assert (dib_at bs (z + 1) = dib b) as Ez by (unfold dib_at; by rewrite Hb).
  pose proof (Z.mod_pos_bound z (Z.of_nat (length bs)) ltac:(lia)) as Hzb.
  pose proof (Z.mod_pos_bound (z + 1) (Z.of_nat (length bs)) ltac:(lia)) as Hzb1.
  split; rewrite ?length_insert; [done|..].
  - intros j b' [(<- & <- & _)|[_ Hj]]%list_lookup_insert_Some; [lia|]. by apply (rh_range bs Hr j).
  - intros j b' [(<- & <- & _)|[_ Hj]]%list_lookup_insert_Some Ho; [|by apply (rh_home bs Hr j)].
    pose proof (rh_home bs Hr _ _ Hb ltac:(unfold occupied; lia)) as Hh. rewrite Z2Nat.id in Hh by lia.
    rewrite E1, E3, Z2Nat.id by lia. apply (mod_shift _ _ _ (-1)) in Hh.
    replace (z + 1 + -1) with z in Hh by lia. rewrite Hh. f_equal. lia.
  - intros y. rewrite !dib_at_insert by lia. pose proof (rh_order bs Hr y) as Hy. rewrite E1.
    case_decide as Hy1; case_decide as Hy2; try lia.
    + apply (mod_shift _ _ _ (-1)) in Hy1. replace (y + 1 + -1) with y in Hy1 by lia.
      rewrite (dib_at_congr bs y (z + -1) Hy1). pose proof (rh_order bs Hr (z + -1)) as Hp.
      replace (z + -1 + 1) with z in Hp by lia. lia.
    + rewrite (dib_at_congr bs (y + 1) (z + 1)); [lia|]. by apply mod_shift.
Qed.

(** The loop that closes the hole at [z]. [G] is the table as if the bucket at the
    hole were still there; what the hole holds does not matter. *)
Lemma shift_loop_ok p k : ∀ (m : hashmap A) G z g y fuel, 0 ≤ p → Z.of_nat (length G) = 2 ^ p → mask m = 2 ^ p - 1 →
  robin_hood G → G !! Z.to_nat (z `mod` Z.of_nat (length G)) = Some g → occupied g →
  buckets m = <[Z.to_nat (z `mod` Z.of_nat (length G)) := y]> G →
  (S k < length G)%nat → dib_at G (z + Z.of_nat (S k)) = 0 → (k < fuel)%nat →
  ∃ bs', loop fuel shift_body (z `mod` Z.of_nat (length G)) m = Ok tt (set_buckets bs' m) ∧
    robin_hood bs' ∧ length bs' = length G ∧ stored g :: entries bs' ≡ₚ entries G.
Proof.
  clear compare_key hash_key.
  induction k as [k IH] using lt_wf_ind; intros m G z g y fuel Hp Hlen Hmask Hr Hg Ho Hbs Hk Hfree Hfuel.
  destruct fuel as [|fuel]; [lia|]. rewrite loop_S. unfold shift_body at 2. cbv beta.
  rewrite bind_assoc, gets_bind, Hmask. cbv beta zeta. rewrite index_step by done. pose proof (rh_size G Hr) as Hsz.
  pose proof (lookup_lt_Some _ _ _ Hg) as Hlt.
  pose proof (Z.mod_pos_bound z (Z.of_nat (length G)) ltac:(lia)) as Hz0.
  pose proof (Z.mod_pos_bound (z + 1) (Z.of_nat (length G)) ltac:(lia)) as Hz1.
  destruct (dib_at_bucket G (z + 1) ltac:(lia)) as (b & Hb & Eb).
  pose proof (mod_apart (Z.of_nat (length G)) z 1 ltac:(lia)) as Hne.
  rewrite bind_assoc, (bucket_at_bind _ _ _ b) by (rewrite Hbs, list_lookup_insert_ne by lia; exact Hb).
  assert (buckets m !! Z.to_nat (z `mod` Z.of_nat (length G)) = Some y) as Hy.
  { rewrite Hbs. by apply list_lookup_insert_eq. }
  destruct (Z.leb_spec (dib b) 1) as [Hd|Hd].
  - rewrite bind_assoc, (bucket_at_bind _ _ _ _ Hy), bind_assoc, (put_bucket_bind _ _ _ _ _ Hy), ret_bind.
    rewrite Hbs, list_insert_insert_eq. eexists. split; [done|]. split; [|split].
    + apply robin_hood_free; [done|lia|done].
    + apply length_insert.
    + pose proof (entries_update G _ g (with_dib 0 y) Hg) as Hu. by rewrite decide_True in Hu.
  - rewrite bind_assoc, (put_bucket_bind _ _ _ _ _ Hy), ret_bind. rewrite Hbs, list_insert_insert_eq.
    set (G' := <[_ := with_dib (dib b - 1) b]> G).
    assert (length G' = length G) as Hl by apply length_insert. rewrite <- Hl.
    destruct k as [|k]; [replace (z + Z.of_nat 1) with (z + 1) in Hfree by lia; lia|].
    assert (G' !! Z.to_nat ((z + 1) `mod` Z.of_nat (length G')) = Some b) as Hb'.
    { rewrite Hl. unfold G'. rewrite list_lookup_insert_ne by lia. exact Hb. }
    pose proof (rh_range G Hr _ _ Hb) as Hrange.
    destruct (IH k ltac:(lia) (set_buckets G' m) G' (z + 1) b b fuel) as (bs' & E & Hr' & Hl' & He');
      rewrite ?Hl; try done; try lia.
    + apply robin_hood_back; [done..|lia].
    + by rewrite <- Hl.
    + unfold occupied. lia.
    + cbn [buckets set_buckets]. symmetry. apply list_insert_id. by rewrite <- Hl.
    + unfold G'. rewrite dib_at_insert, decide_False by lia ||
        (replace (z + 1 + Z.of_nat (S k)) with (z + (2 + Z.of_nat k)) by lia; apply mod_apart; lia).
      rewrite <- Hfree. f_equal. lia.
    + exists bs'. rewrite Hl in E. split; [exact E|]. split; [done|]. split; [congruence|].
      destruct (with_dib_small (dib b - 1) b) as (E1 & E2 & _); [lia|].
      pose proof (entries_update G _ g (with_dib (dib b - 1) b) Hg) as Hu.
      rewrite !decide_True in Hu by (done || (unfold occupied; lia)). fold G' in Hu. rewrite E2 in Hu.
      rewrite <- He' in Hu. cbn [app] in Hu. rewrite Permutation_swap in Hu. by apply Permutation_cons_inv in Hu.
Qed.

(** The entry that the search found is removed. *)
Lemma delete_found_ok m f malloc z b : refines m f → buckets m !! Z.to_nat (z `mod` nbuckets m) = Some b → occupied b →
  ∃ m', delete_found zero malloc (z `mod` nbuckets m) m = Ok (bucket_item b) m' ∧
    refines m' (delete (key (bucket_item b)) f) ∧ oom m' = oom m ∧ growpower m' = growpower m.
Proof.
  intros Hm Hb Ho. destruct (refines_power m f Hm) as (p & Hp & Ep).
  pose proof (rf_size _ _ Hm) as Hlen. pose proof (tb_rh _ _ _ (rf_table _ _ Hm)) as Hr.
  destruct (free_ahead (buckets m) z Hr (not_full m f Hm)) as (k & Hk & Hfree).
  assert (dib_at (buckets m) z = dib b) as Ez by (unfold dib_at; by rewrite Hlen, Hb).
  destruct k as [|k]; [rewrite Z.add_0_r in Hfree; unfold occupied in Ho; lia|].
  unfold delete_found. rewrite (bucket_at_bind _ _ _ _ Hb), (put_bucket_bind _ _ _ _ _ Hb), gets_bind.
  set (m1 := set_buckets _ m). change (id m1) with m1.
  destruct (shift_loop_ok p k m1 (buckets m) z b (with_dib 0 b) (S (length (buckets m1)))) as (bs' & E & Hr' & Hl' & He');
    rewrite ?Hlen; try done; try lia.
  { unfold m1. cbn. rewrite (rf_mask _ _ Hm). lia. }
  { unfold m1. cbn. rewrite length_insert. lia. }
  rewrite Hlen in E. run E. rewrite modify_bind, gets_bind.
  set (m2 := set_count _ _). change (id m2) with m2.
  assert (refines m2 (delete (key (bucket_item b)) f)) as Hm2.
  { pose proof (rf_count _ _ Hm) as Hc. pose proof (rf_limits _ _ Hm). apply Permutation_length in He' as Hle.
    cbn [length] in Hle.
    apply (refines_buckets m f); [done| |done| |unfold m1; cbn; lia].
    - split; [done|].
      exact (proj2 (represents_uncons _ _ _ (stored b) (represents_permutation _ _ _ _ (tb_rep _ _ _ (rf_table _ _ Hm)) (symmetry He')))).
    - unfold m1. cbn. lia. }
  destruct ((cap m2 <? nbuckets m2) && (count m2 <=? shrinkat m2)) eqn:Hshrink;
    [|rewrite ret_bind; by exists m2].
  apply andb_true_iff in Hshrink as [Hcap%Z.ltb_lt Hcount%Z.leb_le].
  destruct malloc; [|exists m2; by split].
  destruct (rf_cap _ _ Hm) as [(c & Hc & Ec) _].
  assert (nbuckets m2 `div` 2 = 2 ^ (p - 1)) as Ehalf.
  { cbn. rewrite Ep. rewrite Z.pow_sub_r by lia. done. }
  assert (c ≤ p - 1) as Hcp.
  { cbn in Hcap. rewrite Ep, Ec in Hcap. apply Z.pow_lt_mono_r_iff in Hcap; lia. }
  pose proof (Z.pow_le_mono_r 2 c (p - 1) ltac:(lia) ltac:(lia)) as Hle.
  assert (2 ^ p = 2 ^ (p - 1) * 2) as Edouble by (rewrite Z.mul_comm, <- Z.pow_succ_r by lia; f_equal; lia).
  pose proof (rf_shrink _ _ Hm2) as Hs. unfold shrink_limit in Hs.
  change (nbuckets m2) with (nbuckets m) in Hs. rewrite Ep in Hs.
  assert (2 ^ p `div` 10 ≤ grow_limit (2 ^ (p - 1))) as Hlim.
  { unfold grow_limit. apply Z.div_le_lower_bound; [lia|].
    pose proof (Z.mul_div_le (2 ^ p) 10 ltac:(lia)). pose proof (Z.pow_pos_nonneg 2 (p - 1) ltac:(lia) ltac:(lia)). lia. }
  destruct (resize_ok m2 _ (p - 1) Hm2) as (m3 & E3 & Hm3 & _ & _ & _ & Eo & _ & _ & Ep3);
    [lia|lia|change (cap m2) with (cap m); lia|].
  rewrite Ehalf. run E3. by exists m3.
Qed.

(** hashmap_delete is deletion, whether or not the table can shrink. *)
Lemma hashmap_delete_ok m f x malloc : refines m f →
  ∃ m', hashmap_delete zero hash compare malloc x m = Ok (f !! key x) m' ∧
    refines m' (delete (key x) f) ∧ oom m' = false ∧ growpower m' = growpower m.
Proof.
  intros Hm0. unfold hashmap_delete, get_hash. rewrite gets_bind.
  unfold hashmap_delete_with_hash. rewrite clip_hash_idem, modify_bind, gets_bind.
  fold (map_hash m x). set (m0 := set_oom false m).
  assert (refines m0 f) as Hm by by apply refines_oom.
  change (id m0) with m0. change (map_hash m x) with (map_hash m0 x).
  assert (oom m0 = false) as Hoom by done. change (growpower m) with (growpower m0).
  clearbody m0. clear m Hm0.
  destruct (search_ends m0 f Hm x) as (t & b & Ht & Hb & Hpath & Hend).
  set (h := clip_hash (map_hash m0 x)) in *. rewrite (index_home m0 f Hm). pose proof (rf_size _ _ Hm).
  assert (∃ m', delete_body zero compare malloc h x ((h + t) `mod` nbuckets m0) m0 = Ok (inr (f !! key x)) m' ∧
    refines m' (delete (key x) f) ∧ oom m' = false ∧ growpower m' = growpower m0) as (m' & E & Hm').
  { unfold delete_body. rewrite (bucket_at_bind _ _ _ _ Hb). destruct (f !! key x) as [y|] eqn:Hf.
    - destruct Hend as (Ho & Hy & Hmiss & _). rewrite (proj2 (Z.eqb_neq _ _) Ho).
      unfold misses in Hmiss. apply negb_false_iff in Hmiss. rewrite Hmiss.
      destruct (delete_found_ok m0 f malloc _ b Hm Hb Ho) as (m' & E & Hm' & Eo & Ep).
      run E. exists m'. rewrite Hy in *. split; [done|]. split; [|split; congruence].
      apply andb_true_iff in Hmiss as [_ Hc%Z.eqb_eq]. apply compare_key in Hc. by rewrite Hc.
    - rewrite Hend. exists m0. split; [done|]. split; [|done]. by rewrite delete_id. }
  exists m'. split; [|done]. rewrite <- (Z.add_0_r h) at 2.
  apply (probe_loop (delete_body zero compare malloc h x) (λ t, (h + t) `mod` nbuckets m0) m0 _ m' t); [|lia|done|lia].
  intros s Hs. destruct (Hpath s Hs) as (b' & Hb' & Ho' & Hmiss & _). unfold delete_body.
  rewrite (bucket_at_bind _ _ _ _ Hb'). rewrite (proj2 (Z.eqb_neq _ _) Ho').
  unfold misses in Hmiss. apply negb_true_iff in Hmiss. rewrite Hmiss, gets_bind, (index_next m0 f Hm).
  by replace (h + s + 1) with (h + (s + 1)) by lia.
Qed.

(** ** Creation, clearing and enumeration *)

Lemma refines_empty c g s0 s1 o gr : 4 ≤ c ≤ 15 → 1 ≤ g ≤ 16 → grow_limit (2 ^ c) ≤ gr < 2 ^ c →
  refines (Hashmap (2 ^ c) s0 s1 (2 ^ c) 0 (2 ^ c - 1) gr (shrink_limit (2 ^ c)) g o
    (replicate (Z.to_nat (2 ^ c)) (empty_bucket zero))) ∅.
Proof.
  intros Hc Hg Hgr. pose proof (Z.pow_le_mono_r 2 4 c ltac:(lia) ltac:(lia)).
  pose proof (Z.pow_le_mono_r 2 c 15 ltac:(lia) ltac:(lia)).
  assert (0 ≤ grow_limit (2 ^ c)) by (unfold grow_limit; apply Z.div_pos; lia).
  split; cbn [buckets nbuckets mask count growat growpower cap shrinkat];
    rewrite ?length_replicate, ?entries_empty; try done; try lia.
  - split; [apply robin_hood_empty; lia|]. rewrite entries_empty. split; [by intros q ?%elem_of_nil|constructor|done].
  - exists c. split; [lia|done].
  - split; [|lia]. exists c. split; [lia|done].
Qed.

Lemma hashmap_new_ok c s0 s1 : 4 ≤ c ≤ 15 → refines (hashmap_new zero (2 ^ c) s0 s1) ∅.
Proof.
  intros Hc. rewrite hashmap_new_pow2 by lia. apply refines_empty; try lia. split; [done|].
  pose proof (Z.pow_pos_nonneg 2 c ltac:(lia) ltac:(lia)). unfold grow_limit. apply Z.div_lt_upper_bound; lia.
Qed.

Lemma hashmap_clear_ok m f malloc update_cap : refines m f →
  ∃ m', hashmap_clear zero malloc update_cap m = Ok tt m' ∧ refines m' ∅ ∧ oom m' = oom m ∧ growpower m' = growpower m.
Proof.
  intros Hm. destruct (refines_power m f Hm) as (p & Hp & Ep), (rf_cap _ _ Hm) as [(c & Hc & Ec) Hle].
  unfold hashmap_clear. rewrite gets_bind. cbn [id].
  assert (∃ c', 4 ≤ c' ≤ 15 ∧ (if update_cap then nbuckets m else cap m) = 2 ^ c' ∧ 2 ^ c' ≤ nbuckets m)
    as (c' & Hc' & -> & Hle').
  { destruct update_cap; [exists p; by rewrite Ep|]. exists c.
    rewrite Ec, Ep in Hle |- *. pose proof Hle as Hle2. apply Z.pow_le_mono_r_iff in Hle2; [|lia..].
    split; [lia|]. by split. }
  rewrite (proj2 (Z.ltb_ge _ _) Hle'), andb_false_r. eexists. split; [done|]. split; [|done].
  pose proof (Z.pow_pos_nonneg 2 c' ltac:(lia) ltac:(lia)).
  apply refines_empty; [done|apply (rf_growpower _ _ Hm)|]. unfold grow_limit. split.
  - apply Z.div_le_lower_bound; [lia|]. pose proof (Z.mul_div_le (2 ^ c' * 3) 5 ltac:(lia)).
    pose proof (Z.div_pos (2 ^ c' * 3) 5). lia.
  - apply Z.div_lt_upper_bound; lia.
Qed.

Lemma refines_items m f : refines m f → items (buckets m) ≡ₚ (map_to_list f).*2.
Proof.
  intros Hm. rewrite (tb_map _ _ _ (rf_table _ _ Hm)). unfold contents.
  pose proof (tb_nodup _ _ _ (rf_table _ _ Hm)) as Hnd.
  rewrite map_to_list_to_map by (rewrite <- list_fmap_compose; exact Hnd).
  rewrite <- list_fmap_compose. change (snd ∘ _) with (@id A). by rewrite list_fmap_id.
Qed.

Lemma refines_count m f : refines m f → count m = Z.of_nat (size f).
Proof.
  intros Hm. rewrite (rf_count _ _ Hm). f_equal. pose proof (Permutation_length (refines_items m f Hm)) as Hl.
  unfold items in Hl. by rewrite !length_fmap, length_map_to_list in Hl.
Qed.

(** ** Sequences of operations *)

Inductive op :=
| OpSet (malloc : bool) (x : A)
| OpGet (x : A)
| OpDelete (malloc : bool) (x : A)
| OpClear (malloc update_cap : bool).

(** The answer to an operation: the item it returns, and whether it ran out of memory. *)
Definition run_op (o : op) : M (hashmap A) (option A * bool) :=
  r ← match o with
      | OpSet malloc x => hashmap_set zero hash compare malloc x
      | OpGet x => hashmap_get hash compare x
      | OpDelete malloc x => hashmap_delete zero hash compare malloc x
      | OpClear malloc update_cap => _ ← hashmap_clear zero malloc update_cap; mret None
      end;
  oom ← hashmap_oom;
  mret (r, match o with OpSet _ _ => oom | _ => false end).

Fixpoint run_ops (os : list op) : M (hashmap A) (list (option A * bool)) :=
  match os with
  | [] => mret []
  | o :: os => a ← run_op o; l ← run_ops os; mret (a :: l)
  end.

(** What a finite map answers. Only a set for which no memory can be had may fail,
    and it has no effect then. *)
Inductive map_op : op → gmap K A → option A * bool → gmap K A → Prop :=
| map_set malloc x f : map_op (OpSet malloc x) f (f !! key x, false) (<[key x := x]> f)
| map_set_oom x f : map_op (OpSet false x) f (None, true) f
| map_get x f : map_op (OpGet x) f (f !! key x, false) f
| map_delete malloc x f : map_op (OpDelete malloc x) f (f !! key x, false) (delete (key x) f)
| map_clear malloc u f : map_op (OpClear malloc u) f (None, false) ∅.

Inductive map_ops : list op → gmap K A → list (option A * bool) → gmap K A → Prop :=
| map_nil f : map_ops [] f [] f
| map_cons o os f a f' l f'' : map_op o f a f' → map_ops os f' l f'' → map_ops (o :: os) f (a :: l) f''.

(** The growth of a table by doubling stays within the range of [dib] as long as it
    has fewer than 19660 items. *)
Lemma small_grows m f : refines m f → growpower m = 1 → Z.of_nat (size f) < 19660 →
  count m = growat m → nbuckets m * 2 ^ growpower m ≤ 2 ^ 15.
Proof.
  intros Hm Hg Hs Hc. rewrite Hg. destruct (refines_power m f Hm) as (p & Hp & Ep).
  destruct (decide (p = 15)) as [->|Hne].
  - pose proof (rf_growat _ _ Hm) as Hlow. rewrite Ep in Hlow. change (grow_limit (2 ^ 15)) with 19660 in Hlow.
    rewrite (refines_count m f Hm) in Hc. lia.
  - rewrite Ep, <- Z.pow_add_r by lia. apply Z.pow_le_mono_r; lia.
Qed.

Lemma run_op_ok o m f : refines m f → growpower m = 1 → Z.of_nat (size f) < 19660 →
  ∃ a m' f', run_op o m = Ok a m' ∧ map_op o f a f' ∧ refines m' f' ∧ growpower m' = 1 ∧
    (size f' ≤ S (size f))%nat.
Proof.
  intros Hm Hg Hs. unfold run_op. destruct o as [malloc x|x|malloc x|malloc u].
  - destruct (decide (malloc = true ∨ count m ≠ growat m)) as [Hd|Hd].
    + destruct (hashmap_set_ok m f x malloc Hm (small_grows m f Hm Hg Hs) Hd) as (m' & E & Hm' & Eo & Ep).
      run E. unfold hashmap_oom. rewrite gets_bind, Eo. do 3 eexists.
      split; [done|]. split; [constructor|]. split; [done|]. split; [congruence|].
      rewrite map_size_insert. case_match; cbn; lia.
    + assert (malloc = false ∧ count m = growat m) as [-> Hc] by (destruct malloc; split; naive_solver lia).
      run (hashmap_set_oom m x Hc). do 3 eexists. split; [done|]. split; [constructor|].
      split; [by apply refines_oom|]. split; [done|lia].
  - run (hashmap_get_ok m f Hm x). do 3 eexists. split; [done|]. split; [constructor|]. split; [done|]. split; [done|lia].
  - destruct (hashmap_delete_ok m f x malloc Hm) as (m' & E & Hm' & Eo & Ep). run E. do 3 eexists.
    split; [done|]. split; [constructor|]. split; [done|]. split; [congruence|].
    rewrite map_size_delete. case_match; cbn; lia.
  - destruct (hashmap_clear_ok m f malloc u Hm) as (m' & E & Hm' & Eo & Ep).
    rewrite bind_assoc. run E. rewrite ret_bind. do 3 eexists.
    split; [done|]. split; [constructor|]. split; [done|]. split; [congruence|]. rewrite map_size_empty. lia.
Qed.

Lemma run_ops_ok os : ∀ m f, refines m f → growpower m = 1 →
  Z.of_nat (size f) + Z.of_nat (length os) ≤ 19660 →
  ∃ l m' f', run_ops os m = Ok l m' ∧ map_ops os f l f' ∧ refines m' f'.
Proof.
  induction os as [|o os IH]; intros m f Hm Hg Hs; cbn [run_ops].
  { exists [], m, f. split; [done|]. split; [constructor|done]. }
  cbn [length] in Hs. destruct (run_op_ok o m f Hm Hg) as (a & m1 & f1 & E & Ho & Hm1 & Hg1 & Hs1); [lia|].
  destruct (IH m1 f1 Hm1 Hg1) as (l & m' & f' & E' & Ho' & Hm'); [lia|].
  exists (a :: l), m', f'. run E. run E'. split; [done|]. split; [by econstructor|done].
Qed.

(** C5: A new table with an initial capacity of 2^4 up to 2^15 runs every sequence of at most 19660
    operations set, get, delete and clear to its end (the limits keep the distances in its
    buckets, numbers of 16 bits, from wrapping around), with the answers of a finite map from keys to items that
    starts empty, in which only a set that gets no memory may fail; it ends in a
    state that represents that map, with its number of items as the count. *)
Theorem hashmap_runs_as_map os c s0 s1 : 4 ≤ c ≤ 15 → Z.of_nat (length os) ≤ 19660 →
  ∃ l m f, run_ops os (hashmap_new zero (2 ^ c) s0 s1) = Ok l m ∧ map_ops os ∅ l f ∧
    refines m f ∧ hashmap_count m = Ok (Z.of_nat (size f)) m.
Proof.
  intros Hc Hos. pose proof (hashmap_new_ok c s0 s1 Hc) as Hm.
  destruct (run_ops_ok os _ _ Hm) as (l & m & f & E & Ho & Hm').
  - by rewrite hashmap_new_pow2 by lia.
  - rewrite map_size_empty. lia.
  - exists l, m, f. split; [done|]. split; [done|]. split; [done|].
    unfold hashmap_count, gets. by rewrite (refines_count m f Hm').
Qed.

(** ** Enumeration *)

(** The loop [while (hashmap_iter(map, &i, &item))]. *)
Fixpoint iterate (fuel : nat) (i : Z) : M (hashmap A) (list A) :=
  match fuel with
  | O => λ _, OutOfFuel
  | S k => r ← hashmap_iter i; match r with
                               | Some (x, i) => l ← iterate k i; mret (x :: l)
                               | None => mret []
                               end
  end.

Lemma items_cons (b : bucket A) bs :
  items (b :: bs) = (if decide (occupied b) then [bucket_item b] else []) ++ items bs.
Proof. unfold items. rewrite entries_cons. by case_decide. Qed.

Lemma iter_from_ok (l : list (bucket A)) i : 0 ≤ i →
  match hashmap_iter_from l i with
  | Some (x, j) => i < j ≤ i + Z.of_nat (length l) ∧ items l = x :: items (drop (Z.to_nat (j - i)) l)
  | None => items l = []
  end.
Proof.
  clear compare_key hash_key. revert i. induction l as [|b l IH]; intros i Hi; cbn [hashmap_iter_from]; [done|].
  rewrite items_cons. destruct (Z.eqb_spec (dib b) 0) as [Hd|Hd].
  - rewrite decide_False by (unfold occupied; lia). specialize (IH (i + 1) ltac:(lia)).
    destruct (hashmap_iter_from l (i + 1)) as [[x j]|]; [|done]. destruct IH as [Hj E]. cbn [length]. split; [lia|].
    rewrite E. cbn. do 2 f_equal. replace (Z.to_nat (j - i)) with (S (Z.to_nat (j - (i + 1)))) by lia. done.
  - rewrite decide_True by done. cbn [length]. split; [lia|]. by replace (Z.to_nat (i + 1 - i)) with 1%nat by lia.
Qed.

Lemma iterate_ok m fuel : ∀ i, 0 ≤ i → (length (buckets m) - Z.to_nat i < fuel)%nat →
  iterate fuel i m = Ok (items (drop (Z.to_nat i) (buckets m))) m.
Proof.
  clear compare_key hash_key. induction fuel as [|fuel IH]; intros i Hi Hf; [lia|].
  cbn [iterate]. unfold hashmap_iter. rewrite gets_bind. cbv beta.
  pose proof (iter_from_ok (drop (Z.to_nat i) (buckets m)) i Hi) as Hit.
  destruct (hashmap_iter_from _ i) as [[x j]|]; [|by rewrite Hit].
  destruct Hit as [Hj E]. rewrite length_drop in Hj. run (IH j ltac:(lia) ltac:(lia)).
  rewrite E, drop_drop. do 3 f_equal. do 2 f_equal. lia.
Qed.

(** hashmap_scan passes every item to a callback that never stops it. *)
Lemma hashmap_scan_ok {S} (g : S → A → S) (l : list (bucket A)) s :
  hashmap_scan (λ s x, (g s x, true)) l s = (foldl g s (items l), true).
Proof.
  clear compare_key hash_key. revert s. induction l as [|b l IH]; intros s; [done|]. cbn [hashmap_scan].
  rewrite items_cons. destruct (Z.eqb_spec (dib b) 0) as [Hd|Hd].
  - rewrite decide_False by (unfold occupied; lia). apply IH.
  - rewrite decide_True by done. apply IH.
Qed.

Lemma free_elements_ok elfree (l : list (bucket A)) : free_elements elfree l = if elfree : bool then items l else [].
Proof.
  clear compare_key hash_key. induction l as [|b l IH]; [by destruct elfree|]. cbn [free_elements]. rewrite items_cons, IH.
  destruct elfree; cbn [andb]; [|done]. destruct (Z.eqb_spec (dib b) 0) as [Hd|Hd]; cbn; [rewrite decide_False by (unfold occupied; lia)|rewrite decide_True by done]; done.
Qed.

Lemma foldl_snoc (l : list A) : ∀ s, foldl (λ (seen : list A) x, seen ++ [x]) s l = s ++ l.
Proof. induction l as [|x l IH]; intros s; cbn; [by rewrite app_nil_r|]. by rewrite IH, <- app_assoc. Qed.

(** C29: On a table that represents a map, the loop over hashmap_iter and a hashmap_scan
    that is not stopped see the same items in the same order, and these are the
    items of the map, each exactly once; hashmap_free passes just these to the function
    that frees an item, if there is one. *)
Theorem hashmap_enumerates m f fuel : refines m f → (length (buckets m) < fuel)%nat →
  ∃ l, iterate fuel 0 m = Ok l m ∧ l ≡ₚ (map_to_list f).*2 ∧
    hashmap_scan (λ seen x, (seen ++ [x], true)) (buckets m) [] = (l, true) ∧
    (∀ elfree, hashmap_free elfree (Some m) = if elfree : bool then l else []).
Proof.
  intros Hm Hf. exists (items (buckets m)). split; [|split; [|split; [|intros elfree; apply free_elements_ok]]].
  - rewrite (iterate_ok m fuel 0) by lia. done.
  - by apply refines_items.
  - by rewrite (hashmap_scan_ok (λ seen x, seen ++ [x])), foldl_snoc.
Qed.
End refinement.

(** * Examples *)

(** Pairs of a key and a value, with a hash function that makes keys collide. *)
Definition demo_hash (x : Z * Z) (s0 s1 : Z) : Z := x.1 `div` 4.
Definition demo_compare (a b : Z * Z) : Z := a.1 - b.1.

Lemma demo_compare_key a b : demo_compare a b = 0 ↔ a.1 = b.1.
Proof. unfold demo_compare. lia. Qed.
Lemma demo_hash_key (a b : Z * Z) (s0 s1 : Z) : a.1 = b.1 → demo_hash a s0 s1 = demo_hash b s0 s1.
Proof. unfold demo_hash. by intros ->. Qed.

Lemma hashmap_runs_as_map_witness :
  ∃ l m f, run_ops (0, 0) demo_hash demo_compare
      [OpSet true (1, 10); OpSet true (2, 20); OpSet false (1, 11); OpGet (2, 0); OpDelete false (1, 0); OpGet (1, 0)]
      (hashmap_new (0, 0) (2 ^ 4) 0 0) = Ok l m ∧
    map_ops fst [OpSet true (1, 10); OpSet true (2, 20); OpSet false (1, 11); OpGet (2, 0); OpDelete false (1, 0); OpGet (1, 0)] ∅ l f ∧
    refines demo_hash fst m f ∧ hashmap_count m = Ok (Z.of_nat (size f)) m.
Proof.
  apply (hashmap_runs_as_map (0, 0) demo_hash demo_compare fst demo_compare_key demo_hash_key); [lia|].
  cbn. lia.
Defined.

Lemma hashmap_enumerates_witness :
  ∃ (m : hashmap (Z * Z)) (f : gmap Z (Z * Z)) l, f !! 1 = Some (1, 10) ∧ iterate 100 0 m = Ok l m ∧ l ≡ₚ (map_to_list f).*2 ∧
    hashmap_scan (λ seen x, (seen ++ [x], true)) (buckets m) [] = (l, true) ∧
    (∀ elfree, hashmap_free elfree (Some m) = if elfree : bool then l else []).
Proof.
  destruct (hashmap_set_ok (0, 0) demo_hash demo_compare fst demo_compare_key demo_hash_key
    (hashmap_new (0, 0) (2 ^ 4) 0 0) ∅ (1, 10) true) as (m & E & Hm & _);
    [by apply hashmap_new_ok|by vm_compute|by left|].
  exists m, (<[1 := (1, 10)]> ∅).
  destruct (hashmap_enumerates demo_hash fst m _ 100 Hm) as (l & ?); [|by exists l].
  vm_compute in E. injection E as <-. cbn. lia.
Defined.
