(* ===== verification/Daemon.v ===== *)
(** The whole daemon: the core state of State.v with the tables of policies and
    of process links, the memory workers and their channels; registration of
    policies (include/usm/usm.h) and the two setup functions of
    examples/project-2 that register theirs.

    The tables are the hash tables of HashMap.v with SipHash and [strcmp], as
    impl/usm/usm.c creates them. *)
From stdpp Require Import prelude gmap strings.
From S2P Require Import Prelude Lists State Channel PagePool Init Swap Hashes HashMap HashMapSpec.

Open Scope Z_scope.

(** * Names *)

Definition ascii_code (c : Ascii.ascii) : Z := Z.of_N (Ascii.N_of_ascii c).
Fixpoint string_bytes (s : string) : list Z :=
  match s with
  | EmptyString => []
  | String c s => ascii_code c :: string_bytes s
  end.

(** [strcmp]: the sign of the first difference. *)
Fixpoint strcmp (a b : string) : Z :=
  match a, b with
  | EmptyString, EmptyString => 0
  | EmptyString, _ => -1
  | _, EmptyString => 1
  | String c a, String d b =>
      if ascii_code c =? ascii_code d then strcmp a b else Z.sgn (ascii_code c - ascii_code d)
  end.

Lemma ascii_code_inj c d : ascii_code c = ascii_code d → c = d.
Proof.
  unfold ascii_code. intros H%N2Z.inj. apply (f_equal Ascii.ascii_of_N) in H.
  by rewrite !Ascii.ascii_N_embedding in H.
Qed.

Lemma strcmp_eq a b : strcmp a b = 0 ↔ a = b.
Proof.
  revert b. induction a as [|c a IH]; intros [|d b]; cbn [strcmp]; try done.
  destruct (Z.eqb_spec (ascii_code c) (ascii_code d)) as [Hc|Hc].
  - apply ascii_code_inj in Hc as ->. rewrite IH. split; [by intros ->|by intros [= ->]].
  - split; [|by intros [= -> ->]]. intros Hs. rewrite Z.sgn_null_iff in Hs. lia.
Qed.

(** [hashmap_sip] of a name ([sip_is_siphash] shows that it has a result). *)
Definition name_hash (name : string) (seed0 seed1 : Z) : Z := default 0 (hashmap_sip (string_bytes name) seed0 seed1).

(** * Tables *)

Record usm_policy := UsmPolicy { name : string; ops : ops_ptr }.
Definition usm_policy_compare (a b : usm_policy) : Z := strcmp (name a) (name b).
Definition usm_policy_hash (item : usm_policy) (seed0 seed1 : Z) : Z := name_hash (name item) seed0 seed1.
Definition null_policy : usm_policy := UsmPolicy "" ops_null.

Record usm_process_link := UsmProcessLink { plink_name : string; alloc_pol : ops_ptr; swp_pol : ops_ptr; plink_prio : Z }.
Definition usm_plink_compare (a b : usm_process_link) : Z := strcmp (plink_name a) (plink_name b).
Definition usm_plink_hash (item : usm_process_link) (seed0 seed1 : Z) : Z := name_hash (plink_name item) seed0 seed1.
Definition null_plink : usm_process_link := UsmProcessLink "" ops_null ops_null 0.

Lemma usm_policy_compare_key a b : usm_policy_compare a b = 0 ↔ name a = name b.
Proof. apply strcmp_eq. Qed.
Lemma usm_policy_hash_key a b (s0 s1 : Z) : name a = name b → usm_policy_hash a s0 s1 = usm_policy_hash b s0 s1.
Proof. unfold usm_policy_hash. by intros ->. Qed.
Lemma usm_plink_compare_key a b : usm_plink_compare a b = 0 ↔ plink_name a = plink_name b.
Proof. apply strcmp_eq. Qed.
Lemma usm_plink_hash_key a b (s0 s1 : Z) : plink_name a = plink_name b → usm_plink_hash a s0 s1 = usm_plink_hash b s0 s1.
Proof. unfold usm_plink_hash. by intros ->. Qed.

(** * Workers and channels (include/com/com.h) *)

Definition MAX_UTHREADS : Z := 32.
Definition MAX_VCPUS : Z := 64.

Inductive usm_channel_type := FD_BASED | RAM_BASED | HYBRID.
(** Which of the tables of channel operations, and which handler, a channel has. *)
Inductive channel_ops_ptr := cnl_ops_null | usm_cnl_mem_ops_p | usm_cnl_userfaultfd_ops_p.
Inductive channel_handler := no_handler | usm_handle_mem_p.

Record usm_channel := UsmChannel {
  usm_cnl_id : Z;
  fd : Z;
  usm_cnl_type : usm_channel_type;
  usm_cnl_ops : channel_ops_ptr;
  cnl_event : usm_event;
  usm_handle_evt : channel_handler;
}.
(** A channel in static storage. *)
Definition static_channel : usm_channel := UsmChannel 0 0 FD_BASED cnl_ops_null static_event no_handler.

(** [com] is the word of pending channels, a bit for each of [usm_channels]. *)
Record usm_worker := UsmWorker { worker_id : Z; com : Z; worker_state : bool; usm_channels : list usm_channel }.
Definition static_worker : usm_worker := UsmWorker 0 0 false (replicate (Z.to_nat MAX_UTHREADS) static_channel).

(** * The daemon *)

Record daemon := Daemon {
  core : usm;
  usm_alloc_policies : hashmap usm_policy;
  usm_swap_policies : hashmap usm_policy;
  usm_process_linking : hashmap usm_process_link;
  allocPoliciesNumber : Z;
  allocPolicyThresholds : list ops_ptr;
  initThreshold : Z;
  poolSize : Z;
  workersNumber : Z;
  init : Z;
  usmMemWorkers : list usm_worker;      (* from the static one along [next] *)
  majordomos : list usm_channel;        (* channels with a thread in usm_handle_fd *)
  uthreads : list (Z * Z);              (* uthread_create(vCPU_id, uthread_id, ...) so far *)
  unmapped : list (list Z);             (* the shared pages given to munmap so far *)
}.

Definition set_core v d := Daemon v (usm_alloc_policies d) (usm_swap_policies d) (usm_process_linking d) (allocPoliciesNumber d) (allocPolicyThresholds d) (initThreshold d) (poolSize d) (workersNumber d) (init d) (usmMemWorkers d) (majordomos d) (uthreads d) (unmapped d).
Definition set_alloc_policies v d := Daemon (core d) v (usm_swap_policies d) (usm_process_linking d) (allocPoliciesNumber d) (allocPolicyThresholds d) (initThreshold d) (poolSize d) (workersNumber d) (init d) (usmMemWorkers d) (majordomos d) (uthreads d) (unmapped d).
Definition set_swap_policies v d := Daemon (core d) (usm_alloc_policies d) v (usm_process_linking d) (allocPoliciesNumber d) (allocPolicyThresholds d) (initThreshold d) (poolSize d) (workersNumber d) (init d) (usmMemWorkers d) (majordomos d) (uthreads d) (unmapped d).
Definition set_process_linking v d := Daemon (core d) (usm_alloc_policies d) (usm_swap_policies d) v (allocPoliciesNumber d) (allocPolicyThresholds d) (initThreshold d) (poolSize d) (workersNumber d) (init d) (usmMemWorkers d) (majordomos d) (uthreads d) (unmapped d).
Definition set_policies_number v d := Daemon (core d) (usm_alloc_policies d) (usm_swap_policies d) (usm_process_linking d) v (allocPolicyThresholds d) (initThreshold d) (poolSize d) (workersNumber d) (init d) (usmMemWorkers d) (majordomos d) (uthreads d) (unmapped d).
Definition set_thresholds v i d := Daemon (core d) (usm_alloc_policies d) (usm_swap_policies d) (usm_process_linking d) (allocPoliciesNumber d) v i (poolSize d) (workersNumber d) (init d) (usmMemWorkers d) (majordomos d) (uthreads d) (unmapped d).
Definition set_poolSize v d := Daemon (core d) (usm_alloc_policies d) (usm_swap_policies d) (usm_process_linking d) (allocPoliciesNumber d) (allocPolicyThresholds d) (initThreshold d) v (workersNumber d) (init d) (usmMemWorkers d) (majordomos d) (uthreads d) (unmapped d).
Definition set_workersNumber v d := Daemon (core d) (usm_alloc_policies d) (usm_swap_policies d) (usm_process_linking d) (allocPoliciesNumber d) (allocPolicyThresholds d) (initThreshold d) (poolSize d) v (init d) (usmMemWorkers d) (majordomos d) (uthreads d) (unmapped d).
Definition set_init v d := Daemon (core d) (usm_alloc_policies d) (usm_swap_policies d) (usm_process_linking d) (allocPoliciesNumber d) (allocPolicyThresholds d) (initThreshold d) (poolSize d) (workersNumber d) v (usmMemWorkers d) (majordomos d) (uthreads d) (unmapped d).
Definition set_workers v d := Daemon (core d) (usm_alloc_policies d) (usm_swap_policies d) (usm_process_linking d) (allocPoliciesNumber d) (allocPolicyThresholds d) (initThreshold d) (poolSize d) (workersNumber d) (init d) v (majordomos d) (uthreads d) (unmapped d).
Definition set_majordomos v d := Daemon (core d) (usm_alloc_policies d) (usm_swap_policies d) (usm_process_linking d) (allocPoliciesNumber d) (allocPolicyThresholds d) (initThreshold d) (poolSize d) (workersNumber d) (init d) (usmMemWorkers d) v (uthreads d) (unmapped d).
Definition set_uthreads v d := Daemon (core d) (usm_alloc_policies d) (usm_swap_policies d) (usm_process_linking d) (allocPoliciesNumber d) (allocPolicyThresholds d) (initThreshold d) (poolSize d) (workersNumber d) (init d) (usmMemWorkers d) (majordomos d) v (unmapped d).
Definition set_unmapped v d := Daemon (core d) (usm_alloc_policies d) (usm_swap_policies d) (usm_process_linking d) (allocPoliciesNumber d) (allocPolicyThresholds d) (initThreshold d) (poolSize d) (workersNumber d) (init d) (usmMemWorkers d) (majordomos d) (uthreads d) v.

(** A computation on a part of the daemon. *)
Definition on {S A} (get : daemon → S) (put : S → daemon → daemon) (c : M S A) : M daemon A := λ d,
  match c (get d) with
  | Ok a s => Ok a (put s d)
  | Undef => Undef
  | Abort => Abort
  | OutOfFuel => OutOfFuel
  end.
Definition on_core {A} : M usm A → M daemon A := on core set_core.
Definition on_alloc_policies {A} : M (hashmap usm_policy) A → M daemon A := on usm_alloc_policies set_alloc_policies.
Definition on_swap_policies {A} : M (hashmap usm_policy) A → M daemon A := on usm_swap_policies set_swap_policies.
Definition on_linking {A} : M (hashmap usm_process_link) A → M daemon A := on usm_process_linking set_process_linking.

(** The daemon when its process starts: static storage. *)
Definition static_daemon : daemon := {|
  core := static_state;
  usm_alloc_policies := hashmap_new null_policy 0 0 0;
  usm_swap_policies := hashmap_new null_policy 0 0 0;
  usm_process_linking := hashmap_new null_plink 0 0 0;
  allocPoliciesNumber := 0;
  allocPolicyThresholds := replicate 100 ops_null;
  initThreshold := 0;
  poolSize := 0;
  workersNumber := 0;
  init := 0;
  usmMemWorkers := [static_worker];
  majordomos := [];
  uthreads := [];
  unmapped := [];
|}.

(** The tables that usm_init creates, at its end. *)
Definition usm_init_tables : M daemon unit :=
  _ ← modify (set_alloc_policies (hashmap_new null_policy 0 0 0));
  _ ← modify (set_swap_policies (hashmap_new null_policy 0 0 0));
  _ ← modify (set_process_linking (hashmap_new null_plink 0 0 0));
  modify (set_init 1).

(** * Registration

    [malloc] answers whether a growth of the table gets its memory. *)
Definition usm_register_policy (malloc : bool) (policy : ops_ptr) (policy_name : string) : M daemon Z :=
  r ← on_alloc_policies (hashmap_set null_policy usm_policy_hash usm_policy_compare malloc (UsmPolicy policy_name policy));
  oom ← on_alloc_policies hashmap_oom;
  if (match r with None => true | Some _ => false end) && (oom : bool) then mret 1
  else
    _ ← modify (λ d, set_policies_number ((allocPoliciesNumber d + 1) `mod` 2 ^ 16) d);
    mret 0.

Definition usm_register_alloc_policy (malloc : bool) (alloc_policy : ops_ptr) (policy_name : string) (is_default : bool) : M daemon Z :=
  _ ← (if is_default then on_core (modify (set_default_alloc_policy alloc_policy)) else mret tt);
  usm_register_policy malloc alloc_policy policy_name.

(** The swap policies go into the same table. *)
Definition usm_register_swap_policy (malloc : bool) (swap_policy : ops_ptr) (policy_name : string) (is_default : bool) : M daemon Z :=
  _ ← (if is_default then on_core (modify (set_default_swap_policy swap_policy)) else mret tt);
  usm_register_policy malloc swap_policy policy_name.

(** The registrations of policiesSet1_setup in alloc/src/policiesSet1.c, after the
    nodes of the pages ([setup_nodes]). *)
Definition alloc_setup (malloc : bool) : M daemon Z :=
  r ← usm_register_alloc_policy malloc alloc_policy_one_p "policyOne" true;
  if negb (r =? 0) then mret 1
  else
    r ← usm_register_alloc_policy malloc usm_basic_alloc_policy_p "basicPolicy" false;
    if negb (r =? 0) then mret 1
    else
      r ← usm_register_alloc_policy malloc alloc_policy_double_p "doublePolicy" false;
      if negb (r =? 0) then mret 1 else mret 0.

(** The registrations of policiesSet1_setup in evict/src/policiesSet1.c. *)
Definition swap_register (malloc : bool) : M daemon Z :=
  r ← usm_register_swap_policy malloc swap_policy_one_p "policyOne" false;
  if negb (r =? 0) then mret 1
  else
    r ← usm_register_swap_policy malloc usm_basic_swap_policy_p "basic_policy" true;
    if negb (r =? 0) then mret 1 else mret 0.

Section setup.
Context `{K : Kernel}.

Definition policiesSet1_setup_alloc (malloc : bool) (pagesNumber : nat) : M daemon Z :=
  _ ← on_core (setup_nodes 0 pagesNumber);
  alloc_setup malloc.

(** policiesSet1_setup in evict/src/policiesSet1.c; [size] is the size of the swap
    device, 4 GiB in the code, and [opened] whether the swap file could be opened. *)
Definition policiesSet1_setup_swap (malloc opened : bool) (size : Z) : M daemon Z :=
  r ← swap_register malloc;
  if negb (r =? 0) then mret 1
  else if negb opened then mret 1
  else
    r ← on_core (init_swap_device_nodes size);
    mret (if negb (r =? 0) then 1 else 0).
End setup.

(** * The tables as finite maps *)

Lemma on_ok {S A} (get : daemon → S) put (c : M S A) d a s :
  c (get d) = Ok a s → on get put c d = Ok a (put s d).
Proof. intros H. unfold on. by rewrite H. Qed.

Definition policy_table (m : hashmap usm_policy) (f : gmap string usm_policy) : Prop :=
  refines usm_policy_hash name m f ∧ growpower m = 1 ∧ Z.of_nat (size f) < 19660.
Definition link_table (m : hashmap usm_process_link) (f : gmap string usm_process_link) : Prop :=
  refines usm_plink_hash plink_name m f ∧ growpower m = 1 ∧ Z.of_nat (size f) < 19660.

(** Registering inserts into the table of alloc policies. *)
Lemma register_ok d f p n malloc : policy_table (usm_alloc_policies d) f → Z.of_nat (size f) < 19659 →
  malloc = true ∨ count (usm_alloc_policies d) ≠ growat (usm_alloc_policies d) →
  ∃ d' m', usm_register_policy malloc p n d = Ok 0 d' ∧ policy_table m' (<[n := UsmPolicy n p]> f) ∧
    d' = set_policies_number ((allocPoliciesNumber d + 1) `mod` 2 ^ 16) (set_alloc_policies m' d).
Proof.
  intros (Hm & Hg & Hs) Hroom Hmem. unfold usm_register_policy.
  destruct (hashmap_set_ok null_policy usm_policy_hash usm_policy_compare name usm_policy_compare_key usm_policy_hash_key
    _ f (UsmPolicy n p) malloc Hm (small_grows _ _ _ _ Hm Hg Hs) Hmem) as (m' & E & Hm' & Eo & Ep).
  run (on_ok usm_alloc_policies set_alloc_policies _ _ _ _ E).
  run (on_ok usm_alloc_policies set_alloc_policies hashmap_oom (set_alloc_policies m' d) (oom m') m' eq_refl).
  rewrite Eo, andb_false_r, modify_bind. eexists _, m'. split; [done|]. split; [|done].
  split; [done|]. split; [congruence|]. cbn [name]. rewrite map_size_insert. case_match; cbn; lia.
Qed.

(** The maps after the two setup functions. *)
Definition alloc_names (f : gmap string usm_policy) : gmap string usm_policy :=
  <["doublePolicy" := UsmPolicy "doublePolicy" alloc_policy_double_p]>
    (<["basicPolicy" := UsmPolicy "basicPolicy" usm_basic_alloc_policy_p]>
      (<["policyOne" := UsmPolicy "policyOne" alloc_policy_one_p]> f)).
Definition swap_names (f : gmap string usm_policy) : gmap string usm_policy :=
  <["basic_policy" := UsmPolicy "basic_policy" usm_basic_swap_policy_p]>
    (<["policyOne" := UsmPolicy "policyOne" swap_policy_one_p]> f).

Lemma map_size_insert_le (f : gmap string usm_policy) k v : (size (<[k := v]> f) ≤ S (size f))%nat.
Proof. rewrite map_size_insert. case_match; cbn; lia. Qed.

Lemma alloc_setup_ok d f : policy_table (usm_alloc_policies d) f → Z.of_nat (size f) < 19650 →
  ∃ d', alloc_setup true d = Ok 0 d' ∧ policy_table (usm_alloc_policies d') (alloc_names f) ∧
    usm_swap_policies d' = usm_swap_policies d ∧ default_alloc_policy (core d') = alloc_policy_one_p ∧
    default_swap_policy (core d') = default_swap_policy (core d).
Proof.
  intros Ht Hs. unfold alloc_setup, usm_register_alloc_policy. rewrite bind_assoc.
  set (d0 := set_core (set_default_alloc_policy alloc_policy_one_p (core d)) d).
  run (on_ok core set_core (modify (set_default_alloc_policy alloc_policy_one_p)) d tt _ eq_refl). fold d0.
  destruct (register_ok d0 f alloc_policy_one_p "policyOne" true Ht ltac:(lia) ltac:(by left)) as (d1 & m1 & E1 & H1 & Ed1).
  run E1. cbn [Z.eqb negb]. rewrite bind_assoc, ret_bind.
  assert (policy_table (usm_alloc_policies d1) (<["policyOne" := UsmPolicy "policyOne" alloc_policy_one_p]> f)) as H1'
    by (by rewrite Ed1).
  pose proof (map_size_insert_le f "policyOne" (UsmPolicy "policyOne" alloc_policy_one_p)) as Hl1.
  destruct (register_ok d1 _ usm_basic_alloc_policy_p "basicPolicy" true H1') as (d2 & m2 & E2 & H2 & Ed2); [lia|by left|].
  run E2. cbn [Z.eqb negb]. rewrite bind_assoc, ret_bind.
  assert (policy_table (usm_alloc_policies d2) (<["basicPolicy" := UsmPolicy "basicPolicy" usm_basic_alloc_policy_p]>
    (<["policyOne" := UsmPolicy "policyOne" alloc_policy_one_p]> f))) as H2' by (by rewrite Ed2).
  match type of H2' with policy_table _ (<[?k := ?v]> ?g) => pose proof (map_size_insert_le g k v) as Hl2 end.
  destruct (register_ok d2 _ alloc_policy_double_p "doublePolicy" true H2') as (d3 & m3 & E3 & H3 & Ed3); [lia|by left|].
  run E3. exists d3. split; [done|]. rewrite Ed3. split; [exact H3|]. cbn. rewrite Ed2. cbn. rewrite Ed1. done.
Qed.

Lemma swap_register_ok d f : policy_table (usm_alloc_policies d) f → Z.of_nat (size f) < 19650 →
  ∃ d', swap_register true d = Ok 0 d' ∧ policy_table (usm_alloc_policies d') (swap_names f) ∧
    usm_swap_policies d' = usm_swap_policies d ∧ default_alloc_policy (core d') = default_alloc_policy (core d) ∧
    default_swap_policy (core d') = usm_basic_swap_policy_p.
Proof.
  intros Ht Hs. unfold swap_register, usm_register_swap_policy. rewrite bind_assoc, ret_bind.
  destruct (register_ok d f swap_policy_one_p "policyOne" true Ht ltac:(lia) ltac:(by left)) as (d1 & m1 & E1 & H1 & Ed1).
  run E1. cbn [Z.eqb negb]. rewrite bind_assoc.
  set (d2 := set_core (set_default_swap_policy usm_basic_swap_policy_p (core d1)) d1).
  run (on_ok core set_core (modify (set_default_swap_policy usm_basic_swap_policy_p)) d1 tt _ eq_refl). fold d2.
  pose proof (map_size_insert_le f "policyOne" (UsmPolicy "policyOne" swap_policy_one_p)) as Hl1.
  destruct (register_ok d2 (<["policyOne" := UsmPolicy "policyOne" swap_policy_one_p]> f) usm_basic_swap_policy_p "basic_policy" true)
    as (d3 & m3 & E3 & H3 & Ed3); [by unfold d2; cbn; rewrite Ed1|lia|by left|].
  run E3. exists d3. split; [done|]. rewrite Ed3. split; [exact H3|]. cbn. rewrite Ed1. done.
Qed.

Lemma alloc_names_size f : (size (alloc_names f) ≤ 3 + size f)%nat.
Proof.
  unfold alloc_names. do 3 (etrans; [apply map_size_insert_le|]; apply le_n_S). done.
Qed.

(** The setup functions register the swap policies in the table of the alloc
    policies, where the swap policy "policyOne" takes the place of the alloc policy
    of that name: afterwards the lookup of "policyOne", which configuration files
    name as an alloc policy, gives the swap policy, while the table of swap
    policies is still empty. The default policies are the intended ones. *)
Theorem setups_shadow_policyOne d f : policy_table (usm_alloc_policies d) f → Z.of_nat (size f) < 19640 →
  policy_table (usm_swap_policies d) ∅ →
  ∃ d1 d2, alloc_setup true d = Ok 0 d1 ∧ swap_register true d1 = Ok 0 d2 ∧
    (∀ n, hashmap_get usm_policy_hash usm_policy_compare (UsmPolicy n ops_null) (usm_alloc_policies d2) =
          Ok (swap_names (alloc_names f) !! n) (usm_alloc_policies d2)) ∧
    swap_names (alloc_names f) !! "policyOne" = Some (UsmPolicy "policyOne" swap_policy_one_p) ∧
    (∀ n, hashmap_get usm_policy_hash usm_policy_compare (UsmPolicy n ops_null) (usm_swap_policies d2) =
          Ok None (usm_swap_policies d2)) ∧
    default_alloc_policy (core d2) = alloc_policy_one_p ∧ default_swap_policy (core d2) = usm_basic_swap_policy_p.
Proof.
  intros Ht Hs (Hsw & _). destruct (alloc_setup_ok d f Ht ltac:(lia)) as (d1 & E1 & H1 & Es1 & Ea1 & _).
  pose proof (alloc_names_size f) as Hn.
  destruct (swap_register_ok d1 (alloc_names f) H1 ltac:(lia)) as (d2 & E2 & H2 & Es2 & Ea2 & Ew2).
  exists d1, d2. split; [done|]. split; [done|]. split_and!.
  - intros n. exact (hashmap_get_ok usm_policy_hash usm_policy_compare name usm_policy_compare_key usm_policy_hash_key
      _ _ (proj1 H2) (UsmPolicy n ops_null)).
  - unfold swap_names. rewrite lookup_insert_ne by done. apply lookup_insert_eq.
  - intros n. rewrite Es2, Es1. exact (hashmap_get_ok usm_policy_hash usm_policy_compare name usm_policy_compare_key
      usm_policy_hash_key _ _ Hsw (UsmPolicy n ops_null)).
  - congruence.
  - done.
Qed.

Lemma static_table : policy_table (hashmap_new null_policy 0 0 0) ∅.
Proof.
  split; [|done]. change (hashmap_new null_policy 0 0 0) with (hashmap_new null_policy (2 ^ 4) 0 0).
  by apply hashmap_new_ok.
Qed.

Lemma setups_shadow_policyOne_witness :
  ∃ d1 d2, alloc_setup true static_daemon = Ok 0 d1 ∧ swap_register true d1 = Ok 0 d2 ∧
    hashmap_get usm_policy_hash usm_policy_compare (UsmPolicy "policyOne" ops_null) (usm_alloc_policies d2) =
      Ok (Some (UsmPolicy "policyOne" swap_policy_one_p)) (usm_alloc_policies d2).
Proof.
  destruct (setups_shadow_policyOne static_daemon ∅) as (d1 & d2 & E1 & E2 & Hget & Hone & _);
    [apply static_table|rewrite map_size_empty; lia|apply static_table|].
  exists d1, d2. split; [done|]. split; [done|]. by rewrite Hget, Hone.
Defined.
