(* ===== verification/Config.v ===== *)
(** The configuration file (impl/usm/usm.c: usm_set_alloc_policy_assignment_strategy),
    the arguments of the program and its start up to the scheduler.

    A file is the list of lines that [fgets] returns. Tokens are read with "%s"
    into arrays of 20 bytes: a longer token, or one that is missing, is undefined
    behaviour. *)
From stdpp Require Import prelude gmap strings.
From S2P Require Import Prelude Lists State Channel PagePool Init Swap Hashes HashMap HashMapSpec Daemon.

Open Scope Z_scope.

(** * Scanning *)

Definition is_space (c : Ascii.ascii) : bool :=
  let v := ascii_code c in (v =? 32) || ((9 <=? v) && (v <=? 13)).
Fixpoint skip_space (s : string) : string :=
  match s with
  | String c s' => if is_space c then skip_space s' else s
  | EmptyString => EmptyString
  end.
Fixpoint take_word (s : string) : string :=
  match s with
  | String c s => if is_space c then EmptyString else String c (take_word s)
  | EmptyString => EmptyString
  end.
Fixpoint drop_chars (n : nat) (s : string) : string :=
  match n, s with
  | O, _ => s
  | S n, String _ s => drop_chars n s
  | S _, EmptyString => EmptyString
  end.

(** [sscanf(s, "%s", arg)] with [char arg[20]]: the token and the rest. *)
Definition scan (s : string) : option (string * string) :=
  let s := skip_space s in
  let w := take_word s in
  match w with
  | EmptyString => None
  | _ => Some (w, drop_chars (String.length w) s)
  end.
Definition scan_arg (s : string) : M daemon (string * string) :=
  match scan s with
  | Some (w, rest) => if (String.length w <=? 19)%nat then mret (w, rest) else undef
  | None => undef
  end.

(** [atoi], where its value is an [int]. *)
Fixpoint digits (s : string) (v : Z) : Z :=
  match s with
  | String c s =>
      let d := ascii_code c - 48 in
      if (0 <=? d) && (d <=? 9) then digits s (v * 10 + d) else v
  | EmptyString => v
  end.
Definition atoi (s : string) : M daemon Z :=
  let s := skip_space s in
  let v := match s with
           | String c s' =>
               if ascii_code c =? 45 (* - *) then - digits s' 0
               else if ascii_code c =? 43 (* + *) then digits s' 0 else digits s 0
           | EmptyString => 0
           end in
  if (- 2 ^ 31 <=? v) && (v <? 2 ^ 31) then mret v else undef.

(** * Lines *)

(** How the body of the loop over the lines ends. *)
Inductive step := Continue | Break | GotoTemp.

Definition config_memory (ln arg1 : string) : M daemon step :=
  '(arg2, _) ← scan_arg (drop_chars (String.length arg1) ln);
  v ← atoi arg2;
  _ ← modify (set_poolSize (u64 (u64 v * (1024 * 1024))));
  mret Continue.

Definition config_workers (ln arg1 : string) : M daemon step :=
  '(arg2, _) ← scan_arg (drop_chars (String.length arg1) ln);
  _ ← atoi arg2;
  _ ← modify (set_workersNumber 0);
  mret Continue.

Definition config_page (ln arg1 : string) : M daemon step :=
  '(arg2, _) ← scan_arg (drop_chars (String.length arg1) ln);
  v ← atoi arg2;
  _ ← on_core (modify (set_globalPageSize (u32 v)));
  i ← gets init;
  mret (if i =? 0 then GotoTemp else Continue).

Definition get_policy (n : string) : M daemon (option usm_policy) :=
  on_alloc_policies (hashmap_get usm_policy_hash usm_policy_compare (UsmPolicy n ops_null)).
Definition get_swap_policy (n : string) : M daemon (option usm_policy) :=
  on_swap_policies (hashmap_get usm_policy_hash usm_policy_compare (UsmPolicy n ops_null)).
Definition get_link (n : string) : M daemon (option usm_process_link) :=
  on_linking (hashmap_get usm_plink_hash usm_plink_compare (UsmProcessLink n ops_null ops_null 0)).

(** [while (tempPerc < 100) allocPolicyThresholds[tempPerc++] = p] *)
Definition fill_thresholds (tempPerc : Z) (p : ops_ptr) : M daemon unit :=
  if tempPerc <? 0 then undef
  else modify (λ d, set_thresholds (take (Z.to_nat tempPerc) (allocPolicyThresholds d) ++
                      replicate (100 - Z.to_nat tempPerc) p) (initThreshold d) d).

Definition config_threshold (ln arg1 : string) : M daemon step :=
  '(arg2, rest) ← scan_arg (drop_chars (String.length arg1) ln);
  '(arg3, _) ← scan_arg rest;
  i ← gets initThreshold;
  _ ← (if i =? 0 then modify (set_thresholds (replicate 100 default_alloc_policy_p) 1) else mret tt);
  alloc_policy ← get_policy arg3;
  match alloc_policy with
  | None => mret Break
  | Some p =>
      tempPerc ← atoi arg2;
      _ ← fill_thresholds tempPerc (ops p);
      mret Continue
  end.

Section links.

(** [usable n] is the size of the block that [malloc(n)] returns: [n] at least, or 0 when it
    returns a null pointer. *)
Context (usable : Z → Z).

(** sizeof(struct usm_process_link): two words and a pointer, an int and its padding. *)
Definition sizeof_plink : Z := 32.

(** Whether a new link and the copy of its name find room: [strcpy] writes a byte more than
    [malloc(strlen(n))] asks for, and neither result of malloc is tested. *)
Definition room (n : string) : bool :=
  (sizeof_plink <=? usable sizeof_plink) && (Z.of_nat (String.length n) + 1 <=? usable (Z.of_nat (String.length n))).

(** [plink = malloc(sizeof( *plink)); plink->procName = malloc(strlen(n)); strcpy(plink->procName, n)] *)
Definition copy_name (n : string) : M daemon string := if room n then mret n else undef.

(** Storing a link; [malloc] answers whether a growth of the table gets its memory. A link that was
    found is itself in the table: when the table grows, its old buckets are freed before the
    link is copied from them. *)
Definition store_link (malloc found : bool) (plink : usm_process_link) (n : string) : M daemon step :=
  full ← gets (λ d, count (usm_process_linking d) =? growat (usm_process_linking d));
  if found && full && malloc then undef else
  r ← on_linking (hashmap_set null_plink usm_plink_hash usm_plink_compare malloc plink);
  match r with
  | Some _ => mret Continue
  | None =>
      oom ← on_linking hashmap_oom;
      if (oom : bool) then mret Break
      else
        ct ← get_link n;
        mret (match ct with None => Break | Some _ => Continue end)
  end.

Definition bind_policy (alloc : bool) (p : ops_ptr) (l : usm_process_link) : usm_process_link :=
  if alloc then UsmProcessLink (plink_name l) p (swp_pol l) (plink_prio l)
  else UsmProcessLink (plink_name l) (alloc_pol l) p (plink_prio l).

(** A link that is found is changed in the table; one that is not is a new structure from
    [malloc], of which only one of the two policies is written. *)
Definition config_process (malloc : bool) (ln arg1 : string) : M daemon step :=
  '(arg2, _) ← scan_arg (drop_chars (String.length arg1) ln);
  if negb (String.eqb arg2 "swap") && negb (String.eqb arg2 "alloc") then mret Break
  else
    '(arg3, rest) ← scan_arg (drop_chars (String.length arg1 + String.length arg2 + 1) ln);
    '(arg4, _) ← scan_arg rest;
    policy ← (if String.eqb arg2 "alloc" then get_policy arg4 else get_swap_policy arg4);
    match policy with
    | None => mret Break
    | Some policy =>
        found ← get_link arg3;
        match found with
        | Some l =>
            let plink := bind_policy (String.eqb arg2 "alloc") (ops policy) l in
            _ ← on_linking (hashmap_write usm_plink_hash usm_plink_compare plink);
            store_link malloc true plink arg3
        | None =>
            procName ← copy_name arg3;
            store_link malloc false
              (bind_policy (String.eqb arg2 "alloc") (ops policy) (UsmProcessLink procName ops_uninit ops_uninit 0)) arg3
        end
    end.

Definition config_priority (malloc : bool) (ln arg1 : string) : M daemon step :=
  '(arg2, rest) ← scan_arg (drop_chars (String.length arg1) ln);
  '(arg3, _) ← scan_arg rest;
  found ← get_link arg2;
  match found with
  | Some l =>
      v ← atoi arg3;
      let plink := UsmProcessLink (plink_name l) (alloc_pol l) (swp_pol l) v in
      _ ← on_linking (hashmap_write usm_plink_hash usm_plink_compare plink);
      store_link malloc true plink arg2
  | None =>
      procName ← copy_name arg2;
      v ← atoi arg3;
      store_link malloc false (UsmProcessLink procName ops_null ops_null v) arg2
  end.

Definition config_line (malloc : bool) (ln : string) : M daemon step :=
  if String.prefix "#" ln then mret Continue
  else match scan ln with
  | None => mret Continue
  | Some _ =>
      '(arg1, _) ← scan_arg ln;
      if String.eqb arg1 "memory" then config_memory ln arg1
      else if String.eqb arg1 "workers" then config_workers ln arg1
      else if String.eqb arg1 "page" then config_page ln arg1
      else if String.eqb arg1 "threshold" then config_threshold ln arg1
      else if String.eqb arg1 "process" then config_process malloc ln arg1
      else if String.eqb arg1 "priority" then config_priority malloc ln arg1
      else mret Break
  end.

(** * The file *)

(** Whether a line ends with a newline; reading one that does not has met the end of
    the file. *)
Fixpoint ends_line (s : string) : bool :=
  match s with
  | EmptyString => false
  | String c EmptyString => ascii_code c =? 10
  | String _ s => ends_line s
  end.

(** The result of the loop: [inl feof] when it is left at the end of the file or by a
    break, [inr tt] when by [goto temp]. *)
Fixpoint config_lines (malloc : bool) (lines : list string) : M daemon (bool + unit) :=
  match lines with
  | [] => mret (inl true)
  | ln :: lines =>
      r ← config_line malloc ln;
      match r with
      | Continue => config_lines malloc lines
      | Break => mret (inl (match lines with [] => negb (ends_line ln) | _ => false end))
      | GotoTemp => mret (inr tt)
      end
  end.

(** [None] is a file that cannot be opened: the null [FILE *] is used all the same. *)
Definition usm_set_alloc_policy_assignment_strategy (malloc : bool) (file : option (list string)) : M daemon Z :=
  match file with
  | None => undef
  | Some lines =>
      r ← config_lines malloc lines;
      match r with
      | inr _ => mret 0
      | inl feof =>
          size ← gets (λ d, globalPageSize (core d));
          _ ← (if size =? 0 then on_core (modify (set_globalPageSize SYS_PAGE_SIZE)) else mret tt);
          mret (if (feof : bool) then 0 else 1)
      end
  end.

(** [exit(1)] ends the program. *)
Definition usm_parse_args (malloc : bool) (file : option (list string)) (argc : Z) : M daemon unit :=
  if argc <? 2 then abort
  else
    r ← usm_set_alloc_policy_assignment_strategy malloc file;
    if negb (r =? 0) then abort else mret tt.

(** * The start *)
Section launch.
Context `{K : Kernel}.

(** usm_init on the descriptors [uffd] and the mapping [usmZone] it obtains: the pool,
    the process descriptors and the tables. The threads and channels that it also
    prepares are those of [static_daemon]. *)
Definition usm_init (uffd usmZone : Z) (processes : nat) : M daemon Z :=
  size ← gets poolSize;
  r ← on_core (usm_init_pool uffd usmZone size);
  if negb (r =? 0) then mret r
  else
    _ ← on_core (init_processes 0 processes);
    _ ← usm_init_tables;
    mret 0.

(** usm_launch up to setSched. *)
Definition usm_launch (malloc opened : bool) (file : option (list string)) (uffd usmZone : Z)
    (processes : nat) (swap_size : Z) : M daemon unit :=
  r ← usm_init uffd usmZone processes;
  if negb (r =? 0) then abort
  else
    n ← gets (λ d, globalPagesNumber (core d));
    r ← policiesSet1_setup_alloc malloc (Z.to_nat n);
    if negb (r =? 0) then abort
    else
      r ← policiesSet1_setup_swap malloc opened swap_size;
      if negb (r =? 0) then abort
      else
        r ← usm_set_alloc_policy_assignment_strategy malloc file;
        if negb (r =? 0) then abort else mret tt.
End launch.
End links.

(** One round of usm_handle_policies_watcher: the quotient is taken before the product. *)
Definition usm_handle_policies_watcher : M daemon unit :=
  used ← gets (λ d, usedMemory (core d));
  size ← gets poolSize;
  if size =? 0 then undef
  else
    p ← reads (λ d, allocPolicyThresholds d !! Z.to_nat (used `div` size * 100));
    match p with
    | ops_null | ops_uninit => undef
    | default_alloc_policy_p => mret tt
    | p => on_core (modify (set_default_alloc_policy p))
    end.

(** * Lines that name a process *)

Fixpoint no_space (s : string) : bool :=
  match s with
  | EmptyString => true
  | String c s => negb (is_space c) && no_space s
  end.
(** A token that fits its array. *)
Definition token (w : string) : Prop := w ≠ "" ∧ no_space w = true ∧ (String.length w ≤ 19)%nat.
Definition newline : string := String (Ascii.ascii_of_N 10) "".

Lemma append_cons a w r : String a w +:+ r = String a (w +:+ r).
Proof. done. Qed.
Lemma append_nil r : "" +:+ r = r.
Proof. done. Qed.

Lemma take_word_app w c rest : no_space w = true → is_space c = true → take_word (w +:+ String c rest) = w.
Proof.
  intros Hw Hc. induction w as [|a w IH]; rewrite ?append_cons, ?append_nil; cbn [take_word no_space] in *; [by rewrite Hc|].
  apply andb_true_iff in Hw as [Ha%negb_true_iff Hw]. rewrite Ha. by rewrite IH.
Qed.

Lemma drop_chars_app w rest : drop_chars (String.length w) (w +:+ rest) = rest.
Proof. induction w as [|a w IH]; [done|]. exact IH. Qed.

Lemma scan_token w c rest : token w → is_space c = true →
  scan_arg (" " +:+ w +:+ String c rest) = mret (w, String c rest).
Proof.
  intros (Hne & Hw & Hl) Hc. unfold scan_arg, scan.
  assert (skip_space (" " +:+ w +:+ String c rest) = w +:+ String c rest) as ->.
  { change (skip_space (" " +:+ ?s)) with (skip_space s).
    destruct w as [|a w]; [done|]. rewrite append_cons. cbn [no_space skip_space] in *. apply andb_true_iff in Hw as [Ha%negb_true_iff _]. by rewrite Ha. }
  rewrite take_word_app, drop_chars_app by done. destruct w; [done|].
  by rewrite (proj2 (Nat.leb_le _ _) Hl).
Qed.

Definition alloc_line (n p : string) : string := "process alloc " +:+ n +:+ " " +:+ p +:+ newline.
Definition swap_line (n p : string) : string := "process swap " +:+ n +:+ " " +:+ p +:+ newline.

Lemma get_policy_ok d f n : policy_table (usm_alloc_policies d) f → get_policy n d = Ok (f !! n) d.
Proof.
  intros (Hm & _). unfold get_policy, on_alloc_policies.
  rewrite (on_ok _ _ _ d _ _ (hashmap_get_ok usm_policy_hash usm_policy_compare name usm_policy_compare_key
    usm_policy_hash_key _ f Hm (UsmPolicy n ops_null))). by destruct d.
Qed.

Lemma get_swap_policy_ok d f n : policy_table (usm_swap_policies d) f → get_swap_policy n d = Ok (f !! n) d.
Proof.
  intros (Hm & _). unfold get_swap_policy, on_swap_policies.
  rewrite (on_ok _ _ _ d _ _ (hashmap_get_ok usm_policy_hash usm_policy_compare name usm_policy_compare_key
    usm_policy_hash_key _ f Hm (UsmPolicy n ops_null))). by destruct d.
Qed.

Lemma get_link_ok d g n : link_table (usm_process_linking d) g → get_link n d = Ok (g !! n) d.
Proof.
  intros (Hm & _). unfold get_link, on_linking.
  rewrite (on_ok _ _ _ d _ _ (hashmap_get_ok usm_plink_hash usm_plink_compare plink_name usm_plink_compare_key
    usm_plink_hash_key _ g Hm (UsmProcessLink n ops_null ops_null 0))). by destruct d.
Qed.

(** The table grows with the next new name. *)
Definition full (d : daemon) : bool := count (usm_process_linking d) =? growat (usm_process_linking d).

(** Storing a link inserts it, and the check behind finds it. *)
Lemma store_link_ok malloc found d g l : link_table (usm_process_linking d) g → Z.of_nat (size g) < 19659 →
  full d = false ∨ malloc = true ∧ found = false →
  ∃ m', store_link malloc found l (plink_name l) d = Ok Continue (set_process_linking m' d) ∧
    link_table m' (<[plink_name l := l]> g).
Proof.
  intros (Hm & Hg & Hs) Hsize Hroom. unfold store_link. rewrite gets_bind. fold (full d).
  assert (malloc = true ∨ count (usm_process_linking d) ≠ growat (usm_process_linking d)) as Hmem.
  { unfold full in Hroom. destruct Hroom as [?%Z.eqb_neq|[? _]]; auto. }
  assert (found && full d && malloc = false) as -> by (destruct Hroom as [->|[_ ->]]; [by rewrite andb_false_r|done]).
  destruct (hashmap_set_ok null_plink usm_plink_hash usm_plink_compare plink_name usm_plink_compare_key usm_plink_hash_key
    _ g l malloc Hm (small_grows _ _ _ _ Hm Hg Hs) Hmem) as (m' & E & Hm' & Eo & Ep).
  assert (link_table m' (<[plink_name l := l]> g)) as Ht.
  { split; [done|]. split; [congruence|]. rewrite map_size_insert. case_match; cbn; lia. }
  exists m'. split; [|done]. unfold on_linking at 1. run (on_ok usm_process_linking set_process_linking _ _ _ _ E).
  destruct (g !! plink_name l); [done|].
  unfold on_linking. run (on_ok usm_process_linking set_process_linking hashmap_oom (set_process_linking m' d) (oom m') m' eq_refl).
  rewrite Eo. change (set_process_linking m' (set_process_linking m' d)) with (set_process_linking m' d).
  run (get_link_ok (set_process_linking m' d) _ (plink_name l) Ht). by rewrite lookup_insert_eq.
Qed.

(** A table that has to grow and cannot: the parser stops. *)
Lemma store_link_oom found d g l n : link_table (usm_process_linking d) g → full d = true →
  ∃ m', store_link false found l n d = Ok Break (set_process_linking m' d) ∧ link_table m' g.
Proof.
  intros (Hm & Hg & Hs) Hf. unfold store_link. rewrite gets_bind, andb_false_r.
  exists (set_oom true (usm_process_linking d)). split; [|split; [by apply refines_oom|done]].
  pose proof (hashmap_set_oom null_plink usm_plink_hash usm_plink_compare _ l (proj1 (Z.eqb_eq _ _) Hf)) as E.
  unfold on_linking at 1. run (on_ok usm_process_linking set_process_linking _ _ _ _ E). unfold on_linking.
  by run (on_ok usm_process_linking set_process_linking hashmap_oom (set_process_linking (set_oom true (usm_process_linking d)) d)
    true (set_oom true (usm_process_linking d)) eq_refl).
Qed.

(** The link of a process in the table is changed, and stored again. *)
Lemma change_link_ok malloc d g l l' : link_table (usm_process_linking d) g → Z.of_nat (size g) < 19659 →
  g !! plink_name l' = Some l →
  (full d = true → malloc = true →
     (_ ← on_linking (hashmap_write usm_plink_hash usm_plink_compare l'); store_link malloc true l' (plink_name l')) d = Undef) ∧
  (full d = false ∨ malloc = false →
     ∃ m', (_ ← on_linking (hashmap_write usm_plink_hash usm_plink_compare l'); store_link malloc true l' (plink_name l')) d =
         Ok (if full d then Break else Continue) (set_process_linking m' d) ∧
       link_table m' (<[plink_name l' := l']> g)).
Proof.
  intros (Hm & Hg & Hs) Hsize Hl.
  destruct (hashmap_write_ok usm_plink_hash usm_plink_compare plink_name usm_plink_compare_key usm_plink_hash_key _ g l' l Hm Hl)
    as (m1 & E & Hm1 & Ec & Eg & _ & Ep).
  set (d1 := set_process_linking m1 d). assert (full d1 = full d) as Hfull by (unfold full; cbn; by rewrite Ec, Eg).
  assert (size (<[plink_name l' := l']> g) = size g) as Hsz by (apply map_size_insert_Some; by eexists).
  assert (link_table (usm_process_linking d1) (<[plink_name l' := l']> g)) as Ht by (split; [done|]; split; [cbn; congruence|by rewrite Hsz]).
  unfold on_linking at 1 2. rewrite (bind_ok _ _ _ _ _ (on_ok usm_process_linking set_process_linking _ _ _ _ E)). fold d1. split.
  - intros Hf ->. unfold store_link. rewrite gets_bind. fold (full d1). by rewrite Hfull, Hf.
  - intros Hcase. destruct (full d) eqn:Hf.
    + destruct Hcase as [Hc | ->]; [done|]. destruct (store_link_oom true d1 _ l' (plink_name l') Ht Hfull) as (m2 & E2 & Ht2). by exists m2.
    + destruct (store_link_ok malloc true d1 _ l' Ht) as (m2 & E2 & Ht2); [by rewrite Hsz|by left|]. exists m2. split; [done|].
      by rewrite insert_insert_eq in Ht2.
Qed.

Lemma is_space_space : is_space (Ascii.ascii_of_N 32) = true.
Proof. done. Qed.

(** The scanning of the two lines. *)
Lemma config_line_alloc usable malloc n p d : token n → token p →
  config_line usable malloc (alloc_line n p) d =
  (policy ← get_policy p;
   match policy with
   | None => mret Break
   | Some policy =>
       found ← get_link n;
       match found with
       | Some l =>
           _ ← on_linking (hashmap_write usm_plink_hash usm_plink_compare (bind_policy true (ops policy) l));
           store_link malloc true (bind_policy true (ops policy) l) n
       | None =>
           procName ← copy_name usable n;
           store_link malloc false (bind_policy true (ops policy) (UsmProcessLink procName ops_uninit ops_uninit 0)) n
       end
   end) d.
Proof.
  intros Hn Hp. unfold config_line. change (String.prefix "#" (alloc_line n p)) with false.
  assert (scan (alloc_line n p) = Some ("process", " alloc " +:+ n +:+ " " +:+ p +:+ newline)) as Hs by reflexivity.
  unfold scan_arg. rewrite Hs. cbn [String.length Nat.leb]. rewrite ret_bind. cbn [String.eqb Ascii.eqb Bool.eqb].
  unfold config_process.
  change (drop_chars (String.length "process") (alloc_line n p)) with (" alloc " +:+ n +:+ " " +:+ p +:+ newline).
  assert (scan_arg (" alloc " +:+ n +:+ " " +:+ p +:+ newline) = mret ("alloc", " " +:+ n +:+ " " +:+ p +:+ newline)) as -> by reflexivity.
  rewrite ret_bind. cbn [String.eqb Ascii.eqb Bool.eqb negb andb].
  change (drop_chars (String.length "process" + String.length "alloc" + 1) (alloc_line n p))
    with (" " +:+ n +:+ " " +:+ p +:+ newline).
  change (" " +:+ p +:+ newline) with (String (Ascii.ascii_of_N 32) (p +:+ newline)) at 1.
  rewrite (scan_token n _ _ Hn is_space_space), ret_bind.
  change (String (Ascii.ascii_of_N 32) (p +:+ newline)) with (" " +:+ p +:+ newline). unfold newline.
  rewrite (scan_token p _ _ Hp) by done. done.
Qed.

Lemma config_line_swap usable malloc n p d : token n → token p →
  config_line usable malloc (swap_line n p) d =
  (policy ← get_swap_policy p;
   match policy with
   | None => mret Break
   | Some policy =>
       found ← get_link n;
       match found with
       | Some l =>
           _ ← on_linking (hashmap_write usm_plink_hash usm_plink_compare (bind_policy false (ops policy) l));
           store_link malloc true (bind_policy false (ops policy) l) n
       | None =>
           procName ← copy_name usable n;
           store_link malloc false (bind_policy false (ops policy) (UsmProcessLink procName ops_uninit ops_uninit 0)) n
       end
   end) d.
Proof.
  intros Hn Hp. unfold config_line. change (String.prefix "#" (swap_line n p)) with false.
  assert (scan (swap_line n p) = Some ("process", " swap " +:+ n +:+ " " +:+ p +:+ newline)) as Hs by reflexivity.
  unfold scan_arg. rewrite Hs. cbn [String.length Nat.leb]. rewrite ret_bind. cbn [String.eqb Ascii.eqb Bool.eqb].
  unfold config_process.
  change (drop_chars (String.length "process") (swap_line n p)) with (" swap " +:+ n +:+ " " +:+ p +:+ newline).
  assert (scan_arg (" swap " +:+ n +:+ " " +:+ p +:+ newline) = mret ("swap", " " +:+ n +:+ " " +:+ p +:+ newline)) as -> by reflexivity.
  rewrite ret_bind. cbn [String.eqb Ascii.eqb Bool.eqb negb andb].
  change (drop_chars (String.length "process" + String.length "swap" + 1) (swap_line n p))
    with (" " +:+ n +:+ " " +:+ p +:+ newline).
  change (" " +:+ p +:+ newline) with (String (Ascii.ascii_of_N 32) (p +:+ newline)) at 1.
  rewrite (scan_token n _ _ Hn is_space_space), ret_bind.
  change (String (Ascii.ascii_of_N 32) (p +:+ newline)) with (" " +:+ p +:+ newline). unfold newline.
  rewrite (scan_token p _ _ Hp) by done. done.
Qed.

(** C33: What a line "process ..." of the configuration does, while the table of swap policies is
    empty, as usm_init leaves it and nothing in the source changes, and fewer than 19659 processes
    are known. A line "process swap N P" stops the parser, for every P. A line
    "process alloc N P" stops it when P is not registered. Otherwise:
    - N is a new name: when the block of malloc(strlen(N)) has no room for the terminating null
      (nothing makes malloc give more than it is asked for), or there is no memory for it or for
      the link, the copy of the name is undefined;
      else N is bound to P, or the parser stops when the table has to grow and there is no memory;
    - N is known: its link is changed in place, everything else about N is kept, and the line
      succeeds unless the table is full; when it is, growing it frees the link before it is copied
      (undefined), and without memory for growing the parser stops although the link has changed. *)
Theorem process_line_binds usable malloc d f g n p :
  policy_table (usm_alloc_policies d) f → policy_table (usm_swap_policies d) ∅ →
  link_table (usm_process_linking d) g → (∀ k l, g !! k = Some l → plink_name l = k) →
  Z.of_nat (size g) < 19659 → token n → token p →
  config_line usable malloc (swap_line n p) d = Ok Break d ∧
  match f !! p, g !! n with
  | None, _ => config_line usable malloc (alloc_line n p) d = Ok Break d
  | Some policy, None =>
      if (32 <=? usable 32) && (Z.of_nat (String.length n) + 1 <=? usable (Z.of_nat (String.length n)))
      then ∃ m', config_line usable malloc (alloc_line n p) d =
             Ok (if full d && negb malloc then Break else Continue) (set_process_linking m' d) ∧
           link_table m' (if full d && negb malloc then g else <[n := UsmProcessLink n (ops policy) ops_uninit 0]> g)
      else config_line usable malloc (alloc_line n p) d = Undef
  | Some policy, Some l =>
      if full d && malloc then config_line usable malloc (alloc_line n p) d = Undef
      else ∃ m', config_line usable malloc (alloc_line n p) d = Ok (if full d then Break else Continue) (set_process_linking m' d) ∧
           link_table m' (<[n := UsmProcessLink n (ops policy) (swp_pol l) (plink_prio l)]> g)
  end.
Proof.
  intros Hf Hw Hg Hkey Hs Hn Hp. rewrite config_line_swap, config_line_alloc by done. split.
  { run (get_swap_policy_ok d ∅ p Hw). by rewrite lookup_empty. }
  run (get_policy_ok d f p Hf). destruct (f !! p) as [policy|]; [|done].
  run (get_link_ok d g n Hg). destruct (g !! n) as [l|] eqn:El.
  - pose proof (Hkey n l El) as Hname. set (l' := bind_policy true (ops policy) l). assert (plink_name l' = n) as Hl' by done.
    destruct (change_link_ok malloc d g l l' Hg Hs) as [Hbad Hok]; [by rewrite Hl'|]. rewrite Hl' in Hbad, Hok.
    assert (l' = UsmProcessLink n (ops policy) (swp_pol l) (plink_prio l)) as <- by (unfold l', bind_policy; by rewrite Hname).
    destruct (full d) eqn:Hfull, malloc; cbn [andb]; [by apply Hbad|apply Hok; by auto..].
  - unfold copy_name, room, sizeof_plink. destruct (_ && _); [|done]. rewrite ret_bind. cbn [bind_policy plink_name swp_pol plink_prio].
    set (l' := UsmProcessLink n (ops policy) ops_uninit 0). change n with (plink_name l').
    destruct (full d) eqn:Hfull, malloc; cbn [andb negb].
    + apply store_link_ok; [done|done|by right].
    + by apply store_link_oom.
    + apply store_link_ok; [done|done|by left].
    + apply store_link_ok; [done|done|by left].
Qed.

Lemma static_links : link_table (hashmap_new null_plink 0 0 0) ∅.
Proof.
  split; [|done]. change (hashmap_new null_plink 0 0 0) with (hashmap_new null_plink (2 ^ 4) 0 0).
  by apply hashmap_new_ok.
Qed.

(** An allocator that rounds up to blocks of 24 bytes and more. *)
Definition rounding (n : Z) : Z := Z.max 24 n.

Lemma process_line_binds_witness : ∃ d,
  config_line rounding true (swap_line "stressapptest" "basicPolicy") d = Ok Break d ∧
  (∃ m', config_line rounding true (alloc_line "stressapptest" "basicPolicy") d = Ok Continue (set_process_linking m' d) ∧
    link_table m' {["stressapptest" := UsmProcessLink "stressapptest" usm_basic_alloc_policy_p ops_uninit 0]}) ∧
  config_line id true (alloc_line "stressapptest" "basicPolicy") d = Undef.
Proof.
  destruct (register_ok static_daemon ∅ usm_basic_alloc_policy_p "basicPolicy" true) as (d & m & _ & Hm & Ed);
    [apply static_table|rewrite map_size_empty; lia|by left|].
  assert (∀ usable, _) as Hline by (intros usable; refine (process_line_binds usable true d
    {["basicPolicy" := UsmPolicy "basicPolicy" usm_basic_alloc_policy_p]} ∅ "stressapptest" "basicPolicy" _ _ _ _ _ _ _);
    [by rewrite Ed|rewrite Ed; apply static_table|rewrite Ed; apply static_links|done|rewrite map_size_empty; lia
    |split; [done|split; [done|cbn; lia]]|split; [done|split; [done|cbn; lia]]]).
  exists d. destruct (Hline rounding) as [Hs Hb]. destruct (Hline id) as [_ Hu]. clear Hline.
  rewrite lookup_singleton_eq, lookup_empty in Hb, Hu. split; [exact Hs|]. split; [|exact Hu].
  destruct Hb as (m' & E & Ht). exists m'. rewrite andb_false_r in E, Ht. split; [exact E|exact Ht].
Defined.

(** The first pass over a configuration file ends at its line "page". *)
Example first_pass :
  usm_set_alloc_policy_assignment_strategy rounding true
    (Some ["memory 512" +:+ newline; "workers 2" +:+ newline; "page 4096" +:+ newline; newline;
           "process alloc stressapptest policyOne" +:+ newline]) static_daemon =
  Ok 0 (set_core (set_globalPageSize 4096 static_state) (set_poolSize (512 * 1024 * 1024) static_daemon)).
Proof. vm_compute. reflexivity. Qed.
