(* ===== verification/Startup.v ===== *)
(** The rest of the start: the system calls of usm_init, the two workers on files and the first
    memory worker that it prepares (impl/usm/usm.c), and the threads that setSched creates
    before its loop (impl/usm/sched.c).

    The results of the system calls are the argument [boot]. *)
From stdpp Require Import prelude gmap strings pretty.
From S2P Require Import Prelude Lists State Channel PagePool Init Swap Hashes HashMap HashMapSpec Daemon Config.

Open Scope Z_scope.

(** What the calls of usm_init return, in their order: a descriptor of -1 and [None] are
    failures. A file that cannot be opened is tried again after a key was pressed. *)
Record boot := Boot {
  b_userfaultfd : Z; b_api : Z; b_com : bool;
  b_USMMcd : list Z; b_usmPgs : list Z; b_usm : list Z;
  b_zone : option Z; b_errno : Z;
}.

(** * Workers on files *)
Inductive receiver_ops := usm_cnl_freed_ops | usm_cnl_new_process_ops.

(** The worker with its first channel. *)
Record poll_worker := PollWorker { thread_name : string; first_channel : option (receiver_ops * Z * usm_channel_type) }.

Definition appendUSMChannelLegacy (ops : receiver_ops) (channelFd : Z) (w : poll_worker) : poll_worker :=
  PollWorker (thread_name w) (Some (ops, channelFd, FD_BASED)).
Definition append_name (suffix : string) (w : poll_worker) : poll_worker :=
  PollWorker (thread_name w +:+ suffix) (first_channel w).

Record starting := Starting {
  dmn : daemon;
  uffd : Z; usmCMAFd : Z; usmFreePagesFd : Z; usmNewProcFd : Z;
  usmWorkers : list poll_worker;
  threads : list string;              (* the threads in usm_handle_evt_poll *)
}.
Definition set_dmn v s := Starting v (uffd s) (usmCMAFd s) (usmFreePagesFd s) (usmNewProcFd s) (usmWorkers s) (threads s).
Definition set_uffd v s := Starting (dmn s) v (usmCMAFd s) (usmFreePagesFd s) (usmNewProcFd s) (usmWorkers s) (threads s).
Definition set_usmCMAFd v s := Starting (dmn s) (uffd s) v (usmFreePagesFd s) (usmNewProcFd s) (usmWorkers s) (threads s).
Definition set_usmFreePagesFd v s := Starting (dmn s) (uffd s) (usmCMAFd s) v (usmNewProcFd s) (usmWorkers s) (threads s).
Definition set_usmNewProcFd v s := Starting (dmn s) (uffd s) (usmCMAFd s) (usmFreePagesFd s) v (usmWorkers s) (threads s).
Definition set_usmWorkers v s := Starting (dmn s) (uffd s) (usmCMAFd s) (usmFreePagesFd s) (usmNewProcFd s) v (threads s).
Definition set_threads v s := Starting (dmn s) (uffd s) (usmCMAFd s) (usmFreePagesFd s) (usmNewProcFd s) (usmWorkers s) v.

Definition on_dmn {A} (m : M daemon A) : M starting A := λ s,
  match m (dmn s) with
  | Ok a d => Ok a (set_dmn d s)
  | Undef => Undef
  | Abort => Abort
  | OutOfFuel => OutOfFuel
  end.

(** [retry: fd = open(...); if (fd < 0) goto retry;] *)
Fixpoint open_retry (attempts : list Z) (set : Z → starting → starting) : M starting unit :=
  match attempts with
  | [] => λ _, OutOfFuel
  | fd :: attempts => _ ← modify (set fd); if fd <? 0 then open_retry attempts set else mret tt
  end.

(** The worker [i] of [n]. *)
Definition init_worker (n i : Z) : M starting poll_worker :=
  let w := PollWorker ("Worker-" +:+ pretty i) None in
  freed ← gets usmFreePagesFd;
  new ← gets usmNewProcFd;
  let w := if i =? n - 1 then appendUSMChannelLegacy usm_cnl_freed_ops freed (append_name "/freePagesReceiver" w) else w in
  let w := if i =? n - 2 then appendUSMChannelLegacy usm_cnl_new_process_ops new (append_name "/processesReceiver" w) else w in
  mret w.

Fixpoint init_workers (n i : Z) (k : nat) : M starting unit :=
  match k with
  | O => mret tt
  | S k => w ← init_worker n i; _ ← modify (λ s, set_usmWorkers (usmWorkers s ++ [w]) s); init_workers n (i + 1) k
  end.

Definition usm_init_workers : M starting unit :=
  _ ← on_dmn (modify (set_workersNumber 0));
  _ ← on_dmn (modify (λ d, set_workersNumber (u32 (workersNumber d + 2)) d));
  n ← gets (λ s, workersNumber (dmn s));
  _ ← init_workers n 0 (Z.to_nat n);
  on_dmn (modify (λ d, set_workersNumber (u32 (workersNumber d - 2)) d)).

(** The static memory worker; it is awake, and its channels carry its number. *)
Definition usm_init_mem_worker : M starting unit :=
  on_dmn (updates (λ d,
    match usmMemWorkers d with
    | w :: ws => Some (set_workers (UsmWorker 0 (com w) true
        ((λ c, UsmChannel 0 (fd c) (usm_cnl_type c) (usm_cnl_ops c) (cnl_event c) (usm_handle_evt c)) <$> usm_channels w) :: ws) d)
    | [] => None
    end)).

Section start.
Context `{K : Kernel}.

(** usm_init. *)
Definition usm_init_all (b : boot) (processes : nat) : M starting Z :=
  _ ← modify (set_uffd (b_userfaultfd b));
  if b_userfaultfd b =? -1 then mret (b_errno b)
  else if b_api b =? -1 then mret (b_errno b)
  else if negb (b_com b) then abort
  else
    _ ← open_retry (b_USMMcd b) set_usmCMAFd;
    _ ← open_retry (b_usmPgs b) set_usmFreePagesFd;
    _ ← open_retry (b_usm b) set_usmNewProcFd;
    size ← gets (λ s, poolSize (dmn s));
    _ ← on_dmn (on_core (modify (set_globalPagesNumber (u32 (size `div` SYS_PAGE_SIZE)))));
    match b_zone b with
    | None => mret (b_errno b)
    | Some usmZone =>
        r ← on_dmn (on_core (usm_init_pool (b_userfaultfd b) usmZone size));
        if negb (r =? 0) then mret r
        else
          _ ← usm_init_workers;
          _ ← usm_init_mem_worker;
          _ ← on_dmn (on_core (init_processes 0 processes));
          _ ← on_dmn usm_init_tables;
          mret 0
    end.

(** The loop of setSched that creates the threads of the workers on files. *)
Fixpoint launch_workers (l : list poll_worker) (wk_nr : Z) : M starting unit :=
  match l with
  | [] => mret tt
  | w :: l =>
      _ ← modify (λ s, set_threads (threads s ++ [thread_name w]) s);
      n ← gets (λ s, workersNumber (dmn s));
      if wk_nr + 1 =? u32 (n + 1) then mret tt else launch_workers l (wk_nr + 1)
  end.

(** usm_launch, with the beginning of setSched. *)
Definition usm_launch_all (usable : Z → Z) (b : boot) (malloc opened : bool) (file : option (list string)) (processes : nat) (swap_size : Z) : M starting unit :=
  r ← usm_init_all b processes;
  if negb (r =? 0) then abort
  else
    n ← gets (λ s, globalPagesNumber (core (dmn s)));
    r ← on_dmn (policiesSet1_setup_alloc malloc (Z.to_nat n));
    if negb (r =? 0) then abort
    else
      r ← on_dmn (policiesSet1_setup_swap malloc opened swap_size);
      if negb (r =? 0) then abort
      else
        r ← on_dmn (usm_set_alloc_policy_assignment_strategy usable malloc file);
        if negb (r =? 0) then abort
        else
          l ← gets usmWorkers;
          launch_workers l 0.
End start.

(** * What the configuration does not change *)

(** The number of workers stays 0, and the memory workers are kept. *)
Definition keeps {A} (m : M daemon A) : Prop := ∀ d a d', m d = Ok a d' →
  (workersNumber d = 0 → workersNumber d' = 0) ∧ usmMemWorkers d' = usmMemWorkers d.

Create HintDb keeps.

Lemma keeps_ret {A} (a : A) : keeps (mret a).
Proof. by intros d b d' [= <- <-]. Qed.
Lemma keeps_undef {A} : keeps (@undef daemon A).
Proof. done. Qed.
Lemma keeps_gets {A} (f : daemon → A) : keeps (gets f).
Proof. by intros d b d' [= <- <-]. Qed.
Lemma keeps_bind {A B} (m : M daemon A) (f : A → M daemon B) : keeps m → (∀ a, keeps (f a)) → keeps (m ≫= f).
Proof.
  intros Hm Hf d b d' E. unfold mbind, M_bind in E. destruct (m d) as [a d1| | |] eqn:E1; try done.
  destruct (Hm _ _ _ E1) as [H1 H2], (Hf a _ _ _ E) as [H3 H4]. split; [auto|congruence].
Qed.
Lemma keeps_modify f : (∀ d, (workersNumber d = 0 → workersNumber (f d) = 0) ∧ usmMemWorkers (f d) = usmMemWorkers d) → keeps (modify f).
Proof. by intros Hf d a d' [= <- <-]. Qed.
Lemma keeps_on {S A} (get : daemon → S) (put : S → daemon → daemon) (m : M S A) :
  (∀ x d, workersNumber (put x d) = workersNumber d ∧ usmMemWorkers (put x d) = usmMemWorkers d) → keeps (on get put m).
Proof.
  intros Hp d a d' E. unfold on in E. destruct (m (get d)) as [b s| | |]; try done. injection E as _ <-. destruct (Hp s d) as [-> ->]. done.
Qed.
#[export] Hint Resolve keeps_ret keeps_undef keeps_gets : keeps.

(** Take a computation of the configuration apart. *)
Ltac keep :=
  repeat first
  [ progress intros
  | solve [eauto with keeps]
  | apply keeps_on; done
  | apply keeps_modify; done
  | apply keeps_bind
  | case_match ].

Lemma keeps_scan_arg x : keeps (scan_arg x).
Proof. unfold scan_arg. keep. Qed.
Lemma keeps_atoi x : keeps (atoi x).
Proof. unfold atoi. keep. Qed.
#[export] Hint Resolve keeps_scan_arg keeps_atoi : keeps.

Lemma keeps_get_link n : keeps (get_link n).
Proof. apply keeps_on. done. Qed.
Lemma keeps_store_link malloc found p n : keeps (store_link malloc found p n).
Proof. unfold store_link, on_linking. keep. Qed.
#[export] Hint Resolve keeps_get_link keeps_store_link : keeps.

Lemma keeps_config_line usable malloc ln : keeps (config_line usable malloc ln).
Proof.
  unfold config_line, config_memory, config_workers, config_page, config_threshold, config_process, config_priority,
    copy_name, on_linking, get_policy, get_swap_policy, fill_thresholds, on_core, on_alloc_policies, on_swap_policies. keep.
Qed.
#[export] Hint Resolve keeps_config_line : keeps.

Lemma keeps_config_lines usable malloc lines : keeps (config_lines usable malloc lines).
Proof. induction lines as [|ln lines IH]; cbn [config_lines]; keep. Qed.
#[export] Hint Resolve keeps_config_lines : keeps.

Lemma keeps_strategy usable malloc file : keeps (usm_set_alloc_policy_assignment_strategy usable malloc file).
Proof. unfold usm_set_alloc_policy_assignment_strategy, on_core. keep. Qed.

Lemma keeps_register malloc p n : keeps (usm_register_policy malloc p n).
Proof. unfold usm_register_policy, on_alloc_policies. keep. Qed.
#[export] Hint Resolve keeps_register : keeps.

Section setups.
Context `{K : Kernel}.
Lemma keeps_setup_alloc malloc n : keeps (policiesSet1_setup_alloc malloc n).
Proof. unfold policiesSet1_setup_alloc, alloc_setup, usm_register_alloc_policy, on_core. keep. Qed.
Lemma keeps_setup_swap malloc opened size : keeps (policiesSet1_setup_swap malloc opened size).
Proof. unfold policiesSet1_setup_swap, swap_register, usm_register_swap_policy, on_core. keep. Qed.
Lemma keeps_init_tables : keeps usm_init_tables.
Proof. unfold usm_init_tables. keep. Qed.
End setups.

(** * The start as a whole *)
Lemma bind_inv {S A B} (m : M S A) (f : A → M S B) s b s' : (m ≫= f) s = Ok b s' → ∃ a s1, m s = Ok a s1 ∧ f a s1 = Ok b s'.
Proof. unfold mbind, M_bind. destruct (m s) as [a s1| | |]; try done. by exists a, s1. Qed.

(** The part of the state besides the daemon. *)
Definition outside (s : starting) := (uffd s, usmCMAFd s, usmFreePagesFd s, usmNewProcFd s, usmWorkers s, threads s).

Lemma on_dmn_inv {A} (m : M daemon A) s a s' : on_dmn m s = Ok a s' → m (dmn s) = Ok a (dmn s') ∧ outside s' = outside s.
Proof. unfold on_dmn. destruct (m (dmn s)) as [b d| | |] eqn:E; try done. by intros [= <- <-]. Qed.

Lemma on_dmn_keeps {A} (m : M daemon A) s a s' : keeps m → on_dmn m s = Ok a s' →
  (workersNumber (dmn s) = 0 → workersNumber (dmn s') = 0) ∧ usmMemWorkers (dmn s') = usmMemWorkers (dmn s) ∧ outside s' = outside s.
Proof. intros Hm [E Ho]%on_dmn_inv. by destruct (Hm _ _ _ E). Qed.

Lemma open_retry_inv l set s s' : (∀ v w s, set v (set w s) = set v s) → open_retry l set s = Ok tt s' → ∃ fd, 0 ≤ fd ∧ s' = set fd s.
Proof.
  intros Hset. revert s. induction l as [|fd l IH]; intros s; cbn; [done|]. intros E. rewrite modify_bind in E.
  destruct (Z.ltb_spec fd 0).
  - destruct (IH _ E) as (fd' & Hfd & ->). exists fd'. by rewrite Hset.
  - injection E as <-. by exists fd.
Qed.

(** The two workers on files. *)
Definition processes_receiver (fd : Z) : poll_worker :=
  PollWorker "Worker-0/processesReceiver" (Some (usm_cnl_new_process_ops, fd, FD_BASED)).
Definition free_pages_receiver (fd : Z) : poll_worker :=
  PollWorker "Worker-1/freePagesReceiver" (Some (usm_cnl_freed_ops, fd, FD_BASED)).

Lemma usm_init_workers_ok s : usm_init_workers s =
  Ok tt (set_dmn (set_workersNumber 0 (dmn s))
    (set_usmWorkers ((usmWorkers s ++ [processes_receiver (usmNewProcFd s)]) ++ [free_pages_receiver (usmFreePagesFd s)]) s)).
Proof. by destruct s as [[] ? ? ? ? ? ?]. Qed.

(** The memory worker is awake and ready for 32 channels. *)
Definition ready_worker : usm_worker := UsmWorker 0 0 true (replicate 32 static_channel).

Lemma usm_init_mem_worker_ok s : usmMemWorkers (dmn s) = [static_worker] →
  usm_init_mem_worker s = Ok tt (set_dmn (set_workers [ready_worker] (dmn s)) s).
Proof. intros H. unfold usm_init_mem_worker, on_dmn, updates. by rewrite H. Qed.

(** What usm_init leaves to the rest of the start. *)
Definition initialised (s : starting) : Prop :=
  workersNumber (dmn s) = 0 ∧ usmMemWorkers (dmn s) = [ready_worker] ∧
  usmWorkers s = [processes_receiver (usmNewProcFd s); free_pages_receiver (usmFreePagesFd s)] ∧ threads s = [] ∧
  0 ≤ usmNewProcFd s ∧ 0 ≤ usmFreePagesFd s.

Lemma on_dmn_initialised {A} (m : M daemon A) s a s' : keeps m → initialised s → on_dmn m s = Ok a s' → initialised s'.
Proof.
  intros Hm (H1 & H2 & H3) E. destruct (on_dmn_keeps m s a s' Hm E) as (H4 & H5 & H6). unfold outside in H6.
  injection H6 as ? ? ? ? ? ?. split; [by auto|]. split; [congruence|]. destruct H3 as (W & T & F1 & F2). split_and!; [congruence|congruence|lia|lia].
Qed.

Lemma keeps_on_core {A} (m : M usm A) : keeps (on_core m).
Proof. by apply keeps_on. Qed.

Section launch.
Context `{K : Kernel}.

(** The daemon before it starts. *)
Definition unstarted (s : starting) : Prop := usmMemWorkers (dmn s) = [static_worker] ∧ usmWorkers s = [] ∧ threads s = [].

Lemma usm_init_all_inv b processes s r s' : unstarted s → b_errno b ≠ 0 → usm_init_all b processes s = Ok r s' → r = 0 → initialised s'.
Proof.
  intros (Hm & Hw & Ht) He E ->. unfold usm_init_all in E. rewrite modify_bind in E.
  destruct (b_userfaultfd b =? -1); [by injection E as E _|]. destruct (b_api b =? -1); [by injection E as E _|].
  destruct (negb (b_com b)); [done|].
  apply bind_inv in E as ([] & s1 & E1 & E). apply open_retry_inv in E1 as (fd1 & _ & ->); [|done].
  apply bind_inv in E as ([] & s2 & E2 & E). apply open_retry_inv in E2 as (fd2 & Hf2 & ->); [|done].
  apply bind_inv in E as ([] & s3 & E3 & E). apply open_retry_inv in E3 as (fd3 & Hf3 & ->); [|done].
  rewrite gets_bind in E. apply bind_inv in E as ([] & s4 & E4 & E). apply on_dmn_keeps in E4 as (_ & M4 & O4); [|apply keeps_on_core].
  destruct (b_zone b) as [zone|]; [|by injection E as E _].
  apply bind_inv in E as (r & s5 & E5 & E). apply on_dmn_keeps in E5 as (_ & M5 & O5); [|apply keeps_on_core].
  destruct (Z.eqb_spec r 0) as [->|Hr]; [|by injection E as E _]. cbn [negb] in E. rewrite O4 in O5. unfold outside in O5. cbn in O5.
  injection O5 as _ _ F5 N5 W5 T5.
  cbn in M4. assert (usmMemWorkers (dmn s5) = [static_worker]) as Hm5 by congruence.
  rewrite (bind_ok _ _ _ _ _ (usm_init_workers_ok s5)) in E. set (s5' := set_dmn (set_workersNumber 0 _) _) in E.
  rewrite (bind_ok _ _ _ _ _ (usm_init_mem_worker_ok s5' Hm5)) in E.
  set (s6 := set_dmn (set_workers _ _) s5') in E. assert (initialised s6) as H6.
  { split; [done|]. split; [done|]. cbn. rewrite W5, T5, F5, N5, Hw. by split_and!. }
  apply bind_inv in E as ([] & s7 & E7 & E). apply on_dmn_initialised in E7; [|apply keeps_on_core|done].
  apply bind_inv in E as ([] & s8 & E8 & E). apply on_dmn_initialised in E8; [|apply keeps_init_tables|done]. by injection E as <-.
Qed.

(** Whatever the configuration file says: when the daemon has started and enters its
    scheduler, it has prepared two workers on files, one for new processes on
    /proc/usm and one for freed pages on /proc/usmPgs, but only the first has a thread;
    the number of workers was set to 0 by usm_init and by every line "workers". Its memory
    worker is awake and has all channels free. *)
Theorem free_pages_receiver_not_started usable b malloc opened file processes swap_size s s' : unstarted s → b_errno b ≠ 0 →
  usm_launch_all usable b malloc opened file processes swap_size s = Ok tt s' →
  threads s' = ["Worker-0/processesReceiver"] ∧
  usmWorkers s' = [processes_receiver (usmNewProcFd s'); free_pages_receiver (usmFreePagesFd s')] ∧
  0 ≤ usmNewProcFd s' ∧ 0 ≤ usmFreePagesFd s' ∧ usmMemWorkers (dmn s') = [ready_worker].
Proof.
  intros Hs He E. unfold usm_launch_all in E. apply bind_inv in E as (r & s1 & E1 & E).
  destruct (Z.eqb_spec r 0) as [Hr|]; [|done]. apply usm_init_all_inv in E1; [|done..]. cbn [negb] in E. rewrite gets_bind in E.
  apply bind_inv in E as (r2 & s2 & E2 & E). apply on_dmn_initialised in E2; [|apply keeps_setup_alloc|done]. destruct (negb (r2 =? 0)); [done|].
  apply bind_inv in E as (r3 & s3 & E3 & E). apply on_dmn_initialised in E3; [|apply keeps_setup_swap|done]. destruct (negb (r3 =? 0)); [done|].
  apply bind_inv in E as (r4 & s4 & E4 & E). apply on_dmn_initialised in E4 as (N & Mw & W & T & F1 & F2); [|apply keeps_strategy|done].
  destruct (negb (r4 =? 0)); [done|]. rewrite gets_bind, W in E. cbn [launch_workers] in E. rewrite modify_bind, gets_bind in E. cbn in E.
  rewrite N in E. injection E as <-. cbn. by rewrite T.
Qed.
End launch.

(** * A start *)
Section example.
Definition demo_boot : boot := Boot 5 0 true [-1; 6] [7] [-1; -1; 8] (Some 0x7f0000000000) 12.
Definition demo_starting : starting := Starting (set_poolSize 12288 static_daemon) 0 0 0 0 [] [].
Definition demo_file : list string := ["workers 4" +:+ newline; "memory 1" +:+ newline].

Lemma demo_launch : match usm_launch_all (K := reply_kernel 3) rounding demo_boot true true (Some demo_file) 2 8192 demo_starting with
  | Ok _ _ => True
  | _ => False
  end.
Proof. vm_compute. exact I. Qed.

Lemma demo_unstarted : unstarted demo_starting.
Proof. split; [reflexivity|]. split; reflexivity. Qed.

Lemma free_pages_receiver_not_started_witness : ∃ s',
  usm_launch_all (K := reply_kernel 3) rounding demo_boot true true (Some demo_file) 2 8192 demo_starting = Ok tt s' ∧
  threads s' = ["Worker-0/processesReceiver"].
Proof.
  pose proof demo_launch as H.
  pose proof (free_pages_receiver_not_started (K := reply_kernel 3) rounding demo_boot true true (Some demo_file) 2 8192 demo_starting) as T.
  destruct (usm_launch_all _ _ _ _ _ _ _ _) as [[] s'| | |]; [|destruct H|destruct H|destruct H].
  exists s'. split; [reflexivity|]. refine (proj1 (T s' demo_unstarted _ eq_refl)). discriminate.
Defined.
End example.
