(* ===== verification/Events.v ===== *)
(** The events of the daemon: the dispatch to the policies of a process
    (include/usm/usm.h), the handler of every type of event (impl/com/event.c,
    usm_handle_events) and the functions that receive events for it
    (impl/com/com.c: usm_handle_mem, usm_handle_fd, usm_handle_evt_poll), in the
    build that the Makefile's first target gives: DEBUG and UTHREAD, without
    IUTHREAD and FBASED. Messages and the waits for a key are left out. *)
From stdpp Require Import prelude gmap strings.
From S2P Require Import Prelude Lists State Channel PagePool Init AllocPolicies PoolSpec Swap Eviction Checker Hashes HashMap HashMapSpec Daemon Config.

Open Scope Z_scope.

Definition FAULT_EXISTS : Z := 7.
Definition FAULT_OOM_VICTIM : Z := 5.

(** ** Process descriptors *)
Definition set_prio (v : Z) (p : processDesc) : processDesc :=
  ProcessDesc (alloc_policy p) (swap_policy p) (allocated p) (swapped p) v.
Definition set_alloc_policy (v : ops_ptr) (p : processDesc) : processDesc :=
  ProcessDesc v (swap_policy p) (allocated p) (swapped p) (prio p).
Definition set_swap_policy (v : ops_ptr) (p : processDesc) : processDesc :=
  ProcessDesc (alloc_policy p) v (allocated p) (swapped p) (prio p).

Definition usmSetAllocPolicy (process : Z) (policy : ops_ptr) : M usm unit :=
  update_procDesc process (set_alloc_policy policy).
Definition usmSetSwapPolicy (process : Z) (policy : ops_ptr) : M usm unit :=
  update_procDesc process (set_swap_policy policy).

Definition usmGetEventPriority : M usm Z :=
  e ← get_event;
  if (0 <=? origin e) && (origin e <? MAX_PROC) then d ← procDesc_at (origin e); mret (prio d) else mret 0.

(** [assert] fails for an origin that is too large. *)
Definition usmSetProcessPriority (priority : Z) : M usm unit :=
  e ← get_event;
  if negb (origin e <? MAX_PROC) then abort else update_procDesc (origin e) (set_prio priority).

(** The list of used pages of the process is not reset. *)
Definition resetUsmProcess (process : Z) : M usm unit :=
  _ ← update_procDesc process (λ _, ProcessDesc default_alloc_policy_p default_swap_policy_p 0 0 0);
  _ ← list_op (INIT_LIST_HEAD (ProcSwapList process));
  list_op (INIT_LIST_HEAD (ProcSwapCache process)).

(** ** Dispatch

    The structures of alloc and of swap policies have the same layout: a name, an
    initialiser, [usm_alloc] or [usm_swap], [usm_pindex_free] or [cond_swap_out],
    [usm_free]. A pointer to one of them used as the other calls what is there;
    the default policies are copies of the structure they name. *)
Definition resolve (p : ops_ptr) : M usm ops_ptr :=
  match p with
  | default_alloc_policy_p => gets default_alloc_policy
  | default_swap_policy_p => gets default_swap_policy
  | p => mret p
  end.

Section events.
Context `{K : Kernel} `{SE : SubmitEvt}.

(** The third word of a policy structure. *)
Definition call_alloc (p : ops_ptr) : M usm Z :=
  match p with
  | alloc_policy_one_p => basic_alloc_uniq
  | usm_basic_alloc_policy_p => basic_alloc
  | alloc_policy_double_p => double_alloc
  | swap_policy_one_p => double_swap
  | usm_basic_swap_policy_p => basic_swap
  | _ => undef
  end.
(** The fourth: the null pointer in a structure of a swap policy. *)
Definition call_pindex_free (p : ops_ptr) : M usm Z :=
  match p with
  | alloc_policy_one_p | usm_basic_alloc_policy_p | alloc_policy_double_p => pindex_free
  | _ => undef
  end.
Definition call_cond_swap_out (p : ops_ptr) : M usm unit :=
  match p with
  | alloc_policy_one_p | usm_basic_alloc_policy_p | alloc_policy_double_p => _ ← pindex_free; mret tt
  | swap_policy_one_p | usm_basic_swap_policy_p => mret tt
  | _ => undef
  end.

Definition usmPolicyDefinedAlloc : M usm Z :=
  e ← get_event;
  d ← procDesc_at (origin e);
  p ← resolve (alloc_policy d);
  call_alloc p.

(** The page of the event is used without a test. *)
Definition usmPolicyDefinedPageIndexFree : M usm Z :=
  i ← usmEventToPage;
  i ← deref i;
  pg ← page_at i;
  d ← procDesc_at (process pg);
  p ← resolve (alloc_policy d);
  call_pindex_free p.

Definition usmPolicyDefinedSwapIn : M usm Z :=
  e ← get_event;
  d ← procDesc_at (origin e);
  p ← resolve (swap_policy d);
  r ← call_alloc p;
  if negb (r =? 0) then
    e ← get_event;
    d ← procDesc_at (origin e);
    p ← resolve (swap_policy d);
    _ ← call_cond_swap_out p;
    mret 1
  else mret 0.

(** The hooks that policiesSet1_setup installs; the bodies of the two conditional
    ones are commented out. *)
Definition usm_evict_fallback : M usm unit := handle_evict_request.
Definition do_cond_swap_in : M usm unit := mret tt.
Definition do_cond_swap_out : M usm unit := mret tt.

(** ** usm_handle_events, case ALLOC *)

(** What follows an attempt with the result [ret]: [inl retried] is [goto retry]. *)
Definition after_attempt (retried ret : Z) : M usm (Z + Z) :=
  if ret =? 0 then mret (inr 0)
  else if negb (ret =? 1) then mret (inr ret)
  else if negb (retried =? 0) then mret (inr 1)
  else _ ← usm_evict_fallback; mret (inl (retried + 1)).

(** The code from the label [retry] on. *)
Definition retry_body (retried : Z) : M usm (Z + Z) :=
  ret ← usmPolicyDefinedAlloc;
  after_attempt retried ret.

Definition handle_alloc : M usm Z :=
  e ← get_event;
  ret ← (if negb (Z.land (flags e) UFFD_PAGEFAULT_FLAG_SWAP =? 0) then
           c ← trySwapCache;
           if c =? 0 then usmPolicyDefinedSwapIn else mret 1
         else usmPolicyDefinedAlloc);
  r ← after_attempt 0 ret;
  match r with
  | inl retried => loop 2 retry_body retried
  | inr ret => mret ret
  end.

(** ** New processes *)

(** A policy pointer of a link as a condition: a field that was never written has no
    value. *)
Definition is_set (p : ops_ptr) : M daemon bool :=
  match p with
  | ops_uninit => undef
  | ops_null => mret false
  | _ => mret true
  end.

Definition usmSetupProcess : M daemon unit :=
  e ← on_core get_event;
  _ ← on_core (update_procDesc (origin e) (set_prio 0));
  plink ← match procName e with
          | Some n => get_link n
          | None => mret None
          end;
  match plink with
  | None => mret tt
  | Some l =>
      a ← is_set (alloc_pol l);
      _ ← (if (a : bool) then on_core (usmSetAllocPolicy (origin e) (alloc_pol l)) else mret tt);
      w ← is_set (swp_pol l);
      _ ← (if (w : bool) then on_core (usmSetSwapPolicy (origin e) (swp_pol l)) else mret tt);
      on_core (usmSetProcessPriority (plink_prio l))
  end.

(** What a new thread or process needs of the system. *)
Class ThreadMap := {
  (* [mmap] of the page shared with a thread: an error number or the page *)
  mmap_thread : nat → Z → Z + list Z;
  (* malloc(sizeof(struct usm_channel)): the memory with whatever is in it *)
  malloc_channel : nat → option usm_channel;
}.
Context `{TM : ThreadMap}.

(** The label [retryChn]: three calls of malloc at most, then [exit(1)]. *)
Fixpoint try_channel (retries : nat) : M daemon usm_channel :=
  t ← on_core tick;
  match malloc_channel t, retries with
  | Some c, _ => mret c
  | None, O => abort
  | None, S retries => try_channel retries
  end.

(** A channel for the descriptor and a thread in usm_handle_fd for it: three fields of the
    new channel are written, the others and its event are as malloc left them. *)
Definition createUSMChannel (channelFd : Z) : M daemon unit :=
  c ← try_channel 2;
  modify (λ d, set_majordomos (majordomos d ++
    [UsmChannel (usm_cnl_id c) channelFd FD_BASED usm_cnl_userfaultfd_ops_p (cnl_event c) (usm_handle_evt c)]) d).

(** ** New threads *)

(** The walk along the list of workers from [it], whose elements are numbered. *)
Fixpoint walk_workers (workers : list usm_worker) (id : Z) (k : nat) : option nat * Z :=
  match workers with
  | [] => (None, id)
  | _ :: workers => if id =? 0 then (Some k, id - 1) else walk_workers workers (id - 1) (S k)
  end.

Definition usmChooseWorker (id : Z) : M daemon (option nat) :=
  workers ← gets usmMemWorkers;
  let '(it, id) := if id =? 0 then (Some O, 0) else walk_workers workers id 0 in
  if negb (id =? 0) then abort else mret it.

(** createUSMMemChannel(&usm_cnl_mem_ops, mem, worker->usm_channels), for the page of
    the current event; the number of the channel is in the last word of the page. The page
    that the channel had before is unmapped. *)
Definition createUSMMemChannel (w : nat) : M daemon unit :=
  usmid ← on_core (usm_load 4 4092);
  worker ← reads (λ d, usmMemWorkers d !! w);
  c ← reads (λ _, usm_channels worker !! Z.to_nat usmid);
  org ← on_core (usm_load 4 0);
  mem ← on_core (gets (λ s, usmmem (event s)));
  let toUnmap := usmmem (cnl_event c) in
  let ev := with_usmmem mem (with_type ALLOC (with_origin (s32 org) (cnl_event c))) in
  let c := UsmChannel (usm_cnl_id c) (fd c) RAM_BASED usm_cnl_mem_ops_p ev usm_handle_mem_p in
  _ ← modify (λ d, set_uthreads (uthreads d ++ [(usm_cnl_id c, usmid)]) d);
  _ ← on_core (usm_store 4 4 0);
  mem ← on_core (gets (λ s, usmmem (event s)));
  let c := UsmChannel (usm_cnl_id c) (fd c) RAM_BASED usm_cnl_mem_ops_p (with_usmmem mem ev) usm_handle_mem_p in
  _ ← modify (λ d, set_workers (<[w := UsmWorker (worker_id worker) (com worker) (worker_state worker)
                                   (<[Z.to_nat usmid := c]> (usm_channels worker))]> (usmMemWorkers d)) d);
  modify (λ d, set_unmapped (unmapped d ++ option_list toUnmap) d).

(** createUSMMemChannel of the builds without UTHREAD: no user thread is made, and the type and the
    origin of the event are not set. *)
Definition createUSMMemChannel_plain (w : nat) : M daemon unit :=
  usmid ← on_core (usm_load 4 4092);
  worker ← reads (λ d, usmMemWorkers d !! w);
  c ← reads (λ _, usm_channels worker !! Z.to_nat usmid);
  _ ← on_core (usm_store 4 4 0);
  mem ← on_core (gets (λ s, usmmem (event s)));
  let c := UsmChannel (usm_cnl_id c) (fd c) RAM_BASED usm_cnl_mem_ops_p (with_usmmem mem (cnl_event c)) usm_handle_mem_p in
  modify (λ d, set_workers (<[w := UsmWorker (worker_id worker) (com worker) (worker_state worker)
                               (<[Z.to_nat usmid := c]> (usm_channels worker))]> (usmMemWorkers d)) d).

(** Case NEW_THREAD once the page is mapped. *)
Definition welcome_thread (regentsID : Z) : M daemon Z :=
  e ← on_core get_event;
  _ ← on_core (usm_store 4 0 (origin e));
  _ ← on_core (usm_store 4 (sizeof_int * 2 + sizeof_long * 3) 0);
  chosenWorker ← usmChooseWorker regentsID;
  match chosenWorker with
  | None => undef
  | Some w => _ ← createUSMMemChannel w; mret 0
  end.

(** Case NEW_THREAD. The word at offset 4000 of the mapping is read before the result
    of [mmap] is tested: a mapping that failed is MAP_FAILED, -1, so the read is at address 3999,
    in the page that is never mapped. The code that tests for MAP_FAILED and makes a new worker
    (event.c:174-226) is therefore never reached with a failure. *)
Definition handle_new_thread : M daemon Z :=
  e ← on_core get_event;
  t ← on_core tick;
  match mmap_thread t (origin e) with
  | inl errno => undef
  | inr page =>
      _ ← on_core (update_event (with_usmmem (Some page)));
      regentsID ← on_core (usm_load 4 4000);
      welcome_thread (s32 regentsID)
  end.

(** ** usm_handle_events *)
Definition usm_handle_events : M daemon Z :=
  e ← on_core get_event;
  ret ← match type e with
        | ALLOC => on_core handle_alloc
        | PHY_AS_CHANGE => on_core usmPolicyDefinedPageIndexFree
        | FREE | VIRT_AS_CHANGE | THREAD_DTH => mret 0
        | NEW_PROC => _ ← usmSetupProcess; _ ← createUSMChannel (origin e); mret 0
        | NEW_THREAD => handle_new_thread
        | PROC_DTH => _ ← on_core (resetUsmProcess (origin e)); mret 0
        | HINTS => mret 1
        end;
  _ ← on_core do_cond_swap_in;
  _ ← on_core do_cond_swap_out;
  mret ret.

(** ** Receiving events *)

(** usm_handle_mem on the channel [i] of worker [w]: its event becomes the current one
    and is stored back. *)
Definition channel_at (w i : nat) : M daemon usm_channel :=
  reads (λ d, worker ← usmMemWorkers d !! w; usm_channels worker !! i).
Definition store_event (w i : nat) : M daemon unit :=
  updates (λ d, worker ← usmMemWorkers d !! w; c ← usm_channels worker !! i;
    Some (set_workers (<[w := UsmWorker (worker_id worker) (com worker) (worker_state worker)
            (<[i := UsmChannel (usm_cnl_id c) (fd c) (usm_cnl_type c) (usm_cnl_ops c) (event (core d)) (usm_handle_evt c)]>
               (usm_channels worker))]> (usmMemWorkers d)) d)).

Definition handle_mem_event : M daemon Z :=
  notfn ← on_core usm_mem_check;
  if notfn =? 0 then mret 1
  else if 0 <? notfn then
    r ← on_core usm_mem_ret_ev;
    if negb (r =? 0) then mret 1
    else
      r ← usm_handle_events;
      mret (if r =? 0 then 0 else 1)
  else
    _ ← on_core (update_event (with_type THREAD_DTH));
    _ ← on_core (update_event (with_usmmem None));
    mret 2.

Definition usm_handle_mem (w i : nat) : M daemon Z :=
  c ← channel_at w i;
  _ ← on_core (modify (set_event (cnl_event c)));
  r ← handle_mem_event;
  _ ← store_event w i;
  mret r.

(** One round of the loop of usm_handle_fd for the descriptor [id], from the point
    where [poll] has returned [notfn]: [inr] leaves the thread. The event is the
    current one. *)
Definition handle_fd_event : M daemon (unit + unit) :=
  r ← usm_handle_events;
  e ← on_core get_event;
  mret (if (r =? 0) && negb (bool_decide (type e = PROC_DTH)) then inl tt else inr tt).

Definition handle_fd_round (id : Z) : M daemon (unit + unit) :=
  notfn ← on_core (usm_poll_check id);
  if notfn =? 0 then mret (inl tt)
  else if 0 <? notfn then
    if notfn =? POLLPRI then _ ← on_core (update_event (with_type NEW_THREAD)); handle_fd_event
    else
      r ← on_core usm_uffd_ret_ev;
      if negb (r =? 0) then mret (inr tt) else handle_fd_event
  else
    _ ← on_core (update_event (with_type PROC_DTH));
    e ← on_core get_event;
    _ ← on_core (update_procDesc (origin e) (set_prio (-1)));
    mret (inr tt).

(** The thread of a channel with [rounds] rounds; the first jumps into the loop with a
    NEW_THREAD event for the main thread of the process. *)
Definition usm_handle_fd (rounds : nat) (c : usm_channel) : M daemon unit :=
  _ ← on_core (modify (set_event (with_type NEW_THREAD (with_origin (fd c) (cnl_event c)))));
  r ← handle_fd_event;
  match r with
  | inr _ => mret tt
  | inl _ => loop rounds (λ _ : unit, handle_fd_round (fd c)) tt
  end.

(** One round of usm_handle_evt_poll on the first channel of a worker, with the
    operations [check] and [retrieve] of its channel. *)
Definition handle_evt_poll_round (check retrieve : M usm Z) : M daemon unit :=
  notfn ← on_core check;
  if notfn =? 0 then mret tt
  else if 0 <? notfn then
    r ← on_core retrieve;
    if negb (r =? 0) then mret tt else _ ← usm_handle_events; mret tt
  else _ ← usm_handle_events; mret tt.
End events.

(** * The allocation handler *)
Section handler.
Context `{K : Kernel} `{SE : SubmitEvt}.

(** The first attempt at a fault: the swap path or the policy of the process. *)
Definition first_attempt : M usm Z :=
  e ← get_event;
  if negb (Z.land (flags e) UFFD_PAGEFAULT_FLAG_SWAP =? 0) then
    c ← trySwapCache;
    if c =? 0 then usmPolicyDefinedSwapIn else mret 1
  else usmPolicyDefinedAlloc.

(** The handler without its jump: one attempt and, if that gives 1, one eviction and
    one attempt at an allocation. *)
Definition handle_alloc_once : M usm Z :=
  ret ← first_attempt;
  if negb (ret =? 1) then mret ret
  else _ ← usm_evict_fallback; usmPolicyDefinedAlloc.

Lemma handle_alloc_unfold s : handle_alloc s = handle_alloc_once s.
Proof.
  unfold handle_alloc, handle_alloc_once, first_attempt. unfold mbind, M_bind, get_event, gets.
  set (a := if negb _ then _ else _). destruct (a s) as [ret s1| | |]; [|done..].
  unfold after_attempt. destruct (Z.eqb_spec ret 0) as [->|H0]; [done|].
  destruct (Z.eqb_spec ret 1) as [->|H1]; [|done]. cbn [negb Z.eqb].
  unfold mbind, M_bind. destruct (usm_evict_fallback s1) as [[] s2| | |]; [|done..].
  unfold mret, M_ret. cbn [Z.add]. rewrite loop_S. unfold retry_body at 2, after_attempt.
  unfold mbind, M_bind. destruct (usmPolicyDefinedAlloc s2) as [r s3| | |]; [|done..].
  destruct (Z.eqb_spec r 0) as [->|]; [done|]. destruct (Z.eqb_spec r 1) as [->|]; done.
Qed.

(** C22: The handler of a fault makes at most two attempts with one eviction between
    them: its retry jump is taken at most once. It is equal to the straight-line
    code that attempts, evicts when the attempt gives 1, and attempts an
    allocation. So a swap-in that fails, or a page found in the swap cache, for
    which the first attempt gives 1 too, is followed by an eviction and a plain
    allocation of a fresh page for the same address. *)
Theorem handle_alloc_straight s : handle_alloc s = handle_alloc_once s.
Proof. apply handle_alloc_unfold. Qed.

(** ** Under memory pressure *)

(** The process of the event allocates with alloc_policy_one, the default of
    examples/project-2. *)
Definition allocates_uniq (s : usm) : Prop :=
  ∃ d, procDescList s !! origin (event s) = Some d ∧ resolve (alloc_policy d) s = Ok alloc_policy_one_p s.

Lemma procDesc_at_bind {B} p (k : processDesc → M usm B) s d :
  procDescList s !! p = Some d → (procDesc_at p ≫= k) s = k d s.
Proof. intros H. by apply reads_bind. Qed.

Lemma alloc_dispatch s : allocates_uniq s → usmPolicyDefinedAlloc s = basic_alloc_uniq s.
Proof.
  intros (d & Hd & Hr). unfold usmPolicyDefinedAlloc, get_event. rewrite gets_bind.
  rewrite (procDesc_at_bind _ _ s d Hd). by run Hr.
Qed.

(** A channel that accepts serves the first free page. *)
Lemma alloc_accepted s m n f used mp : pool s m (n :: f) used → has_page mp s → accepts_all →
  ∃ s', basic_alloc_uniq s = Ok 0 s'.
Proof.
  intros Hp Hmp Hacc. unfold basic_alloc_uniq.
  run (pool_is_empty _ _ _ _ Hp). rewrite bool_decide_false by done.
  run (first_free_ok _ _ _ _ _ Hp). rewrite gets_bind. unfold usedMemory_add. rewrite modify_bind.
  destruct (pool_lookup _ _ _ _ Hp n) as (p & Ep & En & _); [set_solver|].
  destruct (lists_del (links s) m FreeList [] (NodeIulist n) (NodeIulist <$> f))
    as (h1 & E1 & D1 & L1 & U1 & _); [apply Hp|apply Hp|]. simpl in L1, U1.
  erewrite list_op_bind; [|exact E1]. rewrite gets_bind.
  match goal with |- context [usmPage ?x !! n] => change (usmPage x !! n) with (usmPage s !! n) end. rewrite En.
  erewrite page_at_bind; [|exact Ep]. rewrite !update_event_bind. set (s1 := set_event _ _).
  destruct (submit_step s1 mp) as (r & t & mp' & fl & E2 & _); [exact Hmp|].
  destruct (Hacc s1 mp Hmp) as [s2 E2']. rewrite E2 in E2'. injection E2' as -> _.
  run E2. cbn [negb Z.eqb]. erewrite usmLinkPage_bind; [|exact Ep].
  destruct (lists_add_tail h1 (<[FreeList:=NodeIulist <$> f]> m) UsedList
    (NodeIulist <$> used) (NodeIulist n)) as (h2 & E3 & D3 & L3); [done| | |done|].
  { rewrite lookup_insert_ne by done. apply Hp. }
  { rewrite D1. by apply (pool_node Hp), (pool_range Hp), elem_of_app; left; left. }
  erewrite list_op_bind; [|exact E3]. by eexists.
Qed.

(** A first-touch fault while pages are free. *)
Lemma handle_alloc_serves s m n f u mp : pool s m (n :: f) u → has_page mp s → 0 ≤ usedMemory s < 2 ^ 64 →
  allocates_uniq s → accepts_all → Z.land (flags (event s)) UFFD_PAGEFAULT_FLAG_SWAP = 0 →
  ∃ s' m', handle_alloc s = Ok 0 s' ∧ pool s' m' f (u ++ [n]) ∧ backs s s' n ∧ paddr (event s') = pfn_of s n ∧
    usedMemory s' = u64 (usedMemory s + globalPageSize s).
Proof.
  intros Hp Hmp Hum Hal Hacc Hfl.
  destruct (basic_alloc_uniq_ok s m n f u mp Hp Hmp Hum) as (r & s' & m' & mp' & E & _ & _ & Hpa & _ & _ & Hcase).
  destruct (alloc_accepted s m n f u mp Hp Hmp Hacc) as [s2 E2]. rewrite E in E2. injection E2 as -> ->.
  destruct Hcase as [(_ & H1 & H2 & H3)|[? _]]; [|done]. exists s2, m'. split; [|done].
  rewrite handle_alloc_unfold. unfold handle_alloc_once, first_attempt.
  rewrite bind_assoc. unfold get_event at 1. rewrite gets_bind, Hfl. cbn [negb Z.eqb].
  rewrite (bind_ok _ _ s 0 s2) by (by rewrite alloc_dispatch). done.
Qed.

(** What an eviction leaves alone. *)
Lemma evict_keeps s m f n u p j sn dfr sc psl sl s' :
  evictable s m f n u p j sn dfr sc psl sl → evict_succeeds s n p j sn → handle_evict_request s = Ok tt s' →
  procDescList s' = procDescList s ∧ default_alloc_policy s' = default_alloc_policy s ∧
  default_swap_policy s' = default_swap_policy s ∧ globalPageSize s' = globalPageSize s ∧ event s' = event s ∧
  backend (swap_device_one s') = <[sn_offset sn := data p]> (backend (swap_device_one s)).
Proof.
  intros H (Hr & Hio1 & Hio2 & Hrt) E.
  destruct (evict_ok _ _ _ _ _ _ _ _ _ _ _ _ H Hr Hio1 Hio2 Hrt) as (h & E' & _).
  rewrite E in E'. injection E' as ->. split_and!; reflexivity.
Qed.

Lemma resolve_same p s s' q : default_alloc_policy s' = default_alloc_policy s →
  default_swap_policy s' = default_swap_policy s → resolve p s = Ok q s → resolve p s' = Ok q s'.
Proof.
  intros Ha Hw H. destruct p; cbn in *; unfold gets, mret, M_ret in *; injection H as <-; congruence.
Qed.

Lemma allocates_same s s' : procDescList s' = procDescList s → default_alloc_policy s' = default_alloc_policy s →
  default_swap_policy s' = default_swap_policy s → event s' = event s → allocates_uniq s → allocates_uniq s'.
Proof.
  intros Hp Ha Hw He (d & Hd & Hr). exists d. rewrite Hp, He. split; [done|]. by eapply resolve_same.
Qed.

(** An eviction and the attempt behind it. *)
Lemma evict_then_alloc s m n u p j sn dfr sc psl sl mp :
  evictable s m [] n u p j sn dfr sc psl sl → device_node s j sn → evict_succeeds s n p j sn →
  has_page mp s → allocates_uniq s → accepts_all →
  ∃ s' m' q, (usm_evict_fallback ≫= λ _, usmPolicyDefinedAlloc) s = Ok 0 s' ∧ pool s' m' [] (u ++ [n]) ∧
    paddr (event s') = pfn_of s n ∧ pagesList s' !! n = Some q ∧
    virtualAddress q = vaddr (event s) ∧ process q = origin (event s) ∧ data q = data p ∧
    backend (swap_device_one s') = <[sn_offset sn := data p]> (backend (swap_device_one s)).
Proof.
  intros H Hd Hs Hmp Hal Hacc.
  destruct (evict_to_swap s m [] n u p j sn dfr sc psl sl H Hd Hs)
    as (s1 & m1 & E & Hp1 & _ & _ & _ & _ & _ & Hpl & Hev & _ & Hb & Hum & _).
  destruct (evict_keeps _ _ _ _ _ _ _ _ _ _ _ _ _ H Hs E) as (K1 & K2 & K3 & K4 & K5 & K6).
  assert (has_page mp s1) as Hmp1 by (unfold has_page; by rewrite Hev).
  assert (0 ≤ usedMemory s1 < 2 ^ 64) as Hum1 by (rewrite Hum; by apply Z.mod_pos_bound).
  unfold usm_evict_fallback. run E. rewrite (alloc_dispatch s1) by (by eapply allocates_same).
  destruct (basic_alloc_uniq_ok s1 m1 n [] u mp Hp1 Hmp1 Hum1)
    as (r & s2 & m2 & mp2 & E2 & F & _ & Epa & _ & _ & Hcase).
  assert (pfn_of s1 n = pfn_of s n) as Epf by (unfold pfn_of; by rewrite Hb).
  destruct Hcase as [(-> & Hp2 & (p1 & Hp1n & Epl) & _)|(Hr & _)].
  - rewrite Hpl in Hp1n. rewrite (ev_page H) in Hp1n. injection Hp1n as <-.
    exists s2, m2, (page_process (origin (event s1)) (page_vaddr (vaddr (event s1)) p)).
    rewrite Hev in Epl |- *. rewrite Epl, Hpl, list_lookup_insert_eq by (eapply lookup_lt_Some, (ev_page H)).
    split; [exact E2|]. split; [exact Hp2|]. split; [congruence|]. split; [done|]. split; [done|]. split; [done|].
    split; [done|]. by rewrite (frame_device _ _ F).
  - destruct (alloc_accepted s1 m1 n [] u mp Hp1 Hmp1 Hacc) as [s3 E3]. congruence.
Qed.

(** C23: When the pool is full, a first-touch fault under the default policy is still
    served: the oldest used page is written to the swap file and its frame is
    given to the faulting address. The frame is not cleared on the way: the new
    owner sees the content of the evicted page. *)
Theorem full_pool_fault_evicts s m n u p j sn dfr sc psl sl mp :
  evictable s m [] n u p j sn dfr sc psl sl → device_node s j sn → evict_succeeds s n p j sn →
  has_page mp s → allocates_uniq s → accepts_all →
  Z.land (flags (event s)) UFFD_PAGEFAULT_FLAG_SWAP = 0 →
  ∃ s' m' q, handle_alloc s = Ok 0 s' ∧ pool s' m' [] (u ++ [n]) ∧
    paddr (event s') = pfn_of s n ∧ pagesList s' !! n = Some q ∧
    virtualAddress q = vaddr (event s) ∧ process q = origin (event s) ∧ data q = data p ∧
    backend (swap_device_one s') !! sn_offset sn = Some (data p).
Proof.
  intros H Hd Hs Hmp Hal Hacc Hfl. rewrite handle_alloc_unfold. unfold handle_alloc_once, first_attempt.
  rewrite bind_assoc. unfold get_event at 1. rewrite gets_bind, Hfl. cbn [negb Z.eqb].
  rewrite (bind_ok _ _ s 1 s) by (rewrite alloc_dispatch by done; apply (basic_alloc_uniq_empty s m (n :: u)), (ev_pool H)).
  cbn [negb Z.eqb].
  destruct (evict_then_alloc s m n u p j sn dfr sc psl sl mp H Hd Hs Hmp Hal Hacc)
    as (s' & m' & q & E & Hp & H1 & H2 & H3 & H4 & H5 & H6).
  exists s', m', q. rewrite H6, lookup_insert_eq. split_and!; done.
Qed.

(** ** Faults on swapped pages *)

Lemma trySwapCache_empty s m : lists (links s) m → m !! ProcSwapCache (origin (event s)) = Some [] →
  trySwapCache s = Ok 0 s.
Proof.
  intros Hl Hc. unfold trySwapCache, get_event. rewrite gets_bind.
  assert (list_is_empty (ProcSwapCache (origin (event s))) s = Ok true s) as E.
  { unfold list_is_empty, reads. by rewrite (lists_empty _ _ _ _ Hl Hc). }
  by run E.
Qed.

Lemma pick_pages_empty s m u ph : pool s m [] u → pick_pages ph 1 s = Ok 0 s.
Proof.
  intros Hp. unfold pick_pages. change (S (Z.to_nat 1)) with 2%nat.
  assert (loop 2 (pick_body ph) 1 s = Ok 1 s) as E; [|by run E].
  rewrite loop_S. unfold pick_body at 2. cbn [Z.ltb Z.compare Pos.compare Pos.compare_cont negb].
  rewrite bind_assoc. by run (pool_is_empty _ _ _ _ Hp).
Qed.

(** No page is left for a swap-in. *)
Lemma swap_in_full s m u t v j sn : pool s m [] u → toSwaps s !! t = Some v → snode v = Some j →
  swap_nodes (swap_device_one s) !! j = Some sn → file_ok (clock s) = true →
  swap_in t s = Ok 1 (set_clock (S (clock s)) s).
Proof.
  intros Hp Ht Hj Hn Hio. unfold swap_in.
  rewrite (to_swap_at_bind _ _ _ _ Ht), Hj, deref_bind, (swap_node_at_bind _ _ _ _ Hn), file_call_bind, Hio. cbn [negb].
  set (s1 := set_clock (S (clock s)) s).
  destruct (new_head_ok s1 m [] u Hp) as (h1 & E1 & E1' & Hp1 & D1 & Hph). run E1.
  rewrite (list_op_bind _ _ (set_links _ s1) h1 E1'). rewrite set_links_set_links.
  set (ph := Local _) in *. run (pick_pages_empty (set_links h1 s1) _ u ph Hp1). cbn [Z.eqb].
  unfold drop_list_head. rewrite modify_bind. unfold mret, M_ret. f_equal.
  assert (delete ph h1 = links s1) as Hl; [|by cbn; rewrite Hl; destruct s].
  unfold INIT_LIST_HEAD, set_next, set_prev in E1'. rewrite lookup_insert_eq in E1'. cbn in E1'.
  rewrite lookup_insert_eq in E1'. cbn in E1'. injection E1' as <-.
  rewrite !delete_insert_eq. apply delete_id, not_elem_of_dom, fresh_local_not_in.
Qed.

(** The process of the event swaps in with usm_basic_swap_policy, the default. *)
Definition swaps_basic (s : usm) : Prop :=
  ∃ d, procDescList s !! origin (event s) = Some d ∧ resolve (swap_policy d) s = Ok usm_basic_swap_policy_p s.

Lemma swap_dispatch_fails s s' : swaps_basic s → swaps_basic s' → basic_swap s = Ok 1 s' →
  usmPolicyDefinedSwapIn s = Ok 1 s'.
Proof.
  intros (d & Hd & Hr) (d' & Hd' & Hr') E. unfold usmPolicyDefinedSwapIn, get_event. rewrite gets_bind.
  rewrite (procDesc_at_bind _ _ s d Hd). run Hr. cbn [call_alloc]. run E. cbn [negb Z.eqb].
  rewrite gets_bind, (procDesc_at_bind _ _ s' d' Hd'). by run Hr'.
Qed.

(** C35: A fault on a swapped-out page that arrives while the pool is full is answered
    with the wrong content. The swap-in finds no page and fails; the handler then
    evicts the oldest page and, instead of swapping in again, allocates its frame
    to the fault as if the address had never been written: the process sees the
    content of the evicted page, while its own stays in the swap file. *)
Theorem swap_fault_full_pool_loses_content s m n u p j sn dfr sc psl sl mp t c entry :
  evictable s m [] n u p j sn dfr sc psl sl → device_node s j sn →
  evict_succeeds (set_clock (S (clock s)) s) n p j sn →
  has_page mp s → allocates_uniq s → swaps_basic s → accepts_all → file_ok (clock s) = true →
  Z.land (flags (event s)) UFFD_PAGEFAULT_FLAG_SWAP ≠ 0 → m !! ProcSwapCache (origin (event s)) = Some [] →
  swapped_out s m t (vaddr (event s)) (origin (event s)) c entry → offst (event s) = entry_offst entry →
  ∃ s' q, handle_alloc s = Ok 0 s' ∧ paddr (event s') = pfn_of s n ∧ pagesList s' !! n = Some q ∧
    virtualAddress q = vaddr (event s) ∧ process q = origin (event s) ∧ data q = data p ∧
    ∃ k, toSwapHolder <$> (swap_nodes (swap_device_one s) !! k) = Some (Some t) ∧
      backend (swap_device_one s') !! (Z.of_nat k * 4096) = Some c.
Proof.
  intros H Hd Hs Hmp Hal Hsw Hacc Hio Hfl Hcache Hso Hoff. rewrite handle_alloc_unfold.
  unfold handle_alloc_once, first_attempt. rewrite bind_assoc. unfold get_event at 1. rewrite gets_bind.
  rewrite (proj2 (Z.eqb_neq _ _) Hfl). cbn [negb]. rewrite bind_assoc.
  pose proof (ev_pool H) as Hp. run (trySwapCache_empty s m (pool_lists Hp) Hcache). cbn [Z.eqb].
  set (s1 := set_clock (S (clock s)) s).
  assert (usmPolicyDefinedSwapIn s = Ok 1 s1) as Esw.
  { apply swap_dispatch_fails; [done| |].
    { destruct Hsw as (d & Hd0 & Hr). exists d. split; [exact Hd0|]. by apply (resolve_same _ s). }
    unfold basic_swap.
    run (event_to_swap_entry_ok s m t _ _ c entry Hso Hoff). rewrite deref_bind.
    destruct Hso as (k & pg & rt & Ht & Hn & _).
    by run (swap_in_full s m (n :: u) t _ k _ Hp Ht eq_refl Hn Hio). }
  run Esw. cbn [negb Z.eqb].
  assert (evictable s1 m [] n u p j sn dfr sc psl sl) as H1 by (by destruct H).
  destruct (evict_then_alloc s1 m n u p j sn dfr sc psl sl mp H1 Hd Hs Hmp
    (allocates_same s s1 eq_refl eq_refl eq_refl eq_refl Hal) Hacc)
    as (s' & m' & q & E & Hp' & H2 & H3 & H4 & H5 & H6 & H7).
  exists s', q. split; [exact E|]. split; [exact H2|]. split; [done|]. split; [done|]. split; [done|]. split; [done|].
  destruct Hso as (k & pg & rt & Ht & Hn & Hc & _ & _ & _ & _ & Hu). exists k. rewrite Hn. split; [done|].
  assert (k ≠ j) as Hne by (intros ->; apply (Hu _ _ (ev_device H)); set_solver).
  rewrite H7, lookup_insert_ne; [exact Hc|]. rewrite (proj1 Hd). lia.
Qed.
End handler.

(** * Workers and threads *)

Lemma walk_workers_ok (workers : list usm_worker) id k :
  walk_workers workers id k =
  if decide (0 ≤ id < Z.of_nat (base.length workers)) then (Some (k + Z.to_nat id)%nat, -1)
  else (None, id - Z.of_nat (base.length workers)).
Proof.
  revert id k. induction workers as [|w workers IH]; intros id k; cbn [walk_workers base.length].
  - rewrite decide_False by lia. f_equal. lia.
  - destruct (Z.eqb_spec id 0) as [->|Hne].
    + rewrite decide_True by lia. by rewrite Nat.add_0_r.
    + rewrite IH. destruct (decide (0 ≤ id - 1 < Z.of_nat (base.length workers))).
      * rewrite decide_True by lia. f_equal. f_equal. lia.
      * rewrite decide_False by lia. f_equal. lia.
Qed.

(** The function gives the worker with number 0, aborts for every other number of an
    existing worker, and gives the null pointer for the number of workers. *)
Lemma usmChooseWorker_ok d id :
  usmChooseWorker id d =
  if id =? 0 then Ok (Some O) d
  else if id =? Z.of_nat (base.length (usmMemWorkers d)) then Ok None d else Abort.
Proof.
  unfold usmChooseWorker. rewrite gets_bind. destruct (Z.eqb_spec id 0) as [->|Hne]; [done|].
  rewrite walk_workers_ok. destruct (decide _) as [Hr|Hr]; cbn [negb Z.eqb].
  - rewrite (proj2 (Z.eqb_neq _ _)) by lia. done.
  - destruct (Z.eqb_spec id (Z.of_nat (base.length (usmMemWorkers d)))) as [->|Hn].
    + by rewrite Z.sub_diag.
    + by rewrite (proj2 (Z.eqb_neq _ _)) by lia.
Qed.

Section threads.
Context `{K : Kernel} `{SE : SubmitEvt} `{TM : ThreadMap}.

Lemma on_core_bind {A B} (c : M usm A) (k : A → M daemon B) d a s :
  c (core d) = Ok a s → (on_core c ≫= k) d = k a (set_core s d).
Proof. intros H. unfold on_core. by run (on_ok core set_core c d a s H). Qed.

Lemma set_core_id d : set_core (core d) d = d.
Proof. by destruct d. Qed.

(** A computation that only reads the core. *)
Lemma on_core_read {A B} (c : M usm A) (k : A → M daemon B) d a :
  c (core d) = Ok a (core d) → (on_core c ≫= k) d = k a d.
Proof. intros H. by rewrite (on_core_bind _ _ _ _ _ H), set_core_id. Qed.

Lemma load_shared m w off v s : has_page m s → load w off m = Some v → usm_load w off s = Ok v s.
Proof. intros [Hm _] Hl. unfold usm_load, reads. rewrite Hm. cbn. by rewrite Hl. Qed.

Lemma store_shared m w off v s : has_page m s → 0 ≤ off → off + Z.of_nat w ≤ 4096 →
  ∃ m', store w off v m = Some m' ∧ valid_page m' ∧ usm_store w off v s = Ok tt (set_page m' s).
Proof.
  intros [Hm Hv] H0 H1. destruct (store_valid m Hv w off v H0 H1) as (m' & E & Hv'). exists m'.
  split; [done|]. split; [done|]. unfold usm_store, updates. rewrite Hm. cbn. by rewrite E.
Qed.

(** The channel that a new thread gets. *)
Definition thread_channel (org : Z) (m : list Z) (c : usm_channel) : usm_channel :=
  UsmChannel (usm_cnl_id c) (fd c) RAM_BASED usm_cnl_mem_ops_p
    (with_usmmem (Some m) (with_type ALLOC (with_origin org (cnl_event c)))) usm_handle_mem_p.

Lemma createUSMMemChannel_ok d w worker m u c : has_page m (core d) → load 4 4092 m = Some u →
  usmMemWorkers d !! w = Some worker → usm_channels worker !! Z.to_nat u = Some c →
  ∃ m' org, load 4 0 m = Some org ∧ store 4 4 0 m = Some m' ∧
    createUSMMemChannel w d = Ok tt (set_unmapped (unmapped d ++ option_list (usmmem (cnl_event c))) (set_workers
      (<[w := UsmWorker (worker_id worker) (com worker) (worker_state worker)
               (<[Z.to_nat u := thread_channel (s32 org) m' c]> (usm_channels worker))]> (usmMemWorkers d))
      (set_uthreads (uthreads d ++ [(usm_cnl_id c, u)]) (set_core (set_page m' (core d)) d)))).
Proof.
  intros Hm Hu Hw Hc. unfold createUSMMemChannel.
  assert (∃ org, load 4 0 m = Some org) as [org Horg].
  { unfold load. rewrite decide_True; [by eexists|]. destruct Hm as [_ [-> _]]. lia. }
  destruct (store_shared m 4 4 0 (core d) Hm) as (m' & Es & Hv & E); [lia|cbn; lia|].
  exists m', org. split; [done|]. split; [done|].
  rewrite (on_core_read _ _ d _ (load_shared m 4 4092 u _ Hm Hu)).
  rewrite (reads_bind _ _ _ worker) by exact Hw. rewrite (reads_bind _ _ _ c) by exact Hc.
  rewrite (on_core_read _ _ _ _ (load_shared m 4 0 org _ Hm Horg)).
  rewrite (on_core_read (gets _) _ _ (Some m)) by (unfold gets; by rewrite (proj1 Hm)).
  rewrite modify_bind. rewrite (on_core_bind _ _ _ tt (set_page m' (core d))) by exact E.
  rewrite (on_core_read (gets _) _ _ (Some m')) by done. reflexivity.
Qed.

(** Without UTHREAD the event of the channel keeps the origin that it had, 0 in a new worker,
    and not the descriptor of the process that the page names. *)
Lemma createUSMMemChannel_plain_ok d w worker m u c : has_page m (core d) → load 4 4092 m = Some u →
  usmMemWorkers d !! w = Some worker → usm_channels worker !! Z.to_nat u = Some c →
  ∃ m' d', store 4 4 0 m = Some m' ∧ createUSMMemChannel_plain w d = Ok tt d' ∧ uthreads d' = uthreads d ∧
    ∃ c', usmMemWorkers d' = <[w := UsmWorker (worker_id worker) (com worker) (worker_state worker) (<[Z.to_nat u := c']> (usm_channels worker))]> (usmMemWorkers d) ∧
      usmmem (cnl_event c') = Some m' ∧ usm_cnl_type c' = RAM_BASED ∧ usm_handle_evt c' = usm_handle_mem_p ∧
      origin (cnl_event c') = origin (cnl_event c) ∧ type (cnl_event c') = type (cnl_event c).
Proof.
  intros Hm Hu Hw Hc. unfold createUSMMemChannel_plain.
  destruct (store_shared m 4 4 0 (core d) Hm) as (m' & Es & Hv & E); [lia|cbn; lia|].
  rewrite (on_core_read _ _ d _ (load_shared m 4 4092 u _ Hm Hu)).
  rewrite (reads_bind _ _ _ worker) by exact Hw. rewrite (reads_bind _ _ _ c) by exact Hc.
  rewrite (on_core_bind _ _ _ tt (set_page m' (core d))) by exact E.
  rewrite (on_core_read (gets _) _ _ (Some m')) by done.
  eexists m', _. split; [done|]. split; [reflexivity|]. split; [done|]. eexists. by split; [reflexivity|].
Qed.

Lemma s32_small x : 0 ≤ x < 2 ^ 31 → s32 (x `mod` 2 ^ (8 * Z.of_nat 4)) = x.
Proof.
  intros Hx. change (8 * Z.of_nat 4) with 32. unfold s32, u32. rewrite !(Z.mod_small x) by lia.
  by rewrite (proj2 (Z.ltb_lt _ _)) by lia.
Qed.

(** C32: A NEW_THREAD event for which the kernel maps a page and names the manager 0
    installs a channel for the thread in the slot that the page names: it is of the
    RAM type with the handler usm_handle_mem, its event carries the descriptor of
    the process and the page, whose status word is cleared, a uthread is
    created for it, and the page that the slot had before, if any, is unmapped. When the kernel names any other manager the daemon aborts or
    uses a null pointer, although the manager may exist; and a mapping that failed
    is read before it is tested. *)
Theorem new_thread_channel d page r u worker c :
  0 ≤ origin (event (core d)) < 2 ^ 31 → valid_page page →
  load 4 4000 page = Some r → load 4 4092 page = Some u →
  usmMemWorkers d !! O = Some worker → usm_channels worker !! Z.to_nat u = Some c →
  (mmap_thread (clock (core d)) (origin (event (core d))) = inr page →
   if s32 r =? 0 then
     ∃ d' m', handle_new_thread d = Ok 0 d' ∧
       channel_at 0 (Z.to_nat u) d' = Ok (thread_channel (origin (event (core d))) m' c) d' ∧
       load 4 status_off m' = Some 0 ∧ uthreads d' = uthreads d ++ [(usm_cnl_id c, u)] ∧
       unmapped d' = unmapped d ++ option_list (usmmem (cnl_event c))
   else handle_new_thread d = Abort ∨ handle_new_thread d = Undef) ∧
  (∀ errno, mmap_thread (clock (core d)) (origin (event (core d))) = inl errno → handle_new_thread d = Undef).
Proof.
  intros Horg Hv Hr Hu Hw Hc.
  split; [intros Hmap|intros errno Hmap]; unfold handle_new_thread, welcome_thread;
    rewrite (on_core_read _ _ d (event (core d))) by done;
    rewrite (on_core_bind tick _ d (clock (core d)) (set_clock (S (clock (core d))) (core d))) by done;
    rewrite Hmap; [|done].
  set (s1 := set_event (with_usmmem (Some page) (event (core d))) (set_clock (S (clock (core d))) (core d))).
  rewrite (on_core_bind _ _ _ tt s1) by done.
  assert (has_page page s1) as Hp1 by done.
  set (d1 := set_core s1 _).
  rewrite (on_core_read _ _ d1 _ (load_shared page 4 4000 r s1 Hp1 Hr)).
  destruct (store_shared page 4 0 (origin (event (core d))) s1 Hp1) as (m1 & E1 & V1 & St1); [lia|cbn; lia|].
  rewrite (on_core_read get_event _ d1 (event s1)) by done. change (origin (event s1)) with (origin (event (core d))).
  rewrite (on_core_bind _ _ d1 tt _ St1).
  assert (has_page m1 (set_page m1 s1)) as Hp2 by done.
  destruct (store_shared m1 4 (sizeof_int * 2 + sizeof_long * 3) 0 _ Hp2) as (m2 & E2 & V2 & St2);
    [unfold sizeof_int, sizeof_long; lia|unfold sizeof_int, sizeof_long; cbn; lia|].
  rewrite (on_core_bind _ _ (set_core (set_page m1 s1) d1) tt _ St2). set (d2 := set_core _ (set_core _ d1)).
  pose proof (usmChooseWorker_ok d2 (s32 r)) as Ech. destruct (s32 r =? 0).
  - run Ech. assert (load 4 4092 m2 = Some u) as Hu2.
    { rewrite (load_store_other _ _ _ _ _ _ _ E2), (load_store_other _ _ _ _ _ _ _ E1); [done|..];
        right; unfold sizeof_int, sizeof_long; cbn; lia. }
    destruct (createUSMMemChannel_ok d2 0 worker m2 u c) as (m3 & org & Ho & E3 & E); [done..|].
    run E. assert (s32 org = origin (event (core d))) as Eorg.
    { rewrite (load_store_other _ _ _ _ _ _ _ E2), (load_store_same _ _ _ _ _ E1) in Ho;
        [|left; unfold sizeof_int, sizeof_long; cbn; lia]. injection Ho as <-. by apply s32_small. }
    rewrite Eorg. eexists _, m3. split; [done|]. split; [|split; [|done]].
    + unfold channel_at, reads. cbn. rewrite list_lookup_insert_eq by (by eapply lookup_lt_Some).
      cbn. by rewrite list_lookup_insert_eq by (by eapply lookup_lt_Some).
    + exact (load_store_same _ _ _ _ _ E3).
  - destruct (s32 r =? Z.of_nat (base.length (usmMemWorkers d2))); [right; by run Ech|].
    left. unfold mbind, M_bind. by rewrite Ech.
Qed.
End threads.

(** * Processes *)
Section processes.
Context `{K : Kernel} `{SE : SubmitEvt} `{TM : ThreadMap}.

Lemma update_procDesc_ok p f s d : procDescList s !! p = Some d →
  update_procDesc p f s = Ok tt (set_procDescList (<[p := f d]> (procDescList s)) s).
Proof. intros H. unfold update_procDesc, updates. by rewrite H. Qed.

(** A process without a link gets the priority 0 and nothing else. *)
Lemma setup_unlinked d desc g : link_table (usm_process_linking d) g →
  procDescList (core d) !! origin (event (core d)) = Some desc →
  (∀ n, procName (event (core d)) = Some n → g !! n = None) →
  usmSetupProcess d = Ok tt (set_core (set_procDescList
    (<[origin (event (core d)) := set_prio 0 desc]> (procDescList (core d))) (core d)) d).
Proof.
  intros Hg Hd Hn. unfold usmSetupProcess. rewrite (on_core_read _ _ d (event (core d))) by done.
  rewrite (on_core_bind _ _ d tt _ (update_procDesc_ok _ _ _ _ Hd)). set (d1 := set_core _ d).
  destruct (procName (event (core d))) as [n|]; [|done].
  run (get_link_ok d1 g n Hg). by rewrite Hn.
Qed.

(** When a process dies its thread only marks the descriptor dead: the event that
    would reset it is never handled. A later process that gets the same number, and
    for which the configuration has no link, therefore runs with the policies and
    the counters of the dead one. *)
Theorem reused_descriptor_keeps_policy d g desc id res rev name c :
  link_table (usm_process_linking d) g → procDescList (core d) !! id = Some desc →
  origin (event (core d)) = id →
  poll (clock (core d)) id (Z.lor POLLIN POLLPRI) = (res, rev) → res < 0 ∨ (0 < res ∧ rev ≠ POLLIN ∧ rev ≠ POLLPRI) →
  (∀ n, name = Some n → g !! n = None) → malloc_channel (S (clock (core d))) = Some c →
  let e := with_type NEW_PROC (with_origin id (with_procName name (event (core d)))) in
  ∃ d1 d2, handle_fd_round id d = Ok (inr tt) d1 ∧
    procDescList (core d1) !! id = Some (set_prio (-1) desc) ∧
    usm_handle_events (set_core (set_event e (core d1)) d1) = Ok 0 d2 ∧
    procDescList (core d2) !! id = Some (set_prio 0 desc).
Proof.
  intros Hg Hd Ho Hpoll Hdead Hname Hc e.
  set (s1 := set_clock (S (clock (core d))) (core d)).
  assert (∃ v, usm_poll_check id (core d) = Ok v s1 ∧ v < 0) as (v & Ev & Hv).
  { unfold usm_poll_check, tick. unfold mbind, M_bind. rewrite Hpoll.
    destruct (Z.leb_spec res 0); [exists res; split; [done|lia]|].
    destruct Hdead as [|(_ & H1 & H2)]; [lia|]. rewrite (proj2 (Z.eqb_neq _ _) H1), (proj2 (Z.eqb_neq _ _) H2).
    exists (-1). split; [done|lia]. }
  set (s2 := set_event (with_type PROC_DTH (event s1)) s1).
  set (s3 := set_procDescList (<[id := set_prio (-1) desc]> (procDescList s2)) s2).
  assert (handle_fd_round id d = Ok (inr tt) (set_core s3 d)) as E1.
  { unfold handle_fd_round. rewrite (on_core_bind _ _ d v s1 Ev).
    rewrite (proj2 (Z.eqb_neq _ _)), (proj2 (Z.ltb_ge _ _)) by lia.
    rewrite (on_core_bind _ _ _ tt s2) by done. rewrite (on_core_read _ _ _ (event s2)) by done.
    change (origin (event s2)) with (origin (event (core d))). rewrite Ho.
    rewrite (on_core_bind _ _ _ tt s3); [done|]. by apply update_procDesc_ok. }
  exists (set_core s3 d). set (d1 := set_core (set_event e s3) (set_core s3 d)).
  assert (procDescList (core d1) !! origin (event (core d1)) = Some (set_prio (-1) desc)) as Hd1
    by (cbn; by rewrite lookup_insert_eq).
  pose proof (setup_unlinked d1 _ g Hg Hd1 Hname) as Es.
  eexists. split; [exact E1|]. split; [cbn; by rewrite lookup_insert_eq|]. split.
  - unfold usm_handle_events. rewrite (on_core_read _ _ _ (event (core d1))) by done.
    change (type (event (core d1))) with NEW_PROC. cbv iota. rewrite bind_assoc.
    change (set_core (set_event e (core (set_core s3 d))) (set_core s3 d)) with d1. run Es.
    rewrite bind_assoc. unfold createUSMChannel. rewrite bind_assoc. cbn [try_channel]. rewrite bind_assoc.
    rewrite (on_core_bind tick _ _ (S (clock (core d))) (set_clock (S (S (clock (core d)))) _)) by done.
    rewrite Hc. reflexivity.
  - cbn. by rewrite lookup_insert_eq.
Qed.
End processes.

(** * Witnesses

    The daemon of [demo_swap] with the default policies of examples/project-2,
    after faults of process 1 at 0x8000, ..., and at a last fault of it, on an
    address that was or was not swapped out. *)
Definition demo_at (vas : list Z) (flags : Z) (s : usm) : usm :=
  let alloc s va := match handle (SE := accepting) (Alloc va 1) s with Ok _ s => s | _ => s end in
  set_event (UsmEvent ALLOC None 0x7000 0 0 (entry_offst (swap_entry 4096 1)) flags 1 (Some blank_page))
    (set_default_swap_policy usm_basic_swap_policy_p
      (set_default_alloc_policy alloc_policy_one_p (foldl alloc s vas))).
Definition demo_full : usm := demo_at [0x8000; 0x9000] 0 demo_swap.

(** Its lists, with the lists of swapped pages and of free swap nodes as given. *)
Definition demo_lists (psl sl dfr : list loc) : list (loc * list loc) :=
  [(FreeList, []); (UsedList, NodeIulist <$> [0; 1; 2]%nat); (SwapList, sl); (ProcSwapCache 1, []);
   (ProcSwapList 1, psl); (DevFreeList, dfr)].

Lemma full_pool_fault_evicts_witness : ∃ s',
  handle_alloc (K := reply_kernel 3) (SE := accepting) demo_full = Ok 0 s' ∧ paddr (event s') = 3.
Proof.
  destruct (check_evictable_ok demo_full (demo_lists [] [] [SnodeIulist 1; SnodeIulist 0]) [] 0 [1; 2] 1)%nat
    as (p & sn & dfr & sc & psl & sl & H & Hd); [vm_compute; reflexivity|].
  destruct (full_pool_fault_evicts (K := reply_kernel 3) (SE := accepting) demo_full _ _ _ _ _ _ _ _ _ _ blank_page H Hd)
    as (s' & _ & _ & E & _ & Hpa & _).
  - split_and!; reflexivity.
  - split; [reflexivity|apply blank_page_valid].
  - exists new_process. split; [vm_compute|]; reflexivity.
  - apply accepting_accepts.
  - reflexivity.
  - exists s'. split; [exact E|]. rewrite Hpa. vm_compute. reflexivity.
Defined.

(** Page 0 evicted to swap node 1, and the pool full again. *)
Definition demo_lost : usm :=
  match handle_evict_request (K := reply_kernel 3) demo_swap with
  | Ok _ s => demo_at [0x8000; 0x9000; 0xa000] UFFD_PAGEFAULT_FLAG_SWAP s
  | _ => demo_swap
  end.

Lemma swap_fault_full_pool_loses_content_witness : ∃ s' q,
  handle_alloc (K := reply_kernel 3) (SE := accepting) demo_lost = Ok 0 s' ∧
  pagesList s' !! 0%nat = Some q ∧ virtualAddress q = 0x7000.
Proof.
  set (al := demo_lists [ToSwapIulist 0] [ToSwapGloblist 0] [SnodeIulist 0]).
  destruct (check_evictable_ok demo_lost al [] 0 [1; 2] 0)%nat
    as (p & sn & dfr & sc & psl & sl & H & Hd); [vm_compute; reflexivity|].
  destruct (swap_fault_full_pool_loses_content (K := reply_kernel 3) (SE := accepting) demo_lost _ _ _ _ _ _ _ _ _ _
    blank_page 0 (replicate 4096 0) (swap_entry 4096 1) H Hd) as (s' & q & E & _ & Hq & Hva & _).
  - split_and!; reflexivity.
  - split; [reflexivity|apply blank_page_valid].
  - exists new_process. split; [vm_compute|]; reflexivity.
  - exists new_process. split; [vm_compute|]; reflexivity.
  - apply accepting_accepts.
  - reflexivity.
  - vm_compute. discriminate.
  - reflexivity.
  - exists 1%nat, (Some 0%nat), 0. repeat (split; [vm_compute; reflexivity|]).
    split; [vm_compute; split; [discriminate|reflexivity]|].
    split; [apply elem_of_dom; vm_compute; by eexists|]. apply unlinked_family.
    apply (bool_decide_unpack _). vm_compute. exact I.
  - reflexivity.
  - exists s', q. split; [exact E|]. split; [exact Hq|exact Hva].
Defined.

(** A system that maps [page] for every thread. *)
Definition maps_page (page : list Z) : ThreadMap :=
  {| mmap_thread _ _ := inr page; malloc_channel _ := Some static_channel |}.

Lemma new_thread_channel_witness : ∃ d',
  handle_new_thread (TM := maps_page blank_page) static_daemon = Ok 0 d' ∧ uthreads d' = [(0, 0)].
Proof.
  destruct (new_thread_channel (TM := maps_page blank_page) static_daemon blank_page 0 0 static_worker static_channel)
    as [Hok _].
  - split; reflexivity || discriminate.
  - apply blank_page_valid.
  - vm_compute. reflexivity.
  - vm_compute. reflexivity.
  - reflexivity.
  - reflexivity.
  - destruct (Hok eq_refl) as (d' & m' & E & _ & _ & Hu & _). exists d'. split; [exact E|exact Hu].
Defined.

(** A kernel in which every polled process hangs up. *)
Definition hangup_kernel : Kernel := {|
  kernel_page _ m := m;
  ioctl_palloc _ _ _ u _ := (1, 0, u);
  ioctl_continue _ _ _ _ := 0;
  read_uffd _ _ := inr UFFD_EVENT_OTHER;
  read_freed _ := inl 0;
  read_new_proc _ := (-1, EmptyString, 0);
  poll _ _ _ := (1, 0x10);
  file_ok _ := true;
  malloc_value _ := 0;
  kernel_page_valid _ _ H := H;
|}.

(** A daemon in which process 0 was bound to the policy one. *)
Definition bound_daemon : daemon :=
  set_core (set_procDescList {[0 := set_alloc_policy alloc_policy_one_p new_process]} static_state) static_daemon.

Lemma reused_descriptor_keeps_policy_witness : ∃ d1 d2 e desc,
  handle_fd_round (K := hangup_kernel) (SE := accepting) (TM := maps_page blank_page) 0 bound_daemon = Ok (inr tt) d1 ∧
  usm_handle_events (K := hangup_kernel) (SE := accepting) (TM := maps_page blank_page)
    (set_core (set_event e (core d1)) d1) = Ok 0 d2 ∧
  procDescList (core d2) !! 0 = Some desc ∧ alloc_policy desc = alloc_policy_one_p.
Proof.
  destruct (reused_descriptor_keeps_policy (K := hangup_kernel) (SE := accepting) (TM := maps_page blank_page)
    bound_daemon ∅ (set_alloc_policy alloc_policy_one_p new_process) 0 1 0x10 (Some "stressapptest") static_channel)
    as (d1 & d2 & E1 & _ & E2 & H).
  - apply static_links.
  - reflexivity.
  - reflexivity.
  - reflexivity.
  - right. split_and!; reflexivity || discriminate.
  - reflexivity.
  - reflexivity.
  - exists d1, d2, (with_type NEW_PROC (with_origin 0 (with_procName (Some "stressapptest") (event (core bound_daemon))))),
      (set_prio 0 (set_alloc_policy alloc_policy_one_p new_process)).
    split; [exact E1|]. split; [exact E2|]. split; [exact H|reflexivity].
Defined.
