(* ===== verification/Sched.v ===== *)
(** The scheduler of the daemon (impl/usm/sched.c): every worker has a virtual CPU
    whose main context dispatches the pending events of the worker's bit field to
    user threads, one per channel. [setSched] is the worker that the main thread
    becomes, [soldiers] are the workers that are created later. The model is of
    the build with UTHREAD and without UINTR and IUTHREAD. *)
From stdpp Require Import prelude gmap.
From S2P Require Import Prelude Lists State Channel PagePool Init AllocPolicies PoolSpec Swap Eviction Hashes HashMap Daemon Config Events.

Open Scope Z_scope.

(** * Bit fields *)

(** [ffs(x)]: one more than the position of the lowest set bit, 0 for 0. *)
Fixpoint ffs_from (k : nat) (i x : Z) : Z :=
  match k with
  | O => 0
  | S k => if Z.testbit x i then i + 1 else ffs_from k (i + 1) x
  end.
Definition ffs (x : Z) : Z := ffs_from 32 0 x.

(** [x & ~((unsigned int)1 << id)] *)
Definition clear_bit (x id : Z) : Z := Z.land x (u32 (Z.lnot (u32 (Z.shiftl 1 id)))).

(** * User threads and virtual CPUs *)

(** The place where a user thread goes on when it is swapped in: the beginning of
    usm_mem_worker_handler_singular, a point inside of the handler of its channel
    where usm_yield or scheduler_handler swapped it off, or one of the two
    swapcontext calls of usm_mem_worker_handler_singular. *)
Inductive ucontext := Entry | InHandler | AfterEvent | AfterDeath.

Record uthread_t := Uthread { ut_id : Z; ut_state : Z; ioctl_fd : Z; task : ucontext }.
Definition static_uthread : uthread_t := Uthread 0 0 0 Entry.

Definition set_ut_state v t := Uthread (ut_id t) v (ioctl_fd t) (task t).
Definition set_task v t := Uthread (ut_id t) (ut_state t) (ioctl_fd t) v.
Definition set_ioctl_fd v t := Uthread (ut_id t) (ut_state t) v (task t).

Record vcpu_t := Vcpu { thread : Z; uthreads : list uthread_t; current_uthread : option nat; tempEvents : Z }.

Definition set_thread v c := Vcpu v (uthreads c) (current_uthread c) (tempEvents c).
Definition set_uthreads v c := Vcpu (thread c) v (current_uthread c) (tempEvents c).
Definition set_current v c := Vcpu (thread c) (uthreads c) v (tempEvents c).
Definition set_tempEvents v c := Vcpu (thread c) (uthreads c) (current_uthread c) v.

(** The index of the virtual CPU of a thread; [nb_vcpus] when it has none. *)
Definition get_vcpu_id (vcpu_list : list vcpu_t) (nb_vcpus : nat) (self : Z) : nat :=
  let fix go (l : list vcpu_t) (k i : nat) : nat :=
    match k, l with
    | S k, c :: l => if thread c =? self then i else go l k (S i)
    | _, _ => i
    end in
  go vcpu_list nb_vcpus O.

(** The test of usm_yield and of scheduler_handler: events other than the current one
    are pending. *)
Definition todo (c : vcpu_t) : option Z :=
  k ← current_uthread c; t ← uthreads c !! k; Some (clear_bit (tempEvents c) (ut_id t)).

(** * The worker

    [W] is what the user threads work on. [com_word] reads the bit field that the
    kernel shares with the worker; [await_channel] waits until another thread has
    registered the channel; [run_handler more id] runs the handler of channel [id]
    from its beginning, or from where it was swapped off, to its return or to a
    yield, at which it is swapped off if [more] events are pending; [pause] is the
    system call. *)
Inductive slice := Swapped | Returned (ret : Z).

Class Machine (W : Type) := {
  com_word : M W Z;
  await_channel : Z → M W unit;
  run_handler : bool → Z → M W slice;
  pause : M W unit;
}.

Record worker (W : Type) := Worker { vcpu : vcpu_t; rounds : Z; awake : bool; world : W }.
Global Arguments Worker {W} _ _ _ _.
Global Arguments vcpu {W} _.
Global Arguments rounds {W} _.
Global Arguments awake {W} _.
Global Arguments world {W} _.

Section scheduler.
Context {W : Type} `{MC : Machine W}.

Definition set_vcpu v (s : worker W) := Worker v (rounds s) (awake s) (world s).
Definition set_rounds v (s : worker W) := Worker (vcpu s) v (awake s) (world s).
Definition set_awake v (s : worker W) := Worker (vcpu s) (rounds s) v (world s).
Definition set_world (v : W) (s : worker W) := Worker (vcpu s) (rounds s) (awake s) v.

Definition on_world {A} (c : M W A) : M (worker W) A := λ s,
  match c (world s) with
  | Ok a w => Ok a (set_world w s)
  | Undef => Undef
  | Abort => Abort
  | OutOfFuel => OutOfFuel
  end.

Definition update_vcpu (f : vcpu_t → vcpu_t) : M (worker W) unit := modify (λ s, set_vcpu (f (vcpu s)) s).
Definition uthread_at (id : nat) : M (worker W) uthread_t := reads (λ s, uthreads (vcpu s) !! id).
Definition update_uthread (id : nat) (f : uthread_t → uthread_t) : M (worker W) unit :=
  updates (λ s, t ← uthreads (vcpu s) !! id;
    Some (set_vcpu (set_uthreads (<[id := f t]> (uthreads (vcpu s))) (vcpu s)) s)).

(** ** usm_mem_worker_handler_singular

    The code that user thread [id] runs between a swap from the main context to it
    and the swap back. *)
Definition usm_mem_worker_handler_singular (id : nat) : M (worker W) unit :=
  t ← uthread_at id;
  _ ← match task t with
      | Entry =>
          _ ← update_uthread id (set_ut_state 1);
          on_world (await_channel (Z.of_nat id))
      | AfterDeath => on_world (await_channel (Z.of_nat id))
      | InHandler | AfterEvent => mret tt
      end;
  more ← reads (λ s, todo (vcpu s));
  e ← on_world (run_handler (negb (more =? 0)) (Z.of_nat id));
  match e with
  | Swapped => update_uthread id (set_task InHandler)
  | Returned ret =>
      _ ← update_uthread id (set_ut_state 0);
      update_uthread id (set_task (if ret =? 2 then AfterDeath else AfterEvent))
  end.

(** ** The dispatch of a snapshot of the pending events *)
Definition dispatch (id : nat) : M (worker W) unit :=
  _ ← update_vcpu (set_current (Some id));
  _ ← update_uthread id (set_ut_state 1);
  _ ← usm_mem_worker_handler_singular id;
  t ← uthread_at id;
  if ut_state t =? 0 then update_vcpu (λ c, set_tempEvents (clear_bit (tempEvents c) (Z.of_nat id)) c)
  else mret tt.

Definition dispatch_body (events : Z) : M (worker W) (Z + unit) :=
  if events =? 0 then mret (inr tt)
  else
    let id := ffs events - 1 in
    _ ← dispatch (Z.to_nat id);
    mret (inl (clear_bit events id)).

Definition dispatch_events (events : Z) : M (worker W) unit := loop 33 dispatch_body events.

(** The loop while events are pending: it is left for a new look at the bit field
    when a second pass is done. *)
Definition treat_body (receiveOtherFaults : Z) : M (worker W) (Z + unit) :=
  events ← gets (λ s, tempEvents (vcpu s));
  if events =? 0 then mret (inr tt)
  else
    _ ← dispatch_events events;
    mret (if negb (receiveOtherFaults =? 0) then inr tt else inl (receiveOtherFaults + 1)).

Definition treat_events : M (worker W) unit := loop 3 treat_body 0.

Definition NCYCLESLEEP : Z := 100000.

(** One round of the main loop of [setSched]. *)
Definition setSched_round : M (worker W) unit :=
  com ← on_world com_word;
  _ ← update_vcpu (λ c, set_tempEvents (Z.lor (tempEvents c) (u32 com)) c);
  events ← gets (λ s, tempEvents (vcpu s));
  if events =? 0 then
    r ← gets rounds;
    if r =? NCYCLESLEEP then
      _ ← modify (set_rounds 0);
      _ ← modify (set_awake false);
      _ ← on_world pause;
      modify (set_awake true)
    else modify (set_rounds (r + 1))
  else treat_events.

(** One round of the main loop of [soldiers]. *)
Definition soldiers_round : M (worker W) unit :=
  com ← on_world com_word;
  _ ← update_vcpu (set_tempEvents (u32 com));
  events ← gets (λ s, tempEvents (vcpu s));
  if events =? 0 then
    r ← gets rounds;
    if r =? NCYCLESLEEP then
      _ ← modify (set_rounds 0);
      _ ← modify (set_awake false);
      on_world pause
    else modify (set_rounds (r + 1))
  else treat_events.

Fixpoint repeat_round (round : M (worker W) unit) (n : nat) : M (worker W) unit :=
  match n with
  | O => mret tt
  | S n => _ ← round; repeat_round round n
  end.
End scheduler.

(** ** The start of a worker *)

(** The user threads as [setSched] and [soldiers] prepare them; a field that they do
    not write keeps its static value. *)
Fixpoint init_uthreads (rounds : nat) (l : list uthread_t) : list uthread_t :=
  match l with
  | [] => []
  | t :: l => Uthread (Z.of_nat rounds) (ut_state t) (-2) Entry :: init_uthreads (S rounds) l
  end.
Definition static_vcpu : vcpu_t := Vcpu 0 (replicate (Z.to_nat MAX_UTHREADS) static_uthread) None 0.
Definition start_vcpu (self : Z) (c : vcpu_t) : vcpu_t :=
  set_uthreads (init_uthreads 0 (uthreads c)) (set_thread self c).

Definition uthread_create (uthread_id : nat) (c : vcpu_t) : option vcpu_t :=
  t ← uthreads c !! uthread_id;
  Some (set_uthreads (<[uthread_id := set_ioctl_fd (-1) t]> (uthreads c)) c).

(** * Bit fields as sets *)

(** The bits [i], ..., [i + k - 1] that are set, in ascending order. *)
Definition pend (k i : nat) (x : Z) : list nat := filter (λ j, Z.testbit x (Z.of_nat j) = true) (seq i k).
Definition pending (x : Z) : list nat := pend 32 0 x.

Lemma clear_bit_spec x id i : 0 ≤ x < 2 ^ 32 → 0 ≤ id < 32 → 0 ≤ i →
  Z.testbit (clear_bit x id) i = Z.testbit x i && negb (i =? id).
Proof.
  intros Hx Hid Hi. unfold clear_bit. rewrite Z.land_spec.
  destruct (decide (i < 32)) as [Hlt|Hge].
  - unfold u32. rewrite Z.mod_pow2_bits_low by lia. rewrite Z.lnot_spec by done.
    rewrite Z.mod_pow2_bits_low by lia. rewrite Z.shiftl_1_l, Z.pow2_bits_eqb by lia. by rewrite (Z.eqb_sym id).
  - assert (Z.testbit x i = false) as ->; [|done].
    apply Z.bits_above_log2; [lia|]. destruct (decide (x = 0)) as [->|]; [cbn; lia|].
    apply Z.log2_lt_pow2; [lia|]. apply (Z.lt_le_trans _ (2 ^ 32)); [lia|]. apply Z.pow_le_mono_r; lia.
Qed.

Lemma word_of_bits x : (∀ i, 32 ≤ i → Z.testbit x i = false) → 0 ≤ x → 0 ≤ x < 2 ^ 32.
Proof.
  intros H H0. split; [done|]. destruct (decide (x = 0)) as [->|]; [lia|].
  apply Z.log2_lt_pow2; [lia|]. destruct (Z.lt_ge_cases (Z.log2 x) 32) as [|Hge]; [done|].
  specialize (H (Z.log2 x) Hge). rewrite Z.bit_log2 in H by lia. done.
Qed.

Lemma bits_word x i : 0 ≤ x < 2 ^ 32 → 32 ≤ i → Z.testbit x i = false.
Proof.
  intros Hx Hi. destruct (decide (x = 0)) as [->|]; [apply Z.bits_0|].
  apply Z.bits_above_log2; [lia|]. apply Z.log2_lt_pow2; [lia|].
  apply (Z.lt_le_trans _ (2 ^ 32)); [lia|]. apply Z.pow_le_mono_r; lia.
Qed.

Lemma clear_bit_word x id : 0 ≤ x < 2 ^ 32 → 0 ≤ id < 32 → 0 ≤ clear_bit x id < 2 ^ 32.
Proof.
  intros Hx Hid. apply word_of_bits.
  - intros i Hi. rewrite clear_bit_spec by lia. by rewrite bits_word.
  - apply Z.land_nonneg. lia.
Qed.

Lemma lor_word x y : 0 ≤ x < 2 ^ 32 → 0 ≤ y < 2 ^ 32 → 0 ≤ Z.lor x y < 2 ^ 32.
Proof.
  intros Hx Hy. apply word_of_bits.
  - intros i Hi. by rewrite Z.lor_spec, !bits_word.
  - apply Z.lor_nonneg. lia.
Qed.

Lemma pend_S k i x :
  pend (S k) i x = if Z.testbit x (Z.of_nat i) then i :: pend k (S i) x else pend k (S i) x.
Proof.
  unfold pend. cbn [seq]. rewrite filter_cons. destruct (Z.testbit x (Z.of_nat i)); [by rewrite decide_True|].
  by rewrite decide_False.
Qed.

Lemma pend_clear_lt k i x id : 0 ≤ x < 2 ^ 32 → (id < 32)%nat → (id < i)%nat →
  pend k i (clear_bit x (Z.of_nat id)) = pend k i x.
Proof.
  intros Hx Hid. revert i. induction k as [|k IH]; intros i Hi; [done|].
  rewrite !pend_S, clear_bit_spec, IH by lia. rewrite (proj2 (Z.eqb_neq _ _)) by lia. by rewrite andb_true_r.
Qed.

(** The first pending event is the one that [ffs] finds, and clearing it leaves the
    others. *)
Lemma pend_cons k i x j l : 0 ≤ x < 2 ^ 32 → (i + k ≤ 32)%nat → pend k i x = j :: l →
  (i ≤ j < i + k)%nat ∧ ffs_from k (Z.of_nat i) x = Z.of_nat j + 1 ∧ pend k i (clear_bit x (Z.of_nat j)) = l.
Proof.
  intros Hx. revert i. induction k as [|k IH]; intros i Hk; [done|].
  rewrite pend_S. cbn [ffs_from]. destruct (Z.testbit x (Z.of_nat i)) eqn:Eb.
  - intros [= -> <-]. split; [lia|]. split; [done|].
    rewrite pend_S, clear_bit_spec, Z.eqb_refl, andb_false_r by lia. apply pend_clear_lt; lia.
  - intros E. replace (Z.of_nat i + 1) with (Z.of_nat (S i)) by lia.
    destruct (IH (S i)) as (H1 & H2 & H3); [lia|done|]. split; [lia|]. split; [done|].
    rewrite pend_S, clear_bit_spec, Eb by lia. done.
Qed.

Lemma elem_of_pending x j : j ∈ pending x ↔ Z.testbit x (Z.of_nat j) = true ∧ (j < 32)%nat.
Proof. unfold pending, pend. rewrite list_elem_of_filter, elem_of_seq. intuition lia. Qed.

Lemma NoDup_pending x : NoDup (pending x).
Proof. apply NoDup_filter, NoDup_seq. Qed.

Lemma pending_nil x : 0 ≤ x < 2 ^ 32 → pending x = [] ↔ x = 0.
Proof.
  intros Hx. split; [|by intros ->]. intros E. apply Z.bits_inj'. intros i Hi. rewrite Z.bits_0.
  destruct (decide (32 ≤ i)) as [|Hlt]; [by apply bits_word|].
  destruct (Z.testbit x i) eqn:Eb; [|done].
  assert (Z.to_nat i ∈ pending x) as Hin by (apply elem_of_pending; rewrite Z2Nat.id by done; split; [done|lia]).
  rewrite E in Hin. by apply elem_of_nil in Hin.
Qed.

Lemma pending_length x : (base.length (pending x) ≤ 32)%nat.
Proof. unfold pending, pend. etrans; [apply length_filter|]. by rewrite length_seq. Qed.

(** * Properties *)
Section properties.
Context {W : Type} `{MC : Machine W}.

(** The reference for the dispatch: the user threads of a list, one after the other. *)
Fixpoint dispatch_list (ids : list nat) : M (worker W) unit :=
  match ids with
  | [] => mret tt
  | id :: ids => _ ← dispatch id; dispatch_list ids
  end.

Lemma dispatch_loop n x s : 0 ≤ x < 2 ^ 32 → (base.length (pending x) < n)%nat →
  loop n dispatch_body x s = dispatch_list (pending x) s.
Proof.
  revert x s. induction n as [|n IH]; intros x s Hx Hn; [lia|].
  rewrite loop_S. unfold dispatch_body at 2. destruct (pending x) as [|j l] eqn:E.
  - apply pending_nil in E; [|done]. by rewrite E.
  - assert (x ≠ 0) as Hx0 by (intros ->; done). rewrite (proj2 (Z.eqb_neq _ _) Hx0).
    destruct (pend_cons 32 0 x j l) as (Hj & Hf & Hl); [done|lia|exact E|].
    unfold ffs. change (Z.of_nat 0) with 0 in Hf. rewrite Hf. replace (Z.of_nat j + 1 - 1) with (Z.of_nat j) by lia.
    rewrite bind_assoc, Nat2Z.id. cbn [dispatch_list]. unfold mbind, M_bind.
    destruct (dispatch j s) as [[] s'| | |]; [|done..]. unfold mret, M_ret.
    cbn [base.length] in Hn. fold (pending (clear_bit x (Z.of_nat j))) in Hl.
    rewrite IH; [by rewrite Hl|apply clear_bit_word; lia|rewrite Hl; lia].
Qed.

(** C27: The loop over a snapshot of the bit field, which looks for the lowest set bit
    and clears it until none is left, runs the user thread of every set bit
    exactly once, in ascending order, and needs at most 32 rounds. *)
Theorem dispatch_runs_pending x s : 0 ≤ x < 2 ^ 32 →
  dispatch_events x s = dispatch_list (pending x) s ∧ NoDup (pending x) ∧
  ∀ j, j ∈ pending x ↔ Z.testbit x (Z.of_nat j) = true ∧ (j < 32)%nat.
Proof.
  intros Hx. split; [|split; [apply NoDup_pending|apply elem_of_pending]].
  apply dispatch_loop; [done|]. pose proof (pending_length x). lia.
Qed.

(** ** One dispatch *)

(** The user threads of a virtual CPU; outside of a dispatch a user thread has the
    state 1 exactly when it was swapped off inside of its handler. *)
Record vcpu_ok (c : vcpu_t) : Prop := {
  ok_uthreads : base.length (uthreads c) = 32%nat;
  ok_uthread : ∀ i t, uthreads c !! i = Some t →
    ut_id t = Z.of_nat i ∧ ut_state t = (if task t is InHandler then 1 else 0);
  ok_word : 0 ≤ tempEvents c < 2 ^ 32;
}.

(** Every swapped-off handler is a pending event. *)
Definition kept (c : vcpu_t) : Prop :=
  ∀ i t, uthreads c !! i = Some t → task t = InHandler → Z.testbit (tempEvents c) (Z.of_nat i) = true.

(** The functions of the machine return, and keep [J]. *)
Record total (J : W → Prop) : Prop := {
  com_total : ∀ w, J w → ∃ v w', com_word w = Ok v w' ∧ J w';
  await_total : ∀ i w, J w → ∃ w', await_channel i w = Ok tt w' ∧ J w';
  run_total : ∀ b i w, J w → ∃ e w', run_handler b i w = Ok e w' ∧ J w';
  pause_total : ∀ w, J w → ∃ w', pause w = Ok tt w' ∧ J w';
}.

(** What a run that ended with [e] leaves of a user thread, and of the pending events. *)
Definition ran (e : slice) (id : nat) (t : uthread_t) : uthread_t :=
  match e with
  | Swapped => Uthread (Z.of_nat id) 1 (ioctl_fd t) InHandler
  | Returned r => Uthread (Z.of_nat id) 0 (ioctl_fd t) (if r =? 2 then AfterDeath else AfterEvent)
  end.
Definition left_over (e : slice) (id : nat) (x : Z) : Z :=
  match e with Swapped => x | Returned _ => clear_bit x (Z.of_nat id) end.

Lemma on_world_bind {A B} (c : M W A) (k : A → M (worker W) B) s a w :
  c (world s) = Ok a w → (on_world c ≫= k) s = k a (set_world w s).
Proof. intros H. unfold mbind, M_bind, on_world. by rewrite H. Qed.

Lemma update_uthread_bind {B} id f (k : unit → M (worker W) B) (s : worker W) t :
  uthreads (vcpu s) !! id = Some t →
  (update_uthread id f ≫= k) s = k tt (set_vcpu (set_uthreads (<[id := f t]> (uthreads (vcpu s))) (vcpu s)) s).
Proof. intros H. apply updates_bind. by rewrite H. Qed.
Lemma update_uthread_ok id f (s : worker W) t : uthreads (vcpu s) !! id = Some t →
  update_uthread id f s = Ok tt (set_vcpu (set_uthreads (<[id := f t]> (uthreads (vcpu s))) (vcpu s)) s).
Proof. intros H. unfold update_uthread, updates. by rewrite H. Qed.

(** Whether the user thread waits for its channel first. *)
Definition waits (t : uthread_t) : bool := match task t with Entry | AfterDeath => true | _ => false end.

Lemma update_uthread_same id f (s : worker W) t t' : uthreads (vcpu s) !! id = Some t → f t = t' →
  update_uthread id f s = Ok tt (Worker (set_uthreads (<[id := t']> (uthreads (vcpu s))) (vcpu s)) (rounds s) (awake s) (world s)).
Proof. intros H <-. by rewrite (update_uthread_ok _ _ _ _ H). Qed.

(** The beginning of a run, up to the call of the handler. *)
Definition awaited (id : nat) (t : uthread_t) (w w1 : W) : Prop :=
  if waits t then await_channel (Z.of_nat id) w = Ok tt w1 else w1 = w.

Lemma run_prologue id (s : worker W) t w1 : uthreads (vcpu s) !! id = Some t → ut_state t = 1 →
  awaited id t (world s) w1 →
  match task t with
  | Entry => _ ← update_uthread id (set_ut_state 1); on_world (await_channel (Z.of_nat id))
  | AfterDeath => on_world (await_channel (Z.of_nat id))
  | InHandler | AfterEvent => mret tt
  end s = Ok tt (set_world w1 s).
Proof.
  intros Ht H1. unfold awaited, waits.
  assert (set_vcpu (set_uthreads (<[id := set_ut_state 1 t]> (uthreads (vcpu s))) (vcpu s)) s = s) as Es.
  { assert (set_ut_state 1 t = t) as -> by (destruct t; cbn in *; by subst).
    rewrite list_insert_id by done. by destruct s as [[] ? ? ?]. }
  destruct (task t); intros E.
  - rewrite (update_uthread_bind _ _ _ _ _ Ht), Es. unfold on_world. by rewrite E.
  - subst w1. by destruct s.
  - subst w1. by destruct s.
  - unfold on_world. by rewrite E.
Qed.

(** The run of a user thread until it is swapped off again. *)
Definition handler_run (s : worker W) (id : nat) : W → result W slice :=
  run_handler (negb (clear_bit (tempEvents (vcpu s)) (Z.of_nat id) =? 0)) (Z.of_nat id).

Lemma singular_ok id (s : worker W) t w1 e w2 : current_uthread (vcpu s) = Some id →
  uthreads (vcpu s) !! id = Some t → ut_id t = Z.of_nat id → ut_state t = 1 →
  awaited id t (world s) w1 → handler_run s id w1 = Ok e w2 →
  usm_mem_worker_handler_singular id s =
    Ok tt (Worker (set_uthreads (<[id := ran e id t]> (uthreads (vcpu s))) (vcpu s)) (rounds s) (awake s) w2).
Proof.
  intros Hc Ht Hid H1 Ha Er. unfold usm_mem_worker_handler_singular, uthread_at.
  rewrite (reads_bind _ _ s t) by exact Ht. run (run_prologue id s t w1 Ht H1 Ha).
  rewrite (reads_bind _ _ _ (clear_bit (tempEvents (vcpu s)) (Z.of_nat id)))
    by (unfold todo; cbn; rewrite Hc; cbn; rewrite Ht; cbn; by rewrite Hid).
  rewrite (on_world_bind _ _ (set_world w1 s) _ _ Er). destruct e as [|r].
  - apply (update_uthread_same id _ (set_world w2 (set_world w1 s)) t _ Ht).
    destruct t; cbn in *; by subst.
  - rewrite (update_uthread_bind id _ _ (set_world w2 (set_world w1 s)) t Ht).
    erewrite update_uthread_ok by (cbn; apply list_lookup_insert_eq; by eapply lookup_lt_Some).
    cbn. rewrite list_insert_insert_eq. destruct t; cbn in *; by subst.
Qed.

Lemma dispatch_ok s id t w1 e w2 : vcpu_ok (vcpu s) → uthreads (vcpu s) !! id = Some t →
  awaited id t (world s) w1 → handler_run s id w1 = Ok e w2 →
  dispatch id s = Ok tt (Worker (Vcpu (thread (vcpu s)) (<[id := ran e id t]> (uthreads (vcpu s))) (Some id)
    (left_over e id (tempEvents (vcpu s)))) (rounds s) (awake s) w2).
Proof.
  intros Hok Ht Ha Er. destruct (ok_uthread _ Hok id t Ht) as [Hi _].
  set (s1 := Worker (Vcpu (thread (vcpu s)) (<[id := set_ut_state 1 t]> (uthreads (vcpu s))) (Some id)
    (tempEvents (vcpu s))) (rounds s) (awake s) (world s)).
  assert (uthreads (vcpu s1) !! id = Some (set_ut_state 1 t)) as Ht1
    by (cbn; apply list_lookup_insert_eq; by eapply lookup_lt_Some).
  pose proof (singular_ok id s1 _ w1 e w2 eq_refl Ht1 Hi eq_refl Ha Er) as E.
  unfold dispatch, update_vcpu. rewrite modify_bind.
  rewrite (update_uthread_bind id _ _ (set_vcpu (set_current (Some id) (vcpu s)) s) t Ht).
  change (set_vcpu _ (set_vcpu _ s)) with s1. run E. unfold uthread_at.
  erewrite reads_bind by (cbn; apply list_lookup_insert_eq; rewrite length_insert; by eapply lookup_lt_Some).
  cbn. rewrite list_insert_insert_eq. by destruct e.
Qed.

Lemma dispatch_step J s id : total J → vcpu_ok (vcpu s) → J (world s) → (id < 32)%nat →
  ∃ t w1 e w2, uthreads (vcpu s) !! id = Some t ∧ awaited id t (world s) w1 ∧ J w1 ∧
    handler_run s id w1 = Ok e w2 ∧ J w2 ∧
    dispatch id s = Ok tt (Worker (Vcpu (thread (vcpu s)) (<[id := ran e id t]> (uthreads (vcpu s))) (Some id)
      (left_over e id (tempEvents (vcpu s)))) (rounds s) (awake s) w2).
Proof.
  intros HJ Hok Hw Hid. destruct (lookup_lt_is_Some_2 (uthreads (vcpu s)) id) as [t Ht];
    [rewrite (ok_uthreads _ Hok); lia|].
  assert (∃ w1, awaited id t (world s) w1 ∧ J w1) as (w1 & Ha & Hw1).
  { unfold awaited. destruct (waits t); [by apply (await_total J HJ)|by eexists]. }
  destruct (run_total J HJ (negb (clear_bit (tempEvents (vcpu s)) (Z.of_nat id) =? 0)) (Z.of_nat id) w1 Hw1)
    as (e & w2 & Er & Hw2).
  exists t, w1, e, w2. do 5 (split; [done|]). by apply dispatch_ok with w1.
Qed.

(** A dispatch keeps the virtual CPU well formed and adds no events. *)
Lemma left_over_bits e id x i : 0 ≤ x < 2 ^ 32 → (id < 32)%nat → 0 ≤ i →
  Z.testbit (left_over e id x) i = Z.testbit x i && (if e is Swapped then true else negb (i =? Z.of_nat id)).
Proof. intros Hx Hid Hi. destruct e; cbn; [by rewrite andb_true_r|apply clear_bit_spec; lia]. Qed.

Lemma dispatch_keeps_ok e id t c : vcpu_ok c → (id < 32)%nat →
  vcpu_ok (Vcpu (thread c) (<[id := ran e id t]> (uthreads c)) (Some id) (left_over e id (tempEvents c))).
Proof.
  intros [H1 H2 H3] Hid. split; cbn.
  - by rewrite length_insert.
  - intros i t' [(<- & <- & _)|[_ Hi]]%list_lookup_insert_Some; [|by apply H2].
    destruct e as [|r]; [done|]. cbn. by destruct (r =? 2).
  - destruct e; [done|]. apply clear_bit_word; lia.
Qed.

(** ** Passes *)

(** A property of workers that every dispatch of a pending event keeps. *)
Definition dispatch_stable (P : worker W → Prop) : Prop :=
  ∀ s id, P s → vcpu_ok (vcpu s) → Z.testbit (tempEvents (vcpu s)) (Z.of_nat id) = true → (id < 32)%nat →
    ∃ s', dispatch id s = Ok tt s' ∧ P s' ∧ vcpu_ok (vcpu s') ∧
      ∀ j, j ≠ id → Z.testbit (tempEvents (vcpu s')) (Z.of_nat j) = Z.testbit (tempEvents (vcpu s)) (Z.of_nat j).

Lemma pass_stable P ids s : dispatch_stable P → P s → vcpu_ok (vcpu s) → NoDup ids →
  (∀ j, j ∈ ids → Z.testbit (tempEvents (vcpu s)) (Z.of_nat j) = true ∧ (j < 32)%nat) →
  ∃ s', dispatch_list ids s = Ok tt s' ∧ P s' ∧ vcpu_ok (vcpu s').
Proof.
  intros HP. revert s. induction ids as [|id ids IH]; intros s Hs Hok Hnd Hin; [by exists s|].
  apply NoDup_cons in Hnd as [Hni Hnd].
  destruct (HP s id Hs Hok) as (s1 & E & Hs1 & Hok1 & Hj); [apply Hin; by left..|].
  destruct (IH s1 Hs1 Hok1 Hnd) as (s2 & E2 & Hs2); [|exists s2; cbn; by run E].
  intros j Hjn. rewrite Hj by (by intros ->). by apply Hin; right.
Qed.

Lemma treat_body_pass r s : vcpu_ok (vcpu s) → tempEvents (vcpu s) ≠ 0 →
  treat_body r s = (_ ← dispatch_list (pending (tempEvents (vcpu s)));
                    mret (if negb (r =? 0) then inr tt else inl (r + 1))) s.
Proof.
  intros Hok Hne. unfold treat_body. rewrite gets_bind, (proj2 (Z.eqb_neq _ _) Hne). unfold mbind, M_bind.
  unfold dispatch_events. rewrite dispatch_loop; [done|apply Hok|]. pose proof (pending_length (tempEvents (vcpu s))). lia.
Qed.

(** One or two passes: a property that holds after each pass that leaves events. *)
Lemma treat_events_rule (P Q : worker W → Prop) s :
  (∀ s, P s → vcpu_ok (vcpu s) → tempEvents (vcpu s) ≠ 0 →
    ∃ s', dispatch_list (pending (tempEvents (vcpu s))) s = Ok tt s' ∧ P s' ∧ Q s' ∧ vcpu_ok (vcpu s')) →
  P s → vcpu_ok (vcpu s) → tempEvents (vcpu s) ≠ 0 →
  ∃ s', treat_events s = Ok tt s' ∧ P s' ∧ Q s' ∧ vcpu_ok (vcpu s').
Proof.
  intros HP Hs Hok Hne. destruct (HP s Hs Hok Hne) as (s1 & E1 & Hs1 & Hq1 & Hok1).
  unfold treat_events. rewrite loop_S. unfold mbind at 1, M_bind at 1.
  rewrite treat_body_pass by done. run E1. cbn [negb Z.eqb]. unfold mret at 1, M_ret at 1. rewrite loop_S.
  destruct (decide (tempEvents (vcpu s1) = 0)) as [E0|Hne1].
  - exists s1. split; [|done].
    assert (treat_body (0 + 1) s1 = Ok (inr tt) s1) as E by (unfold treat_body; by rewrite gets_bind, E0). by run E.
  - destruct (HP s1 Hs1 Hok1 Hne1) as (s2 & E2 & Hs2). exists s2. split; [|done].
    unfold mbind at 1, M_bind at 1. rewrite treat_body_pass by done. run E2. done.
Qed.

Lemma treat_events_stable P s : dispatch_stable P → P s → vcpu_ok (vcpu s) → tempEvents (vcpu s) ≠ 0 →
  ∃ s', treat_events s = Ok tt s' ∧ P s' ∧ vcpu_ok (vcpu s').
Proof.
  intros HP Hs Hok Hne. destruct (treat_events_rule P (λ _, True) s) as (s' & E & H1 & _ & H2); [|done..|by exists s'].
  intros s0 H0 Hok0 Hne0. destruct (pass_stable P (pending (tempEvents (vcpu s0))) s0 HP H0 Hok0) as (s' & E & H1 & H2).
  - apply NoDup_pending.
  - intros j Hj. by apply elem_of_pending.
  - by exists s'.
Qed.

(** ** setSched keeps the handlers *)

(** A worker that has forgotten no handler. *)
Definition alert (J : W → Prop) (s : worker W) : Prop := J (world s) ∧ kept (vcpu s).

Lemma alert_stable J : total J → dispatch_stable (alert J).
Proof.
  intros HJ s id [Hw Hk] Hok Hb Hid.
  destruct (dispatch_step J s id HJ Hok Hw Hid) as (t & w1 & e & w2 & Ht & _ & _ & _ & Hw2 & E).
  eexists. split; [exact E|]. split; [|split; [by apply dispatch_keeps_ok|]].
  - split; [done|]. intros i t'. cbn. intros [(<- & <- & _)|[Hne Hi]]%list_lookup_insert_Some Htask.
    + destruct e as [|r]; [done|]. cbn in Htask. by destruct (r =? 2).
    + rewrite left_over_bits by (apply Hok || lia). rewrite (Hk i t') by done.
      destruct e; [done|]. cbn. apply negb_true_iff, Z.eqb_neq. lia.
  - intros j Hj. cbn. rewrite left_over_bits by (apply Hok || lia).
    destruct e; [by rewrite andb_true_r|]. rewrite (proj2 (Z.eqb_neq _ _)) by lia. by rewrite andb_true_r.
Qed.

(** The new look at the bit field. *)
Lemma u32_word v : 0 ≤ u32 v < 2 ^ 32.
Proof. by apply Z.mod_pos_bound. Qed.

Lemma receive_ok c v : vcpu_ok c → vcpu_ok (set_tempEvents (Z.lor (tempEvents c) (u32 v)) c).
Proof. intros [H1 H2 H3]. split; [done|done|]. apply lor_word; [done|apply u32_word]. Qed.

Lemma receive_kept c v : kept c → kept (set_tempEvents (Z.lor (tempEvents c) (u32 v)) c).
Proof. intros H i t Hi Ht. cbn. by rewrite Z.lor_spec, (H i t Hi Ht). Qed.

(** A round of setSched: the events are treated or the worker counts an idle round. *)
Lemma setSched_round_cases J s : total J → J (world s) →
  ∃ v w, com_word (world s) = Ok v w ∧ J w ∧
    let s1 := Worker (set_tempEvents (Z.lor (tempEvents (vcpu s)) (u32 v)) (vcpu s)) (rounds s) (awake s) w in
    if tempEvents (vcpu s1) =? 0 then
      ∃ r a w', setSched_round s = Ok tt (Worker (vcpu s1) r a w') ∧ J w' ∧ (w' = w ∨ pause w = Ok tt w')
    else setSched_round s = treat_events s1.
Proof.
  intros HJ Hw. destruct (com_total J HJ (world s) Hw) as (v & w & E & Hw1). exists v, w. split; [done|]. split; [done|].
  intros s1. assert (setSched_round s = (events ← gets (λ s, tempEvents (vcpu s));
    if events =? 0 then
      r ← gets rounds;
      if r =? NCYCLESLEEP then
        _ ← modify (set_rounds 0); _ ← modify (set_awake false); _ ← on_world pause; modify (set_awake true)
      else modify (set_rounds (r + 1))
    else treat_events) s1) as Er by (unfold setSched_round; by rewrite (on_world_bind _ _ s v w E)).
  rewrite Er, gets_bind. destruct (tempEvents (vcpu s1) =? 0); [|done]. rewrite gets_bind.
  destruct (rounds s1 =? NCYCLESLEEP).
  - rewrite !modify_bind. destruct (pause_total J HJ w Hw1) as (w' & E' & Hw').
    rewrite (on_world_bind _ _ _ tt w') by exact E'. exists 0, true, w'. split; [done|]. split; [done|]. by right.
  - exists (rounds s1 + 1), (awake s1), w. split; [done|]. split; [done|]. by left.
Qed.

Lemma setSched_round_alert J s : total J → alert J s → vcpu_ok (vcpu s) →
  ∃ s', setSched_round s = Ok tt s' ∧ alert J s' ∧ vcpu_ok (vcpu s').
Proof.
  intros HJ [Hw Hk] Hok. destruct (setSched_round_cases J s HJ Hw) as (v & w & _ & Hw1 & Hc). cbv zeta in Hc.
  set (s1 := Worker _ _ _ w) in Hc.
  assert (vcpu_ok (vcpu s1)) as Hok1 by (by apply receive_ok).
  assert (kept (vcpu s1)) as Hk1 by (by apply receive_kept).
  destruct (Z.eqb_spec (tempEvents (vcpu s1)) 0) as [E0|Hne].
  - destruct Hc as (r & a & w' & E & Hw' & _). eexists. split; [exact E|]. done.
  - rewrite Hc. by apply treat_events_stable; [apply alert_stable|..].
Qed.

(** C6: The worker that the main thread becomes forgets no handler: over any number
    of rounds of its loop, and whatever the kernel writes to the bit field, a user
    thread that was swapped off while it handled a fault is among the pending
    events, so that the next pass resumes it. *)
Theorem setSched_keeps_handlers J n s : total J → J (world s) → vcpu_ok (vcpu s) → kept (vcpu s) →
  ∃ s', repeat_round setSched_round n s = Ok tt s' ∧ vcpu_ok (vcpu s') ∧
    ∀ i t, uthreads (vcpu s') !! i = Some t → ut_state t = 1 →
      task t = InHandler ∧ i ∈ pending (tempEvents (vcpu s')).
Proof.
  intros HJ Hw Hok Hk. assert (alert J s) as Ha by done. clear Hw Hk.
  revert s Hok Ha. induction n as [|n IH]; intros s Hok Ha.
  - exists s. split; [done|]. split; [done|]. intros i t Ht H1. destruct (ok_uthread _ Hok i t Ht) as [_ H2].
    assert (task t = InHandler) as Htask by (rewrite H1 in H2; by destruct (task t)).
    split; [done|]. apply elem_of_pending. split; [by apply (proj2 Ha i t)|].
    apply lookup_lt_Some in Ht. by rewrite (ok_uthreads _ Hok) in Ht.
  - destruct (setSched_round_alert J s HJ Ha Hok) as (s1 & E & Ha1 & Hok1).
    destruct (IH s1 Hok1 Ha1) as (s' & E' & H'). exists s'. split; [|exact H']. cbn. by run E.
Qed.

(** ** soldiers do not *)

(** A worker in which thread [i] is swapped off and no event of its is pending. *)
Definition forgot (J : W → Prop) (i : nat) (t : uthread_t) (s : worker W) : Prop :=
  J (world s) ∧ Z.testbit (tempEvents (vcpu s)) (Z.of_nat i) = false ∧ uthreads (vcpu s) !! i = Some t.

Lemma forgot_stable J i t : total J → dispatch_stable (forgot J i t).
Proof.
  intros HJ s id (Hw & Hb & Ht) Hok Hid Hlt.
  assert (id ≠ i) as Hne by (intros ->; by rewrite Hb in Hid).
  destruct (dispatch_step J s id HJ Hok Hw Hlt) as (t' & w1 & e & w2 & _ & _ & _ & _ & Hw2 & E).
  eexists. split; [exact E|].
  assert (∀ j, j ≠ id → Z.testbit (left_over e id (tempEvents (vcpu s))) (Z.of_nat j) =
    Z.testbit (tempEvents (vcpu s)) (Z.of_nat j)) as Hj.
  { intros j Hj. rewrite left_over_bits by (apply Hok || lia).
    destruct e; [by rewrite andb_true_r|]. rewrite (proj2 (Z.eqb_neq _ _)) by lia. by rewrite andb_true_r. }
  split; [|split; [by apply dispatch_keeps_ok|exact Hj]].
  split; [done|]. cbn. rewrite Hj by done. split; [done|]. by rewrite list_lookup_insert_ne.
Qed.

Lemma soldiers_round_forgot J i t s : total J →
  (∀ w v w', J w → com_word w = Ok v w' → Z.testbit (u32 v) (Z.of_nat i) = false) →
  J (world s) → vcpu_ok (vcpu s) → uthreads (vcpu s) !! i = Some t →
  ∃ s', soldiers_round s = Ok tt s' ∧ forgot J i t s' ∧ vcpu_ok (vcpu s').
Proof.
  intros HJ Hcom Hw Hok Ht. destruct (com_total J HJ (world s) Hw) as (v & w & E & Hw1).
  set (s1 := Worker (set_tempEvents (u32 v) (vcpu s)) (rounds s) (awake s) w).
  assert (vcpu_ok (vcpu s1)) as Hok1.
  { destruct Hok as [H1 H2 H3]. split; [done|done|]. apply u32_word. }
  assert (forgot J i t s1) as Hf1 by (split; [done|]; split; [exact (Hcom _ _ _ Hw E)|done]).
  unfold soldiers_round. rewrite (on_world_bind _ _ s v w E). unfold update_vcpu. rewrite modify_bind.
  change (set_vcpu _ (set_world w s)) with s1. rewrite gets_bind.
  destruct (Z.eqb_spec (tempEvents (vcpu s1)) 0) as [E0|Hne];
    [|by apply treat_events_stable; [apply forgot_stable|..]].
  rewrite gets_bind. destruct (rounds s1 =? NCYCLESLEEP).
  - rewrite !modify_bind. destruct (pause_total J HJ w Hw1) as (w' & E' & Hw').
    unfold on_world. cbn. rewrite E'. eexists. split; [done|]. split; [|done].
    split; [done|]. apply Hf1.
  - eexists. split; [done|]. split; [|done]. apply Hf1.
Qed.

(** C34: A worker that is created later can forget a handler: its loop overwrites the
    pending events with the bit field instead of adding to them. As long as the
    kernel does not raise the bit of a user thread that was swapped off inside of
    its handler, the worker goes round without ever resuming it. *)
Theorem soldiers_forget_handler J n s i t : total J →
  (∀ w v w', J w → com_word w = Ok v w' → Z.testbit (u32 v) (Z.of_nat i) = false) →
  J (world s) → vcpu_ok (vcpu s) → uthreads (vcpu s) !! i = Some t → task t = InHandler →
  ∃ s', repeat_round soldiers_round n s = Ok tt s' ∧ uthreads (vcpu s') !! i = Some t.
Proof.
  intros HJ Hcom Hw Hok Ht _. revert s Hw Hok Ht. induction n as [|n IH]; intros s Hw Hok Ht; [by exists s|].
  destruct (soldiers_round_forgot J i t s HJ Hcom Hw Hok Ht) as (s1 & E & (Hw1 & _ & Ht1) & Hok1).
  destruct (IH s1 Hw1 Hok1 Ht1) as (s' & E' & H'). exists s'. split; [|exact H']. cbn. by run E.
Qed.

(** ** Faults drain *)

(** How many more times the handlers can be swapped off: [μ i w] bounds it for
    handler [i], and nothing that the worker does lets it grow. *)
Record draining (J : W → Prop) (μ : nat → W → nat) : Prop := {
  quiet : ∀ w v w', J w → com_word w = Ok v w' → u32 v = 0 ∧ ∀ j, (μ j w' ≤ μ j w)%nat;
  await_drain : ∀ i w w' j, J w → await_channel i w = Ok tt w' → (μ j w' ≤ μ j w)%nat;
  pause_drain : ∀ w w' j, J w → pause w = Ok tt w' → (μ j w' ≤ μ j w)%nat;
  run_drain : ∀ b i w e w' j, J w → run_handler b (Z.of_nat i) w = Ok e w' → (μ j w' ≤ μ j w)%nat;
  run_progress : ∀ b i w w', J w → run_handler b (Z.of_nat i) w = Ok Swapped w' → (μ i w' < μ i w)%nat;
}.

Definition backlog (μ : nat → W → nat) (w : W) : nat := sum_list_with (λ j, μ j w) (seq 0 32).

Lemma backlog_le μ w w' : (∀ j, (μ j w' ≤ μ j w)%nat) → (backlog μ w' ≤ backlog μ w)%nat.
Proof. intros H. unfold backlog. induction (seq 0 32) as [|j l IH]; cbn; [lia|]. specialize (H j). lia. Qed.

Lemma backlog_lt μ w w' i : (∀ j, (μ j w' ≤ μ j w)%nat) → (μ i w' < μ i w)%nat → (i < 32)%nat →
  (backlog μ w' < backlog μ w)%nat.
Proof.
  intros H Hi Hlt. unfold backlog. assert (i ∈ seq 0 32) as Hin by (apply elem_of_seq; lia).
  assert (∀ l, (sum_list_with (λ j, μ j w') l ≤ sum_list_with (λ j, μ j w) l)%nat) as Hle.
  { induction l as [|j l IH]; cbn; [lia|]. specialize (H j). lia. }
  induction (seq 0 32) as [|j l IH]; [by apply elem_of_nil in Hin|]. cbn. specialize (H j). specialize (Hle l).
  apply elem_of_cons in Hin as [->|Hin]; [lia|]. specialize (IH Hin). lia.
Qed.

(** A pass clears the events that it serves or uses up some of the backlog. *)
Lemma pass_drains J μ ids s : total J → draining J μ → alert J s → vcpu_ok (vcpu s) → NoDup ids →
  (∀ j, j ∈ ids → Z.testbit (tempEvents (vcpu s)) (Z.of_nat j) = true ∧ (j < 32)%nat) →
  ∃ s', dispatch_list ids s = Ok tt s' ∧ alert J s' ∧ vcpu_ok (vcpu s') ∧ (backlog μ (world s') ≤ backlog μ (world s))%nat ∧
    (∀ j, Z.testbit (tempEvents (vcpu s')) (Z.of_nat j) = true → Z.testbit (tempEvents (vcpu s)) (Z.of_nat j) = true) ∧
    ((backlog μ (world s') < backlog μ (world s))%nat ∨ ∀ j, j ∈ ids → Z.testbit (tempEvents (vcpu s')) (Z.of_nat j) = false).
Proof.
  intros HJ HD. revert s. induction ids as [|id ids IH]; intros s Ha Hok Hnd Hin.
  { exists s. do 5 (split; [done|]). right. by intros j ?%elem_of_nil. }
  apply NoDup_cons in Hnd as [Hni Hnd]. destruct (Hin id) as [Hb Hid]; [by left|].
  destruct (alert_stable J HJ s id Ha Hok Hb Hid) as (s1 & E & Ha1 & Hok1 & Hj).
  destruct (dispatch_step J s id HJ Hok (proj1 Ha) Hid) as (t & w1 & e & w2 & _ & Hw1 & Jw1 & Er & _ & E1).
  rewrite E in E1. injection E1 as ->. cbn in Hj.
  assert (∀ j, (μ j w1 ≤ μ j (world s))%nat) as Hle1.
  { intros j. unfold awaited in Hw1. destruct (waits t); [|by subst w1]. by eapply await_drain; [..|apply Ha|]. }
  assert (∀ j, (μ j w2 ≤ μ j (world s))%nat) as Hle.
  { intros j. specialize (Hle1 j). pose proof (run_drain J μ HD _ _ _ _ _ j Jw1 Er). lia. }
  set (s1 := Worker _ _ _ w2) in *. destruct (IH s1 Ha1 Hok1 Hnd) as (s2 & E2 & Ha2 & Hok2 & Hl2 & Hs2 & Hc2).
  { intros j Hjn. cbn. rewrite Hj by (by intros ->). by apply Hin; right. }
  pose proof (backlog_le μ (world s) w2 Hle) as Hl1. cbn [world] in Hl2, Hc2.
  exists s2. split; [cbn; by run E|]. do 2 (split; [done|]). split; [cbn in *; lia|]. split.
  { intros j Hjb. destruct (decide (j = id)) as [->|Hne]; [done|]. rewrite <- Hj by done. by apply Hs2. }
  destruct e as [|r].
  - left. pose proof (run_progress J μ HD _ _ _ _ Jw1 Er) as Hp. specialize (Hle1 id).
    assert (μ id w2 < μ id (world s))%nat as Hp' by lia.
    pose proof (backlog_lt μ (world s) w2 id Hle Hp' Hid). cbn in *. lia.
  - destruct Hc2 as [|Hc2]; [left; cbn in *; lia|]. right. intros j [->|Hjn]%elem_of_cons; [|by apply Hc2].
    destruct (Z.testbit (tempEvents (vcpu s2)) (Z.of_nat id)) eqn:Eb; [|done]. apply Hs2 in Eb. cbn in Eb.
    rewrite clear_bit_spec, Z.eqb_refl, andb_false_r in Eb by (apply Hok || lia). done.
Qed.

Lemma treat_drains J μ s : total J → draining J μ → alert J s → vcpu_ok (vcpu s) → tempEvents (vcpu s) ≠ 0 →
  ∃ s', treat_events s = Ok tt s' ∧ alert J s' ∧ vcpu_ok (vcpu s') ∧ (backlog μ (world s') ≤ backlog μ (world s))%nat ∧
    (tempEvents (vcpu s') = 0 ∨ (backlog μ (world s') < backlog μ (world s))%nat).
Proof.
  intros HJ HD Ha Hok Hne. set (L := backlog μ (world s)).
  destruct (treat_events_rule (λ s', alert J s' ∧ (backlog μ (world s') ≤ L)%nat)
    (λ s', tempEvents (vcpu s') = 0 ∨ (backlog μ (world s') < L)%nat) s) as (s' & E & [H1 H2] & H3 & H4);
    [|done..|by exists s'].
  intros s0 [Ha0 Hl0] Hok0 _.
  destruct (pass_drains J μ (pending (tempEvents (vcpu s0))) s0 HJ HD Ha0 Hok0)
    as (s1 & E1 & Ha1 & Hok1 & Hl1 & Hs1 & Hc1).
  - apply NoDup_pending.
  - intros j Hj. by apply elem_of_pending.
  - exists s1. do 2 (split; [first [done|split; [done|lia]]|]). split; [|done].
    destruct Hc1 as [|Hc1]; [right; lia|left]. apply pending_nil; [apply Hok1|].
    destruct (pending (tempEvents (vcpu s1))) as [|j l] eqn:Ep; [done|exfalso].
    assert (j ∈ pending (tempEvents (vcpu s1))) as [Hb Hj]%elem_of_pending by (rewrite Ep; by left).
    rewrite Hc1 in Hb; [done|]. apply elem_of_pending. split; [by apply Hs1|done].
Qed.

Lemma round_drains J μ s : total J → draining J μ → alert J s → vcpu_ok (vcpu s) →
  ∃ s', setSched_round s = Ok tt s' ∧ alert J s' ∧ vcpu_ok (vcpu s') ∧ (backlog μ (world s') ≤ backlog μ (world s))%nat ∧
    (tempEvents (vcpu s') = 0 ∨ (tempEvents (vcpu s) ≠ 0 ∧ (backlog μ (world s') < backlog μ (world s))%nat)).
Proof.
  intros HJ HD [Hw Hk] Hok. destruct (setSched_round_cases J s HJ Hw) as (v & w & Ec & Hw1 & Hc). cbv zeta in Hc.
  destruct (quiet J μ HD _ _ _ Hw Ec) as [Hv Hmu]. rewrite Hv, Z.lor_0_r in Hc.
  pose proof (backlog_le μ (world s) w Hmu) as Hl. set (s1 := Worker _ _ _ w) in Hc.
  assert (vcpu s1 = vcpu s) as Hvc by (cbn; by destruct (vcpu s)).
  destruct (Z.eqb_spec (tempEvents (vcpu s1)) 0) as [E0|Hne].
  - destruct Hc as (r & a & w' & E & Hw' & Hp). eexists. split; [exact E|]. rewrite Hvc in E0 |- *.
    split; [done|]. split; [done|]. split; [|by left]. cbn [world]. destruct Hp as [->|Hp]; [done|].
    assert (∀ j, (μ j w' ≤ μ j w)%nat) as Hmu' by (intros j; by eapply pause_drain).
    pose proof (backlog_le μ w w' Hmu'). lia.
  - assert (alert J s1) as Ha1 by (split; [done|]; by rewrite Hvc).
    destruct (treat_drains J μ s1 HJ HD Ha1) as (s' & E & H1 & H2 & H3 & H4); [by rewrite Hvc|done|].
    exists s'. rewrite Hc. split; [done|]. do 2 (split; [done|]). change (world s1) with w in H3, H4. split; [lia|].
    destruct H4 as [|H4]; [by left|right]. split; [by rewrite Hvc in Hne|lia].
Qed.

(** C7: When the kernel raises no further faults and every handler is swapped off only
    finitely often, [setSched] serves all pending faults: after as many rounds as
    handlers are swapped off in all, and one more, no event is pending and no user
    thread is inside of a handler. *)
Theorem faults_drain J μ s : total J → draining J μ → J (world s) → vcpu_ok (vcpu s) → kept (vcpu s) →
  ∃ s', repeat_round setSched_round (S (backlog μ (world s))) s = Ok tt s' ∧ tempEvents (vcpu s') = 0 ∧
    ∀ i t, uthreads (vcpu s') !! i = Some t → ut_state t = 0.
Proof.
  intros HJ HD Hw Hok Hk. assert (alert J s) as Ha by done. clear Hw Hk.
  assert (∀ n s, alert J s → vcpu_ok (vcpu s) → (backlog μ (world s) < n)%nat ∨ tempEvents (vcpu s) = 0 →
    ∃ s', repeat_round setSched_round n s = Ok tt s' ∧ alert J s' ∧ vcpu_ok (vcpu s') ∧ tempEvents (vcpu s') = 0) as Hn.
  { induction n as [|n IH]; intros s0 Ha0 Hok0 Hl; [destruct Hl; [lia|]; by exists s0|].
    destruct (round_drains J μ s0 HJ HD Ha0 Hok0) as (s1 & E1 & Ha1 & Hok1 & Hl1 & Hc1).
    destruct (IH s1 Ha1 Hok1) as (s' & E' & H').
    - destruct Hc1 as [|[Hne Hc1]]; [by right|]. left. destruct Hl; [lia|done].
    - exists s'. cbn. by run E1. }
  destruct (Hn (S (backlog μ (world s))) s Ha Hok) as (s' & E & [_ Hk'] & Hok' & H0); [left; lia|].
  exists s'. split; [exact E|]. split; [exact H0|]. intros i t Ht. destruct (ok_uthread _ Hok' i t Ht) as [_ Hst].
  destruct (task t) eqn:Et; [done| |done..]. specialize (Hk' i t Ht Et). rewrite H0, Z.bits_0 in Hk'. done.
Qed.
End properties.

(** * The worker of the daemon

    The user threads of the main thread's worker handle the channels of the first
    worker of the daemon; the wait for the kernel inside of a handler is that of
    the channel, so that a handler returns in one run. *)
Section daemon.
Context `{K : Kernel} `{SE : SubmitEvt} `{TM : ThreadMap}.

(** [while (1) ;] *)
Definition spin {S A} : M S A := λ _, OutOfFuel.

Definition usm_channel_wait (i : Z) : M daemon unit :=
  c ← channel_at 0 (Z.to_nat i);
  match usmmem (cnl_event c) with Some _ => mret tt | None => spin end.

Definition usm_handle_evt_call (i : Z) : M daemon slice :=
  c ← channel_at 0 (Z.to_nat i);
  match usm_handle_evt c with
  | usm_handle_mem_p => r ← usm_handle_mem 0 (Z.to_nat i); mret (Returned r)
  | no_handler => undef
  end.

Global Instance daemon_machine : Machine daemon := {
  com_word := reads (λ d, com <$> usmMemWorkers d !! O);
  await_channel := usm_channel_wait;
  run_handler _ := usm_handle_evt_call;
  pause := mret tt;
}.

(** A round that finds one new event, whose handler returns. *)
Lemma lone_event_round (s : worker daemon) i t v d1 d2 ret : vcpu_ok (vcpu s) → tempEvents (vcpu s) = 0 →
  uthreads (vcpu s) !! i = Some t → com_word (world s) = Ok v (world s) → u32 v = 2 ^ Z.of_nat i →
  awaited i t (world s) d1 → run_handler false (Z.of_nat i) d1 = Ok (Returned ret) d2 →
  setSched_round s = Ok tt (Worker (Vcpu (thread (vcpu s)) (<[i := ran (Returned ret) i t]> (uthreads (vcpu s)))
    (Some i) 0) (rounds s) (awake s) d2).
Proof.
  intros Hok H0 Ht Hcom Hv Ha Hr. assert (i < 32)%nat as Hi.
  { apply lookup_lt_Some in Ht. by rewrite (ok_uthreads _ Hok) in Ht. }
  set (s1 := Worker (set_tempEvents (2 ^ Z.of_nat i) (vcpu s)) (rounds s) (awake s) (world s)).
  assert (0 < 2 ^ Z.of_nat i < 2 ^ 32) as Hpow by (split; [apply Z.pow_pos_nonneg|apply Z.pow_lt_mono_r]; lia).
  assert (clear_bit (2 ^ Z.of_nat i) (Z.of_nat i) = 0) as Hclr.
  { apply Z.bits_inj'. intros j Hj. rewrite clear_bit_spec, Z.bits_0, Z.pow2_bits_eqb, (Z.eqb_sym j) by lia.
    by destruct (Z.of_nat i =? j). }
  assert (vcpu_ok (vcpu s1)) as Hok1 by (destruct Hok as [? ? ?]; split; [done|done|cbn; lia]).
  assert (setSched_round s = treat_events s1) as ->.
  { unfold setSched_round. rewrite (on_world_bind _ _ s v (world s) Hcom). unfold update_vcpu. rewrite modify_bind.
    cbn [set_world vcpu]. rewrite H0, Hv, Z.lor_0_l. change (set_vcpu _ _) with s1. rewrite gets_bind.
    change (tempEvents (vcpu s1)) with (2 ^ Z.of_nat i). by rewrite (proj2 (Z.eqb_neq _ _)) by lia. }
  assert (pending (2 ^ Z.of_nat i) = [i]) as Hpen.
  { destruct (pending (2 ^ Z.of_nat i)) as [|j l] eqn:Ep; [apply pending_nil in Ep; lia|].
    destruct (pend_cons 32 0 (2 ^ Z.of_nat i) j l) as (_ & _ & Hl); [lia|lia|exact Ep|].
    assert (j ∈ pending (2 ^ Z.of_nat i)) as [Hj _]%elem_of_pending by (rewrite Ep; by left).
    rewrite Z.pow2_bits_eqb in Hj by lia. apply Z.eqb_eq in Hj. assert (j = i) as -> by lia.
    by rewrite Hclr in Hl; subst l. }
  unfold treat_events. rewrite loop_S. unfold mbind at 1, M_bind at 1.
  rewrite treat_body_pass by (done || cbn; lia). change (tempEvents (vcpu s1)) with (2 ^ Z.of_nat i).
  rewrite Hpen. cbn [dispatch_list]. rewrite bind_assoc.
  rewrite (bind_ok _ _ _ _ _ (dispatch_ok s1 i t d1 (Returned ret) d2 Hok1 Ht Ha
    ltac:(unfold handler_run; cbn [s1 vcpu tempEvents set_tempEvents]; rewrite Hclr; exact Hr))).
  cbn [left_over s1 vcpu tempEvents set_tempEvents]. rewrite Hclr. reflexivity.
Qed.

(** The page of a channel with a first-touch fault at [va]. *)
Record faulting (mp : list Z) (va rs : Z) : Prop := {
  f_valid : valid_page mp;
  f_status : load 4 status_off mp = Some 1;
  f_state : load 4 state_off mp = Some 0;
  f_vaddr : load 8 vaddr_off mp = Some va;
  f_flags : ∃ fl, load 8 flags_off mp = Some fl ∧ Z.testbit fl 3 = false;
  f_rem : load 8 rem_size_off mp = Some rs;
}.

Lemma mem_check_fault s mp va rs : faulting mp va rs → has_page mp s → usm_mem_check s = Ok 1 s.
Proof.
  intros Hf Hp. unfold usm_mem_check. run (load_shared mp 4 status_off 1 s Hp (f_status _ _ _ Hf)).
  by run (load_shared mp 4 state_off 0 s Hp (f_state _ _ _ Hf)).
Qed.

Lemma mem_fault_decodes s mp va rs : faulting mp va rs → has_page mp s → type (event s) = ALLOC →
  ∃ s1, usm_mem_ret_ev s = Ok 0 s1 ∧ (∃ e, s1 = set_event e s) ∧ has_page mp s1 ∧ type (event s1) = ALLOC ∧
    vaddr (event s1) = va ∧ origin (event s1) = origin (event s) ∧
    Z.land (flags (event s1)) UFFD_PAGEFAULT_FLAG_SWAP = 0.
Proof.
  intros Hf Hp Hty. destruct (f_flags _ _ _ Hf) as (fl & Hfl & Hb).
  assert (∃ pa, load 8 paddr_off mp = Some pa) as [pa Hpa].
  { unfold load. rewrite decide_True; [by eexists|]. rewrite (proj1 (f_valid _ _ _ Hf)). unfold paddr_off. lia. }
  eexists. split; [exact (mem_ret_ev_ok s mp va pa fl rs (proj1 Hp) (f_vaddr _ _ _ Hf) Hpa Hfl (f_rem _ _ _ Hf))|].
  split; [by eexists|]. split; [exact Hp|]. do 3 (split; [done|]). cbn.
  apply Z.eqb_eq. unfold UFFD_PAGEFAULT_FLAG_SWAP. change 8 with (2 ^ 3). rewrite land_pow2_eqb, Hb by lia. done.
Qed.

(** The state in which the fault of a channel is handled: its event is the current one. *)
Definition at_channel (c : usm_channel) (d : daemon) : usm := set_event (cnl_event c) (core d).

Lemma usm_handle_mem_alloc d i wk c s1 s2 : usmMemWorkers d !! O = Some wk → usm_channels wk !! i = Some c →
  usm_mem_check (at_channel c d) = Ok 1 (at_channel c d) → usm_mem_ret_ev (at_channel c d) = Ok 0 s1 →
  type (event s1) = ALLOC → handle_alloc s1 = Ok 0 s2 →
  ∃ d', usm_handle_mem 0 i d = Ok 0 d' ∧ core d' = s2 ∧
    channel_at 0 i d' = Ok (UsmChannel (usm_cnl_id c) (fd c) (usm_cnl_type c) (usm_cnl_ops c) (event s2)
      (usm_handle_evt c)) d'.
Proof.
  intros Hw Hc Hck Hret Hty Hal. unfold usm_handle_mem. unfold channel_at at 1.
  rewrite (reads_bind _ _ d c) by (rewrite Hw; exact Hc).
  rewrite (on_core_bind _ _ d tt (at_channel c d)) by done.
  set (d0 := set_core (at_channel c d) d).
  assert (handle_mem_event d0 = Ok 0 (set_core s2 d0)) as E.
  { unfold handle_mem_event. rewrite (on_core_bind _ _ d0 1 (at_channel c d)) by exact Hck. cbn [Z.eqb Z.ltb Z.compare].
    rewrite (on_core_bind _ _ (set_core (at_channel c d) d0) 0 s1) by exact Hret. cbn [Z.eqb negb].
    unfold usm_handle_events. rewrite bind_assoc.
    rewrite (on_core_bind _ _ (set_core s1 (set_core (at_channel c d) d0)) (event s1) s1) by done. rewrite Hty.
    rewrite !bind_assoc. rewrite (on_core_bind _ _ _ 0 s2) by exact Hal. done. }
  run E. unfold store_event.
  erewrite updates_bind by (cbn; rewrite Hw; cbn; rewrite Hc; cbn; reflexivity).
  eexists. split; [done|]. split; [done|]. unfold channel_at, reads. cbn.
  rewrite list_lookup_insert_eq by (by eapply lookup_lt_Some). cbn.
  by rewrite list_lookup_insert_eq by (by eapply lookup_lt_Some).
Qed.

(** C1: A fault is served end to end. When the kernel has written a first-touch fault
    into the page of a channel and raised the bit of the channel, and pages are
    free, one round of [setSched] finds the event, runs the user thread of the
    channel once, and leaves no event pending: the first free page of the pool
    backs the faulting address of the process, the event of the channel carries its
    PFN, and the page is accounted for. *)
Theorem fault_served_in_a_round (s : worker daemon) i t wk c mp va rs m n f used :
  vcpu_ok (vcpu s) → tempEvents (vcpu s) = 0 → uthreads (vcpu s) !! i = Some t →
  usmMemWorkers (world s) !! O = Some wk → usm_channels wk !! i = Some c → u32 (com wk) = 2 ^ Z.of_nat i →
  usm_handle_evt c = usm_handle_mem_p → type (cnl_event c) = ALLOC →
  usmmem (cnl_event c) = Some mp → faulting mp va rs → allocates_uniq (at_channel c (world s)) → accepts_all →
  pool (core (world s)) m (n :: f) used → 0 ≤ usedMemory (core (world s)) < 2 ^ 64 →
  ∃ s' m' p c', setSched_round s = Ok tt s' ∧ tempEvents (vcpu s') = 0 ∧
    pool (core (world s')) m' f (used ++ [n]) ∧ pagesList (core (world s')) !! n = Some p ∧
    virtualAddress p = va ∧ process p = origin (cnl_event c) ∧
    usedMemory (core (world s')) = u64 (usedMemory (core (world s)) + globalPageSize (core (world s))) ∧
    channel_at 0 i (world s') = Ok c' (world s') ∧ paddr (cnl_event c') = pfn_of (core (world s)) n.
Proof.
  intros Hok H0 Ht Hw Hc Hcom Hev Hty Hm Hf Hal Hacc Hp Hum. set (d := world s) in *.
  assert (has_page mp (at_channel c d)) as Hmp by (split; [exact Hm|apply Hf]).
  destruct (mem_fault_decodes _ mp va rs Hf Hmp Hty) as (s1 & Er & [e ->] & Hp1 & Hty1 & Hva & Ho & Hfl).
  destruct (handle_alloc_serves (set_event e (at_channel c d)) m n f used mp Hp Hp1 Hum) as
    (s2 & m' & Eal & Hp2 & (p & Hpn & Epl) & Hpa & Hum2); [|done|done|].
  { destruct Hal as (desc & Hd & Hr). exists desc. rewrite Ho. split; [exact Hd|]. by apply (resolve_same _ (at_channel c d)). }
  destruct (usm_handle_mem_alloc d i wk c _ s2 Hw Hc (mem_check_fault _ mp va rs Hf Hmp) Er Hty1 Eal) as (d' & E & Ecore & Ech).
  assert (channel_at 0 i d = Ok c d) as Hch by (unfold channel_at, reads; rewrite Hw; cbn; by rewrite Hc).
  eexists _, m', _, _. split.
  { apply (lone_event_round s i t (com wk) d d' 0 Hok H0 Ht); [|done|..].
    - cbn. unfold reads. fold d. by rewrite Hw.
    - unfold awaited. destruct (waits t); [|done]. cbn. unfold usm_channel_wait. rewrite Nat2Z.id. run Hch. by rewrite Hm.
    - cbn. unfold usm_handle_evt_call. rewrite Nat2Z.id. run Hch. rewrite Hev. by run E. }
  cbn [vcpu tempEvents world]. rewrite Ecore. split; [done|]. split; [exact Hp2|]. rewrite Epl.
  split; [apply list_lookup_insert_eq; by eapply lookup_lt_Some|]. cbn [virtualAddress process page_process page_vaddr].
  rewrite Hva, Ho. do 2 (split; [done|]). split; [exact Hum2|]. split; [exact Ech|]. exact Hpa.
Qed.
End daemon.

(** * Witnesses *)

Lemma init_uthreads_lookup k l i :
  init_uthreads k l !! i = (λ t, Uthread (Z.of_nat (k + i)) (ut_state t) (-2) Entry) <$> l !! i.
Proof.
  revert k i. induction l as [|t l IH]; intros k [|i]; [done|done| |].
  - cbn. by rewrite Nat.add_0_r.
  - cbn. rewrite IH. by replace (S k + i)%nat with (k + S i)%nat by lia.
Qed.

(** A virtual CPU as [setSched] prepares it, with pending events. *)
Lemma start_vcpu_ok self x : 0 ≤ x < 2 ^ 32 →
  vcpu_ok (set_tempEvents x (start_vcpu self static_vcpu)) ∧ kept (set_tempEvents x (start_vcpu self static_vcpu)).
Proof.
  intros Hx. assert (∀ i t, init_uthreads 0 (replicate 32 static_uthread) !! i = Some t →
    ut_id t = Z.of_nat i ∧ ut_state t = 0 ∧ task t = Entry) as Hl.
  { intros i t. rewrite init_uthreads_lookup. intros (t0 & [-> _]%lookup_replicate & ->)%fmap_Some. done. }
  split.
  - split; [done| |done]. intros i t (H1 & H2 & H3)%Hl. by rewrite H3.
  - intros i t (_ & _ & H3)%Hl. by rewrite H3.
Qed.

(** User threads that wait for given numbers of yields. *)
Definition countdown : Machine (list nat) := {|
  com_word := mret 0;
  await_channel _ := mret tt;
  run_handler more i := λ w,
    match more, w !! Z.to_nat i with
    | true, Some (S k) => Ok Swapped (<[Z.to_nat i := k]> w)
    | _, _ => Ok (Returned 0) w
    end;
  pause := mret tt;
|}.

Lemma countdown_total : total (MC := countdown) (λ _, True).
Proof.
  split; [by eexists _, _|by eexists|..|by eexists].
  intros b i w _. cbn. destruct b; [|by eexists _, _]. destruct (w !! Z.to_nat i) as [[|k]|]; by eexists _, _.
Qed.

Lemma countdown_draining : draining (MC := countdown) (λ _, True) (λ j w, default 0%nat (w !! j)).
Proof.
  split.
  - intros w v w' _ [= <- <-]. done.
  - intros i w w' j _ [= <-]. lia.
  - intros w w' j _ [= <-]. lia.
  - intros b i w e w' j _. cbn. rewrite Nat2Z.id. destruct b; [|intros [= _ <-]; lia].
    destruct (w !! i) as [[|k]|] eqn:E; intros [= _ <-]; [lia| |lia].
    destruct (decide (i = j)) as [->|]; [|rewrite list_lookup_insert_ne by done; lia].
    rewrite list_lookup_insert_eq by (by eapply lookup_lt_Some). rewrite E. cbn. lia.
  - intros b i w w' _. cbn. rewrite Nat2Z.id. destruct b; [|done].
    destruct (w !! i) as [[|k]|] eqn:E; [done| |done]. intros [= <-].
    rewrite list_lookup_insert_eq by (by eapply lookup_lt_Some). cbn. lia.
Qed.

(** Two faults, of channels 0 and 2. *)
Definition two_faults : worker (list nat) :=
  Worker (set_tempEvents 5 (start_vcpu 7 static_vcpu)) 0 true [2; 0; 3]%nat.

Lemma dispatch_runs_pending_witness :
  dispatch_events (MC := countdown) 5 two_faults = dispatch_list (MC := countdown) [0; 2]%nat two_faults.
Proof.
  destruct (dispatch_runs_pending (MC := countdown) 5 two_faults) as [E _]; [lia|].
  rewrite E. reflexivity.
Defined.

Lemma setSched_keeps_handlers_witness : ∃ s',
  repeat_round (setSched_round (MC := countdown)) 1 two_faults = Ok tt s' ∧ vcpu_ok (vcpu s').
Proof.
  destruct (start_vcpu_ok 7 5) as [Hok Hk]; [lia|].
  destruct (setSched_keeps_handlers (MC := countdown) (λ _, True) 1 two_faults countdown_total I Hok Hk)
    as (s' & E & H & _).
  exists s'. split; [exact E|exact H].
Defined.

Lemma faults_drain_witness : ∃ s',
  repeat_round (setSched_round (MC := countdown)) 6 two_faults = Ok tt s' ∧ tempEvents (vcpu s') = 0.
Proof.
  destruct (start_vcpu_ok 7 5) as [Hok Hk]; [lia|].
  destruct (faults_drain (MC := countdown) (λ _, True) (λ j w, default 0%nat (w !! j)) two_faults
    countdown_total countdown_draining I Hok Hk) as (s' & E & H & _).
  exists s'. split; [exact E|exact H].
Defined.

(** A worker whose thread 0 was swapped off. *)
Lemma soldiers_forget_handler_witness : ∃ s s' t, uthreads (vcpu s) !! 0%nat = Some t ∧ task t = InHandler ∧
  repeat_round (soldiers_round (MC := countdown)) 9 s = Ok tt s' ∧ uthreads (vcpu s') !! 0%nat = Some t.
Proof.
  destruct (start_vcpu_ok 7 1) as [Hok _]; [lia|].
  pose proof (dispatch_keeps_ok Swapped 0 static_uthread _ Hok ltac:(lia)) as Hok1.
  set (c := Vcpu _ _ _ _) in Hok1.
  destruct (soldiers_forget_handler (MC := countdown) (λ _, True) 9 (Worker c 0 true []) 0
    (ran Swapped 0 static_uthread) countdown_total) as (s' & E & H).
  - intros w v w' _ [= <- <-]. reflexivity.
  - exact I.
  - exact Hok1.
  - reflexivity.
  - reflexivity.
  - exists (Worker c 0 true []), s', (ran Swapped 0 static_uthread). split; [reflexivity|]. split; [reflexivity|].
    split; [exact E|exact H].
Defined.

(** The daemon of [demo] with a fault at 0x7000 of process 1 on channel 0. *)
Definition fault_page : list Z :=
  default blank_page (m ← store 4 status_off 1 blank_page; store 8 vaddr_off 0x7000 m).

Lemma fault_page_faulting : faulting fault_page 0x7000 0.
Proof.
  split; [|vm_compute; reflexivity..|exists 0; split; vm_compute; reflexivity|vm_compute; reflexivity].
  unfold fault_page. destruct (store_valid blank_page blank_page_valid 4 status_off 1) as (m1 & E1 & V1);
    [done|vm_compute; discriminate|]. rewrite E1.
  destruct (store_valid m1 V1 8 vaddr_off 0x7000) as (m2 & E2 & V2); [done|vm_compute; discriminate|].
  cbn [mbind option_bind]. by rewrite E2.
Qed.

Definition fault_channel : usm_channel :=
  UsmChannel 0 0 RAM_BASED usm_cnl_mem_ops_p (UsmEvent ALLOC None 0 0 0 0 0 1 (Some fault_page)) usm_handle_mem_p.
Definition fault_worker : usm_worker := UsmWorker 0 1 true [fault_channel].
Definition fault_daemon (s : usm) : worker daemon :=
  Worker (set_tempEvents 0 (start_vcpu 7 static_vcpu)) 0 true
    (set_workers [fault_worker] (set_core (set_default_alloc_policy alloc_policy_one_p s) static_daemon)).

Lemma fault_served_in_a_round_witness : ∃ s s',
  setSched_round (MC := daemon_machine (K := reply_kernel 3) (SE := accepting) (TM := maps_page blank_page))
    (fault_daemon s) = Ok tt s' ∧ tempEvents (vcpu s') = 0.
Proof.
  destruct demo_ok as (s & m & _ & Hp & Hum & _ & _ & _ & _ & Hq). destruct (start_vcpu_ok 7 0) as [Hok _]; [lia|].
  destruct (fault_served_in_a_round (K := reply_kernel 3) (SE := accepting) (TM := maps_page blank_page) (fault_daemon s) 0
    (Uthread 0 0 (-2) Entry) fault_worker fault_channel fault_page 0x7000 0 m 0 [1; 2]%nat [])
    as (s' & _ & _ & _ & E & H0 & _).
  - exact Hok.
  - reflexivity.
  - reflexivity.
  - reflexivity.
  - reflexivity.
  - reflexivity.
  - reflexivity.
  - reflexivity.
  - reflexivity.
  - apply fault_page_faulting.
  - exists new_process. split; [apply (Hq 1); lia|reflexivity].
  - apply accepting_accepts.
  - exact Hp.
  - cbn. rewrite Hum. lia.
  - exists s, s'. split; [exact E|exact H0].
Defined.
