(* ===== verification/IUThreads.v ===== *)
(** The build with IUTHREAD (impl/usm/sched.c): the user thread of a channel can be a
    manager, which has a user thread of its own, a managee, for every thread of the
    faulting process. The kernel announces their faults in a second bit field, in the
    page of the channel. All of them swap to the main context of the worker and not to
    their manager: a dispatch of the manager runs one managee at most.

    The worker is that of Sched with the managers; [IuMachine] is what the managers see
    of the page of their channel. The last part instantiates it with the daemon, where
    usm_handle_mem_special (impl/com/com.c) handles the event of a managee. *)
From stdpp Require Import prelude gmap.
From S2P Require Import Prelude Lists State Channel PagePool AllocPolicies Swap Eviction Daemon Events Sched.

Open Scope Z_scope.

(** * Managees and managers *)
Definition MAX_IUTHREADS : Z := 32.

(** [iu_origin] is the origin of the event of the managee; its context is one of those
    of usm_mem_worker_handler_singular_special, which are those of
    usm_mem_worker_handler_singular. *)
Record iuthread := IUthread { iu_id : Z; iu_state : Z; iu_origin : Z; iu_task : ucontext }.
Definition set_iu_state v t := IUthread (iu_id t) v (iu_origin t) (iu_task t).
Definition set_iu_task v t := IUthread (iu_id t) (iu_state t) (iu_origin t) v.

(** Where a manager goes on: at the top of its loop; behind the swap to a managee, with
    its local variables tempIUTEvents, id and treatOtherFaults; behind the swap to the
    main context. *)
Inductive manager_context :=
| AtTop
| AfterManagee (events : Z) (id : nat) (treatOtherFaults : Z)
| AfterBunch.

Record manager := Manager { m_task : manager_context; tempIUTEvents : Z; iuthreads : list iuthread }.
Definition set_m_task v m := Manager v (tempIUTEvents m) (iuthreads m).
Definition set_tempIUTEvents v m := Manager (m_task m) v (iuthreads m).
Definition set_iuthreads v m := Manager (m_task m) (tempIUTEvents m) v.

(** [iu_malloc] is what malloc returns for the managees; [iu_prepare chn fd] writes
    their events; [iu_com] reads the bit field of the managees and [iu_classic] whether
    the page has the mark 100; [iu_pop] clears the bit of the channel in the bit
    field of the worker; [iu_first] is usm_handle_mem_special on the event of the
    first managee; [iu_run more chn id] runs the handler of managee [id] like
    [run_handler]. *)
Class IuMachine (W : Type) := {
  iu_malloc : M W (list iuthread);
  iu_prepare : nat → Z → M W unit;
  iu_com : nat → M W Z;
  iu_classic : nat → M W bool;
  iu_pop : nat → M W unit;
  iu_first : nat → M W Z;
  iu_run : bool → nat → nat → M W slice;
}.

Record iu_worker (W : Type) := IuWorker { base_worker : worker W; managers : gmap nat manager }.
Global Arguments IuWorker {W} _ _.
Global Arguments base_worker {W} _.
Global Arguments managers {W} _.

Section iuthreads.
Context {W : Type} `{MC : Machine W} `{IM : IuMachine W}.
Local Abbreviation X := (iu_worker W).

Definition set_base (v : worker W) (s : X) := IuWorker v (managers s).
Definition set_managers v (s : X) := IuWorker (base_worker s) v.
Definition on_base {A} (c : M (worker W) A) : M X A := λ s,
  match c (base_worker s) with
  | Ok a w => Ok a (set_base w s)
  | Undef => Undef
  | Abort => Abort
  | OutOfFuel => OutOfFuel
  end.
Definition on_iu {A} (c : M W A) : M X A := on_base (on_world c).

Definition manager_at (chn : nat) : M X manager := reads (λ s, managers s !! chn).
Definition update_manager (chn : nat) (f : manager → manager) : M X unit :=
  updates (λ s, m ← managers s !! chn; Some (set_managers (<[chn := f m]> (managers s)) s)).
Definition iuthread_at (chn id : nat) : M X iuthread := reads (λ s, m ← managers s !! chn; iuthreads m !! id).
Definition update_iuthread (chn id : nat) (f : iuthread → iuthread) : M X unit :=
  updates (λ s, m ← managers s !! chn; t ← iuthreads m !! id;
    Some (set_managers (<[chn := set_iuthreads (<[id := f t]> (iuthreads m)) m]> (managers s)) s)).

(** ** usm_mem_worker_handler_singular_special *)

(** The managee is the current user thread, so that usm_yield and scheduler_handler
    test the pending events of the worker without the bit of its own number. *)
Definition usm_mem_worker_handler_singular_special (chn id : nat) : M X unit :=
  t ← iuthread_at chn id;
  _ ← match iu_task t with
      | Entry =>
          _ ← update_iuthread chn id (set_iu_state 1);
          if iu_origin t =? 0 then spin else mret tt
      | AfterDeath => on_iu (await_channel (Z.of_nat chn))
      | InHandler | AfterEvent => mret tt
      end;
  events ← gets (λ s, tempEvents (vcpu (base_worker s)));
  e ← on_iu (iu_run (negb (clear_bit events (iu_id t) =? 0)) chn id);
  match e with
  | Swapped => update_iuthread chn id (set_iu_task InHandler)
  | Returned ret =>
      _ ← update_iuthread chn id (set_iu_state 0);
      update_iuthread chn id (set_iu_task (if ret =? 2 then AfterDeath else AfterEvent))
  end.

(** ** usm_mem_worker_handler_uts *)
Fixpoint init_iuthreads (fd : Z) (ix : nat) (l : list iuthread) : list iuthread :=
  match l with
  | [] => []
  | t :: l => IUthread (Z.of_nat ix) (iu_state t) fd Entry :: init_iuthreads fd (S ix) l
  end.

(** The labels of the loop of the manager, and the swaps that leave it. *)
Inductive uts_label :=
| Top
| trtIUT
| WhileEvents (treatOtherFaults : Z)
| WhileSnapshot (events treatOtherFaults : Z)
| Treated.
Inductive uts_swap := ToMain | ToManagee (id : nat).

(** At [Top] a page with the mark is handled as that of an ordinary channel. The main
    context is then entered with setcontext, which saves no context. *)
Definition uts_body (chn : nat) (l : uts_label) : M X (uts_label + uts_swap) :=
  match l with
  | Top =>
      classic ← on_iu (iu_classic chn);
      if classic : bool then
        _ ← on_base (update_uthread chn (set_ut_state 0));
        _ ← on_iu (iu_pop chn);
        _ ← on_iu (iu_first chn);
        mret (inr ToMain)
      else mret (inl trtIUT)
  | trtIUT =>
      com ← on_iu (iu_com chn);
      _ ← update_manager chn (set_tempIUTEvents com);
      mret (inl (WhileEvents 0))
  | WhileEvents treatOtherFaults =>
      m ← manager_at chn;
      mret (inl (if tempIUTEvents m =? 0 then Treated else WhileSnapshot (tempIUTEvents m) treatOtherFaults))
  | WhileSnapshot events treatOtherFaults =>
      if events =? 0 then
        mret (inl (if negb (treatOtherFaults =? 0) then trtIUT else WhileEvents (treatOtherFaults + 1)))
      else
        let id := Z.to_nat (ffs events - 1) in
        t ← iuthread_at chn id;
        if iu_origin t =? 0 then spin
        else
          _ ← update_iuthread chn id (set_iu_state 1);
          _ ← update_manager chn (set_m_task (AfterManagee events id treatOtherFaults));
          mret (inr (ToManagee id))
  | Treated =>
      com ← on_iu (iu_com chn);
      if com =? 0 then
        _ ← on_base (update_uthread chn (set_ut_state 0));
        _ ← update_manager chn (set_m_task AfterBunch);
        mret (inr ToMain)
      else mret (inl trtIUT)
  end.

(** From a label to the next swap to the main context: by the manager or by the managee
    that it swaps to. [fuel] bounds the steps of the manager. *)
Definition uts_run (fuel : nat) (chn : nat) (l : uts_label) : M X unit :=
  r ← loop fuel (uts_body chn) l;
  match r with
  | ToMain => mret tt
  | ToManagee id => usm_mem_worker_handler_singular_special chn id
  end.

Definition usm_mem_worker_handler_uts (fuel : nat) (chn : nat) : M X unit :=
  t ← on_base (uthread_at chn);
  l ← on_iu iu_malloc;
  _ ← on_iu (iu_prepare chn (ioctl_fd t));
  _ ← modify (λ s, set_managers (<[chn := Manager AtTop 0 (init_iuthreads (ioctl_fd t) 0 l)]> (managers s)) s);
  _ ← on_base (update_uthread chn (set_ut_state 1));
  _ ← on_iu (await_channel (Z.of_nat chn));
  uts_run fuel chn Top.

(** ** usm_mem_worker_handler_singular in this build *)
Definition singular_handles (chn : nat) : M X unit :=
  more ← on_base (reads (λ s, todo (vcpu s)));
  e ← on_iu (run_handler (negb (more =? 0)) (Z.of_nat chn));
  match e with
  | Swapped => on_base (update_uthread chn (set_task InHandler))
  | Returned ret =>
      _ ← on_base (update_uthread chn (set_ut_state 0));
      on_base (update_uthread chn (set_task (if ret =? 2 then AfterDeath else AfterEvent)))
  end.

Definition singular_entry (chn : nat) : M X unit :=
  _ ← on_base (update_uthread chn (set_ut_state 1));
  _ ← on_iu (await_channel (Z.of_nat chn));
  singular_handles chn.

(** After a death the channel may have been given to a process with managees. *)
Definition singular_resumes (fuel : nat) (chn : nat) (c : ucontext) : M X unit :=
  match c with
  | Entry => singular_entry chn
  | AfterDeath =>
      _ ← on_iu (await_channel (Z.of_nat chn));
      t ← on_base (uthread_at chn);
      if negb (ioctl_fd t =? -1) then usm_mem_worker_handler_uts fuel chn else singular_handles chn
  | InHandler | AfterEvent => singular_handles chn
  end.

(** A manager goes on. When the channel has been given to an ordinary process, it
    becomes an ordinary user thread. *)
Definition uts_resumes (fuel : nat) (chn : nat) (m : manager) : M X unit :=
  match m_task m with
  | AtTop => uts_run fuel chn Top
  | AfterManagee events id treatOtherFaults =>
      t ← iuthread_at chn id;
      _ ← (if iu_state t =? 0
           then update_manager chn (λ m, set_tempIUTEvents (clear_bit (tempIUTEvents m) (Z.of_nat id)) m)
           else mret tt);
      uts_run fuel chn (WhileSnapshot (clear_bit events (Z.of_nat id)) treatOtherFaults)
  | AfterBunch =>
      t ← on_base (uthread_at chn);
      if ioctl_fd t =? -1 then
        _ ← modify (λ s, set_managers (base.delete chn (managers s)) s);
        singular_entry chn
      else uts_run fuel chn Top
  end.

(** The loop that waits for the descriptor gives up after the sixth test and assumes an
    ordinary channel. *)
Definition usm_mem_worker_handler_alt (fuel : nat) (chn : nat) : M X unit :=
  t ← on_base (uthread_at chn);
  _ ← (if ioctl_fd t =? -2 then on_base (update_uthread chn (set_ioctl_fd (-1))) else mret tt);
  t ← on_base (uthread_at chn);
  if ioctl_fd t =? -1 then singular_entry chn else usm_mem_worker_handler_uts fuel chn.

(** ** The dispatch of a user thread, from the swap to it to the swap back *)
Definition iu_resume (fuel : nat) (chn : nat) : M X unit :=
  m ← gets (λ s, managers s !! chn);
  match m with
  | Some m => uts_resumes fuel chn m
  | None =>
      t ← on_base (uthread_at chn);
      match task t with
      | Entry => usm_mem_worker_handler_alt fuel chn
      | c => singular_resumes fuel chn c
      end
  end.

Definition iu_dispatch (fuel : nat) (chn : nat) : M X unit :=
  _ ← on_base (update_vcpu (set_current (Some chn)));
  _ ← on_base (update_uthread chn (set_ut_state 1));
  _ ← iu_resume fuel chn;
  t ← on_base (uthread_at chn);
  if ut_state t =? 0 then on_base (update_vcpu (λ c, set_tempEvents (clear_bit (tempEvents c) (Z.of_nat chn)) c))
  else mret tt.

Fixpoint iu_dispatches (fuel : nat) (chn n : nat) : M X unit :=
  match n with
  | O => mret tt
  | S n => _ ← iu_dispatch fuel chn; iu_dispatches fuel chn n
  end.
End iuthreads.

(** uthread_create_recursive: the bit field of the managees is in the page of the
    channel, where [iu_com] reads it. *)
Definition uthread_create_recursive (uthread_id : nat) (fd : Z) (c : vcpu_t) : option vcpu_t :=
  t ← Sched.uthreads c !! uthread_id;
  Some (set_uthreads (<[uthread_id := set_ioctl_fd fd t]> (Sched.uthreads c)) c).

(** * A bunch of faults *)
Section serving.
Context {W : Type} `{MC : Machine W} `{IM : IuMachine W} (chn : nat).
Local Abbreviation X := (iu_worker W).

(** The handlers return without being swapped off and the kernel takes the bit of a
    managee back when its fault is handled. *)
Record serving (J : W → Prop) (bits : W → Z) : Prop := {
  sv_word : ∀ w, J w → 0 ≤ bits w < 2 ^ 32;
  sv_com : ∀ w, J w → iu_com chn w = Ok (bits w) w;
  sv_classic : ∀ w, J w → iu_classic chn w = Ok false w;
  sv_malloc : ∀ w, J w → ∃ l w', iu_malloc w = Ok l w' ∧ base.length l = 32%nat ∧ J w' ∧ bits w' = bits w;
  sv_prepare : ∀ w fd, J w → ∃ w', iu_prepare chn fd w = Ok tt w' ∧ J w' ∧ bits w' = bits w;
  sv_await : ∀ w, J w → ∃ w', await_channel (Z.of_nat chn) w = Ok tt w' ∧ J w' ∧ bits w' = bits w;
  sv_run : ∀ b id w, J w → (id < 32)%nat →
    ∃ r w', iu_run b chn id w = Ok (Returned r) w' ∧ J w' ∧ bits w' = clear_bit (bits w) (Z.of_nat id);
}.

(** The managees that a list names handle their faults, one after the other: [l] has
    their contexts and [te] the pending events of the worker. *)
Definition served (te : Z) (id : nat) (t : iuthread) (w w' : W) : Prop :=
  ∃ w1 r, (if iu_task t is AfterDeath then await_channel (Z.of_nat chn) w = Ok tt w1 else w1 = w) ∧
    iu_run (negb (clear_bit te (Z.of_nat id) =? 0)) chn id w1 = Ok (Returned r) w'.
Inductive serves (te : Z) (l : list iuthread) : list nat → W → W → Prop :=
| serves_nil w : serves te l [] w w
| serves_cons id ids t w w1 w2 :
    l !! id = Some t → served te id t w w1 → serves te l ids w1 w2 → serves te l (id :: ids) w w2.

Lemma serves_ext te l l' ids w w' : (∀ j, j ∈ ids → l' !! j = l !! j) → serves te l ids w w' → serves te l' ids w w'.
Proof.
  intros H S. induction S as [|id ids t w w1 w2 Ht Hs _ IH]; [constructor|].
  econstructor; [rewrite H; [done|by left]|done|]. apply IH. intros j Hj. apply H. by right.
Qed.

(** ** States *)
Lemma on_base_bind {A B} (c : M (worker W) A) (k : A → M X B) s a b :
  c (base_worker s) = Ok a b → (on_base c ≫= k) s = k a (set_base b s).
Proof. intros H. unfold mbind, M_bind, on_base. by rewrite H. Qed.
Lemma on_iu_bind {A B} (c : M W A) (k : A → M X B) s a w :
  c (world (base_worker s)) = Ok a w → (on_iu c ≫= k) s = k a (set_base (set_world w (base_worker s)) s).
Proof. intros H. unfold on_iu. apply on_base_bind. unfold on_world. by rewrite H. Qed.

(** The user thread [u] of the channel with the manager [m], in a worker whose other
    parts [s] has. *)
Definition at_chn (s : X) (u : uthread_t) (te : Z) (w : W) (m : manager) : X :=
  let b := base_worker s in
  IuWorker (Worker (Vcpu (thread (vcpu b)) (<[chn := u]> (Sched.uthreads (vcpu b))) (Some chn) te) (rounds b) (awake b) w)
    (<[chn := m]> (managers s)).

Lemma at_chn_uthread s u te w m : (chn < base.length (Sched.uthreads (vcpu (base_worker s))))%nat →
  uthread_at chn (base_worker (at_chn s u te w m)) = Ok u (base_worker (at_chn s u te w m)).
Proof. intros H. unfold uthread_at, reads. cbn. by rewrite list_lookup_insert_eq. Qed.

Lemma at_chn_update {B} s u te w m f (k : unit → M X B) : (chn < base.length (Sched.uthreads (vcpu (base_worker s))))%nat →
  (on_base (update_uthread chn f) ≫= k) (at_chn s u te w m) = k tt (at_chn s (f u) te w m).
Proof.
  intros H. erewrite on_base_bind; [|unfold update_uthread, updates; cbn; by rewrite list_lookup_insert_eq].
  unfold set_base, at_chn, set_vcpu, set_uthreads. cbn. by rewrite list_insert_insert_eq.
Qed.

Lemma at_chn_manager {B} s u te w m (k : manager → M X B) : (manager_at chn ≫= k) (at_chn s u te w m) = k m (at_chn s u te w m).
Proof. unfold manager_at. rewrite (reads_bind _ _ _ m); [done|]. cbn. by rewrite lookup_insert_eq. Qed.
Lemma at_chn_update_manager {B} s u te w m f (k : unit → M X B) :
  (update_manager chn f ≫= k) (at_chn s u te w m) = k tt (at_chn s u te w (f m)).
Proof.
  unfold update_manager. erewrite updates_bind; [|cbn; rewrite lookup_insert_eq; reflexivity].
  unfold set_managers, at_chn. cbn. by rewrite insert_insert_eq.
Qed.
Lemma at_chn_iuthread {B} s u te w m id t (k : iuthread → M X B) : iuthreads m !! id = Some t →
  (iuthread_at chn id ≫= k) (at_chn s u te w m) = k t (at_chn s u te w m).
Proof. intros H. unfold iuthread_at. rewrite (reads_bind _ _ _ t); [done|]. cbn. by rewrite lookup_insert_eq. Qed.
Lemma at_chn_update_iuthread {B} s u te w m id t f (k : unit → M X B) : iuthreads m !! id = Some t →
  (update_iuthread chn id f ≫= k) (at_chn s u te w m) = k tt (at_chn s u te w (set_iuthreads (<[id := f t]> (iuthreads m)) m)).
Proof.
  intros H. unfold update_iuthread. erewrite updates_bind; [|cbn; rewrite lookup_insert_eq; cbn; rewrite H; reflexivity].
  unfold set_managers, at_chn. cbn. by rewrite insert_insert_eq.
Qed.
Lemma at_chn_world {A B} s u te w m (c : M W A) a w' (k : A → M X B) : c w = Ok a w' →
  (on_iu c ≫= k) (at_chn s u te w m) = k a (at_chn s u te w' m).
Proof. intros H. by rewrite (on_iu_bind _ _ _ a w'). Qed.

Definition iuthreads_ok (l : list iuthread) : Prop :=
  base.length l = 32%nat ∧ ∀ i t, l !! i = Some t → iu_id t = Z.of_nat i ∧ iu_origin t ≠ 0.

Lemma iuthreads_ok_insert l id t : iuthreads_ok l → iu_id t = Z.of_nat id → iu_origin t ≠ 0 → iuthreads_ok (<[id := t]> l).
Proof.
  intros [Hl H] Hi Ho. split; [by rewrite length_insert|]. intros i t' [(<- & <- & _)|[_ Ht]]%list_lookup_insert_Some; [done|by apply H].
Qed.

(** What a managee leaves of itself. *)
Definition iu_ran (r : Z) (t : iuthread) : iuthread :=
  IUthread (iu_id t) 0 (iu_origin t) (if r =? 2 then AfterDeath else AfterEvent).

Context (J : W → Prop) (bits : W → Z) (SV : serving J bits).

Lemma managee_ok s u te w m id t : iuthreads_ok (iuthreads m) → iuthreads m !! id = Some t → J w →
  ∃ r w', served te id t w w' ∧ J w' ∧ bits w' = clear_bit (bits w) (Z.of_nat id) ∧
    usm_mem_worker_handler_singular_special chn id (at_chn s u te w m) =
      Ok tt (at_chn s u te w' (set_iuthreads (<[id := iu_ran r t]> (iuthreads m)) m)).
Proof.
  intros [Hl Hok] Ht Hw. destruct (Hok id t Ht) as [Hi Ho]. pose proof (lookup_lt_Some _ _ _ Ht) as Hlt.
  assert (id < 32)%nat as Hid by lia.
  assert (∃ w1, (if iu_task t is AfterDeath then await_channel (Z.of_nat chn) w = Ok tt w1 else w1 = w) ∧ J w1 ∧ bits w1 = bits w)
    as (w1 & Ha & Hw1 & Hb1).
  { destruct (iu_task t); try (by eexists). destruct (sv_await _ _ SV w Hw) as (w1 & ? & ? & ?). by eexists. }
  destruct (sv_run _ _ SV (negb (clear_bit te (Z.of_nat id) =? 0)) id w1 Hw1 Hid) as (r & w2 & Er & Hw2 & Hb2).
  exists r, w2. split; [by exists w1, r|]. split; [done|]. split; [by rewrite Hb2, Hb1|].
  assert (∃ t1, iu_id t1 = iu_id t ∧ iu_origin t1 = iu_origin t ∧ ∀ (k : unit → M X unit),
    ((match iu_task t with
      | Entry => _ ← update_iuthread chn id (set_iu_state 1); if iu_origin t =? 0 then spin else mret tt
      | AfterDeath => on_iu (await_channel (Z.of_nat chn))
      | InHandler | AfterEvent => mret tt
      end) ≫= k) (at_chn s u te w m) = k tt (at_chn s u te w1 (set_iuthreads (<[id := t1]> (iuthreads m)) m))) as (t1 & I1 & O1 & E1).
  { assert (set_iuthreads (<[id := t]> (iuthreads m)) m = m) as Em by (rewrite list_insert_id by done; by destruct m).
    destruct (iu_task t).
    - exists (set_iu_state 1 t). split; [done|]. split; [done|]. intros k. subst w1.
      rewrite bind_assoc, (at_chn_update_iuthread _ _ _ _ _ _ t) by done. by rewrite (proj2 (Z.eqb_neq _ _) Ho).
    - exists t. split; [done|]. split; [done|]. intros k. subst w1. by rewrite Em.
    - exists t. split; [done|]. split; [done|]. intros k. subst w1. by rewrite Em.
    - exists t. split; [done|]. split; [done|]. intros k. rewrite (at_chn_world _ _ _ _ _ _ tt w1) by done. by rewrite Em. }
  unfold usm_mem_worker_handler_singular_special. rewrite (at_chn_iuthread _ _ _ _ _ _ t _ Ht), E1, gets_bind, Hi.
  rewrite (at_chn_world _ _ _ w1 _ _ (Returned r) w2) by exact Er.
  rewrite (at_chn_update_iuthread _ _ _ _ _ _ t1) by (cbn; by apply list_lookup_insert_eq).
  assert (∀ s : X, ∀ f, update_iuthread chn id f s = (update_iuthread chn id f ≫= mret) s) as Eret.
  { intros s0 f. unfold mbind, M_bind. by destruct (update_iuthread chn id f s0) as [[]| | |]. }
  rewrite Eret. erewrite at_chn_update_iuthread by (cbn; rewrite list_insert_insert_eq; by apply list_lookup_insert_eq).
  cbn. rewrite !list_insert_insert_eq. unfold iu_ran, set_iu_task, set_iu_state. cbn. by rewrite I1, O1.
Qed.

(** The manager goes on with the snapshot [E] of the events, which are all there are. *)
Lemma snapshot_ok fuel s u te w m E id l : (0 < fuel)%nat → iuthreads_ok (iuthreads m) → J w → 0 ≤ E < 2 ^ 32 → pending E = id :: l →
  ∃ t r w', iuthreads m !! id = Some t ∧ served te id t w w' ∧ J w' ∧ bits w' = clear_bit (bits w) (Z.of_nat id) ∧
    uts_run fuel chn (WhileSnapshot E 0) (at_chn s u te w m) =
      Ok tt (at_chn s u te w' (Manager (AfterManagee E id 0) (tempIUTEvents m) (<[id := iu_ran r t]> (iuthreads m)))).
Proof.
  intros Hf Hok Hw HE Hp. destruct fuel as [|fuel]; [lia|].
  destruct (pend_cons 32 0 E id l) as (Hid & Hffs & _); [done|lia|exact Hp|]. change (Z.of_nat 0) with 0 in Hffs. fold (ffs E) in Hffs.
  assert (E ≠ 0) as Hne by (intros ->; done).
  destruct (lookup_lt_is_Some_2 (iuthreads m) id) as [t Ht]; [rewrite (proj1 Hok); lia|]. destruct (proj2 Hok id t Ht) as [Hi Ho].
  set (m1 := set_m_task (AfterManagee E id 0) (set_iuthreads (<[id := set_iu_state 1 t]> (iuthreads m)) m)).
  assert (iuthreads_ok (iuthreads m1)) as Hok1 by (by apply iuthreads_ok_insert).
  assert (iuthreads m1 !! id = Some (set_iu_state 1 t)) as Ht1 by (cbn; apply list_lookup_insert_eq; by eapply lookup_lt_Some).
  destruct (managee_ok s u te w m1 id _ Hok1 Ht1 Hw) as (r & w' & Hs & Hw' & Hb & Em).
  exists t, r, w'. do 4 (split; [done|]). unfold uts_run. rewrite loop_S, bind_assoc. cbn [uts_body]. rewrite (proj2 (Z.eqb_neq _ _) Hne).
  rewrite Hffs. replace (Z.of_nat id + 1 - 1) with (Z.of_nat id) by lia. rewrite Nat2Z.id, bind_assoc.
  rewrite (at_chn_iuthread _ _ _ _ _ _ t _ Ht), (proj2 (Z.eqb_neq _ _) Ho), bind_assoc, (at_chn_update_iuthread _ _ _ _ _ _ t) by done.
  rewrite bind_assoc, at_chn_update_manager, ret_bind, ret_bind. fold m1. rewrite Em. cbn. by rewrite list_insert_insert_eq.
Qed.

Lemma treated_ok fuel s u te w m : (0 < fuel)%nat → (chn < base.length (Sched.uthreads (vcpu (base_worker s))))%nat → J w → bits w = 0 →
  uts_run fuel chn Treated (at_chn s u te w m) = Ok tt (at_chn s (set_ut_state 0 u) te w (set_m_task AfterBunch m)).
Proof.
  intros Hf Hc Hw Hb. destruct fuel as [|fuel]; [lia|]. unfold uts_run. rewrite loop_S, bind_assoc. cbn [uts_body].
  rewrite bind_assoc, (at_chn_world _ _ _ w _ _ 0 w) by (rewrite <- Hb; by apply (sv_com _ _ SV)). cbn [Z.eqb].
  rewrite bind_assoc, at_chn_update by done. by rewrite bind_assoc, at_chn_update_manager, ret_bind, ret_bind.
Qed.

(** ** One dispatch *)

(** The manager has used the snapshot [E] of its events: all are treated, or the first
    managee has handled its fault. *)
Definition went (E : Z) (s : X) (u : uthread_t) (te : Z) (w : W) (l : list iuthread) (s' : X) : Prop :=
  match pending E with
  | [] => ∃ e, s' = at_chn s (set_ut_state 0 u) te w (Manager AfterBunch e l)
  | id :: _ => ∃ t r w', l !! id = Some t ∧ served te id t w w' ∧ J w' ∧ bits w' = clear_bit E (Z.of_nat id) ∧
      s' = at_chn s u te w' (Manager (AfterManagee E id 0) E (<[id := iu_ran r t]> l))
  end.

Lemma snapshot_went fuel s u te w m E : (3 ≤ fuel)%nat → (chn < base.length (Sched.uthreads (vcpu (base_worker s))))%nat →
  iuthreads_ok (iuthreads m) → J w → bits w = E → tempIUTEvents m = E →
  ∃ s', uts_run fuel chn (WhileSnapshot E 0) (at_chn s u te w m) = Ok tt s' ∧ went E s u te w (iuthreads m) s'.
Proof.
  intros Hf Hc Hok Hw Hb Hm. assert (0 ≤ E < 2 ^ 32) as HE by (rewrite <- Hb; by apply (sv_word _ _ SV)). unfold went.
  destruct (pending E) as [|id l] eqn:Hp.
  - apply pending_nil in Hp; [|done]. rewrite Hp in *. clear Hp HE E. destruct fuel as [|[|fuel]]; [lia..|]. eexists. split; [|by exists 0].
    assert (uts_run (S (S fuel)) chn (WhileSnapshot 0 0) (at_chn s u te w m) = uts_run fuel chn Treated (at_chn s u te w m)) as ->.
    { unfold uts_run. rewrite loop_S, bind_assoc. cbn [uts_body Z.eqb negb]. rewrite ret_bind, loop_S, bind_assoc. cbn [uts_body].
      by rewrite bind_assoc, at_chn_manager, Hm, ret_bind. }
    rewrite treated_ok by (done || lia). rewrite <- Hm. by destruct m.
  - destruct (snapshot_ok fuel s u te w m E id l) as (t & r & w' & Ht & Hs & Hw' & Hb' & Er); [lia|done..|].
    eexists. split; [exact Er|]. exists t, r, w'. rewrite Hb in Hb'. by rewrite Hm.
Qed.

Lemma top_went fuel s u te w m E : (5 ≤ fuel)%nat → (chn < base.length (Sched.uthreads (vcpu (base_worker s))))%nat →
  iuthreads_ok (iuthreads m) → J w → bits w = E →
  ∃ s', uts_run fuel chn Top (at_chn s u te w m) = Ok tt s' ∧ went E s u te w (iuthreads m) s'.
Proof.
  intros Hf Hc Hok Hw Hb. do 3 (destruct fuel as [|fuel]; [lia|]).
  set (m1 := set_tempIUTEvents E m).
  assert (uts_run (S (S (S fuel))) chn Top (at_chn s u te w m) =
    uts_run fuel chn (if E =? 0 then Treated else WhileSnapshot E 0) (at_chn s u te w m1)) as ->.
  { unfold uts_run. rewrite loop_S, bind_assoc. cbn [uts_body]. rewrite bind_assoc.
    rewrite (at_chn_world _ _ _ w _ _ false w) by (by apply (sv_classic _ _ SV)). rewrite ret_bind, loop_S, bind_assoc. cbn [uts_body].
    rewrite bind_assoc, (at_chn_world _ _ _ w _ _ E w) by (rewrite <- Hb; by apply (sv_com _ _ SV)).
    rewrite bind_assoc, at_chn_update_manager, ret_bind, loop_S, bind_assoc. cbn [uts_body].
    rewrite bind_assoc, at_chn_manager, ret_bind. done. }
  destruct (Z.eqb_spec E 0) as [->|Hne].
  - rewrite treated_ok by (done || lia). eexists. split; [done|]. by exists 0.
  - assert (0 ≤ E < 2 ^ 32) as HE by (rewrite <- Hb; by apply (sv_word _ _ SV)). unfold went.
    destruct (pending E) as [|id l] eqn:Hp; [by apply pending_nil in Hp|].
    destruct (snapshot_ok fuel s u te w m1 E id l) as (t & r & w' & Ht & Hs & Hw' & Hb' & Er); [lia|done..|].
    eexists. split; [exact Er|]. exists t, r, w'. rewrite Hb in Hb'. done.
Qed.

(** The worker when it swaps to the user thread. *)
Definition swapped_in (s : X) (u : uthread_t) : X :=
  let b := base_worker s in
  IuWorker (Worker (Vcpu (thread (vcpu b)) (<[chn := set_ut_state 1 u]> (Sched.uthreads (vcpu b))) (Some chn) (tempEvents (vcpu b)))
    (rounds b) (awake b) (world b)) (managers s).

(** The dispatch behind the swap. *)
Definition swapped_out : M X unit :=
  t ← on_base (uthread_at chn);
  if ut_state t =? 0 then on_base (update_vcpu (λ c, set_tempEvents (clear_bit (tempEvents c) (Z.of_nat chn)) c))
  else mret tt.

Lemma iu_dispatch_in fuel s u : Sched.uthreads (vcpu (base_worker s)) !! chn = Some u →
  iu_dispatch fuel chn s = (_ ← iu_resume fuel chn; swapped_out) (swapped_in s u).
Proof.
  intros Hu. unfold iu_dispatch, update_vcpu.
  rewrite (on_base_bind _ _ s tt (set_vcpu (set_current (Some chn) (vcpu (base_worker s))) (base_worker s))) by done.
  erewrite on_base_bind; [|unfold update_uthread, updates; cbn; by rewrite Hu]. reflexivity.
Qed.

Lemma iu_dispatch_ok fuel s u u' te w' m' : Sched.uthreads (vcpu (base_worker s)) !! chn = Some u →
  iu_resume fuel chn (swapped_in s u) = Ok tt (at_chn s u' te w' m') →
  iu_dispatch fuel chn s = Ok tt (at_chn s u' (if ut_state u' =? 0 then clear_bit te (Z.of_nat chn) else te) w' m').
Proof.
  intros Hu E. pose proof (lookup_lt_Some _ _ _ Hu) as Hc. rewrite (iu_dispatch_in _ _ _ Hu). run E. unfold swapped_out.
  rewrite (on_base_bind _ _ _ u' (base_worker (at_chn s u' te w' m'))) by (by apply at_chn_uthread). by destruct (ut_state u' =? 0).
Qed.

Lemma swapped_in_manager s u m : managers s !! chn = Some m →
  swapped_in s u = at_chn s (set_ut_state 1 u) (tempEvents (vcpu (base_worker s))) (world (base_worker s)) m.
Proof. intros H. unfold swapped_in, at_chn. by rewrite (insert_id (managers s)). Qed.

(** A manager that waits for its channel to be dispatched, with [E] left to treat. *)
Record treats (E te : Z) (l : list iuthread) (w : W) (s : X) (u : uthread_t) (m : manager) : Prop := {
  tr_uthread : Sched.uthreads (vcpu (base_worker s)) !! chn = Some u;
  tr_manager : managers s !! chn = Some m;
  tr_events : tempEvents (vcpu (base_worker s)) = te;
  tr_world : world (base_worker s) = w;
  tr_inv : J w;
  tr_bits : bits w = E;
  tr_iuthreads : iuthreads m = l;
  tr_ok : iuthreads_ok l;
  tr_fd : ioctl_fd u ≠ -1;
  tr_task : match m_task m with
    | AtTop | AfterBunch => True
    | AfterManagee E0 id treat => treat = 0 ∧ tempIUTEvents m = E0 ∧ E = clear_bit E0 (Z.of_nat id) ∧ ∃ t, l !! id = Some t ∧ iu_state t = 0
    end;
}.

Lemma treats_went fuel E te l w s u m : (5 ≤ fuel)%nat → treats E te l w s u m →
  ∃ s', iu_resume fuel chn (swapped_in s u) = Ok tt s' ∧ went E s (set_ut_state 1 u) te w l s'.
Proof.
  intros Hf [Hu Hm Hte Hw HJ Hb Hl Hok Hfd Htask]. pose proof (lookup_lt_Some _ _ _ Hu) as Hc.
  rewrite (swapped_in_manager s u m Hm), Hte, Hw. unfold iu_resume. rewrite gets_bind. cbn [at_chn managers]. rewrite lookup_insert_eq.
  unfold uts_resumes. destruct (m_task m) as [|E0 id treat|].
  - rewrite <- Hl. apply top_went; try done. by rewrite Hl.
  - destruct Htask as (-> & Hev & HE & t & Ht & Hst). rewrite (at_chn_iuthread _ _ _ _ _ _ t) by (by rewrite Hl). rewrite Hst. cbn [Z.eqb].
    rewrite at_chn_update_manager, Hev, <- HE. set (m1 := set_tempIUTEvents E m). rewrite <- Hl. change (iuthreads m) with (iuthreads m1).
    apply snapshot_went; try done; [lia|]. cbn. by rewrite Hl.
  - rewrite (on_base_bind _ _ _ (set_ut_state 1 u) _ (at_chn_uthread _ _ _ _ _ Hc)). cbn [ioctl_fd set_ut_state].
    rewrite (proj2 (Z.eqb_neq _ _) Hfd). rewrite <- Hl. apply top_went; try done. by rewrite Hl.
Qed.

(** ** All of them *)
Lemma treats_dispatch fuel E te l w s u m : (5 ≤ fuel)%nat → treats E te l w s u m →
  match pending E with
  | [] => ∃ s' m', iu_dispatch fuel chn s = Ok tt s' ∧ treats 0 (clear_bit te (Z.of_nat chn)) l w s' (set_ut_state 0 u) m' ∧ m_task m' = AfterBunch
  | id :: ids => ∃ t r w' s' m', l !! id = Some t ∧ served te id t w w' ∧ iu_dispatch fuel chn s = Ok tt s' ∧
      pending (clear_bit E (Z.of_nat id)) = ids ∧
      treats (clear_bit E (Z.of_nat id)) te (<[id := iu_ran r t]> l) w' s' (set_ut_state 1 u) m'
  end.
Proof.
  intros Hf Htr. destruct (treats_went fuel E te l w s u m Hf Htr) as (s' & Er & Hwent). destruct Htr as [Hu Hm Hte Hw HJ Hb Hl Hok Hfd Htask].
  assert (0 ≤ E < 2 ^ 32) as HE by (rewrite <- Hb; by apply (sv_word _ _ SV)). unfold went in Hwent.
  destruct (pending E) as [|id ids] eqn:Hp.
  - destruct Hwent as [e ->]. apply pending_nil in Hp; [|done]. eexists _, (Manager AfterBunch e l). split; [exact (iu_dispatch_ok _ _ _ _ _ _ _ Hu Er)|].
    split; [|done]. split; cbn; try done; [by apply list_lookup_insert_eq, (lookup_lt_Some _ _ _ Hu)|by rewrite lookup_insert_eq|congruence].
  - destruct Hwent as (t & r & w' & Ht & Hs & Hw' & Hb' & ->). destruct (pend_cons 32 0 E id ids) as (_ & _ & Hids); [done|lia|exact Hp|].
    destruct (proj2 Hok id t Ht) as [Hi Ho]. pose proof (lookup_lt_Some _ _ _ Ht) as Hlt.
    eexists t, r, w', _, (Manager (AfterManagee E id 0) E (<[id := iu_ran r t]> l)). split; [done|]. split; [done|]. split; [exact (iu_dispatch_ok _ _ _ _ _ _ _ Hu Er)|]. split; [done|].
    split; cbn; try done; [by apply list_lookup_insert_eq, (lookup_lt_Some _ _ _ Hu)|by rewrite lookup_insert_eq|by apply iuthreads_ok_insert|].
    do 3 (split; [done|]). eexists. split; [by apply list_lookup_insert_eq|done].
Qed.

Lemma treats_bunch fuel ids : ∀ E te l w s u m, (5 ≤ fuel)%nat → treats E te l w s u m → pending E = ids →
  (∀ k, (k ≤ base.length ids)%nat → ∃ sk, iu_dispatches fuel chn k s = Ok tt sk ∧ tempEvents (vcpu (base_worker sk)) = te ∧
     serves te l (take k ids) w (world (base_worker sk)) ∧ pending (bits (world (base_worker sk))) = drop k ids) ∧
  ∃ s' u' m' l' w', iu_dispatches fuel chn (S (base.length ids)) s = Ok tt s' ∧ serves te l ids w w' ∧
    treats 0 (clear_bit te (Z.of_nat chn)) l' w' s' u' m' ∧ m_task m' = AfterBunch ∧ ut_state u' = 0.
Proof.
  induction ids as [|id ids IH]; intros E te l w s u m Hf Htr Hp; pose proof (treats_dispatch fuel E te l w s u m Hf Htr) as Hd; rewrite Hp in Hd.
  - destruct Hd as (s' & m' & Ed & Htr' & Hm'). split.
    + intros k Hk. assert (k = 0%nat) as -> by (cbn in Hk; lia). exists s. split; [done|]. destruct Htr as [_ _ H1 -> _ -> _ _ _ _].
      split; [done|]. by split; [constructor|].
    + exists s', (set_ut_state 0 u), m', l, w. split; [cbn; by run Ed|]. split; [constructor|done].
  - destruct Hd as (t & r & w1 & s1 & m1 & Ht & Hs & Ed & Hp1 & Htr1).
    destruct (IH _ te _ w1 s1 _ m1 Hf Htr1 Hp1) as (Hk1 & s' & u' & m' & l' & w' & Es & Hserve & Htr' & Hm' & Hu').
    assert (∀ js w2, (∀ j, j ∈ js → j ∈ ids) → serves te (<[id := iu_ran r t]> l) js w1 w2 → serves te l (id :: js) w w2) as Hcons.
    { intros js w2 Hin Hserve'. econstructor; [done|done|]. eapply serves_ext; [|exact Hserve'].
      intros j Hj. rewrite list_lookup_insert_ne; [done|]. intros <-.
      assert (NoDup (id :: ids)) as Hnd by (rewrite <- Hp; apply NoDup_pending). apply NoDup_cons in Hnd as [Hnd _]. by apply Hnd, Hin. }
    split.
    + intros [|k] Hk.
      { exists s. split; [done|]. destruct Htr as [_ _ H1 -> _ -> _ _ _ _]. split; [done|]. by split; [constructor|]. }
      destruct (Hk1 k) as (sk & Ek & Hte & Hsk & Hpk); [cbn in Hk; lia|]. exists sk. split; [cbn; by run Ed|].
      split; [done|]. split; [|done]. apply Hcons; [|done]. intros j Hj. rewrite <- (take_drop k ids). apply elem_of_app. by left.
    + exists s', u', m', l', w'. split; [cbn [iu_dispatches base.length]; run Ed; exact Es|]. split; [by apply Hcons|done].
Qed.

(** ** The start of a manager *)
Lemma init_iuthreads_lookup fd k l i :
  init_iuthreads fd k l !! i = (λ t, IUthread (Z.of_nat (k + i)) (iu_state t) fd Entry) <$> l !! i.
Proof.
  revert k i. induction l as [|t l IH]; intros k [|i]; [done|done| |].
  - cbn. by rewrite Nat.add_0_r.
  - cbn. rewrite IH. by replace (S k + i)%nat with (k + S i)%nat by lia.
Qed.

Lemma init_iuthreads_ok fd l : base.length l = 32%nat → fd ≠ 0 → iuthreads_ok (init_iuthreads fd 0 l).
Proof.
  intros Hl Hfd. split.
  - rewrite <- Hl. clear. generalize 0%nat. induction l as [|t l IH]; intros k; [done|]. cbn. by rewrite IH.
  - intros i t. rewrite init_iuthreads_lookup. intros (t0 & _ & ->)%fmap_Some. done.
Qed.

(** A user thread of a channel with managees that waits for its dispatch: it has not
    run yet, or it has treated every event it has seen. *)
Definition manager_ready (s : X) (u : uthread_t) : Prop :=
  Sched.uthreads (vcpu (base_worker s)) !! chn = Some u ∧ (ioctl_fd u ≠ -2 ∧ ioctl_fd u ≠ -1 ∧ ioctl_fd u ≠ 0) ∧ J (world (base_worker s)) ∧
  match managers s !! chn with
  | None => task u = Entry
  | Some m => iuthreads_ok (iuthreads m) ∧ m_task m ∈ [AtTop; AfterBunch]
  end.

(** A manager that has not run yet behaves like one at the top of its loop. *)
Lemma manager_starts s u : manager_ready s u → ∃ l w m s1,
  treats (bits (world (base_worker s))) (tempEvents (vcpu (base_worker s))) l w s1 u m ∧
  ∀ fuel n, iu_dispatches fuel chn (S n) s = iu_dispatches fuel chn (S n) s1.
Proof.
  intros (Hu & (F2 & F1 & F0) & HJ & Hm). set (w := world (base_worker s)) in *. set (te := tempEvents (vcpu (base_worker s))).
  destruct (managers s !! chn) as [m|] eqn:Em.
  { destruct Hm as [Hok Ht]. exists (iuthreads m), w, m, s. split; [|done]. split; try done. by destruct (m_task m); [|set_solver|]. }
  destruct (sv_malloc _ _ SV w HJ) as (l & w1 & E1 & Hl & J1 & B1). destruct (sv_prepare _ _ SV w1 (ioctl_fd u) J1) as (w2 & E2 & J2 & B2).
  destruct (sv_await _ _ SV w2 J2) as (w3 & E3 & J3 & B3).
  set (m := Manager AtTop 0 (init_iuthreads (ioctl_fd u) 0 l)). set (b := base_worker s).
  set (s1 := IuWorker (Worker (vcpu b) (rounds b) (awake b) w3) (<[chn := m]> (managers s))).
  exists (iuthreads m), w3, m, s1. split.
  { split; try done; [cbn; by rewrite lookup_insert_eq|congruence|by apply init_iuthreads_ok]. }
  intros fuel n. cbn [iu_dispatches]. assert (iu_dispatch fuel chn s = iu_dispatch fuel chn s1) as E; [|unfold mbind, M_bind; by rewrite E].
  rewrite (iu_dispatch_in _ _ _ Hu), (iu_dispatch_in fuel s1 u Hu). pose proof (lookup_lt_Some _ _ _ Hu) as Hc.
  assert (iu_resume fuel chn (swapped_in s u) = iu_resume fuel chn (swapped_in s1 u)) as E; [|unfold mbind, M_bind; by rewrite E].
  assert (uthread_at chn (base_worker (swapped_in s u)) = Ok (set_ut_state 1 u) (base_worker (swapped_in s u))) as Eu
    by (unfold uthread_at, reads; cbn; by rewrite list_lookup_insert_eq).
  assert (∀ {B} (k : uthread_t → M X B), (on_base (uthread_at chn) ≫= k) (swapped_in s u) = k (set_ut_state 1 u) (swapped_in s u)) as Eb
    by (intros B k; by rewrite (on_base_bind _ _ _ _ _ Eu)).
  unfold iu_resume. rewrite !gets_bind. change (managers (swapped_in s u)) with (managers s).
  change (managers (swapped_in s1 u)) with (<[chn := m]> (managers s)). rewrite lookup_insert_eq, Em. rewrite Eb. cbn [task set_ut_state]. rewrite Hm.
  unfold usm_mem_worker_handler_alt. rewrite Eb. cbn [ioctl_fd set_ut_state]. rewrite (proj2 (Z.eqb_neq _ _) F2), ret_bind, Eb. cbn [ioctl_fd set_ut_state].
  rewrite (proj2 (Z.eqb_neq _ _) F1). unfold usm_mem_worker_handler_uts. rewrite Eb. cbn [ioctl_fd set_ut_state].
  rewrite (on_iu_bind _ _ (swapped_in s u) l w1) by exact E1. rewrite (on_iu_bind _ _ _ tt w2) by exact E2. rewrite modify_bind.
  change (set_managers _ _) with (at_chn s (set_ut_state 1 u) te w2 m). rewrite at_chn_update by done.
  rewrite (at_chn_world _ _ _ _ _ _ tt w3) by done. cbn [uts_resumes m_task m]. unfold uts_resumes, m, m_task.
  rewrite (swapped_in_manager s1 u m) by (cbn; by rewrite lookup_insert_eq). unfold at_chn, s1. cbn. by rewrite insert_insert_eq.
Qed.
End serving.

(** C17: A manager serves a bunch of faults, when no managee is swapped off inside of its
    handler, the kernel takes back the bit of a managee exactly when its handler runs, and no
    further faults arrive meanwhile (a managee that is swapped off may be forgotten:
    [manager_forgets_managee]). When the kernel has announced n faults of the threads of a
    process, the main context dispatches the user thread of the channel n + 1 times: after k of
    the first n dispatches exactly the first k managees, in ascending order of their numbers,
    have run their handlers, each once, the others are still announced, and the event of the
    channel is pending; with the last dispatch the manager finds its bit field empty and the
    event of the channel is no longer pending. *)
Theorem manager_serves_bunch {W} `{MC : Machine W} `{IM : IuMachine W} chn (J : W → Prop) (bits : W → Z) fuel (s : iu_worker W) u :
  serving chn J bits → (5 ≤ fuel)%nat → manager_ready chn J s u →
  let te := tempEvents (vcpu (base_worker s)) in
  let ids := pending (bits (world (base_worker s))) in
  ∃ s' u' l w, (∀ k, (k ≤ base.length ids)%nat → ∃ sk, iu_dispatches fuel chn k s = Ok tt sk ∧
       tempEvents (vcpu (base_worker sk)) = te ∧ pending (bits (world (base_worker sk))) = drop k ids ∧
       (k = 0%nat ∧ sk = s ∨ serves chn te l (take k ids) w (world (base_worker sk)))) ∧
    iu_dispatches fuel chn (S (base.length ids)) s = Ok tt s' ∧
    bits w = bits (world (base_worker s)) ∧ serves chn te l ids w (world (base_worker s')) ∧ bits (world (base_worker s')) = 0 ∧
    tempEvents (vcpu (base_worker s')) = clear_bit te (Z.of_nat chn) ∧
    Sched.uthreads (vcpu (base_worker s')) !! chn = Some u' ∧ ut_state u' = 0.
Proof.
  intros SV Hf Hr te ids. destruct (manager_starts chn J bits SV s u Hr) as (l & w & m & s1 & Htr & Es).
  destruct (treats_bunch chn J bits SV fuel ids _ te l w s1 u m Hf Htr eq_refl) as (Hk & s' & u' & m' & l' & w' & E & Hs & Htr' & _ & Hu').
  exists s', u', l, w. split.
  - intros [|k] Hle; [exists s; do 3 (split; [done|]); by left|]. rewrite Es. destruct (Hk (S k) Hle) as (sk & ? & ? & ? & ?).
    exists sk. do 3 (split; [done|]). by right.
  - rewrite Es. destruct Htr' as [H1 H2 H3 H4 H5 H6 H7 H8 H9 _]. subst w'. do 6 (split; [done || apply Htr|]). done.
Qed.

(** * Managees that yield

    [w.1] has the number of times that each handler yields, [w.2] the bit field, from
    which the kernel takes the bit of a managee when its handler begins. *)
Definition yielding : Machine (list nat * Z) := {|
  com_word := mret 0;
  await_channel _ := mret tt;
  run_handler _ _ := mret (Returned 0);
  pause := mret tt;
|}.
Definition iu_yielding : IuMachine (list nat * Z) := {|
  iu_malloc := mret (replicate 32 (IUthread 7 7 7 Entry));
  iu_prepare _ _ := mret tt;
  iu_com _ := gets snd;
  iu_classic _ := mret false;
  iu_pop _ := mret tt;
  iu_first _ := mret 0;
  iu_run more _ id := λ w,
    match more, w.1 !! id with
    | true, Some (S k) => Ok Swapped (<[id := k]> w.1, clear_bit w.2 (Z.of_nat id))
    | _, _ => Ok (Returned 0) (w.1, clear_bit w.2 (Z.of_nat id))
    end;
|}.

(** The worker of a channel 5 with managees, whose event is pending. *)
Definition demo_iu (yields : list nat) (bits : Z) : option (iu_worker (list nat * Z)) :=
  c ← uthread_create_recursive 5 9 (start_vcpu 1 static_vcpu);
  Some (IuWorker (Worker (set_tempEvents 32 c) 0 true (yields, bits)) ∅).

Definition no_yields (w : list nat * Z) : Prop := w.1 = replicate 32 0%nat ∧ 0 ≤ w.2 < 2 ^ 32.

Lemma demo_serving : serving (MC := yielding) (IM := iu_yielding) 5 no_yields snd.
Proof.
  split.
  - by intros w [_ ?].
  - done.
  - done.
  - intros w Hw. by eexists _, _.
  - intros w fd Hw. by eexists.
  - intros w Hw. by eexists.
  - intros b id w [Hy Hw] Hid. exists 0, (w.1, clear_bit w.2 (Z.of_nat id)). split; [|split; [|done]].
    + cbn. rewrite Hy. destruct b; [|done]. by rewrite lookup_replicate_2 by lia.
    + split; [done|]. apply clear_bit_word; lia.
Qed.

Lemma manager_serves_bunch_witness : ∃ s s' u', demo_iu (replicate 32 0%nat) 10 = Some s ∧
  iu_dispatches (MC := yielding) (IM := iu_yielding) 5 5 3 s = Ok tt s' ∧ (world (base_worker s')).2 = 0 ∧
  tempEvents (vcpu (base_worker s')) = 0 ∧ Sched.uthreads (vcpu (base_worker s')) !! 5%nat = Some u' ∧ ut_state u' = 0.
Proof.
  destruct (demo_iu (replicate 32 0%nat) 10) as [s|] eqn:Es; [|vm_compute in Es; discriminate Es].
  injection Es as Es. eexists s.
  assert (manager_ready 5 no_yields s (Uthread 5 0 9 Entry)) as Hr.
  { rewrite <- Es. split; [reflexivity|]. split; [done|]. split; [by split|reflexivity]. }
  destruct (manager_serves_bunch (MC := yielding) (IM := iu_yielding) 5 no_yields snd 5 s _ demo_serving ltac:(lia) Hr)
    as (s' & u' & l & w & _ & E & _ & _ & Hb & Hte & Hu & Hst).
  rewrite <- Es in E, Hte. exists s', u'. rewrite <- Es. split; [reflexivity|]. split; [exact E|]. split; [exact Hb|]. split; [exact Hte|]. by split.
Defined.

(** A manager forgets a managee that yields in both passes over a snapshot when the kernel
    has taken its bit: trtIUT overwrites the events of the manager with the bit field. The
    manager ends with nothing pending, and the managee inside of its handler. *)
Lemma manager_forgets_managee : ∃ s s' u' m' t, demo_iu (<[3%nat := 2%nat]> (replicate 32 0%nat)) 8 = Some s ∧
  iu_dispatches (MC := yielding) (IM := iu_yielding) 5 5 3 s = Ok tt s' ∧
  tempEvents (vcpu (base_worker s')) = 0 ∧ Sched.uthreads (vcpu (base_worker s')) !! 5%nat = Some u' ∧ ut_state u' = 0 ∧
  managers s' !! 5%nat = Some m' ∧ tempIUTEvents m' = 0 ∧ iuthreads m' !! 3%nat = Some t ∧ iu_task t = InHandler ∧ iu_state t = 1.
Proof. eexists _, _, _, _, _. repeat (split; [vm_compute; reflexivity|]). vm_compute. reflexivity. Qed.

(** * The managees of the daemon *)
Section daemon.
Context `{K : Kernel} `{SE : SubmitEvt} `{TM : ThreadMap}.

Definition mark_off : Z := SYS_PAGE_SIZE - sizeof_int * 3.
Definition iUTcom_off : Z := SYS_PAGE_SIZE - sizeof_int * 2.

(** usm_handle_mem_special on the current event. Its page is unmapped when the thread is
    dead: the pointer stays, and every later access to it is undefined. *)
Definition usm_handle_mem_special : M daemon Z :=
  notfn ← on_core usm_mem_check;
  if notfn =? 0 then mret 1
  else if 0 <? notfn then
    mark ← on_core (usm_load 4 mark_off);
    r ← (if mark =? 100 then on_core usm_mem_ret_ev else on_core usm_mem_ret_ev_special);
    if negb (r =? 0) then mret 1
    else
      r ← usm_handle_events;
      mret (if r =? 0 then 0 else 1)
  else
    _ ← on_core (update_event (with_type THREAD_DTH));
    _ ← on_core (update_event (with_usmmem None));
    mret 2.

(** The daemon with the events of the managees of every channel of the first worker.
    Their page is the one of the channel. *)
Record iu_daemon := IuDaemon { iu_core : daemon; iu_events : gmap nat (list usm_event) }.

Definition on_iu_core {A} (c : M daemon A) : M iu_daemon A := λ s,
  match c (iu_core s) with
  | Ok a d => Ok a (IuDaemon d (iu_events s))
  | Undef => Undef
  | Abort => Abort
  | OutOfFuel => OutOfFuel
  end.

Definition channel_word (chn : nat) (off : Z) : M iu_daemon Z :=
  on_iu_core (c ← channel_at 0 chn; reads (λ _, m ← usmmem (cnl_event c); load 4 off m)).

Definition iu_handle_evt (chn id : nat) : M iu_daemon Z :=
  c ← on_iu_core (channel_at 0 chn);
  e ← reads (λ s, l ← iu_events s !! chn; l !! id);
  _ ← on_iu_core (on_core (modify (set_event (with_usmmem (usmmem (cnl_event c)) e))));
  r ← on_iu_core usm_handle_mem_special;
  e ← on_iu_core (on_core get_event);
  _ ← updates (λ s, l ← iu_events s !! chn; Some (IuDaemon (iu_core s) (<[chn := <[id := e]> l]> (iu_events s))));
  _ ← on_iu_core (on_core (modify (set_event (with_usmmem (usmmem e) (cnl_event c)))));
  _ ← on_iu_core (store_event 0 chn);
  mret r.

(** The events as the manager prepares them: with the descriptor of the process, of
    type ALLOC; the other fields are those of malloc. *)
Definition prepared (fd : Z) (e : usm_event) : usm_event := with_type ALLOC (with_origin fd e).

Definition iu_base_machine : Machine iu_daemon := {|
  com_word := on_iu_core com_word;
  await_channel chn := on_iu_core (await_channel chn);
  run_handler more chn := on_iu_core (run_handler more chn);
  pause := on_iu_core pause;
|}.
Definition iu_daemon_machine (fresh : list iuthread) (events : list usm_event) : IuMachine iu_daemon := {|
  iu_malloc := mret fresh;
  iu_prepare chn fd := modify (λ s, IuDaemon (iu_core s) (<[chn := prepared fd <$> events]> (iu_events s)));
  iu_com chn := channel_word chn iUTcom_off;
  iu_classic chn := mark ← channel_word chn mark_off; mret (mark =? 100);
  iu_pop chn := on_iu_core (updates (λ d, worker ← usmMemWorkers d !! O;
    Some (set_workers (<[O := UsmWorker (worker_id worker) (clear_bit (com worker) (Z.of_nat chn)) (worker_state worker)
            (usm_channels worker)]> (usmMemWorkers d)) d)));
  iu_first chn := iu_handle_evt chn 0;
  iu_run _ chn id := r ← iu_handle_evt chn id; mret (Returned r);
|}.

(** On a page with the mark, the handler of a managee does what the handler of an ordinary
    channel does. *)
Lemma special_with_mark d m : has_page m (core d) → load 4 mark_off m = Some 100 →
  usm_handle_mem_special d = handle_mem_event d.
Proof.
  intros Hp Hm. assert (∃ r s, usm_mem_check (core d) = Ok r s ∧ (r = 1 → s = core d)) as (r & s & E & Hs).
  { destruct Hp as [Hpg Hv]. destruct (load_valid m Hv 4 status_off) as (st & Lst & _); [unfold status_off, sizeof_int; lia..|].
    destruct (load_valid m Hv 4 state_off) as (sa & Lsa & _); [unfold state_off, sizeof_int, sizeof_long; lia..|]. unfold usm_mem_check.
    run (load_shared m 4 status_off st (core d) (conj Hpg Hv) Lst). run (load_shared m 4 state_off sa (core d) (conj Hpg Hv) Lsa).
    destruct (s32 sa =? 10).
    - destruct (store_shared m 4 state_off 0 (core d) (conj Hpg Hv)) as (m' & _ & _ & E); [unfold state_off, sizeof_int, sizeof_long; lia..|]. run E. by eexists _, _.
    - by eexists _, _. }
  unfold usm_handle_mem_special, handle_mem_event. rewrite !(on_core_bind _ _ d r s) by done.
  destruct (r =? 0); [done|]. destruct (Z.ltb_spec 0 r) as [Hr|]; [|done].
  assert (r = 1) as ->.
  { revert E. unfold usm_mem_check, mbind, M_bind. repeat case_match; try done; cbn; intros [= <- _]; lia. }
  rewrite Hs by done. rewrite (on_core_bind _ _ _ 100 (core d)) by (by apply (load_shared m)). by rewrite set_core_id.
Qed.
End daemon.
