(* ===== verification/Timings.v ===== *)
(** The program that measures page faults (page-fault-timings/collect-page-fault-timings.c):
    it maps memory, touches every page of it, and prints a line of comma-separated
    timings for each page.

    The state holds the static variables of the program, what it has written to the
    standard output, the pages it touched, and the multiset of the resources that it
    holds: descriptors, directories, strings, mappings and the second thread. The
    kernel and the clock are the class [Os]; error messages are left out. *)
From Stdlib Require Import Ascii.
From stdpp Require Import prelude gmap gmultiset strings.
From S2P Require Import Prelude Lists State Daemon.

Open Scope Z_scope.

(** * Numbers *)

Definition is_digit (c : Ascii.ascii) : bool := (48 <=? ascii_code c) && (ascii_code c <=? 57).

Fixpoint parse_digits (buf : string) (out : Z) : Z * string :=
  match buf with
  | String c buf' => if is_digit c then parse_digits buf' (u64 (u64 (out * 10) + (ascii_code c - 48))) else (out, buf)
  | EmptyString => (out, buf)
  end.

(** The value and the rest of the buffer. *)
Definition parse_uint64_t (buf : string) : option (Z * string) :=
  match buf with
  | String c _ => if is_digit c then Some (parse_digits buf 0) else None
  | EmptyString => None
  end.

(** [printf("%" PRIu64, n)] *)
Definition digit_char (d : Z) : Ascii.ascii := Ascii.ascii_of_N (Z.to_N (48 + d)).
Fixpoint print_digits (fuel : nat) (n : Z) (rest : string) : string :=
  match fuel with
  | O => rest
  | S fuel =>
      let rest := String (digit_char (n mod 10)) rest in
      if n / 10 =? 0 then rest else print_digits fuel (n / 10) rest
  end.
Definition print_u64 (n : Z) : string := print_digits 20 n EmptyString.

Definition newline : string := String "010"%char EmptyString.

(** * The state *)
Inductive resource := RFd (fd : Z) | RDir | RStr (k : nat) | RMap (memory length : Z) | RThread.

Global Instance resource_eq_dec : EqDecision resource.
Proof. solve_decision. Defined.
Global Instance resource_countable : Countable resource.
Proof.
  refine (inj_countable'
    (λ r, match r with
          | RFd f => inl f | RDir => inr (inl tt) | RStr k => inr (inr (inl k))
          | RMap a l => inr (inr (inr (inl (a, l)))) | RThread => inr (inr (inr (inr tt)))
          end)
    (λ x, match x with
          | inl f => RFd f | inr (inl tt) => RDir | inr (inr (inl k)) => RStr k
          | inr (inr (inr (inl (a, l)))) => RMap a l | inr (inr (inr (inr tt))) => RThread
          end) _).
  by intros [].
Defined.

(** A pointer to a copy of a string made by [strdup]; [None] is the null pointer. *)
Definition str_ptr : Type := option (nat * string).

Record timing (W : Type) := Timing {
  no_msg_received : bool;
  fast_tracepoints_dir_fd : Z;
  userfaultfd_fd : Z;
  page_size : Z;
  fast_tracepoints : list str_ptr;
  strings_made : nat;
  held : gmultiset resource;
  stdout : string;
  touched : list (Z * bool);
  kernel : W;
}.
Global Arguments Timing {W} _ _ _ _ _ _ _ _ _ _.
Global Arguments no_msg_received {W} _.
Global Arguments fast_tracepoints_dir_fd {W} _.
Global Arguments userfaultfd_fd {W} _.
Global Arguments page_size {W} _.
Global Arguments fast_tracepoints {W} _.
Global Arguments strings_made {W} _.
Global Arguments held {W} _.
Global Arguments stdout {W} _.
Global Arguments touched {W} _.
Global Arguments kernel {W} _.

Definition MAX_FAST_TRACEPOINTS : nat := 32.
Definition PROT_READ : Z := 1.
Definition PROT_WRITE : Z := 2.
Definition DT_REG : Z := 8.
Definition ENOENT : Z := 2.
Definition PF_TRACING_MAGIC : Z := 2973869354.

(** The calls of the program. A descriptor of -1 is a failed call; [os_open] also
    gives [errno]. [os_opendir] gives the entries of the directory with their types,
    [os_read] what a read of the descriptor could return at most. [os_access] makes
    an access to a byte, a write or a read, with a value in [ebx], and returns what
    the kernel leaves in [rax] and [rcx]; [None] when the access never returns, as after
    the thread of the userfaultfd has left its loop. [os_load_msg] and [os_store_msg] are the
    variable that is shared with the other thread. *)
Class Os (W : Type) := {
  os_open : W → (Z * Z) * W;
  os_opendir : W → option (list (string * Z)) * W;
  os_strdup : string → W → bool * W;
  os_openat : string → W → Z * W;
  os_read : Z → W → option string * W;
  os_sysconf : W → Z * W;
  os_userfaultfd : W → Z * W;
  os_api : Z → W → Z * W;
  os_pthread_create : W → Z * W;
  os_setaffinity : bool → W → Z * W;
  os_mmap : Z → Z → W → option Z * W;
  os_madvise : Z → Z → W → Z * W;
  os_register : Z → Z → W → Z * W;
  os_access : Z → bool → option Z → W → option (Z * Z) * W;
  os_rdtsc : W → Z * W;
  os_load_msg : W → Z * W;
  os_store_msg : Z → W → unit * W;
}.

Section collect.
Context {W : Type} `{OS : Os W}.
Local Abbreviation T := (timing W).

Definition set_no_msg v (s : T) := Timing v (fast_tracepoints_dir_fd s) (userfaultfd_fd s) (page_size s) (fast_tracepoints s) (strings_made s) (held s) (stdout s) (touched s) (kernel s).
Definition set_dir_fd v (s : T) := Timing (no_msg_received s) v (userfaultfd_fd s) (page_size s) (fast_tracepoints s) (strings_made s) (held s) (stdout s) (touched s) (kernel s).
Definition set_userfaultfd_fd v (s : T) := Timing (no_msg_received s) (fast_tracepoints_dir_fd s) v (page_size s) (fast_tracepoints s) (strings_made s) (held s) (stdout s) (touched s) (kernel s).
Definition set_page_size v (s : T) := Timing (no_msg_received s) (fast_tracepoints_dir_fd s) (userfaultfd_fd s) v (fast_tracepoints s) (strings_made s) (held s) (stdout s) (touched s) (kernel s).
Definition set_fast_tracepoints v (s : T) := Timing (no_msg_received s) (fast_tracepoints_dir_fd s) (userfaultfd_fd s) (page_size s) v (strings_made s) (held s) (stdout s) (touched s) (kernel s).
Definition set_strings_made v (s : T) := Timing (no_msg_received s) (fast_tracepoints_dir_fd s) (userfaultfd_fd s) (page_size s) (fast_tracepoints s) v (held s) (stdout s) (touched s) (kernel s).
Definition set_held v (s : T) := Timing (no_msg_received s) (fast_tracepoints_dir_fd s) (userfaultfd_fd s) (page_size s) (fast_tracepoints s) (strings_made s) v (stdout s) (touched s) (kernel s).
Definition set_stdout v (s : T) := Timing (no_msg_received s) (fast_tracepoints_dir_fd s) (userfaultfd_fd s) (page_size s) (fast_tracepoints s) (strings_made s) (held s) v (touched s) (kernel s).
Definition set_touched v (s : T) := Timing (no_msg_received s) (fast_tracepoints_dir_fd s) (userfaultfd_fd s) (page_size s) (fast_tracepoints s) (strings_made s) (held s) (stdout s) v (kernel s).
Definition set_kernel (v : W) (s : T) := Timing (no_msg_received s) (fast_tracepoints_dir_fd s) (userfaultfd_fd s) (page_size s) (fast_tracepoints s) (strings_made s) (held s) (stdout s) (touched s) v.

Definition sys {A} (f : W → A * W) : M T A := λ s, let '(a, w) := f (kernel s) in Ok a (set_kernel w s).
Definition acquire (r : resource) : M T unit := modify (λ s, set_held (held s ⊎ {[+ r +]}) s).
Definition release (r : resource) : M T unit := modify (λ s, set_held (held s ∖ {[+ r +]}) s).
Definition puts (x : string) : M T unit := modify (λ s, set_stdout (stdout s +:+ x) s).

(** [close]: a descriptor of -1 is refused and nothing happens. *)
Definition close (fd : Z) : M T unit := if fd =? -1 then mret tt else release (RFd fd).

(** [free] of a string: the null pointer is ignored, a dangling one is undefined. *)
Definition free (p : str_ptr) : M T unit :=
  match p with
  | None => mret tt
  | Some (k, _) =>
      h ← gets held;
      if decide (RStr k ∈ h) then release (RStr k) else undef
  end.

(** * Tracepoints *)
Definition read_fast_tracepoint (name : string) : M T (option Z) :=
  timestamp_fd ← sys (os_openat name);
  if timestamp_fd =? -1 then _ ← close timestamp_fd; mret None
  else
    _ ← acquire (RFd timestamp_fd);
    n ← sys (os_read timestamp_fd);
    _ ← close timestamp_fd;
    mret (n ≫= λ content, fst <$> parse_uint64_t (String.substring 0 21 content)).

(** [while (--i > 0) free(fast_tracepoints[i]);] *)
Fixpoint free_down (i : nat) : M T unit :=
  match i with
  | S (S _ as j) => p ← reads (λ s, fast_tracepoints s !! j); _ ← free p; free_down j
  | _ => mret tt
  end.

Fixpoint store_entries (entries : list (string * Z)) (i : nat) : M T bool :=
  match entries with
  | [] => _ ← release RDir; mret true
  | (d_name, d_type) :: entries =>
      if Z.land d_type DT_REG =? 0 then store_entries entries i
      else if decide (i = MAX_FAST_TRACEPOINTS) then _ ← free_down i; _ ← release RDir; mret false
      else
        ok ← sys (os_strdup d_name);
        k ← gets strings_made;
        p ← (if ok : bool then
               _ ← acquire (RStr k); _ ← modify (set_strings_made (S k)); mret (Some (k, d_name))
             else mret None);
        _ ← modify (λ s, set_fast_tracepoints (<[i := p]> (fast_tracepoints s)) s);
        store_entries entries (S i)
  end.

Definition list_fast_tracepoints : M T bool :=
  dir ← sys os_opendir;
  match dir with
  | None => mret false
  | Some entries => _ ← acquire RDir; store_entries entries 0
  end.

(** [for (i = 0; fast_tracepoints[i] != NULL; ++i) body]; the body returns whether to
    go on. *)
Fixpoint for_tracepoints (l : list str_ptr) (body : nat * string → M T bool) : M T bool :=
  match l with
  | [] => undef
  | None :: _ => mret true
  | Some p :: l => ok ← body p; if ok : bool then for_tracepoints l body else mret false
  end.
Definition each_tracepoint (body : nat * string → M T bool) : M T bool :=
  l ← gets fast_tracepoints; for_tracepoints l body.

Definition print_columns : M T unit :=
  _ ← puts "end";
  no_msg ← gets no_msg_received;
  _ ← (if negb no_msg then puts ",msg_received" else mret tt);
  dir ← gets fast_tracepoints_dir_fd;
  _ ← (if negb (dir =? -1) then
         _ ← puts ",isr_entry,iret";
         _ ← each_tracepoint (λ p, _ ← puts ","; _ ← puts p.2; mret true);
         mret tt
       else mret tt);
  puts newline.

Definition usage (arg0 : string) : list string :=
  ["Usage: " +:+ arg0 +:+ " [OPTION]...";
   "Collect page fault timings.";
   "";
   "Mandatory arguments to long options are mandatory for short options too.";
   "  -f, --file=FILE              access a memory mapping of FILE instead of an anonymous mapping";
   "  -s, --start=OFFSET           start reading from OFFSET in the memory mapping";
   "  -l, --length=LENGTH          read pages spanning LENGTH bytes";
   "  -i, --iterations=COUNT       do COUNT iterations";
   "  -t, --type=TYPE              set the type of fault, can be major or minor";
   "  -a, --access=ACCESS          set the type of access, can be read, write, or rw (do a read before collecting timings for a write)";
   "  -u, --userfaultfd            use userfaultfd";
   "  -c, --userfaultfd-same-cpus  pin the faulting thread and userfaultfd thread to the same CPUs";
   "  -n, --no-msg-received        disable the msg_received timing";
   "  -h, --help                   display this help and exit"]%string.
Definition print_usage (arg0 : string) : M T unit :=
  foldr (λ x m, _ ← puts x; _ ← puts newline; m) (mret tt) (usage arg0).

(** * One run over the memory *)
Definition munmap (memory length : Z) : M T unit := release (RMap memory length).

(** The thread waits for its fault to be answered and never goes on. *)
Definition hang {A} : M T A := λ _, OutOfFuel.

Definition access_byte (byte : Z) (write : bool) (ebx : option Z) : M T (Z * Z) :=
  _ ← modify (λ s, set_touched (touched s ++ [(byte, write)]) s);
  r ← sys (os_access byte write ebx);
  match r with Some rax_rcx => mret rax_rcx | None => hang end.

(** A timing, or an empty column when the event did not happen since [start]. *)
Definition put_since (timestamp start : Z) : M T unit :=
  if start <? timestamp then _ ← puts ","; puts (print_u64 (u64 (timestamp - start))) else puts ",".

Definition put_tracepoint (start : Z) (p : nat * string) : M T bool :=
  r ← read_fast_tracepoint p.2;
  match r with
  | None => mret false
  | Some timestamp => _ ← put_since timestamp start; mret true
  end.

(** The body of the loop, for the byte at [byte]: whether to go on. *)
Definition touch_page (access byte : Z) : M T bool :=
  _ ← (if access =? Z.lor PROT_READ PROT_WRITE then _ ← access_byte byte false None; mret tt else mret tt);
  timestamp_page_fault ← sys os_rdtsc;
  dir ← gets fast_tracepoints_dir_fd;
  '(timestamp_isr_entry, timestamp_iret) ←
    access_byte byte (negb (access =? PROT_READ)) (if dir =? -1 then None else Some PF_TRACING_MAGIC);
  timestamp_end ← sys os_rdtsc;
  _ ← puts (print_u64 (u64 (timestamp_end - timestamp_page_fault)));
  no_msg ← gets no_msg_received;
  _ ← (if negb no_msg then m ← sys os_load_msg; put_since m timestamp_page_fault else mret tt);
  ok ← (if negb (dir =? -1) then
          _ ← puts ","; _ ← puts (print_u64 (u64 (timestamp_isr_entry - timestamp_page_fault)));
          _ ← puts ","; _ ← puts (print_u64 (u64 (timestamp_iret - timestamp_page_fault)));
          each_tracepoint (put_tracepoint timestamp_page_fault)
        else mret true);
  if ok : bool then
    _ ← puts newline;
    _ ← (if negb no_msg then sys (os_store_msg 0) else mret tt);
    mret true
  else mret false.

Definition touch_body (memory length access page_size : Z) (offset : Z) : M T (Z + bool) :=
  if offset <? length then
    ok ← touch_page access (memory + offset);
    if ok : bool then mret (inl (u64 (offset + page_size)))
    else _ ← munmap memory length; mret (inr false)
  else _ ← munmap memory length; mret (inr true).

Definition do_iteration (length access : Z) (with_userfaultfd : bool) (page_size : Z) : M T bool :=
  _ ← print_columns;
  memory ← sys (os_mmap length access);
  match memory with
  | None => mret false
  | Some memory =>
      _ ← acquire (RMap memory length);
      r ← sys (os_madvise memory length);
      if r =? -1 then _ ← munmap memory length; mret false
      else
        r ← (if with_userfaultfd : bool then sys (os_register memory length) else mret 0);
        if r =? -1 then _ ← munmap memory length; mret false
        else loop (S (Z.to_nat length)) (touch_body memory length access page_size) 0
  end.

(** * main *)
Record options := Options {
  opt_length : Z; iteration_count : Z; do_major_faults : bool; opt_access : Z; with_userfaultfd : bool }.
Definition default_options : options := Options 1 1 false PROT_READ false.

Definition parse_whole (optarg : string) : option Z :=
  match parse_uint64_t optarg with Some (v, EmptyString) => Some v | _ => None end.

(** The options that getopt_long returns, one after the other; [None] leaves the
    program. *)
Fixpoint parse_options (arg0 : string) (opts : list (Ascii.ascii * string)) (o : options) : M T (option options) :=
  match opts with
  | [] => mret (Some o)
  | (opt, optarg) :: opts =>
      let '(Options l i m a u) := o in
      if decide (opt = "l"%char) then
        match parse_whole optarg with Some l => parse_options arg0 opts (Options l i m a u) | None => mret None end
      else if decide (opt = "i"%char) then
        match parse_whole optarg with Some i => parse_options arg0 opts (Options l i m a u) | None => mret None end
      else if decide (opt = "t"%char) then
        if decide (optarg = "minor"%string) then parse_options arg0 opts (Options l i false a u)
        else if decide (optarg = "major"%string) then parse_options arg0 opts (Options l i true a u)
        else mret None
      else if decide (opt = "a"%char) then
        if decide (optarg = "read"%string) then parse_options arg0 opts (Options l i m PROT_READ u)
        else if decide (optarg = "write"%string) then parse_options arg0 opts (Options l i m PROT_WRITE u)
        else if decide (optarg = "rw"%string) then parse_options arg0 opts (Options l i m (Z.lor PROT_READ PROT_WRITE) u)
        else mret None
      else if decide (opt = "u"%char) then parse_options arg0 opts (Options l i m a true)
      else if decide (opt = "c"%char) then parse_options arg0 opts o
      else if decide (opt = "n"%char) then _ ← modify (set_no_msg true); parse_options arg0 opts o
      else if decide (opt = "h"%char) then _ ← print_usage arg0; mret None
      else mret None
  end.

Definition EXIT_SUCCESS : Z := 0.
Definition EXIT_FAILURE : Z := 1.

(** The labels at the end of [main]. *)
Definition cleanup_fast_tracepoints_dir_fd (ret : Z) : M T Z :=
  dir ← gets fast_tracepoints_dir_fd;
  _ ← (if negb (dir =? -1) then close dir else mret tt);
  mret ret.
Definition cleanup_fast_tracepoints (ret : Z) : M T Z :=
  _ ← each_tracepoint (λ p, _ ← free (Some p); mret true);
  cleanup_fast_tracepoints_dir_fd ret.
Definition cleanup_userfaultfd_fd (o : options) (ret : Z) : M T Z :=
  fd ← gets userfaultfd_fd;
  _ ← (if with_userfaultfd o then close fd else mret tt);
  cleanup_fast_tracepoints ret.
Definition cleanup (o : options) (ret : Z) : M T Z :=
  _ ← (if with_userfaultfd o then release RThread else mret tt);
  cleanup_userfaultfd_fd o ret.

(** [(length + page_size - 1) & ~(page_size - 1)] *)
Definition round_length (length page_size : Z) : Z :=
  Z.land (u64 (length + page_size - 1)) (u64 (Z.lnot (page_size - 1))).

(** [for (i = 0; i < iteration_count; ++i)] for an [int i] *)
Definition iterate_body (o : options) (i : Z) : M T (Z + unit) :=
  if i <? iteration_count o then
    ps ← gets page_size;
    _ ← do_iteration (round_length (opt_length o) ps) (opt_access o) (with_userfaultfd o) ps;
    if i + 1 <? 2 ^ 31 then mret (inl (i + 1)) else undef
  else mret (inr tt).

Definition run_iterations (o : options) : M T Z :=
  _ ← loop (S (Z.to_nat (iteration_count o))) (iterate_body o) 0;
  cleanup o EXIT_SUCCESS.

(** From the creation of the userfaultfd on. *)
Definition start_userfaultfd (o : options) : M T Z :=
  if negb (with_userfaultfd o) then run_iterations o
  else
    fd ← sys os_userfaultfd;
    _ ← modify (set_userfaultfd_fd fd);
    if fd =? -1 then cleanup_fast_tracepoints EXIT_FAILURE
    else
      _ ← acquire (RFd fd);
      r ← sys (os_api fd);
      if r =? -1 then cleanup_userfaultfd_fd o EXIT_FAILURE
      else
        err ← sys os_pthread_create;
        if negb (err =? 0) then cleanup_userfaultfd_fd o EXIT_FAILURE
        else
          _ ← acquire RThread;
          err ← sys (os_setaffinity true);
          if negb (err =? 0) then cleanup o EXIT_FAILURE
          else
            err ← sys (os_setaffinity false);
            if negb (err =? 0) then cleanup o EXIT_FAILURE
            else run_iterations o.

Definition main (arg0 : string) (opts : list (Ascii.ascii * string)) : M T Z :=
  r ← parse_options arg0 opts default_options;
  match r with
  | None => mret EXIT_FAILURE
  | Some o =>
      if with_userfaultfd o && do_major_faults o then mret EXIT_FAILURE
      else
        _ ← (if negb (with_userfaultfd o) then modify (set_no_msg true) else mret tt);
        '(fd, errno) ← sys os_open;
        _ ← modify (set_dir_fd fd);
        if (fd =? -1) && negb (errno =? ENOENT) then mret EXIT_FAILURE
        else
          _ ← (if negb (fd =? -1) then acquire (RFd fd) else mret tt);
          listed ← (if negb (fd =? -1) then list_fast_tracepoints else mret true);
          if negb listed then cleanup_fast_tracepoints_dir_fd EXIT_FAILURE
          else
            ps ← sys os_sysconf;
            _ ← modify (set_page_size ps);
            if ps =? -1 then cleanup_fast_tracepoints EXIT_FAILURE
            else start_userfaultfd o
  end.

(** ** The thread that answers the faults of the userfaultfd

    One round: a message is an event and the address of a fault, [None] a failed or
    short read; the result is whether the thread goes on. *)
Section answer.
Context (read_msg : W → option (Z * Z) * W) (zeropage : Z → Z → W → Z * W).
Definition UFFD_EVENT_PAGEFAULT : Z := 18.

Definition userfaultfd_thread_body : M T bool :=
  msg ← sys read_msg;
  match msg with
  | None => mret false
  | Some (event, address) =>
      if negb (event =? UFFD_EVENT_PAGEFAULT) then mret true
      else
        no_msg ← gets no_msg_received;
        _ ← (if negb no_msg then now ← sys os_rdtsc; sys (os_store_msg now) else mret tt);
        ps ← gets page_size;
        r ← sys (zeropage (Z.land address (u64 (Z.lnot (ps - 1)))) ps);
        mret (negb (r =? -1))
  end.
End answer.
End collect.

(** * Lines of columns *)

Fixpoint count_char (c : Ascii.ascii) (x : string) : nat :=
  match x with
  | EmptyString => O
  | String d x => if decide (d = c) then S (count_char c x) else count_char c x
  end.

(** A piece of a line with [n] commas. *)
Definition cell (n : nat) (x : string) : Prop := count_char ","%char x = n ∧ count_char "010"%char x = O.

Lemma count_char_app c x y : count_char c (x +:+ y) = (count_char c x + count_char c y)%nat.
Proof. induction x as [|d x IH]; [done|]. simpl. rewrite IH. by destruct (decide (d = c)). Qed.

Lemma cell_app n m x y : cell n x → cell m y → cell (n + m) (x +:+ y).
Proof. intros [H1 H2] [H3 H4]. split; rewrite count_char_app; lia. Qed.

Lemma string_app_cons c (x y : string) : String c x +:+ y = String c (x +:+ y).
Proof. done. Qed.

Lemma string_app_assoc (x y z : string) : (x +:+ y) +:+ z = x +:+ (y +:+ z).
Proof.
  induction x as [|c x IH]; [done|]. change (String c ((x +:+ y) +:+ z) = String c (x +:+ (y +:+ z))). by rewrite IH.
Qed.

Lemma string_app_nil (x : string) : x +:+ EmptyString = x.
Proof. induction x as [|c x IH]; [done|]. change (String c (x +:+ EmptyString) = String c x). by rewrite IH. Qed.

Lemma digit_char_code d : 0 ≤ d < 10 → ascii_code (digit_char d) = 48 + d.
Proof.
  intros Hd. unfold ascii_code, digit_char. rewrite Ascii.N_ascii_embedding by lia. lia.
Qed.

Lemma digit_char_cell d : 0 ≤ d < 10 → digit_char d ≠ ","%char ∧ digit_char d ≠ "010"%char.
Proof.
  intros Hd. split; intros E; apply (f_equal ascii_code) in E; rewrite digit_char_code in E by done;
    [change (48 + d = 44) in E|change (48 + d = 10) in E]; lia.
Qed.

Lemma print_digits_cell fuel n x : cell 0 x → cell 0 (print_digits fuel n x).
Proof.
  revert n x. induction fuel as [|fuel IH]; intros n x Hx; [done|]. cbn [print_digits].
  destruct (digit_char_cell (n mod 10)) as [H1 H2]; [apply Z.mod_pos_bound; lia|].
  assert (cell 0 (String (digit_char (n mod 10)) x)) as Hx' by (destruct Hx; split; cbn; by rewrite decide_False).
  destruct (n / 10 =? 0); [done|]. by apply IH.
Qed.

Lemma print_u64_cell n : cell 0 (print_u64 n).
Proof. by apply print_digits_cell. Qed.

(** ** Parsing what was printed *)

(** The number that digits stand for. *)
Fixpoint decimal (x : string) (v : Z) : Z :=
  match x with EmptyString => v | String c x => decimal x (v * 10 + (ascii_code c - 48)) end.
Fixpoint all_digits (x : string) : bool :=
  match x with EmptyString => true | String c x => is_digit c && all_digits x end.
Definition starts_with_digit (x : string) : bool := match x with String c _ => is_digit c | EmptyString => false end.

Lemma parse_digits_ok x rest v : all_digits x = true → starts_with_digit rest = false →
  parse_digits (x +:+ rest) (u64 v) = (u64 (decimal x v), rest).
Proof.
  revert v. induction x as [|c x IH]; intros v Hx Hr.
  - change (parse_digits rest (u64 v) = (u64 v, rest)). destruct rest as [|c rest]; [done|].
    cbn in Hr |- *. by rewrite Hr.
  - cbn in Hx. apply andb_prop in Hx as [Hc Hx]. rewrite string_app_cons. cbn [parse_digits decimal]. rewrite Hc. rewrite <- IH by done. f_equal.
    unfold u64. rewrite Zplus_mod_idemp_l, <- Zplus_mod_idemp_l, Zmult_mod_idemp_l, Zplus_mod_idemp_l. done.
Qed.

Lemma print_digits_ok fuel n x : 0 ≤ n < 10 ^ Z.of_nat fuel → (0 < fuel)%nat → all_digits x = true →
  all_digits (print_digits fuel n x) = true ∧ starts_with_digit (print_digits fuel n x) = true ∧
  decimal (print_digits fuel n x) 0 = decimal x n.
Proof.
  revert n x. induction fuel as [|fuel IH]; intros n x Hn Hf Hx; [lia|]. cbn [print_digits].
  pose proof (Z.mod_pos_bound n 10 ltac:(lia)) as Hm.
  assert (is_digit (digit_char (n mod 10)) = true) as Hd.
  { unfold is_digit. rewrite digit_char_code by done. lia. }
  assert (all_digits (String (digit_char (n mod 10)) x) = true) as Hx' by (cbn; by rewrite Hd).
  assert (0 ≤ n / 10) by (apply Z.div_pos; lia).
  destruct (Z.eqb_spec (n / 10) 0) as [E|E].
  - split; [done|]. split; [done|]. cbn [decimal]. rewrite digit_char_code by done. f_equal.
    pose proof (Z.div_mod n 10). lia.
  - destruct fuel as [|fuel]; [destruct E; apply Z.div_small; cbn in Hn; lia|].
    destruct (IH (n / 10) (String (digit_char (n mod 10)) x)) as (H1 & H2 & H3).
    { split; [done|]. apply Z.div_lt_upper_bound; [lia|]. rewrite (Nat2Z.inj_succ (S fuel)), Z.pow_succ_r in Hn by lia. lia. }
    { lia. } { done. }
    split; [done|]. split; [done|]. rewrite H3. cbn [decimal]. rewrite digit_char_code by done. f_equal.
    pose proof (Z.div_mod n 10). lia.
Qed.

(** A number below 2^64 that the program prints is parsed back, whatever other
    text follows it; and every nonempty sequence of digits is parsed to its value
    modulo 2^64, the rest of the text being left over. *)
Theorem numbers_parse_back (rest : string) : starts_with_digit rest = false →
  (∀ n, 0 ≤ n < 2 ^ 64 → parse_uint64_t (print_u64 n +:+ rest) = Some (n, rest)) ∧
  (∀ x, all_digits x = true → x ≠ EmptyString → parse_uint64_t (x +:+ rest) = Some (u64 (decimal x 0), rest)).
Proof.
  intros Hr.
  assert (∀ x, all_digits x = true → x ≠ EmptyString → parse_uint64_t (x +:+ rest) = Some (u64 (decimal x 0), rest)) as H.
  { intros x Hx Hne. rewrite <- (parse_digits_ok x rest 0) by done. destruct x as [|c x]; [done|].
    rewrite string_app_cons. unfold parse_uint64_t. cbn in Hx. by apply andb_prop in Hx as [-> _]. }
  split; [|done]. intros n Hn. destruct (print_digits_ok 20 n EmptyString) as (H1 & H2 & H3); [lia|lia|done|].
  fold (print_u64 n) in H1, H2, H3. rewrite H; [|done|by intros E; rewrite E in H2]. rewrite H3. cbn. unfold u64. by rewrite Z.mod_small.
Qed.

Lemma numbers_parse_back_witness :
  starts_with_digit newline = false ∧ parse_uint64_t (print_u64 18446744073709551615 +:+ newline) = Some (18446744073709551615, newline).
Proof. split; [reflexivity|]. apply (proj1 (numbers_parse_back newline eq_refl)). lia. Defined.

(** * What the functions write *)
Section output.
Context {W : Type} `{OS : Os W}.
Local Abbreviation T := (timing W).

(** What a function that measures leaves alone. *)
Definition settings (s : T) :=
  (no_msg_received s, fast_tracepoints_dir_fd s, userfaultfd_fd s, page_size s, fast_tracepoints s, held s).

(** [m] returns some [a] after it has written [x] and touched [t], with [Q a x t]. *)
Definition writes {A} (m : M T A) (s : T) (Q : A → string → list (Z * bool) → Prop) : Prop :=
  ∃ a s' x t, m s = Ok a s' ∧ settings s' = settings s ∧ stdout s' = stdout s +:+ x ∧ touched s' = touched s ++ t ∧ Q a x t.

Lemma writes_bind {A B} (m : M T A) (f : A → M T B) s Q R : writes m s Q →
  (∀ a s' x t, settings s' = settings s → Q a x t → writes (f a) s' (λ b y u, R b (x +:+ y) (t ++ u))) →
  writes (m ≫= f) s R.
Proof.
  intros (a & s1 & x & t & E & S1 & O1 & T1 & H) Hf. destruct (Hf a s1 x t S1 H) as (b & s2 & y & u & E2 & S2 & O2 & T2 & H2).
  exists b, s2, (x +:+ y), (t ++ u). run E. split; [done|]. split; [congruence|].
  by rewrite O2, O1, T2, T1, string_app_assoc, app_assoc.
Qed.

Lemma writes_impl {A} (m : M T A) s Q R : writes m s Q → (∀ a x t, Q a x t → R a x t) → writes m s R.
Proof. intros (a & s1 & x & t & E & S1 & O1 & T1 & H) HQ. exists a, s1, x, t. do 4 (split; [done|]). by apply HQ. Qed.

Lemma writes_nothing {A} (m : M T A) s a s' Q : m s = Ok a s' → settings s' = settings s → stdout s' = stdout s →
  touched s' = touched s → Q a EmptyString [] → writes m s Q.
Proof. intros E S O H HQ. exists a, s', EmptyString, []. by rewrite string_app_nil, app_nil_r. Qed.

Lemma writes_ret {A} (a : A) s (Q : A → string → list (Z * bool) → Prop) : Q a EmptyString [] → writes (mret a) s Q.
Proof. intros H. by eapply writes_nothing. Qed.

Lemma writes_sys {A} (f : W → A * W) s (Q : A → string → list (Z * bool) → Prop) : (∀ a, Q a EmptyString []) → writes (sys f) s Q.
Proof.
  intros H. unfold writes, sys. destruct (f (kernel s)) as [a w]. exists a, (set_kernel w s), EmptyString, [].
  cbn [stdout touched set_kernel]. by rewrite string_app_nil, app_nil_r.
Qed.

Lemma writes_gets {A} (f : T → A) s (Q : A → string → list (Z * bool) → Prop) : Q (f s) EmptyString [] → writes (gets f) s Q.
Proof. intros H. by eapply writes_nothing. Qed.

Lemma writes_puts x s (Q : unit → string → list (Z * bool) → Prop) : Q tt x [] → writes (puts x) s Q.
Proof. intros H. exists tt, (set_stdout (stdout s +:+ x) s), x, []. cbn [stdout touched set_stdout]. by rewrite app_nil_r. Qed.

(** The exact effects. *)
Lemma puts_writes x s : writes (puts x) s (λ _ y t, y = x ∧ t = []).
Proof. by apply writes_puts. Qed.
Lemma sys_writes {A} (f : W → A * W) s : writes (sys f) s (λ _ x t, x = EmptyString ∧ t = []).
Proof. by apply writes_sys. Qed.
Lemma gets_writes {A} (f : T → A) s : writes (gets f) s (λ a x t, a = f s ∧ x = EmptyString ∧ t = []).
Proof. by apply writes_gets. Qed.

(** Every fault is answered: no access hangs. *)
Definition faults_answered : Prop := ∀ byte w ebx v, fst (os_access byte w ebx v) ≠ None.

Lemma sys_bind {A B} (f : W → A * W) (g : A → M T B) s a w : f (kernel s) = (a, w) → (sys f ≫= g) s = g a (set_kernel w s).
Proof. intros E. unfold mbind, M_bind, sys. by rewrite E. Qed.

Lemma writes_access byte w ebx s (Q : Z * Z → string → list (Z * bool) → Prop) : faults_answered →
  (∀ a, Q a EmptyString [(byte, w)]) → writes (access_byte byte w ebx) s Q.
Proof.
  intros Hans H. pose proof (Hans byte w ebx (kernel s)) as Ha. destruct (os_access byte w ebx (kernel s)) as [[a|] v] eqn:E; [|done].
  exists a, (set_kernel v (set_touched (touched s ++ [(byte, w)]) s)), EmptyString, [(byte, w)].
  unfold access_byte. rewrite modify_bind, (sys_bind _ _ _ (Some a) v) by exact E.
  cbn [stdout set_kernel set_touched]. by rewrite string_app_nil.
Qed.

(** A fault that is not answered stops the program, before any timing is printed. *)
Lemma touch_page_hangs access byte (s : T) : (∀ w ebx v, fst (os_access byte w ebx v) = None) → touch_page access byte s = OutOfFuel.
Proof.
  intros Hno. assert (∀ w ebx s', access_byte byte w ebx s' = OutOfFuel) as Hh.
  { intros w ebx s'. unfold access_byte. rewrite modify_bind. pose proof (Hno w ebx (kernel s')) as Ha.
    destruct (os_access byte w ebx (kernel s')) as [a v] eqn:E. cbn in Ha. subst a. by rewrite (sys_bind _ _ _ None v). }
  unfold touch_page. destruct (access =? Z.lor PROT_READ PROT_WRITE).
  - unfold mbind, M_bind. by rewrite Hh.
  - rewrite ret_bind. destruct (os_rdtsc (kernel s)) as [n w] eqn:E. rewrite (sys_bind _ _ _ n w E), gets_bind.
    unfold mbind, M_bind. by rewrite Hh.
Qed.

Lemma held_release (h : gmultiset resource) r : (h ⊎ {[+ r +]}) ∖ {[+ r +]} = h.
Proof. multiset_solver. Qed.

(** The calls of a run all succeed, and tracepoints hold numbers. *)
Record working : Prop := {
  mmap_works : ∀ len prot w, fst (os_mmap len prot w) ≠ None;
  madvise_works : ∀ memory len w, fst (os_madvise memory len w) ≠ -1;
  register_works : ∀ memory len w, fst (os_register memory len w) ≠ -1;
  openat_works : ∀ name w, fst (os_openat name w) ≠ -1;
  read_works : ∀ fd w, ∃ content, fst (os_read fd w) = Some content ∧ parse_uint64_t (String.substring 0 21 content) ≠ None;
}.

(** Reading a tracepoint closes its file. *)
Lemma read_fast_tracepoint_writes name s (Q : option Z → string → list (Z * bool) → Prop) :
  (∀ a, (working → a ≠ None) → Q a EmptyString []) → writes (read_fast_tracepoint name) s Q.
Proof.
  intros H. unfold read_fast_tracepoint.
  eapply (writes_bind _ _ _ (λ fd x t, (working → fd ≠ -1) ∧ x = EmptyString ∧ t = [])).
  { unfold writes, sys. pose proof (λ Hw, openat_works Hw name (kernel s)) as Hw. destruct (os_openat name (kernel s)) as [fd w].
    exists fd, (set_kernel w s), EmptyString, []. cbn [stdout touched set_kernel]. by rewrite string_app_nil, app_nil_r. }
  intros fd s' x t _ (Hfd & -> & ->). unfold close.
  destruct (Z.eqb_spec fd (-1)) as [->|_]; [apply writes_ret, H; intros Hw; by destruct (Hfd Hw)|].
  pose proof (λ Hw, read_works Hw fd (kernel s')) as Hr. destruct (os_read fd (kernel s')) as [n w] eqn:E. eapply writes_nothing.
  { unfold acquire, release. rewrite modify_bind, (sys_bind _ _ _ n w) by exact E. rewrite modify_bind. reflexivity. }
  4:{ apply H. intros Hw. destruct (Hr Hw) as (content & Ec & Hp). cbn in Ec. subst n. cbn. by destruct (parse_uint64_t _). }
  all: unfold settings; cbn; rewrite ?held_release; done.
Qed.

(** The tracepoints before the null pointer. *)
Definition tracepoints (s : T) (ps : list (nat * string)) : Prop :=
  ∃ rest, fast_tracepoints s = (Some <$> ps) ++ None :: rest.

(** A piece of text with [n] commas, and nothing touched; or, where [fails] allows it, a
    body that gave up. *)
Definition cells (fails : bool) (n : nat) (ok : bool) (x : string) (t : list (Z * bool)) : Prop :=
  t = [] ∧ if ok then cell n x else fails = true.

Lemma each_tracepoint_writes fails s ps body : tracepoints s ps →
  (∀ p s', p ∈ ps → settings s' = settings s → writes (body p) s' (cells fails 1)) →
  writes (each_tracepoint body) s (cells fails (base.length ps)).
Proof.
  intros [rest Hs] Hb. unfold each_tracepoint. eapply (writes_bind _ _ _ (λ l x t, l = fast_tracepoints s ∧ x = EmptyString ∧ t = []));
    [by apply writes_gets|]. intros l s1 x t S1 (-> & -> & ->). rewrite Hs. clear Hs.
  revert s1 S1. induction ps as [|p ps IH]; intros s1 S1; [by apply writes_ret|]. cbn [fmap list_fmap app for_tracepoints].
  eapply writes_bind; [apply Hb; [by left|done]|]. intros ok s2 x t S2 [-> Hx]. destruct ok.
  - eapply writes_impl; [apply (IH (λ p' s' Hp, Hb p' s' (list_elem_of_further p' p ps Hp))); congruence|].
    intros ok y u [-> Hy]. split; [done|]. destruct ok; [|done]. change (cell (1 + base.length ps) (x +:+ y)). by apply cell_app.
  - by apply writes_ret.
Qed.

Definition columns (s : T) (ps : list (nat * string)) : nat :=
  (if no_msg_received s then 0 else 1) + (if (fast_tracepoints_dir_fd s =? -1)%Z then 0 else 2 + base.length ps).

Lemma settings_eq s s' : settings s' = settings s →
  no_msg_received s' = no_msg_received s ∧ fast_tracepoints_dir_fd s' = fast_tracepoints_dir_fd s ∧
  fast_tracepoints s' = fast_tracepoints s ∧ held s' = held s.
Proof. unfold settings. intros E. by simplify_eq. Qed.

(** The names can be columns of a table. *)
Definition clean_names (ps : list (nat * string)) : Prop := Forall (λ p, cell 0 p.2) ps.

Definition line (n : nat) (x : string) (t : list (Z * bool)) : Prop := ∃ y, x = y +:+ newline ∧ cell n y.

Lemma print_columns_writes s ps : tracepoints s ps → clean_names ps →
  writes print_columns s (λ _ x t, t = [] ∧ line (columns s ps) x t).
Proof.
  intros Hs Hn. unfold print_columns.
  eapply writes_bind; [apply puts_writes|]. intros _ s1 x1 t1 S1 [-> ->].
  eapply writes_bind; [apply gets_writes|].
  intros b s2 x2 t2 S2 (-> & -> & ->). destruct (settings_eq _ _ S1) as (-> & D1 & F1 & _).
  eapply (writes_bind _ _ _ (λ _ x t, cell (if no_msg_received s then 0 else 1) x ∧ t = [])).
  { destruct (no_msg_received s); [by apply writes_ret|by apply writes_puts]. }
  intros _ s3 x3 t3 S3 [H3 ->].
  eapply writes_bind; [apply gets_writes|].
  intros b s4 x4 t4 S4 (-> & -> & ->). destruct (settings_eq _ _ S3) as (_ & -> & F3 & _).
  destruct (settings_eq _ _ S2) as (_ & -> & F2 & _). rewrite D1.
  eapply (writes_bind _ _ _ (λ _ x t, cell (if fast_tracepoints_dir_fd s =? -1 then 0 else 2 + base.length ps) x ∧ t = [])).
  { destruct (fast_tracepoints_dir_fd s =? -1); [by apply writes_ret|].
    eapply writes_bind; [by apply (writes_puts _ _ (λ _ x t, cell 2 x ∧ t = []))|]. intros _ s5 x5 t5 S5 [H5 ->].
    destruct (settings_eq _ _ S4) as (_ & _ & F4 & _). destruct (settings_eq _ _ S5) as (_ & _ & F5 & _).
    eapply writes_bind; [apply (each_tracepoint_writes false _ ps)|].
    - destruct Hs as [rest Hs]. exists rest. congruence.
    - intros p s6 Hp _. eapply writes_bind; [by apply (writes_puts _ _ (λ _ x t, cell 1 x ∧ t = []))|]. intros _ s7 x7 t7 _ [H7 ->].
      eapply writes_bind; [apply (writes_puts _ _ (λ _ x t, cell 0 x ∧ t = [])); split; [|done];
        by apply (proj1 (Forall_forall _ _) Hn)|].
      intros _ s8 x8 t8 _ [H8 ->]. apply writes_ret. split; [done|]. rewrite string_app_nil. by apply (cell_app 1 0).
    - intros ok s6 x6 t6 _ [-> H6]. apply writes_ret. destruct ok; [|done]. rewrite string_app_nil. split; [|done]. by apply cell_app. }
  intros _ s5 x5 t5 S5 [H5 ->]. apply writes_puts. split; [done|]. exists ("end" +:+ (EmptyString +:+ (x3 +:+ (EmptyString +:+ x5)))).
  split; [by rewrite !string_app_assoc|]. apply (cell_app 0); [done|]. apply (cell_app 0); [done|]. apply cell_app; [done|].
  by apply (cell_app 0).
Qed.

(** Writes one cell. *)
Definition one_cell {A} (n : nat) (a : A) (x : string) (t : list (Z * bool)) : Prop := cell n x ∧ t = [].

Lemma put_since_writes m start s : writes (put_since m start) s (one_cell 1).
Proof.
  unfold put_since. destruct (start <? m); [|by apply writes_puts].
  eapply writes_bind; [by apply (writes_puts _ _ (one_cell 1))|]. intros _ s1 x t _ [Hx ->]. apply writes_puts.
  split; [|done]. apply (cell_app 1 0); [done|apply print_u64_cell].
Qed.

Lemma put_number_writes n s : writes (_ ← puts ","; puts (print_u64 n)) s (one_cell 1).
Proof.
  eapply writes_bind; [by apply (writes_puts _ _ (one_cell 1))|]. intros _ s1 x t _ [Hx ->]. apply writes_puts.
  split; [|done]. apply (cell_app 1 0); [done|apply print_u64_cell].
Qed.

Lemma put_tracepoint_writes fails start p s : (fails = false → working) → writes (put_tracepoint start p) s (cells fails 1).
Proof.
  intros Hf. unfold put_tracepoint.
  eapply writes_bind; [apply (read_fast_tracepoint_writes _ _ (λ r x t, (r = None → fails = true) ∧ x = EmptyString ∧ t = []))|].
  { intros r Hr. split; [|done]. intros ->. destruct fails; [done|]. by destruct (Hr (Hf eq_refl)). }
  intros r s1 x t _ (Hr & -> & ->). destruct r as [m|]; [|by apply writes_ret; split; [|apply Hr]].
  eapply writes_bind; [apply put_since_writes|]. intros _ s2 x t _ [Hx ->]. apply writes_ret.
  split; [done|]. by rewrite string_app_nil.
Qed.

(** The accesses to one byte. *)
Definition touches (access byte : Z) : list (Z * bool) :=
  if access =? Z.lor PROT_READ PROT_WRITE then [(byte, false); (byte, true)] else [(byte, negb (access =? PROT_READ))].

Lemma one_cell_app {A B} n m (a : A) (b : B) x t y u : one_cell n a x t → one_cell m b y u → one_cell (n + m) b (x +:+ y) (t ++ u).
Proof. intros [H1 ->] [H2 ->]. split; [by apply cell_app|done]. Qed.

(** The columns of the kernel. *)
Lemma kernel_columns_writes fails s ps isr iret start : (fails = false → working) → tracepoints s ps →
  writes (_ ← puts ","; _ ← puts (print_u64 isr); _ ← puts ","; _ ← puts (print_u64 iret);
          each_tracepoint (put_tracepoint start)) s (cells fails (2 + base.length ps)).
Proof.
  intros Hf Hs. do 4 (eapply writes_bind; [apply puts_writes|]; intros _ ? ? ? ? [-> ->]).
  eapply writes_impl; [apply (each_tracepoint_writes fails _ ps)|].
  - destruct Hs as [rest Hs]. exists rest. rewrite <- Hs. unfold settings in *. congruence.
  - intros p s0 _ _. by apply put_tracepoint_writes.
  - intros ok x t [-> Hx]. split; [done|]. destruct ok; [|done]. pose proof (print_u64_cell isr). pose proof (print_u64_cell iret).
    apply (cell_app 1); [done|]. apply (cell_app 0); [done|]. apply (cell_app 1); [done|]. by apply (cell_app 0).
Qed.

Lemma touch_page_writes fails s ps access byte : faults_answered → (fails = false → working) → tracepoints s ps →
  writes (touch_page access byte) s
    (λ ok x t, t = touches access byte ∧ if ok : bool then line (columns s ps) x t else fails = true).
Proof.
  intros Hans Hf Hs. unfold touch_page, touches.
  eapply (writes_bind _ _ _ (λ _ x t, x = EmptyString ∧ t = if access =? Z.lor PROT_READ PROT_WRITE then [(byte, false)] else [])).
  { destruct (access =? Z.lor PROT_READ PROT_WRITE); [|by apply writes_ret].
    eapply writes_bind; [by apply (writes_access _ _ _ _ (λ _ x t, x = EmptyString ∧ t = [(byte, false)]))|].
    intros _ s1 x t _ [-> ->]. by apply writes_ret. }
  intros _ s1 x1 t1 S1 [-> ->].
  eapply writes_bind; [apply sys_writes|]. intros start s2 x2 t2 S2 [-> ->].
  eapply writes_bind; [apply gets_writes|].
  intros d s3 x3 t3 S3 (-> & -> & ->).
  eapply writes_bind; [by apply (writes_access _ _ _ _ (λ _ x t, x = EmptyString ∧ t = [(byte, negb (access =? PROT_READ))]))|].
  intros [isr iret] s4 x4 t4 S4 [-> ->].
  eapply writes_bind; [apply sys_writes|]. intros stop s5 x5 t5 S5 [-> ->].
  eapply writes_bind; [apply (writes_puts _ _ (one_cell 0)); split; [apply print_u64_cell|done]|]. intros _ s6 x6 t6 S6 [H6 ->].
  eapply writes_bind; [apply gets_writes|].
  intros b s7 x7 t7 S7 (-> & -> & ->).
  assert (fast_tracepoints_dir_fd s2 = fast_tracepoints_dir_fd s ∧ no_msg_received s6 = no_msg_received s) as [-> ->]
    by (unfold settings in *; split; congruence).
  eapply (writes_bind _ _ _ (one_cell (if no_msg_received s then 0 else 1))).
  { destruct (no_msg_received s); [by apply writes_ret|].
    eapply writes_bind; [apply sys_writes|]. intros m s8 x8 t8 _ [-> ->].
    apply put_since_writes. }
  intros _ s8 x8 t8 S8 [H8 ->].
  eapply (writes_bind _ _ _ (cells fails (if fast_tracepoints_dir_fd s =? -1 then 0 else 2 + base.length ps))).
  { destruct (fast_tracepoints_dir_fd s =? -1); [by apply writes_ret|]. apply kernel_columns_writes; [done|].
    destruct Hs as [rest Hs]. exists rest. rewrite <- Hs. unfold settings in *. congruence. }
  intros ok s9 x9 t9 S9 [-> H9]. destruct ok; [|apply writes_ret; by destruct (access =? Z.lor PROT_READ PROT_WRITE) eqn:E; [apply Z.eqb_eq in E as ->|]].
  eapply writes_bind; [apply puts_writes|]. intros _ s10 x10 t10 S10 [-> ->].
  eapply (writes_bind _ _ _ (λ _ x t, x = EmptyString ∧ t = [])).
  { destruct (no_msg_received s); [by apply writes_ret|by apply writes_sys]. }
  intros _ s11 x11 t11 S11 [-> ->]. apply writes_ret. split.
  - destruct (access =? Z.lor PROT_READ PROT_WRITE) eqn:E; [apply Z.eqb_eq in E as ->|]; done.
  - exists (x6 +:+ (x8 +:+ x9)). split; [by rewrite !string_app_nil, !string_app_assoc|].
    apply (cell_app 0); [done|]. by apply cell_app.
Qed.

(** ** The loop over the pages *)

(** Lines of text. *)
Fixpoint table (rows : list string) : string :=
  match rows with [] => EmptyString | y :: rows => (y +:+ newline) +:+ table rows end.

(** The accesses to [n] pages of size [p] from [byte] on. *)
Fixpoint page_touches (access p : Z) (n : nat) (byte : Z) : list (Z * bool) :=
  match n with O => [] | S n => touches access byte ++ page_touches access p n (byte + p) end.

Lemma touch_loop fails n : faults_answered → (fails = false → working) → ∀ fuel s ps memory len access p o, tracepoints s ps → 0 < p → 0 ≤ o → o + Z.of_nat n * p = len →
  len < 2 ^ 64 → (n < fuel)%nat →
  ∃ ok s', loop fuel (touch_body memory len access p) o s = Ok ok s' ∧
    settings s' = settings (set_held (held s ∖ {[+ RMap memory len +]}) s) ∧
    if ok : bool then ∃ rows, stdout s' = stdout s +:+ table rows ∧ touched s' = touched s ++ page_touches access p n (memory + o) ∧
      base.length rows = n ∧ Forall (cell (columns s ps)) rows
    else fails = true.
Proof.
  intros Hans Hfails. induction n as [|n IH]; intros fuel s ps memory len access p o Hs Hp Ho Hlen Hl Hf; destruct fuel as [|fuel]; [lia| |lia|];
    rewrite loop_S; unfold touch_body at 2.
  - rewrite (proj2 (Z.ltb_ge o len)) by lia. eexists true, _. split; [reflexivity|]. split; [done|]. exists [].
    cbn [table page_touches stdout touched set_held]. by rewrite string_app_nil, app_nil_r.
  - rewrite (proj2 (Z.ltb_lt o len)) by nia.
    destruct (touch_page_writes fails s ps access (memory + o) Hans Hfails Hs) as (ok & s1 & x & t & E & S1 & O1 & T1 & -> & Hx).
    rewrite bind_assoc. run E. pose proof (settings_eq _ _ S1) as (N1 & D1 & F1 & H1). destruct ok.
    + replace (u64 (o + p)) with (o + p) by (symmetry; apply Z.mod_small; nia). destruct Hx as (y & -> & Hy).
      destruct (IH fuel s1 ps memory len access p (o + p)) as (ok & s2 & E2 & S2 & H2); [|done|lia|lia|done|lia|].
      { destruct Hs as [rest Hs]. exists rest. congruence. }
      exists ok, s2. split; [exact E2|]. split; [rewrite S2; unfold settings in *; cbn; congruence|].
      destruct ok; [|done]. destruct H2 as (rows & O2 & T2 & L2 & R2). exists (y :: rows).
      assert (columns s1 ps = columns s ps) as Hc by (unfold columns; by rewrite N1, D1). rewrite Hc in R2.
      split; [by rewrite O2, O1, string_app_assoc|]. cbn [page_touches base.length].
      split; [by rewrite T2, T1, app_assoc, Z.add_assoc|]. split; [lia|by constructor].
    + eexists false, _. split; [reflexivity|]. split; [|done]. unfold settings in *. cbn. congruence.
Qed.

Lemma do_iteration_ok fails s ps n access uffd p : faults_answered → (fails = false → working) → tracepoints s ps → clean_names ps → 0 < p → Z.of_nat n * p < 2 ^ 64 →
  ∃ ok s', do_iteration (Z.of_nat n * p) access uffd p s = Ok ok s' ∧ settings s' = settings s ∧
    if ok : bool then ∃ memory header rows, stdout s' = stdout s +:+ table (header :: rows) ∧
      base.length rows = n ∧ Forall (cell (columns s ps)) (header :: rows) ∧
      touched s' = touched s ++ page_touches access p n memory
    else fails = true.
Proof.
  intros Hans Hf Hs Hn Hp Hl. unfold do_iteration.
  destruct (print_columns_writes s ps Hs Hn) as (? & s1 & x & t & E1 & S1 & O1 & T1 & -> & y & -> & Hy).
  run E1. pose proof (settings_eq _ _ S1) as (N1 & D1 & F1 & H1).
  destruct (os_mmap (Z.of_nat n * p) access (kernel s1)) as [memory w1] eqn:E2. rewrite (sys_bind _ _ _ _ _ E2).
  destruct memory as [memory|].
  2:{ eexists false, _. split; [reflexivity|]. split; [done|]. destruct fails; [done|].
      destruct (mmap_works (Hf eq_refl) (Z.of_nat n * p) access (kernel s1)). by rewrite E2. }
  assert (∀ s3, settings s3 = settings (set_held (held s1 ⊎ {[+ RMap memory (Z.of_nat n * p) +]}) s1) →
    settings (set_held (held s3 ∖ {[+ RMap memory (Z.of_nat n * p) +]}) s3) = settings s) as Hback.
  { intros s3 S3. destruct (settings_eq _ _ S3) as (_ & _ & _ & H3). rewrite H3. cbn [held set_held]. rewrite held_release.
    unfold settings in *. cbn in *. congruence. }
  unfold acquire. rewrite modify_bind.
  set (s2 := set_held _ _). destruct (os_madvise memory (Z.of_nat n * p) (kernel s2)) as [r w2] eqn:E3.
  rewrite (sys_bind _ _ _ _ _ E3). destruct (Z.eqb_spec r (-1)) as [->|_].
  { eexists false, _. split; [reflexivity|]. split; [by apply Hback|]. destruct fails; [done|].
    destruct (madvise_works (Hf eq_refl) memory (Z.of_nat n * p) (kernel s2)). by rewrite E3. }
  set (s3 := set_kernel w2 s2).
  assert (∃ r s4, (if uffd : bool then sys (os_register memory (Z.of_nat n * p)) else mret 0) s3 = Ok r s4 ∧ settings s4 = settings s3 ∧
    stdout s4 = stdout s1 ∧ touched s4 = touched s1 ∧
    (working → r ≠ -1)) as (r4 & s4 & E4 & S4 & O4 & T4 & W4).
  { destruct uffd; [|by eexists _, _]. unfold sys. pose proof (λ Hw, register_works Hw memory (Z.of_nat n * p) (kernel s3)) as Hw.
    destruct (os_register _ _ _) as [r4 w4]. by eexists _, _. }
  run E4. destruct (Z.eqb_spec r4 (-1)) as [->|_].
  { eexists false, _. split; [reflexivity|]. split; [by apply Hback|]. destruct fails; [done|]. by destruct (W4 (Hf eq_refl)). }
  destruct (touch_loop fails n Hans Hf (S (Z.to_nat (Z.of_nat n * p))) s4 ps memory (Z.of_nat n * p) access p 0) as (ok & s5 & E5 & S5 & H5);
    [|done|lia|lia|done|nia|].
  { destruct Hs as [rest Hs]. exists rest. rewrite <- Hs, <- F1. unfold settings in S4. cbn in S4. congruence. }
  exists ok, s5. split; [exact E5|]. split; [rewrite S5; by apply Hback|]. destruct ok; [|done].
  destruct H5 as (rows & O5 & T5 & L5 & R5). exists memory, y, rows.
  assert (columns s4 ps = columns s ps) as Hc.
  { destruct (settings_eq _ _ S4) as (N4 & D4 & _). unfold columns. rewrite N4, D4. cbn. by rewrite N1, D1. }
  cbn [table].
  split; [by rewrite O5, O4, O1, !string_app_assoc|]. split; [done|]. rewrite Hc in R5.
  split; [by constructor|]. by rewrite T5, T4, T1, app_nil_r, Z.add_0_r.
Qed.

(** * What is held *)
Definition strs (ps : list (nat * string)) : gmultiset resource := list_to_set_disj ((λ p, RStr p.1) <$> ps).
Definition dir_held (s : T) : gmultiset resource :=
  if fast_tracepoints_dir_fd s =? -1 then ∅ else {[+ RFd (fast_tracepoints_dir_fd s) +]}.

Lemma cleanup_dir_ok ret s h : held s = dir_held s ⊎ h →
  ∃ s', cleanup_fast_tracepoints_dir_fd ret s = Ok ret s' ∧ held s' = h.
Proof.
  unfold dir_held, cleanup_fast_tracepoints_dir_fd, close. intros Hh. rewrite gets_bind.
  destruct (fast_tracepoints_dir_fd s =? -1) eqn:E; (eexists; split; [reflexivity|]); cbn [held set_held]; rewrite Hh; multiset_solver.
Qed.

Lemma strs_cons p ps : strs (p :: ps) = {[+ RStr p.1 +]} ⊎ strs ps.
Proof. apply list_to_set_disj_cons. Qed.

Lemma free_ok k name (s : T) : RStr k ∈ held s → free (Some (k, name)) s = Ok tt (set_held (held s ∖ {[+ RStr k +]}) s).
Proof. intros H. unfold free. rewrite gets_bind. by rewrite decide_True. Qed.

Lemma free_loop ps : ∀ rest (s : T) h, held s = h ⊎ strs ps →
  ∃ s', for_tracepoints ((Some <$> ps) ++ None :: rest) (λ p, _ ← free (Some p); mret true) s = Ok true s' ∧ held s' = h ∧
    fast_tracepoints_dir_fd s' = fast_tracepoints_dir_fd s.
Proof.
  induction ps as [|[k name] ps IH]; intros rest s h Hh.
  - exists s. split; [done|]. split; [|done]. rewrite Hh. unfold strs. change (h ⊎ ∅ = h). multiset_solver.
  - rewrite strs_cons in Hh. change ((k, name).1) with k in Hh. cbn [fmap list_fmap app for_tracepoints].
    assert (RStr k ∈ held s) as Hk by (rewrite Hh; multiset_solver).
    rewrite bind_assoc, (bind_ok _ _ _ _ _ (free_ok k name s Hk)), ret_bind.
    destruct (IH rest (set_held (held s ∖ {[+ RStr k +]}) s) h) as (s' & E & H1 & H2).
    { cbn [held set_held]. rewrite Hh. multiset_solver. }
    exists s'. split; [exact E|]. done.
Qed.

(** [L] is what the cleanup leaves. *)
Lemma cleanup_tracepoints_ok ret s ps L : tracepoints s ps → held s = dir_held s ⊎ strs ps ⊎ L →
  ∃ s', cleanup_fast_tracepoints ret s = Ok ret s' ∧ held s' = L.
Proof.
  intros [rest Hs] Hh. unfold cleanup_fast_tracepoints, each_tracepoint. rewrite bind_assoc, gets_bind, Hs.
  destruct (free_loop ps rest s (dir_held s ⊎ L)) as (s1 & E & H1 & H2); [rewrite Hh; multiset_solver|]. run E.
  apply cleanup_dir_ok. rewrite H1. unfold dir_held. by rewrite H2.
Qed.

Lemma cleanup_userfaultfd_ok o ret s ps L : tracepoints s ps → (with_userfaultfd o = true → userfaultfd_fd s ≠ -1) →
  held s = dir_held s ⊎ strs ps ⊎ (if with_userfaultfd o then {[+ RFd (userfaultfd_fd s) +]} else ∅) ⊎ L →
  ∃ s', cleanup_userfaultfd_fd o ret s = Ok ret s' ∧ held s' = L.
Proof.
  intros Hs Hu Hh. unfold cleanup_userfaultfd_fd, close. rewrite gets_bind.
  destruct (with_userfaultfd o).
  - rewrite (proj2 (Z.eqb_neq _ _) (Hu eq_refl)). unfold release. rewrite modify_bind. apply (cleanup_tracepoints_ok _ _ ps L); [done|]. cbn [held set_held]. rewrite Hh.
    change (dir_held (set_held _ s)) with (dir_held s). multiset_solver.
  - rewrite ret_bind. apply (cleanup_tracepoints_ok _ _ ps L); [done|]. rewrite Hh. multiset_solver.
Qed.

Lemma cleanup_ok o ret s ps L : tracepoints s ps → (with_userfaultfd o = true → userfaultfd_fd s ≠ -1) →
  held s = dir_held s ⊎ strs ps ⊎ (if with_userfaultfd o then {[+ RFd (userfaultfd_fd s); RThread +]} else ∅) ⊎ L →
  ∃ s', cleanup o ret s = Ok ret s' ∧ held s' = L.
Proof.
  intros Hs Hu Hh. unfold cleanup. destruct (with_userfaultfd o) eqn:Ho.
  - unfold release. rewrite modify_bind. apply (cleanup_userfaultfd_ok _ _ _ ps L); [done|by rewrite Ho|].
    cbn [held set_held userfaultfd_fd]. rewrite Hh, Ho. change (dir_held (set_held _ s)) with (dir_held s). multiset_solver.
  - rewrite ret_bind. apply (cleanup_userfaultfd_ok _ _ _ ps L); [done|by rewrite Ho|]. by rewrite Ho.
Qed.

(** ** Rounding to pages *)
Lemma land_lnot_mask x k : 0 ≤ x < 2 ^ 64 → 0 ≤ k < 64 → Z.land x (u64 (Z.lnot (2 ^ k - 1))) = x / 2 ^ k * 2 ^ k.
Proof.
  intros Hx Hk. apply Z.bits_inj'. intros i Hi. rewrite Z.land_spec, <- Z.shiftr_div_pow2, <- Z.shiftl_mul_pow2 by lia.
  rewrite Z.shiftl_spec by lia. unfold u64. destruct (decide (i < 64)) as [Hlt|Hge].
  - replace (2 ^ k - 1) with (Z.ones k) by (rewrite Z.ones_equiv; lia). rewrite Z.mod_pow2_bits_low, Z.lnot_spec by lia.
    destruct (decide (i < k)) as [Hik|Hik].
    + rewrite Z.ones_spec_low, (Z.testbit_neg_r _ (i - k)) by lia. apply andb_false_r.
    + rewrite Z.ones_spec_high, andb_true_r, Z.shiftr_spec by lia. f_equal. lia.
  - rewrite Z.mod_pow2_bits_high, andb_false_r by lia. rewrite Z.shiftr_spec by lia. symmetry.
    replace (i - k + k) with i by lia. destruct (decide (x = 0)) as [->|]; [apply Z.bits_0|].
    apply Z.bits_above_log2; [lia|]. apply Z.log2_lt_pow2; [lia|].
    apply (Z.lt_le_trans _ (2 ^ 64)); [lia|]. apply Z.pow_le_mono_r; lia.
Qed.

Lemma round_length_pages len k : 0 ≤ k < 64 → ∃ n, round_length len (2 ^ k) = Z.of_nat n * 2 ^ k ∧ Z.of_nat n * 2 ^ k < 2 ^ 64.
Proof.
  intros Hk. unfold round_length. assert (0 ≤ u64 (len + 2 ^ k - 1) < 2 ^ 64) as Hb by (apply Z.mod_pos_bound; lia).
  rewrite land_lnot_mask by done. pose proof (Z.pow_pos_nonneg 2 k).
  exists (Z.to_nat (u64 (len + 2 ^ k - 1) / 2 ^ k)). rewrite Z2Nat.id by (apply Z.div_pos; lia). split; [done|].
  pose proof (Z.mul_div_le (u64 (len + 2 ^ k - 1)) (2 ^ k)). lia.
Qed.

(** ** Listing the tracepoints *)

(** What the program relies on: names are plain, and the page size is a power of two. *)
Record sane_os : Prop := {
  names_ok : ∀ w es, fst (os_opendir w) = Some es → Forall (λ e, cell 0 e.1) es;
  sysconf_ok : ∀ w, fst (os_sysconf w) = -1 ∨ ∃ k, 0 ≤ k < 64 ∧ fst (os_sysconf w) = 2 ^ k;
}.

(** There is memory for every name. *)
Definition copies : Prop := ∀ name w, fst (os_strdup name w) = true.

Definition regular (es : list (string * Z)) : nat := base.length (filter (λ e, Z.land e.2 DT_REG ≠ 0) es).

Lemma regular_cons e es : regular (e :: es) = (if Z.land e.2 DT_REG =? 0 then regular es else S (regular es)).
Proof.
  unfold regular. rewrite filter_cons.
  destruct (Z.eqb_spec (Z.land e.2 DT_REG) 0); [by rewrite decide_False by tauto|by rewrite decide_True].
Qed.

Lemma strs_app ps ps' : strs (ps ++ ps') = strs ps ⊎ strs ps'.
Proof. unfold strs. by rewrite fmap_app, list_to_set_disj_app. Qed.

(** The copies that the pointers [qs] hold; a failed copy has left a null pointer. *)
Definition made (qs : list str_ptr) : gmultiset resource := strs (omap id qs).

Lemma made_app qs qs' : made (qs ++ qs') = made qs ⊎ made qs'.
Proof. unfold made. by rewrite omap_app, strs_app. Qed.
Lemma made_none : made [None] = ∅.
Proof. done. Qed.
Lemma made_some k name : made [Some (k, name)] = {[+ RStr k +]}.
Proof. change (strs [(k, name)] = {[+ RStr k +]}). rewrite strs_cons. change (strs []) with (∅ : gmultiset resource). cbn [fst]. multiset_solver. Qed.

(** The pointers before the first null pointer, and those behind it. *)
Fixpoint named (qs : list str_ptr) : list (nat * string) :=
  match qs with Some p :: qs => p :: named qs | _ => [] end.
Fixpoint missed (qs : list str_ptr) : list str_ptr :=
  match qs with Some _ :: qs => missed qs | None :: qs => qs | [] => [] end.

Lemma named_made qs : made qs = strs (named qs) ⊎ made (missed qs).
Proof.
  induction qs as [|[p|] qs IH]; cbn [named missed]; [done| |].
  - change (Some p :: qs) with ([Some p] ++ qs). destruct p as [k name]. rewrite made_app, made_some, strs_cons, IH. cbn [fst]. multiset_solver.
  - change (None :: qs) with ([None] ++ qs). rewrite made_app, made_none. change (strs []) with (∅ : gmultiset resource). multiset_solver.
Qed.
Lemma named_prefix qs r : ∃ rest, qs ++ None :: r = (Some <$> named qs) ++ None :: rest.
Proof.
  induction qs as [|[p|] qs [rest IH]]; cbn; [by exists r|exists rest; by rewrite IH|by eexists].
Qed.
Lemma named_clean qs : clean_names (omap id qs) → clean_names (named qs).
Proof.
  induction qs as [|[p|] qs IH]; cbn; [done| |constructor]. intros [Hp Hc]%Forall_cons. constructor; [done|by apply IH].
Qed.
Lemma missed_all ps : missed (Some <$> ps) = [].
Proof. by induction ps. Qed.

(** The entries of the directory are stored in order; with enough memory every slot has its copy. *)
Definition stored (s : T) (qs : list str_ptr) : Prop :=
  fast_tracepoints s = qs ++ replicate (33 - base.length qs) None ∧ (base.length qs ≤ 32)%nat ∧ clean_names (omap id qs) ∧
  (copies → ∃ ps, qs = Some <$> ps ∧ ps.*1 = seq 0 (base.length ps) ∧ strings_made s = base.length ps).

Lemma stored_tracepoints s qs : stored s qs → tracepoints s (named qs).
Proof.
  intros (Hs & Hl & _). unfold tracepoints. rewrite Hs.
  replace (33 - base.length qs)%nat with (S (32 - base.length qs)) by lia. apply named_prefix.
Qed.

Lemma free_down_ok i : ∀ (s : T) qs rest h, fast_tracepoints s = qs ++ rest → (i ≤ base.length qs)%nat → (0 < i)%nat →
  held s = h ⊎ made (take i qs) →
  ∃ s', free_down i s = Ok tt s' ∧ held s' = h ⊎ made (take 1 qs) ∧ fast_tracepoints_dir_fd s' = fast_tracepoints_dir_fd s.
Proof.
  induction i as [|i IH]; intros s qs rest h Hs Hl Hi Hh; [lia|]. destruct i as [|i]; [by exists s|].
  destruct (lookup_lt_is_Some_2 qs (S i)) as [q Hq]; [lia|]. rewrite (take_S_r _ _ _ Hq), made_app in Hh.
  cbn [free_down]. rewrite (reads_bind _ _ _ q) by (by rewrite Hs, lookup_app_l by lia). destruct q as [[k name]|].
  - rewrite made_some in Hh. assert (RStr k ∈ held s) as Hk by (rewrite Hh; multiset_solver). run (free_ok k name s Hk).
    destruct (IH (set_held (held s ∖ {[+ RStr k +]}) s) qs rest h) as (s' & E & H1 & H2); [done|lia|lia| |by exists s'].
    cbn [held set_held]. rewrite Hh. multiset_solver.
  - change (made [None]) with (∅ : gmultiset resource) in Hh. unfold free. rewrite ret_bind. apply (IH s qs rest h); [done|lia|lia|]. rewrite Hh. multiset_solver.
Qed.

Lemma stored_snoc (s s' : T) qs q : stored s qs → fast_tracepoints s' = <[base.length qs := q]> (fast_tracepoints s) →
  (base.length qs < 32)%nat → (∀ p, q = Some p → cell 0 p.2) →
  (copies → ∃ name, q = Some (strings_made s, name) ∧ strings_made s' = S (strings_made s)) →
  stored s' (qs ++ [q]).
Proof.
  intros (Hs & Hl & Hn & Hc) Hs' Hlt Hd Hq. unfold stored. rewrite length_app, Nat.add_1_r. split_and!.
  - rewrite Hs', Hs, insert_app_r_alt by done. rewrite Nat.sub_diag, <- app_assoc. f_equal.
    by replace (33 - base.length qs)%nat with (S (33 - S (base.length qs))) by lia.
  - lia.
  - rewrite omap_app. apply Forall_app. split; [done|]. destruct q as [p|]; [|constructor]. apply Forall_singleton. by apply Hd.
  - intros Hcp. destruct (Hc Hcp) as (ps & -> & Hk & Hm). destruct (Hq Hcp) as (name & -> & Hm'). exists (ps ++ [(base.length ps, name)]).
    rewrite fmap_app, Hm. split; [done|]. rewrite fmap_app, Hk, length_app, Nat.add_1_r, seq_S. split; [done|congruence].
Qed.

(** What remains is copies of names only. *)
Definition strings_only (L : gmultiset resource) : Prop := ∀ x, x ∈ L → ∃ k, x = RStr k.
Lemma strs_only ps : strings_only (strs ps).
Proof. intros x. unfold strs. rewrite elem_of_list_to_set_disj, list_elem_of_fmap. intros (p & -> & _). by exists p.1. Qed.

Lemma store_entries_ok es : ∀ (s : T) qs h, stored s qs → Forall (λ e, cell 0 e.1) es →
  held s = h ⊎ made qs ⊎ {[+ RDir +]} →
  ∃ ok s', store_entries es (base.length qs) s = Ok ok s' ∧ fast_tracepoints_dir_fd s' = fast_tracepoints_dir_fd s ∧
    if ok : bool then ∃ qs', stored s' qs' ∧ held s' = h ⊎ made qs'
    else (32 < base.length qs + regular es)%nat ∧ ∃ L, held s' = h ⊎ L ∧ strings_only L ∧ (copies → L = {[+ RStr 0 +]}).
Proof.
  induction es as [|[d_name d_type] es IH]; intros s qs h Hst Hn Hh; cbn [store_entries].
  - eexists true, _. split; [reflexivity|]. split; [done|]. exists qs. split; [done|]. cbn [held set_held]. rewrite Hh. multiset_solver.
  - inversion_clear Hn as [|?? Hd Hn']. rewrite regular_cons. cbn [snd].
    destruct (Z.eqb_spec (Z.land d_type DT_REG) 0) as [E0|E0]; [by apply IH|]. pose proof Hst as (Hs & Hl & _ & Hc).
    destruct (decide (base.length qs = MAX_FAST_TRACEPOINTS)) as [Hmax|Hmax].
    + destruct (free_down_ok (base.length qs) s qs (replicate (33 - base.length qs) None) (h ⊎ {[+ RDir +]})) as (s1 & E1 & H1 & D1);
        [done|done|rewrite Hmax; unfold MAX_FAST_TRACEPOINTS; lia|rewrite take_ge by done; rewrite Hh; multiset_solver|].
      run E1. eexists false, _. split; [reflexivity|]. split; [done|]. unfold MAX_FAST_TRACEPOINTS in Hmax. split; [lia|].
      exists (made (take 1 qs)). split; [cbn [held set_held]; rewrite H1; multiset_solver|]. split; [apply strs_only|].
      intros Hcp. destruct (Hc Hcp) as (ps & -> & Hk & _). destruct ps as [|[k name] ps]; [done|]. cbn in Hk. injection Hk as -> _.
      cbn [fmap list_fmap take]. apply made_some.
    + unfold MAX_FAST_TRACEPOINTS in Hmax. destruct (os_strdup d_name (kernel s)) as [ok w] eqn:E.
      rewrite (sys_bind _ _ _ _ _ E), gets_bind. cbn [strings_made set_kernel].
      set (q := if ok then Some (strings_made s, d_name) else None).
      assert (∃ s', (if ok then _ ← acquire (RStr (strings_made s)); _ ← modify (set_strings_made (S (strings_made s))); mret (Some (strings_made s, d_name))
          else mret None) (set_kernel w s) = Ok q s' ∧ held s' = held s ⊎ made [q] ∧ fast_tracepoints s' = fast_tracepoints s ∧
          fast_tracepoints_dir_fd s' = fast_tracepoints_dir_fd s ∧
          (copies → ∃ name, q = Some (strings_made s, name) ∧ strings_made s' = S (strings_made s))) as (s1 & E1 & H1 & F1 & D1 & C1).
      { destruct ok; (eexists; split; [reflexivity|]); cbn [held set_held set_kernel set_strings_made].
        - subst q. rewrite made_some. split_and!; [done..|]. intros _. by exists d_name.
        - subst q. rewrite made_none. split; [multiset_solver|]. split_and!; [done..|]. intros Hcp. specialize (Hcp d_name (kernel s)). by rewrite E in Hcp. }
      run E1. rewrite modify_bind. set (s2 := set_fast_tracepoints _ s1).
      destruct (IH s2 (qs ++ [q]) h) as (ok' & s' & E' & D' & H').
      { apply (stored_snoc s); [done|cbn; by rewrite F1|lia| |done]. intros p. subst q. by destruct ok; intros [= <-]. }
      { done. }
      { cbn [held s2 set_fast_tracepoints]. rewrite H1, Hh, made_app. multiset_solver. }
      rewrite length_app, Nat.add_1_r in *. exists ok', s'. split; [exact E'|]. split; [by rewrite D'|].
      destruct ok'; [done|]. destruct H' as [H2 H3]. split; [lia|done].
Qed.

(** ** The whole program *)
Lemma print_usage_ok arg0 (s : T) : print_usage arg0 s = Ok tt (set_stdout (stdout s +:+ foldr (λ x y, x +:+ newline +:+ y) EmptyString (usage arg0)) s).
Proof.
  unfold print_usage. generalize (usage arg0) as l. intros l. revert s. induction l as [|x l IH]; intros s; cbn [foldr].
  - rewrite string_app_nil. by destruct s.
  - etrans; [apply (IH (set_stdout _ (set_stdout _ s)))|]. cbn. by rewrite !string_app_assoc.
Qed.

Lemma parse_options_ok arg0 opts : ∀ o (s : T), ∃ r s', parse_options arg0 opts o s = Ok r s' ∧ held s' = held s ∧
  fast_tracepoints s' = fast_tracepoints s ∧ strings_made s' = strings_made s.
Proof.
  induction opts as [|[opt optarg] opts IH]; intros [l i m a u] s; cbn [parse_options]; [by eexists _, _|].
  repeat match goal with
  | |- context [decide ?P] => destruct (decide P)
  | |- context [parse_whole ?x] => destruct (parse_whole x)
  end;
  lazymatch goal with
  | |- context [print_usage] => run (print_usage_ok arg0 s); by eexists _, _
  | |- context [modify] => rewrite modify_bind; apply (IH _ (set_no_msg true s))
  | |- context [mret] => by eexists _, _
  | _ => apply IH
  end.
Qed.

Lemma iterate_loop fuel : faults_answered → ∀ i (s : T) ps k o, tracepoints s ps → clean_names ps → 0 ≤ k < 64 → page_size s = 2 ^ k → 0 ≤ i →
  iteration_count o < 2 ^ 31 → (Z.to_nat (iteration_count o - i) < fuel)%nat →
  ∃ s', loop fuel (iterate_body o) i s = Ok tt s' ∧ settings s' = settings s.
Proof.
  intros Hans. induction fuel as [|fuel IH]; intros i s ps k o Hs Hn Hk Hp Hi Hc Hf; [lia|]. rewrite loop_S. unfold iterate_body at 2.
  destruct (Z.ltb_spec i (iteration_count o)) as [Hlt|Hge]; [|by exists s].
  rewrite bind_assoc, gets_bind, bind_assoc, Hp. destruct (round_length_pages (opt_length o) k Hk) as (n & Hr & Hb). rewrite Hr.
  destruct (do_iteration_ok true s ps n (opt_access o) (with_userfaultfd o) (2 ^ k)) as (ok & s1 & E1 & S1 & _);
    [done|done|done|done|apply Z.pow_pos_nonneg; lia|done|].
  run E1. rewrite (proj2 (Z.ltb_lt _ _)) by lia. rewrite ret_bind.
  destruct (IH (i + 1) s1 ps k o) as (s2 & E2 & S2); [|done|done|unfold settings in S1; congruence|lia|done|lia|].
  - destruct Hs as [rest Hs]. exists rest. rewrite <- Hs. unfold settings in S1. congruence.
  - exists s2. split; [done|congruence].
Qed.

Lemma run_iterations_ok (s : T) ps k o L : faults_answered → tracepoints s ps → clean_names ps → 0 ≤ k < 64 → page_size s = 2 ^ k →
  iteration_count o < 2 ^ 31 → (with_userfaultfd o = true → userfaultfd_fd s ≠ -1) →
  held s = dir_held s ⊎ strs ps ⊎ (if with_userfaultfd o then {[+ RFd (userfaultfd_fd s); RThread +]} else ∅) ⊎ L →
  ∃ s', run_iterations o s = Ok EXIT_SUCCESS s' ∧ held s' = L.
Proof.
  intros Hans Hs Hn Hk Hp Hc Hu Hh. unfold run_iterations.
  destruct (iterate_loop (S (Z.to_nat (iteration_count o))) Hans 0 s ps k o) as (s1 & E1 & S1); [done..|lia|done|lia|].
  assert (userfaultfd_fd s1 = userfaultfd_fd s) as U1 by (unfold settings in S1; congruence).
  destruct (settings_eq _ _ S1) as (_ & D1 & F1 & H1).
  run E1. apply (cleanup_ok _ _ _ ps L).
  - destruct Hs as [rest Hs]. exists rest. congruence.
  - by rewrite U1.
  - unfold dir_held. by rewrite H1, D1, U1.
Qed.

(** [m] returns and [L] is still held then. *)
Definition exits (m : M T Z) (s : T) (L : gmultiset resource) : Prop := ∃ r s', m s = Ok r s' ∧ held s' = L.

Lemma exits_sys {A} (f : W → A * W) (g : A → M T Z) (s : T) L :
  (∀ a w, f (kernel s) = (a, w) → exits (g a) (set_kernel w s) L) → exits (sys f ≫= g) s L.
Proof.
  intros H. destruct (f (kernel s)) as [a w] eqn:E. unfold exits. rewrite (sys_bind f g s a w E). by apply H.
Qed.

Lemma exits_intro (m : M T Z) (s : T) L r : (∃ s', m s = Ok r s' ∧ held s' = L) → exits m s L.
Proof. intros (s' & H). by exists r, s'. Qed.

Lemma exits_modify (f : T → T) (g : unit → M T Z) (s : T) L : exits (g tt) (f s) L → exits (modify f ≫= g) s L.
Proof. done. Qed.

Lemma start_userfaultfd_ok (s : T) ps k o L : faults_answered → tracepoints s ps → clean_names ps → 0 ≤ k < 64 → page_size s = 2 ^ k →
  iteration_count o < 2 ^ 31 → held s = dir_held s ⊎ strs ps ⊎ L → exits (start_userfaultfd o) s L.
Proof.
  intros Hans Hs Hn Hk Hp Hc Hh. unfold start_userfaultfd. destruct (with_userfaultfd o) eqn:Ho; cbn [negb].
  2:{ eapply exits_intro, (run_iterations_ok s ps k); [done..|by rewrite Ho|]. rewrite Ho, Hh. multiset_solver. }
  apply exits_sys. intros fd w _. apply exits_modify. destruct (Z.eqb_spec fd (-1)) as [->|Hfd].
  { eapply exits_intro, (cleanup_tracepoints_ok _ _ ps L); [done|exact Hh]. }
  apply exits_modify. set (s1 := set_held _ _).
  assert (held s1 = dir_held s1 ⊎ strs ps ⊎ {[+ RFd fd +]} ⊎ L) as H1.
  { change (held s ⊎ {[+ RFd fd +]} = dir_held s ⊎ strs ps ⊎ {[+ RFd fd +]} ⊎ L). rewrite Hh. multiset_solver. }
  assert (∀ w, exits (cleanup_userfaultfd_fd o EXIT_FAILURE) (set_kernel w s1) L) as Hfail.
  { intros w'. eapply exits_intro, (cleanup_userfaultfd_ok _ _ _ ps L); [done|done|by rewrite Ho]. }
  apply exits_sys. intros r w1 _. destruct (r =? -1); [apply Hfail|].
  apply exits_sys. intros err w2 _. destruct (negb (err =? 0)); [apply Hfail|].
  apply exits_modify. set (s2 := set_held _ _).
  assert (held s2 = dir_held s2 ⊎ strs ps ⊎ {[+ RFd fd; RThread +]} ⊎ L) as H2.
  { change (held s1 ⊎ {[+ RThread +]} = dir_held s1 ⊎ strs ps ⊎ {[+ RFd fd; RThread +]} ⊎ L). rewrite H1. multiset_solver. }
  assert (∀ w, exits (cleanup o EXIT_FAILURE) (set_kernel w s2) L) as Hfail2.
  { intros w'. eapply exits_intro, (cleanup_ok _ _ _ ps L); [done|done|by rewrite Ho]. }
  apply exits_sys. intros err3 w3 _. destruct (negb (err3 =? 0)); [apply Hfail2|].
  apply exits_sys. intros err4 w4 _. destruct (negb (err4 =? 0)); [apply Hfail2|].
  eapply exits_intro, (run_iterations_ok _ ps k _ L); [done|done|done|done|done|done|done|by rewrite Ho].
Qed.

Definition more_than_fit : Prop := ∃ w es, fst (os_opendir w) = Some es ∧ (MAX_FAST_TRACEPOINTS < regular es)%nat.

Lemma stored_nil (s : T) : fast_tracepoints s = replicate 33 None → strings_made s = O → stored s [].
Proof. intros Hs Hm. split; [done|]. split; [cbn; lia|]. split; [constructor|]. intros _. by exists []. Qed.

Lemma list_fast_tracepoints_ok (s : T) h : sane_os → fast_tracepoints s = replicate 33 None → strings_made s = O → held s = h →
  ∃ ok s', list_fast_tracepoints s = Ok ok s' ∧ fast_tracepoints_dir_fd s' = fast_tracepoints_dir_fd s ∧
    if ok : bool then ∃ qs, stored s' qs ∧ held s' = h ⊎ made qs
    else ∃ L, held s' = h ⊎ L ∧ strings_only L ∧ (copies → L = ∅ ∨ more_than_fit ∧ L = {[+ RStr 0 +]}).
Proof.
  intros Hos Hs Hm Hh. unfold list_fast_tracepoints. destruct (os_opendir (kernel s)) as [dir w] eqn:E.
  rewrite (sys_bind _ _ _ _ _ E). destruct dir as [es|].
  2:{ eexists false, _. split; [reflexivity|]. split; [done|]. exists ∅. split; [cbn [held set_kernel]; rewrite Hh; multiset_solver|].
      split; [intros x; multiset_solver|by left]. }
  unfold acquire. rewrite modify_bind.
  destruct (store_entries_ok es (set_held (held (set_kernel w s) ⊎ {[+ RDir +]}) (set_kernel w s)) [] h) as (ok & s' & E' & D & H');
    [by apply stored_nil|by apply (names_ok Hos (kernel s)); rewrite E| |].
  { cbn [held set_held set_kernel]. rewrite Hh. change (h ⊎ {[+ RDir +]} = h ⊎ ∅ ⊎ {[+ RDir +]}). multiset_solver. }
  exists ok, s'. split; [exact E'|]. split; [done|]. destruct ok; [done|]. destruct H' as [Hr (L & HL & Ho & Hc)].
  exists L. split; [done|]. split; [done|]. intros Hcp. right. split; [|by apply Hc]. exists (kernel s), es. by rewrite E.
Qed.

Lemma measure_ok (s : T) ps o L : faults_answered → sane_os → tracepoints s ps → clean_names ps → iteration_count o < 2 ^ 31 →
  held s = dir_held s ⊎ strs ps ⊎ L →
  exits (p ← sys os_sysconf; _ ← modify (set_page_size p);
         if p =? -1 then cleanup_fast_tracepoints EXIT_FAILURE else start_userfaultfd o) s L.
Proof.
  intros Hans Hos Hs Hn Hc Hh. apply exits_sys. intros p w E. apply exits_modify.
  destruct (Z.eqb_spec p (-1)) as [->|Hp]; [by eapply exits_intro, (cleanup_tracepoints_ok _ _ ps)|].
  destruct (sysconf_ok Hos (kernel s)) as [Hk|(k & Hk & Ek)]; rewrite E in *; [done|].
  by apply (start_userfaultfd_ok _ ps k).
Qed.


(** C11: When no access hangs, a run over [n] pages gives back its mapping whatever else fails, and changes none of
    the settings; it succeeds when all its calls do, and then it has touched every page once,
    or read and then written it, in ascending order, and has printed a header and one
    line for each page, all with the same number of columns. *)
Theorem do_iteration_table (s : T) ps n access uffd p : faults_answered → tracepoints s ps → clean_names ps → 0 < p → Z.of_nat n * p < 2 ^ 64 →
  ∃ ok s', do_iteration (Z.of_nat n * p) access uffd p s = Ok ok s' ∧ settings s' = settings s ∧ (working → ok = true) ∧
    (ok = true → ∃ memory header rows, stdout s' = stdout s +:+ table (header :: rows) ∧
      base.length rows = n ∧ Forall (cell (columns s ps)) (header :: rows) ∧
      touched s' = touched s ++ page_touches access p n memory).
Proof.
  intros Hans Hs Hn Hp Hl. destruct (do_iteration_ok true s ps n access uffd p) as (ok & s' & E & S' & H); [done..|].
  exists ok, s'. split; [done|]. split; [done|]. split; [|by intros ->]. intros Hw.
  destruct (do_iteration_ok false s ps n access uffd p) as (ok2 & s2 & E2 & _ & H2); [done..|].
  rewrite E in E2. injection E2 as <- _. by destruct ok.
Qed.
End output.

(** * A kernel on which all calls succeed *)
Section example.
(** The clock is the state. *)
Definition os_with (dup : string → bool) : Os Z := {|
  os_open := λ w, ((5, 0), w);
  os_opendir := λ w, (Some [("fault_entry", 8); ("events", 4); ("fault_exit", 8)], w);
  os_strdup := λ name w, (dup name, w);
  os_openat := λ _ w, (7, w);
  os_read := λ _ w, (Some (print_u64 1000), w);
  os_sysconf := λ w, (4096, w);
  os_userfaultfd := λ w, (6, w);
  os_api := λ _ w, (0, w);
  os_pthread_create := λ w, (0, w);
  os_setaffinity := λ _ w, (0, w);
  os_mmap := λ _ _ w, (Some 65536, w);
  os_madvise := λ _ _ w, (0, w);
  os_register := λ _ _ w, (0, w);
  os_access := λ _ _ _ w, (Some (w + 10, w + 20), w + 30);
  os_rdtsc := λ w, (w, w + 1);
  os_load_msg := λ w, (w - 5, w);
  os_store_msg := λ _ w, (tt, w);
|}.
Local Instance demo_os : Os Z := os_with (λ _, true).
Definition demo_timing : timing Z :=
  Timing false (-1) 0 0 (replicate 33 None) 0 ∅ EmptyString [] 0.
Definition demo_measuring : timing Z :=
  Timing false 5 6 4096 ([Some (0%nat, "fault_entry"); Some (1%nat, "fault_exit")] ++ replicate 31 None) 2
    {[+ RFd 5; RStr 0; RStr 1; RFd 6; RThread +]} EmptyString [] 0.

Lemma demo_sane : sane_os (OS := demo_os).
Proof.
  split; [|intros w; right; by exists 12].
  intros w es [= <-]. repeat constructor.
Qed.

Lemma demo_answered : faults_answered (OS := demo_os).
Proof. by intros byte w ebx v. Qed.

Lemma demo_working : working (OS := demo_os).
Proof. split; [done..|]. intros fd w. by exists (print_u64 1000). Qed.


(** A name that could not be copied: the copies behind it are never freed. *)
Example failed_copy_leaks :
  match main (OS := os_with (λ name, bool_decide (name ≠ "fault_entry"))) "collect" [] demo_timing with
  | Ok r s' => r = EXIT_SUCCESS ∧ elements (held s') = [RStr 0]
  | _ => False
  end.
Proof. vm_compute. split; reflexivity. Qed.

Lemma do_iteration_table_witness :
  ∃ ok s', do_iteration (Z.of_nat 2 * 4096) 3 true 4096 demo_measuring = Ok ok s' ∧ settings s' = settings demo_measuring ∧
    (working (OS := demo_os) → ok = true) ∧
    (ok = true → ∃ memory header rows, stdout s' = stdout demo_measuring +:+ table (header :: rows) ∧
      base.length rows = 2%nat ∧ Forall (cell 5) (header :: rows) ∧
      touched s' = touched demo_measuring ++ page_touches 3 4096 2 memory).
Proof.
  apply (do_iteration_table demo_measuring [(0%nat, "fault_entry"); (1%nat, "fault_exit")]);
    [exact demo_answered|by exists (replicate 30 None)|repeat constructor|reflexivity|reflexivity].
Defined.

Example demo_rows : ∃ s', do_iteration 8192 3 true 4096 demo_measuring = Ok true s' ∧
  stdout s' = table ["end,msg_received,isr_entry,iret,fault_entry,fault_exit"; "31,27,11,21,970,970"; "31,27,11,21,908,908"]%string ∧
  touched s' = [(65536, false); (65536, true); (69632, false); (69632, true)].
Proof. eexists. split; [vm_compute; reflexivity|]. split; vm_compute; reflexivity. Qed.
End example.
