(* ===== verification/Uintr.v ===== *)
(** The experiment with user interrupt vectors
    (uintr-vector-experiments/run-uintr-vector-experiment.c): it registers a handler with a
    word of flags built from its options, provokes interrupts, spins and cleans up.

    The state holds what the program has acquired and printed; the kernel, the clock and the
    processor are the class [UintrOs]. Messages on the standard error are left out. *)
From Stdlib Require Import Ascii.
From stdpp Require Import prelude strings.
From S2P Require Import Prelude Lists State Daemon Timings.

Open Scope Z_scope.

(** * Flags *)
Definition FLAG_SET_UINV : Z := 1.
Definition FLAG_UINV_SHIFT : Z := 24.
Definition FLAG_UINV_MASK : Z := 0xff000000.
Definition FLAG_SET_UPID_NV : Z := 2.
Definition FLAG_UPID_NV_SHIFT : Z := 16.
Definition FLAG_UPID_NV_MASK : Z := 0x00ff0000.
Definition FLAG_SET_UPIR : Z := 4.
Definition FLAG_NO_SELF_IPI : Z := 8.

(** [flags |= set; flags &= ~mask; flags |= vector << shift] *)
Definition with_vector (set mask shift flags vector : Z) : Z :=
  let flags := Z.lor flags set in
  let flags := Z.land flags (u32 (Z.lnot mask)) in
  Z.lor flags (u32 (Z.shiftl vector shift)).

Fixpoint parse_digits32 (buf : string) (out : Z) : Z * string :=
  match buf with
  | String c buf' => if is_digit c then parse_digits32 buf' (u32 (u32 (out * 10) + (ascii_code c - 48))) else (out, buf)
  | EmptyString => (out, buf)
  end.
Definition parse_uint32_t (buf : string) : option (Z * string) :=
  match buf with
  | String c _ => if is_digit c then Some (parse_digits32 buf 0) else None
  | EmptyString => None
  end.
(** The whole argument is a number. *)
Definition parse_all32 (optarg : string) : option Z :=
  match parse_uint32_t optarg with Some (v, EmptyString) => Some v | _ => None end.

(** * Options *)
Record experiment := Experiment { x_flags : Z; do_senduipi : bool; do_page_fault : bool; spin_for : Z }.
Definition no_experiment : experiment := Experiment 0 false false 0.

(** An option that getopt_long returns, with its argument if it has one; [inr] leaves the
    program with that result, after the usage text if the first component says so. *)
Definition experiment_option (opt : Ascii.ascii) (optarg : option string) (x : experiment) : experiment + bool * Z :=
  let '(Experiment flags s p spin) := x in
  let vector := optarg ≫= parse_all32 in
  if decide (opt = "u"%char) then
    match vector with
    | Some v => if v <=? 255 then inl (Experiment (with_vector FLAG_SET_UINV FLAG_UINV_MASK FLAG_UINV_SHIFT flags v) s p spin) else inr (false, EXIT_FAILURE)
    | None => inr (false, EXIT_FAILURE)
    end
  else if decide (opt = "n"%char) then
    match vector with
    | Some v => if v <=? 255 then inl (Experiment (with_vector FLAG_SET_UPID_NV FLAG_UPID_NV_MASK FLAG_UPID_NV_SHIFT flags v) s p spin) else inr (false, EXIT_FAILURE)
    | None => inr (false, EXIT_FAILURE)
    end
  else if decide (opt = "U"%char) then inl (Experiment (Z.lor flags FLAG_SET_UPIR) s p spin)
  else if decide (opt = "I"%char) then inl (Experiment (Z.lor flags FLAG_NO_SELF_IPI) s p spin)
  else if decide (opt = "s"%char) then inl (Experiment flags true p spin)
  else if decide (opt = "p"%char) then inl (Experiment flags s true spin)
  else if decide (opt = "S"%char) then
    match optarg with
    | Some arg => match parse_all32 arg with Some v => inl (Experiment flags s p v) | None => inr (false, EXIT_FAILURE) end
    | None => inl (Experiment flags s p (2 ^ 32 - 1))
    end
  else if decide (opt = "h"%char) then inr (true, EXIT_SUCCESS)
  else inr (false, EXIT_SUCCESS).

Fixpoint experiment_options (opts : list (Ascii.ascii * option string)) (x : experiment) : experiment + bool * Z :=
  match opts with
  | [] => inl x
  | (opt, optarg) :: opts => match experiment_option opt optarg x with inl x => experiment_options opts x | inr r => inr r end
  end.

(** * The program *)

(** [ui_clock] is clock_gettime, in seconds and nanoseconds; [ui_received_sigint] and
    [ui_count] read the variables that the handlers write. *)
Class UintrOs (W : Type) := {
  ui_sysconf : W → Z * W;
  ui_mmap : Z → W → option Z * W;
  ui_sigaction : W → Z * W;
  ui_register_handler : Z → W → Z * W;
  ui_register_self : W → Z * W;
  ui_senduipi : Z → W → unit * W;
  ui_read : Z → W → unit * W;
  ui_clock : W → option (Z * Z) * W;
  ui_received_sigint : W → bool * W;
  ui_count : W → Z * W;
  ui_unregister : W → Z * W;
}.

Record uintr_state (W : Type) := UintrState {
  ui_page : option (Z * Z);       (* the mapping *)
  ui_handler : option Z;          (* the flags of the registered handler *)
  ui_calls : list Z;              (* the flags of the calls of uintr_register_handler *)
  ui_enabled : bool;              (* stui, clui *)
  ui_reads : list Z;
  ui_out : string;
  ui_world : W;
}.
Global Arguments UintrState {W} _ _ _ _ _ _ _.
Global Arguments ui_page {W} _.
Global Arguments ui_handler {W} _.
Global Arguments ui_calls {W} _.
Global Arguments ui_enabled {W} _.
Global Arguments ui_reads {W} _.
Global Arguments ui_out {W} _.
Global Arguments ui_world {W} _.

Section program.
Context {W : Type} `{OS : UintrOs W}.
Local Abbreviation X := (uintr_state W).

Definition set_ui_page v (s : X) := UintrState v (ui_handler s) (ui_calls s) (ui_enabled s) (ui_reads s) (ui_out s) (ui_world s).
Definition set_ui_handler v (s : X) := UintrState (ui_page s) v (ui_calls s) (ui_enabled s) (ui_reads s) (ui_out s) (ui_world s).
Definition set_ui_calls v (s : X) := UintrState (ui_page s) (ui_handler s) v (ui_enabled s) (ui_reads s) (ui_out s) (ui_world s).
Definition set_ui_enabled v (s : X) := UintrState (ui_page s) (ui_handler s) (ui_calls s) v (ui_reads s) (ui_out s) (ui_world s).
Definition set_ui_reads v (s : X) := UintrState (ui_page s) (ui_handler s) (ui_calls s) (ui_enabled s) v (ui_out s) (ui_world s).
Definition set_ui_out v (s : X) := UintrState (ui_page s) (ui_handler s) (ui_calls s) (ui_enabled s) (ui_reads s) v (ui_world s).
Definition set_ui_world (v : W) (s : X) := UintrState (ui_page s) (ui_handler s) (ui_calls s) (ui_enabled s) (ui_reads s) (ui_out s) v.

Definition uisys {A} (f : W → A * W) : M X A := λ s, let '(a, w) := f (ui_world s) in Ok a (set_ui_world w s).
Definition ui_puts (x : string) : M X unit := modify (λ s, set_ui_out (ui_out s +:+ x) s).

Definition ui_usage (arg0 : string) : list string :=
  ["Usage: " +:+ arg0 +:+ " [OPTION]...";
   "Run a user interrupt vector experiment.";
   "";
   "Mandatory arguments to long options are mandatory for short options too.";
   "  -u, --uinv=VECTOR     set the notification vector in the MSR_IA32_UINTR_MISC MSR (UINV) to VECTOR";
   "  -n, --upid-nv=VECTOR  set the NV field in the UPID to VECTOR";
   "  -U, --set-upir        set the UPIR to a nonzero value";
   "  -I, --no-self-ipi     disable delivery of outstanding notifications using self IPIs on user mode return";
   "  -s, --senduipi        do a SENDUIPI";
   "  -p, --page-fault      do a page fault after registering the UPID";
   "  -S, --spin=SECONDS    spin for SECONDS seconds before unregistering the handler";
   "  -h, --help            display this help message and exit"]%string.
Definition ui_print_usage (arg0 : string) : M X unit :=
  ui_puts (foldr (λ x y, x +:+ newline +:+ y) EmptyString (ui_usage arg0)).

Definition cleanup_page (x : experiment) (ret : Z) : M X Z :=
  _ ← (if do_page_fault x then modify (set_ui_page None) else mret tt); mret ret.
Definition ui_cleanup (x : experiment) (ret : Z) : M X Z :=
  err ← uisys ui_unregister;
  _ ← (if negb (err <? 0) then modify (set_ui_handler None) else mret tt);
  cleanup_page x ret.

(** The loop until [stop]; the result is whether the clock could always be read. *)
Definition spin_body (stop : Z * Z) (_ : unit) : M X (unit + bool) :=
  sigint ← uisys ui_received_sigint;
  if sigint : bool then mret (inr true)
  else
    now ← uisys ui_clock;
    match now with
    | None => mret (inr false)
    | Some (sec, nsec) =>
        if (stop.1 <? sec) || ((sec =? stop.1) && (stop.2 <=? nsec)) then mret (inr true) else mret (inl tt)
    end.

(** From the registered handler on. *)
Definition ui_measure (x : experiment) (fuel : nat) : M X Z :=
  sent ← (if do_senduipi x then
            uipi_index ← uisys ui_register_self;
            if uipi_index <? 0 then mret false else _ ← uisys (ui_senduipi uipi_index); mret true
          else mret true);
  if negb sent then ui_cleanup x EXIT_FAILURE
  else
    _ ← (if do_page_fault x then
           page ← reads ui_page;
           _ ← modify (λ s, set_ui_reads (ui_reads s ++ [page.1]) s);
           uisys (ui_read page.1)
         else mret tt);
    spun ← (if negb (spin_for x =? 0) then
              start ← uisys ui_clock;
              match start with
              | None => mret false
              | Some (sec, nsec) => loop fuel (spin_body (sec + spin_for x, nsec)) tt
              end
            else mret true);
    if negb spun then ui_cleanup x EXIT_FAILURE
    else
      _ ← modify (set_ui_enabled false);
      n ← uisys ui_count;
      _ ← ui_puts ("Received " +:+ (if n <? 0 then "-" +:+ print_u64 (- n) else print_u64 n) +:+ " interrupt(s)." +:+ newline);
      ui_cleanup x EXIT_SUCCESS.

Definition ui_register (x : experiment) (fuel : nat) : M X Z :=
  ok ← (if negb (spin_for x =? 0) then r ← uisys ui_sigaction; mret (negb (r =? -1)) else mret true);
  if negb ok then cleanup_page x EXIT_FAILURE
  else
    _ ← modify (set_ui_enabled true);
    _ ← modify (λ s, set_ui_calls (ui_calls s ++ [x_flags x]) s);
    err ← uisys (ui_register_handler (x_flags x));
    if err <? 0 then cleanup_page x EXIT_FAILURE
    else
      _ ← modify (set_ui_handler (Some (x_flags x)));
      ui_measure x fuel.

Definition ui_main (arg0 : string) (opts : list (Ascii.ascii * option string)) (fuel : nat) : M X Z :=
  match experiment_options opts no_experiment with
  | inr (usage, ret) => _ ← (if usage then ui_print_usage arg0 else mret tt); mret ret
  | inl x =>
      if do_page_fault x then
        page_size ← uisys ui_sysconf;
        if page_size =? -1 then mret EXIT_FAILURE
        else
          page ← uisys (ui_mmap page_size);
          match page with
          | None => mret EXIT_FAILURE
          | Some p => _ ← modify (set_ui_page (Some (p, page_size))); ui_register x fuel
          end
      else ui_register x fuel
  end.
End program.

(** * The flags *)

(** The word with the four flags [low] and the two vectors. *)
Definition encode (low nv uinv : Z) : Z := Z.lor low (Z.lor (Z.shiftl nv 16) (Z.shiftl uinv 24)).

Lemma testbit_above x k i : 0 ≤ x < 2 ^ k → k ≤ i → Z.testbit x i = false.
Proof.
  intros Hx Hi. destruct (decide (x = 0)) as [->|]; [apply Z.bits_0|]. apply Z.bits_above_log2; [lia|].
  assert (Z.log2 x < k) by (apply Z.log2_lt_pow2; lia). lia.
Qed.

Lemma encode_bit low nv uinv i : 0 ≤ low < 2 ^ 16 → 0 ≤ nv < 2 ^ 8 → 0 ≤ uinv < 2 ^ 8 → 0 ≤ i →
  Z.testbit (encode low nv uinv) i =
  if i <? 16 then Z.testbit low i else if i <? 24 then Z.testbit nv (i - 16) else Z.testbit uinv (i - 24).
Proof.
  intros Hl Hn Hu Hi. unfold encode. rewrite !Z.lor_spec, !Z.shiftl_spec by done.
  destruct (Z.ltb_spec i 16); [rewrite (Z.testbit_neg_r nv), (Z.testbit_neg_r uinv) by lia; by rewrite orb_false_r|].
  rewrite (testbit_above low 16) by lia. destruct (Z.ltb_spec i 24); [by rewrite (Z.testbit_neg_r uinv), orb_false_r by lia|].
  by rewrite (testbit_above nv 8) by lia.
Qed.

Lemma encode_uinv low nv uinv v : 0 ≤ low < 2 ^ 15 → 0 ≤ nv < 2 ^ 8 → 0 ≤ uinv < 2 ^ 8 → 0 ≤ v < 2 ^ 8 → 0 ≤ Z.lor low FLAG_SET_UINV < 2 ^ 16 →
  with_vector FLAG_SET_UINV FLAG_UINV_MASK FLAG_UINV_SHIFT (encode low nv uinv) v = encode (Z.lor low FLAG_SET_UINV) nv v.
Proof.
  intros Hl Hn Hu Hv Hl'. unfold with_vector. assert (u32 (Z.shiftl v FLAG_UINV_SHIFT) = Z.shiftl v 24) as ->.
  { unfold u32, FLAG_UINV_SHIFT. rewrite Z.shiftl_mul_pow2 by lia. apply Z.mod_small. lia. }
  change (u32 (Z.lnot FLAG_UINV_MASK)) with (Z.ones 24). apply Z.bits_inj'. intros i Hi. rewrite encode_bit by lia.
  rewrite Z.lor_spec, Z.land_spec, !Z.lor_spec, Z.shiftl_spec, encode_bit, Z.testbit_ones_nonneg by lia.
  unfold FLAG_SET_UINV. destruct (Z.ltb_spec i 16) as [H|H].
  - destruct (Z.ltb_spec i 24); [|lia]. rewrite (Z.testbit_neg_r v) by lia. by rewrite andb_true_r, orb_false_r.
  - rewrite (testbit_above 1 1) by lia. destruct (Z.ltb_spec i 24); [rewrite (Z.testbit_neg_r v) by lia; by rewrite andb_true_r, !orb_false_r|].
    by rewrite andb_false_r.
Qed.

Lemma encode_nv low nv uinv v : 0 ≤ low < 2 ^ 15 → 0 ≤ nv < 2 ^ 8 → 0 ≤ uinv < 2 ^ 8 → 0 ≤ v < 2 ^ 8 → 0 ≤ Z.lor low FLAG_SET_UPID_NV < 2 ^ 16 →
  with_vector FLAG_SET_UPID_NV FLAG_UPID_NV_MASK FLAG_UPID_NV_SHIFT (encode low nv uinv) v = encode (Z.lor low FLAG_SET_UPID_NV) v uinv.
Proof.
  intros Hl Hn Hu Hv Hl'. unfold with_vector. assert (u32 (Z.shiftl v FLAG_UPID_NV_SHIFT) = Z.shiftl v 16) as ->.
  { unfold u32, FLAG_UPID_NV_SHIFT. rewrite Z.shiftl_mul_pow2 by lia. apply Z.mod_small. lia. }
  change (u32 (Z.lnot FLAG_UPID_NV_MASK)) with (Z.lor (Z.ones 16) (Z.shiftl (Z.ones 8) 24)). apply Z.bits_inj'. intros i Hi.
  rewrite encode_bit by lia. rewrite Z.lor_spec, Z.land_spec, !Z.lor_spec, !Z.shiftl_spec, encode_bit, Z.testbit_ones_nonneg by lia.
  unfold FLAG_SET_UPID_NV. destruct (Z.ltb_spec i 16) as [H|H].
  - rewrite (Z.testbit_neg_r v), (Z.testbit_neg_r (Z.ones 8)) by lia. by destruct (Z.testbit low i), (Z.testbit 2 i).
  - rewrite (testbit_above 2 2) by lia. destruct (Z.ltb_spec i 24).
    + rewrite (Z.testbit_neg_r (Z.ones 8)) by lia. by destruct (Z.testbit nv (i - 16)).
    + rewrite (testbit_above v 8) by lia. rewrite Z.testbit_ones_nonneg by lia. destruct (Z.ltb_spec (i - 24) 8); [by destruct (Z.testbit uinv (i - 24))|].
      rewrite (testbit_above uinv 8) by lia. done.
Qed.

(** What the options ask for. *)
Definition has (c : Ascii.ascii) (opts : list (Ascii.ascii * option string)) : bool := existsb (λ o, bool_decide (o.1 = c)) opts.
Definition flag (b : bool) (v : Z) : Z := if b then v else 0.
Definition low_flags (u n U I : bool) : Z :=
  Z.lor (flag u FLAG_SET_UINV) (Z.lor (flag n FLAG_SET_UPID_NV) (Z.lor (flag U FLAG_SET_UPIR) (flag I FLAG_NO_SELF_IPI))).

Lemma parse_digits32_range x : ∀ v w r, 0 ≤ v < 2 ^ 32 → parse_digits32 x v = (w, r) → 0 ≤ w < 2 ^ 32.
Proof.
  induction x as [|c x IH]; intros v w r Hv; cbn; [by intros [= <- _]|]. destruct (is_digit c); [|by intros [= <- _]].
  apply IH. unfold u32. apply Z.mod_pos_bound. lia.
Qed.
Lemma parse_all32_range x v : parse_all32 x = Some v → 0 ≤ v < 2 ^ 32.
Proof.
  unfold parse_all32, parse_uint32_t. destruct x as [|c x]; [done|]. destruct (is_digit c); [|done].
  destruct (parse_digits32 (String c x) 0) as [w [|]] eqn:E; [|done]. intros [= <-]. by eapply parse_digits32_range.
Qed.

Definition vector_from (c : Ascii.ascii) (v : Z) (opts : list (Ascii.ascii * option string)) : Z :=
  foldl (λ v o, if decide (o.1 = c) then default v (o.2 ≫= parse_all32) else v) v opts.

Lemma low_flags_range u n U I : 0 ≤ low_flags u n U I < 16.
Proof. by destruct u, n, U, I. Qed.

(** One option. *)
Definition encodes (x : experiment) (u n U I : bool) (nv uinv : Z) : Prop :=
  x_flags x = encode (low_flags u n U I) nv uinv ∧ 0 ≤ nv < 2 ^ 8 ∧ 0 ≤ uinv < 2 ^ 8 ∧ 0 ≤ spin_for x < 2 ^ 32.

Lemma low_flags_or u n U I : Z.lor (low_flags u n U I) FLAG_SET_UINV = low_flags true n U I ∧
  Z.lor (low_flags u n U I) FLAG_SET_UPID_NV = low_flags u true U I ∧
  Z.lor (low_flags u n U I) FLAG_SET_UPIR = low_flags u n true I ∧ Z.lor (low_flags u n U I) FLAG_NO_SELF_IPI = low_flags u n U true.
Proof. by destruct u, n, U, I. Qed.

Lemma encode_low low b nv uinv : Z.lor (encode low nv uinv) b = encode (Z.lor low b) nv uinv.
Proof. unfold encode. generalize (Z.lor (Z.shiftl nv 16) (Z.shiftl uinv 24)) as r. intros r. by rewrite <- !Z.lor_assoc, (Z.lor_comm r b). Qed.

Lemma option_encode opt optarg x y u n U I nv uinv : encodes x u n U I nv uinv → experiment_option opt optarg x = inl y →
  encodes y (u || bool_decide (opt = "u"%char)) (n || bool_decide (opt = "n"%char)) (U || bool_decide (opt = "U"%char)) (I || bool_decide (opt = "I"%char))
    (if decide (opt = "n"%char) then default nv (optarg ≫= parse_all32) else nv)
    (if decide (opt = "u"%char) then default uinv (optarg ≫= parse_all32) else uinv).
Proof.
  destruct x as [flags se pf spin]. unfold encodes, experiment_option. cbn [x_flags spin_for]. intros (-> & Hn & Hu & Hs) E.
  pose proof (low_flags_range u n U I) as Hl. destruct (low_flags_or u n U I) as (O1 & O2 & O3 & O4).
  pose proof (low_flags_range true n U I). pose proof (low_flags_range u true U I).
  assert (∀ v, optarg ≫= parse_all32 = Some v → 0 ≤ v) as Hv by (intros v Hv; destruct optarg; [|done]; apply parse_all32_range in Hv; lia).
  destruct (decide (opt = "u"%char)) as [->|].
  { destruct (optarg ≫= parse_all32) as [v|]; [|done]. destruct (Z.leb_spec v 255); [|done]. specialize (Hv v eq_refl). injection E as <-. cbn.
    rewrite (decide_False (P := "u"%char = "n"%char)) by done. rewrite encode_uinv by (rewrite ?O1; lia). rewrite O1, orb_true_r, !orb_false_r. split_and!; [done|lia..]. }
  destruct (decide (opt = "n"%char)) as [->|].
  { destruct (optarg ≫= parse_all32) as [v|]; [|done]. destruct (Z.leb_spec v 255); [|done]. specialize (Hv v eq_refl). injection E as <-. cbn.
    rewrite encode_nv by (rewrite ?O2; lia). rewrite O2, orb_true_r, !orb_false_r. split_and!; [done|lia..]. }
  destruct (decide (opt = "U"%char)) as [->|].
  { injection E as <-. cbn. by rewrite encode_low, O3, orb_true_r, !orb_false_r. }
  destruct (decide (opt = "I"%char)) as [->|].
  { injection E as <-. cbn. by rewrite encode_low, O4, orb_true_r, !orb_false_r. }
  rewrite !bool_decide_false, !orb_false_r by done.
  destruct (decide (opt = "s"%char)); [by injection E as <-|]. destruct (decide (opt = "p"%char)); [by injection E as <-|].
  destruct (decide (opt = "S"%char)); [|by destruct (decide (opt = "h"%char))]. destruct optarg as [arg|].
  - destruct (parse_all32 arg) as [v|] eqn:Ev; [|done]. injection E as <-. cbn. split_and!; [done|lia..| |]; apply parse_all32_range in Ev; lia.
  - injection E as <-. cbn. split_and!; [done|lia..].
Qed.

(** The flags say which options were given, and have the vectors that were given last. *)
Lemma options_encode opts : ∀ x y u n U I nv uinv, encodes x u n U I nv uinv → experiment_options opts x = inl y →
  encodes y (u || has "u"%char opts) (n || has "n"%char opts) (U || has "U"%char opts) (I || has "I"%char opts)
    (vector_from "n"%char nv opts) (vector_from "u"%char uinv opts).
Proof.
  induction opts as [|[opt optarg] opts IH]; intros x y u n U I nv uinv Hx E; cbn [experiment_options] in E.
  - injection E as <-. by rewrite !orb_false_r.
  - destruct (experiment_option opt optarg x) as [x'|] eqn:Ex; [|done].
    pose proof (IH x' y _ _ _ _ _ _ (option_encode _ _ _ _ _ _ _ _ _ _ Hx Ex) E) as H. cbn. by rewrite !orb_assoc.
Qed.

(** * Every run ends *)
Section returns.
Context {W : Type} `{OS : UintrOs W}.
Local Abbreviation X := (uintr_state W).

(** What a round of the loop leaves of the world: the signal is looked for, the clock is read. *)
Definition poll (w : W) : W := (ui_clock (ui_received_sigint w).2).2.

(** Who reads the clock again and again finds a reading behind second [t] at some time, or one
    that fails. Readings may repeat. *)
Definition clock_goes_on : Prop := ∀ w t, ∃ n,
  match (ui_clock (ui_received_sigint (Nat.iter n poll w)).2).1 with Some (sec, _) => t < sec | None => True end.

(** The handler can always be unregistered. *)
Definition unregisters : Prop := ∀ w, 0 ≤ (ui_unregister w).1.

Lemma uisys_bind {A B} (f : W → A * W) (g : A → M X B) (s : X) : (uisys f ≫= g) s = g (f (ui_world s)).1 (set_ui_world (f (ui_world s)).2 s).
Proof. unfold uisys, mbind, M_bind. by destruct (f (ui_world s)). Qed.

(** The loop ends at the latest with the reading [n] that is behind [stop]. *)
Lemma spin_loop stop n : ∀ s : X,
  match (ui_clock (ui_received_sigint (Nat.iter n poll (ui_world s))).2).1 with Some (sec, _) => stop.1 < sec | None => True end →
  ∃ b w, ∀ fuel, (n < fuel)%nat → loop fuel (spin_body stop) tt s = Ok b (set_ui_world w s).
Proof.
  induction n as [|n IH]; intros s Hlate.
  - cbn [Nat.iter nat_rect] in Hlate. destruct (ui_received_sigint (ui_world s)) as [sig w1] eqn:Es. cbn [snd] in Hlate.
    destruct (ui_clock w1) as [now w2] eqn:Ec. cbn [fst] in Hlate.
    exists (if sig then true else match now with Some _ => true | None => false end), (if sig then w1 else w2).
    intros [|fuel] Hf; [lia|]. rewrite loop_S. unfold spin_body at 2. rewrite bind_assoc, uisys_bind, Es. cbn [fst snd].
    destruct sig; [done|]. rewrite bind_assoc, uisys_bind. cbn [ui_world set_ui_world]. rewrite Ec. cbn [fst snd].
    destruct now as [[sec nsec]|]; [|done]. by rewrite (proj2 (Z.ltb_lt _ _) Hlate).
  - rewrite Nat.iter_succ_r in Hlate. destruct (ui_received_sigint (ui_world s)) as [sig w1] eqn:Es.
    destruct (ui_clock w1) as [now w2] eqn:Ec.
    assert (poll (ui_world s) = w2) as Hpoll by (unfold poll; by rewrite Es; cbn [snd]; rewrite Ec). rewrite Hpoll in Hlate.
    destruct (IH (set_ui_world w2 s) Hlate) as (b & w & E).
    set (late := match now with Some (sec, nsec) => (stop.1 <? sec) || ((sec =? stop.1) && (stop.2 <=? nsec)) | None => true end).
    exists (if sig then true else if late then match now with Some _ => true | None => false end else b), (if sig then w1 else if late then w2 else w).
    intros [|fuel] Hf; [lia|]. rewrite loop_S. unfold spin_body at 2. rewrite bind_assoc, uisys_bind, Es. cbn [fst snd].
    destruct sig; [done|]. rewrite bind_assoc, uisys_bind. cbn [ui_world set_ui_world]. rewrite Ec. cbn [fst snd].
    subst late. destruct now as [[sec nsec]|]; [|done]. destruct (_ || _); [done|]. rewrite ret_bind. by apply E; lia.
Qed.

(** With enough fuel [m] returns, and [Q] holds of the result. *)
Definition ends (m : nat → M X Z) (s : X) (Q : Z → X → Prop) : Prop :=
  ∃ enough, ∀ fuel, (enough ≤ fuel)%nat → ∃ r s', m fuel s = Ok r s' ∧ Q r s'.

Lemma ends_now (m : M X Z) s Q r s' : m s = Ok r s' → Q r s' → ends (λ _, m) s Q.
Proof. intros E H. exists O. intros fuel _. by exists r, s'. Qed.

Lemma ends_bind {A} (m : M X A) (g : nat → A → M X Z) (s : X) Q a s1 : m s = Ok a s1 → ends (λ fuel, g fuel a) s1 Q → ends (λ fuel, m ≫= g fuel) s Q.
Proof. intros E [f0 H]. exists f0. intros fuel Hf. rewrite (bind_ok _ _ _ _ _ E). by apply H. Qed.

Lemma ends_uisys {A} (f : W → A * W) (g : nat → A → M X Z) (s : X) Q :
  (∀ a w, ends (λ fuel, g fuel a) (set_ui_world w s) Q) → ends (λ fuel, uisys f ≫= g fuel) s Q.
Proof.
  intros H. destruct (f (ui_world s)) as [a w] eqn:E. apply (ends_bind _ _ _ _ a (set_ui_world w s)); [|apply H]. unfold uisys. by rewrite E.
Qed.

Lemma ends_call {A} (f : W → A * W) (g : nat → A → M X Z) (s : X) Q a w : f (ui_world s) = (a, w) →
  ends (λ fuel, g fuel a) (set_ui_world w s) Q → ends (λ fuel, uisys f ≫= g fuel) s Q.
Proof. intros E. apply ends_bind. unfold uisys. by rewrite E. Qed.

Lemma ends_impl m s (Q R : Z → X → Prop) : ends m s Q → (∀ r s', Q r s' → R r s') → ends m s R.
Proof. intros [f0 H] HQ. exists f0. intros fuel Hf. destruct (H fuel Hf) as (r & s' & E & ?). exists r, s'. auto. Qed.

(** Nothing that was acquired is left; the registrations are [cs]. *)
Definition tidy (cs : list Z) (s' : X) : Prop := ui_page s' = None ∧ (unregisters → ui_handler s' = None) ∧ ui_calls s' = cs.

(** The page is mapped exactly when the options ask for a fault. *)
Definition page_ok (x : experiment) (s : X) : Prop := if do_page_fault x then is_Some (ui_page s) else ui_page s = None.

Lemma cleanup_page_ends x ret s : page_ok x s → (unregisters → ui_handler s = None) →
  ∃ s', cleanup_page x ret s = Ok ret s' ∧ tidy (ui_calls s) s'.
Proof. unfold page_ok, cleanup_page. intros Hp Hh. destruct (do_page_fault x); (eexists; split; [reflexivity|]); by split_and!. Qed.

Lemma ui_cleanup_ends x ret s : page_ok x s → ∃ s', ui_cleanup x ret s = Ok ret s' ∧ tidy (ui_calls s) s'.
Proof.
  intros Hp. unfold ui_cleanup. rewrite uisys_bind. assert (unregisters → 0 ≤ (ui_unregister (ui_world s)).1) as Hu by (intros Hu; apply Hu).
  destruct (ui_unregister (ui_world s)) as [err w]. cbn [fst snd] in *. destruct (Z.ltb_spec err 0); cbn [negb].
  - rewrite ret_bind. apply (cleanup_page_ends x ret (set_ui_world w s)); [done|]. intros Hun. specialize (Hu Hun). lia.
  - rewrite modify_bind. by apply (cleanup_page_ends x ret (set_ui_handler None (set_ui_world w s))).
Qed.

Lemma ui_measure_ends x s : clock_goes_on → page_ok x s → ends (ui_measure x) s (λ _, tidy (ui_calls s)).
Proof.
  intros HT Hp.
  assert (∀ s' ret, page_ok x s' → ui_calls s' = ui_calls s → ends (λ _, ui_cleanup x ret) s' (λ _, tidy (ui_calls s))) as Hfin.
  { intros s' ret Hp' Hc. destruct (ui_cleanup_ends x ret s' Hp') as (s2 & E & H). rewrite Hc in H. by eapply ends_now. }
  unfold ui_measure.
  assert (∃ b w, (if do_senduipi x then uipi_index ← uisys ui_register_self; if uipi_index <? 0 then mret false else _ ← uisys (ui_senduipi uipi_index); mret true
    else mret true) s = Ok b (set_ui_world w s)) as (sent & w1 & E1).
  { destruct (do_senduipi x); [|eexists _, (ui_world s); by destruct s]. rewrite uisys_bind. case_match; [by eexists _, _|]. rewrite uisys_bind. by eexists _, _. }
  eapply ends_bind; [exact E1|]. destruct sent; [|by apply Hfin]. cbn [negb].
  assert (∃ s2, (if do_page_fault x then page ← reads ui_page; _ ← modify (λ s, set_ui_reads (ui_reads s ++ [page.1]) s); uisys (ui_read page.1) else mret tt)
    (set_ui_world w1 s) = Ok tt s2 ∧ ui_page s2 = ui_page s ∧ ui_calls s2 = ui_calls s) as (s2 & E2 & P2 & C2).
  { unfold page_ok in Hp. destruct (do_page_fault x); [|by eexists]. destruct Hp as [p Hp]. rewrite (reads_bind _ _ _ p) by done. rewrite modify_bind.
    unfold uisys. destruct (ui_read _ _) as [[] w]. by eexists. }
  eapply ends_bind; [exact E2|]. assert (page_ok x s2) as Hp2 by (unfold page_ok in *; by rewrite P2).
  assert (∃ n b w, ∀ fuel, (n < fuel)%nat → (if negb (spin_for x =? 0) then start ← uisys ui_clock; match start with None => mret false
    | Some (sec, nsec) => loop fuel (spin_body (sec + spin_for x, nsec)) tt end else mret true) s2 = Ok b (set_ui_world w s2)) as (n & spun & w3 & E3).
  { destruct (negb (spin_for x =? 0)); [|exists O; eexists _, (ui_world s2); intros; by destruct s2].
    destruct (ui_clock (ui_world s2)) as [[[sec nsec]|] w] eqn:Ec.
    - destruct (HT w (sec + spin_for x)) as [n Hn].
      destruct (spin_loop (sec + spin_for x, nsec) n (set_ui_world w s2) Hn) as (b & w' & E). exists n, b, w'. intros fuel Hf.
      rewrite uisys_bind, Ec. by apply E.
    - exists O. eexists _, _. intros fuel _. by rewrite uisys_bind, Ec. }
  assert (∀ b, ends (λ _, if negb b then ui_cleanup x EXIT_FAILURE else
    _ ← modify (set_ui_enabled false); n ← uisys ui_count;
    _ ← ui_puts ("Received " +:+ (if n <? 0 then "-" +:+ print_u64 (- n) else print_u64 n) +:+ " interrupt(s)." +:+ newline);
    ui_cleanup x EXIT_SUCCESS) (set_ui_world w3 s2) (λ _, tidy (ui_calls s))) as Hend.
  { intros []; cbn [negb]; [|by apply Hfin]. eapply ends_bind; [reflexivity|]. apply ends_uisys. intros k w4. eapply ends_bind; [reflexivity|]. by apply Hfin. }
  destruct (Hend spun) as [f0 H]. exists (S n + f0)%nat. intros fuel Hf. rewrite (bind_ok _ _ _ _ _ (E3 fuel ltac:(lia))). apply (H fuel). lia.
Qed.

(** Whether the calls before the registration succeed: that for the handler of SIGINT, which is
    made when the program is to spin, and those for the page, made when it is to provoke a fault. *)
Definition handles_sigint (x : experiment) (w : W) : bool := (spin_for x =? 0) || negb ((ui_sigaction w).1 =? -1).
Definition prepares (x : experiment) (w : W) : bool :=
  if do_page_fault x then
    let '(page_size, w) := ui_sysconf w in
    if page_size =? -1 then false
    else let '(page, w) := ui_mmap page_size w in
         match page with None => false | Some _ => handles_sigint x w end
  else handles_sigint x w.

(** What a run leaves when the calls before the registration do or do not succeed. *)
Definition registers (prepared : bool) (cs : list Z) (flags r : Z) (s' : X) : Prop :=
  if prepared then tidy (cs ++ [flags]) s' else r = EXIT_FAILURE ∧ tidy cs s'.

(** The one call that registers the handler has the flags of [x]. *)
Lemma ui_register_ends x s : clock_goes_on → page_ok x s → ui_handler s = None →
  ends (ui_register x) s (registers (handles_sigint x (ui_world s)) (ui_calls s) (x_flags x)).
Proof.
  intros HT Hp Hh. unfold ui_register.
  assert (∃ w, (if negb (spin_for x =? 0) then r ← uisys ui_sigaction; mret (negb (r =? -1)) else mret true) s =
    Ok (handles_sigint x (ui_world s)) (set_ui_world w s)) as (w1 & E1).
  { unfold handles_sigint. destruct (spin_for x =? 0); cbn [negb orb]; [exists (ui_world s); by destruct s|]. rewrite uisys_bind. by eexists. }
  eapply ends_bind; [exact E1|]. destruct (handles_sigint x (ui_world s)); cbn [negb registers].
  2:{ destruct (cleanup_page_ends x EXIT_FAILURE (set_ui_world w1 s)) as (s' & E & H); [done..|]. by eapply ends_now. }
  do 2 (eapply ends_bind; [reflexivity|]). apply ends_uisys. intros err w2. destruct (err <? 0).
  - destruct (cleanup_page_ends x EXIT_FAILURE (set_ui_world w2 (set_ui_calls (ui_calls s ++ [x_flags x]) (set_ui_enabled true (set_ui_world w1 s)))))
      as (s' & E & H); [done..|]. by eapply ends_now.
  - eapply ends_bind; [reflexivity|]. by apply ui_measure_ends.
Qed.

Lemma no_experiment_encodes : encodes no_experiment false false false false 0 0.
Proof. by split_and!. Qed.

(** The word of flags that the options ask for. *)
Definition flags_of (opts : list (Ascii.ascii * option string)) : Z :=
  encode (low_flags (has "u"%char opts) (has "n"%char opts) (has "U"%char opts) (has "I"%char opts))
    (vector_from "n"%char 0 opts) (vector_from "u"%char 0 opts).

(** C37: Every run of the experiment returns, whatever options it has and whatever calls fail,
    provided that the clock, read again and again, comes to every second at some time (readings
    may repeat); how often it is read before bounds the fuel. The page is unmapped then, and the
    handler is unregistered unless that call fails. Wrong options and the usage register nothing.
    Otherwise, when the calls that get the page and the handler of SIGINT succeed,
    uintr_register_handler is called once, with a word of flags that says which options
    were given and holds the vectors that were given last, each in its own byte; when one of them
    fails, the program fails and has not called it. *)
Theorem ui_main_returns arg0 opts s : clock_goes_on → ui_page s = None → ui_handler s = None →
  ∃ enough, ∀ fuel, (enough ≤ fuel)%nat → ∃ r s', ui_main arg0 opts fuel s = Ok r s' ∧
    ui_page s' = None ∧ (unregisters → ui_handler s' = None) ∧
    match experiment_options opts no_experiment with
    | inl x => if prepares x (ui_world s) then ui_calls s' = ui_calls s ++ [flags_of opts]
               else r = EXIT_FAILURE ∧ ui_calls s' = ui_calls s
    | inr (_, ret) => r = ret ∧ ui_calls s' = ui_calls s
    end.
Proof.
  intros HT Hp Hh. unfold ui_main. destruct (experiment_options opts no_experiment) as [x|[usage ret]] eqn:E; cycle 1.
  { exists O. intros fuel _. destruct usage; by eexists _, _. }
  destruct (options_encode opts _ x _ _ _ _ _ _ no_experiment_encodes E) as (Hx & _). cbn [orb] in Hx. change (x_flags x = flags_of opts) in Hx.
  enough (ends (λ fuel, if do_page_fault x then
        page_size ← uisys ui_sysconf;
        if page_size =? -1 then mret EXIT_FAILURE
        else
          page ← uisys (ui_mmap page_size);
          match page with
          | None => mret EXIT_FAILURE
          | Some p => _ ← modify (set_ui_page (Some (p, page_size))); ui_register x fuel
          end
      else ui_register x fuel) s (registers (prepares x (ui_world s)) (ui_calls s) (flags_of opts))) as [f0 H].
  { exists f0. intros fuel Hf. destruct (H fuel Hf) as (r & s' & Er & HQ). exists r, s'. split; [done|]. unfold registers, tidy in HQ.
    destruct (prepares x (ui_world s)); tauto. }
  rewrite <- Hx. unfold prepares. destruct (do_page_fault x) eqn:Hd; [|apply ui_register_ends; try done; unfold page_ok; by rewrite Hd].
  destruct (ui_sysconf (ui_world s)) as [page_size w] eqn:Ec. eapply ends_call; [exact Ec|].
  destruct (page_size =? -1); [by eapply ends_now|].
  destruct (ui_mmap page_size w) as [[p|] w2] eqn:Em; (eapply ends_call; [exact Em|]); [|by eapply ends_now].
  eapply ends_bind; [reflexivity|]. apply (ui_register_ends x (set_ui_page (Some (p, page_size)) (set_ui_world w2 (set_ui_world w s)))); try done.
  unfold page_ok. by rewrite Hd.
Qed.
End returns.

(** * A kernel whose clock goes on by a second with every fourth reading *)
Section example.
Local Instance demo_uintr : UintrOs Z := {
  ui_sysconf := λ w, (4096, w);
  ui_mmap := λ _ w, (Some 65536, w);
  ui_sigaction := λ w, (0, w);
  ui_register_handler := λ _ w, (0, w);
  ui_register_self := λ w, (0, w);
  ui_senduipi := λ _ w, (tt, w);
  ui_read := λ _ w, (tt, w);
  ui_clock := λ w, (Some (w `div` 4, 0), w + 1);
  ui_received_sigint := λ w, (false, w);
  ui_count := λ w, (1, w);
  ui_unregister := λ w, (0, w);
}.

Lemma demo_clock_goes_on : clock_goes_on (OS := demo_uintr).
Proof.
  intros w t. exists (Z.to_nat (4 * (t + 1) - w)). cbn.
  assert (∀ n, Nat.iter n poll w = w + Z.of_nat n) as ->.
  { induction n as [|n IH]; [cbn; lia|]. rewrite Nat.iter_succ, IH. unfold poll. cbn. lia. }
  assert (4 * (t + 1) / 4 ≤ (w + Z.of_nat (Z.to_nat (4 * (t + 1) - w))) / 4) by (apply Z.div_le_mono; lia).
  rewrite (Z.mul_comm 4 (t + 1)), Z.div_mul in H by done. rewrite (Z.mul_comm 4 (t + 1)). lia.
Qed.

Lemma ui_main_returns_witness : ∃ enough, ∀ fuel, (enough ≤ fuel)%nat → ∃ r s',
  ui_main (OS := demo_uintr) "experiment" [("u"%char, Some "236"); ("p"%char, None); ("S"%char, Some "3")] fuel
    (UintrState None None [] false [] EmptyString 0) = Ok r s' ∧ ui_page s' = None ∧
  (unregisters (OS := demo_uintr) → ui_handler s' = None) ∧ ui_calls s' = [0xec000001].
Proof.
  exact (ui_main_returns (OS := demo_uintr) "experiment" [("u"%char, Some "236"); ("p"%char, None); ("S"%char, Some "3")]
    (UintrState None None [] false [] EmptyString 0) demo_clock_goes_on eq_refl eq_refl).
Defined.

Example three_seconds : match ui_main (OS := demo_uintr) "experiment" [("u"%char, Some "236"); ("S"%char, Some "3")] 16
    (UintrState None None [] false [] EmptyString 0) with
  | Ok r s' => r = EXIT_SUCCESS ∧ ui_calls s' = [0xec000001] ∧ ui_handler s' = None ∧ ui_world s' = 13
  | _ => False
  end.
Proof. vm_compute. split_and!; reflexivity. Qed.
End example.
