(* ===== verification/UserFaults.v ===== *)
(** The tests of the user fault extension (pkgs/test-user-faults/test-user-faults.c): whether
    the flag UFF, the prctl that enables user faults and the delivery of a fault to a
    handler in user space work on a processor and a kernel.

    The processor and the kernel are the class [Ufault]; messages on the standard error are
    left out. *)
From stdpp Require Import prelude strings.
From S2P Require Import Prelude Timings.

Open Scope Z_scope.

Definition PR_UFAULT_DISABLE : Z := 0.
Definition PR_UFAULT_ENABLE : Z := 1.
Definition PR_UFAULT_STATUS : Z := 2.
Definition UFAULT_CODE_WRITE : Z := Z.shiftl 1 1.

(** [uf_access write addr] is an access that the kernel handles; [uf_read addr] is a read with
    the flag set, with the codes of the user faults that the processor delivers for it,
    between each of which the handler runs; the read itself is left out. *)
Class Ufault (W : Type) := {
  uf_test : W → bool * W;
  uf_clear : W → W;
  uf_set : W → W;
  uf_prctl : Z → bool → W → Z * W;
  uf_mmap : W → option Z * W;
  uf_munmap : Z → W → W;
  uf_read : Z → W → list Z * W;
  uf_access : bool → Z → W → W;
}.

Record uf_state (W : Type) := UfState { ufault_count : Z; first_ufault_code : Z; uf_out : list string; uf_world : W }.
Global Arguments UfState {W} _ _ _ _.
Global Arguments ufault_count {W} _.
Global Arguments first_ufault_code {W} _.
Global Arguments uf_out {W} _.
Global Arguments uf_world {W} _.

Section tests.
Context {W : Type} `{UF : Ufault W}.
Local Abbreviation X := (uf_state W).

Definition set_ufault_count v (s : X) := UfState v (first_ufault_code s) (uf_out s) (uf_world s).
Definition set_first_ufault_code v (s : X) := UfState (ufault_count s) v (uf_out s) (uf_world s).
Definition set_uf_out v (s : X) := UfState (ufault_count s) (first_ufault_code s) v (uf_world s).
Definition set_uf_world (v : W) (s : X) := UfState (ufault_count s) (first_ufault_code s) (uf_out s) v.
Definition ufsys {A} (f : W → A * W) : M X A := λ s, let '(a, w) := f (uf_world s) in Ok a (set_uf_world w s).
Definition ufdo (f : W → W) : M X unit := modify (λ s, set_uf_world (f (uf_world s)) s).

Definition testuf : M X bool := ufsys uf_test.
Definition cluf : M X unit := ufdo uf_clear.
Definition stuf : M X unit := ufdo uf_set.
(** The handler is null or asm_ufault_handler. *)
Definition prctl_ufault (opt : Z) (handler : bool) : M X Z := ufsys (uf_prctl opt handler).

(** The access is done again, with user faults disabled. *)
Definition ufault_handler (addr code : Z) : M X unit :=
  _ ← ufdo (uf_access (negb (Z.land code UFAULT_CODE_WRITE =? 0)) addr);
  n ← gets ufault_count;
  _ ← modify (set_ufault_count (u32 (n + 1)));
  if negb (n =? 0) then modify (set_first_ufault_code code) else mret tt.

Fixpoint deliver_faults (addr : Z) (codes : list Z) : M X unit :=
  match codes with
  | [] => mret tt
  | code :: codes => _ ← ufault_handler addr code; deliver_faults addr codes
  end.

Definition test_initial_uff : M X bool := b ← testuf; mret (negb b).
Definition test_stuf : M X bool := _ ← stuf; testuf.
Definition test_cluf : M X bool := _ ← cluf; b ← testuf; mret (negb b).

Definition test_initial_prctl_ufault_status : M X bool :=
  status ← prctl_ufault PR_UFAULT_STATUS false;
  mret (if status =? -1 then false else if negb (status =? 0) then false else true).

Definition test_prctl_ufault_enable : M X bool :=
  r ← prctl_ufault PR_UFAULT_ENABLE false;
  if r =? -1 then mret false
  else
    status ← prctl_ufault PR_UFAULT_STATUS false;
    mret (if status =? -1 then false else if status =? 0 then false else true).

Definition test_prctl_ufault_disable : M X bool :=
  r ← prctl_ufault PR_UFAULT_DISABLE false;
  if r =? -1 then mret false
  else
    status ← prctl_ufault PR_UFAULT_STATUS false;
    mret (if status =? -1 then false else if negb (status =? 0) then false else true).

Definition test_delivery : M X bool :=
  r ← prctl_ufault PR_UFAULT_ENABLE true;
  if r =? -1 then mret false
  else
    page ← ufsys uf_mmap;
    match page with
    | None => mret false
    | Some page =>
        _ ← stuf;
        codes ← ufsys (uf_read page);
        _ ← deliver_faults page codes;
        _ ← cluf;
        n ← gets ufault_count;
        c ← gets first_ufault_code;
        _ ← ufdo (uf_munmap page);
        mret (if negb (n =? 1) then false else if negb (c =? 0) then false else true)
    end.

Definition uf_main : M X Z :=
  t1 ← test_initial_uff;
  t2 ← test_stuf;
  t3 ← test_cluf;
  t4 ← test_initial_prctl_ufault_status;
  t5 ← test_prctl_ufault_enable;
  t6 ← test_prctl_ufault_disable;
  t7 ← test_delivery;
  if t1 && t2 && t3 && t4 && t5 && t6 && t7 then
    _ ← modify (λ s, set_uf_out (uf_out s ++ ["User Faults are working!"%string]) s); mret EXIT_SUCCESS
  else mret EXIT_FAILURE.

(** * The verdict *)

(** A machine with the flag UFF and a switch for user faults, which delivers the faults
    [codes] for the first read of a page. *)
Record conforming (uff enabled : W → bool) (codes : list Z) : Prop := {
  cf_test : ∀ w, uf_test w = (uff w, w);
  cf_set : ∀ w, uff (uf_set w) = true ∧ enabled (uf_set w) = enabled w;
  cf_clear : ∀ w, uff (uf_clear w) = false ∧ enabled (uf_clear w) = enabled w;
  cf_status : ∀ h w, uf_prctl PR_UFAULT_STATUS h w = (Z.b2z (enabled w), w);
  cf_enable : ∀ h w, ∃ w', uf_prctl PR_UFAULT_ENABLE h w = (0, w') ∧ uff w' = uff w ∧ enabled w' = true;
  cf_disable : ∀ h w, ∃ w', uf_prctl PR_UFAULT_DISABLE h w = (0, w') ∧ uff w' = uff w ∧ enabled w' = false;
  cf_mmap : ∀ w, ∃ page w', uf_mmap w = (Some page, w') ∧ uff w' = uff w ∧ enabled w' = enabled w;
  cf_read : ∀ page w, uff w = true → enabled w = true → ∃ w', uf_read page w = (codes, w') ∧ enabled w' = true;
  cf_access : ∀ b page w, enabled (uf_access b page w) = enabled w;
  cf_munmap : ∀ page w, uff (uf_munmap page w) = uff w ∧ enabled (uf_munmap page w) = enabled w;
}.

Lemma ufsys_bind {A B} (f : W → A * W) (g : A → M X B) (s : X) a w : f (uf_world s) = (a, w) → (ufsys f ≫= g) s = g a (set_uf_world w s).
Proof. intros H. unfold ufsys, mbind, M_bind. by rewrite H. Qed.

Context (uff enabled : W → bool) (codes : list Z) (CF : conforming uff enabled codes).

(** A test that does not deliver faults: its result, and what it leaves of the switches. *)
Definition test_leaves (m : M X bool) (s : X) (b f e : bool) : Prop :=
  ∃ w, m s = Ok b (set_uf_world w s) ∧ uff w = f ∧ enabled w = e.

Lemma testuf_ok s : testuf s = Ok (uff (uf_world s)) s.
Proof. unfold testuf, ufsys. rewrite (cf_test _ _ _ CF). by destruct s. Qed.

Lemma initial_uff_ok s : test_leaves test_initial_uff s (negb (uff (uf_world s))) (uff (uf_world s)) (enabled (uf_world s)).
Proof. exists (uf_world s). unfold test_initial_uff. run (testuf_ok s). by destruct s. Qed.
Lemma stuf_ok s : test_leaves test_stuf s true true (enabled (uf_world s)).
Proof.
  destruct (cf_set _ _ _ CF (uf_world s)) as [F E]. eexists. split; [|by split]. unfold test_stuf, stuf, ufdo. rewrite modify_bind, testuf_ok.
  cbn [uf_world set_uf_world]. by rewrite F.
Qed.
Lemma cluf_ok s : test_leaves test_cluf s true false (enabled (uf_world s)).
Proof.
  destruct (cf_clear _ _ _ CF (uf_world s)) as [F E]. eexists. split; [|by split]. unfold test_cluf, cluf, ufdo. rewrite modify_bind.
  run (testuf_ok (set_uf_world (uf_clear (uf_world s)) s)).
  cbn [uf_world set_uf_world]. by rewrite F.
Qed.

Lemma status_bind {B} (k : Z → M X B) s : (prctl_ufault PR_UFAULT_STATUS false ≫= k) s = k (Z.b2z (enabled (uf_world s))) s.
Proof. unfold prctl_ufault. rewrite (ufsys_bind _ _ _ _ _ (cf_status _ _ _ CF _ _)). by destruct s. Qed.

Lemma initial_status_ok s : test_leaves test_initial_prctl_ufault_status s (negb (enabled (uf_world s))) (uff (uf_world s)) (enabled (uf_world s)).
Proof.
  exists (uf_world s). unfold test_initial_prctl_ufault_status. rewrite status_bind. destruct s as [? ? ? w]. cbn. by destruct (enabled w).
Qed.
Lemma enable_ok s : test_leaves test_prctl_ufault_enable s true (uff (uf_world s)) true.
Proof.
  destruct (cf_enable _ _ _ CF false (uf_world s)) as (w & E & F & H). exists w. unfold test_prctl_ufault_enable, prctl_ufault at 1.
  rewrite (ufsys_bind _ _ _ _ _ E). cbn [Z.eqb]. rewrite status_bind. cbn. by rewrite H.
Qed.
Lemma disable_ok s : test_leaves test_prctl_ufault_disable s true (uff (uf_world s)) false.
Proof.
  destruct (cf_disable _ _ _ CF false (uf_world s)) as (w & E & F & H). exists w. unfold test_prctl_ufault_disable, prctl_ufault at 1.
  rewrite (ufsys_bind _ _ _ _ _ E). cbn [Z.eqb]. rewrite status_bind. cbn. by rewrite H.
Qed.

(** The count is that of the faults, and the code of the first one is not kept. *)
Lemma deliver_faults_ok page l : ∀ s : X, 0 ≤ ufault_count s → ufault_count s + Z.of_nat (base.length l) < 2 ^ 32 →
  ∃ w c, deliver_faults page l s = Ok tt (UfState (ufault_count s + Z.of_nat (base.length l)) c (uf_out s) w) ∧ enabled w = enabled (uf_world s) ∧
    (ufault_count s = 0 → (base.length l ≤ 1)%nat → c = first_ufault_code s).
Proof.
  induction l as [|code l IH]; intros s H0 Hl; cbn [deliver_faults base.length] in *.
  - exists (uf_world s), (first_ufault_code s). rewrite Z.add_0_r. by destruct s.
  - set (w1 := uf_access (negb (Z.land code UFAULT_CODE_WRITE =? 0)) page (uf_world s)).
    set (c1 := if negb (ufault_count s =? 0) then code else first_ufault_code s).
    assert (ufault_handler page code s = Ok tt (UfState (ufault_count s + 1) c1 (uf_out s) w1)) as E.
    { unfold ufault_handler, ufdo. rewrite modify_bind, gets_bind, modify_bind. cbn. unfold u32. rewrite Z.mod_small by lia.
      unfold c1. by destruct (negb (ufault_count s =? 0)). }
    destruct (IH (UfState (ufault_count s + 1) c1 (uf_out s) w1)) as (w & c & E2 & He & Hc); cbn in *; [lia..|].
    exists w, c. run E. split; [rewrite E2; f_equal; f_equal; lia|]. split; [rewrite He; apply (cf_access _ _ _ CF)|].
    intros Hz Hle. assert (l = []) as -> by (destruct l; [done|cbn in Hle; lia]). cbn in E2. injection E2 as _ <- _. unfold c1. by rewrite Hz.
Qed.

Lemma delivery_ok s : ufault_count s = 0 → first_ufault_code s = 0 → Z.of_nat (base.length codes) < 2 ^ 32 →
  ∃ n c w, test_delivery s = Ok (bool_decide (base.length codes = 1%nat)) (UfState n c (uf_out s) w) ∧ uff w = false ∧ enabled w = true.
Proof.
  intros H0 Hc0 Hlen. unfold test_delivery, prctl_ufault, stuf, cluf, ufdo.
  destruct (cf_enable _ _ _ CF true (uf_world s)) as (w1 & E1 & _ & H1). rewrite (ufsys_bind _ _ _ _ _ E1). cbn [Z.eqb].
  destruct (cf_mmap _ _ _ CF w1) as (page & w2 & E2 & _ & H2). rewrite (ufsys_bind _ _ _ (Some page) w2) by exact E2. rewrite modify_bind.
  destruct (cf_set _ _ _ CF w2) as [F3 H3]. destruct (cf_read _ _ _ CF page (uf_set w2) F3) as (w3 & E3 & H3'); [congruence|].
  rewrite (ufsys_bind _ _ _ codes w3) by exact E3. destruct (deliver_faults_ok page codes (set_uf_world w3 s)) as (w4 & c & E4 & H4 & Hc); [cbn; lia..|].
  run E4. rewrite modify_bind, !gets_bind, modify_bind. cbn in *. destruct (cf_clear _ _ _ CF w4) as [F5 H5].
  destruct (cf_munmap _ _ _ CF page (uf_clear w4)) as [F6 H6]. rewrite H0, Z.add_0_l. eexists _, _, _. split; [|split; [exact (eq_trans F6 F5)|congruence]].
  unfold mret, M_ret. f_equal. destruct (decide (base.length codes = 1%nat)) as [El|Hne].
  - rewrite bool_decide_true by done. rewrite Hc by (done || lia). by rewrite El, Hc0.
  - rewrite bool_decide_false by done. by replace (Z.of_nat (base.length codes) =? 1) with false by lia.
Qed.

(** C38: The verdict of the tests. On a machine that has the flag and the switch, the tests
    succeed exactly when both are off at the start and one read delivers exactly one user
    fault. The code of that fault plays no part, although the last test is meant to
    check it: the handler keeps the code of every fault but the first one. *)
Theorem uf_main_verdict w out : Z.of_nat (base.length codes) < 2 ^ 32 →
  let ok := negb (uff w) && negb (enabled w) && bool_decide (base.length codes = 1%nat) in
  ∃ n c w', uf_main (UfState 0 0 out w) = Ok (if ok then EXIT_SUCCESS else EXIT_FAILURE)
      (UfState n c (if ok then out ++ ["User Faults are working!"%string] else out) w') ∧ uff w' = false ∧ enabled w' = true.
Proof.
  intros Hlen ok. unfold uf_main. set (s := UfState 0 0 out w).
  destruct (initial_uff_ok s) as (w1 & R1 & F1 & E1). run R1. destruct (stuf_ok (set_uf_world w1 s)) as (w2 & R2 & F2 & E2). run R2.
  change (set_uf_world w2 _) with (set_uf_world w2 s). destruct (cluf_ok (set_uf_world w2 s)) as (w3 & R3 & F3 & E3). run R3.
  change (set_uf_world w3 _) with (set_uf_world w3 s). destruct (initial_status_ok (set_uf_world w3 s)) as (w4 & R4 & F4 & E4). run R4.
  change (set_uf_world w4 _) with (set_uf_world w4 s). destruct (enable_ok (set_uf_world w4 s)) as (w5 & R5 & F5 & E5). run R5.
  change (set_uf_world w5 _) with (set_uf_world w5 s). destruct (disable_ok (set_uf_world w5 s)) as (w6 & R6 & F6 & E6). run R6.
  change (set_uf_world w6 _) with (set_uf_world w6 s). cbn in *.
  destruct (delivery_ok (set_uf_world w6 s)) as (n & c & w7 & E7 & F7 & H7); [done..|]. run E7. cbn.
  replace (enabled w3) with (enabled w) by congruence. rewrite !andb_true_r. exists n, c, w7. by destruct ok eqn:Eo; unfold ok in Eo; rewrite Eo.
Qed.
End tests.

(** * A machine that delivers a fault with the code of a write for a read *)
Section example.
Local Instance demo_ufault : Ufault (bool * bool) := {
  uf_test w := (w.1, w);
  uf_clear w := (false, w.2);
  uf_set w := (true, w.2);
  uf_prctl opt _ w :=
    if opt =? PR_UFAULT_STATUS then (Z.b2z w.2, w) else (0, (w.1, opt =? PR_UFAULT_ENABLE));
  uf_mmap w := (Some 65536, w);
  uf_munmap _ w := w;
  uf_read _ w := ([2], w);
  uf_access _ _ w := w;
}.

Lemma demo_conforming : conforming fst snd [2].
Proof. split; try done; intros; repeat eexists; done. Qed.

Lemma uf_main_verdict_witness : ∃ n c w', uf_main (UfState 0 0 [] (false, false)) =
  Ok EXIT_SUCCESS (UfState n c ["User Faults are working!"%string] w') ∧ w'.1 = false ∧ w'.2 = true.
Proof. exact (uf_main_verdict fst snd [2] demo_conforming (false, false) [] ltac:(cbn; lia)). Defined.
End example.
