(* ===== verification/Experiments.v ===== *)
(** The small programs that measure the ways of handling a fault:
    user-interrupt-timings/test.c (a page filled through userfaultfd),
    sigsegv-microbenchmark/sigsegv.c (a signal handler that changes the protection),
    pkgs/simple-mmap-test/simple-mmap-test.c (faults on a large mapping), and swapon-sync.c.

    The state has what a program has acquired and printed; the kernel and the clock are the
    class [XOs]. Messages on the standard error are left out. *)
From stdpp Require Import prelude strings sorting.
From S2P Require Import Prelude Timings.

Open Scope Z_scope.

Definition MAP_FAILED : Z := 2 ^ 64 - 1.
Definition PROT_NONE : Z := 0.
Definition PROT_READ : Z := 1.
Inductive uffd_request := UFFDIO_API | UFFDIO_REGISTER | UFFDIO_ZEROPAGE.

Class XOs (W : Type) := {
  x_sysconf : W → Z * W;
  x_mmap : Z → W → Z * W;
  x_userfaultfd : W → Z * W;
  x_ioctl : Z → uffd_request → W → Z * W;
  x_madvise : Z → W → Z * W;
  x_mprotect : Z → Z → W → Z * W;
  x_rdtsc : W → Z * W;
  x_getenv : string → W → option string * W;
  x_m5_exit : W → unit * W;
  x_swapon : string → Z → W → Z * W;
}.

(** The mappings and descriptors that are open, the calls of close, the addresses written,
    the number of signals, the protection of the page and the lines printed. *)
Record xstate (W : Type) := XState {
  x_maps : list (Z * Z);
  x_fds : list Z;
  x_closed : list Z;
  x_writes : list Z;
  x_prot : Z;
  signal_counter : Z;
  return_counter : Z;
  x_out : list string;
  x_world : W;
}.
Global Arguments XState {W} _ _ _ _ _ _ _ _ _.
Global Arguments x_maps {W} _.
Global Arguments x_fds {W} _.
Global Arguments x_closed {W} _.
Global Arguments x_writes {W} _.
Global Arguments x_prot {W} _.
Global Arguments signal_counter {W} _.
Global Arguments return_counter {W} _.
Global Arguments x_out {W} _.
Global Arguments x_world {W} _.

Definition s64 (x : Z) : Z := let y := u64 x in if y <? 2 ^ 63 then y else y - 2 ^ 64.
Definition print_i64 (n : Z) : string := if n <? 0 then "-" +:+ print_u64 (- n) else print_u64 n.

Section programs.
Context {W : Type} `{OS : XOs W}.
Local Abbreviation X := (xstate W).

Definition set_x_maps v (s : X) := XState v (x_fds s) (x_closed s) (x_writes s) (x_prot s) (signal_counter s) (return_counter s) (x_out s) (x_world s).
Definition set_x_fds v (s : X) := XState (x_maps s) v (x_closed s) (x_writes s) (x_prot s) (signal_counter s) (return_counter s) (x_out s) (x_world s).
Definition set_x_closed v (s : X) := XState (x_maps s) (x_fds s) v (x_writes s) (x_prot s) (signal_counter s) (return_counter s) (x_out s) (x_world s).
Definition set_x_writes v (s : X) := XState (x_maps s) (x_fds s) (x_closed s) v (x_prot s) (signal_counter s) (return_counter s) (x_out s) (x_world s).
Definition set_x_prot v (s : X) := XState (x_maps s) (x_fds s) (x_closed s) (x_writes s) v (signal_counter s) (return_counter s) (x_out s) (x_world s).
Definition set_signal_counter v (s : X) := XState (x_maps s) (x_fds s) (x_closed s) (x_writes s) (x_prot s) v (return_counter s) (x_out s) (x_world s).
Definition set_return_counter v (s : X) := XState (x_maps s) (x_fds s) (x_closed s) (x_writes s) (x_prot s) (signal_counter s) v (x_out s) (x_world s).
Definition set_x_out v (s : X) := XState (x_maps s) (x_fds s) (x_closed s) (x_writes s) (x_prot s) (signal_counter s) (return_counter s) v (x_world s).
Definition set_x_world (v : W) (s : X) := XState (x_maps s) (x_fds s) (x_closed s) (x_writes s) (x_prot s) (signal_counter s) (return_counter s) (x_out s) v.

Definition xsys {A} (f : W → A * W) : M X A := λ s, let '(a, w) := f (x_world s) in Ok a (set_x_world w s).
Definition print_line (l : string) : M X unit := modify (λ s, set_x_out (x_out s ++ [l]) s).

Definition mmap (length : Z) : M X Z :=
  page ← xsys (x_mmap length);
  _ ← (if page =? MAP_FAILED then mret tt else modify (λ s, set_x_maps ((page, length) :: x_maps s) s));
  mret page.
Definition munmap (page length : Z) : M X unit := modify (λ s, set_x_maps (filter (λ m, m ≠ (page, length)) (x_maps s)) s).
Definition close (fd : Z) : M X unit :=
  modify (λ s, set_x_closed (x_closed s ++ [fd]) (set_x_fds (filter (λ f, f ≠ fd) (x_fds s)) s)).

(** ** user-interrupt-timings/test.c *)
Definition userfaultfd : M X Z :=
  fd ← xsys x_userfaultfd;
  _ ← (if fd =? -1 then mret tt else modify (λ s, set_x_fds (fd :: x_fds s) s));
  mret fd.

(** The label out. *)
Definition zeropage_out (ret page page_size fd : Z) : M X Z :=
  _ ← (if fd =? -1 then close fd else mret tt);
  _ ← (if negb (page =? 0) then munmap page page_size else mret tt);
  mret ret.

(** [n] rounds of the loop, of which the program does 100000; the result is false when a call has failed. *)
Fixpoint zeropage_rounds (n : nat) (page_size fd : Z) : M X bool :=
  match n with
  | O => mret true
  | S n =>
      start_tsc ← xsys x_rdtsc;
      r ← xsys (x_ioctl fd UFFDIO_ZEROPAGE);
      if r =? -1 then mret false
      else
        end_tsc ← xsys x_rdtsc;
        _ ← print_line (print_u64 (u64 (end_tsc - start_tsc)));
        r ← xsys (x_madvise page_size);
        if r =? -1 then mret false else zeropage_rounds n page_size fd
  end.

Definition zeropage_main (rounds : nat) : M X Z :=
  page_size ← xsys x_sysconf;
  if page_size =? -1 then zeropage_out EXIT_FAILURE MAP_FAILED page_size (-1)
  else
    page ← mmap page_size;
    if page =? MAP_FAILED then zeropage_out EXIT_FAILURE page page_size (-1)
    else
      fd ← userfaultfd;
      if fd =? -1 then zeropage_out EXIT_FAILURE page page_size fd
      else
        r ← xsys (x_ioctl fd UFFDIO_API);
        if r =? -1 then zeropage_out EXIT_FAILURE page page_size fd
        else
          r ← xsys (x_ioctl fd UFFDIO_REGISTER);
          if r =? -1 then zeropage_out EXIT_FAILURE page page_size fd
          else
            _ ← print_line "end";
            ok ← zeropage_rounds rounds page_size fd;
            zeropage_out (if ok : bool then EXIT_SUCCESS else EXIT_FAILURE) page page_size fd.

(** ** sigsegv-microbenchmark/sigsegv.c *)
Definition mprotect (page_size prot : Z) : M X unit :=
  r ← xsys (x_mprotect page_size prot);
  if r =? -1 then mret tt else modify (set_x_prot prot).

Definition handle_sigsegv (page_size : Z) : M X unit :=
  t ← xsys x_rdtsc;
  _ ← modify (set_signal_counter (s64 t));
  _ ← mprotect page_size PROT_READ;
  t ← xsys x_rdtsc;
  modify (set_return_counter (s64 t)).

(** The read faults, and is done again when the handler returns, as long as the page
    is protected. *)
Definition read_page (fuel : nat) (page_size : Z) : M X unit :=
  loop fuel (λ _ : unit,
    prot ← gets x_prot;
    if prot =? PROT_NONE then _ ← handle_sigsegv page_size; mret (inl tt) else mret (inr tt)) tt.

Fixpoint sigsegv_rounds (fuel : nat) (n : nat) (page_size : Z) : M X unit :=
  match n with
  | O => mret tt
  | S n =>
      start ← xsys x_rdtsc;
      _ ← read_page fuel page_size;
      stop ← xsys x_rdtsc;
      sig ← gets signal_counter;
      ret ← gets return_counter;
      _ ← print_line (print_i64 (s64 (sig - s64 start)) +:+ ", " +:+ print_i64 (s64 (ret - s64 start)) +:+ ", "
                        +:+ print_i64 (s64 (s64 stop - ret)));
      _ ← mprotect page_size PROT_NONE;
      sigsegv_rounds fuel n page_size
  end.

Definition sigsegv_main (fuel rounds : nat) : M X Z :=
  page_size ← xsys x_sysconf;
  if page_size =? -1 then mret EXIT_FAILURE
  else
    page ← mmap page_size;
    if page =? MAP_FAILED then mret EXIT_FAILURE
    else
      _ ← modify (set_x_prot PROT_NONE);
      _ ← print_line "call_time, mprotect_time, return_time";
      _ ← sigsegv_rounds fuel rounds page_size;
      _ ← munmap page page_size;
      mret 0.

(** ** pkgs/simple-mmap-test/simple-mmap-test.c *)
Definition progress (percentage : Z) : string := String (Ascii.ascii_of_nat 13) ("Progress: " +:+ print_i64 percentage +:+ "%").

Definition write_fault_page (addr len page_size : Z) (st : Z * Z) : M X ((Z * Z) + unit) :=
  let '(i, last_percentage) := st in
  if negb (i <? len) then mret (inr tt)
  else
    _ ← modify (λ s, set_x_writes (x_writes s ++ [addr + i]) s);
    let percentage := s32 (u64 (i * 100) / len) in
    if last_percentage <? percentage then
      _ ← print_line (progress percentage); mret (inl (u64 (i + page_size), percentage))
    else mret (inl (u64 (i + page_size), last_percentage)).

Definition write_fault_pages (fuel : nat) (addr len page_size : Z) : M X unit :=
  _ ← loop fuel (write_fault_page addr len page_size) (0, -1);
  print_line (progress 100).

Definition env_var_is_true (name : string) : M X bool :=
  value ← xsys (x_getenv name);
  mret (match value with Some v => bool_decide (v = "1"%string) | None => false end).

Definition maybe_m5_exit (name : string) : M X unit :=
  b ← env_var_is_true name; if b : bool then xsys x_m5_exit else mret tt.

Definition simple_mmap_main (fuel : nat) : M X Z :=
  page_size ← xsys x_sysconf;
  if page_size =? -1 then mret EXIT_FAILURE
  else
    _ ← print_line "Mapping memory...";
    let len := 2 * 1024 * 1024 * 1024 in
    addr ← mmap len;
    if addr =? MAP_FAILED then mret EXIT_FAILURE
    else
      _ ← print_line "Writing to memory map...";
      _ ← maybe_m5_exit "SIMPLE_MMAP_TEST_M5_EXIT_BEFORE";
      _ ← write_fault_pages fuel addr (1024 * 1024) page_size;
      _ ← maybe_m5_exit "SIMPLE_MMAP_TEST_M5_EXIT_AFTER";
      _ ← munmap addr len;
      mret EXIT_SUCCESS.

(** ** swapon-sync.c *)
Definition SWAP_FLAG_SYNCHRONOUS_WRITE : Z := 0x80000.
Definition swapon_main (args : list string) : M X Z :=
  match args with
  | [path] =>
      r ← xsys (x_swapon path SWAP_FLAG_SYNCHRONOUS_WRITE);
      mret (if r =? -1 then EXIT_FAILURE else EXIT_SUCCESS)
  | _ => mret EXIT_FAILURE
  end.

(** * What the programs do *)
Lemma xsys_bind {A B} (f : W → A * W) (g : A → M X B) (s : X) : (xsys f ≫= g) s = g (f (x_world s)).1 (set_x_world (f (x_world s)).2 s).
Proof. unfold xsys, mbind, M_bind. by destruct (f (x_world s)). Qed.

Lemma xsys_bind_eq {A B} (f : W → A * W) (g : A → M X B) (s : X) a w : f (x_world s) = (a, w) → (xsys f ≫= g) s = g a (set_x_world w s).
Proof. intros E. by rewrite xsys_bind, E. Qed.

(** ** The page filled through userfaultfd *)

(** Only the output and the world differ. *)
Definition printed (s : X) (n : nat) (s' : X) : Prop :=
  ∃ l w, base.length l = n ∧ s' = set_x_out (x_out s ++ l) (set_x_world w s).

Lemma zeropage_rounds_ok n page_size fd : ∀ s : X, ∃ b k s', zeropage_rounds n page_size fd s = Ok b s' ∧ printed s k s' ∧
  (k ≤ n)%nat ∧ (b = true → k = n).
Proof.
  assert (∀ (s : X) w, printed s 0 (set_x_world w s)) as H0 by (intros s w; exists [], w; destruct s; by cbn; rewrite app_nil_r).
  induction n as [|n IH]; intros s; cbn [zeropage_rounds].
  { exists true, 0%nat, s. split; [done|]. split; [|done]. exists [], (x_world s). destruct s. cbn. by rewrite app_nil_r. }
  rewrite !xsys_bind. destruct (_ =? -1); [eexists false, 0%nat, _; split; [done|]; split; [exact (H0 s _)|split; [lia|done]]|].
  rewrite xsys_bind. unfold print_line. rewrite modify_bind, xsys_bind. set (s1 := set_x_world _ (set_x_out _ _)).
  assert (∃ l w, base.length l = 1%nat ∧ s1 = set_x_out (x_out s ++ l) (set_x_world w s)) as (l1 & w1 & L1 & E1) by (by eexists [_], _).
  destruct (_ =? -1); [exists false, 1%nat, s1; split; [done|]; split; [by exists l1, w1|split; [lia|done]]|].
  destruct (IH s1) as (b & k & s' & E & (l2 & w2 & L2 & E2) & Hk & Hb). exists b, (S k), s'. split; [done|]. split.
  - exists (l1 ++ l2), w2. rewrite length_app, L1, L2. split; [done|]. rewrite E2, E1. cbn. by rewrite app_assoc.
  - split; [lia|]. intros ->. by rewrite Hb.
Qed.

(** What the program leaves behind: no mapping; no descriptor if it could not open
    one, in which case it closes -1, and otherwise the open descriptor. *)
Definition left_behind (fd : Z) (closed : list Z) (s' : X) : Prop :=
  x_maps s' = [] ∧ if fd =? -1 then x_fds s' = [] ∧ x_closed s' = closed ++ [-1] else x_fds s' = [fd] ∧ x_closed s' = closed.

Lemma zeropage_out_ok ret page page_size fd s : page ≠ 0 →
  ((x_maps s = [] ∧ page = MAP_FAILED) ∨ x_maps s = [(page, page_size)]) → x_fds s = (if fd =? -1 then [] else [fd]) →
  ∃ s', zeropage_out ret page page_size fd s = Ok ret s' ∧ left_behind fd (x_closed s) s' ∧ x_out s' = x_out s.
Proof.
  intros Hp Hm Hf. unfold zeropage_out, close, munmap. rewrite (proj2 (Z.eqb_neq _ _) Hp). cbn [negb].
  assert (filter (λ m, m ≠ (page, page_size)) (x_maps s) = []) as Hfil.
  { destruct Hm as [[-> _]| ->]; [done|]. rewrite filter_cons, decide_False by (intros []; done). done. }
  destruct (Z.eqb_spec fd (-1)) as [->|Hfd]; rewrite ?modify_bind, ?ret_bind, ?modify_bind; eexists; (split; [reflexivity|]); split; try done; split; cbn; try done.
  - by rewrite Hf.
  - by rewrite (proj2 (Z.eqb_neq _ _) Hfd).
Qed.

(** C40: The program that measures userfaultfd always ends and unmaps its page, but never
    closes its descriptor: the test before close is inverted. After a successful
    run it has printed a line for each round, and never more than that. *)
Theorem zeropage_main_leaks rounds (s : X) : (∀ n w, (x_mmap n w).1 ≠ 0) → x_maps s = [] → x_fds s = [] →
  ∃ ret fd s', zeropage_main rounds s = Ok ret s' ∧ left_behind fd (x_closed s) s' ∧
    (base.length (x_out s') ≤ base.length (x_out s) + S rounds)%nat ∧
    (ret = EXIT_SUCCESS → fd ≠ -1 ∧ base.length (x_out s') = (base.length (x_out s) + S rounds)%nat).
Proof.
  intros Hnz Hm Hf. unfold zeropage_main. rewrite xsys_bind. destruct (x_sysconf (x_world s)) as [page_size w1]. cbn [fst snd].
  assert (∀ page fd (s1 : X), page ≠ 0 → ((x_maps s1 = [] ∧ page = MAP_FAILED) ∨ x_maps s1 = [(page, page_size)]) →
    x_fds s1 = (if fd =? -1 then [] else [fd]) → x_closed s1 = x_closed s → x_out s1 = x_out s →
    ∃ ret fd' s', zeropage_out EXIT_FAILURE page page_size fd s1 = Ok ret s' ∧ left_behind fd' (x_closed s) s' ∧
    (base.length (x_out s') ≤ base.length (x_out s) + S rounds)%nat ∧
    (ret = EXIT_SUCCESS → fd' ≠ -1 ∧ base.length (x_out s') = (base.length (x_out s) + S rounds)%nat)) as Hfail.
  { intros page fd s1 Hp Hm1 Hf1 Hc1 Ho1. destruct (zeropage_out_ok EXIT_FAILURE page page_size fd s1 Hp Hm1 Hf1) as (s' & E & Hl & Ho).
    exists EXIT_FAILURE, fd, s'. rewrite Hc1 in Hl. split; [done|]. split; [done|]. rewrite Ho, Ho1. split; [lia|done]. }
  destruct (page_size =? -1); [by apply Hfail; try done; left|]. unfold mmap. rewrite bind_assoc, xsys_bind. cbn [x_world set_x_world].
  specialize (Hnz page_size w1). destruct (x_mmap page_size w1) as [page w2]. cbn [fst snd] in *. rewrite bind_assoc.
  destruct (Z.eqb_spec page MAP_FAILED) as [->|Hpg]; [rewrite !ret_bind, (proj2 (Z.eqb_eq MAP_FAILED MAP_FAILED) eq_refl); by apply Hfail; try done; left|].
  rewrite modify_bind, ret_bind, (proj2 (Z.eqb_neq _ _) Hpg). unfold userfaultfd. rewrite bind_assoc, xsys_bind. cbn [x_world set_x_maps set_x_world].
  destruct (x_userfaultfd w2) as [fd w3]. cbn [fst snd]. rewrite bind_assoc.
  destruct (Z.eqb_spec fd (-1)) as [->|Hfd]; [rewrite !ret_bind; cbn [Z.eqb Pos.eqb]; apply Hfail; try done; right; cbn; by rewrite Hm|].
  rewrite modify_bind, ret_bind, (proj2 (Z.eqb_neq _ _) Hfd), xsys_bind.
  destruct (_ =? -1); [apply Hfail; cbn; rewrite ?Hf, ?Hm, ?(proj2 (Z.eqb_neq _ _) Hfd); try done; by right|]. rewrite xsys_bind.
  destruct (_ =? -1); [apply Hfail; cbn; rewrite ?Hf, ?Hm, ?(proj2 (Z.eqb_neq _ _) Hfd); try done; by right|].
  unfold print_line at 1. rewrite modify_bind. set (s1 := set_x_out _ _).
  destruct (zeropage_rounds_ok rounds page_size fd s1) as (b & k & s2 & E & (l & w & Hl & ->) & Hk & Hb). run E.
  destruct (zeropage_out_ok (if b then EXIT_SUCCESS else EXIT_FAILURE) page page_size fd (set_x_out (x_out s1 ++ l) (set_x_world w s1))) as (s' & E' & Hlb & Ho).
  { done. } { right. cbn. by rewrite Hm. } { cbn. by rewrite Hf, (proj2 (Z.eqb_neq _ _) Hfd). }
  exists (if b then EXIT_SUCCESS else EXIT_FAILURE), fd, s'. split; [done|]. split; [done|]. rewrite Ho. cbn. rewrite !length_app, Hl. cbn. split; [lia|].
  destruct b; [|done]. intros _. rewrite Hb by done. split; [done|lia].
Qed.

(** ** The page protected against a signal handler *)

(** When the kernel changes the protection, the handler runs once for a protected page. *)
Lemma read_page_ok fuel page_size (s : X) : (2 ≤ fuel)%nat → (∀ n p w, (x_mprotect n p w).1 ≠ -1) → x_prot s = PROT_NONE →
  ∃ t1 t2 w, read_page fuel page_size s =
    Ok tt (set_x_world w (set_return_counter t2 (set_x_prot PROT_READ (set_signal_counter t1 s)))).
Proof.
  intros Hf Hm Hp. destruct fuel as [|[|fuel]]; [lia..|]. unfold read_page. rewrite loop_S, bind_assoc, gets_bind, Hp. cbn [PROT_NONE Z.eqb].
  unfold handle_sigsegv, mprotect. rewrite !bind_assoc, xsys_bind, bind_assoc, modify_bind, !bind_assoc, xsys_bind.
  rewrite (proj2 (Z.eqb_neq _ _)) by apply Hm. rewrite modify_bind, !bind_assoc, xsys_bind, modify_bind, ret_bind, loop_S, bind_assoc, gets_bind.
  destruct s. cbn. eexists _, _, _. reflexivity.
Qed.

Lemma mprotect_ok page_size prot (s : X) : (∀ n p w, (x_mprotect n p w).1 ≠ -1) → ∃ w, mprotect page_size prot s = Ok tt (set_x_prot prot (set_x_world w s)).
Proof. intros Hm. unfold mprotect. rewrite xsys_bind, (proj2 (Z.eqb_neq _ _)) by apply Hm. by eexists. Qed.

Lemma sigsegv_rounds_ok fuel n page_size : (2 ≤ fuel)%nat → (∀ n p w, (x_mprotect n p w).1 ≠ -1) → ∀ s : X, x_prot s = PROT_NONE →
  ∃ s', sigsegv_rounds fuel n page_size s = Ok tt s' ∧ x_maps s' = x_maps s ∧ base.length (x_out s') = (base.length (x_out s) + n)%nat.
Proof.
  intros Hf Hm. induction n as [|n IH]; intros s Hp; cbn [sigsegv_rounds].
  { exists s. split; [done|]. split; [done|lia]. }
  rewrite xsys_bind. destruct (read_page_ok fuel page_size (set_x_world (x_rdtsc (x_world s)).2 s)) as (t1 & t2 & w & E); [done..|]. run E.
  rewrite xsys_bind, !gets_bind. unfold print_line. rewrite modify_bind.
  match goal with |- context [(mprotect page_size PROT_NONE ≫= _) ?s2] => destruct (mprotect_ok page_size PROT_NONE s2 Hm) as (w2 & E2) end. run E2.
  match goal with |- context [sigsegv_rounds fuel n page_size ?s3] => destruct (IH s3 eq_refl) as (s' & E3 & Hmaps & Hout) end.
  exists s'. split; [done|]. split; [exact Hmaps|]. rewrite Hout. cbn. rewrite length_app. cbn. lia.
Qed.

Lemma read_page_stuck fuel page_size : (∀ n w, (x_mprotect n PROT_READ w).1 = -1) → ∀ s : X, x_prot s = PROT_NONE → read_page fuel page_size s = OutOfFuel.
Proof.
  intros Hm. unfold read_page. induction fuel as [|fuel IH]; intros s Hp; [done|]. rewrite loop_S, bind_assoc, gets_bind, Hp. cbn [PROT_NONE Z.eqb].
  unfold handle_sigsegv, mprotect. rewrite !bind_assoc, xsys_bind, bind_assoc, modify_bind, !bind_assoc, xsys_bind, Hm. cbn [Z.eqb Pos.eqb].
  rewrite ret_bind, !bind_assoc, xsys_bind, modify_bind, ret_bind. by apply IH.
Qed.

(** The benchmark of signals returns with a line for each round when the kernel changes
    protections, and never when it refuses to make the page readable: the handler
    ignores the result of mprotect, and the read faults again. *)
Lemma sigsegv_main_returns fuel rounds (s : X) page_size w1 page w2 : x_sysconf (x_world s) = (page_size, w1) → page_size ≠ -1 →
  x_mmap page_size w1 = (page, w2) → page ≠ MAP_FAILED → x_maps s = [] →
  ((2 ≤ fuel)%nat → (∀ n p w, (x_mprotect n p w).1 ≠ -1) →
    ∃ s', sigsegv_main fuel rounds s = Ok 0 s' ∧ x_maps s' = [] ∧ base.length (x_out s') = (base.length (x_out s) + S rounds)%nat) ∧
  ((∀ n w, (x_mprotect n PROT_READ w).1 = -1) → (0 < rounds)%nat → sigsegv_main fuel rounds s = OutOfFuel).
Proof.
  intros Es Hs Em Hp Hmaps.
  assert (sigsegv_main fuel rounds s = (_ ← sigsegv_rounds fuel rounds page_size; _ ← munmap page page_size; mret 0)
    (set_x_out (x_out s ++ ["call_time, mprotect_time, return_time"%string]) (set_x_prot PROT_NONE (set_x_maps [(page, page_size)] (set_x_world w2 s))))) as ->.
  { unfold sigsegv_main. rewrite (xsys_bind_eq _ _ _ _ _ Es), (proj2 (Z.eqb_neq _ _) Hs). unfold mmap. rewrite bind_assoc, (xsys_bind_eq _ _ _ page w2) by exact Em.
    rewrite bind_assoc, (proj2 (Z.eqb_neq _ _) Hp), modify_bind, ret_bind, (proj2 (Z.eqb_neq _ _) Hp), modify_bind. unfold print_line. rewrite modify_bind. cbn. by rewrite Hmaps. }
  set (s1 := set_x_out _ _). split.
  - intros Hf Hm. destruct (sigsegv_rounds_ok fuel rounds page_size Hf Hm s1 eq_refl) as (s' & E & Hm' & Ho). run E. eexists. split; [reflexivity|].
    cbn [x_maps set_x_maps x_out set_x_out]. rewrite Hm', Ho. cbn [s1 x_maps set_x_out set_x_prot set_x_maps x_out].
    rewrite filter_cons, decide_False by (intros []; done). rewrite length_app. cbn. split; [done|lia].
  - intros Hm Hr. destruct rounds as [|rounds]; [lia|]. cbn [sigsegv_rounds]. rewrite bind_assoc, xsys_bind. unfold mbind, M_bind. by rewrite (read_page_stuck fuel page_size Hm).
Qed.

(** ** The pages of the mapping *)

(** The rest of the loop from page [k] on, when [n] pages are left. *)
Lemma fault_pages_loop addr len page_size fuel n : 0 < len ≤ 2 ^ 40 → 1 ≤ page_size ≤ 2 ^ 40 → (n < fuel)%nat → ∀ k last (s : X), 0 ≤ k → -1 ≤ last →
  (∀ j : Z, 0 ≤ j → (k + j) * page_size < len ↔ j < Z.of_nat n) →
  ∃ l, loop fuel (write_fault_page addr len page_size) (k * page_size, last) s =
      Ok tt (set_x_out (x_out s ++ (progress <$> l)) (set_x_writes (x_writes s ++ ((λ j : nat, addr + (k + Z.of_nat j) * page_size) <$> seq 0 n)) s)) ∧
    Forall (λ p, last < p < 100) l ∧ StronglySorted Z.lt l.
Proof.
  intros Hlen Hps. revert n. induction fuel as [|fuel IH]; intros n Hn k last s Hk Hl Hleft; [lia|]. rewrite loop_S. unfold write_fault_page at 2.
  pose proof (Hleft 0 ltac:(lia)) as H0. rewrite Z.add_0_r in H0. destruct n as [|n].
  - replace (k * page_size <? len) with false by lia. exists []. cbn. rewrite !app_nil_r. split; [by destruct s|]. split; constructor.
  - replace (k * page_size <? len) with true by lia. cbn [negb]. rewrite bind_assoc, modify_bind.
    assert (u64 (k * page_size * 100) = k * page_size * 100) as -> by (unfold u64; apply Z.mod_small; nia).
    set (q := k * page_size * 100 / len).
    assert (0 ≤ q < 100) as Hq by (split; [apply Z.div_pos; nia|apply Z.div_lt_upper_bound; lia]).
    assert (s32 q = q) as -> by (unfold s32, u32; rewrite Z.mod_small by lia; by replace (q <? 2 ^ 31) with true by lia).
    assert (u64 (k * page_size + page_size) = (k + 1) * page_size) as -> by (unfold u64; rewrite Z.mod_small by nia; lia).
    assert (∀ j : Z, 0 ≤ j → (k + 1 + j) * page_size < len ↔ j < Z.of_nat n) as Hleft'.
    { intros j Hj. rewrite <- Z.add_assoc, Hleft by lia. lia. }
    assert (∀ x : list Z, x ++ ((λ j : nat, addr + (k + Z.of_nat j) * page_size) <$> seq 0 (S n)) =
      (x ++ [addr + k * page_size]) ++ ((λ j : nat, addr + (k + 1 + Z.of_nat j) * page_size) <$> seq 0 n)) as Hw.
    { intros x. cbn [seq]. rewrite fmap_cons, <- seq_shift, <- list_fmap_compose. rewrite <- (assoc_L (++)). cbn. rewrite Z.add_0_r.
      do 2 f_equal. apply list_fmap_ext. intros i j _. cbn. lia. }
    destruct (Z.ltb_spec last q) as [Hlq|Hlq].
    + unfold print_line. rewrite bind_assoc, modify_bind, ret_bind.
      match goal with |- context [loop fuel _ _ ?s1] => destruct (IH n ltac:(lia) (k + 1) q s1 ltac:(lia) ltac:(lia) Hleft') as (l & -> & Hf & Hs) end.
      exists (q :: l). split; [cbn; rewrite Hw; by rewrite <- (assoc_L (++) (x_out s))|]. split; [constructor; [lia|]; eapply Forall_impl; [exact Hf|]; cbn; lia|].
      constructor; [done|]. eapply Forall_impl; [exact Hf|]. cbn. lia.
    + rewrite ret_bind.
      match goal with |- context [loop fuel _ _ ?s1] => destruct (IH n ltac:(lia) (k + 1) last s1 ltac:(lia) ltac:(lia) Hleft') as (l & -> & Hf & Hs) end.
      exists l. split; [cbn; by rewrite Hw|]. by split.
Qed.

(** The number of pages that [len] bytes touch. *)
Definition pages_of (len page_size : Z) : nat := Z.to_nat ((len + page_size - 1) / page_size).

Lemma pages_of_spec len page_size j : 0 < len → 1 ≤ page_size → 0 ≤ j → j * page_size < len ↔ j < Z.of_nat (pages_of len page_size).
Proof.
  intros Hl Hp Hj. unfold pages_of. rewrite Z2Nat.id by (apply Z.div_pos; lia).
  pose proof (Z.div_mod (len + page_size - 1) page_size ltac:(lia)) as E. pose proof (Z.mod_pos_bound (len + page_size - 1) page_size ltac:(lia)) as B.
  split; intros H; nia.
Qed.

(** C39: The loop over the mapping ends, and writes once to each of its pages, in ascending
    order, and to nothing else; the percentages that it prints on the way ascend strictly
    and stay below 100. *)
Theorem write_fault_pages_touches fuel addr len page_size (s : X) : 0 < len ≤ 2 ^ 40 → 1 ≤ page_size ≤ 2 ^ 40 → (pages_of len page_size < fuel)%nat →
  ∃ l, write_fault_pages fuel addr len page_size s =
      Ok tt (set_x_out (x_out s ++ (progress <$> l) ++ [progress 100])
        (set_x_writes (x_writes s ++ ((λ j : nat, addr + Z.of_nat j * page_size) <$> seq 0 (pages_of len page_size))) s)) ∧
    Forall (λ p, 0 ≤ p < 100) l ∧ StronglySorted Z.lt l.
Proof.
  intros Hlen Hps Hf. destruct (fault_pages_loop addr len page_size fuel (pages_of len page_size) Hlen Hps Hf 0 (-1) s) as (l & E & Hl & Hs); [lia..| |].
  { intros j Hj. rewrite Z.add_0_l. apply pages_of_spec; lia. }
  rewrite Z.mul_0_l in E. exists l. unfold write_fault_pages. run E. unfold print_line, modify. cbn [x_out set_x_out set_x_writes]. rewrite <- (assoc_L (++)).
  split; [done|]. split; [|done].
  eapply Forall_impl; [exact Hl|]. cbn. lia.
Qed.
End programs.


(** * A kernel whose clock advances at each call *)
Section example.
Local Instance demo_xos : XOs Z := {
  x_sysconf w := (4096, w);
  x_mmap _ w := (65536, w);
  x_userfaultfd w := (3, w);
  x_ioctl _ _ w := (0, w);
  x_madvise _ w := (0, w);
  x_mprotect _ _ w := (0, w);
  x_rdtsc w := (w, w + 7);
  x_getenv _ w := (None, w);
  x_m5_exit w := (tt, w);
  x_swapon _ _ w := (0, w);
}.

Definition demo_x : xstate Z := XState [] [] [] [] PROT_NONE 0 0 [] 0.

Lemma zeropage_main_leaks_witness : ∃ ret fd s', zeropage_main 2 demo_x = Ok ret s' ∧ left_behind fd [] s' ∧ (base.length (x_out s') ≤ 3)%nat ∧
  (ret = EXIT_SUCCESS → fd ≠ -1 ∧ base.length (x_out s') = 3%nat).
Proof. apply (zeropage_main_leaks 2 demo_x); [by intros|reflexivity..]. Defined.

Lemma write_fault_pages_touches_witness : ∃ l, write_fault_pages 4 65536 10000 4096 demo_x =
    Ok tt (XState [] [] [] [65536; 69632; 73728] PROT_NONE 0 0 ((progress <$> l) ++ [progress 100]) 0) ∧
  Forall (λ p, 0 ≤ p < 100) l ∧ StronglySorted Z.lt l.
Proof. apply (write_fault_pages_touches 4 65536 10000 4096 demo_x); [lia..|vm_compute; lia]. Defined.

(** Two of the programs on that kernel. *)
Example sigsegv_demo : ∃ s', sigsegv_main 2 1 demo_x = Ok 0 s' ∧ x_out s' = ["call_time, mprotect_time, return_time"; "7, 14, 7"]%string.
Proof. eexists. split; vm_compute; reflexivity. Qed.
Example swapon_demo : swapon_main ["/dev/sda"]%string demo_x = Ok EXIT_SUCCESS demo_x ∧ swapon_main [] demo_x = Ok EXIT_FAILURE demo_x.
Proof. done. Qed.
End example.
