(* ===== verification/KernelModule.v ===== *)
(** The kernel module of the daemon (module/usm_lkmRM.c): the device from which the
    daemon maps its pool of frames, and the files in /proc through which it learns of
    processes, freed pages and sleeping workers.

    The state holds the variables of the module, of the part of the kernel that
    it shares them with (the list of instances, the queue of workers to map), what is
    registered, and the mappings that were made. Calls of the kernel whose result the
    module tests are arguments; a spin lock that is already taken is never released by
    another thread here, so that waiting for it is [OutOfFuel]. *)
From stdpp Require Import prelude gmap.
From S2P Require Import Prelude.

Open Scope Z_scope.

Definition PAGE_SIZE : Z := 4096.
Definition PFN_DOWN (x : Z) : Z := Z.shiftr x 12.
Definition usmMemSize : Z := u64 (512 * 1024 * 1024).
Definition TASK_COMM_LEN : Z := 16.

Definition EPOLLIN : Z := 1.
Definition EPOLLPRI : Z := 2.
Definition EPOLLERR : Z := 8.
Definition EAGAIN : Z := 11.
Definition ENOMEM : Z := 12.
Definition EFAULT : Z := 14.
Definition O_RDWR : Z := 2.

(** The numbers of page flags, and the flag of address spaces whose threads are user
    threads, from the headers of the kernel. *)
Class KernelHeaders := {
  PG_usm : Z; PG_active : Z; PG_private : Z; PG_private_2 : Z; PG_writeback : Z; PG_reserved : Z; PG_slab : Z;
  PG_lru : Z; PG_reclaim : Z; VM_USM_UT : Z;
}.

(** * The state *)
Record kpage := Kpage { pg_flags : Z; page_type : Z; pg_mapping : Z; memcg_data : Z; mapcount : Z; refcount : Z }.

Definition set_pg_flags v p := Kpage v (page_type p) (pg_mapping p) (memcg_data p) (mapcount p) (refcount p).
Definition set_page_type v p := Kpage (pg_flags p) v (pg_mapping p) (memcg_data p) (mapcount p) (refcount p).
Definition set_pg_mapping v p := Kpage (pg_flags p) (page_type p) v (memcg_data p) (mapcount p) (refcount p).
Definition set_memcg_data v p := Kpage (pg_flags p) (page_type p) (pg_mapping p) v (mapcount p) (refcount p).
Definition set_mapcount v p := Kpage (pg_flags p) (page_type p) (pg_mapping p) (memcg_data p) v (refcount p).
Definition set_refcount v p := Kpage (pg_flags p) (page_type p) (pg_mapping p) (memcg_data p) (mapcount p) v.

(** An instance of the daemon: the pages of its workers, its freed pages under a lock,
    and the task that waits for it. *)
Record usm_ctx := UsmCtx { uthread : list Z; usmPagesLock : bool; usmPages : list Z; toWake : option Z }.
Definition set_lock v c := UsmCtx (uthread c) v (usmPages c) (toWake c).
Definition set_usmPages v c := UsmCtx (uthread c) (usmPagesLock c) v (toWake c).
Definition set_toWake v c := UsmCtx (uthread c) (usmPagesLock c) (usmPages c) v.

(** The calling task. *)
Record task_struct := Task { usm_x : option nat; parent_usm_x : option nat; task_usm_ctx : Z; def_flags : Z }.

Inductive entry := Usm | UsmSleepers | UsmChristineSleepers | UsmPgs.
Global Instance entry_eq_dec : EqDecision entry.
Proof. solve_decision. Defined.

Record kmod := Kmod {
  paddr : Z;
  buf : bool;
  index : Z;
  indext : Z;
  pgoff : Z;
  waker_state : Z;
  mapped_sleepers : Z;
  mapped_vCPUs : Z;
  unmap_sleepers : Z;
  misc_device : bool;
  proc_entries : list entry;
  usm_list : list nat;
  contexts : gmap nat usm_ctx;
  sleepers_map : list Z;
  mem_map : gmap Z kpage;
  mappings : list (Z * Z * Z);
  awakened : list Z;
}.
Definition set_paddr v s := Kmod v (buf s) (index s) (indext s) (pgoff s) (waker_state s) (mapped_sleepers s) (mapped_vCPUs s) (unmap_sleepers s) (misc_device s) (proc_entries s) (usm_list s) (contexts s) (sleepers_map s) (mem_map s) (mappings s) (awakened s).
Definition set_buf v s := Kmod (paddr s) v (index s) (indext s) (pgoff s) (waker_state s) (mapped_sleepers s) (mapped_vCPUs s) (unmap_sleepers s) (misc_device s) (proc_entries s) (usm_list s) (contexts s) (sleepers_map s) (mem_map s) (mappings s) (awakened s).
Definition set_index v s := Kmod (paddr s) (buf s) v (indext s) (pgoff s) (waker_state s) (mapped_sleepers s) (mapped_vCPUs s) (unmap_sleepers s) (misc_device s) (proc_entries s) (usm_list s) (contexts s) (sleepers_map s) (mem_map s) (mappings s) (awakened s).
Definition set_indext v s := Kmod (paddr s) (buf s) (index s) v (pgoff s) (waker_state s) (mapped_sleepers s) (mapped_vCPUs s) (unmap_sleepers s) (misc_device s) (proc_entries s) (usm_list s) (contexts s) (sleepers_map s) (mem_map s) (mappings s) (awakened s).
Definition set_pgoff v s := Kmod (paddr s) (buf s) (index s) (indext s) v (waker_state s) (mapped_sleepers s) (mapped_vCPUs s) (unmap_sleepers s) (misc_device s) (proc_entries s) (usm_list s) (contexts s) (sleepers_map s) (mem_map s) (mappings s) (awakened s).
Definition set_waker_state v s := Kmod (paddr s) (buf s) (index s) (indext s) (pgoff s) v (mapped_sleepers s) (mapped_vCPUs s) (unmap_sleepers s) (misc_device s) (proc_entries s) (usm_list s) (contexts s) (sleepers_map s) (mem_map s) (mappings s) (awakened s).
Definition set_mapped_sleepers v s := Kmod (paddr s) (buf s) (index s) (indext s) (pgoff s) (waker_state s) v (mapped_vCPUs s) (unmap_sleepers s) (misc_device s) (proc_entries s) (usm_list s) (contexts s) (sleepers_map s) (mem_map s) (mappings s) (awakened s).
Definition set_mapped_vCPUs v s := Kmod (paddr s) (buf s) (index s) (indext s) (pgoff s) (waker_state s) (mapped_sleepers s) v (unmap_sleepers s) (misc_device s) (proc_entries s) (usm_list s) (contexts s) (sleepers_map s) (mem_map s) (mappings s) (awakened s).
Definition set_unmap_sleepers v s := Kmod (paddr s) (buf s) (index s) (indext s) (pgoff s) (waker_state s) (mapped_sleepers s) (mapped_vCPUs s) v (misc_device s) (proc_entries s) (usm_list s) (contexts s) (sleepers_map s) (mem_map s) (mappings s) (awakened s).
Definition set_misc_device v s := Kmod (paddr s) (buf s) (index s) (indext s) (pgoff s) (waker_state s) (mapped_sleepers s) (mapped_vCPUs s) (unmap_sleepers s) v (proc_entries s) (usm_list s) (contexts s) (sleepers_map s) (mem_map s) (mappings s) (awakened s).
Definition set_proc_entries v s := Kmod (paddr s) (buf s) (index s) (indext s) (pgoff s) (waker_state s) (mapped_sleepers s) (mapped_vCPUs s) (unmap_sleepers s) (misc_device s) v (usm_list s) (contexts s) (sleepers_map s) (mem_map s) (mappings s) (awakened s).
Definition set_usm_list v s := Kmod (paddr s) (buf s) (index s) (indext s) (pgoff s) (waker_state s) (mapped_sleepers s) (mapped_vCPUs s) (unmap_sleepers s) (misc_device s) (proc_entries s) v (contexts s) (sleepers_map s) (mem_map s) (mappings s) (awakened s).
Definition set_contexts v s := Kmod (paddr s) (buf s) (index s) (indext s) (pgoff s) (waker_state s) (mapped_sleepers s) (mapped_vCPUs s) (unmap_sleepers s) (misc_device s) (proc_entries s) (usm_list s) v (sleepers_map s) (mem_map s) (mappings s) (awakened s).
Definition set_sleepers_map v s := Kmod (paddr s) (buf s) (index s) (indext s) (pgoff s) (waker_state s) (mapped_sleepers s) (mapped_vCPUs s) (unmap_sleepers s) (misc_device s) (proc_entries s) (usm_list s) (contexts s) v (mem_map s) (mappings s) (awakened s).
Definition set_mem_map v s := Kmod (paddr s) (buf s) (index s) (indext s) (pgoff s) (waker_state s) (mapped_sleepers s) (mapped_vCPUs s) (unmap_sleepers s) (misc_device s) (proc_entries s) (usm_list s) (contexts s) (sleepers_map s) v (mappings s) (awakened s).
Definition set_mappings v s := Kmod (paddr s) (buf s) (index s) (indext s) (pgoff s) (waker_state s) (mapped_sleepers s) (mapped_vCPUs s) (unmap_sleepers s) (misc_device s) (proc_entries s) (usm_list s) (contexts s) (sleepers_map s) (mem_map s) v (awakened s).
Definition set_awakened v s := Kmod (paddr s) (buf s) (index s) (indext s) (pgoff s) (waker_state s) (mapped_sleepers s) (mapped_vCPUs s) (unmap_sleepers s) (misc_device s) (proc_entries s) (usm_list s) (contexts s) (sleepers_map s) (mem_map s) (mappings s) v.

(** The variables as they are when the module is loaded. *)
Definition static_kmod (mm : gmap Z kpage) : kmod :=
  Kmod 0 false 0 0 0 0 0 0 0 false [] [] ∅ [] mm [] [].

Section usm_lkm.
Context `{KH : KernelHeaders} (virt_to_phys phys_to_virt : Z → Z).

Definition ctx_at (c : option nat) : M kmod usm_ctx := reads (λ s, c ≫= λ n, contexts s !! n).
Definition update_ctx (c : option nat) (f : usm_ctx → usm_ctx) : M kmod unit :=
  updates (λ s, n ← c; x ← contexts s !! n; Some (set_contexts (<[n := f x]> (contexts s)) s)).
Definition update_kpage (pfn : Z) (f : kpage → kpage) : M kmod unit :=
  updates (λ s, p ← mem_map s !! pfn; Some (set_mem_map (<[pfn := f p]> (mem_map s)) s)).

Definition spin_forever : M kmod unit := λ _, OutOfFuel.
Definition spin_lock (c : option nat) : M kmod unit :=
  x ← ctx_at c;
  if usmPagesLock x then spin_forever else update_ctx c (set_lock true).
Definition spin_unlock (c : option nat) : M kmod unit := update_ctx c (set_lock false).

(** * Polls *)
Definition usm_poll_sleepers : M kmod Z :=
  l ← gets usm_list;
  match l with
  | [] => mret EPOLLERR
  | _ =>
      u ← gets unmap_sleepers;
      if negb (u =? 0) then _ ← modify (set_unmap_sleepers 0); mret EPOLLPRI
      else
        q ← gets sleepers_map;
        mret (match q with [] => 0 | _ => EPOLLIN end)
  end.

(** [private_data] is the field of the file. *)
Definition usm_poll_pages (private_data : option nat) : M kmod Z :=
  _ ← spin_lock private_data;
  x ← ctx_at private_data;
  match usmPages x with
  | _ :: _ => mret EPOLLIN
  | [] => _ ← spin_unlock private_data; mret EPOLLIN
  end.

(** * Processes *)

(** [handle_usm] is the function of the kernel that takes the next new process: the
    descriptor, or an error, and the task that waits; [None] when there is none. *)
Definition usm_read (private_data : option nat) (count : Z) (handle_usm : option (Z * option Z)) (copied : bool) : M kmod Z :=
  if count <? TASK_COMM_LEN then mret (- EAGAIN)
  else
    match handle_usm with
    | None => mret (- EFAULT)
    | Some (fd, task) =>
        _ ← update_ctx private_data (set_toWake task);
        if fd <? 0 then mret (- EFAULT)
        else
          x ← ctx_at private_data;
          match toWake x with
          | None => undef
          | Some _ => mret (if copied then fd else - EAGAIN)
          end
    end.

Definition usm_write (private_data : option nat) : M kmod Z :=
  x ← ctx_at private_data;
  match toWake x with
  | None => mret (- EAGAIN)
  | Some t => _ ← modify (λ s, set_awakened (awakened s ++ [t]) s); mret 0
  end.

(** The new value of [private_data]. *)
Definition usm_open (f_flags : Z) (current : task_struct) (private_data : option nat) : option nat * Z :=
  (if negb (Z.land f_flags O_RDWR =? 0) then usm_x current else private_data, 0).

(** The walk along the list of instances: what is left of [count], and the instance. *)
Fixpoint walk_instances (sailor : nat) (next : list nat) (count : nat) : nat * nat :=
  match count, next with
  | S count, n :: next => walk_instances n next count
  | _, _ => (count, sailor)
  end.

Definition usm_instance (current : task_struct) (null_buf : bool) (count : nat) : M kmod (task_struct * Z) :=
  l ← gets usm_list;
  match l with
  | [] => mret (current, 1)
  | sailor :: next =>
      let '(count, sailor) := walk_instances sailor next count in
      if negb (count =? 0)%nat then mret (current, 1)
      else mret (Task (Some sailor) (parent_usm_x current) (task_usm_ctx current)
                   (if null_buf then def_flags current else Z.lor (def_flags current) VM_USM_UT), 0)
  end.

(** * Mappings *)
Record vm_area_struct := Vma { vm_start : Z; vm_end : Z; vm_pgoff : Z }.
Definition vm_size (vma : vm_area_struct) : Z := u64 (vm_end vma - vm_start vma).

(** [remap_pfn_range(vma, vma->vm_start, page, size, prot)] *)
Definition remap_pfn_range (remapped : bool) (vma : vm_area_struct) (page size : Z) : M kmod bool :=
  if remapped then _ ← modify (λ s, set_mappings (mappings s ++ [(vm_start vma, page, size)]) s); mret true
  else mret false.

Definition usm_mmap (vma : vm_area_struct) (remapped : bool) : M kmod Z :=
  s ← gets id;
  let page := u64 (PFN_DOWN (virt_to_phys (phys_to_virt (paddr s))) + vm_pgoff vma + pgoff s) in
  if usmMemSize <? u64 (index s + vm_size vma) then mret (- ENOMEM)
  else
    ok ← remap_pfn_range remapped vma page (vm_size vma);
    if negb ok then mret (-1)
    else
      _ ← modify (λ s, set_indext (u64 (indext s + vm_size vma)) s);
      _ ← modify (λ s, set_pgoff (index s / PAGE_SIZE) s);
      mret 0.

Definition usm_misc_f_release : M kmod Z := _ ← modify (set_index 0); mret 0.

Definition usm_mmap_sleepers (vma : vm_area_struct) (remapped : bool) : M kmod Z :=
  q ← gets sleepers_map;
  match q with
  | [] => mret (-1)
  | uctx :: q =>
      _ ← modify (set_sleepers_map q);
      let page := u64 (PFN_DOWN (virt_to_phys uctx) + vm_pgoff vma) in
      ok ← remap_pfn_range remapped vma page (vm_size vma);
      if negb ok then mret (-1)
      else _ ← modify (λ s, set_mapped_sleepers (mapped_sleepers s + 1) s); mret 0
  end.

Definition usm_mmap_christine (current : task_struct) (vma : vm_area_struct) (remapped : bool) : M kmod Z :=
  ok ← remap_pfn_range remapped vma (PFN_DOWN (virt_to_phys (task_usm_ctx current))) (vm_size vma);
  if negb ok then mret (-1)
  else _ ← modify (λ s, set_mapped_vCPUs (mapped_vCPUs s + 1) s); mret 0.

(** * The waker and the Christine files *)
Definition waker_open : M kmod Z :=
  w ← gets waker_state;
  if w =? 0 then _ ← modify (set_waker_state (w + 1)); mret 0 else mret 1.
Definition waker_release : M kmod Z :=
  _ ← modify (set_waker_state 0); _ ← modify (set_mapped_sleepers 0); mret 0.
Definition christine_release : M kmod Z := _ ← modify (set_mapped_vCPUs 0); mret 0.

(** * Freed pages *)

(** The function of the patched kernel that takes a freed page of the instance of the caller
    (patches/0021-usm-apply-changes.patch). [usmPagesCount] is the length of the list: the two
    are only changed together, under the lock. *)
Definition handle_page (current : task_struct) : M kmod Z :=
  _ ← spin_lock (parent_usm_x current);
  x ← ctx_at (parent_usm_x current);
  match usmPages x with
  | [] => _ ← spin_unlock (parent_usm_x current); mret (u64 (- EFAULT))
  | pfn :: l =>
      _ ← update_ctx (parent_usm_x current) (set_usmPages l);
      _ ← spin_unlock (parent_usm_x current);
      mret pfn
  end.

(** The PFN that is copied to the user, if it is, and the result. *)
Definition usm_read_page (current : task_struct) (count : Z) (copied : bool) : M kmod (option Z * Z) :=
  if count <? 8 then mret (None, - EAGAIN)
  else
    pfn ← handle_page current;
    _ ← update_kpage pfn (set_mapcount (-1));
    _ ← update_kpage pfn (set_refcount 1);
    _ ← update_kpage pfn (λ p, set_pg_flags (Z.setbit (pg_flags p) PG_usm) p);
    _ ← update_kpage pfn (set_page_type PG_usm);
    mret (if copied then (Some pfn, count) else (None, - EAGAIN)).

(** * Loading and unloading *)
Definition proc_create (e : entry) (created : bool) : M kmod bool :=
  _ ← (if created then modify (λ s, set_proc_entries (e :: proc_entries s) s) else mret tt); mret created.
Definition proc_remove (e : entry) : M kmod unit :=
  modify (λ s, set_proc_entries (filter (λ e', e' ≠ e) (proc_entries s)) s).
Definition misc_deregister : M kmod unit := modify (set_misc_device false).

(** [registered], [usm], ...: whether the calls succeed; [dma]: the address of the
    buffer that dma_alloc_coherent finds. *)
Definition hwusm_lkm_init (registered usm sleepers christine pgs : bool) (dma : option Z) : M kmod Z :=
  if negb registered then mret (- EAGAIN)
  else
    _ ← modify (set_misc_device true);
    ok ← proc_create Usm usm;
    if negb ok then _ ← misc_deregister; mret (- EAGAIN)
    else
      ok ← proc_create UsmSleepers sleepers;
      if negb ok then _ ← proc_remove Usm; _ ← misc_deregister; mret (- EAGAIN)
      else
        ok ← proc_create UsmChristineSleepers christine;
        if negb ok then _ ← proc_remove Usm; _ ← proc_remove UsmSleepers; _ ← misc_deregister; mret (- EAGAIN)
        else
          ok ← proc_create UsmPgs pgs;
          if negb ok then
            _ ← proc_remove Usm; _ ← proc_remove UsmSleepers; _ ← proc_remove UsmChristineSleepers;
            _ ← misc_deregister; mret (- EAGAIN)
          else
            match dma with
            | None =>
                _ ← proc_remove Usm; _ ← proc_remove UsmSleepers; _ ← proc_remove UsmChristineSleepers;
                _ ← proc_remove UsmPgs; _ ← misc_deregister; mret (- EAGAIN)
            | Some a =>
                _ ← modify (set_buf true); _ ← modify (set_paddr a);
                _ ← modify (set_waker_state 0); _ ← modify (set_mapped_sleepers 0); _ ← modify (set_mapped_vCPUs 0);
                _ ← modify (set_sleepers_map []); _ ← modify (set_usm_list []); _ ← modify (set_unmap_sleepers 0);
                _ ← modify (set_pgoff 0);
                _ ← reads (λ s, mem_map s !! PFN_DOWN (virt_to_phys (phys_to_virt (paddr s))));
                mret 0
            end.

(** What is written to the page of a frame that the module gives back. *)
Definition reset_kpage (p : kpage) : kpage :=
  let clear b p := set_pg_flags (Z.clearbit (pg_flags p) b) p in
  set_refcount 1 (set_mapcount (-1) (set_memcg_data 0 (set_pg_mapping 0 (set_page_type PG_reclaim
    (clear PG_lru (clear PG_slab (clear PG_reserved (clear PG_writeback (clear PG_private_2 (clear PG_private
      (clear PG_active (clear PG_usm p)))))))))))).

(** The loop over the frames [pfn + i], ..., [pfn + i + n - 1]. *)
Fixpoint reset_frames (n : nat) (pfn : Z) : M kmod unit :=
  match n with
  | O => mret tt
  | S n => _ ← update_kpage pfn reset_kpage; reset_frames n (pfn + 1)
  end.

(** [__free_page] of the pages of workers. *)
Fixpoint free_uthreads (l : list Z) : list Z :=
  match l with
  | [] => []
  | a :: l => if a =? 0 then free_uthreads l else PFN_DOWN (virt_to_phys a) :: free_uthreads l
  end.

(** [while (usm_list)]: the frames that are freed. *)
Fixpoint free_contexts (l : list nat) : M kmod (list Z) :=
  match l with
  | [] => mret []
  | n :: l =>
      x ← ctx_at (Some n);
      _ ← modify (λ s, set_contexts (delete n (contexts s)) s);
      _ ← modify (set_usm_list l);
      r ← free_contexts l;
      mret (free_uthreads (uthread x) ++ r)
  end.

Definition hwusm_lkm_exit : M kmod (list Z) :=
  pfn ← gets (λ s, PFN_DOWN (virt_to_phys (phys_to_virt (paddr s))));
  _ ← modify (set_indext usmMemSize);
  n ← gets (λ s, indext s / PAGE_SIZE);
  _ ← reset_frames (Z.to_nat n) pfn;
  _ ← modify (set_buf false);
  _ ← proc_remove Usm; _ ← proc_remove UsmSleepers; _ ← proc_remove UsmChristineSleepers; _ ← proc_remove UsmPgs;
  l ← gets usm_list;
  freed ← free_contexts l;
  _ ← misc_deregister;
  mret freed.
End usm_lkm.

(** * Runs of the module *)
Section runs.
Context `{KH : KernelHeaders} (virt_to_phys phys_to_virt : Z → Z).

(** A step is a call of a function of the module, or what the kernel does to the
    variables it shares with it: an instance registers, a worker of an instance waits to be
    mapped or has gone, a page of an instance is freed. *)
Inductive kstep (s : kmod) : kmod → Prop :=
| k_poll_sleepers r s' : usm_poll_sleepers s = Ok r s' → kstep s s'
| k_poll_pages c r s' : usm_poll_pages c s = Ok r s' → kstep s s'
| k_read c count h b r s' : usm_read c count h b s = Ok r s' → kstep s s'
| k_write c r s' : usm_write c s = Ok r s' → kstep s s'
| k_instance t b count r s' : usm_instance t b count s = Ok r s' → kstep s s'
| k_mmap vma b r s' : usm_mmap virt_to_phys phys_to_virt vma b s = Ok r s' → kstep s s'
| k_misc_release r s' : usm_misc_f_release s = Ok r s' → kstep s s'
| k_mmap_sleepers vma b r s' : usm_mmap_sleepers virt_to_phys vma b s = Ok r s' → kstep s s'
| k_mmap_christine t vma b r s' : usm_mmap_christine virt_to_phys t vma b s = Ok r s' → kstep s s'
| k_waker_open r s' : waker_open s = Ok r s' → kstep s s'
| k_waker_release r s' : waker_release s = Ok r s' → kstep s s'
| k_christine_release r s' : christine_release s = Ok r s' → kstep s s'
| k_read_page t count b r s' : usm_read_page t count b s = Ok r s' → kstep s s'
| k_new_instance n c : contexts s !! n = None →
    kstep s (set_usm_list (usm_list s ++ [n]) (set_contexts (<[n := c]> (contexts s)) s))
| k_new_sleeper a : kstep s (set_sleepers_map (sleepers_map s ++ [a]) s)
| k_unmap : kstep s (set_unmap_sleepers 1 s)
| k_page_freed n c pfn : contexts s !! n = Some c → usmPagesLock c = false →
    kstep s (set_contexts (<[n := set_usmPages (pfn :: usmPages c) c]> (contexts s)) s).

(** ** What a function preserves *)
Definition preserves (P : kmod → Prop) {A} (m : M kmod A) : Prop := ∀ s a s', P s → m s = Ok a s' → P s'.

Lemma preserves_ret P {A} (a : A) : preserves P (mret a).
Proof. by intros s b s' Hs [= _ <-]. Qed.
Lemma preserves_bind P {A B} (m : M kmod A) (f : A → M kmod B) :
  preserves P m → (∀ a, preserves P (f a)) → preserves P (m ≫= f).
Proof.
  intros Hm Hf s b s' Hs E. unfold mbind, M_bind in E. destruct (m s) as [a s1| | |] eqn:E1; [|done..].
  eapply Hf; [|exact E]. by eapply Hm.
Qed.
Lemma preserves_gets P {A} (f : kmod → A) : preserves P (gets f).
Proof. by intros s b s' Hs [= _ <-]. Qed.
Lemma preserves_reads P {A} (f : kmod → option A) : preserves P (reads f).
Proof. intros s b s' Hs E. unfold reads in E. destruct (f s); [|done]. by injection E as _ <-. Qed.
Lemma preserves_modify (P : kmod → Prop) f : (∀ s, P s → P (f s)) → preserves P (modify f).
Proof. intros H s b s' Hs [= _ <-]. by apply H. Qed.
Lemma preserves_undef P {A} : preserves P (undef (A := A)).
Proof. done. Qed.
Lemma preserves_spin P : preserves P spin_forever.
Proof. done. Qed.
Lemma preserves_update_ctx (P : kmod → Prop) c f :
  (∀ s n x, c = Some n → contexts s !! n = Some x → P s → P (set_contexts (<[n := f x]> (contexts s)) s)) → preserves P (update_ctx c f).
Proof.
  intros H s b s' Hs E. unfold update_ctx, updates in E. destruct c as [n|]; [|done]. cbn in E.
  destruct (contexts s !! n) as [x|] eqn:Ex; [|done]. cbn in E. injection E as _ <-. by apply H.
Qed.
Lemma preserves_update_kpage (P : kmod → Prop) pfn f :
  (∀ s p, mem_map s !! pfn = Some p → P s → P (set_mem_map (<[pfn := f p]> (mem_map s)) s)) → preserves P (update_kpage pfn f).
Proof.
  intros H s b s' Hs E. unfold update_kpage, updates in E.
  destruct (mem_map s !! pfn) as [x|] eqn:Ex; [|done]. cbn in E. injection E as _ <-. by apply H.
Qed.
Lemma preserves_step (P : kmod → Prop) {A} (m : M kmod A) s a s' : P s → m s = Ok a s' → preserves P m → P s'.
Proof. intros Hs E Hm. by eapply Hm. Qed.
Lemma preserves_ctx_at P c : preserves P (ctx_at c).
Proof. apply preserves_reads. Qed.
End runs.

Create HintDb kmod.
#[export] Hint Resolve preserves_ret preserves_gets preserves_reads preserves_undef preserves_spin preserves_ctx_at : kmod.

(** Reduce [preserves P m] to the updates of [m]. *)
Ltac preserve :=
  repeat match goal with
  | |- preserves _ (_ ≫= _) => apply preserves_bind; [|intros ?]
  | |- preserves _ (match ?x with _ => _ end) => destruct x eqn:?
  | |- preserves _ (let '(_, _) := ?x in _) => destruct x
  | |- preserves _ _ => progress (auto with kmod)
  end.

Section invariant.
Context `{KH : KernelHeaders} (virt_to_phys phys_to_virt : Z → Z).

(** The numbers of the module: nothing ever adds to [index], so that [pgoff] stays 0. *)
Record kinv (a : Z) (s : kmod) : Prop := {
  ki_paddr : paddr s = a;
  ki_index : index s = 0;
  ki_pgoff : pgoff s = 0;
  ki_indext : 0 ≤ indext s < 2 ^ 64;
  ki_waker : waker_state s = 0 ∨ waker_state s = 1;
  ki_sleepers : 0 ≤ mapped_sleepers s;
  ki_vCPUs : 0 ≤ mapped_vCPUs s;
  ki_instances : NoDup (usm_list s) ∧ ∀ n, n ∈ usm_list s ↔ n ∈ dom (contexts s);
  ki_registered : misc_device s = true ∧ proc_entries s = [UsmPgs; UsmChristineSleepers; UsmSleepers; Usm] ∧ buf s = true;
}.

(** Reduce a step to the updates of the functions of the module. *)
Ltac step_by_updates Hi :=
  try (eapply preserves_step; [exact Hi|eassumption|]; clear;
    unfold usm_poll_sleepers, usm_poll_pages, usm_read, usm_write, usm_instance, usm_mmap, usm_misc_f_release,
      usm_mmap_sleepers, usm_mmap_christine, waker_open, waker_release, christine_release, usm_read_page, handle_page,
      remap_pfn_range, spin_lock, spin_unlock; preserve;
    first [apply preserves_modify; intros ? ?|apply preserves_update_ctx; intros ? ? ? ? ? ?|apply preserves_update_kpage; intros ? ? ? ?]).

Lemma kstep_inv a s s' : kinv a s → kstep virt_to_phys phys_to_virt s s' → kinv a s'.
Proof.
  intros Hi Hstep. destruct Hstep; step_by_updates Hi.
  all: match goal with H : kinv _ _ |- _ => destruct H as [? ? ? ? ? ? ? [? Hdom] ?] end; split; cbn; try done; try lia.
  all: try (apply Z.mod_pos_bound; lia).
  all: try (split; [done|]; intros n'; rewrite Hdom, dom_insert_L; rewrite elem_of_union, elem_of_singleton;
    split; [tauto|]; intros [->|?]; [by eapply elem_of_dom_2|done]).
  - by replace (index s) with 0.
  - split.
    + apply NoDup_app. split; [done|]. split; [|apply NoDup_singleton]. intros n' Hn' ->%list_elem_of_singleton.
      apply Hdom, elem_of_dom in Hn'. destruct Hn' as [? ?]. congruence.
    + intros n'. rewrite elem_of_app, list_elem_of_singleton, Hdom, dom_insert_L. set_solver.
Qed.

Lemma run_inv a s s' : kinv a s → rtc (kstep virt_to_phys phys_to_virt) s s' → kinv a s'.
Proof. intros Hi Hr. induction Hr as [|s s1 s' Hs _ IH]; [done|]. by eapply IH, kstep_inv. Qed.

(** ** Loading *)
Hypothesis phys_virt : ∀ a, virt_to_phys (phys_to_virt a) = a.

Definition unregistered (s : kmod) : Prop := misc_device s = false ∧ proc_entries s = [] ∧ buf s = false.

(** The device, the four files and the buffer at [a] are there. *)
Definition in_place (a : Z) (s : kmod) : Prop :=
  misc_device s = true ∧ proc_entries s ≡ₚ [Usm; UsmSleepers; UsmChristineSleepers; UsmPgs] ∧ buf s = true ∧ paddr s = a.

Lemma kinv_in_place a s : kinv a s → in_place a s.
Proof.
  intros [Ha _ _ _ _ _ _ _ (H1 & H2 & H3)]. split_and!; [done| |done|done]. rewrite H2.
  symmetry. exact (Permutation_rev [Usm; UsmSleepers; UsmChristineSleepers; UsmPgs]).
Qed.

(** The steps that have to succeed; then the buffer is at the address given. *)
Definition loads (registered usm sleepers christine pgs : bool) (dma : option Z) : option Z :=
  if registered && usm && sleepers && christine && pgs then dma else None.

Lemma init_ok registered usm sleepers christine pgs dma mm : (∀ a, dma = Some a → is_Some (mm !! PFN_DOWN a)) →
  match loads registered usm sleepers christine pgs dma with
  | None => ∃ s, hwusm_lkm_init virt_to_phys phys_to_virt registered usm sleepers christine pgs dma (static_kmod mm) = Ok (- EAGAIN) s ∧ unregistered s
  | Some a => ∃ s, hwusm_lkm_init virt_to_phys phys_to_virt registered usm sleepers christine pgs dma (static_kmod mm) = Ok 0 s ∧
      mem_map s = mm ∧ kinv a s ∧ usm_list s = [] ∧ contexts s = ∅
  end.
Proof.
  intros Hm. destruct registered, usm, sleepers, christine, pgs; try (eexists; split; [reflexivity|done]).
  destruct dma as [a|]; [|eexists; split; [reflexivity|done]].
  destruct (Hm a eq_refl) as [p Hp]. cbn [loads andb]. eexists. split.
  { unfold hwusm_lkm_init, proc_create, mbind, M_bind, modify, reads. cbn. rewrite phys_virt, Hp. reflexivity. }
  split; [done|]. split; [|done]. split; cbn; try done; try lia.
  split; [constructor|]. intros n. rewrite dom_empty_L. set_solver.
Qed.

(** ** Unloading *)
Lemma reset_frames_ok n : ∀ pfn s, (∀ q, pfn ≤ q < pfn + Z.of_nat n → is_Some (mem_map s !! q)) →
  ∃ s', reset_frames n pfn s = Ok tt s' ∧ s' = set_mem_map (mem_map s') s ∧
    ∀ q, mem_map s' !! q = if decide (pfn ≤ q < pfn + Z.of_nat n) then reset_kpage <$> mem_map s !! q else mem_map s !! q.
Proof.
  induction n as [|n IH]; intros pfn s Hm; cbn [reset_frames].
  - exists s. split; [done|]. split; [by destruct s|]. intros q. rewrite decide_False by lia. done.
  - destruct (Hm pfn) as [p Hp]; [lia|]. set (s1 := set_mem_map (<[pfn := reset_kpage p]> (mem_map s)) s).
    assert (update_kpage pfn reset_kpage s = Ok tt s1) as E1 by (unfold update_kpage, updates; by rewrite Hp).
    run E1. destruct (IH (pfn + 1) s1) as (s2 & E2 & Hs2 & H2).
    { intros q Hq. unfold s1. cbn. rewrite lookup_insert_ne by lia. apply Hm. lia. }
    exists s2. split; [done|]. split; [by rewrite Hs2|]. intros q. rewrite H2. unfold s1. cbn.
    destruct (decide (q = pfn)) as [->|Hne].
    + rewrite decide_False, decide_True, lookup_insert_eq, Hp by lia. done.
    + rewrite lookup_insert_ne by done. destruct (decide (pfn + 1 ≤ q < pfn + 1 + Z.of_nat n)).
      * by rewrite decide_True by lia.
      * by rewrite decide_False by lia.
Qed.

(** The frames of the pages of all workers. *)
Definition worker_frames (s : kmod) (l : list nat) : list Z :=
  l ≫= λ n, default [] (free_uthreads virt_to_phys ∘ uthread <$> contexts s !! n).

Lemma free_contexts_ok l : ∀ s, usm_list s = l → NoDup l → (∀ n, n ∈ l ↔ n ∈ dom (contexts s)) →
  free_contexts virt_to_phys l s = Ok (worker_frames s l) (set_usm_list [] (set_contexts ∅ s)).
Proof.
  induction l as [|n l IH]; intros s Hl Hnd Hdom; cbn [free_contexts].
  - assert (contexts s = ∅) as Hc by (apply dom_empty_inv_L; set_solver). destruct s. cbn in *. by subst.
  - assert (n ∈ dom (contexts s)) as [x Hx]%elem_of_dom by (apply Hdom; by left). apply NoDup_cons in Hnd as [Hn Hnd].
    unfold ctx_at. rewrite (reads_bind _ _ _ x) by exact Hx. rewrite !modify_bind.
    assert (∀ m, m ∈ l ↔ m ∈ dom (delete n (contexts s))) as Hdom'.
    { intros m. rewrite dom_delete_L, elem_of_difference, elem_of_singleton, <- Hdom, elem_of_cons. set_solver. }
    run (IH (set_usm_list l (set_contexts (delete n (contexts s)) s)) eq_refl Hnd Hdom').
    unfold mret, M_ret. cbn. rewrite Hx. cbn. do 2 f_equal. apply Forall_bind_ext, Forall_forall. intros m Hm. cbn.
    rewrite lookup_delete_ne; [done|]. by intros ->.
Qed.

(** The frames of the pool at the physical address [a]. *)
Definition pool_frame (a q : Z) : Prop := PFN_DOWN a ≤ q < PFN_DOWN a + 131072.

Definition has_frame (q : Z) (s : kmod) : Prop := is_Some (mem_map s !! q).

Lemma kstep_frames q s s' : has_frame q s → kstep virt_to_phys phys_to_virt s s' → has_frame q s'.
Proof.
  intros Hi Hstep. destruct Hstep; step_by_updates Hi; try done.
  all: unfold has_frame in *; cbn; match goal with |- is_Some (<[?k := _]> _ !! ?q) =>
         destruct (decide (q = k)) as [->|]; [by rewrite lookup_insert_eq|by rewrite lookup_insert_ne] end.
Qed.

Lemma run_frames q s s' : has_frame q s → rtc (kstep virt_to_phys phys_to_virt) s s' → has_frame q s'.
Proof. intros Hi Hr. induction Hr as [|s s1 s' Hs _ IH]; [done|]. by eapply IH, kstep_frames. Qed.

Lemma exit_ok a s : kinv a s → (∀ q, pool_frame a q → is_Some (mem_map s !! q)) →
  ∃ s', hwusm_lkm_exit virt_to_phys phys_to_virt s = Ok (worker_frames s (usm_list s)) s' ∧ unregistered s' ∧
    usm_list s' = [] ∧ contexts s' = ∅ ∧
    ∀ q, mem_map s' !! q = if decide (PFN_DOWN a ≤ q < PFN_DOWN a + 131072) then reset_kpage <$> mem_map s !! q else mem_map s !! q.
Proof.
  intros [Hp _ _ _ _ _ _ [Hnd Hdom] (_ & Hpe & _)] Hm. unfold hwusm_lkm_exit. rewrite gets_bind, modify_bind, gets_bind, phys_virt, Hp.
  change (Z.to_nat (indext (set_indext usmMemSize s) / PAGE_SIZE)) with (Z.to_nat 131072).
  destruct (reset_frames_ok (Z.to_nat 131072) (PFN_DOWN a) (set_indext usmMemSize s)) as (s1 & E1 & Hs1 & H1).
  { rewrite Z2Nat.id by lia. exact Hm. }
  rewrite Z2Nat.id in H1 by lia. run E1. unfold proc_remove. rewrite !modify_bind, gets_bind.
  set (s2 := set_proc_entries _ _).
  assert (usm_list s2 = usm_list s ∧ contexts s2 = contexts s ∧ mem_map s2 = mem_map s1) as (L2 & C2 & M2) by (by unfold s2; rewrite Hs1).
  rewrite L2. pose proof (free_contexts_ok (usm_list s) s2 L2 Hnd) as E2. rewrite C2 in E2. specialize (E2 Hdom).
  run E2. exists (set_misc_device false (set_usm_list [] (set_contexts ∅ s2))). split; [|split; [|split; [done|split; [done|]]]].
  - unfold misc_deregister. rewrite modify_bind. unfold mret, M_ret. f_equal. unfold worker_frames. by rewrite C2.
  - unfold unregistered, s2. cbn. rewrite Hs1. cbn. by rewrite Hpe.
  - intros q. etrans; [|apply H1]. by rewrite <- M2.
Qed.

(** C12: Loading the module returns 0 exactly when the registration of the device, the creation
    of each of the four files and the allocation of the buffer succeed, and then the device,
    all four files and the buffer are in place; when any of the steps fails it returns -EAGAIN
    with nothing registered. After a successful load and any sequence of calls everything is
    still in place, and unloading returns: it unregisters and frees everything, forgets all
    instances and gives back the pages of their workers, and resets exactly the frames of
    the pool. *)
Theorem module_load_unload registered usm sleepers christine pgs dma mm : (∀ a, dma = Some a → ∀ q, pool_frame a q → is_Some (mm !! q)) →
  match loads registered usm sleepers christine pgs dma with
  | None => ∃ s, hwusm_lkm_init virt_to_phys phys_to_virt registered usm sleepers christine pgs dma (static_kmod mm) = Ok (- EAGAIN) s ∧ unregistered s
  | Some a => ∃ s, hwusm_lkm_init virt_to_phys phys_to_virt registered usm sleepers christine pgs dma (static_kmod mm) = Ok 0 s ∧
      in_place a s ∧ usm_list s = [] ∧ contexts s = ∅ ∧
      ∀ s1, rtc (kstep virt_to_phys phys_to_virt) s s1 → in_place a s1 ∧
       ∃ s', hwusm_lkm_exit virt_to_phys phys_to_virt s1 = Ok (worker_frames s1 (usm_list s1)) s' ∧ unregistered s' ∧
         usm_list s' = [] ∧ contexts s' = ∅ ∧
         ∀ q, mem_map s' !! q = if decide (PFN_DOWN a ≤ q < PFN_DOWN a + 131072) then reset_kpage <$> mem_map s1 !! q else mem_map s1 !! q
  end.
Proof.
  intros Hm. pose proof (init_ok registered usm sleepers christine pgs dma mm) as Hinit.
  assert (∀ a, loads registered usm sleepers christine pgs dma = Some a → dma = Some a) as Hdma.
  { unfold loads. intros a. by destruct (_ && _). }
  destruct (loads registered usm sleepers christine pgs dma) as [a|].
  - destruct Hinit as (s & E & M & Hi & Hl & Hc).
    { intros a' ->. apply (Hm a' eq_refl). split; lia. }
    exists s. split; [done|]. split; [by apply kinv_in_place|]. pose proof (Hdma a eq_refl) as ->. split; [done|]. split; [done|].
    intros s1 Hr. pose proof (run_inv a s s1 Hi Hr) as Hi1. split; [by apply kinv_in_place|].
    apply exit_ok; [done|]. intros q Hq. eapply run_frames; [|done]. unfold has_frame. rewrite M. by apply (Hm a).
  - apply Hinit. intros a' ->. apply (Hm a' eq_refl). split; lia.
Qed.

(** The module never accounts for the frames that it maps: after any sequence of calls,
    every mapping of up to 512 MB is accepted, and the frames it gets are those at its
    offset from the start of the pool, whatever was mapped before. Two mappings at the same offset
    share their frames, and an offset behind the pool reaches frames of others. *)
Theorem mmap_ignores_earlier_mappings a s0 s vma : kinv a s0 → rtc (kstep virt_to_phys phys_to_virt) s0 s →
  vm_size vma ≤ usmMemSize →
  ∃ s', usm_mmap virt_to_phys phys_to_virt vma true s = Ok 0 s' ∧
    mappings s' = mappings s ++ [(vm_start vma, u64 (PFN_DOWN a + vm_pgoff vma), vm_size vma)].
Proof.
  intros H0 Hr Hv. destruct (run_inv a s0 s H0 Hr) as [Hp Hi Hg _ _ _ _ _ _].
  assert (0 ≤ vm_size vma) by (apply Z.mod_pos_bound; lia).
  unfold usm_mmap. rewrite gets_bind. cbn [id]. rewrite Hi, Hg, Hp, phys_virt, Z.add_0_r, Z.add_0_l.
  rewrite (proj2 (Z.ltb_ge _ _)).
  2:{ unfold u64. rewrite Z.mod_small; [done|]. unfold usmMemSize, u64 in Hv. rewrite Z.mod_small in Hv; lia. }
  eexists. split; [reflexivity|]. reflexivity.
Qed.

(** ** The lock of the freed pages *)
Definition locked (n : nat) (s : kmod) : Prop := ∃ c, contexts s !! n = Some c ∧ usmPagesLock c = true.

Lemma spin_lock_locked n s : locked n s → spin_lock (Some n) s = OutOfFuel.
Proof. intros (c & Hc & Hl). unfold spin_lock, ctx_at. rewrite (reads_bind _ _ _ c) by exact Hc. by rewrite Hl. Qed.

Lemma locked_insert n m c x s : locked n s → contexts s !! m = Some c → (m = n → usmPagesLock c = true → usmPagesLock x = true) →
  locked n (set_contexts (<[m := x]> (contexts s)) s).
Proof.
  intros (d & Hd & Hl) Hc Hx. unfold locked. cbn. destruct (decide (m = n)) as [->|Hne].
  - exists x. rewrite lookup_insert_eq. split; [done|]. apply Hx; [done|]. congruence.
  - exists d. by rewrite lookup_insert_ne.
Qed.

Lemma locked_update n c f : (c = Some n → ∀ x, usmPagesLock x = true → usmPagesLock (f x) = true) → preserves (locked n) (update_ctx c f).
Proof.
  intros H. apply preserves_update_ctx. intros s m x -> Hx Hl. eapply locked_insert; [done|done|]. intros ->. by apply H.
Qed.

(** Only the lock of another instance can be taken. *)
Lemma locked_lock {A} n c (f : unit → M kmod A) : (c ≠ Some n → preserves (locked n) (f tt)) → preserves (locked n) (spin_lock c ≫= f).
Proof.
  intros H s a s' Hs E. destruct (decide (c = Some n)) as [->|Hc].
  - unfold mbind, M_bind in E. by rewrite spin_lock_locked in E.
  - revert s a s' Hs E. change (preserves (locked n) (spin_lock c ≫= f)). apply preserves_bind; [|intros []; by apply H].
    unfold spin_lock. preserve. by apply locked_update.
Qed.

Lemma kstep_locked n s s' : locked n s → kstep virt_to_phys phys_to_virt s s' → locked n s'.
Proof.
  intros Hi Hstep.
  assert (∀ c, preserves (locked n) (usm_poll_pages c)) as Hpoll.
  { intros c. apply locked_lock. intros Hne. preserve. by apply locked_update. }
  assert (∀ t count b, preserves (locked n) (usm_read_page t count b)) as Hread.
  { intros t count b. unfold usm_read_page. preserve.
    2-5: by apply preserves_update_kpage. apply locked_lock. intros Hne. preserve; by apply locked_update. }
  destruct Hstep; try (by eapply Hpoll); try (by eapply Hread); step_by_updates Hi; try done.
  - by eapply locked_insert.
  - destruct Hi as (d & Hd & Hl). exists d. split; [|done]. cbn. rewrite lookup_insert_ne; [done|]. congruence.
  - by eapply locked_insert.
Qed.

(** A poll of the file of freed pages that finds pages returns with the lock held: whatever
    is called afterwards, the next poll of the same instance and every attempt to read one of the
    pages wait for the lock forever. *)
Theorem poll_pages_locks_out n c s : contexts s !! n = Some c → usmPagesLock c = false → usmPages c ≠ [] →
  ∃ s', usm_poll_pages (Some n) s = Ok EPOLLIN s' ∧
    ∀ s1, rtc (kstep virt_to_phys phys_to_virt) s' s1 →
      usm_poll_pages (Some n) s1 = OutOfFuel ∧
      ∀ t count copied, parent_usm_x t = Some n → 8 ≤ count → usm_read_page t count copied s1 = OutOfFuel.
Proof.
  intros Hc Hl Hp. set (s' := set_contexts (<[n := set_lock true c]> (contexts s)) s). exists s'.
  assert (locked n s') as Hlock by (exists (set_lock true c); split; [apply lookup_insert_eq|done]). split.
  - unfold usm_poll_pages.
    assert (spin_lock (Some n) s = Ok tt s') as E.
    { unfold spin_lock, ctx_at. rewrite (reads_bind _ _ _ c) by exact Hc. rewrite Hl. unfold update_ctx, updates. cbn. by rewrite Hc. }
    run E. unfold ctx_at. rewrite (reads_bind _ _ _ (set_lock true c)) by apply lookup_insert_eq. cbn. by destruct (usmPages c).
  - intros s1 Hr. assert (locked n s1) as H1.
    { clear Hc Hl Hp. induction Hr as [|s0 s2 s1 Hs _ IH]; [done|]. by eapply IH, kstep_locked. }
    unfold usm_poll_pages, usm_read_page, handle_page, mbind, M_bind. split; [by rewrite spin_lock_locked|].
    intros t count copied Ht Hcount. rewrite (proj2 (Z.ltb_ge _ _)) by lia. by rewrite Ht, spin_lock_locked.
Qed.
End invariant.

(** A poll reports pages also when there are none, and reading then goes through the page of
    an error number. *)
Lemma poll_pages_empty_read_undefined `{KH : KernelHeaders} n c t count copied s :
  contexts s !! n = Some c → usmPagesLock c = false → usmPages c = [] → parent_usm_x t = Some n → 8 ≤ count →
  mem_map s !! u64 (- EFAULT) = None →
  ∃ s', usm_poll_pages (Some n) s = Ok EPOLLIN s' ∧ usm_read_page t count copied s' = Undef.
Proof.
  intros Hc Hl Hp Ht Hcount Hm.
  assert (∀ s, contexts s !! n = Some c → spin_lock (Some n) s = Ok tt (set_contexts (<[n := set_lock true c]> (contexts s)) s)) as Hlock.
  { intros s0 H0. unfold spin_lock, ctx_at. rewrite (reads_bind _ _ _ c) by exact H0. rewrite Hl.
    unfold update_ctx, updates. cbn. by rewrite H0. }
  set (s' := set_contexts (<[n := c]> (contexts s)) s).
  assert (∀ s, contexts s !! n = Some c → spin_unlock (Some n) (set_contexts (<[n := set_lock true c]> (contexts s)) s) =
    Ok tt (set_contexts (<[n := c]> (contexts s)) s)) as Hunlock.
  { intros s0 H0. unfold spin_unlock, update_ctx, updates. cbn. rewrite lookup_insert_eq. cbn. rewrite insert_insert_eq.
    unfold set_lock. cbn. rewrite <- Hl. by destruct c. }
  exists s'. assert (contexts s' !! n = Some c) as Hc' by apply lookup_insert_eq. split.
  - unfold usm_poll_pages. run (Hlock s Hc). unfold ctx_at.
    rewrite (reads_bind _ _ _ (set_lock true c)) by apply lookup_insert_eq. cbn [set_lock usmPages]. rewrite Hp. by run (Hunlock s Hc).
  - unfold usm_read_page. rewrite (proj2 (Z.ltb_ge _ _)) by lia.
    rewrite (bind_ok _ _ _ (u64 (- EFAULT)) (set_contexts (<[n := c]> (contexts s')) s')).
    + unfold mbind, M_bind, update_kpage, updates. cbn. by rewrite Hm.
    + unfold handle_page. rewrite Ht. run (Hlock s' Hc'). unfold ctx_at.
      rewrite (reads_bind _ _ _ (set_lock true c)) by apply lookup_insert_eq. cbn [set_lock usmPages]. rewrite Hp. by run (Hunlock s' Hc').
Qed.

(** * A module with its pool at physical address 0 *)
Section example.
Local Instance demo_headers : KernelHeaders := {
  PG_usm := 24; PG_active := 5; PG_private := 13; PG_private_2 := 14; PG_writeback := 15; PG_reserved := 12; PG_slab := 9;
  PG_lru := 4; PG_reclaim := 18; VM_USM_UT := 2 ^ 40;
}.
Definition demo_kpage : kpage := Kpage 0 0 0 0 0 0.
Definition demo_frames (n : nat) : gmap Z kpage := list_to_map ((λ i, (Z.of_nat i, demo_kpage)) <$> seq 0 n).
Definition demo_ctx : usm_ctx := UsmCtx [4096] false [17; 18] None.
Definition demo_kmod : kmod :=
  Kmod 0 true 0 0 0 0 0 0 0 true [UsmPgs; UsmChristineSleepers; UsmSleepers; Usm] [3%nat] {[3%nat := demo_ctx]} [4096] ∅ [] [].

Lemma demo_frames_lookup n q : 0 ≤ q < Z.of_nat n → is_Some (demo_frames n !! q).
Proof.
  intros Hq. apply elem_of_dom. unfold demo_frames. rewrite dom_list_to_map_L, elem_of_list_to_set, <- list_fmap_compose.
  apply list_elem_of_fmap. exists (Z.to_nat q). split; [cbn; lia|]. apply elem_of_seq. lia.
Qed.

Lemma demo_kinv : kinv 0 demo_kmod.
Proof.
  split; cbn; try done; try lia. split; [apply NoDup_singleton|]. intros n. rewrite dom_singleton_L. set_solver.
Qed.

Lemma module_load_unload_witness :
  ∃ s s', hwusm_lkm_init id id true true true true true (Some 0) (static_kmod (demo_frames (Z.to_nat 131072))) = Ok 0 s ∧
    in_place 0 s ∧ hwusm_lkm_exit id id s = Ok [] s' ∧ unregistered s'.
Proof.
  destruct (module_load_unload id id (λ a, eq_refl) true true true true true (Some 0) (demo_frames (Z.to_nat 131072))) as (s & E & Hp & Hl & Hc & Hrun).
  - intros a [= <-] q Hq. apply demo_frames_lookup. rewrite Z2Nat.id by lia. exact Hq.
  - destruct (Hrun s (rtc_refl _ _)) as (_ & s' & E' & Hu & _). rewrite Hl in E'. exists s, s'. split; [exact E|]. split; [exact Hp|]. split; [exact E'|exact Hu].
Defined.

(** A second mapping of the whole pool, after a first one. *)
Lemma mmap_ignores_earlier_mappings_witness :
  let vma := Vma 1048576 (1048576 + 536870912) 0 in
  ∃ s s', usm_mmap id id vma true demo_kmod = Ok 0 s ∧ usm_mmap id id vma true s = Ok 0 s' ∧
    mappings s = [(1048576, 0, 536870912)] ∧ mappings s' = mappings s ++ [(1048576, 0, 536870912)].
Proof.
  intros vma. eexists. destruct (mmap_ignores_earlier_mappings id id) with (a := 0) (s0 := demo_kmod) (vma := vma)
    (s := set_pgoff 0 (set_indext 536870912 (set_mappings [(1048576, 0, 536870912)] demo_kmod))) as (s' & E & Hs').
  - reflexivity.
  - exact demo_kinv.
  - apply rtc_once. apply (k_mmap id id _ vma true 0). vm_compute. reflexivity.
  - vm_compute. discriminate.
  - exists s'. split; [vm_compute; reflexivity|]. split; [exact E|]. split; [reflexivity|exact Hs'].
Defined.

Lemma poll_pages_locks_out_witness : ∃ s', usm_poll_pages (Some 3%nat) demo_kmod = Ok EPOLLIN s' ∧
  ∀ s1, rtc (kstep id id) s' s1 → usm_poll_pages (Some 3%nat) s1 = OutOfFuel ∧
    ∀ t count copied, parent_usm_x t = Some 3%nat → 8 ≤ count → usm_read_page t count copied s1 = OutOfFuel.
Proof. apply (poll_pages_locks_out id id 3%nat demo_ctx demo_kmod); [reflexivity|reflexivity|discriminate]. Defined.
End example.
