(* ===== verification/Tagger.v ===== *)
(** The library that tags programs (usmTagger.c): preloaded into a program, its
    constructor links the process to one of the instances of the daemon by writing to the
    file /proc/usmPgs of the kernel module, and stops the program when there is no such
    instance. *)
From Stdlib Require Import Ascii.
From stdpp Require Import prelude strings gmap.
From S2P Require Import Prelude Lists State Daemon Config Timings KernelModule.

Open Scope Z_scope.

(** [strtol(x, NULL, 10)] *)
Definition LONG_MAX : Z := 2 ^ 63 - 1.
Definition strtol (x : string) : Z :=
  let x := skip_space x in
  let v := match x with
           | String c x' =>
               if ascii_code c =? 45 then - digits x' 0 else if ascii_code c =? 43 then digits x' 0 else digits x 0
           | EmptyString => 0
           end in
  Z.max (- LONG_MAX - 1) (Z.min LONG_MAX v).

Section tagger.
Context `{KH : KernelHeaders}.

(** The kernel's part of a write: the count with which it calls the file operation of the
    module, if it does not refuse the buffer or the count. The buffer is null or not. *)
Context (vfs_write : bool → Z → option nat).

Definition write (fd : Z) (null_buf : bool) (count : Z) (current : task_struct) : M kmod (task_struct * Z) :=
  if fd <? 0 then mret (current, -1)
  else
    match vfs_write null_buf count with
    | None => mret (current, -1)
    | Some n => usm_instance current null_buf n
    end.

(** The constructor, up to the call of userfaultfd: [USM] and [UTHREADS] are the
    variables of the environment and [fd] is what [open] returns. *)
Definition tagger_init (USM UTHREADS : option string) (fd : Z) (current : task_struct) : M kmod task_struct :=
  let instance := match USM with Some x => s32 (strtol x) | None => 0 end in
  r ← (match UTHREADS with Some _ => write fd false instance current | None => write fd true instance current end);
  let '(current, instance) := r in
  if negb (instance =? 0) then abort else mret current.

(** ** The instance *)
Lemma walk_instances_ok : ∀ count sailor next,
  match (sailor :: next) !! count with
  | Some n => walk_instances sailor next count = (0%nat, n)
  | None => (walk_instances sailor next count).1 ≠ 0%nat
  end.
Proof.
  induction count as [|count IH]; intros sailor next; [by destruct next|]. destruct next as [|n next]; [done|].
  apply (IH n next).
Qed.

Lemma usm_instance_ok current null_buf count s :
  usm_instance current null_buf count s =
  match usm_list s !! count with
  | Some n => Ok (Task (Some n) (parent_usm_x current) (task_usm_ctx current)
      (if null_buf then def_flags current else Z.lor (def_flags current) VM_USM_UT), 0) s
  | None => Ok (current, 1) s
  end.
Proof.
  unfold usm_instance. rewrite gets_bind. destruct (usm_list s) as [|sailor next]; [done|].
  pose proof (walk_instances_ok count sailor next) as H. destruct ((sailor :: next) !! count) as [n|]; [by rewrite H|].
  destruct (walk_instances sailor next count) as [[|c] n]; [done|]. done.
Qed.

(** ** The number in the environment *)
Lemma digits_decimal x : ∀ v, all_digits x = true → digits x v = decimal x v.
Proof.
  induction x as [|c x IH]; intros v Hx; [done|]. cbn in Hx. apply andb_prop in Hx as [Hc Hx]. cbn.
  unfold is_digit in Hc. apply andb_prop in Hc as [H1 H2]. replace ((0 <=? ascii_code c - 48) && (ascii_code c - 48 <=? 9)) with true by lia.
  by apply IH.
Qed.

Lemma strtol_print n : 0 ≤ n < 2 ^ 31 → strtol (print_u64 n) = n.
Proof.
  intros Hn. destruct (print_digits_ok 20 n EmptyString) as (H1 & H2 & H3); [lia|lia|done|]. fold (print_u64 n) in H1, H2, H3.
  change (decimal EmptyString n) with n in H3.
  unfold strtol. destruct (print_u64 n) as [|c x] eqn:E; [done|]. cbn in H2. unfold is_digit in H2. apply andb_prop in H2 as [L U].
  assert (skip_space (String c x) = String c x) as ->.
  { cbn. unfold is_space. by replace ((ascii_code c =? 32) || ((9 <=? ascii_code c) && (ascii_code c <=? 13))) with false by lia. }
  rewrite (proj2 (Z.eqb_neq _ _)), (proj2 (Z.eqb_neq _ _)) by lia. rewrite digits_decimal, H3 by done. unfold LONG_MAX. lia.
Qed.

(** C18: A tagged program runs only when it is linked. With the number [k] in the
    variable USM, and with instance 0 when it is unset, the process is linked to the
    instance that was created as the [k]-th one, and asks for user threads exactly when
    UTHREADS is set; the program is stopped when there are not enough instances or the
    file of the module cannot be opened. *)
Theorem tagger_links k (UTHREADS : option string) fd current s : 0 ≤ k < 4096 →
  (∀ b n, 0 ≤ n < 4096 → vfs_write b n = Some (Z.to_nat n)) →
  let flags := match UTHREADS with Some _ => Z.lor (def_flags current) VM_USM_UT | None => def_flags current end in
  let linked := match usm_list s !! Z.to_nat k with
    | Some n => Ok (Task (Some n) (parent_usm_x current) (task_usm_ctx current) flags) s
    | None => Abort
    end in
  tagger_init (Some (print_u64 k)) UTHREADS fd current s = (if fd <? 0 then Abort else linked) ∧
  (k = 0 → tagger_init None UTHREADS fd current s = (if fd <? 0 then Abort else linked)).
Proof.
  intros Hk Hvfs flags linked.
  assert ((r ← (match UTHREADS with Some _ => write fd false k current | None => write fd true k current end);
    let '(current, instance) := r in if negb (instance =? 0) then abort else mret current) s = (if fd <? 0 then Abort else linked)) as E.
  { unfold write, mbind, M_bind. rewrite !Hvfs by done. destruct (fd <? 0); [by destruct UTHREADS|].
    destruct UTHREADS; rewrite usm_instance_ok; unfold linked, flags; by destruct (usm_list s !! Z.to_nat k). }
  split; [|by intros ->]. unfold tagger_init. rewrite strtol_print by lia.
  assert (s32 k = k) as ->; [|done]. unfold s32, u32. rewrite Z.mod_small by lia. by replace (k <? 2 ^ 31) with true by lia.
Qed.
End tagger.

(** Two instances; the program asks for the second one, and then for a third. *)
Section example.
Local Instance tagger_headers : KernelHeaders := {|
  PG_usm := 1; PG_active := 2; PG_private := 3; PG_private_2 := 4; PG_writeback := 5; PG_reserved := 6; PG_slab := 7;
  PG_lru := 8; PG_reclaim := 9; VM_USM_UT := 16;
|}.
Definition two_instances : kmod := set_usm_list [8; 3]%nat (static_kmod ∅).
Definition small_write (_ : bool) (count : Z) : option nat := if (0 <=? count) && (count <? 4096) then Some (Z.to_nat count) else None.

Lemma small_write_ok b n : 0 ≤ n < 4096 → small_write b n = Some (Z.to_nat n).
Proof. intros H. unfold small_write. by replace ((0 <=? n) && (n <? 4096)) with true by lia. Qed.

Lemma tagger_links_witness :
  tagger_init small_write (Some "1"%string) (Some "y"%string) 3 (Task None None 0 2) two_instances = Ok (Task (Some 3%nat) None 0 18) two_instances ∧
  tagger_init small_write (Some "2"%string) None 3 (Task None None 0 2) two_instances = Abort.
Proof.
  split.
  - exact (proj1 (tagger_links small_write 1 (Some "y"%string) 3 (Task None None 0 2) two_instances ltac:(lia) small_write_ok)).
  - exact (proj1 (tagger_links small_write 2 None 3 (Task None None 0 2) two_instances ltac:(lia) small_write_ok)).
Defined.
End example.
