(* ===== verification/Waker.v ===== *)
(** The waker (impl/com/waker.c): a process that maps a page of every worker of the daemon and
    sends a signal to the workers that sleep although events are pending. The build is the one
    with signals (no UINTR, no TSERV, no DEBUG).

    The nodes of the watch list are in a heap; a mapped page is shared, so that an address
    leads to a frame and the frame to its bytes. The file /proc/usmSleepers is the one of
    KernelModule: [poll] and [mmap] on it run the functions of the module. *)
From stdpp Require Import prelude gmap.
From S2P Require Import Prelude Lists State Channel KernelModule.

Open Scope Z_scope.

(** [struct usm_watch_list]; [None] is the null pointer. *)
Record usm_watch_list := Watch { com : Z; pid : Z; state : Z; next : option nat }.
Definition set_com v n := Watch v (pid n) (state n) (next n).
Definition set_pid v n := Watch (com n) v (state n) (next n).
Definition set_state v n := Watch (com n) (pid n) v (next n).
Definition set_next v n := Watch (com n) (pid n) (state n) v.

Record waker := Waker {
  nodes : gmap nat usm_watch_list;
  fresh : nat;
  maps : gmap Z Z;
  frames : gmap Z (list Z);
  signalled : list Z;
  module : kmod;
}.
Definition set_nodes v s := Waker v (fresh s) (maps s) (frames s) (signalled s) (module s).
Definition set_fresh v s := Waker (nodes s) v (maps s) (frames s) (signalled s) (module s).
Definition set_maps v s := Waker (nodes s) (fresh s) v (frames s) (signalled s) (module s).
Definition set_signalled v s := Waker (nodes s) (fresh s) (maps s) (frames s) v (module s).
Definition set_module v s := Waker (nodes s) (fresh s) (maps s) (frames s) (signalled s) v.

(** The static variable [usmMemWatchList]. *)
Definition usmMemWatchList : nat := 0.

Definition node_at (n : nat) : M waker usm_watch_list := reads (λ s, nodes s !! n).
Definition update_node (n : nat) (f : usm_watch_list → usm_watch_list) : M waker unit :=
  updates (λ s, x ← nodes s !! n; Some (set_nodes (<[n := f x]> (nodes s)) s)).

(** A read of [w] bytes through a pointer into a mapped page. *)
Definition deref (w : nat) (p : Z) : M waker Z :=
  reads (λ s, pfn ← maps s !! (p - p mod 4096); m ← frames s !! pfn; load w (p mod 4096) m).

Definition on_module {A} (m : M kmod A) : M waker A := λ s,
  match m (module s) with
  | Ok a k => Ok a (set_module k s)
  | Undef => Undef
  | Abort => Abort
  | OutOfFuel => OutOfFuel
  end.

(** The nodes [l] are linked from [t], and the last of them points to [e]. *)
Fixpoint segment (h : gmap nat usm_watch_list) (t : option nat) (l : list nat) (e : option nat) : Prop :=
  match l with
  | [] => t = e
  | n :: l => t = Some n ∧ ∃ x, h !! n = Some x ∧ segment h (next x) l e
  end.
Abbreviation linked h t l := (segment h t l None).

Section waker.
Context (virt_to_phys : Z → Z).

(** [mmap(NULL, SYS_PAGE_SIZE, ..., usmSleepersFd, 0)] at an address that the kernel has chosen;
    [None] is [MAP_FAILED]. *)
Definition mmap_sleeper (va : Z) (remapped : bool) : M waker (option Z) :=
  r ← on_module (usm_mmap_sleepers virt_to_phys (Vma va (va + 4096) 0) remapped);
  if r =? 0 then
    m ← gets (λ s, last (mappings (module s)));
    match m with
    | Some (_, pfn, _) => _ ← modify (λ s, set_maps (<[va := pfn]> (maps s)) s); mret (Some va)
    | None => mret None
    end
  else mret None.

Definition munmap (va : Z) : M waker unit := modify (λ s, set_maps (delete va (maps s)) s).

(** [sync: sailor->pid = ...; if (!sailor->pid) goto sync;]: without a pid the loop goes on forever. *)
Definition spin : M waker unit := λ _, OutOfFuel.
Definition sync (n : nat) : M waker unit :=
  x ← node_at n;
  v ← deref 4 (com x + 2048);
  _ ← update_node n (set_pid (s32 v));
  if s32 v =? 0 then spin else mret tt.

(** ** mapper *)

(** [while (sailor->next) sailor = sailor->next;] *)
Definition last_body (sailor : nat) : M waker (nat + nat) :=
  x ← node_at sailor;
  mret (match next x with Some n => inl n | None => inr sailor end).
Definition last_node : M waker nat := λ s, loop (S (size (nodes s))) last_body usmMemWatchList s.

(** The answer to POLLIN. [malloced] is what the memory that [malloc] returns has in the field
    [next], which is never written; [None] when it returns null. *)
Definition register_sleeper (malloced : option (option nat)) (va : Z) (remapped : bool) : M waker unit :=
  sailor ← last_node;
  match malloced with
  | None => _ ← update_node sailor (set_next None); undef
  | Some junk =>
      n ← gets fresh;
      _ ← modify (λ s, set_fresh (S n) (set_nodes (<[n := Watch 0 0 0 junk]> (nodes s)) s));
      _ ← update_node sailor (set_next (Some n));
      m ← mmap_sleeper va remapped;
      match m with
      | None => abort
      | Some p =>
          _ ← update_node n (set_com p);
          _ ← sync n;
          update_node n (set_state (p + 4092))
      end
  end.

(** The answer to POLLPRI. *)
Definition unregister_body (tempList : option nat) : M waker (option nat + unit) :=
  match tempList with
  | None => mret (inr tt)
  | Some t =>
      x ← node_at t;
      if decide (next x = None ∧ t = usmMemWatchList) then _ ← munmap (com x); abort
      else
        match next x with
        | None => undef
        | Some n =>
            y ← node_at n;
            mark ← deref 4 (com y + 3000);
            if negb (s32 mark =? 2) then mret (inl (Some n))
            else
              _ ← munmap (com y);
              _ ← update_node n (set_com 0);
              mret (inl (Some n))
        end
  end.
Definition unregister_sleepers : M waker unit := λ s, loop (S (S (size (nodes s)))) unregister_body (Some usmMemWatchList) s.

(** One round of [mapper]; when nothing has happened, [poll] goes on waiting. *)
Definition mapper_round (malloced : option (option nat)) (va : Z) (remapped : bool) : M waker unit :=
  revents ← on_module usm_poll_sleepers;
  if revents =? 0 then mret tt
  else if revents =? EPOLLIN then register_sleeper malloced va remapped
  else if revents =? EPOLLPRI then unregister_sleepers
  else abort.

(** ** main *)

(** [poll(pollfd, 1, -1)] for POLLIN: errors are reported too, anything else leaves the waker waiting. *)
Definition poll_in : M waker unit :=
  revents ← on_module usm_poll_sleepers;
  if (revents =? EPOLLIN) || (revents =? EPOLLERR) then mret tt else spin.

(** Up to the loop. *)
Definition waker_start (va : Z) (remapped : bool) : M waker unit :=
  r ← on_module waker_open;
  if negb (r =? 0) then abort
  else
    _ ← poll_in;
    m ← mmap_sleeper va remapped;
    match m with
    | None => abort
    | Some p =>
        _ ← update_node usmMemWatchList (set_com p);
        _ ← sync usmMemWatchList;
        _ ← update_node usmMemWatchList (set_state (p + 4092));
        update_node usmMemWatchList (set_next None)
    end.

Definition watch_body (tempList : option nat) : M waker (option nat + unit) :=
  match tempList with
  | None => mret (inr tt)
  | Some t =>
      x ← node_at t;
      awake ← deref 1 (state x);
      if negb (awake =? 0) then mret (inl (next x))
      else
        events ← deref 4 (com x);
        _ ← (if negb (events =? 0) then modify (λ s, set_signalled (signalled s ++ [pid x]) s) else mret tt);
        mret (inl (next x))
  end.

(** One pass over the watch list. *)
Definition watch_pass : M waker unit := λ s, loop (S (S (size (nodes s)))) watch_body (Some usmMemWatchList) s.

(** * The watch list *)

(** The page of the worker that a node watches. *)
Definition page_of (s : waker) (x : usm_watch_list) : option (list Z) := maps s !! com x ≫= λ pfn, frames s !! pfn.

(** The node has a page. *)
Definition watches (s : waker) (n : nat) : Prop :=
  ∃ x m, nodes s !! n = Some x ∧ page_of s x = Some m ∧ valid_page m ∧ com x mod 4096 = 0 ∧ state x = com x + 4092.

Definition watch_list (s : waker) (l : list nat) : Prop :=
  linked (nodes s) (Some usmMemWatchList) l ∧ NoDup l ∧ Forall (watches s) l.

(** A worker that sleeps although events are pending. *)
Definition overslept (s : waker) (n : nat) : bool :=
  match nodes s !! n ≫= page_of s with
  | Some m => match load 1 4092 m, load 4 0 m with
              | Some awake, Some events => (awake =? 0) && negb (events =? 0)
              | _, _ => false
              end
  | None => false
  end.
Definition pid_of (s : waker) (n : nat) : Z := default 0 (pid <$> nodes s !! n).

(** ** Nodes *)
Lemma linked_dom h t l e n : segment h t l e → n ∈ l → n ∈ dom h.
Proof.
  revert t. induction l as [|m l IH]; intros t; [by intros _ ?%elem_of_nil|]. intros (-> & x & Hx & Hl) [->|Hn]%elem_of_cons;
    [by eapply elem_of_dom_2|by eapply IH].
Qed.

Lemma linked_size h t l e : segment h t l e → NoDup l → (base.length l ≤ size h)%nat.
Proof.
  intros Hl Hnd. rewrite <- (size_list_to_set (C := gset nat) l Hnd), <- (size_dom h). apply subseteq_size.
  intros n Hn%elem_of_list_to_set. by eapply linked_dom.
Qed.

Lemma linked_frame h h' t l : linked h t l → (∀ n, n ∈ l → next <$> h' !! n = next <$> h !! n) → linked h' t l.
Proof.
  revert t. induction l as [|m l IH]; intros t; [done|]. intros (-> & x & Hx & Hl) Hn. split; [done|].
  pose proof (Hn m ltac:(by left)) as Hm. rewrite Hx in Hm. destruct (h' !! m) as [y|] eqn:Hy; [|done]. cbn in Hm. injection Hm as Hm.
  exists y. split; [done|]. rewrite Hm. apply IH; [done|]. intros n Hn'. apply Hn. by right.
Qed.

Lemma node_at_bind {B} n (f : usm_watch_list → M waker B) s x : nodes s !! n = Some x → (node_at n ≫= f) s = f x s.
Proof. intros H. unfold node_at. by rewrite (reads_bind _ _ _ x). Qed.

Lemma update_node_ok n f s x : nodes s !! n = Some x → update_node n f s = Ok tt (set_nodes (<[n := f x]> (nodes s)) s).
Proof. intros H. unfold update_node, updates. by rewrite H. Qed.

(** A read in the page of a node. *)
Lemma deref_page s x m w off v : page_of s x = Some m → com x mod 4096 = 0 → 0 ≤ off < 4096 → load w off m = Some v →
  deref w (com x + off) s = Ok v s.
Proof.
  unfold page_of. intros Hm Ha Ho Hv. unfold deref, reads. rewrite Z.add_mod, Ha, Z.add_0_l, Z.mod_mod, Z.mod_small by lia.
  replace (com x + off - off) with (com x) by lia. destruct (maps s !! com x) as [pfn|]; [|done]. cbn in Hm |- *. rewrite Hm. cbn. by rewrite Hv.
Qed.

(** ** Passes over the list *)
Lemma watch_body_ok s n x : nodes s !! n = Some x → watches s n →
  watch_body (Some n) s = Ok (inl (next x)) (set_signalled (signalled s ++ (pid_of s <$> filter (overslept s) [n])) s).
Proof.
  intros Hx (x' & m & Hx' & Hm & Hv & Ha & Hst). assert (x' = x) as -> by congruence.
  unfold watch_body. rewrite (node_at_bind _ _ _ x Hx).
  destruct (load_valid m Hv 1 4092) as (a & La & _); [lia|lia|]. destruct (load_valid m Hv 4 0) as (e & Le & _); [lia|lia|].
  rewrite Hst. run (deref_page s x m 1 4092 a Hm Ha ltac:(lia) La).
  assert (overslept s n = (a =? 0) && negb (e =? 0)) as Ho by (unfold overslept; rewrite Hx; cbn; by rewrite Hm, La, Le).
  assert (pid_of s n = pid x) as Hp by (unfold pid_of; by rewrite Hx).
  assert (set_signalled (signalled s ++ []) s = s) as Hs by (rewrite app_nil_r; by destruct s).
  rewrite filter_cons, filter_nil. destruct (a =? 0); cbn [negb].
  - pose proof (deref_page s x m 4 0 e Hm Ha ltac:(lia) Le) as E. rewrite Z.add_0_r in E. run E. destruct (e =? 0); cbn [negb].
    + rewrite ret_bind, decide_False by (rewrite Ho; intros []). cbn. by rewrite Hs.
    + rewrite modify_bind, decide_True by (by rewrite Ho). cbn. by rewrite Hp.
  - rewrite decide_False by (rewrite Ho; intros []). cbn. by rewrite Hs.
Qed.

Lemma watch_loop fuel : ∀ l t s, linked (nodes s) t l → Forall (watches s) l → (base.length l < fuel)%nat →
  loop fuel watch_body t s = Ok tt (set_signalled (signalled s ++ (pid_of s <$> filter (overslept s) l)) s).
Proof.
  induction fuel as [|fuel IH]; intros l t s Hl Hw Hf; [lia|]. rewrite loop_S. destruct l as [|n l].
  - cbn in Hl. rewrite Hl. cbn. rewrite app_nil_r. by destruct s.
  - destruct Hl as (-> & x & Hx & Hl). apply Forall_cons in Hw as [Hn Hw]. run (watch_body_ok s n x Hx Hn).
    etrans; [apply (IH l); [done|done|cbn in Hf; lia]|].
    change (n :: l) with ([n] ++ l). by rewrite filter_app, fmap_app, app_assoc.
Qed.

(** A pass that comes to a node that is no memory of the waker. *)
Lemma watch_loop_wild fuel k : ∀ l t s, segment (nodes s) t l (Some k) → nodes s !! k = None → Forall (watches s) l →
  (base.length l < fuel)%nat → loop fuel watch_body t s = Undef.
Proof.
  induction fuel as [|fuel IH]; intros l t s Hl Hk Hw Hf; [lia|]. rewrite loop_S. destruct l as [|n l].
  - cbn in Hl. subst t. apply bind_undef. unfold watch_body. apply bind_undef. unfold node_at, reads. by rewrite Hk.
  - destruct Hl as (-> & x & Hx & Hl). apply Forall_cons in Hw as [Hn Hw]. run (watch_body_ok s n x Hx Hn).
    apply (IH l); [done|done|done|cbn in Hf; lia].
Qed.

Lemma watch_pass_ok s l : watch_list s l →
  watch_pass s = Ok tt (set_signalled (signalled s ++ (pid_of s <$> filter (overslept s) l)) s).
Proof.
  intros (Hl & Hnd & Hw). apply watch_loop; [done|done|]. pose proof (linked_size _ _ _ _ Hl Hnd). lia.
Qed.

(** ** Workers that have gone *)
Lemma unregister_loop fuel : ∀ l t s, linked (nodes s) (Some t) (t :: l) → (base.length l < fuel)%nat →
  loop fuel unregister_body (Some t) s = Undef ∨ loop fuel unregister_body (Some t) s = Abort.
Proof.
  induction fuel as [|fuel IH]; intros l t s (_ & x & Hx & Hl) Hf; [lia|]. rewrite loop_S. unfold unregister_body at 2 4.
  rewrite bind_assoc, (node_at_bind _ _ _ x Hx). destruct (decide _) as [_|Hne]; [by right|].
  destruct l as [|n l]; [rewrite Hl in *; by left|]. pose proof Hl as (Hn & y & Hy & Hl'). rewrite Hn, bind_assoc, (node_at_bind _ _ _ y Hy).
  destruct (deref 4 (com y + 3000) s) as [mark s1| | |] eqn:E; [|rewrite bind_assoc; unfold mbind, M_bind; rewrite E; by auto..|].
  - assert (s1 = s) as -> by (unfold deref, reads in E; destruct (_ ≫= _); by simplify_eq).
    rewrite bind_assoc. run E. rewrite Hn in Hl. destruct (negb (s32 mark =? 2)); [apply (IH l n s); [done|cbn in Hf; lia]|].
    unfold munmap. rewrite bind_assoc, modify_bind, bind_assoc.
    run (update_node_ok n (set_com 0) (set_maps (delete (com y) (maps s)) s) y Hy). rewrite ret_bind.
    apply (IH l n); [|cbn in Hf; lia]. apply (linked_frame (nodes s)); [done|]. intros k _. cbn.
    destruct (decide (k = n)) as [->|]; [by rewrite lookup_insert_eq, Hy|by rewrite lookup_insert_ne].
  - exfalso. unfold deref, reads in E. by destruct (_ ≫= _).
Qed.

(** ** New workers *)
Lemma last_loop fuel : ∀ l t z s, linked (nodes s) (Some t) (l ++ [z]) → (base.length l < fuel)%nat → loop fuel last_body t s = Ok z s.
Proof.
  induction fuel as [|fuel IH]; intros l t z s Hl Hf; [lia|]. rewrite loop_S. unfold last_body at 2. destruct l as [|n l]; destruct Hl as (Ht & x & Hx & Hl).
  - injection Ht as ->. rewrite bind_assoc, (node_at_bind _ _ _ x Hx). cbn in Hl. by rewrite Hl.
  - injection Ht as ->. rewrite bind_assoc, (node_at_bind _ _ _ x Hx), ret_bind.
    assert (∃ k, next x = Some k) as [k Hk] by (destruct l; destruct Hl as [-> _]; by eexists). rewrite Hk in Hl |- *.
    apply (IH l); [done|cbn in Hf; lia].
Qed.

(** The frame of a worker whose page is at the kernel address [c], and its process. *)
Definition frame_of (c : Z) : Z := u64 (PFN_DOWN (virt_to_phys c) + 0).
Definition page_pid (m : list Z) : Z := s32 (default 0 (load 4 2048 m)).

Lemma mmap_sleeper_ok s c q va : sleepers_map (module s) = c :: q →
  ∃ k, mmap_sleeper va true s = Ok (Some va) (set_maps (<[va := frame_of c]> (maps s)) (set_module k s)) ∧
    sleepers_map k = q ∧ usm_list k = usm_list (module s) ∧ unmap_sleepers k = unmap_sleepers (module s).
Proof.
  intros Hq.
  set (k := set_mapped_sleepers (mapped_sleepers (module s) + 1)
    (set_mappings (mappings (module s) ++ [(va, frame_of c, vm_size (Vma va (va + 4096) 0))]) (set_sleepers_map q (module s)))).
  exists k. split; [|done].
  assert (on_module (usm_mmap_sleepers virt_to_phys (Vma va (va + 4096) 0) true) s = Ok 0 (set_module k s)) as E.
  { unfold on_module, usm_mmap_sleepers, remap_pfn_range, mbind, M_bind, gets, modify. cbn. by rewrite Hq. }
  unfold mmap_sleeper. run E. cbn [Z.eqb]. rewrite gets_bind. cbn [module set_module mappings k set_mapped_sleepers set_mappings].
  by rewrite last_snoc.
Qed.

Lemma sync_ok s n x m : nodes s !! n = Some x → page_of s x = Some m → com x mod 4096 = 0 → valid_page m → page_pid m ≠ 0 →
  sync n s = Ok tt (set_nodes (<[n := set_pid (page_pid m) x]> (nodes s)) s).
Proof.
  intros Hx Hm Ha Hv Hp. unfold sync. rewrite (node_at_bind _ _ _ x Hx). destruct (load_valid m Hv 4 2048) as (v & Lv & _); [lia|lia|].
  run (deref_page s x m 4 2048 v Hm Ha ltac:(lia) Lv). unfold page_pid in Hp |- *. rewrite Lv in Hp |- *. cbn [default from_option id] in *.
  run (update_node_ok n (set_pid (s32 v)) s x Hx). by rewrite (proj2 (Z.eqb_neq _ _) Hp).
Qed.

Definition fresh_ok (s : waker) : Prop := ∀ n, n ∈ dom (nodes s) → (n < fresh s)%nat.

(** What registering the worker at [c] leaves: [z] was the last node. *)
Definition registered (s : waker) (z : nat) (c va : Z) (m : list Z) (junk : option nat) (s' : waker) : Prop :=
  (∃ zx, nodes s !! z = Some zx ∧
     nodes s' = <[fresh s := Watch va (page_pid m) (va + 4092) junk]> (<[z := set_next (Some (fresh s)) zx]> (nodes s))) ∧
  fresh s' = S (fresh s) ∧ maps s' = <[va := frame_of c]> (maps s) ∧ frames s' = frames s ∧ signalled s' = signalled s ∧
  usm_list (module s') = usm_list (module s) ∧ unmap_sleepers (module s') = unmap_sleepers (module s).

Lemma register_sleeper_ok s l z c q va m junk : linked (nodes s) (Some usmMemWatchList) (l ++ [z]) → NoDup (l ++ [z]) → fresh_ok s →
  sleepers_map (module s) = c :: q → frames s !! frame_of c = Some m → valid_page m → page_pid m ≠ 0 → va mod 4096 = 0 →
  ∃ s', register_sleeper (Some junk) va true s = Ok tt s' ∧ sleepers_map (module s') = q ∧ registered s z c va m junk s'.
Proof.
  intros Hl Hnd Hf Hq Hm Hv Hp Ha. unfold register_sleeper.
  pose proof (linked_size _ _ _ _ Hl Hnd) as Hsz. rewrite length_app in Hsz. cbn in Hsz.
  assert (last_node s = Ok z s) as El by (apply (last_loop _ l); [done|lia]). run El. rewrite gets_bind, modify_bind.
  assert (∃ zx, nodes s !! z = Some zx) as [zx Hz] by (apply elem_of_dom; eapply linked_dom; [done|]; set_solver).
  assert (z < fresh s)%nat as Hzf by (apply Hf; by eapply elem_of_dom_2).
  set (s1 := set_fresh _ _). assert (nodes s1 !! z = Some zx) as Hz1 by (cbn; rewrite lookup_insert_ne by lia; done).
  run (update_node_ok z (set_next (Some (fresh s))) s1 zx Hz1). set (s2 := set_nodes _ _).
  destruct (mmap_sleeper_ok s2 c q va Hq) as (k & E & Hk & Hu & Hun). run E. set (s3 := set_maps _ _).
  assert (nodes s3 !! fresh s = Some (Watch 0 0 0 junk)) as Hn3 by (cbn; by rewrite lookup_insert_ne, lookup_insert_eq by lia).
  run (update_node_ok (fresh s) (set_com va) s3 _ Hn3). set (s4 := set_nodes _ _).
  assert (nodes s4 !! fresh s = Some (Watch va 0 0 junk)) as Hn4 by apply lookup_insert_eq.
  assert (page_of s4 (Watch va 0 0 junk) = Some m) as Hm4 by (unfold page_of; cbn; by rewrite lookup_insert_eq).
  run (sync_ok s4 (fresh s) _ m Hn4 Hm4 Ha Hv Hp). set (s5 := set_nodes _ _).
  assert (nodes s5 !! fresh s = Some (Watch va (page_pid m) 0 junk)) as Hn5 by apply lookup_insert_eq.
  eexists. split; [exact (update_node_ok (fresh s) (set_state (va + 4092)) s5 _ Hn5)|]. split; [done|].
  split; [|done]. exists zx. split; [done|]. cbn. rewrite !insert_insert_eq, (insert_insert_ne _ z) by lia. by rewrite insert_insert_eq.
Qed.

Lemma linked_snoc h t l z zx f y : linked h t (l ++ [z]) → NoDup (l ++ [z]) → f ∉ l ++ [z] → h !! z = Some zx →
  segment (<[f := y]> (<[z := set_next (Some f) zx]> h)) t ((l ++ [z]) ++ [f]) (next y).
Proof.
  intros Hl Hnd Hf Hz. rewrite <- app_assoc. cbn [app]. revert t Hl. induction l as [|n l IH]; intros t (-> & x & Hx & Hl).
  - cbn [app]. split; [done|]. exists (set_next (Some f) zx). rewrite lookup_insert_ne, lookup_insert_eq by set_solver.
    split; [done|]. split; [done|]. exists y. by rewrite lookup_insert_eq.
  - cbn [app] in *. apply NoDup_cons in Hnd as [Hn Hnd]. split; [done|]. exists x. rewrite !lookup_insert_ne by set_solver.
    split; [done|]. apply IH; [done|set_solver|done].
Qed.

(** What a pass makes of a page. *)
Definition wanted (m : list Z) : bool :=
  match load 1 4092 m, load 4 0 m with
  | Some awake, Some events => (awake =? 0) && negb (events =? 0)
  | _, _ => false
  end.

Lemma registered_node s z c va m junk s' n x : registered s z c va m junk s' → maps s !! va = None → (n < fresh s)%nat →
  nodes s !! n = Some x → ∀ m', page_of s x = Some m' →
  ∃ x', nodes s' !! n = Some x' ∧ page_of s' x' = Some m' ∧ com x' = com x ∧ pid x' = pid x ∧ state x' = state x.
Proof.
  intros ((zx & Hz & Hn') & _ & Hm' & Hf' & _) Hva Hn Hx m' Hm. exists (if decide (n = z) then set_next (Some (fresh s)) x else x).
  assert (com x ≠ va) as Hne by (intros <-; unfold page_of in Hm; by rewrite Hva in Hm).
  split; [|split; [|by destruct (decide (n = z))]].
  - rewrite Hn', lookup_insert_ne by lia. destruct (decide (n = z)) as [->|]; [|by rewrite lookup_insert_ne].
    rewrite lookup_insert_eq. congruence.
  - unfold page_of in *. rewrite Hm', Hf'. destruct (decide (n = z)); cbn; by rewrite lookup_insert_ne.
Qed.

Lemma registered_list s l z c va m junk s' : watch_list s (l ++ [z]) → fresh_ok s → registered s z c va m junk s' → maps s !! va = None →
  frames s !! frame_of c = Some m → valid_page m → va mod 4096 = 0 →
  segment (nodes s') (Some usmMemWatchList) ((l ++ [z]) ++ [fresh s]) junk ∧ NoDup ((l ++ [z]) ++ [fresh s]) ∧
  Forall (watches s') ((l ++ [z]) ++ [fresh s]) ∧ fresh_ok s' ∧
  (∀ n, n ∈ l ++ [z] → overslept s' n = overslept s n ∧ pid_of s' n = pid_of s n) ∧
  overslept s' (fresh s) = wanted m ∧ pid_of s' (fresh s) = page_pid m.
Proof.
  intros (Hl & Hnd & Hw) Hf Hreg Hva Hm Hv Ha. pose proof Hreg as ((zx & Hz & Hn') & Hfr & Hm' & Hf' & _).
  assert (∀ n, n ∈ l ++ [z] → (n < fresh s)%nat) as Hlt by (intros n Hn; apply Hf; by eapply linked_dom).
  assert (fresh s ∉ l ++ [z]) as Hnew by (intros Hin%Hlt; lia).
  assert (nodes s' !! fresh s = Some (Watch va (page_pid m) (va + 4092) junk)) as Hlast by (rewrite Hn'; apply lookup_insert_eq).
  assert (page_of s' (Watch va (page_pid m) (va + 4092) junk) = Some m) as Hpage.
  { unfold page_of. rewrite Hm', Hf'. cbn. by rewrite lookup_insert_eq. }
  assert (∀ n, n ∈ l ++ [z] → watches s' n ∧ overslept s' n = overslept s n ∧ pid_of s' n = pid_of s n) as Hold.
  { intros n Hn. pose proof (proj1 (Forall_forall _ _) Hw n Hn) as (x & m0 & Hx & Hm0 & Hv0 & Ha0 & Hst).
    destruct (registered_node s z c va m junk s' n x Hreg Hva (Hlt n Hn) Hx m0 Hm0) as (x' & Hx' & Hm0' & Hc & Hpd & Hs').
    split; [exists x', m0; by rewrite Hc, Hs'|]. unfold overslept, pid_of. rewrite Hx, Hx'. cbn. by rewrite Hm0, Hm0', Hpd. }
  split; [|split; [|split; [|split; [|split; [|split]]]]].
  - rewrite Hn'. exact (linked_snoc _ _ _ _ _ _ (Watch va (page_pid m) (va + 4092) junk) Hl Hnd Hnew Hz).
  - apply NoDup_app. split; [done|]. split; [|apply NoDup_singleton]. intros n Hn ->%list_elem_of_singleton. done.
  - apply Forall_app. split; [apply Forall_forall; intros n Hn; by apply Hold|]. apply Forall_singleton. by eexists _, m.
  - intros n. rewrite Hn', !dom_insert_L, Hfr, !elem_of_union, !elem_of_singleton. intros [->|[->|Hn%Hf]]; [lia| |lia].
    specialize (Hlt z). set_solver by lia.
  - intros n Hn. by apply Hold.
  - unfold overslept. rewrite Hlast. cbn. by rewrite Hpage.
  - unfold pid_of. by rewrite Hlast.
Qed.

(** What the environment answers in a round: what [malloc] returns, the address at which [mmap]
    maps, and whether the module can remap the page there. *)
Definition answer : Type := option (option nat) * Z * bool.

Fixpoint mapper_rounds (env : list answer) : M waker unit :=
  match env with
  | [] => mret tt
  | (malloced, va, remapped) :: env => _ ← mapper_round malloced va remapped; mapper_rounds env
  end.

Lemma mapper_poll_in s c q malloced va remapped : usm_list (module s) ≠ [] → unmap_sleepers (module s) = 0 →
  sleepers_map (module s) = c :: q → mapper_round malloced va remapped s = register_sleeper malloced va remapped s.
Proof.
  intros Hu Hun Hq. unfold mapper_round.
  assert (on_module usm_poll_sleepers s = Ok EPOLLIN s) as E.
  { unfold on_module, usm_poll_sleepers. rewrite gets_bind. destruct (usm_list (module s)); [done|].
    rewrite gets_bind, Hun. cbn [negb Z.eqb]. rewrite gets_bind, Hq. by destruct s. }
  by run E.
Qed.

Lemma mapper_round_in s l z c q va m junk : linked (nodes s) (Some usmMemWatchList) (l ++ [z]) → NoDup (l ++ [z]) → fresh_ok s →
  usm_list (module s) ≠ [] → unmap_sleepers (module s) = 0 →
  sleepers_map (module s) = c :: q → frames s !! frame_of c = Some m → valid_page m → page_pid m ≠ 0 → va mod 4096 = 0 →
  ∃ s', mapper_round (Some junk) va true s = Ok tt s' ∧ sleepers_map (module s') = q ∧ registered s z c va m junk s'.
Proof.
  intros Hl Hnd Hf Hu Hun Hq Hm Hv Hp Ha. rewrite (mapper_poll_in s c q) by done. by apply (register_sleeper_ok s l z c q va m).
Qed.

(** The round when memory or the mapping is refused. *)
Lemma mapper_round_refused s l malloced va remapped : linked (nodes s) (Some usmMemWatchList) l → NoDup l → l ≠ [] → fresh_ok s →
  usm_list (module s) ≠ [] → unmap_sleepers (module s) = 0 → sleepers_map (module s) ≠ [] →
  (malloced = None → mapper_round malloced va remapped s = Undef) ∧
  (∀ junk, malloced = Some junk → remapped = false → mapper_round malloced va remapped s = Abort).
Proof.
  intros Hl Hnd Hne Hf Hu Hun Hq. destruct (sleepers_map (module s)) as [|c q] eqn:Eq; [done|].
  destruct l as [|z l _] using rev_ind; [done|]. rewrite (mapper_poll_in s c q) by done. unfold register_sleeper.
  pose proof (linked_size _ _ _ _ Hl Hnd) as Hsz. rewrite length_app in Hsz. cbn in Hsz.
  assert (last_node s = Ok z s) as El by (apply (last_loop _ l); [done|lia]). run El.
  assert (∃ zx, nodes s !! z = Some zx) as [zx Hz] by (apply elem_of_dom; eapply linked_dom; [done|]; set_solver).
  assert (z < fresh s)%nat as Hzf by (apply Hf; by eapply elem_of_dom_2). split.
  - intros ->. by run (update_node_ok z (set_next None) s zx Hz).
  - intros junk -> ->. rewrite gets_bind, modify_bind. set (s1 := set_fresh _ _).
    assert (nodes s1 !! z = Some zx) as Hz1 by (cbn; rewrite lookup_insert_ne by lia; done).
    run (update_node_ok z (set_next (Some (fresh s))) s1 zx Hz1).
    unfold mmap_sleeper, on_module, usm_mmap_sleepers, remap_pfn_range, mbind, M_bind, gets, modify. cbn. by rewrite Eq.
Qed.

(** The pids that a pass would signal. *)
Definition calls (s : waker) (l : list nat) : list Z := pid_of s <$> filter (overslept s) l.

Lemma calls_same s s' l : (∀ n, n ∈ l → overslept s' n = overslept s n ∧ pid_of s' n = pid_of s n) → calls s' l = calls s l.
Proof.
  unfold calls. induction l as [|n l IH]; intros H; [done|]. destruct (H n ltac:(by left)) as [Ho Hp].
  rewrite !filter_cons, Ho. destruct (decide (overslept s n)); rewrite ?fmap_cons, ?Hp, IH; [done|set_solver|done|set_solver].
Qed.

Lemma calls_snoc s s' l n m : (∀ n, n ∈ l → overslept s' n = overslept s n ∧ pid_of s' n = pid_of s n) →
  overslept s' n = wanted m → pid_of s' n = page_pid m → calls s' (l ++ [n]) = calls s l ++ (page_pid <$> filter wanted [m]).
Proof.
  intros Hold Ho Hp. rewrite <- (calls_same s s' l Hold). unfold calls. rewrite filter_app, fmap_app. f_equal.
  rewrite !filter_cons, Ho. destruct (decide (wanted m)); cbn; by rewrite ?Hp.
Qed.

(** The page of the worker at [c]. *)
Definition sleeper (s : waker) (c : Z) (m : list Z) : Prop := frames s !! frame_of c = Some m ∧ valid_page m ∧ page_pid m ≠ 0.

(** What the rounds need of the environment: the memory of [malloc] happens to hold a null pointer
    in [next], [mmap] chooses free page addresses, the remap succeeds. *)
Definition obliging (s : waker) (a : answer) : Prop :=
  a.1.1 = Some None ∧ a.2 = true ∧ a.1.2 mod 4096 = 0 ∧ maps s !! a.1.2 = None.

Lemma mapper_rounds_ok env : ∀ s l cs ms rest, watch_list s l → l ≠ [] → fresh_ok s → usm_list (module s) ≠ [] →
  unmap_sleepers (module s) = 0 → sleepers_map (module s) = cs ++ rest → Forall2 (sleeper s) cs ms → base.length env = base.length cs →
  NoDup (env.*1.*2) → Forall (obliging s) env →
  ∃ s' l', mapper_rounds env s = Ok tt s' ∧ sleepers_map (module s') = rest ∧ signalled s' = signalled s ∧ watch_list s' l' ∧
    calls s' l' = calls s l ++ (page_pid <$> filter wanted ms).
Proof.
  induction env as [|[[ml va] rm] env IH]; intros s l cs ms rest Hl Hne Hf Hu Hun Hq Hms Hlen Hnd Hva.
  - destruct cs; [|done]. apply Forall2_nil_inv_l in Hms as ->. exists s, l. split; [done|]. split; [done|]. split; [done|]. split; [done|].
    cbn. by rewrite app_nil_r.
  - destruct cs as [|c cs]; [done|]. apply Forall2_cons_inv_l in Hms as (m & ms' & (Hm & Hv & Hp) & Hms & ->).
    apply NoDup_cons in Hnd as [Hnva Hnd]. apply Forall_cons in Hva as [(Hml & Hrm & Ha & Hmap) Hva]. cbn in Hml, Hrm, Ha, Hmap, Hnva. subst ml rm.
    destruct l as [|z l _] using rev_ind; [done|]. pose proof Hl as (Hlk & Hndl & _).
    destruct (mapper_round_in s l z c (cs ++ rest) va m None Hlk Hndl Hf Hu Hun Hq Hm Hv Hp Ha) as (s1 & E1 & Hq1 & Hreg).
    destruct (registered_list s l z c va m None s1 Hl Hf Hreg Hmap Hm Hv Ha) as (Hlk1 & Hnd1 & Hw1 & Hf1 & Hold & Ho & Hpd).
    pose proof Hreg as (_ & _ & Hm1 & Hfr1 & Hs1 & Hu1 & Hun1).
    destruct (IH s1 ((l ++ [z]) ++ [fresh s]) cs ms' rest) as (s' & l' & E' & Hq' & Hs' & Hl' & Hc'); [done|by destruct l|done|by rewrite Hu1|by rewrite Hun1|done| |by injection Hlen|done| |].
    { eapply Forall2_impl; [exact Hms|]. unfold sleeper. by rewrite Hfr1. }
    { apply Forall_forall. intros v Hv'. rewrite Forall_forall in Hva. destruct (Hva v Hv') as (? & ? & ? & ?). split_and!; [done..|].
      rewrite Hm1, lookup_insert_ne; [done|]. intros ->. apply Hnva. by apply list_elem_of_fmap_2, list_elem_of_fmap_2. }
    exists s', l'. cbn [mapper_rounds]. run E1. split; [done|]. split; [done|]. split; [congruence|]. split; [done|].
    rewrite Hc', (calls_snoc s s1 _ _ m) by done. rewrite <- app_assoc, <- fmap_app, <- filter_app. done.
Qed.


(** The mapper never survives the end of a worker: when the module reports one, the
    round ends in [abort] or in a null pointer, for every watch list. *)
Theorem unregister_never_returns s l malloced va remapped : linked (nodes s) (Some usmMemWatchList) l → NoDup l →
  usm_list (module s) ≠ [] → unmap_sleepers (module s) ≠ 0 →
  mapper_round malloced va remapped s = Undef ∨ mapper_round malloced va remapped s = Abort.
Proof.
  intros Hl Hnd Hu Hun. unfold mapper_round. set (s1 := set_module (set_unmap_sleepers 0 (module s)) s).
  assert (on_module usm_poll_sleepers s = Ok EPOLLPRI s1) as E.
  { unfold on_module, usm_poll_sleepers. rewrite gets_bind. destruct (usm_list (module s)); [done|].
    rewrite gets_bind. by rewrite (proj2 (Z.eqb_neq _ _) Hun). }
  run E. pose proof (linked_size _ _ _ _ Hl Hnd) as Hsz. destruct l as [|t l]; [done|]. pose proof Hl as [[= <-] _].
  apply (unregister_loop _ l); [done|]. cbn in Hsz |- *. lia.
Qed.

(** The start of the waker establishes the watch list with the first worker. *)
Lemma waker_start_ok s x c q va m : nodes s = {[usmMemWatchList := x]} → fresh s = 1%nat → waker_state (module s) = 0 →
  unmap_sleepers (module s) = 0 →
  sleepers_map (module s) = c :: q → sleeper s c m → va mod 4096 = 0 →
  ∃ s', waker_start va true s = Ok tt s' ∧ watch_list s' [usmMemWatchList] ∧ fresh_ok s' ∧ sleepers_map (module s') = q ∧
    pid_of s' usmMemWatchList = page_pid m.
Proof.
  intros Hn Hf Hw Hun Hq (Hm & Hv & Hp) Ha. unfold waker_start.
  set (s1 := set_module (set_waker_state 1 (module s)) s).
  assert (on_module waker_open s = Ok 0 s1) as E1 by (unfold on_module, waker_open; rewrite gets_bind, Hw; done).
  run E1. cbn [Z.eqb negb].
  assert (poll_in s1 = Ok tt s1) as Ep.
  { unfold poll_in, on_module, usm_poll_sleepers. unfold mbind, M_bind, gets, s1. cbn.
    destruct (usm_list (module s)); cbn; [done|]. rewrite Hun; cbn. by rewrite Hq. }
  run Ep. destruct (mmap_sleeper_ok s1 c q va Hq) as (k & E2 & Hk & _). run E2. set (s2 := set_maps _ _).
  assert (nodes s2 !! usmMemWatchList = Some x) as Hx by (cbn; rewrite Hn; apply lookup_singleton_eq).
  run (update_node_ok usmMemWatchList (set_com va) s2 x Hx). set (s3 := set_nodes _ _).
  assert (nodes s3 !! usmMemWatchList = Some (set_com va x)) as Hx3 by apply lookup_insert_eq.
  assert (page_of s3 (set_com va x) = Some m) as Hm3 by (unfold page_of; cbn; by rewrite lookup_insert_eq).
  run (sync_ok s3 _ _ m Hx3 Hm3 Ha Hv Hp). set (s4 := set_nodes _ _).
  assert (nodes s4 !! usmMemWatchList = Some (set_pid (page_pid m) (set_com va x))) as Hx4 by apply lookup_insert_eq.
  run (update_node_ok _ (set_state (va + 4092)) s4 _ Hx4). set (s5 := set_nodes _ _).
  assert (nodes s5 !! usmMemWatchList = Some (set_state (va + 4092) (set_pid (page_pid m) (set_com va x)))) as Hx5 by apply lookup_insert_eq.
  eexists. split; [exact (update_node_ok _ (set_next None) s5 _ Hx5)|]. split; [split; [|split; [apply NoDup_singleton|apply Forall_singleton]]|split; [|split; [done|]]].
  - split; [done|]. eexists. split; [apply lookup_insert_eq|]. done.
  - eexists _, m. split; [apply lookup_insert_eq|]. unfold page_of. cbn. by rewrite lookup_insert_eq.
  - intros n. cbn. rewrite Hn, !dom_insert_L, dom_singleton_L, Hf. set_unfold. unfold usmMemWatchList. lia.
  - unfold pid_of. cbn. by rewrite lookup_insert_eq.
Qed.
End waker.

(** * Two workers *)
Section example.
Definition demo_page (events p : Z) : list Z := <[2048%nat := p]> (<[0%nat := events]> (replicate 4096 0)).
Definition demo_waker : waker :=
  Waker {[0%nat := Watch 8192 5 12284 None]} 1 {[8192 := 9]} {[9 := demo_page 1 5; 1 := demo_page 2 7]} [] demo_kmod.

Lemma demo_page_valid events p : 0 ≤ events < 256 → 0 ≤ p < 256 → valid_page (demo_page events p).
Proof.
  intros He Hp. unfold demo_page. split; [by rewrite !length_insert, length_replicate|].
  apply Forall_insert; [apply Forall_insert; [apply Forall_replicate; unfold is_byte; lia|done]|done].
Qed.

Lemma demo_watch_list : watch_list demo_waker [usmMemWatchList].
Proof.
  split; [|split; [apply NoDup_singleton|apply Forall_singleton]].
  - split; [done|]. eexists. split; [reflexivity|]. done.
  - eexists _, (demo_page 1 5). split; [reflexivity|]. split; [reflexivity|]. split; [apply demo_page_valid; lia|]. done.
Qed.


Lemma unregister_never_returns_witness : let s := set_module (set_unmap_sleepers 1 demo_kmod) demo_waker in
  mapper_round id None 0 false s = Undef ∨ mapper_round id None 0 false s = Abort.
Proof.
  apply (unregister_never_returns id _ [usmMemWatchList]); [exact (proj1 demo_watch_list)|apply NoDup_singleton|discriminate|discriminate].
Defined.
End example.
