(* ===== verification/WakerUintr.v ===== *)
(** The waker with user interrupts (impl/com/waker.c with UINTR, and with TSERV for the time server)
    and the start of a worker that goes with it (impl/usm/sched.c).

    The waker has a table of the receivers of its interrupts: uintr_register_sender enters a
    descriptor at the next index, and senduipi names an index. The descriptors come from the
    class [PidfdOs]. *)
From stdpp Require Import prelude gmap.
From S2P Require Import Prelude Lists State Channel KernelModule Waker.

Open Scope Z_scope.

Class PidfdOs := {
  pidfd_open : Z → Z;
  pidfd_getfd : Z → Z → Z;
  register_sender : Z → bool;
}.

(** * The start of a worker *)

(** setSched and, always with both vectors, soldiers: what the calls return is written to the page
    that the worker shares with the waker. *)
Definition uintr_worker_start (tserv : bool) (registered fd0 fd1 pid : Z) : M (list Z) unit :=
  if registered <? 0 then abort
  else if fd0 <? 0 then abort
  else
    _ ← updates (store 4 (2048 + 4) fd0);
    _ ← (if tserv then if fd1 <? 0 then abort else updates (store 4 (2048 + 4 + 4) fd1) else mret tt);
    updates (store 4 2048 pid).

Definition soldiers_start (registered fd0 fd1 pid : Z) : M (list Z) unit := uintr_worker_start true registered fd0 fd1 pid.

(** * The waker *)
Record uwaker := UWaker { wk : waker; uitt : list Z; sent : list Z }.

Definition on_wk {A} (m : M waker A) : M uwaker A := λ s,
  match m (wk s) with
  | Ok a w => Ok a (UWaker w (uitt s) (sent s))
  | Undef => Undef
  | Abort => Abort
  | OutOfFuel => OutOfFuel
  end.

Definition set_frames v s := Waker (nodes s) (fresh s) (maps s) v (signalled s) (module s).

(** A write of [w] bytes through a pointer into a mapped page. *)
Definition poke (w : nat) (p v : Z) : M waker unit :=
  updates (λ s, pfn ← maps s !! (p - p mod 4096); m ← frames s !! pfn; m' ← store w (p mod 4096) v m;
                Some (set_frames (<[pfn := m']> (frames s)) s)).

(** [ltime - *dtime >= tme] *)
Definition dpreempt (ltime dtime tme : Z) : bool := tme <=? u64 (ltime - dtime).

Section uintr.
Context `{PO : PidfdOs} (virt_to_phys : Z → Z).
(** Whether TSERV is defined, the ticks that the waker is started with, and the clock when a node is
    visited. *)
Context (TSERV : bool) (tme : Z) (now : nat → Z).

Definition uintr_register_sender (fd : Z) : M uwaker unit :=
  if register_sender fd then modify (λ s, UWaker (wk s) (uitt s ++ [fd]) (sent s)) else abort.
Definition senduipi (i : nat) : M uwaker unit :=
  updates (λ s, fd ← uitt s !! i; Some (UWaker (wk s) (uitt s) (sent s ++ [fd]))).

(** The part of mapper and of main for UINTR; [timer] is not used again. *)
Definition link_uintr (n : nat) : M uwaker unit :=
  x ← on_wk (node_at n);
  let p := pidfd_open (pid x) in
  _ ← on_wk (update_node n (set_pid p));
  if p =? -1 then abort
  else
    timer ← (if TSERV then
               v ← on_wk (deref 4 (com x + (2048 + 4 * 2)));
               let t := pidfd_getfd p (s32 v) in
               if t =? -1 then abort else mret t
             else mret 0);
    v ← on_wk (deref 4 (com x + (2048 + 4)));
    let f := pidfd_getfd p (s32 v) in
    _ ← on_wk (update_node n (set_pid f));
    if f =? -1 then abort
    else
      _ ← (if TSERV then uintr_register_sender timer else mret tt);
      _ ← uintr_register_sender f;
      on_wk (poke 4 (com x) 0).

Definition register_sleeper_uintr (malloced : option (option nat)) (va : Z) (remapped : bool) : M uwaker unit :=
  sailor ← on_wk last_node;
  match malloced with
  | None => _ ← on_wk (update_node sailor (set_next None)); undef
  | Some junk =>
      n ← on_wk (gets fresh);
      _ ← on_wk (modify (λ s, set_fresh (S n) (set_nodes (<[n := Watch 0 0 0 junk]> (nodes s)) s)));
      _ ← on_wk (update_node sailor (set_next (Some n)));
      m ← on_wk (mmap_sleeper virt_to_phys va remapped);
      match m with
      | None => abort
      | Some p =>
          _ ← on_wk (update_node n (set_com p));
          _ ← on_wk (sync n);
          _ ← link_uintr n;
          on_wk (update_node n (set_state (p + 4092)))
      end
  end.

Definition waker_start_uintr (va : Z) (remapped : bool) : M uwaker unit :=
  r ← on_wk (on_module waker_open);
  if negb (r =? 0) then abort
  else
    _ ← on_wk poll_in;
    m ← on_wk (mmap_sleeper virt_to_phys va remapped);
    match m with
    | None => abort
    | Some p =>
        _ ← on_wk (update_node usmMemWatchList (set_com p));
        _ ← on_wk (sync usmMemWatchList);
        _ ← link_uintr usmMemWatchList;
        _ ← on_wk (update_node usmMemWatchList (set_state (p + 4092)));
        on_wk (update_node usmMemWatchList (set_next None))
    end.

(** [tempList->com] points to unsigned int: what is added to it counts words. *)
Definition watch_body_uintr (tempList : option nat) : M uwaker (option nat + unit) :=
  match tempList with
  | None => mret (inr tt)
  | Some t =>
      x ← on_wk (node_at t);
      awake ← on_wk (deref 1 (state x));
      if negb (awake =? 0) then
        _ ← (if TSERV then
               dtime ← on_wk (deref 8 (com x + 4 * (3000 + 4 * 2)));
               if dpreempt (now t) dtime tme then senduipi 1 else mret tt
             else mret tt);
        mret (inl (next x))
      else
        events ← on_wk (deref 4 (com x));
        _ ← (if negb (events =? 0) then senduipi 0 else mret tt);
        mret (inl (next x))
  end.

Definition watch_pass_uintr : M uwaker unit := λ s, loop (S (S (size (nodes (wk s))))) watch_body_uintr (Some usmMemWatchList) s.

(** * Reads and writes *)
Lemma on_wk_bind {A B} (m : M waker A) (f : A → M uwaker B) s a w : m (wk s) = Ok a w → (on_wk m ≫= f) s = f a (UWaker w (uitt s) (sent s)).
Proof. intros H. unfold mbind, M_bind, on_wk. by rewrite H. Qed.

Lemma on_wk_read {A B} (m : M waker A) (f : A → M uwaker B) s a : m (wk s) = Ok a (wk s) → (on_wk m ≫= f) s = f a s.
Proof. intros H. rewrite (on_wk_bind _ _ _ _ _ H). by destruct s. Qed.

Lemma node_at_ok n s x : nodes s !! n = Some x → node_at n s = Ok x s.
Proof. intros H. unfold node_at, reads. by rewrite H. Qed.

(** ** What a pass over the list does *)
Lemma watch_loop_uintr fd fuel : TSERV = false → ∀ l t s, uitt s !! 0%nat = Some fd → linked (nodes (wk s)) t l → Forall (watches (wk s)) l →
  (base.length l < fuel)%nat →
  loop fuel watch_body_uintr t s = Ok tt (UWaker (wk s) (uitt s) (sent s ++ replicate (base.length (filter (overslept (wk s)) l)) fd)).
Proof.
  intros HT. induction fuel as [|fuel IH]; intros l t s Hfd Hl Hw Hf; [lia|]. rewrite loop_S. destruct l as [|n l].
  - rewrite Hl. cbn. rewrite app_nil_r. by destruct s.
  - destruct Hl as (-> & x & Hx & Hl). apply Forall_cons in Hw as [(x' & m & Hx' & Hm & Hv & Ha & Hst) Hw']. assert (x' = x) as -> by congruence.
    unfold watch_body_uintr at 2. rewrite HT, bind_assoc, (on_wk_read _ _ _ x) by (by apply node_at_ok).
    destruct (load_valid m Hv 1 4092) as (a & La & _); [lia|lia|]. destruct (load_valid m Hv 4 0) as (e & Le & _); [lia|lia|].
    rewrite bind_assoc, Hst, (on_wk_read _ _ _ a) by (by eapply deref_page; [done|done|lia|done]).
    assert (overslept (wk s) n = (a =? 0) && negb (e =? 0)) as Ho by (unfold overslept; rewrite Hx; cbn; by rewrite Hm, La, Le).
    rewrite filter_cons. destruct (a =? 0) eqn:Ea; cbn [negb].
    + pose proof (deref_page (wk s) x m 4 0 e Hm Ha ltac:(lia) Le) as E. rewrite Z.add_0_r in E.
      rewrite bind_assoc, (on_wk_read _ _ _ e E), bind_assoc. destruct (e =? 0) eqn:Ee; cbn [negb].
      * rewrite !ret_bind, decide_False by (rewrite Ho; intros []). apply IH; [done..|cbn in Hf; lia].
      * unfold senduipi. erewrite updates_bind by (rewrite Hfd; reflexivity). rewrite ret_bind, decide_True by (by rewrite Ho).
        etrans; [apply (IH l); [done..|cbn in Hf; lia]|]. cbn. by rewrite <- app_assoc.
    + rewrite bind_assoc, !ret_bind, decide_False by (rewrite Ho; intros []). apply IH; [done..|cbn in Hf; lia].
Qed.

(** ** Registering a worker *)

(** The words of the page that the waker reads. *)
Definition word (m : list Z) (off : Z) : Z := s32 (default 0 (load 4 off m)).

Lemma deref_word s x m off : page_of s x = Some m → com x mod 4096 = 0 → valid_page m → 0 ≤ off → off + 4 ≤ 4096 →
  ∃ v, deref 4 (com x + off) s = Ok v s ∧ s32 v = word m off.
Proof.
  intros Hm Ha Hv H0 H1. destruct (load_valid m Hv 4 off) as (v & Lv & _); [lia..|]. exists v.
  split; [by eapply deref_page; [done|done|lia|done]|]. unfold word. by rewrite Lv.
Qed.

Lemma poke_page s x m pfn v : maps s !! com x = Some pfn → frames s !! pfn = Some m → com x mod 4096 = 0 → valid_page m →
  ∃ m', store 4 0 v m = Some m' ∧ valid_page m' ∧ poke 4 (com x) v s = Ok tt (set_frames (<[pfn := m']> (frames s)) s).
Proof.
  intros Hp Hm Ha Hv. destruct (store_valid m Hv 4 0 v) as (m' & E & Hv'); [lia..|]. exists m'. split; [done|]. split; [done|].
  unfold poke, updates. rewrite Ha, Z.sub_0_r, Hp. cbn. rewrite Hm. cbn. by rewrite E.
Qed.

(** The descriptors that the waker enters for a worker: with TSERV the one for the timer first. *)
Definition receivers (x : usm_watch_list) (m : list Z) : list Z :=
  let p := pidfd_open (pid x) in
  (if TSERV then [pidfd_getfd p (word m 2056)] else []) ++ [pidfd_getfd p (word m 2052)].

Lemma link_uintr_ok n s x m pfn : nodes (wk s) !! n = Some x → maps (wk s) !! com x = Some pfn → frames (wk s) !! pfn = Some m →
  com x mod 4096 = 0 → valid_page m → pidfd_open (pid x) ≠ -1 → Forall (λ f, f ≠ -1 ∧ register_sender f = true) (receivers x m) →
  ∃ m' y, link_uintr n s = Ok tt (UWaker (set_frames (<[pfn := m']> (frames (wk s))) (set_nodes (<[n := y]> (nodes (wk s))) (wk s)))
      (uitt s ++ receivers x m) (sent s)) ∧
    store 4 0 0 m = Some m' ∧ com y = com x ∧ next y = next x.
Proof.
  intros Hx Hp Hm Ha Hv Ho Hr. assert (page_of (wk s) x = Some m) as Hpg by (unfold page_of; rewrite Hp; cbn; exact Hm).
  set (p := pidfd_open (pid x)) in *. set (w1 := set_nodes (<[n := set_pid p x]> (nodes (wk s))) (wk s)).
  destruct (deref_word w1 x m 2056 Hpg Ha Hv) as (t & Et & Wt); [lia..|]. destruct (deref_word w1 x m 2052 Hpg Ha Hv) as (f & Ef & Wf); [lia..|].
  set (y := set_pid (pidfd_getfd p (s32 f)) x).
  destruct (poke_page (set_nodes (<[n := y]> (nodes (wk s))) (wk s)) x m pfn 0 Hp Hm Ha Hv) as (m' & Es & _ & Ep).
  exists m', y. split; [|done]. unfold receivers in *. fold p in Hr |- *. rewrite <- Wt, <- Wf in Hr |- *.
  apply Forall_app in Hr as [Hrt [Hf Hrf]%Forall_singleton].
  unfold link_uintr, uintr_register_sender. rewrite (on_wk_read _ _ _ x) by (by apply node_at_ok). fold p.
  rewrite (on_wk_bind _ _ _ tt _ (update_node_ok _ _ _ x Hx)), (proj2 (Z.eqb_neq _ _) Ho).
  change (set_nodes (<[n := set_pid p x]> (nodes (wk s))) (wk s)) with w1.
  assert (∀ k : Z → M uwaker unit, ((if TSERV then v ← on_wk (deref 4 (com x + (2048 + 4 * 2))); let t := pidfd_getfd p (s32 v) in if t =? -1 then abort else mret t
    else mret 0) ≫= k) (UWaker w1 (uitt s) (sent s)) = k (if TSERV then pidfd_getfd p (s32 t) else 0) (UWaker w1 (uitt s) (sent s))) as Hk.
  { intros k. destruct TSERV; [|done]. rewrite bind_assoc, (on_wk_read _ _ _ t) by exact Et. apply Forall_singleton in Hrt as [Ht _].
    cbv zeta. by rewrite (proj2 (Z.eqb_neq _ _) Ht). }
  rewrite Hk, (on_wk_read _ _ _ f) by exact Ef. cbv zeta.
  rewrite (on_wk_bind _ _ _ tt (set_nodes (<[n := y]> (nodes (wk s))) (wk s)));
    [|rewrite (update_node_ok n _ _ (set_pid p x)) by apply lookup_insert_eq; cbn; by rewrite insert_insert_eq].
  rewrite (proj2 (Z.eqb_neq _ _) Hf), Hrf. cbn [uitt sent].
  destruct TSERV; [apply Forall_singleton in Hrt as [_ Hrt]; rewrite Hrt, !modify_bind|rewrite ret_bind, modify_bind];
    unfold on_wk; cbn [wk uitt sent]; rewrite Ep; cbn; by rewrite <- ?app_assoc.
Qed.

(** * Workers and their interrupts *)

Lemma start_words registered fd0 fd1 pid m0 m : uintr_worker_start TSERV registered fd0 fd1 pid m0 = Ok tt m → valid_page m0 →
  0 ≤ pid < 2 ^ 31 → 0 ≤ fd0 < 2 ^ 31 ∧ (TSERV = true → 0 ≤ fd1 < 2 ^ 31) → valid_page m ∧ word m 2048 = pid ∧ word m 2052 = fd0 ∧ (TSERV = true → word m 2056 = fd1).
Proof.
  intros E Hv Hp [Hf0 Hf1]. assert (∀ v, 0 ≤ v < 2 ^ 31 → s32 (v `mod` 2 ^ (8 * Z.of_nat 4)) = v) as Hs.
  { intros v Hb. change (8 * Z.of_nat 4) with 32. unfold s32, u32. rewrite !(Z.mod_small v) by lia. by replace (v <? 2 ^ 31) with true by lia. }
  unfold uintr_worker_start in E. destruct (registered <? 0); [done|]. replace (fd0 <? 0) with false in E by lia.
  destruct (store_valid m0 Hv 4 2052 fd0) as (m1 & E1 & V1); [lia..|]. rewrite (updates_bind _ _ _ m1 E1) in E.
  assert (∃ m2, valid_page m2 ∧ word m2 2052 = fd0 ∧ (TSERV = true → word m2 2056 = fd1) ∧ updates (store 4 2048 pid) m2 = Ok tt m) as (m2 & V2 & W0 & W1 & E2).
  { destruct TSERV.
    - replace (fd1 <? 0) with false in E by lia. destruct (store_valid m1 V1 4 2056 fd1) as (m2 & E2 & V2); [lia..|]. rewrite (updates_bind _ _ _ m2 E2) in E.
      exists m2. split; [done|]. unfold word. rewrite (load_store_other _ _ _ 4 2052 _ _ E2), (load_store_same _ _ _ _ _ E1), (load_store_same _ _ _ _ _ E2) by lia.
      cbn [default from_option id]. rewrite !Hs by auto. done.
    - exists m1. split; [done|]. unfold word. rewrite (load_store_same _ _ _ _ _ E1). cbn [default from_option id]. by rewrite Hs by lia. }
  destruct (store_valid m2 V2 4 2048 pid) as (m3 & E3 & V3); [lia..|]. unfold updates in E2. rewrite E3 in E2. injection E2 as <-.
  split; [done|]. unfold word in *. rewrite (load_store_same _ _ _ _ _ E3). cbn [default from_option id]. rewrite Hs by done.
  rewrite (load_store_other _ _ _ 4 2052 _ _ E3), (load_store_other _ _ _ 4 2056 _ _ E3) by lia. done.
Qed.

(** C14: From the start of a worker to the table of the waker: the descriptors that the worker writes
    to its page are those of which the waker enters copies, the one for the timer first
    when the time server is built in, and registering the worker clears its
    field of events, so that events which the kernel raised before do not wake it. *)
Theorem uintr_worker_linked registered fd0 fd1 pid0 m0 m n s x pfn : uintr_worker_start TSERV registered fd0 fd1 pid0 m0 = Ok tt m → valid_page m0 →
  0 ≤ pid0 < 2 ^ 31 → 0 ≤ fd0 < 2 ^ 31 ∧ (TSERV = true → 0 ≤ fd1 < 2 ^ 31) →
  nodes (wk s) !! n = Some x → pid x = word m 2048 → maps (wk s) !! com x = Some pfn → frames (wk s) !! pfn = Some m → com x mod 4096 = 0 →
  pidfd_open pid0 ≠ -1 → Forall (λ f, f ≠ -1 ∧ register_sender f = true) (receivers x m) →
  ∃ s', link_uintr n s = Ok tt s' ∧ sent s' = sent s ∧ overslept (wk s') n = false ∧
    uitt s' = uitt s ++ (if TSERV then [pidfd_getfd (pidfd_open pid0) fd1] else []) ++ [pidfd_getfd (pidfd_open pid0) fd0].
Proof.
  intros E Hv Hp Hf Hx Hpid Hm Hfr Ha Ho Hr. destruct (start_words _ _ _ _ _ _ E Hv Hp Hf) as (Hv' & Wp & W0 & W1).
  assert (pid x = pid0) as Hpx by congruence. rewrite <- Hpx in Ho.
  destruct (link_uintr_ok n s x m pfn Hx Hm Hfr Ha Hv' Ho Hr) as (m' & y & El & Es & Hc & _).
  eexists. split; [exact El|]. split; [done|]. split.
  - unfold overslept, page_of. cbn. rewrite lookup_insert_eq. cbn. rewrite Hc, Hm. cbn. rewrite lookup_insert_eq. cbn.
    rewrite (load_store_same _ _ _ _ _ Es). destruct (load 1 4092 m'); [|done]. cbn. by rewrite andb_false_r.
  - unfold receivers. cbn. rewrite Hpx, W0. destruct TSERV; [by rewrite W1|done].
Qed.

(** C15: With user interrupts every wakeup goes to the worker that was registered first: a pass over
    the list sends to it one interrupt for every worker that sleeps over events, and
    none to the others. *)
Theorem uintr_wakes_first_only s l fd fds : TSERV = false → watch_list (wk s) l → uitt s = fd :: fds →
  watch_pass_uintr s = Ok tt (UWaker (wk s) (uitt s) (sent s ++ replicate (base.length (filter (overslept (wk s)) l)) fd)).
Proof.
  intros HT (Hl & Hnd & Hw) Hu. apply (watch_loop_uintr fd _ HT l); [by rewrite Hu|done|done|]. pose proof (linked_size _ _ _ _ Hl Hnd). lia.
Qed.

(** The time server looks for the time of an awake worker 12032 bytes behind the start of its page of
    4096 bytes. *)
Lemma tserv_reads_outside_page t s x m a : TSERV = true → nodes (wk s) !! t = Some x → page_of (wk s) x = Some m → com x mod 4096 = 0 → state x = com x + 4092 →
  load 1 4092 m = Some a → a ≠ 0 → maps (wk s) !! (com x + 8192) = None → watch_body_uintr (Some t) s = Undef.
Proof.
  intros HT Hx Hm Ha Hst La Hne Hmap. unfold watch_body_uintr. rewrite (on_wk_read _ _ _ x) by (by apply node_at_ok).
  rewrite Hst, (on_wk_read _ _ _ a) by (by eapply deref_page; [done|done|lia|done]). rewrite (proj2 (Z.eqb_neq _ _) Hne). cbn [negb]. rewrite HT.
  apply bind_undef, bind_undef. unfold on_wk, deref, reads.
  replace (com x + 4 * (3000 + 4 * 2) - (com x + 4 * (3000 + 4 * 2)) mod 4096) with (com x + 8192); [by rewrite Hmap|].
  change (4 * (3000 + 4 * 2)) with 12032. rewrite (Z.add_mod (com x)), Ha by lia. change ((0 + 12032 `mod` 4096) `mod` 4096) with 3840. lia.
Qed.
End uintr.

(** * Two workers *)
Section example.
Local Instance demo_pidfd : PidfdOs := {
  pidfd_open p := p + 100;
  pidfd_getfd p f := 1000 * p + f;
  register_sender _ := true;
}.

(** A page whose worker sleeps with the event 0 pending. *)
Definition demo_sleeper : list Z := 1 :: replicate 4095 0.
Definition demo_waker : uwaker :=
  UWaker (Waker {[ 0%nat := Watch 4096 7 8188 (Some 1%nat); 1%nat := Watch 8192 8 12284 None ]} 2
    {[ 4096 := 3; 8192 := 4 ]} {[ 3 := blank_page; 4 := demo_sleeper ]} [] (static_kmod ∅)) [107003; 108003] [].

Lemma demo_sleeper_valid : valid_page demo_sleeper.
Proof. split; [reflexivity|]. apply Forall_cons. split; [unfold is_byte; lia|]. apply Forall_replicate. unfold is_byte. lia. Qed.

Lemma uintr_wakes_first_only_witness : watch_pass_uintr false 0 (λ _, 0) demo_waker =
  Ok tt (UWaker (wk demo_waker) [107003; 108003] [107003]).
Proof.
  rewrite (uintr_wakes_first_only false 0 (λ _, 0) demo_waker [0; 1]%nat 107003 [108003]); [vm_compute; reflexivity|reflexivity| |reflexivity].
  split; [|split].
  - split; [done|]. eexists. split; [reflexivity|]. split; [done|]. eexists. by split; [reflexivity|].
  - by repeat constructor; set_solver.
  - repeat constructor.
    + eexists _, blank_page. split; [reflexivity|]. split; [reflexivity|]. split; [apply blank_page_valid|done].
    + eexists _, demo_sleeper. split; [reflexivity|]. split; [reflexivity|]. split; [apply demo_sleeper_valid|done].
Defined.

Definition demo_started : list Z := match uintr_worker_start false 0 3 0 7 blank_page with Ok _ m => m | _ => [] end.
Definition demo_linking : uwaker :=
  UWaker (Waker {[ 0%nat := Watch 4096 7 0 None ]} 1 {[ 4096 := 3 ]} {[ 3 := demo_started ]} [] (static_kmod ∅)) [] [].

Lemma uintr_worker_linked_witness : ∃ s', link_uintr false 0 demo_linking = Ok tt s' ∧ sent s' = [] ∧ overslept (wk s') 0 = false ∧ uitt s' = [107003].
Proof.
  destruct (uintr_worker_linked false 0 3 0 7 blank_page demo_started 0 demo_linking (Watch 4096 7 0 None) 3) as (s' & E & Hs & Ho & Hu);
    [reflexivity|apply blank_page_valid|lia|split; [lia|discriminate]|reflexivity|vm_compute; reflexivity|reflexivity|reflexivity|reflexivity|discriminate| |].
  - apply Forall_singleton. split; [vm_compute; discriminate|reflexivity].
  - exists s'. split; [exact E|]. split; [exact Hs|]. split; [exact Ho|exact Hu].
Defined.
End example.
