(* ===== verification/Wakeup.v ===== *)
(** Sleeping and waking at the level of single memory accesses.

    A worker that finds no events for a while clears its byte [state] in the shared page and
    calls [pause]; a waker that sees the byte cleared and events pending sends it a signal. The
    functions of this file run one access to shared memory or one system call of a worker, of a
    waker or of the kernel; an execution is a sequence of such actions in any order.

    The first system is the one that runs: the main loops of setSched (impl/usm/sched.c), one
    for each daemon, and the waker process (impl/com/waker.c). The second one is the pair
    of threads it replaced, usm_mem_worker_handler and usm_mem_workers_waker (impl/com/com.c). *)
From stdpp Require Import prelude gmap.
From S2P Require Import Prelude Lists State Daemon Sched.

Open Scope Z_scope.

(** * Workers *)

(** What a worker does next; [rounds] is its variable. *)
Inductive pc :=
| Receive (rounds : Z)          (* read the bit field *)
| Treat (rounds : Z)            (* run the user threads of the pending events *)
| Pop (id : Z)                  (* read the bit field again, to clear the bit [id] in it *)
| Store (id v : Z)              (* write [v] to the bit field *)
| Handle (id : Z)               (* run the handler of the channel [id] *)
| GoToSleep                     (* clear [state] *)
| Pausing                       (* call [pause] *)
| Paused
| Woken.                        (* set [state] *)

(** [sigusr1]: the signal has been sent and is not yet delivered; [handled]: the events that
    were handled. *)
Record sleeper_t := Sleeper { w_pc : pc; w_com : Z; w_state : bool; w_tempEvents : Z; sigusr1 : bool; handled : list Z }.
Definition set_w_pc v w := Sleeper v (w_com w) (w_state w) (w_tempEvents w) (sigusr1 w) (handled w).
Definition set_w_com v w := Sleeper (w_pc w) v (w_state w) (w_tempEvents w) (sigusr1 w) (handled w).
Definition set_w_state v w := Sleeper (w_pc w) (w_com w) v (w_tempEvents w) (sigusr1 w) (handled w).
Definition set_w_tempEvents v w := Sleeper (w_pc w) (w_com w) (w_state w) v (sigusr1 w) (handled w).
Definition set_sigusr1 v w := Sleeper (w_pc w) (w_com w) (w_state w) (w_tempEvents w) v (handled w).
Definition set_handled v w := Sleeper (w_pc w) (w_com w) (w_state w) (w_tempEvents w) (sigusr1 w) v.

(** The statements that both loops have in common. *)
Definition sleep_step (w : sleeper_t) : option sleeper_t :=
  match w_pc w with
  | GoToSleep => Some (set_w_pc Pausing (set_w_state false w))
  | Pausing => Some (set_w_pc Paused w)
  | Woken => Some (set_w_pc (Receive 0) (set_w_state true w))
  | _ => None
  end.

(** The loop of [setSched]; [unfinished] are the events whose user threads were swapped off
    inside of their handlers. *)
Definition setSched_step (unfinished : Z) (w : sleeper_t) : option sleeper_t :=
  match w_pc w with
  | Receive rounds =>
      let events := Z.lor (w_tempEvents w) (w_com w) in
      Some (set_w_pc (if events =? 0 then if rounds =? NCYCLESLEEP then GoToSleep else Receive (rounds + 1) else Treat rounds)
              (set_w_tempEvents events w))
  | Treat rounds => Some (set_w_pc (Receive rounds) (set_w_tempEvents (Z.land (w_tempEvents w) unfinished) w))
  | _ => sleep_step w
  end.

(** The loop of [usm_mem_worker_handler]. *)
Definition handler_step (w : sleeper_t) : option sleeper_t :=
  match w_pc w with
  | Receive rounds =>
      Some (set_w_pc (if w_com w =? 0 then if rounds =? 110 then GoToSleep else Receive (rounds + 1) else Pop (ffs (w_com w) - 1))
              (set_w_tempEvents (w_com w) w))
  | Pop id => Some (set_w_pc (Store id (clear_bit (w_com w) id)) w)
  | Store id v => Some (set_w_pc (Handle id) (set_w_com v w))
  | Handle id => Some (set_w_pc (Receive 0) (set_handled (handled w ++ [id]) w))
  | _ => sleep_step w
  end.

(** Delivery of the signal: its handler does nothing, but [pause] returns. *)
Definition deliver (w : sleeper_t) : option sleeper_t :=
  if sigusr1 w then
    Some (set_sigusr1 false (match w_pc w with Paused => set_w_pc Woken w | _ => w end))
  else None.

(** * Wakers *)

(** What a waker does next, at the node [i] of its list. *)
Inductive waker_pc :=
| AtState (i : nat)     (* read [*tempList->state] *)
| AtCom (i : nat)       (* read [*tempList->com] *)
| AtKill (i : nat)      (* send the signal *)
| AtStore (i : nat)     (* set [*tempList->state] *)
| AtPause.              (* [pause()] *)

Record sys := Sys { sleepers : list sleeper_t; wpc : waker_pc }.
Definition set_wpc v s := Sys (sleepers s) v.
Definition update_sleeper (i : nat) (f : sleeper_t → option sleeper_t) (s : sys) : option sys :=
  w ← sleepers s !! i; w' ← f w; Some (Sys (<[i := w']> (sleepers s)) (wpc s)).

(** The next node, or the first one of the next pass. *)
Definition next_node (s : sys) (i : nat) : nat := if (S i <? base.length (sleepers s))%nat then S i else O.

(** The loop of the waker process. *)
Definition waker_step (s : sys) : option sys :=
  match wpc s with
  | AtState i => w ← sleepers s !! i; Some (set_wpc (if w_state w then AtState (next_node s i) else AtCom i) s)
  | AtCom i => w ← sleepers s !! i; Some (set_wpc (if negb (w_com w =? 0) then AtKill i else AtState (next_node s i)) s)
  | AtKill i => s' ← update_sleeper i (λ w, Some (set_sigusr1 true w)) s; Some (set_wpc (AtState (next_node s i)) s')
  | _ => None
  end.

(** The loop of [usm_mem_workers_waker], which ends each pass with [pause]. *)
Definition next_local (s : sys) (i : nat) : waker_pc := if (S i <? base.length (sleepers s))%nat then AtState (S i) else AtPause.
Definition local_waker_step (s : sys) : option sys :=
  match wpc s with
  | AtState i => w ← sleepers s !! i; Some (set_wpc (if w_state w then next_local s i else AtCom i) s)
  | AtCom i => w ← sleepers s !! i; Some (set_wpc (if negb (w_com w =? 0) then AtKill i else next_local s i) s)
  | AtKill i => s' ← update_sleeper i (λ w, Some (set_sigusr1 true w)) s; Some (set_wpc (AtStore i) s')
  | AtStore i => s' ← update_sleeper i (λ w, Some (set_w_state true w)) s; Some (set_wpc (next_local s i) s')
  | AtPause => None
  end.

(** * Executions *)
Inductive action :=
| Work (i : nat) (unfinished : Z)   (* a step of a worker *)
| Deliver (i : nat)                 (* the kernel delivers the signal *)
| Raise (i : nat) (id : Z)          (* the kernel sets the bit of an event *)
| Lower (i : nat) (id : Z)          (* the kernel clears the bit of an event that was answered *)
| Wake                              (* a step of the waker *)
| Child.                            (* SIGCHLD ends the [pause] of the local waker *)

Global Instance action_eq_dec : EqDecision action.
Proof. solve_decision. Defined.

(** setSched and the waker process. *)
Definition exec (a : action) (s : sys) : option sys :=
  match a with
  | Work i unfinished => update_sleeper i (setSched_step unfinished) s
  | Deliver i => update_sleeper i deliver s
  | Raise i id => update_sleeper i (λ w, Some (set_w_com (Z.setbit (w_com w) id) w)) s
  | Lower i id => update_sleeper i (λ w, Some (set_w_com (clear_bit (w_com w) id) w)) s
  | Wake => waker_step s
  | Child => None
  end.

(** The threads in com.c; there, the worker clears the bits itself. *)
Definition exec_local (a : action) (s : sys) : option sys :=
  match a with
  | Work i _ => update_sleeper i handler_step s
  | Deliver i => update_sleeper i deliver s
  | Raise i id => update_sleeper i (λ w, Some (set_w_com (Z.setbit (w_com w) id) w)) s
  | Lower _ _ => None
  | Wake => local_waker_step s
  | Child => match wpc s with AtPause => Some (set_wpc (AtState 0) s) | _ => None end
  end.

Fixpoint exec_all (ex : action → sys → option sys) (l : list action) (s : sys) : option sys :=
  match l with
  | [] => Some s
  | a :: l => s' ← ex a s; exec_all ex l s'
  end.

(** Every worker is awake at the top of its loop. *)
Definition fresh_sleeper (com : Z) : sleeper_t := Sleeper (Receive 0) com true 0 false [].
Definition fresh_sys (coms : list Z) : sys := Sys (fresh_sleeper <$> coms) (AtState 0).

Lemma exec_all_app ex l1 l2 s : exec_all ex (l1 ++ l2) s = (exec_all ex l1 s ≫= exec_all ex l2).
Proof. revert s. induction l1 as [|a l1 IH]; intros s; [done|]. cbn. by destruct (ex a s); cbn. Qed.

Lemma exec_all_invariant (P : sys → Prop) ex l s s' : (∀ a s s', a ∈ l → P s → ex a s = Some s' → P s') →
  P s → exec_all ex l s = Some s' → P s'.
Proof.
  revert s. induction l as [|a l IH]; intros s Hex Hs E; cbn in E; [by simplify_eq|].
  destruct (ex a s) as [s1|] eqn:E1; [|done]. cbn in E. apply (IH s1); [|by eapply Hex; [left| |]|done].
  intros a' ? ? Ha'. apply Hex. by right.
Qed.

Lemma update_sleeper_inv i f s s' : update_sleeper i f s = Some s' →
  ∃ w w', sleepers s !! i = Some w ∧ f w = Some w' ∧ s' = Sys (<[i := w']> (sleepers s)) (wpc s).
Proof.
  unfold update_sleeper. destruct (sleepers s !! i) as [w|] eqn:E; [|done]. cbn. destruct (f w) as [w'|] eqn:E'; [|done].
  cbn. intros [= <-]. by eexists _, _.
Qed.

Lemma update_sleeper_ok i f s w w' : sleepers s !! i = Some w → f w = Some w' →
  update_sleeper i f s = Some (Sys (<[i := w']> (sleepers s)) (wpc s)).
Proof. intros H1 H2. unfold update_sleeper. rewrite H1. cbn. by rewrite H2. Qed.

Lemma update_sleeper_total i g s w : sleepers s !! i = Some w →
  update_sleeper i (λ w, Some (g w)) s = Some (Sys (<[i := g w]> (sleepers s)) (wpc s)).
Proof. intros H. by apply (update_sleeper_ok i _ s w). Qed.

(** * The waker process

    A worker that is about to sleep, or sleeps, has its byte cleared; the waker is at a node
    of the list. *)
Definition byte_ok (w : sleeper_t) : Prop :=
  match w_pc w with Pausing | Paused | Woken => w_state w = false | _ => True end.
Definition node_of (p : waker_pc) : option nat :=
  match p with AtState i | AtCom i | AtKill i => Some i | _ => None end.
Definition sys_ok (n : nat) (s : sys) : Prop :=
  base.length (sleepers s) = n ∧ Forall byte_ok (sleepers s) ∧ ∃ i, node_of (wpc s) = Some i ∧ (i < n)%nat.

Lemma setSched_step_ok u w w' : byte_ok w → setSched_step u w = Some w' → byte_ok w'.
Proof.
  unfold setSched_step, sleep_step, byte_ok. intros Hw E. destruct (w_pc w) eqn:Ep; simplify_eq; cbn -[ffs]; try done.
  by repeat case_match.
Qed.

Lemma deliver_ok w w' : byte_ok w → deliver w = Some w' → byte_ok w'.
Proof.
  unfold deliver, byte_ok. intros Hw E. destruct (sigusr1 w); [|done]. destruct (w_pc w) eqn:Ep; simplify_eq; cbn; by rewrite ?Ep.
Qed.

Lemma update_sleeper_sys_ok n i f s s' : (∀ w w', byte_ok w → f w = Some w' → byte_ok w') → sys_ok n s → update_sleeper i f s = Some s' → sys_ok n s'.
Proof.
  intros Hf (Hn & Hs & Hw) E. apply update_sleeper_inv in E as (w & w' & Hi & Hw' & ->). split; [by rewrite <- Hn; apply length_insert|].
  split; [|done]. apply Forall_insert; [done|]. eapply Hf; [|done]. rewrite Forall_forall in Hs. apply Hs. by eapply list_elem_of_lookup_2.
Qed.

Lemma next_node_lt n s i : base.length (sleepers s) = n → (i < n)%nat → (next_node s i < n)%nat.
Proof. unfold next_node. intros -> Hi. destruct (Nat.ltb_spec (S i) n); lia. Qed.

Lemma set_wpc_ok n s p i : sys_ok n s → node_of p = Some i → (i < n)%nat → sys_ok n (set_wpc p s).
Proof. intros (Hn & Hs & _) Hp Hi. split; [done|]. split; [done|]. by exists i. Qed.

Lemma exec_ok n a s s' : sys_ok n s → exec a s = Some s' → sys_ok n s'.
Proof.
  intros Hs E. pose proof Hs as (Hn & _ & i & Hi & Hlt). destruct a as [j u|j|j id|j id| |]; cbn in E; [..|done].
  - exact (update_sleeper_sys_ok n j _ s s' (setSched_step_ok u) Hs E).
  - exact (update_sleeper_sys_ok n j _ s s' deliver_ok Hs E).
  - apply (update_sleeper_sys_ok n j _ s s') in E; [done| |done]. by intros ? ? ? [= <-].
  - apply (update_sleeper_sys_ok n j _ s s') in E; [done| |done]. by intros ? ? ? [= <-].
  - unfold waker_step in E. destruct (wpc s) as [j|j|j|j|] eqn:Ep; try done; cbn in Hi; injection Hi as ->.
    + destruct (sleepers s !! i); [|done]. injection E as <-. case_match; (eapply set_wpc_ok; [done|reflexivity|]); [by apply next_node_lt|done].
    + destruct (sleepers s !! i); [|done]. injection E as <-. case_match; (eapply set_wpc_ok; [done|reflexivity|]); [done|by apply next_node_lt].
    + destruct (update_sleeper _ _ s) as [s1|] eqn:E1; [|done]. injection E as <-. eapply set_wpc_ok; [|done|by apply next_node_lt].
      eapply update_sleeper_sys_ok; [|done|done]. by intros ? ? ? [= <-].
Qed.

Lemma fresh_sys_ok coms : coms ≠ [] → sys_ok (base.length coms) (fresh_sys coms).
Proof.
  intros Hc. split; [apply length_fmap|]. split; [apply Forall_fmap, Forall_true; done|]. exists 0%nat. split; [done|]. destruct coms; [done|cbn; lia].
Qed.

(** The worker [k] sleeps although events are pending. *)
Definition oversleeps (k : nat) (s : sys) : Prop :=
  ∃ w, sleepers s !! k = Some w ∧ w_pc w = Paused ∧ w_com w ≠ 0.
Definition signalled (k : nat) (s : sys) : Prop := ∃ w, sleepers s !! k = Some w ∧ sigusr1 w = true.

(** An execution all of whose states satisfy [P]. *)
Inductive run_in (P : sys → Prop) : list action → sys → sys → Prop :=
| run_nil s : P s → run_in P [] s s
| run_cons a l s s1 s2 : P s → exec a s = Some s1 → run_in P l s1 s2 → run_in P (a :: l) s s2.

Lemma run_first P l s s' : run_in P l s s' → P s.
Proof. by destruct 1. Qed.
Lemma run_last P l s s' : run_in P l s s' → P s'.
Proof. by induction 1. Qed.

(** The steps that the waker takes at most until it signals worker [k]. *)
Definition distance (n k i : nat) : nat := if (i <=? k)%nat then (k - i)%nat else (n + k - i)%nat.
Definition steps_left (n k : nat) (p : waker_pc) : nat :=
  match p with
  | AtState i => 3 * distance n k i + 3
  | AtCom i => 3 * distance n k i + 2
  | AtKill i => 3 * distance n k i + 1
  | _ => 0
  end%nat.

Lemma distance_next n k s i : base.length (sleepers s) = n → (i < n)%nat → (k < n)%nat → i ≠ k →
  (distance n k (next_node s i) + 1 = distance n k i)%nat.
Proof.
  unfold distance, next_node. intros -> Hi Hk Hne. destruct (Nat.ltb_spec (S i) n).
  - destruct (Nat.leb_spec (S i) k), (Nat.leb_spec i k); lia.
  - destruct (Nat.leb_spec 0 k), (Nat.leb_spec i k); lia.
Qed.

Lemma waker_progress n k s s' : sys_ok n s → oversleeps k s → exec Wake s = Some s' →
  signalled k s' ∨ (steps_left n k (wpc s') < steps_left n k (wpc s))%nat.
Proof.
  intros (Hn & Hb & i & Hi & Hlt) (w & Hw & Hpc & Hcom) E. cbn in E. unfold waker_step in E.
  assert (w_state w = false) as Hst.
  { rewrite Forall_forall in Hb. specialize (Hb w (list_elem_of_lookup_2 _ _ _ Hw)). unfold byte_ok in Hb. by rewrite Hpc in Hb. }
  assert (k < n)%nat as Hk by (rewrite <- Hn; by eapply lookup_lt_Some).
  destruct (decide (i = k)) as [->|Hne].
  - destruct (wpc s) as [j|j|j|j|] eqn:Ep; try done; cbn in Hi; injection Hi as ->.
    + rewrite Hw in E. cbn in E. rewrite Hst in E. injection E as <-. right. cbn. lia.
    + rewrite Hw in E. cbn in E. rewrite (proj2 (Z.eqb_neq _ _) Hcom) in E. injection E as <-. right. cbn. lia.
    + rewrite (update_sleeper_total k (set_sigusr1 true) s w Hw) in E. injection E as <-. left. exists (set_sigusr1 true w). split; [|reflexivity].
      apply list_lookup_insert_eq. by eapply lookup_lt_Some.
  - right. pose proof (distance_next n k s i Hn Hlt Hk Hne) as Hd.
    destruct (wpc s) as [j|j|j|j|] eqn:Ep; try done; cbn in Hi; injection Hi as ->.
    + destruct (sleepers s !! i) as [x|]; [|done]. injection E as <-. destruct (w_state x); cbn; lia.
    + destruct (sleepers s !! i) as [x|]; [|done]. injection E as <-. destruct (w_com x =? 0); cbn; lia.
    + destruct (update_sleeper _ _ s) as [s1|] eqn:E1; [|done]. injection E as <-. cbn. lia.
Qed.

Lemma signalled_update k i f s s' : (∀ w w', f w = Some w' → sigusr1 w' = sigusr1 w) →
  signalled k s → update_sleeper i f s = Some s' → signalled k s'.
Proof.
  intros Hf (w & Hw & Hs) E. apply update_sleeper_inv in E as (x & x' & Hx & Hx' & ->).
  destruct (decide (i = k)) as [->|Hne].
  - exists x'. split; [apply list_lookup_insert_eq; by eapply lookup_lt_Some|]. simplify_eq. by rewrite (Hf w x').
  - exists w. split; [|done]. cbn. by rewrite list_lookup_insert_ne.
Qed.

Lemma signalled_stays k a s s' : oversleeps k s → oversleeps k s' → exec a s = Some s' → signalled k s → signalled k s'.
Proof.
  intros Ho Ho' E Hsig. destruct a as [j u|j|j id|j id| |]; cbn in E; [| | | | |done].
  - eapply signalled_update; [|done|exact E]. intros w w' H. unfold setSched_step, sleep_step in H. by destruct (w_pc w); simplify_eq.
  - destruct (decide (j = k)) as [->|Hne].
    + apply update_sleeper_inv in E as (x & x' & Hx & Hx' & ->). destruct Ho as (w & Hw & Hp & _). simplify_eq.
      unfold deliver in Hx'. destruct (sigusr1 w); [|done]. rewrite Hp in Hx'. injection Hx' as <-.
      destruct Ho' as (w' & Hw' & Hp' & _). cbn in Hw'. rewrite list_lookup_insert_eq in Hw' by (by eapply lookup_lt_Some). by simplify_eq.
    + destruct Hsig as (w & Hw & Hs). apply update_sleeper_inv in E as (x & x' & _ & _ & ->). exists w. cbn. by rewrite list_lookup_insert_ne.
  - eapply signalled_update; [|done|exact E]. by intros ? ? [= <-].
  - eapply signalled_update; [|done|exact E]. by intros ? ? [= <-].
  - destruct Hsig as (w & Hw & Hs). unfold waker_step in E. destruct (wpc s) as [i|i|i|i|]; try done.
    + destruct (sleepers s !! i); [|done]. injection E as <-. by exists w.
    + destruct (sleepers s !! i); [|done]. injection E as <-. by exists w.
    + destruct (update_sleeper _ _ s) as [s1|] eqn:E1; [|done]. injection E as <-.
      apply update_sleeper_inv in E1 as (x & x' & Hx & [= <-] & ->). unfold signalled. cbn. destruct (decide (i = k)) as [->|Hne].
      * eexists. split; [apply list_lookup_insert_eq; by eapply lookup_lt_Some|done].
      * exists w. by rewrite list_lookup_insert_ne.
Qed.

Lemma wpc_stays a s s' : a ≠ Wake → exec a s = Some s' → wpc s' = wpc s.
Proof. intros Ha E. destruct a; cbn in E; try done; by apply update_sleeper_inv in E as (? & ? & _ & _ & ->). Qed.

(** Number of steps of the waker. *)
Definition wakes (l : list action) : nat := base.length (filter (.= Wake) l).

Lemma run_signals n k l s s' : sys_ok n s → run_in (oversleeps k) l s s' →
  sys_ok n s' ∧ (signalled k s' ∨ (steps_left n k (wpc s') + wakes l ≤ steps_left n k (wpc s))%nat) ∧ (signalled k s → signalled k s').
Proof.
  intros Hs Hr. induction Hr as [s Hp|a l s s1 s2 Hp E Hr IH]; [split; [done|]; split; [right; cbn; lia|done]|].
  destruct (IH (exec_ok n a s s1 Hs E)) as (Hs2 & Hleft & Hkeep). pose proof (run_first _ _ _ _ Hr) as Hp1.
  split; [done|]. split; [|intros Hsig; by apply Hkeep, (signalled_stays k a s)].
  unfold wakes in *. rewrite filter_cons. destruct (decide (a = Wake)) as [->|Ha].
  - destruct (waker_progress n k s s1 Hs Hp E) as [Hsig|Hlt]; [left; by apply Hkeep|]. destruct Hleft as [?|Hle]; [by left|]. right. cbn. lia.
  - rewrite (wpc_stays a s s1 Ha E) in Hleft. done.
Qed.

Lemma steps_left_bound n k s i : node_of (wpc s) = Some i → (i < n)%nat → (k < n)%nat →
  (0 < steps_left n k (wpc s) ≤ 3 * n)%nat.
Proof.
  intros Hi Hlt Hk. unfold steps_left, distance. destruct (wpc s); try done; cbn in Hi; injection Hi as ->;
    destruct (Nat.leb_spec i k); lia.
Qed.

Lemma waker_enabled n s : sys_ok n s → ∃ s', exec Wake s = Some s'.
Proof.
  intros (Hn & _ & i & Hi & Hlt). destruct (lookup_lt_is_Some_2 (sleepers s) i ltac:(lia)) as [w Hw]. cbn. unfold waker_step.
  destruct (wpc s); try done; cbn in Hi; injection Hi as ->.
  - rewrite Hw. by eexists.
  - rewrite Hw. by eexists.
  - rewrite (update_sleeper_total i (set_sigusr1 true) s w Hw). by eexists.
Qed.

Lemma delivery_resumes k s u : oversleeps k s → signalled k s → ∃ s' w w', exec_all exec [Deliver k; Work k u; Work k u] s = Some s' ∧
  sleepers s !! k = Some w ∧ sleepers s' !! k = Some w' ∧ w_pc w' = Treat 0 ∧ w_tempEvents w' = Z.lor (w_tempEvents w) (w_com w).
Proof.
  intros (w & Hw & Hp & Hc) (w' & Hw' & Hsig). simplify_eq. pose proof (lookup_lt_Some _ _ _ Hw) as Hlt.
  assert (∀ x : sleeper_t, <[k := x]> (sleepers s) !! k = Some x) as Hk by (intros x; by apply list_lookup_insert_eq).
  assert ((Z.lor (w_tempEvents w) (w_com w) =? 0) = false) as Hev by (apply Z.eqb_neq; rewrite Z.lor_eq_0_iff; tauto).
  set (w1 := set_sigusr1 false (set_w_pc Woken w)). set (w2 := set_w_pc (Receive 0) (set_w_state true w1)).
  set (w3 := set_w_pc (Treat 0) (set_w_tempEvents (Z.lor (w_tempEvents w) (w_com w)) w2)).
  exists (Sys (<[k := w3]> (sleepers s)) (wpc s)), w, w3. split; [|split; [done|]; split; [apply Hk|]; done].
  cbn [exec_all exec]. rewrite (update_sleeper_ok k deliver s w w1 Hw) by (unfold deliver; by rewrite Hsig, Hp).
  cbn [mbind option_bind]. rewrite (update_sleeper_ok k (setSched_step u) (Sys (<[k := w1]> (sleepers s)) (wpc s)) w1 w2 (Hk w1)) by done. cbn [mbind option_bind sleepers wpc].
  rewrite list_insert_insert_eq, (update_sleeper_ok k (setSched_step u) (Sys (<[k := w2]> (sleepers s)) (wpc s)) w2 w3 (Hk w2)).
  - cbn. by rewrite list_insert_insert_eq.
  - cbn. by rewrite Hev.
Qed.

(** C13: The waker process never loses a wakeup, for every number of daemons and every order of
    the accesses: from any state of any execution, a worker that sleeps while events are
    pending has the signal waiting for it after at most three steps of the waker for each
    worker, the waker is never blocked, and with the delivery of the signal the worker
    leaves [pause], reads the bit field again and treats all pending events. *)
Theorem no_lost_wakeup coms l0 s k l s' : coms ≠ [] → exec_all exec l0 (fresh_sys coms) = Some s → run_in (oversleeps k) l s s' →
  (∃ s1, exec Wake s' = Some s1) ∧
  ((3 * base.length coms ≤ wakes l)%nat → ∀ u, ∃ s1 w w1, exec_all exec [Deliver k; Work k u; Work k u] s' = Some s1 ∧
     sleepers s' !! k = Some w ∧ sleepers s1 !! k = Some w1 ∧ w_pc w1 = Treat 0 ∧ w_tempEvents w1 = Z.lor (w_tempEvents w) (w_com w)).
Proof.
  intros Hc E0 Hr. assert (sys_ok (base.length coms) s) as Hs.
  { eapply (exec_all_invariant (sys_ok _)); [|by apply fresh_sys_ok|exact E0]. intros a s1 s2 _. apply exec_ok. }
  destruct (run_signals _ k l s s' Hs Hr) as (Hs' & Hsig & _). split; [by eapply waker_enabled|].
  intros Hw u. apply delivery_resumes; [by eapply run_last|]. destruct Hsig as [Hsig|Hle]; [done|exfalso].
  destruct (run_last _ _ _ _ Hr) as (w & Hk & _). apply lookup_lt_Some in Hk. pose proof Hs' as (Hn' & _ & i' & Hi' & Hlt').
  pose proof (steps_left_bound _ k s' i' Hi' Hlt' ltac:(lia)). destruct Hs as (Hn & _ & i & Hi & Hlt).
  pose proof (steps_left_bound _ k s i Hi Hlt ltac:(lia)). lia.
Qed.

(** * The threads of com.c *)
Lemma setbit_nonzero x id : x ≠ 0 → Z.setbit x id ≠ 0.
Proof. unfold Z.setbit. rewrite Z.lor_eq_0_iff. tauto. Qed.

Definition asleep_for_good (s : sys) : Prop :=
  ∃ w, sleepers s = [w] ∧ w_pc w = Paused ∧ w_com w ≠ 0 ∧ w_state w = true ∧ sigusr1 w = false ∧ (wpc s = AtPause ∨ wpc s = AtState 0).

Lemma asleep_stays a s s' : asleep_for_good s → exec_local a s = Some s' → asleep_for_good s'.
Proof.
  intros (w & Hl & Hp & Hc & Hst & Hsig & Hw) E. destruct s as [l p]. cbn in Hl, Hw. subst l.
  destruct a as [j u|j|j id|j id| |]; cbn in E.
  - apply update_sleeper_inv in E as (x & x' & Hx & Hx' & ->). apply list_lookup_singleton_Some in Hx as [-> <-].
    unfold handler_step, sleep_step in Hx'. by rewrite Hp in Hx'.
  - apply update_sleeper_inv in E as (x & x' & Hx & Hx' & ->). apply list_lookup_singleton_Some in Hx as [-> <-].
    unfold deliver in Hx'. by rewrite Hsig in Hx'.
  - apply update_sleeper_inv in E as (x & x' & Hx & [= <-] & ->). apply list_lookup_singleton_Some in Hx as [-> <-].
    eexists. split; [reflexivity|]. repeat (split; [done|]). split; [by apply setbit_nonzero|]. done.
  - done.
  - unfold local_waker_step in E. destruct Hw as [->| ->]; [done|]. cbn in E. rewrite Hst in E. injection E as <-.
    exists w. repeat (split; [done|]). by left.
  - destruct Hw as [->| ->]; [|done]. injection E as <-. exists w. repeat (split; [done|]). by right.
Qed.

(** The pair of threads in com.c loses wakeups: there is an execution after which the
    worker sleeps while events are pending, and does so forever, whatever events the
    kernel raises and however often the waker runs. The waker has sent its signal between the
    store to [state] and the call of [pause], and has then set [state] itself. *)
Theorem local_waker_loses_wakeup : ∃ l s, exec_all exec_local l (fresh_sys [0]) = Some s ∧ oversleeps 0 s ∧
  ∀ l' s', exec_all exec_local l' s = Some s' → oversleeps 0 s'.
Proof.
  exists (replicate 112 (Work 0 0) ++ [Raise 0 0; Wake; Wake; Wake; Deliver 0; Wake; Work 0 0]).
  eexists. split; [vm_compute; reflexivity|]. split; [eexists; split; [reflexivity|]; done|].
  intros l' s' E. assert (asleep_for_good s') as (w & Hl & Hp & Hc & _).
  { eapply (exec_all_invariant asleep_for_good); [| |exact E]; [intros a s1 s2 _; apply asleep_stays|].
    eexists. split; [reflexivity|]. do 4 (split; [done|]). by left. }
  exists w. by rewrite Hl.
Qed.

(** ** Clearing bits without a lock *)
Lemma ffs_from_bit k i x j : ffs_from k i x = j + 1 → 0 ≤ i → 0 ≤ j → Z.testbit x j = true.
Proof.
  revert i. induction k as [|k IH]; intros i; cbn; [lia|]. destruct (Z.testbit x i) eqn:E; [|intros; apply (IH (i + 1)); lia].
  intros H _ _. replace j with i by lia. done.
Qed.

Lemma clear_bit_stays x id j : Z.testbit x j = false → Z.testbit (clear_bit x id) j = false.
Proof. intros H. unfold clear_bit. by rewrite Z.land_spec, H. Qed.

Lemma setbit_other x id j : 0 ≤ j → id ≠ j → Z.testbit x j = false → Z.testbit (Z.setbit x id) j = false.
Proof.
  intros Hj Hne Hx. destruct (Z.le_gt_cases 0 id); [by rewrite Z.setbit_neq|].
  unfold Z.setbit. rewrite Z.lor_spec, Hx. rewrite Z.shiftl_spec by done. change 1 with (2 ^ 0). by rewrite Z.pow2_bits_false by lia.
Qed.

(** The event [j] of the worker is neither in the bit field nor on its way to the handler. *)
Definition forgotten (j : Z) (n : nat) (w : sleeper_t) : Prop :=
  Z.testbit (w_com w) j = false ∧ count_occ Z.eq_dec (handled w) j = n ∧
  match w_pc w with Pop id | Handle id => id ≠ j | Store id v => id ≠ j ∧ Z.testbit v j = false | _ => True end.

Lemma handler_step_forgets j n w w' : 0 ≤ j → forgotten j n w → handler_step w = Some w' → forgotten j n w'.
Proof.
  intros Hj (Hc & Hh & Hp) E. unfold handler_step, sleep_step in E. unfold forgotten. destruct (w_pc w) eqn:Ep; simplify_eq; cbn -[ffs]; try done.
  - split; [done|]. split; [done|]. destruct (w_com w =? 0); [by destruct (rounds =? 110)|]. intros Hid.
    rewrite (ffs_from_bit 32 0 (w_com w) j) in Hc; [done| |lia|done]. unfold ffs in Hid. lia.
  - split; [done|]. split; [done|]. split; [done|]. by apply clear_bit_stays.
  - by destruct Hp.
  - split; [done|]. split; [|done]. rewrite count_occ_app. cbn. destruct (Z.eq_dec id j); [done|]. lia.
Qed.

Lemma update_forgotten i j n f s s' : (∀ w w', forgotten j n w → f w = Some w' → forgotten j n w') →
  (∃ w, sleepers s !! 0%nat = Some w ∧ forgotten j n w) → update_sleeper i f s = Some s' →
  ∃ w, sleepers s' !! 0%nat = Some w ∧ forgotten j n w.
Proof.
  intros Hf (w & Hw & Hn) E. apply update_sleeper_inv in E as (x & x' & Hx & Hx' & ->). cbn. destruct (decide (i = 0%nat)) as [->|Hne].
  - exists x'. split; [apply list_lookup_insert_eq; by eapply lookup_lt_Some|]. simplify_eq. by eapply Hf.
  - exists w. by rewrite list_lookup_insert_ne.
Qed.

Lemma exec_local_forgets j n a s s' : 0 ≤ j → a ≠ Raise 0 j → (∃ w, sleepers s !! 0%nat = Some w ∧ forgotten j n w) → exec_local a s = Some s' →
  ∃ w, sleepers s' !! 0%nat = Some w ∧ forgotten j n w.
Proof.
  intros Hj Ha Hs E. destruct a as [i u|i|i id|i id| |]; cbn in E.
  - eapply update_forgotten; [|done|exact E]. intros w w'. by apply handler_step_forgets.
  - eapply update_forgotten; [|done|exact E]. intros w w' Hw H. unfold deliver in H. destruct (sigusr1 w); [|done].
    unfold forgotten in *. by destruct (w_pc w) eqn:Ep; simplify_eq; cbn; rewrite ?Ep.
  - destruct (decide (i = 0%nat)) as [->|Hne].
    + eapply update_forgotten; [|done|exact E]. intros w w' (Hc & Hh & Hp) [= <-]. split; [|done]. apply setbit_other; [done|congruence|done].
    + destruct Hs as (w & Hw & Hn). apply update_sleeper_inv in E as (x & x' & _ & _ & ->). exists w. cbn. by rewrite list_lookup_insert_ne.
  - done.
  - unfold local_waker_step in E. destruct (wpc s) as [i|i|i|i|]; try done.
    + destruct (sleepers s !! i); [|done]. by injection E as <-.
    + destruct (sleepers s !! i); [|done]. by injection E as <-.
    + destruct (update_sleeper _ _ s) as [s1|] eqn:E1; [|done]. injection E as <-.
      eapply (update_forgotten _ j n _ s s1); [|done|exact E1]. by intros ? ? ? [= <-].
    + destruct (update_sleeper _ _ s) as [s1|] eqn:E1; [|done]. injection E as <-.
      eapply (update_forgotten _ j n _ s s1); [|done|exact E1]. by intros ? ? ? [= <-].
  - destruct (wpc s); try done. by injection E as <-.
Qed.

(** The worker of com.c clears the bit of the event that it takes with a read and a write:
    whenever the kernel raises another event between the two, that event is lost. The bit
    is gone after the write, and the event is not handled any more until the kernel raises it
    again, however long the worker runs. *)
Theorem pop_loses_event s w id v j : sleepers s !! 0%nat = Some w → w_pc w = Store id v → 0 ≤ j → j ≠ id → Z.testbit v j = false →
  ∃ s1 s2 w2, exec_local (Raise 0 j) s = Some s1 ∧ exec_local (Work 0 0) s1 = Some s2 ∧ sleepers s2 !! 0%nat = Some w2 ∧
    Z.testbit (w_com w2) j = false ∧
    ∀ l s3, Raise 0 j ∉ l → exec_all exec_local l s2 = Some s3 →
      ∃ w3, sleepers s3 !! 0%nat = Some w3 ∧ count_occ Z.eq_dec (handled w3) j = count_occ Z.eq_dec (handled w) j.
Proof.
  intros Hw Hp Hj Hne Hv. set (w1 := set_w_com (Z.setbit (w_com w) j) w). set (w2 := set_w_pc (Handle id) (set_w_com v w1)).
  assert (∀ x : sleeper_t, <[0%nat := x]> (sleepers s) !! 0%nat = Some x) as H0 by (intros x; apply list_lookup_insert_eq; by eapply lookup_lt_Some).
  exists (Sys (<[0%nat := w1]> (sleepers s)) (wpc s)), (Sys (<[0%nat := w2]> (sleepers s)) (wpc s)), w2.
  split; [by apply (update_sleeper_total 0 (λ w, set_w_com (Z.setbit (w_com w) j) w))|]. split; [|split; [apply H0|]; split; [done|]].
  - cbn. rewrite (update_sleeper_ok 0 handler_step (Sys (<[0%nat := w1]> (sleepers s)) (wpc s)) w1 w2 (H0 w1)).
    + cbn. by rewrite list_insert_insert_eq.
    + unfold handler_step. change (w_pc w1) with (w_pc w). by rewrite Hp.
  - intros l s3 Hl E. destruct (exec_all_invariant (λ s, ∃ w', sleepers s !! 0%nat = Some w' ∧ forgotten j (count_occ Z.eq_dec (handled w) j) w')
      exec_local l (Sys (<[0%nat := w2]> (sleepers s)) (wpc s)) s3) as (w3 & Hw3 & _ & Hh & _); [| |done|by exists w3].
    + intros a s4 s5 Ha. apply exec_local_forgets; [done|]. intros ->. done.
    + exists w2. split; [apply H0|]. split; [done|]. split; [done|]. cbn. congruence.
Qed.

(** * Executions that sleep *)
Section example.
Lemma idle_rounds m : ∀ r com p, com = 0 → r + Z.of_nat m ≤ NCYCLESLEEP →
  exec_all exec (replicate m (Work 0 0)) (Sys [Sleeper (Receive r) com true 0 false []] p) =
  Some (Sys [Sleeper (Receive (r + Z.of_nat m)) com true 0 false []] p).
Proof.
  induction m as [|m IH]; intros r com p -> Hm; [cbn; by rewrite Z.add_0_r|]. rewrite replicate_S. cbn [exec_all exec].
  assert (update_sleeper 0 (setSched_step 0) (Sys [Sleeper (Receive r) 0 true 0 false []] p) = Some (Sys [Sleeper (Receive (r + 1)) 0 true 0 false []] p)) as E.
  { unfold update_sleeper. cbn. by rewrite (proj2 (Z.eqb_neq r NCYCLESLEEP) ltac:(lia)). }
  rewrite E. cbn [mbind option_bind]. rewrite IH by lia. replace (r + 1 + Z.of_nat m) with (r + Z.of_nat (S m)) by lia. done.
Qed.

Definition sleepy : list action := replicate (Z.to_nat NCYCLESLEEP) (Work 0 0) ++ [Work 0 0; Work 0 0; Work 0 0; Raise 0 3].
Definition overslept_sys : sys := Sys [Sleeper Paused 8 false 0 false []] (AtState 0).

Lemma sleepy_oversleeps : exec_all exec sleepy (fresh_sys [0]) = Some overslept_sys.
Proof.
  unfold sleepy. rewrite exec_all_app. change (fresh_sys [0]) with (Sys [Sleeper (Receive 0) 0 true 0 false []] (AtState 0)).
  rewrite idle_rounds by (try done; rewrite Z2Nat.id; done). rewrite Z2Nat.id, Z.add_0_l by done. reflexivity.
Qed.

Lemma no_lost_wakeup_witness : ∃ s', run_in (oversleeps 0) [Wake; Wake; Wake] overslept_sys s' ∧
  ∀ u, ∃ s1 w w1, exec_all exec [Deliver 0; Work 0 u; Work 0 u] s' = Some s1 ∧
     sleepers s' !! 0%nat = Some w ∧ sleepers s1 !! 0%nat = Some w1 ∧ w_pc w1 = Treat 0 ∧ w_tempEvents w1 = Z.lor (w_tempEvents w) (w_com w).
Proof.
  exists (Sys [Sleeper Paused 8 false 0 true []] (AtState 0)).
  assert (run_in (oversleeps 0) [Wake; Wake; Wake] overslept_sys (Sys [Sleeper Paused 8 false 0 true []] (AtState 0))) as Hr.
  { repeat (eapply run_cons; [eexists; split; [reflexivity|]; done|reflexivity|]). apply run_nil. eexists; split; [reflexivity|]; done. }
  split; [exact Hr|].
  apply (no_lost_wakeup [0] sleepy overslept_sys 0 [Wake; Wake; Wake]); [discriminate|exact sleepy_oversleeps|exact Hr|].
  vm_compute. lia.
Defined.

Definition popping : sys := Sys [Sleeper (Store 0 0) 1 true 1 false []] AtPause.
Lemma pop_loses_event_witness : (∃ l, exec_all exec_local l (fresh_sys [1]) = Some popping) ∧
  ∃ s1 s2 w2, exec_local (Raise 0 5) popping = Some s1 ∧ exec_local (Work 0 0) s1 = Some s2 ∧ sleepers s2 !! 0%nat = Some w2 ∧
    Z.testbit (w_com w2) 5 = false ∧
    ∀ l s3, Raise 0 5 ∉ l → exec_all exec_local l s2 = Some s3 → ∃ w3, sleepers s3 !! 0%nat = Some w3 ∧ count_occ Z.eq_dec (handled w3) 5 = 0%nat.
Proof.
  split; [exists [Wake; Work 0 0; Work 0 0]; reflexivity|].
  apply (pop_loses_event popping (Sleeper (Store 0 0) 1 true 1 false []) 0 0 5); [reflexivity|reflexivity|lia|lia|reflexivity].
Defined.
End example.
